(* ===== verification/_CoqProject ===== *)
-Q . S2P
Prelude.v
Memory.v
Printf.v
Kstate.v
MemUtils.v
Kmalloc.v
HeapChain.v
HeapSpec.v
HeapProofs.v
HeapTheorems.v
HeapFront.v
PageAlloc.v
Device.v
Gpio.v
Uart.v
SystemTimer.v
Mailbox.v
Font.v
Framebuffer.v
Shell.v
Timer.v
Sched.v
SchedProofs.v
SchedTheorems.v
Paging.v
PagingProofs.v
PagingTheorems.v
Boot.v
Fd.v
Rdfs.v
Path.v
RamdiskImage.v
Process.v
ProcessTheorems.v
Processes.v
UserFork.v
ElfTheorems.v
Syscalls.v
Entry.v
UserLib.v
UserPrograms.v
Irq.v
Frame.v
Board.v
Kernel.v
Main.v
Lifetime.v
Loading.v
