(* ===== verification/Prelude.v ===== *)
(** * PellOS: a verification development of the PellOS kernel

    PellOS is a small kernel for the Raspberry Pi 4 (AArch64).  From reset
    (src/asm/boot.S) the processor reaches exception level 1 with the first page
    tables on and calls [main] (src/kernel.c), which sets up the serial port, the
    frame buffer and the interrupts, a heap over physical pages, mounts a ramdisk
    built by tools/fs/genRamDisk.py, and creates threads that load ELF programs
    from it.  Timer interrupts drive a preemptive scheduler; programs
    (usr/app1, usr/app2) enter the kernel by system calls and page faults.

    ** Files and the code they model

    - Prelude: machine integers, the state-and-error monad, loops, C strings.
    - Memory: byte memory with a set of mapped addresses, little-endian words.
    - Printf: src/utils/printf.c.
    - Kstate: the structures of include/scheduler/task.h, every static variable
      of the modelled files, the kernel's state [kstate] and its monad [K].
    - MemUtils: src/asm/utils.S.
    - Kmalloc: src/lib/kmalloc.c.  HeapChain, HeapSpec, HeapProofs, HeapTheorems:
      the doubly linked list, the abstract first-fit heap, the refinement.
      HeapFront: blocks taken and given back at the front of the list.
    - PageAlloc: src/mm/mm.c, both variants, and the interface [PageOps] with its
      laws [PageLaws] that the rest of the kernel relies on.
    - Device: src/reg_utils.c, the accesses of the drivers and the interface
      [Hardware] of what answers them.  Gpio: include/peripherals/gpio.h.  Uart:
      src/peripherals/uart.c and [putc] of src/kernel.c.  SystemTimer:
      src/peripherals/system_timer.c.  Mailbox, Font, Framebuffer, Shell:
      src/peripherals/mailbox.c, include/peripherals/framebuffer_char.h,
      src/peripherals/framebuffer.c, src/utils/shell.c.
    - Timer: src/lib/software_timer.c.
    - Sched: src/scheduler/scheduler.c, src/asm/task.S, src/asm/irq.S.
      SchedProofs, SchedTheorems: one decision, the invariant, its consequences.
    - Paging: src/mm/paging.c.  PagingProofs, PagingTheorems: the tree of tables.
    - Boot: src/asm/boot.S, src/asm/paging.S, src/asm/gic.S, from reset to [main],
      over physical memory.
    - Fd: src/fs/fd.c.  Rdfs: src/fs/rdfs/rdfs.c.  Path: the resolution of paths
      against the tree an image encodes.  RamdiskImage: tools/fs/genRamDisk.py.
    - Process: [kernel_fork], [exit_task], [register_one_hit],
      src/scheduler/task.c, src/lib/elf/elf.c.  ProcessTheorems.  Processes: the
      abstract table of processes that the scheduler, the timers, the delays, the
      ends and the forks refine.  UserFork: the copy of a user process.
      ElfTheorems: loading a program.
    - Syscalls: src/fs/open.c, src/fs/read.c, src/syscalls.c, and the paths
      through src/asm/entry.S with the saved frame as a value.  Entry:
      src/asm/entry.S with registers and the kernel stack in memory.
    - UserLib: usr/app1/src/userlib.c and [intToStr] of usr/app2/src/task1.c.
      UserPrograms: the programs of usr/app1 and usr/app2 and their
      user_syscall.S, as interaction trees that [execute] runs on the kernel.
    - Irq: src/irq.c, src/peripherals/generic_timer.c, the handler of
      src/peripherals/system_timer.c and the part of [main] that starts them.
    - Kernel: the heap, the files and the threads of src/kernel.c.  Frame, Board:
      what calls leave alone, and devices put side by side on one bus.  Main:
      [main] as one definition.  Lifetime: what follows it, as a history of the
      table of Processes.  Loading: the threads of src/kernel.c that load a program,
      from the file in the ramdisk to the page its task enters.

    Definitions keep the names of the functions they translate.  A loop body of
    the code is a definition of its own, named after the function ([pick_body],
    [kmalloc_body]).

    ** State

    [kstate] holds the byte memory (heap, page tables, file system image, device
    registers), the page map, the task structures and saved registers by address,
    the static variables of each file, the processor registers the kernel
    manages, and the characters printed.  Task structures are records apart from
    the byte memory: the kernel reaches them only through members.  The heap's
    headers, page tables, descriptor tables and the file system image are bytes,
    so that overlapping uses of memory show.

    The drivers of the UART, the GPIO pins, the mailbox and the frame buffer run
    over a state of their own, [dstate]: the state of the hardware, which any
    instance of [Hardware] provides, the list of accesses made, and the static
    variables of framebuffer.c and shell.c.  The console of [kstate] and the
    bytes on the serial line are related by [console_on_wire] (Uart.v).  [main]
    runs over both states; Boot and Entry have the processor's registers as
    states of their own, the latter beside [kstate].

    A user program is an interaction tree: system calls, stores to its stack and
    a privileged instruction.  A call enters the kernel at [el0_sync]; if another
    task runs afterwards the rest of the program is what is left ([Away]).

    An access to an unmapped address, an index outside an array, a division by
    zero and a missing variadic argument are errors of the monad.  Integers are
    [Z] with the wrap-around of their C type written at each operation that can
    leave it.

    Code runs to completion between calls.  Concurrency is the sequence of
    operations: a timer interrupt is the operation [scheduler_tick].  A context
    switch changes [current]; the statements after it are executed by the task
    resumed, which was suspended at the same point (Sched.v).  The steps of the
    process table are these operations, in any order; the table says when one of
    them is not defined ([enabled]): a delay or an end with no other process
    ready, for which the selection of the code never ends, a delay shorter than a
    tick or past the 32 bits of a timer, and a fork without a pid or a page.

    ** Theorems

    - Heap: [kmalloc] and [kfree] refine an abstract list of segments; fresh
      blocks are disjoint from live ones; the failures of the code on exhaustion
      and on tail blocks.
    - Pages: requests take the pages of an ordered free list; the bitmap
      variant's [free_page] releases other pages than it is given.
    - Address spaces: [map_page] is insertion in the map the tables encode and
      leaves other tasks alone; faults are repaired; exhaustion is not handled.
    - Scheduling: a decision picks a best task and terminates; an invariant kept
      by all operations; bounded waiting, time slices, critical sections, stopped
      tasks; the endless selection when no task can run.
    - Start: the processor reaches [main] with the translation the first tables
      give; [main] brings the devices up, mounts the linked image, prints the
      configuration file and leaves for the first thread with the scheduler's
      invariant.
    - Processes: threads are created with the next pid in an invariant state; a
      user process that forks is duplicated page by page; sleeping tasks leave
      the processor and are woken when their ticks have passed; a loaded program
      is in the page its task enters, byte for byte that of its file.
    - The process table: processes are ready, wait for a tick, or have ended; a
      tick, a yield, a delay, an end and a fork are steps of the table, and the
      kernel, from what [main] leaves on, makes exactly such steps
      ([history_refines]).  A property of all histories, that a sleeping process
      does not run before its tick and an ended one never, is proved on the table
      and carried over.
    - Files: descriptors are allocated lowest first and released; a path is
      resolved as in the tree of the image, with the memory given back; every file
      of a directory tree is found and read back from the image built of it; a
      file is printed in full by the kernel, but read system calls never advance.
    - Entry, interrupts: system calls return their result and leave the other
      registers alone, interrupts leave them all; page faults resume the
      program; timer interrupts
      keep the scheduler's invariant; interrupt routing is exact and right after
      the start, whatever interrupts arrive during it; the boot heap
      owns its pages.
    - Programs: both applications run for ever, printing and sleeping in turn;
      the child of app1 is ended at its privileged instruction and never runs
      again.
    - Output and memory utilities: numbers print as their digits, well-typed
      calls print; copies and comparisons are exact, clearing by bytes is not.
    - Devices: a pin's function is set without touching other pins; bytes go to
      the serial line in order and only when it is ready, so that [printf] of the
      kernel's model is what the line carries; waits on the timer last as asked
      unless the deadline wraps; a mailbox call returns the reply to its message;
      the frame buffer granted is the one used.
    - Screen: a glyph is drawn as the font has it; text is laid out as on a
      terminal of 119 by 66 cells and never outside the screen.
    - User library: its conversion of numbers writes what the kernel prints.

    Theorems about faults of the code state what the code does.

    ** Bounds and fuel

    A loop has 2^64 turns ([loop]); every loop over a 32- or 64-bit counter or
    over distinct addresses leaves before, and the theorems show that each loop
    they run does.  [loop_never] shows that a loop whose turns keep an invariant
    exceeds any number of turns.  Conversions of numbers use 34 turns, enough
    for 32-bit divisors; the format loop uses the length of the format.  The fuel
    of [execute] counts the events of a program: a round of a program has two or
    three, the first one up to seven, and the theorems give the result for it.

    ** Parameters

    Addresses the linker chooses, the processor's translation of user addresses,
    the values of hardware counters and of the interrupt acknowledge register are
    arguments of the definitions that read them.  The peripherals are instances
    of [Hardware]; what a theorem relies on is a class: [GpioBank] (registers
    keep what is written), [GpioPins] (set and clear registers act on 1 bits),
    [MiniUart] (the line status tells when a byte is accepted), [FreeRunning]
    (the counter goes up), [VideoCore] (a message is answered in its buffer),
    [Board] (the serial port and the mailbox do not disturb each other).
    Each has an executable instance, over which the theorems are applied.  What
    [void] calls leave in x0 and the syndrome of an exception are arguments.

    ** Not modelled

    The code config.h leaves out (the PL011 UART, the ARMC interrupt controller)
    and get_page_directory, which nothing calls.  Caches, barriers and the
    translation look-aside buffer: an access sees the last store.  The vector
    base register, which the entry assumes.  User memory is part of the one byte memory; that the memory seen at
    a user address changes with the task is in the page tables ([UserFork]) but
    not in the texts a program finds when it is resumed, which the theorems on
    programs assume each time. *)

From Stdlib Require Export ZArith Lia List Bool.
From stdpp Require Export base option list numbers gmap.

#[global] Open Scope Z_scope.

(** ** Machine integers

    The kernel is compiled for AArch64: [uint64_t]/[uintptr_t] are 64 bits
    wide.  A w-bit unsigned value is a [Z] in [0, 2^w); every place where the C
    code can wrap around applies one of these functions. *)

Definition u8 (z : Z) : Z := z mod 2 ^ 8.
Definition u16 (z : Z) : Z := z mod 2 ^ 16.
Definition u32 (z : Z) : Z := z mod 2 ^ 32.
Definition u64 (z : Z) : Z := z mod 2 ^ 64.

(** Two's-complement reading of a w-bit value. *)
Definition swrap (w z : Z) : Z :=
  let r := z mod 2 ^ w in if r <? 2 ^ (w - 1) then r else r - 2 ^ w.
Definition s8 (z : Z) : Z := swrap 8 z.
Definition s16 (z : Z) : Z := swrap 16 z.
Definition s32 (z : Z) : Z := swrap 32 z.
Definition s64 (z : Z) : Z := swrap 64 z.

Arguments u8 : simpl never.
Arguments u16 : simpl never.
Arguments u32 : simpl never.
Arguments u64 : simpl never.
Arguments swrap : simpl never.

Lemma u8_small z : 0 <= z < 2 ^ 8 -> u8 z = z.
Proof. apply Z.mod_small. Qed.
Lemma u16_small z : 0 <= z < 2 ^ 16 -> u16 z = z.
Proof. apply Z.mod_small. Qed.
Lemma u32_small z : 0 <= z < 2 ^ 32 -> u32 z = z.
Proof. apply Z.mod_small. Qed.
Lemma u64_small z : 0 <= z < 2 ^ 64 -> u64 z = z.
Proof. apply Z.mod_small. Qed.

Lemma u8_range z : 0 <= u8 z < 2 ^ 8.
Proof. apply Z.mod_pos_bound. lia. Qed.
Lemma u32_range z : 0 <= u32 z < 2 ^ 32.
Proof. apply Z.mod_pos_bound. lia. Qed.
Lemma u64_range z : 0 <= u64 z < 2 ^ 64.
Proof. apply Z.mod_pos_bound. lia. Qed.

Lemma swrap_small w z : 0 < w -> - 2 ^ (w - 1) <= z < 2 ^ (w - 1) -> swrap w z = z.
Proof.
  intros Hw Hz. unfold swrap.
  assert (E : 2 ^ w = 2 * 2 ^ (w - 1)).
  { replace w with (Z.succ (w - 1)) at 1 by lia. rewrite Z.pow_succ_r; lia. }
  destruct (Z_lt_le_dec z 0).
  - replace (z mod 2 ^ w) with (z + 2 ^ w).
    + destruct (z + 2 ^ w <? 2 ^ (w - 1)) eqn:C; lia.
    + rewrite <- (Z_mod_plus_full z 1), Z.mul_1_l. symmetry. apply Z.mod_small. lia.
  - rewrite Z.mod_small by lia.
    destruct (z <? 2 ^ (w - 1)) eqn:C; lia.
Qed.

(** [uw] removes wrap-arounds that [lia] shows to be void. *)
Ltac uw :=
  repeat match goal with
  | |- context [u64 ?z] => rewrite (u64_small z) by lia
  | |- context [u32 ?z] => rewrite (u32_small z) by lia
  | |- context [u16 ?z] => rewrite (u16_small z) by lia
  | |- context [u8 ?z] => rewrite (u8_small z) by lia
  end.

(** ** Errors and the state-and-error monad

    C undefined behaviour and machine faults are values: an access to an
    unmapped address, an index outside an array, a division by zero, a variadic
    argument that was not passed, and a loop that exceeds its fuel. *)

Inductive err :=
  | BadAccess (a : Z)
  | OutOfBounds
  | DivByZero
  | BadVarArg
  | OutOfFuel.

#[export] Instance err_eq_dec : EqDecision err.
Proof. solve_decision. Defined.

Inductive res (S A : Type) : Type :=
  | Ok (a : A) (s : S)
  | Err (e : err).
Arguments Ok {S A} a s.
Arguments Err {S A} e.

Definition M (S A : Type) : Type := S -> res S A.

#[export] Instance M_ret {S} : MRet (M S) := fun A a s => Ok a s.
#[export] Instance M_bind {S} : MBind (M S) := fun A B k m s =>
  match m s with Ok a s' => k a s' | Err e => Err e end.

Definition fail {S A} (e : err) : M S A := fun _ => Err e.
Definition get {S A} (f : S -> A) : M S A := fun s => Ok (f s) s.
Definition put {S} (f : S -> S) : M S unit := fun s => Ok tt (f s).
Definition of_option {S A} (e : err) (o : option A) : M S A :=
  match o with Some a => mret a | None => fail e end.
Definition when {S} (b : bool) (m : M S unit) : M S unit := if b then m else mret tt.

(** A predicate transformer used to state a run: it returns, and [Q] holds. *)
Definition runs {S A} (m : M S A) (s : S) (Q : A -> S -> Prop) : Prop :=
  exists a s', m s = Ok a s' /\ Q a s'.

Section monad_lemmas.
Context {S A B C : Type}.
Implicit Types (m : M S A) (k : A -> M S B).

Lemma bind_ok m k s a s' : m s = Ok a s' -> (m ≫= k) s = k a s'.
Proof. intros E. unfold mbind, M_bind. by rewrite E. Qed.
Lemma bind_err m k s e : m s = Err e -> (m ≫= k) s = Err e.
Proof. intros E. unfold mbind, M_bind. by rewrite E. Qed.
Lemma bind_inv m k s b s' :
  (m ≫= k) s = Ok b s' -> exists a s1, m s = Ok a s1 /\ k a s1 = Ok b s'.
Proof. unfold mbind, M_bind. destruct (m s) as [a s1|]; [eauto|done]. Qed.
Lemma bind_assoc m k (h : B -> M S C) s :
  ((m ≫= k) ≫= h) s = (m ≫= fun a => k a ≫= h) s.
Proof. unfold mbind, M_bind. by destruct (m s). Qed.
Lemma bind_ret a k s : ((mret a : M S A) ≫= k) s = k a s.
Proof. done. Qed.
Lemma bind_get (f : S -> A) k s : (get f ≫= k) s = k (f s) s.
Proof. done. Qed.
Lemma bind_put (f : S -> S) (h : unit -> M S B) s : (put f ≫= h) s = h tt (f s).
Proof. done. Qed.

Lemma runs_bind m k s (Q : B -> S -> Prop) :
  runs m s (fun a s1 => runs (k a) s1 Q) -> runs (m ≫= k) s Q.
Proof.
  intros (a & s1 & E & b & s2 & E2 & HQ). exists b, s2. split; [|done].
  by rewrite (bind_ok _ _ _ _ _ E).
Qed.
Lemma runs_mono m s (P Q : A -> S -> Prop) :
  runs m s P -> (forall a s', P a s' -> Q a s') -> runs m s Q.
Proof. intros (a & s1 & E & HP) HPQ. exists a, s1. auto. Qed.
End monad_lemmas.

(** [mstep] runs the first command of a [bind] whose result is known from a
    hypothesis, or is a [get], [put] or [mret]. *)
Ltac mstep :=
  first
    [ rewrite bind_get | rewrite bind_put | rewrite bind_ret
    | match goal with
      | E : ?m ?s = Ok _ _ |- context [(?m ≫= _) ?s] => rewrite (bind_ok _ _ _ _ _ E)
      end
    | rewrite bind_assoc ]; cbv beta.

(** ** Loops

    [loop body a] is a C loop: [body] runs one turn on the loop variables and
    says whether to go on ([inl], with their new values) or to leave ([inr]).
    The fuel is 2^64 turns, consumed by recursion on the binary fuel so that
    running a short loop costs its turns only; a loop over addresses or 64-bit
    counters that has not left by then never does. *)

Fixpoint loop_pos {S A R} (p : positive) (body : A -> M S (A + R)) (a : A) : M S (A + R) :=
  match p with
  | xH => body a
  | xO p =>
      r ← loop_pos p body a;
      match r with inl a' => loop_pos p body a' | inr x => mret (inr x) end
  | xI p =>
      r ← body a;
      match r with
      | inl a' =>
          r ← loop_pos p body a';
          match r with inl a'' => loop_pos p body a'' | inr x => mret (inr x) end
      | inr x => mret (inr x)
      end
  end.

Definition loop_fuel : positive := (2 ^ 64)%positive.

Definition loop {S A R} (body : A -> M S (A + R)) (a : A) : M S R :=
  r ← loop_pos loop_fuel body a;
  match r with inl _ => fail OutOfFuel | inr x => mret x end.

(** [loops body n a s x s']: from [a] and [s] the loop leaves with [x] in [s']
    during its [n]-th turn. *)
Inductive loops {S A R} (body : A -> M S (A + R)) : nat -> A -> S -> R -> S -> Prop :=
  | loops_done a s x s' : body a s = Ok (inr x) s' -> loops body 1 a s x s'
  | loops_step a s a' s1 n x s' :
      body a s = Ok (inl a') s1 -> loops body n a' s1 x s' -> loops body (Datatypes.S n) a s x s'.

Section loop_lemmas.
Context {S A R : Type} (body : A -> M S (A + R)).

(** Turn-by-turn execution for at most [n] turns. *)
Fixpoint turns (n : nat) (a : A) : M S (A + R) :=
  match n with
  | O => mret (inl a)
  | Datatypes.S n =>
      r ← body a; match r with inl a' => turns n a' | inr x => mret (inr x) end
  end.

Lemma turns_add n m a s :
  turns (n + m) a s = (r ← turns n a; match r with inl a' => turns m a' | inr x => mret (inr x) end) s.
Proof.
  revert a s. induction n as [|n IH]; intros a s; [done|]. cbn [turns Nat.add].
  unfold mbind, M_bind in *. destruct (body a s) as [[a'|x] s1|e]; [apply IH|done|done].
Qed.

Lemma loop_pos_turns p : forall a s, loop_pos p body a s = turns (Pos.to_nat p) a s.
Proof.
  induction p as [p IH|p IH|]; intros a s; cbn [loop_pos].
  - rewrite Pos2Nat.inj_xI. cbn [turns]. unfold mbind, M_bind.
    destruct (body a s) as [[a'|x] s1|e]; [|done|done].
    replace (2 * Pos.to_nat p)%nat with (Pos.to_nat p + Pos.to_nat p)%nat by lia.
    rewrite turns_add. unfold mbind, M_bind. rewrite IH.
    destruct (turns _ a' s1) as [[]|]; [apply IH|done|done].
  - rewrite Pos2Nat.inj_xO.
    replace (2 * Pos.to_nat p)%nat with (Pos.to_nat p + Pos.to_nat p)%nat by lia.
    rewrite turns_add. unfold mbind, M_bind. rewrite IH.
    destruct (turns _ a s) as [[]|]; [apply IH|done|done].
  - change (Pos.to_nat 1) with 1%nat. cbn [turns]. unfold mbind, M_bind.
    by destruct (body a s) as [[]|].
Qed.

Lemma loops_turns n a s x s' : loops body n a s x s' ->
  forall m, (n <= m)%nat -> turns m a s = Ok (inr x) s'.
Proof.
  induction 1 as [a s x s' E|a s a' s1 n x s' E _ IH]; intros [|m] Hm; try lia;
    cbn [turns]; rewrite (bind_ok _ _ _ _ _ E); [done|]. apply IH. lia.
Qed.

(** Enough fuel: a loop that leaves within 2^64 turns gives its result. *)
Lemma loops_loop n a s x s' :
  loops body n a s x s' -> Z.of_nat n <= 2 ^ 64 -> loop body a s = Ok x s'.
Proof.
  intros H Hn. unfold loop. apply loops_turns with (m := Pos.to_nat loop_fuel) in H.
  - rewrite <- loop_pos_turns in H. by rewrite (bind_ok _ _ _ _ _ H).
  - unfold loop_fuel. apply Nat2Z.inj_le. rewrite positive_nat_Z. exact Hn.
Qed.

(** A turn that fails makes the loop fail. *)
Inductive loop_fails : nat -> A -> S -> err -> Prop :=
  | loop_fails_now a s e : body a s = Err e -> loop_fails 1 a s e
  | loop_fails_later a s a' s1 n e :
      body a s = Ok (inl a') s1 -> loop_fails n a' s1 e -> loop_fails (Datatypes.S n) a s e.

Lemma loop_fails_loop n a s e :
  loop_fails n a s e -> Z.of_nat n <= 2 ^ 64 -> loop body a s = Err e.
Proof.
  intros H Hn.
  assert (T : forall m, (n <= m)%nat -> turns m a s = Err e).
  { clear Hn. induction H as [a s e E|a s a' s1 n e E _ IH]; intros [|m] Hm; try lia; cbn [turns].
    - by rewrite (bind_err _ _ _ _ E).
    - rewrite (bind_ok _ _ _ _ _ E). apply IH. lia. }
  unfold loop. apply bind_err. rewrite loop_pos_turns. apply T.
  unfold loop_fuel. apply Nat2Z.inj_le. rewrite positive_nat_Z. exact Hn.
Qed.

(** What holds of every value a turn leaves with holds of the loop's result. *)
Lemma turns_result (P : R -> Prop) x s' : (forall a s x s', body a s = Ok (inr x) s' -> P x) ->
  forall n a s, turns n a s = Ok (inr x) s' -> P x.
Proof.
  intros Hb. induction n as [|n IH]; intros a s E; [done|]. cbn [turns] in E. apply bind_inv in E as (r & s1 & E1 & E).
  destruct r as [a1|x1]; [by eapply IH|]. injection E as -> ->. by eapply Hb.
Qed.
Lemma loop_turns a s : loop body a s =
  match turns (Pos.to_nat loop_fuel) a s with Ok (inr x) s' => Ok x s' | Ok (inl _) _ => Err OutOfFuel | Err e => Err e end.
Proof.
  rewrite <- loop_pos_turns. unfold loop. destruct (loop_pos loop_fuel body a s) as [[a1|x] s1|e] eqn:E;
    [by rewrite (bind_ok _ _ _ _ _ E)|by rewrite (bind_ok _ _ _ _ _ E)|by rewrite (bind_err _ _ _ _ E)].
Qed.
Lemma loop_result (P : R -> Prop) a s x s' :
  (forall a s x s', body a s = Ok (inr x) s' -> P x) -> loop body a s = Ok x s' -> P x.
Proof.
  rewrite loop_turns. generalize (Pos.to_nat loop_fuel). intros n Hb.
  destruct (turns n a s) as [[a1|x1] s1|] eqn:Et; [done| |done]. intros [= -> ->]. by apply (turns_result P x s' Hb n a s).
Qed.

(** A loop whose every turn goes on never leaves, whatever the number of turns. *)
Lemma turns_never (I : A -> S -> Prop) :
  (forall a s, I a s -> exists a' s', body a s = Ok (inl a') s' /\ I a' s') ->
  forall n a s, I a s -> exists a' s', turns n a s = Ok (inl a') s' /\ I a' s'.
Proof.
  intros Hb. induction n as [|n IH]; intros a s HI; [by exists a, s|].
  destruct (Hb a s HI) as (a1 & s1 & E & I1). destruct (IH a1 s1 I1) as (a2 & s2 & E2 & I2).
  exists a2, s2. cbn [turns]. by rewrite (bind_ok _ _ _ _ _ E).
Qed.
Lemma loop_never (I : A -> S -> Prop) a s :
  (forall a s, I a s -> exists a' s', body a s = Ok (inl a') s' /\ I a' s') ->
  I a s -> loop body a s = Err OutOfFuel.
Proof.
  intros Hb HI. destruct (turns_never I Hb (Pos.to_nat loop_fuel) a s HI) as (a' & s' & E & _).
  unfold loop. rewrite <- loop_pos_turns in E. by rewrite (bind_ok _ _ _ _ _ E).
Qed.
End loop_lemmas.

(** Conversion unfolds a loop last. *)
#[global] Strategy 1000 [loop loop_pos].

(** [n] turns through known values, then a last one. *)
Lemma loops_iter {S A R} (body : A -> M S (A + R)) (f : nat -> A) s s' x (n : nat) :
  (forall k, (k < n)%nat -> body (f k) s = Ok (inl (f (Datatypes.S k))) s) ->
  body (f n) s = Ok (inr x) s' -> loops body (Datatypes.S n) (f 0%nat) s x s'.
Proof.
  revert f. induction n as [|n IH]; intros f Hs He; [by apply loops_done|].
  eapply loops_step; [apply Hs; lia|]. apply (IH (fun k => f (Datatypes.S k))); [|done].
  intros k Hk. apply Hs. lia.
Qed.

(** A loop that skips [n] indices and then leaves. *)
Lemma search_loops {S R} (body : Z -> M S (Z + R)) s s' x (n : nat) : forall i,
  (forall j, i <= j < i + Z.of_nat n -> body j s = Ok (inl (j + 1)) s) ->
  body (i + Z.of_nat n) s = Ok (inr x) s' -> loops body (Datatypes.S n) i s x s'.
Proof.
  induction n as [|n IH]; intros i Hskip Hend.
  - apply loops_done. by rewrite Z.add_0_r in Hend.
  - eapply loops_step; [apply Hskip; lia|]. apply IH.
    + intros j Hj. apply Hskip. lia.
    + by replace (i + 1 + Z.of_nat n) with (i + Z.of_nat (Datatypes.S n)) by lia.
Qed.

Lemma search_first {S R} (body : Z -> M S (Z + R)) s s' x i :
  0 <= i < 2 ^ 64 -> (forall j, 0 <= j < i -> body j s = Ok (inl (j + 1)) s) ->
  body i s = Ok (inr x) s' -> loop body 0 s = Ok x s'.
Proof.
  intros Hi Hskip Hend. apply (loops_loop _ (Datatypes.S (Z.to_nat i))); [|lia].
  apply search_loops.
  - intros j Hj. apply Hskip. lia.
  - by rewrite Z2Nat.id by lia.
Qed.

(** [for (i = i0; i < i0 + n; i++)] without [break], the variables assigned in
    the body threaded through. *)
Fixpoint for_range {S B} (n : nat) (i : Z) (body : Z -> B -> M S B) (b : B) : M S B :=
  match n with
  | O => mret b
  | Datatypes.S n => b' ← body i b; for_range n (i + 1) body b'
  end.

(** A body with a known pure effect on an invariant. *)
Lemma for_range_run {S B} (I : Z -> B -> S -> Prop) (body : Z -> B -> M S B) n : forall i b s,
  I i b s ->
  (forall j b s, i <= j < i + Z.of_nat n -> I j b s -> exists b' s', body j b s = Ok b' s' /\ I (j + 1) b' s') ->
  exists b' s', for_range n i body b s = Ok b' s' /\ I (i + Z.of_nat n) b' s'.
Proof.
  induction n as [|n IH]; intros i b s HI Hb.
  - exists b, s. split; [done|]. by rewrite Z.add_0_r.
  - destruct (Hb i b s) as (b1 & s1 & E & I1); [lia|done|].
    destruct (IH (i + 1) b1 s1 I1) as (b2 & s2 & E2 & I2).
    { intros j b' s' Hj. apply Hb. lia. }
    exists b2, s2. split; [cbn; by rewrite (bind_ok _ _ _ _ _ E)|].
    by replace (i + Z.of_nat (Datatypes.S n)) with (i + 1 + Z.of_nat n) by lia.
Qed.

(** ** Generic lemmas *)

(** Decides a boolean comparison of the goal with [lia]. *)
Ltac decb :=
  repeat match goal with
  | |- context [?a =? ?b] =>
      first [ replace (a =? b) with true by (symmetry; apply Z.eqb_eq; lia)
            | replace (a =? b) with false by (symmetry; apply Z.eqb_neq; lia) ]
  | |- context [?a <=? ?b] =>
      first [ replace (a <=? b) with true by (symmetry; apply Z.leb_le; lia)
            | replace (a <=? b) with false by (symmetry; apply Z.leb_gt; lia) ]
  | |- context [?a <? ?b] =>
      first [ replace (a <? b) with true by (symmetry; apply Z.ltb_lt; lia)
            | replace (a <? b) with false by (symmetry; apply Z.ltb_ge; lia) ]
  end.

(** One bit of a number. *)
Lemma land_pow2 x k : 0 <= k -> Z.land x (2 ^ k) = if Z.testbit x k then 2 ^ k else 0.
Proof.
  intros Hk. apply Z.bits_inj'. intros i Hi. rewrite Z.land_spec, Z.pow2_bits_eqb by lia. destruct (Z.eqb_spec k i) as [<-|N].
  - rewrite andb_true_r. destruct (Z.testbit x k); [by rewrite Z.pow2_bits_true by lia|by rewrite Z.bits_0].
  - rewrite andb_false_r. destruct (Z.testbit x k); [|by rewrite Z.bits_0]. by rewrite Z.pow2_bits_eqb, (proj2 (Z.eqb_neq _ _) N) by lia.
Qed.

(** Updating the element after a prefix. *)
Lemma list_insert_middle {A} (l1 l2 : list A) x y i :
  i = length l1 -> <[i := y]> (l1 ++ x :: l2) = l1 ++ y :: l2.
Proof. intros ->. rewrite insert_app_r_alt by lia. by rewrite Nat.sub_diag. Qed.

(** A non-empty list split at its end. *)
Lemma list_snoc_cases {A} (l : list A) : l = [] \/ exists l' x, l = l' ++ [x].
Proof. destruct l as [|x l] using rev_ind; eauto. Qed.

(** ** Characters and C string literals

    A C string is the list of its character codes, without the terminating
    NUL. *)

From Stdlib Require Export Ascii.
From Stdlib Require String.
Export String.StringSyntax.
#[global] Open Scope Z_scope.

Definition chr (c : ascii) : Z := Z.of_N (N_of_ascii c).
Fixpoint str (s : String.string) : list Z :=
  match s with String.EmptyString => [] | String.String c r => chr c :: str r end.
Arguments chr !c /.
Arguments str s%_string_scope.

(** Reading one character through a moving [char*]: the terminator is 0. *)
Definition getc (p : list Z) : Z * list Z :=
  match p with [] => (0, []) | c :: r => (c, r) end.
