(* ===== verification/Memory.v ===== *)
(** * Byte-addressed memory

    The kernel dereferences 64-bit addresses.  [m_valid] says which addresses
    the current translation maps; [m_bytes] holds the bytes (an address never
    written holds 0, as after the boot code's clearing).  Multi-byte accesses
    are little-endian and may be unaligned, as AArch64 allows on normal memory. *)

From S2P Require Export Prelude.

Record mem := Mem { m_valid : Z -> bool; m_bytes : gmap Z Z }.

Definition ld8 (m : mem) (a : Z) : option Z :=
  if m_valid m a then Some (u8 (default 0 (m_bytes m !! a))) else None.

Definition st8 (m : mem) (a v : Z) : option mem :=
  if m_valid m a then Some (Mem (m_valid m) (<[a := u8 v]> (m_bytes m))) else None.

Fixpoint ldn (n : nat) (m : mem) (a : Z) : option Z :=
  match n with
  | O => Some 0
  | S n' => b ← ld8 m a; r ← ldn n' m (a + 1); Some (b + 2 ^ 8 * r)
  end.

Fixpoint stn (n : nat) (m : mem) (a v : Z) : option mem :=
  match n with
  | O => Some m
  | S n' => m' ← st8 m a v; stn n' m' (a + 1) (v / 2 ^ 8)
  end.

(** The bytes of [a, a+n) in order. *)
Fixpoint ldbytes (n : nat) (m : mem) (a : Z) : option (list Z) :=
  match n with
  | O => Some []
  | S n' => b ← ld8 m a; r ← ldbytes n' m (a + 1); Some (b :: r)
  end.

Definition valid_range (m : mem) (a n : Z) : Prop :=
  forall i, a <= i < a + n -> m_valid m i = true.

(** [m'] agrees with [m] on the addresses of [P]. *)
Definition same_on (P : Z -> Prop) (m m' : mem) : Prop :=
  forall a, P a -> ld8 m' a = ld8 m a.

Section single.
Context (m : mem) (a : Z).

Lemma ld8_valid : m_valid m a = true -> is_Some (ld8 m a).
Proof. intros E. unfold ld8. rewrite E. eauto. Qed.
Lemma ld8_range b : ld8 m a = Some b -> 0 <= b < 2 ^ 8.
Proof. unfold ld8. destruct (m_valid m a); intros [= <-]. apply u8_range. Qed.
Lemma st8_ok v : m_valid m a = true -> is_Some (st8 m a v).
Proof. intros E. unfold st8. rewrite E. eauto. Qed.
Lemma st8_valid_eq v m' : st8 m a v = Some m' -> m_valid m' = m_valid m.
Proof. unfold st8. destruct (m_valid m a); by intros [= <-]. Qed.
Lemma ld8_st8_same v m' : st8 m a v = Some m' -> ld8 m' a = Some (u8 v).
Proof.
  unfold st8, ld8. destruct (m_valid m a) eqn:E; intros [= <-]. cbn.
  rewrite E, lookup_insert_eq. cbn. f_equal. apply u8_small, u8_range.
Qed.
Lemma ld8_st8_other v m' b : st8 m a v = Some m' -> b <> a -> ld8 m' b = ld8 m b.
Proof.
  unfold st8, ld8. destruct (m_valid m a) eqn:E; intros [= <-] H. cbn.
  by rewrite lookup_insert_ne by done.
Qed.
End single.

Lemma stn_valid_eq n : forall m a v m', stn n m a v = Some m' -> m_valid m' = m_valid m.
Proof.
  induction n as [|n IH]; cbn; intros m a v m' H; [congruence|].
  destruct (st8 m a v) as [m1|] eqn:E; cbn in H; [|done].
  apply IH in H. rewrite H. by eapply st8_valid_eq.
Qed.

Lemma stn_ok n : forall m a v, valid_range m a (Z.of_nat n) -> exists m', stn n m a v = Some m'.
Proof.
  induction n as [|n IH]; cbn; intros m a v H; [eauto|].
  destruct (st8_ok m a v) as [m1 E1]; [apply H; lia|]. rewrite E1. cbn.
  apply IH. intros i Hi. rewrite (st8_valid_eq _ _ _ _ E1). apply H. lia.
Qed.

Lemma ldn_ok n : forall m a, valid_range m a (Z.of_nat n) -> exists v, ldn n m a = Some v.
Proof.
  induction n as [|n IH]; cbn; intros m a H; [eauto|].
  destruct (ld8_valid m a) as [b Eb]; [apply H; lia|].
  destruct (IH m (a + 1)) as [r Er]; [intros i Hi; apply H; lia|].
  rewrite Eb; cbn. rewrite Er; cbn. eauto.
Qed.

Lemma ldn_range n : forall m a v, ldn n m a = Some v -> 0 <= v < 2 ^ (8 * Z.of_nat n).
Proof.
  induction n as [|n IH]; intros m a v H.
  - cbn in H. injection H as <-. cbn. lia.
  - cbn -[Z.pow Z.of_nat] in H. destruct (ld8 m a) as [b|] eqn:Eb; cbn -[Z.pow] in H; [|done].
    destruct (ldn n m (a + 1)) as [r|] eqn:Er; cbn -[Z.pow] in H; [|done]. injection H as <-.
    apply IH in Er. apply ld8_range in Eb.
    replace (8 * Z.of_nat (S n)) with (8 + 8 * Z.of_nat n) by lia.
    rewrite Z.pow_add_r by lia. nia.
Qed.

(** Stores change the bytes of their range only. *)
Lemma ld8_stn_other n : forall m a v m' b,
  stn n m a v = Some m' -> b < a \/ a + Z.of_nat n <= b -> ld8 m' b = ld8 m b.
Proof.
  induction n as [|n IH]; cbn -[Z.of_nat]; intros m a v m' b H Hb; [congruence|].
  destruct (st8 m a v) as [m1|] eqn:E; cbn in H; [|done].
  rewrite (IH _ _ _ _ b H) by lia. eapply ld8_st8_other; [done|lia].
Qed.

Lemma ldn_ext n : forall m m' a,
  (forall i, a <= i < a + Z.of_nat n -> ld8 m' i = ld8 m i) -> ldn n m' a = ldn n m a.
Proof.
  induction n as [|n IH]; intros m m' a H; [done|]. cbn -[Z.pow].
  rewrite (H a) by lia. rewrite (IH m m' (a + 1)); [done|]. intros i Hi. apply H. lia.
Qed.

(** The same bytes at another address. *)
Lemma ldn_moved n : forall m m' a b,
  (forall i, 0 <= i < Z.of_nat n -> ld8 m' (b + i) = ld8 m (a + i)) -> ldn n m' b = ldn n m a.
Proof.
  induction n as [|n IH]; intros m m' a b H; [done|]. cbn -[Z.pow].
  pose proof (H 0 ltac:(lia)) as H0. rewrite !Z.add_0_r in H0. rewrite H0.
  rewrite (IH m m' (a + 1) (b + 1)); [done|]. intros i Hi. rewrite <- !Z.add_assoc. apply H. lia.
Qed.

Lemma ldn_stn_other n k m a v m' b :
  stn k m a v = Some m' -> b + Z.of_nat n <= a \/ a + Z.of_nat k <= b -> ldn n m' b = ldn n m b.
Proof. intros H Hb. apply ldn_ext. intros i Hi. eapply ld8_stn_other; [done|lia]. Qed.

(** A load reads back the value stored, truncated to its width. *)
Lemma ldn_stn_same n : forall m a v m',
  stn n m a v = Some m' -> ldn n m' a = Some (v mod 2 ^ (8 * Z.of_nat n)).
Proof.
  induction n as [|n IH]; intros m a v m' H.
  - cbn. by rewrite Z.mod_1_r.
  - cbn -[Z.pow Z.of_nat] in *. destruct (st8 m a v) as [m1|] eqn:E; cbn -[Z.pow] in H; [|done].
    rewrite (ld8_stn_other _ _ _ _ _ a H) by lia.
    rewrite (ld8_st8_same _ _ _ _ E). cbn -[Z.pow Z.of_nat].
    rewrite (IH _ _ _ _ H). cbn -[Z.pow Z.of_nat]. f_equal. unfold u8.
    replace (8 * Z.of_nat (S n)) with (8 + 8 * Z.of_nat n) by lia.
    rewrite Z.pow_add_r by lia.
    rewrite Z.rem_mul_r by lia. done.
Qed.

(** ** 64-bit words *)

Lemma ld64_st64_same m a v m' :
  stn 8 m a v = Some m' -> 0 <= v < 2 ^ 64 -> ldn 8 m' a = Some v.
Proof. intros H Hv. rewrite (ldn_stn_same _ _ _ _ _ H). f_equal. by apply Z.mod_small. Qed.

Lemma ld64_st64_other m a v m' b x :
  stn 8 m a v = Some m' -> ldn 8 m b = Some x -> b + 8 <= a \/ a + 8 <= b -> ldn 8 m' b = Some x.
Proof. intros H Hx Hb. rewrite (ldn_stn_other _ _ _ _ _ _ _ H); [done|lia]. Qed.

Lemma ld64_range m a v : ldn 8 m a = Some v -> 0 <= v < 2 ^ 64.
Proof. intros H. apply (ldn_range 8 _ _ _ H). Qed.

Lemma valid_range_sub m a n b k :
  valid_range m a n -> a <= b -> b + k <= a + n -> valid_range m b k.
Proof. intros H Hb Hk i Hi. apply H. lia. Qed.

Lemma valid_range_stn m a v m' k b n :
  stn k m a v = Some m' -> valid_range m b n -> valid_range m' b n.
Proof. intros H Hr i Hi. rewrite (stn_valid_eq _ _ _ _ _ H). by apply Hr. Qed.

Lemma same_on_refl P m : same_on P m m.
Proof. by intros a _. Qed.
Lemma same_on_trans P m1 m2 m3 : same_on P m1 m2 -> same_on P m2 m3 -> same_on P m1 m3.
Proof. intros H1 H2 a Ha. by rewrite (H2 a Ha), (H1 a Ha). Qed.
Lemma same_on_weaken (P Q : Z -> Prop) m m' :
  (forall a, Q a -> P a) -> same_on P m m' -> same_on Q m m'.
Proof. intros HQ H a Ha. apply H, HQ, Ha. Qed.
Lemma same_on_stn (P : Z -> Prop) k m a v m' :
  stn k m a v = Some m' -> (forall b, P b -> b < a \/ a + Z.of_nat k <= b) -> same_on P m m'.
Proof. intros H HP b Hb. eapply ld8_stn_other; [done|]. by apply HP. Qed.

#[export] Instance same_on_preorder P : PreOrder (same_on P).
Proof. split; [intros m; apply same_on_refl | intros x y z; apply same_on_trans]. Qed.

Create HintDb mem.
#[export] Hint Resolve same_on_refl ld64_st64_same ld64_st64_other valid_range_stn : mem.

Lemma ldbytes_length n : forall m a l, ldbytes n m a = Some l -> length l = n.
Proof.
  induction n as [|n IH]; cbn; intros m a l H; [by injection H as <-|].
  destruct (ld8 m a); cbn in H; [|done]. destruct (ldbytes n m (a + 1)) eqn:E; cbn in H; [|done].
  injection H as <-. cbn. f_equal. eauto.
Qed.
