(* ===== verification/Printf.v ===== *)
(** * The kernel's printf (src/utils/printf.c)

    [ui2a]/[uli2a]/[i2a]/[li2a] convert numbers, [a2i] parses a field width,
    [putchw] pads, [tfp_format] interprets the format.  Format strings and [%s]
    arguments are C strings (lists of character codes).  [putf] is called once
    per character, in order: the output is the list of those characters. *)

From S2P Require Export Prelude.

(** [int] and [unsigned] arguments are [AInt], [char*] arguments [AStr]. *)
Inductive arg := AInt (z : Z) | AStr (s : list Z).

(** [dgt+(dgt<10 ? '0' : (uc ? 'A' : 'a')-10)] *)
Definition digit_char (dgt : Z) (uc : bool) : Z :=
  u8 (dgt + (if dgt <? 10 then 48 else (if uc then 65 else 97) - 10)).

(** [while (num/d >= base) d*=base;], with [d] an [unsigned int]. *)
Fixpoint scale_loop (fuel : nat) (num base d : Z) : err + Z :=
  match fuel with
  | O => inl OutOfFuel
  | S fuel =>
      if d =? 0 then inl DivByZero
      else if base <=? num / d then scale_loop fuel num base (u32 (d * base))
      else inr d
  end.

(** [while (d!=0) { ... }]: the digits, most significant first. *)
Fixpoint digit_loop (fuel : nat) (num base : Z) (uc : bool) (n d : Z) : err + list Z :=
  match fuel with
  | O => inl OutOfFuel
  | S fuel =>
      if d =? 0 then inr []
      else
        let dgt := s32 (num / d) in
        let num := num mod d in
        if base =? 0 then inl DivByZero else
        let d := d / base in
        if negb (n =? 0) || (0 <? dgt) || (d =? 0) then
          match digit_loop fuel num base uc (n + 1) d with
          | inl e => inl e
          | inr l => inr (digit_char dgt uc :: l)
          end
        else digit_loop fuel num base uc n d
  end.

(** 32-bit divisors have at most 32 binary digits: no loop needs more turns. *)
Definition itoa_fuel : nat := 34.

Definition ui2a (num base : Z) (uc : bool) : err + list Z :=
  match scale_loop itoa_fuel num base 1 with
  | inl e => inl e
  | inr d => digit_loop itoa_fuel num base uc 0 d
  end.

(** The long variant differs in the type of [num] only; [d] stays 32-bit. *)
Definition uli2a (num base : Z) (uc : bool) : err + list Z :=
  match scale_loop itoa_fuel num base 1 with
  | inl e => inl e
  | inr d => digit_loop itoa_fuel num base uc 0 d
  end.

Definition emit_char (c : Z) (r : err + list Z) : err + list Z :=
  match r with inl e => inl e | inr l => inr (c :: l) end.

Definition i2a (num : Z) : err + list Z :=
  if num <? 0 then emit_char 45 (ui2a (u32 (- num)) 10 false)
  else ui2a num 10 false.

Definition li2a (num : Z) : err + list Z :=
  if num <? 0 then emit_char 45 (uli2a (u64 (- num)) 10 false)
  else uli2a num 10 false.

Definition a2d (ch : Z) : Z :=
  if (48 <=? ch) && (ch <=? 57) then ch - 48
  else if (97 <=? ch) && (ch <=? 102) then ch - 97 + 10
  else if (65 <=? ch) && (ch <=? 70) then ch - 65 + 10
  else -1.

(** Returns the first character that is not a digit, the rest of the string and
    the number.  [src] is the text after [ch]. *)
Fixpoint a2i (ch : Z) (src : list Z) (base num : Z) : Z * list Z * Z :=
  let digit := a2d ch in
  if (0 <=? digit) && negb (base <? digit) then
    match src with
    | [] => (0, [], s32 (num * base + digit))
    | c :: r => a2i c r base (s32 (num * base + digit))
    end
  else (ch, src, num).

(** The first loop of [putchw]: counts the padding down by the text length. *)
Fixpoint pad_count (bf : list Z) (n : Z) : Z :=
  match bf with
  | [] => n
  | c :: r => if (c =? 0) || (n <=? 0) then n else pad_count r (n - 1)
  end.

(** Characters before the terminator. *)
Fixpoint until_nul (bf : list Z) : list Z :=
  match bf with [] => [] | c :: r => if c =? 0 then [] else c :: until_nul r end.

Definition putchw (n : Z) (z : bool) (bf : list Z) : list Z :=
  repeat (if z then 48 else 32) (Z.to_nat (pad_count bf n)) ++ until_nul bf.

(** [char bf[12]]: the digits and the terminator must fit. *)
Definition BF_SIZE : Z := 12.
Definition into_bf (r : err + list Z) : err + list Z :=
  match r with
  | inl e => inl e
  | inr l => if Z.of_nat (length l) <? BF_SIZE then inr l else inl OutOfBounds
  end.

Definition cat_out (o : list Z) (r : err + list Z) : err + list Z :=
  match r with inl e => inl e | inr l => inr (o ++ l) end.

(** The flags, width, length and conversion character of a directive, and the
    text after it: the declarations before the [switch]. *)
Definition directive (fmt : list Z) : bool * Z * bool * Z * list Z :=
  let '(ch, fmt) := getc fmt in
  let '(lz, ch, fmt) :=
    if ch =? 48 then let '(c, f) := getc fmt in (true, c, f) else (false, ch, fmt) in
  let '(ch, fmt, w) :=
    if (48 <=? ch) && (ch <=? 57) then a2i ch fmt 10 0 else (ch, fmt, 0) in
  let '(lng, ch, fmt) :=
    if ch =? 108 then let '(c, f) := getc fmt in (true, c, f) else (false, ch, fmt) in
  (lz, w, lng, ch, fmt).

(** The format loop.  [lz], [w], [lng] are the flags of one directive. *)
Fixpoint tfp_loop (fuel : nat) (fmt : list Z) (va : list arg) : err + list Z :=
  match fuel with
  | O => inl OutOfFuel
  | S fuel =>
    let '(ch, fmt) := getc fmt in
    if ch =? 0 then inr []
    else if negb (ch =? 37) then emit_char ch (tfp_loop fuel fmt va)
    else
      let '(lz, w, lng, ch, fmt) := directive fmt in
      let number (conv lconv : Z -> err + list Z) (width lwidth : Z -> Z) :=
        match va with
        | AInt v :: va =>
            match into_bf (if lng : bool then lconv (lwidth v) else conv (width v)) with
            | inl e => inl e
            | inr bf => cat_out (putchw w lz bf) (tfp_loop fuel fmt va)
            end
        | _ => inl BadVarArg
        end in
      if ch =? 0 then inr []
      else if ch =? 117 (* u *) then
        number (fun v => ui2a v 10 false) (fun v => uli2a v 10 false) u32 u64
      else if ch =? 100 (* d *) then number i2a li2a s32 s64
      else if (ch =? 120) || (ch =? 88) (* x X *) then
        number (fun v => ui2a v 16 (ch =? 88)) (fun v => uli2a v 16 (ch =? 88)) u32 u64
      else if ch =? 99 (* c *) then
        match va with
        | AInt v :: va => emit_char (u8 v) (tfp_loop fuel fmt va)
        | _ => inl BadVarArg
        end
      else if ch =? 115 (* s *) then
        match va with
        | AStr s :: va => cat_out (putchw w false s) (tfp_loop fuel fmt va)
        | _ => inl BadVarArg
        end
      else if ch =? 37 then emit_char ch (tfp_loop fuel fmt va)
      else tfp_loop fuel fmt va
  end.

Definition tfp_format (fmt : list Z) (va : list arg) : err + list Z :=
  tfp_loop (S (length fmt)) fmt va.

(** [tfp_sprintf] writes the same characters to a buffer and terminates it. *)
Definition tfp_sprintf (fmt : list Z) (va : list arg) : err + list Z :=
  match tfp_format fmt va with inl e => inl e | inr l => inr (l ++ [0]) end.

(** ** What the printed digits denote *)

(** Value of a digit string, most significant digit first. *)
Definition value (base : Z) (l : list Z) : Z :=
  fold_left (fun acc c => acc * base + a2d c) l 0.

(** Digits of [base], in either case of the letters. *)
Definition is_digit (base c : Z) : Prop := 0 <= a2d c < base.

Lemma value_acc base l : forall acc,
  fold_left (fun acc c => acc * base + a2d c) l acc = acc * base ^ Z.of_nat (length l) + value base l.
Proof.
  unfold value. induction l as [|c l IH]; intros acc; cbn [fold_left length]; [rewrite Z.pow_0_r; lia|].
  rewrite IH, (IH (0 * base + a2d c)). rewrite Nat2Z.inj_succ, Z.pow_succ_r by lia. lia.
Qed.

Lemma value_cons base c l : value base (c :: l) = a2d c * base ^ Z.of_nat (length l) + value base l.
Proof. unfold value at 1. cbn [fold_left]. rewrite value_acc. lia. Qed.

Lemma a2d_digit_char dgt uc : 0 <= dgt < 16 -> a2d (digit_char dgt uc) = dgt.
Proof.
  intros H. assert (E : dgt ∈ seqZ 0 16) by (apply elem_of_seqZ; lia).
  unfold seqZ in E. vm_compute in E.
  repeat (apply elem_of_cons in E; destruct E as [->|E]; [by destruct uc|]). by apply elem_of_nil in E.
Qed.

Lemma digit_char_nonzero dgt uc : 0 <= dgt < 16 -> digit_char dgt uc <> 0.
Proof. intros H E. pose proof (a2d_digit_char dgt uc H) as A. rewrite E in A. cbn in A. lia. Qed.

(** The scaling loop stops at the weight of the leading digit. *)
Lemma scale_loop_spec fuel num base : forall k,
  2 <= base -> 0 <= num < 2 ^ 32 -> 0 <= k -> base ^ k <= Z.max 1 num -> 33 <= Z.of_nat fuel + k ->
  exists j, k <= j /\ scale_loop fuel num base (base ^ k) = inr (base ^ j)
         /\ num < base ^ (j + 1) /\ (j = 0 \/ base ^ j <= num).
Proof.
  induction fuel as [|fuel IH]; intros k Hb Hn Hk Hd Hf.
  - exfalso. assert (2 ^ k <= base ^ k) by (apply Z.pow_le_mono_l; lia).
    assert (2 ^ 32 < 2 ^ k) by (apply Z.pow_lt_mono_r; lia). lia.
  - cbn [scale_loop]. assert (Hp : 0 < base ^ k) by (apply Z.pow_pos_nonneg; lia).
    decb. destruct (base <=? num / base ^ k) eqn:C.
    + assert (E : base ^ k * base = base ^ (k + 1)) by (rewrite Z.pow_add_r by lia; lia).
      assert (base ^ k * base <= num).
      { apply Z.leb_le in C. pose proof (Z.mul_div_le num (base ^ k) Hp). nia. }
      rewrite u32_small by nia. rewrite E.
      destruct (IH (k + 1)) as (j & Hj & Es & Hr); [lia..|]. exists j. split; [lia|]. done.
    + exists k. split; [lia|]. split; [done|]. apply Z.leb_gt in C. split.
      * rewrite Z.pow_add_r by lia. pose proof (Z.mul_succ_div_gt num (base ^ k) Hp). nia.
      * destruct (Z.eq_dec k 0); [by left|right].
        destruct (Z_lt_le_dec num (base ^ k)); [|lia]. exfalso.
        assert (base ^ 1 <= base ^ k) by (apply Z.pow_le_mono_r; lia). lia.
Qed.

Lemma digit_loop_spec base uc : forall (k : nat) fuel num n,
  2 <= base <= 16 -> 0 <= num < base ^ (Z.of_nat k + 1) -> (k + 2 <= fuel)%nat ->
  0 <= n -> 0 < n \/ k = O \/ base ^ Z.of_nat k <= num ->
  exists l, digit_loop fuel num base uc n (base ^ Z.of_nat k) = inr l
    /\ length l = S k /\ value base l = num /\ Forall (is_digit base) l /\ Forall (fun c => c <> 0) l.
Proof.
  induction k as [|k IH]; intros fuel num n Hb Hn Hf Hn0 Hcase.
  - destruct fuel as [|[|fuel]]; [lia..|]. cbn -[Z.div Z.modulo Z.pow].
    change (base ^ Z.of_nat 0) with 1. rewrite Z.div_1_r, (Z.div_small 1 base) by lia.
    cbn -[Z.div Z.modulo]. rewrite Z.pow_1_r in Hn. decb. rewrite orb_true_r.
    unfold s32. rewrite swrap_small by (cbn; lia).
    exists [digit_char num uc]. split; [done|]. split; [done|].
    unfold value, is_digit. cbn. rewrite a2d_digit_char by lia. split; [lia|].
    split; constructor; auto using digit_char_nonzero with lia.
    rewrite a2d_digit_char by lia. lia.
  - destruct fuel as [|fuel]; [lia|]. cbn -[Z.div Z.modulo Z.pow Z.of_nat].
    set (d := base ^ Z.of_nat (S k)) in *.
    assert (Hd : d = base ^ Z.of_nat k * base).
    { unfold d. rewrite Nat2Z.inj_succ, Z.pow_succ_r by lia. lia. }
    assert (Hp : 0 < base ^ Z.of_nat k) by (apply Z.pow_pos_nonneg; lia).
    assert (Hdp : 0 < d) by nia.
    assert (Hup : num < d * base).
    { destruct Hn as [_ Hn]. rewrite Z.pow_add_r, Z.pow_1_r in Hn by lia. done. }
    assert (Hq : 0 <= num / d < base).
    { split; [apply Z.div_pos; lia|]. apply Z.div_lt_upper_bound; lia. }
    unfold s32. rewrite swrap_small by (cbn; lia). decb.
    assert (Ed : d / base = base ^ Z.of_nat k) by (rewrite Hd; apply Z.div_mul; lia).
    rewrite Ed.
    assert (Hbr : negb (n =? 0) || (0 <? num / d) || (base ^ Z.of_nat k =? 0) = true).
    { destruct Hcase as [H|[H|H]]; [|lia|].
      - replace (n =? 0) with false by lia. done.
      - assert (0 < num / d) by (apply Z.div_str_pos; lia).
        replace (0 <? num / d) with true by lia. by rewrite orb_true_r. }
    rewrite Hbr.
    assert (Hm : 0 <= num mod d < d) by (apply Z.mod_pos_bound; lia).
    destruct (IH fuel (num mod d) (n + 1)) as (l & El & Ll & Vl & Dl & Zl); [lia| |lia|lia|lia|].
    { rewrite Z.pow_add_r, Z.pow_1_r by lia. lia. }
    rewrite El. eexists. split; [done|]. split; [cbn; lia|]. split; [|split].
    + rewrite value_cons, Vl, Ll, a2d_digit_char by lia. fold d.
      pose proof (Z.div_mod num d). lia.
    + constructor; [|done]. unfold is_digit. rewrite a2d_digit_char by lia. lia.
    + constructor; [|done]. apply digit_char_nonzero. lia.
Qed.

(** The conversion as one statement, shared by the properties below. *)
Lemma uli2a_spec num base uc :
  2 <= base <= 16 -> 0 <= num < 2 ^ 32 ->
  exists j l, uli2a num base uc = inr l /\ length l = S j /\ value base l = num
    /\ Forall (is_digit base) l /\ Forall (fun c => c <> 0) l
    /\ num < base ^ (Z.of_nat j + 1) /\ (j = O \/ base ^ Z.of_nat j <= num).
Proof.
  intros Hb Hn. unfold uli2a.
  destruct (scale_loop_spec itoa_fuel num base 0) as (j & Hj & E & Hu & Hl);
    [lia|lia|lia|rewrite Z.pow_0_r; lia|unfold itoa_fuel; lia|].
  rewrite Z.pow_0_r in E. rewrite E.
  assert (Hj32 : j <= 31).
  { destruct Hl as [->|Hl]; [lia|]. destruct (Z_le_gt_dec j 31); [done|exfalso].
    assert (2 ^ j <= base ^ j) by (apply Z.pow_le_mono_l; lia).
    assert (2 ^ 32 <= 2 ^ j) by (apply Z.pow_le_mono_r; lia). lia. }
  destruct (digit_loop_spec base uc (Z.to_nat j) itoa_fuel num 0) as (l & El & Ll & Vl & Dl & Zl).
  - done.
  - rewrite Z2Nat.id by lia. lia.
  - unfold itoa_fuel. lia.
  - lia.
  - rewrite Z2Nat.id by lia. lia.
  - rewrite Z2Nat.id in El by lia. exists (Z.to_nat j), l. rewrite Z2Nat.id by lia.
    repeat split; auto; try lia.
Qed.

Lemma ui2a_uli2a num base uc : ui2a num base uc = uli2a num base uc.
Proof. done. Qed.

(** Leading digit: the length is minimal. *)
Lemma uli2a_length num base uc l :
  2 <= base <= 16 -> 0 <= num < 2 ^ 32 -> uli2a num base uc = inr l ->
  forall n, 0 < n -> num < base ^ n -> Z.of_nat (length l) <= n.
Proof.
  intros Hb Hn E n Hn0 Hlt. destruct (uli2a_spec num base uc Hb Hn) as (j & l' & E' & Ll & _ & _ & _ & _ & Hj).
  rewrite E in E'. injection E' as <-. rewrite Ll. destruct Hj as [->|Hj]; [lia|].
  destruct (Z_le_gt_dec (Z.of_nat (S j)) n); [done|exfalso].
  assert (base ^ n <= base ^ Z.of_nat j) by (apply Z.pow_le_mono_r; lia). lia.
Qed.

Lemma pad_count_nonzero bf : forall n, Forall (fun c => c <> 0) bf ->
  0 <= n -> pad_count bf n = Z.max 0 (n - Z.of_nat (length bf)).
Proof.
  induction bf as [|c bf IH]; intros n Hf Hn; cbn -[Z.of_nat]; [lia|].
  apply Forall_cons in Hf as [Hc Hf]. replace (c =? 0) with false by lia. cbn -[Z.of_nat].
  destruct (n <=? 0) eqn:C; [lia|]. rewrite IH by (done || lia). lia.
Qed.

Lemma until_nul_nonzero bf : Forall (fun c => c <> 0) bf -> until_nul bf = bf.
Proof.
  induction 1 as [|c bf Hc Hf IH]; [done|]. cbn. replace (c =? 0) with false by lia. by rewrite IH.
Qed.

Lemma value_zeros base n l : 0 <= base -> value base (repeat 48 n ++ l) = value base l.
Proof. intros Hb. induction n as [|n IH]; [done|]. cbn [repeat app]. rewrite value_cons, IH. cbn. lia. Qed.

Lemma value_app base l1 l2 :
  value base (l1 ++ l2) = value base l1 * base ^ Z.of_nat (length l2) + value base l2.
Proof. unfold value at 1. rewrite fold_left_app. apply value_acc. Qed.

(** One [%08x] directive: exactly eight hexadecimal digits. *)
Lemma hex8_spec v :
  0 <= v < 2 ^ 32 ->
  exists bf, into_bf (ui2a v 16 false) = inr bf
    /\ length (putchw 8 true bf) = 8%nat /\ value 16 (putchw 8 true bf) = v.
Proof.
  intros Hv. rewrite ui2a_uli2a.
  destruct (uli2a_spec v 16 false) as (j & l & E & Ll & Vl & _ & Zl & _ & _); [lia|lia|].
  pose proof (uli2a_length v 16 false l ltac:(lia) Hv E 8 ltac:(lia) ltac:(cbn; lia)) as H8.
  rewrite E. cbn [into_bf]. unfold BF_SIZE. replace (_ <? 12) with true by lia.
  exists l. split; [done|]. unfold putchw.
  rewrite pad_count_nonzero, until_nul_nonzero by (done || lia).
  rewrite length_app, repeat_length. split; [lia|]. rewrite value_zeros by lia. done.
Qed.

Lemma tfp_lit f c fmt va : c <> 0 -> c <> 37 ->
  tfp_loop (S f) (c :: fmt) va = emit_char c (tfp_loop f fmt va).
Proof.
  intros H0 H37. cbn [tfp_loop getc]. replace (c =? 0) with false by lia.
  by replace (c =? 37) with false by lia.
Qed.

Lemma a2i_stop ch src base num : a2d ch < 0 -> a2i ch src base num = (ch, src, num).
Proof. intros H. destruct src; cbn [a2i]; by replace (0 <=? a2d ch) with false by lia. Qed.

Lemma tfp_08x f fmt v va bf : into_bf (ui2a (u32 v) 16 false) = inr bf ->
  tfp_loop (S f) (37 :: 48 :: 56 :: 120 :: fmt) (AInt v :: va)
  = cat_out (putchw 8 true bf) (tfp_loop f fmt va).
Proof.
  intros E. cbn [tfp_loop getc].
  cbn -[into_bf ui2a putchw u32 u64 s32 s64 tfp_loop uli2a i2a li2a a2i Z.sub].
  assert (A : a2i 56 (120 :: fmt) 10 0 = (120, fmt, 8)).
  { change (a2i 56 (120 :: fmt) 10 0) with (a2i 120 fmt 10 8). by apply a2i_stop. }
  rewrite A. cbn -[into_bf ui2a putchw u32 tfp_loop uli2a]. by rewrite E.
Qed.

(** ** Termination of the conversions and of the format loop *)

Fixpoint orbit_zero (n : nat) (base d : Z) : bool :=
  match n with
  | O => d =? 0
  | S n => (d =? 0) || orbit_zero n base (u32 (d * base))
  end.

Lemma scale_loop_fuel n num base : forall fuel d,
  orbit_zero n base d = true -> (n < fuel)%nat -> scale_loop fuel num base d <> inl OutOfFuel.
Proof.
  induction n as [|n IH]; intros [|fuel] d H Hf; try lia; cbn [scale_loop orbit_zero] in *.
  - by rewrite H.
  - destruct (d =? 0); [done|]. cbn in H. destruct (base <=? num / d); [|done].
    apply IH; [done|lia].
Qed.

Lemma digit_loop_fuel base uc : 2 <= base -> forall (k : nat) fuel num n d,
  0 <= d < 2 ^ Z.of_nat k -> (k < fuel)%nat -> digit_loop fuel num base uc n d <> inl OutOfFuel.
Proof.
  intros Hb. induction k as [|k IH]; intros fuel num n d Hd Hf; (destruct fuel as [|fuel]; [lia|]).
  - cbn in Hd. cbn -[Z.div Z.modulo]. by replace (d =? 0) with true by lia.
  - cbn -[Z.div Z.modulo Z.of_nat]. destruct (d =? 0) eqn:C; [done|].
    replace (base =? 0) with false by lia.
    assert (Hd' : 0 <= d / base < 2 ^ Z.of_nat k).
    { rewrite Nat2Z.inj_succ, Z.pow_succ_r in Hd by lia.
      split; [apply Z.div_pos; lia|]. apply Z.div_lt_upper_bound; nia. }
    destruct (negb _ || _ || _).
    + pose proof (IH fuel (num mod d) (n + 1) _ Hd' ltac:(lia)) as H.
      destruct (digit_loop _ _ _ _ _ _) as [e|l]; [|done]. intros [= ->]. done.
    + by apply IH; [|lia].
Qed.

Lemma uli2a_total num base uc : base = 10 \/ base = 16 -> uli2a num base uc <> inl OutOfFuel.
Proof.
  intros Hb. unfold uli2a.
  assert (O : orbit_zero 32 base 1 = true) by (destruct Hb as [->| ->]; vm_compute; reflexivity).
  pose proof (scale_loop_fuel 32 num base itoa_fuel 1 O ltac:(unfold itoa_fuel; lia)) as H1.
  assert (D : forall f d0 d, 0 <= d0 < 2 ^ 32 -> scale_loop f num base d0 = inr d -> 0 <= d < 2 ^ 32).
  { induction f as [|f IH]; cbn [scale_loop]; intros d0 d Hd0 E; [done|].
    destruct (d0 =? 0); [done|]. destruct (base <=? num / d0); [|by injection E as <-].
    apply (IH (u32 (d0 * base)) d); [apply u32_range|done]. }
  destruct (scale_loop itoa_fuel num base 1) as [e|d] eqn:E; [congruence|].
  apply D in E; [|lia].
  apply (digit_loop_fuel base uc) with (k := 32%nat); [destruct Hb; lia|exact E|unfold itoa_fuel; lia].
Qed.

Lemma a2i_shorter src : forall ch base num c f w, a2i ch src base num = (c, f, w) -> (length f <= length src)%nat.
Proof.
  induction src as [|c0 src IH]; intros ch base num c f w; cbn -[a2d];
    destruct ((0 <=? a2d ch) && negb (base <? a2d ch)); intros E.
  - injection E as <- <- <-. done.
  - injection E as <- <- <-. done.
  - apply IH in E. lia.
  - injection E as <- <- <-. cbn. lia.
Qed.

Lemma getc_shorter p c f : getc p = (c, f) -> (length f <= length p)%nat.
Proof. destruct p; intros [= <- <-]; cbn; lia. Qed.

Lemma into_bf_total r : r <> inl OutOfFuel -> into_bf r <> inl OutOfFuel.
Proof. destruct r as [e|l]; cbn [into_bf]; [congruence|]. by destruct (_ <? _). Qed.

Lemma conv_total (lng uc : bool) base v1 v2 : base = 10 \/ base = 16 ->
  into_bf (if lng then uli2a v2 base uc else ui2a v1 base uc) <> inl OutOfFuel.
Proof. intros Hb. apply into_bf_total. destruct lng; by apply uli2a_total. Qed.

Lemma emit_total c r : r <> inl OutOfFuel -> emit_char c r <> inl OutOfFuel.
Proof. destruct r; cbn; congruence. Qed.
Lemma cat_total o r : r <> inl OutOfFuel -> cat_out o r <> inl OutOfFuel.
Proof. destruct r; cbn; congruence. Qed.

Lemma i2a_total (lng : bool) v1 v2 : into_bf (if lng then li2a v2 else i2a v1) <> inl OutOfFuel.
Proof.
  apply into_bf_total. unfold li2a, i2a.
  destruct lng, (_ <? 0); try apply emit_total; apply uli2a_total; lia.
Qed.


Lemma number_total (r : err + list Z) (k : list Z -> err + list Z) :
  r <> inl OutOfFuel -> (forall bf, k bf <> inl OutOfFuel) ->
  match r with inl e => inl e | inr bf => k bf end <> inl OutOfFuel.
Proof. destruct r; intros; [congruence|auto]. Qed.

Lemma directive_shorter fmt lz w lng ch f : directive fmt = (lz, w, lng, ch, f) -> (length f <= length fmt)%nat.
Proof.
  unfold directive. destruct (getc fmt) as [c1 f1] eqn:E1. apply getc_shorter in E1.
  destruct (if c1 =? 48 then _ else _) as [[lz2 c2] f2] eqn:E2.
  assert (length f2 <= length f1)%nat.
  { destruct (c1 =? 48); [|by injection E2 as <- <- <-].
    destruct (getc f1) eqn:G. apply getc_shorter in G. by injection E2 as <- <- <-. }
  destruct (if _ && _ then a2i c2 f2 10 0 else _) as [[c3 f3] w3] eqn:E3.
  assert (length f3 <= length f2)%nat.
  { destruct (_ && _); [by apply a2i_shorter in E3|by injection E3 as <- <- <-]. }
  destruct (if c3 =? 108 then _ else _) as [[lng4 c4] f4] eqn:E4.
  assert (length f4 <= length f3)%nat.
  { destruct (c3 =? 108); [|by injection E4 as <- <- <-].
    destruct (getc f3) eqn:G. apply getc_shorter in G. by injection E4 as <- <- <-. }
  intros H'. injection H' as _ _ _ _ <-. lia.
Qed.

Lemma tfp_loop_total : forall fuel fmt va, (length fmt < fuel)%nat -> tfp_loop fuel fmt va <> inl OutOfFuel.
Proof.
  induction fuel as [|fuel IH]; intros fmt va Hf; [lia|].
  destruct fmt as [|ch fmt]; [done|]. cbn in Hf. cbn [tfp_loop getc].
  destruct (ch =? 0); [done|]. destruct (negb (ch =? 37)); [apply emit_total, IH; lia|].
  destruct (directive fmt) as [[[[lz w] lng] c4] f4] eqn:D. apply directive_shorter in D.
  assert (R : forall va', tfp_loop fuel f4 va' <> inl OutOfFuel) by (intros; apply IH; lia).
  cbv zeta. destruct (c4 =? 0); [done|].
  repeat match goal with |- (if ?b then _ else _) <> _ => destruct b end; auto using emit_total;
    destruct va as [|[v|s] va]; try done; try (by apply emit_total); try (by apply cat_total);
    (apply number_total; [by first [apply conv_total; lia | apply i2a_total] | intros; by apply cat_total]).
Qed.

(** ** The output is made of bytes *)

Definition is_byte (c : Z) : Prop := 0 <= c < 256.
Definition byte_arg (a : arg) : Prop := match a with AInt _ => True | AStr s => Forall is_byte s end.
Definition byte_out (r : err + list Z) : Prop := match r with inl _ => True | inr l => Forall is_byte l end.

Lemma a2i_rest (P : Z -> Prop) src : forall ch base num c f w, a2i ch src base num = (c, f, w) -> Forall P src -> Forall P f.
Proof.
  induction src as [|c0 src IH]; intros ch base num c f w; cbn -[a2d];
    destruct ((0 <=? a2d ch) && negb (base <? a2d ch)); intros E HP; try by injection E as <- <- <-.
  apply Forall_cons in HP as [_ HP]. by eapply IH.
Qed.
Lemma getc_rest (P : Z -> Prop) p c f : getc p = (c, f) -> Forall P p -> Forall P f.
Proof. destruct p; intros [= <- <-] HP; [done|]. by apply Forall_cons in HP as [_ HP]. Qed.
Lemma directive_rest (P : Z -> Prop) fmt lz w lng ch f : directive fmt = (lz, w, lng, ch, f) -> Forall P fmt -> Forall P f.
Proof.
  unfold directive. intros E HP. destruct (getc fmt) as [c1 f1] eqn:E1. pose proof (getc_rest P _ _ _ E1 HP) as P1.
  destruct (if c1 =? 48 then _ else _) as [[lz2 c2] f2] eqn:E2.
  assert (P2 : Forall P f2).
  { destruct (c1 =? 48); [|by injection E2 as <- <- <-]. destruct (getc f1) eqn:G. injection E2 as <- <- <-. by eapply getc_rest. }
  destruct (if _ && _ then a2i c2 f2 10 0 else _) as [[c3 f3] w3] eqn:E3.
  assert (P3 : Forall P f3) by (destruct (_ && _); [by eapply a2i_rest|by injection E3 as <- <- <-]).
  destruct (if c3 =? 108 then _ else _) as [[lng4 c4] f4] eqn:E4.
  assert (P4 : Forall P f4).
  { destruct (c3 =? 108); [|by injection E4 as <- <- <-]. destruct (getc f3) eqn:G. injection E4 as <- <- <-. by eapply getc_rest. }
  by injection E as _ _ _ _ <-.
Qed.

Lemma digit_loop_bytes fuel base uc : forall num n d, byte_out (digit_loop fuel num base uc n d).
Proof.
  induction fuel as [|fuel IH]; intros num n d; [done|]. cbn -[Z.div Z.modulo digit_char].
  destruct (d =? 0); [constructor|]. destruct (base =? 0); [done|].
  destruct (negb (n =? 0) || (0 <? s32 (num / d)) || (d / base =? 0)); [|apply IH].
  pose proof (IH (num mod d) (n + 1) (d / base)) as B. destruct (digit_loop _ _ _ _ _ _); [done|].
  constructor; [apply u8_range|exact B].
Qed.
Lemma uli2a_bytes num base uc : byte_out (uli2a num base uc).
Proof. unfold uli2a. destruct (scale_loop _ _ _ _); [done|apply digit_loop_bytes]. Qed.
Lemma into_bf_bytes r : byte_out r -> byte_out (into_bf r).
Proof. destruct r as [e|l]; cbn [into_bf]; [done|]. by destruct (_ <? _). Qed.
Lemma emit_bytes c r : is_byte c -> byte_out r -> byte_out (emit_char c r).
Proof. destruct r; [done|]. by constructor. Qed.
Lemma cat_bytes o r : Forall is_byte o -> byte_out r -> byte_out (cat_out o r).
Proof. destruct r; [done|]. intros Ho Hr. apply Forall_app. by split. Qed.
Lemma i2a_bytes (lng : bool) v1 v2 : byte_out (if lng then li2a v2 else i2a v1).
Proof. unfold li2a, i2a. destruct lng, (_ <? 0); try (apply emit_bytes; [unfold is_byte; lia|]); apply uli2a_bytes. Qed.
Lemma putchw_bytes n z bf : Forall is_byte bf -> Forall is_byte (putchw n z bf).
Proof.
  intros HB. unfold putchw. apply Forall_app. split.
  - apply Forall_forall. intros c Hc%list_elem_of_In%repeat_spec. subst. unfold is_byte. destruct z; lia.
  - induction HB as [|c bf Hc HB IH]; [constructor|]. cbn. destruct (c =? 0); [constructor|by constructor].
Qed.

(** Characters of the format, of the string arguments, digits and padding. *)
Lemma tfp_loop_bytes : forall fuel fmt va, Forall is_byte fmt -> Forall byte_arg va -> byte_out (tfp_loop fuel fmt va).
Proof.
  induction fuel as [|fuel IH]; intros fmt va Hf Ha; [done|].
  destruct fmt as [|ch fmt]; [constructor|]. apply Forall_cons in Hf as [Hc Hf]. cbn [tfp_loop getc].
  destruct (ch =? 0); [constructor|]. destruct (negb (ch =? 37)); [by apply emit_bytes; [|apply IH]|].
  destruct (directive fmt) as [[[[lz w] lng] c4] f4] eqn:D. pose proof (directive_rest _ _ _ _ _ _ _ D Hf) as Hf4.
  cbv zeta. destruct (c4 =? 0); [constructor|].
  assert (N : forall (r : err + list Z) va', byte_out r -> Forall byte_arg va' ->
    byte_out (match into_bf r with inl e => inl e | inr bf => cat_out (putchw w lz bf) (tfp_loop fuel f4 va') end)).
  { intros r va' Hr Hv. pose proof (into_bf_bytes r Hr) as B. destruct (into_bf r); [done|].
    apply cat_bytes; [by apply putchw_bytes|by apply IH]. }
  repeat match goal with |- byte_out (if ?b then _ else _) => destruct b eqn:? end; [..|by apply IH].
  1-5: destruct va as [|[v|s] va]; [done| |try done]; apply Forall_cons in Ha as [Ha1 Ha]; try done.
  - apply N; [|done]. destruct lng; apply uli2a_bytes.
  - apply N; [|done]. apply i2a_bytes.
  - apply N; [|done]. destruct lng; apply uli2a_bytes.
  - apply emit_bytes; [apply u8_range|by apply IH].
  - apply cat_bytes; [by apply putchw_bytes|by apply IH].
  - apply emit_bytes; [unfold is_byte; lia|by apply IH].
Qed.
Lemma tfp_format_bytes fmt va out : Forall is_byte fmt -> Forall byte_arg va -> tfp_format fmt va = inr out -> Forall is_byte out.
Proof. intros Hf Ha E. pose proof (tfp_loop_bytes (S (length fmt)) fmt va Hf Ha) as B. unfold tfp_format in E. by rewrite E in B. Qed.


(** ** Calls whose arguments fit the format *)

Definition fits_unsigned (v : Z) : bool := u64 v <? 2 ^ 32.
Definition fits_signed (v : Z) : bool := Z.abs (s64 v) <? 2 ^ 32.

(** Every directive finds an argument of its type; the long conversions, whose
    divisor has 32 bits, a value of at most 32 bits. *)
Fixpoint args_ok (fuel : nat) (fmt : list Z) (va : list arg) : bool :=
  match fuel with
  | O => false
  | S fuel =>
    let '(ch, fmt) := getc fmt in
    if ch =? 0 then true
    else if negb (ch =? 37) then args_ok fuel fmt va
    else
      let '(lz, w, lng, ch, fmt) := directive fmt in
      if ch =? 0 then true
      else if (ch =? 117) || (ch =? 120) || (ch =? 88) then
        match va with AInt v :: va => (negb lng || fits_unsigned v) && args_ok fuel fmt va | _ => false end
      else if ch =? 100 then
        match va with AInt v :: va => (negb lng || fits_signed v) && args_ok fuel fmt va | _ => false end
      else if ch =? 99 then match va with AInt v :: va => args_ok fuel fmt va | _ => false end
      else if ch =? 115 then match va with AStr s :: va => args_ok fuel fmt va | _ => false end
      else args_ok fuel fmt va
  end.
Definition well_typed (fmt : list Z) (va : list arg) : bool := args_ok (S (length fmt)) fmt va.

Lemma number_fits num base uc : base = 10 \/ base = 16 -> 0 <= num < 2 ^ 32 ->
  exists l, uli2a num base uc = inr l /\ Z.of_nat (length l) <= 10.
Proof.
  intros Hb Hn. destruct (uli2a_spec num base uc) as (j & l & E & _); [lia|lia|]. exists l. split; [done|].
  apply (uli2a_length num base uc l ltac:(lia) Hn E 10); [lia|]. destruct Hb as [-> | ->]; cbn; lia.
Qed.

Lemma s32_range z : - 2 ^ 31 <= s32 z < 2 ^ 31.
Proof.
  unfold s32, swrap. pose proof (Z.mod_pos_bound z (2 ^ 32) ltac:(lia)).
  change (2 ^ (32 - 1)) with (2 ^ 31). destruct (Z.ltb_spec (z mod 2 ^ 32) (2 ^ 31)); lia.
Qed.

Lemma signed_fits num : Z.abs num < 2 ^ 32 ->
  exists l, into_bf (if num <? 0 then emit_char 45 (uli2a (Z.abs num) 10 false) else uli2a (Z.abs num) 10 false) = inr l.
Proof.
  intros Hn. destruct (number_fits (Z.abs num) 10 false) as (l & E & Hl); [lia|lia|]. rewrite E.
  destruct (num <? 0); cbn [emit_char into_bf length]; unfold BF_SIZE; decb; eauto.
Qed.

(** The conversions of a well-typed argument succeed. *)
Lemma unsigned_conv (lng uc : bool) base v : base = 10 \/ base = 16 -> (negb lng || fits_unsigned v) = true ->
  exists l, into_bf (if lng then uli2a (u64 v) base uc else ui2a (u32 v) base uc) = inr l.
Proof.
  intros Hb H. unfold fits_unsigned in H. pose proof (u64_range v). pose proof (u32_range v).
  assert (F : exists l, (if lng then uli2a (u64 v) base uc else ui2a (u32 v) base uc) = inr l /\ Z.of_nat (length l) <= 10).
  { destruct lng; cbn in H; apply number_fits; lia. }
  destruct F as (l & -> & Hl). exists l. cbn [into_bf]. unfold BF_SIZE. by decb.
Qed.
Lemma signed_conv (lng : bool) v : (negb lng || fits_signed v) = true ->
  exists l, into_bf (if lng then li2a (s64 v) else i2a (s32 v)) = inr l.
Proof.
  intros H. unfold fits_signed in H. pose proof (s32_range v). destruct lng; cbn in H.
  - destruct (signed_fits (s64 v)) as [l E]; [lia|]. exists l. rewrite <- E. unfold li2a.
    destruct (Z.ltb_spec (s64 v) 0); [rewrite u64_small by lia; by rewrite Z.abs_neq by lia|by rewrite Z.abs_eq by lia].
  - destruct (signed_fits (s32 v)) as [l E]; [lia|]. exists l. rewrite <- E. unfold i2a. rewrite !ui2a_uli2a.
    destruct (Z.ltb_spec (s32 v) 0); [rewrite u32_small by lia; by rewrite Z.abs_neq by lia|by rewrite Z.abs_eq by lia].
Qed.

Lemma fits_unsigned_small v : 0 <= v < 2 ^ 32 -> fits_unsigned v = true.
Proof. intros H. unfold fits_unsigned. rewrite u64_small by lia. apply Z.ltb_lt. lia. Qed.

Lemma tfp_loop_well_typed : forall fuel fmt va, args_ok fuel fmt va = true -> exists out, tfp_loop fuel fmt va = inr out.
Proof.
  induction fuel as [|fuel IH]; intros fmt va; [done|]. cbn [args_ok tfp_loop].
  destruct (getc fmt) as [ch f]. destruct (ch =? 0); [by exists []|]. destruct (negb (ch =? 37)).
  { intros H. destruct (IH _ _ H) as [out ->]. by eexists. }
  destruct (directive f) as [[[[lz w] lng] c] f4]. cbv zeta. destruct (c =? 0); [by exists []|].
  assert (Cat : forall o va', args_ok fuel f4 va' = true -> exists out, cat_out o (tfp_loop fuel f4 va') = inr out).
  { intros o va' H. destruct (IH _ _ H) as [out ->]. by eexists. }
  assert (Unsigned : forall base uc, base = 10 \/ base = 16 ->
    match va with AInt v :: va => (negb lng || fits_unsigned v) && args_ok fuel f4 va | _ => false end = true ->
    exists out, match va with
    | AInt v :: va => match into_bf (if lng then uli2a (u64 v) base uc else ui2a (u32 v) base uc) with
                      | inl e => inl e | inr bf => cat_out (putchw w lz bf) (tfp_loop fuel f4 va) end
    | _ => inl BadVarArg end = inr out).
  { intros base uc Hb H. destruct va as [|[v|s] va]; [done| |done]. apply andb_true_iff in H as [H1 H2].
    destruct (unsigned_conv lng uc base v Hb H1) as [l ->]. by apply Cat. }
  destruct (c =? 117) eqn:Eu; cbn [orb]; [apply Unsigned; lia|].
  destruct (c =? 100) eqn:Ed.
  { replace ((c =? 120) || (c =? 88)) with false by lia. destruct va as [|[v|s] va]; [done| |done].
    intros H. apply andb_true_iff in H as [H1 H2]. destruct (signed_conv lng v H1) as [l ->]. by apply Cat. }
  destruct ((c =? 120) || (c =? 88)) eqn:Ex; [apply Unsigned; lia|].
  destruct (c =? 99) eqn:Ec.
  { destruct va as [|[v|s] va]; try done. intros H. destruct (IH _ _ H) as [out ->]. by eexists. }
  destruct (c =? 115).
  { destruct va as [|[v|s] va]; try done. apply Cat. }
  destruct (c =? 37); intros H; destruct (IH _ _ H) as [out ->]; by eexists.
Qed.

(** ** Properties *)

(** A 32-bit number printed in a base up to 16 is the shortest digit string
    denoting it; in base 10 and 16 it fits the 12-byte conversion buffer. *)
Theorem ui2a_correct num base uc :
  2 <= base <= 16 -> 0 <= num < 2 ^ 32 ->
  exists l, ui2a num base uc = inr l /\ value base l = num /\ Forall (is_digit base) l
    /\ (length l = 1%nat \/ base ^ (Z.of_nat (length l) - 1) <= num)
    /\ (10 <= base -> into_bf (ui2a num base uc) = inr l).
Proof.
  intros Hb Hn. rewrite ui2a_uli2a.
  destruct (uli2a_spec num base uc Hb Hn) as (j & l & E & Ll & Vl & Dl & _ & _ & Hj).
  exists l. rewrite E. split; [done|]. split; [done|]. split; [done|]. split.
  - rewrite Ll. replace (Z.of_nat (S j) - 1) with (Z.of_nat j) by lia. destruct Hj as [->|?]; auto.
  - intros H10. cbn [into_bf]. unfold BF_SIZE.
    pose proof (uli2a_length num base uc l Hb Hn E 10 ltac:(lia)) as H.
    replace (_ <? 12) with true; [done|]. symmetry. apply Z.ltb_lt.
    enough (num < base ^ 10) by lia. assert (10 ^ 10 <= base ^ 10) by (apply Z.pow_le_mono_l; lia). lia.
Qed.

(** The kernel's way to print a 64-bit value, two [%08x] of its halves,
    prints exactly its sixteen hexadecimal digits. *)
Theorem print_hex64_correct v :
  0 <= v < 2 ^ 64 ->
  exists l, tfp_format (str "0x%08x%08x") [AInt (Z.shiftr v 32); AInt (Z.shiftr (u64 (Z.shiftl v 32)) 32)]
            = inr (str "0x" ++ l) /\ length l = 16%nat /\ value 16 l = v.
Proof.
  intros Hv.
  assert (Hhi : u32 (Z.shiftr v 32) = v / 2 ^ 32).
  { rewrite Z.shiftr_div_pow2 by lia. apply u32_small.
    split; [apply Z.div_pos; lia|]. apply Z.div_lt_upper_bound; lia. }
  assert (Hlo : u32 (Z.shiftr (u64 (Z.shiftl v 32)) 32) = v mod 2 ^ 32).
  { rewrite Z.shiftr_div_pow2, Z.shiftl_mul_pow2 by lia. unfold u64.
    change (2 ^ 64) with (2 ^ 32 * 2 ^ 32). rewrite Z.mul_mod_distr_r by lia.
    rewrite Z.div_mul by lia. apply u32_small. apply Z.mod_pos_bound. lia. }
  destruct (hex8_spec (v / 2 ^ 32)) as (b1 & E1 & L1 & V1).
  { split; [apply Z.div_pos; lia|]. apply Z.div_lt_upper_bound; lia. }
  destruct (hex8_spec (v mod 2 ^ 32)) as (b2 & E2 & L2 & V2); [apply Z.mod_pos_bound; lia|].
  exists (putchw 8 true b1 ++ putchw 8 true b2). split.
  - rewrite <- Hhi in E1. rewrite <- Hlo in E2. unfold tfp_format.
    change (str "0x%08x%08x") with [48; 120; 37; 48; 56; 120; 37; 48; 56; 120]. cbn [length].
    rewrite !tfp_lit by lia. rewrite (tfp_08x _ _ _ _ _ E1), (tfp_08x _ _ _ _ _ E2).
    cbn [tfp_loop getc Z.eqb cat_out emit_char]. by rewrite app_nil_r.
  - rewrite length_app, L1, L2. split; [done|]. rewrite value_app, L2, V1, V2.
    change (16 ^ Z.of_nat 8) with (2 ^ 32). pose proof (Z.div_mod v (2 ^ 32)). lia.
Qed.

(** The long conversion keeps its divisor in 32 bits: a hexadecimal value of
    more than 32 bits, or a decimal one from 10 * 2^32, drives the divisor to 0
    and divides by it. *)
Theorem uli2a_divides_by_zero num base uc :
  (base = 16 /\ 2 ^ 32 <= num) \/ (base = 10 /\ 10 * 2 ^ 32 <= num) ->
  uli2a num base uc = inl DivByZero.
Proof.
  intros H.
  assert (step : forall f d, 0 < d -> base * d <= num ->
    scale_loop (S f) num base d = scale_loop f num base (u32 (d * base))).
  { intros f d Hd Hle. cbn [scale_loop]. decb.
    replace (base <=? num / d) with true; [done|]. symmetry. apply Z.leb_le.
    apply Z.div_le_lower_bound; lia. }
  unfold uli2a, itoa_fuel.
  destruct H as [[-> H]|[-> H]];
    repeat (rewrite step by lia; match goal with |- context [u32 (?a * ?b)] =>
      let r := eval vm_compute in (u32 (a * b)) in change (u32 (a * b)) with r end);
    by cbn [scale_loop].
Qed.

(** Formatting terminates on every format string and argument list. *)
Theorem tfp_format_terminates fmt va : tfp_format fmt va <> inl OutOfFuel.
Proof. apply tfp_loop_total. lia. Qed.

(** C38. A call whose arguments fit its format prints: no conversion overflows the
    12-byte buffer, divides by zero or misses its argument. *)
Theorem printf_well_typed fmt va : well_typed fmt va = true -> exists out, tfp_format fmt va = inr out.
Proof. apply tfp_loop_well_typed. Qed.

Lemma a2i_value base : 2 <= base -> forall l ch num,
  0 <= num -> is_digit base ch -> Forall (is_digit base) l ->
  (num * base + a2d ch) * base ^ Z.of_nat (length l) + value base l < 2 ^ 31 ->
  a2i ch l base num = (0, [], (num * base + a2d ch) * base ^ Z.of_nat (length l) + value base l).
Proof.
  intros Hb. induction l as [|c l IH]; intros ch num Hn Hc Hl Hlt; cbn [a2i]; unfold is_digit in Hc.
  - replace (0 <=? a2d ch) with true by lia. replace (base <? a2d ch) with false by lia. cbn -[a2d] in *.
    unfold s32. rewrite swrap_small by (cbn; nia). f_equal. unfold value. cbn. lia.
  - replace (0 <=? a2d ch) with true by lia. replace (base <? a2d ch) with false by lia. cbn [andb negb].
    apply Forall_cons in Hl as [Hc2 Hl]. rewrite value_cons in *. cbn [length] in *.
    rewrite Nat2Z.inj_succ, Z.pow_succ_r in * by lia.
    assert (P : 0 < base ^ Z.of_nat (length l)) by (apply Z.pow_pos_nonneg; lia).
    assert (V : forall l', Forall (is_digit base) l' -> 0 <= value base l').
    { clear -Hb. induction 1 as [|x l' Hx Hl' IH']; [unfold value; cbn; lia|]. rewrite value_cons.
      unfold is_digit in Hx. pose proof (Z.pow_nonneg base (Z.of_nat (length l'))). nia. }
    pose proof (V l Hl). unfold is_digit in Hc2.
    assert (X0 : 0 <= num * base + a2d ch) by nia.
    set (X := num * base + a2d ch) in *. set (Q := base ^ Z.of_nat (length l)) in *.
    assert (0 <= a2d c * Q) by nia. assert (1 * 1 <= base * Q) by (apply Z.mul_le_mono_nonneg; lia).
    assert (X * 1 <= X * (base * Q)) by (apply Z.mul_le_mono_nonneg_l; lia).
    unfold s32. rewrite swrap_small by (cbn; lia).
    rewrite IH; [fold Q; f_equal; lia|lia|done|done|fold Q; lia].
Qed.

(** Reading back: the field-width parser applied to the decimal digits of a
    number that an [int] holds returns that number. *)
Theorem a2i_ui2a_roundtrip num :
  0 <= num < 2 ^ 31 ->
  exists c l, ui2a num 10 false = inr (c :: l) /\ a2i c l 10 0 = (0, [], num).
Proof.
  intros Hn. rewrite ui2a_uli2a.
  destruct (uli2a_spec num 10 false) as (j & l & E & Ll & Vl & Dl & _); [lia|lia|].
  destruct l as [|c l]; [done|]. exists c, l. split; [done|].
  apply Forall_cons in Dl as [Hc Hl]. rewrite value_cons in Vl.
  rewrite a2i_value; [f_equal; lia|lia|lia|done|done|lia].
Qed.

(** ** Witnesses *)

Lemma printf_well_typed_witness : exists out,
  tfp_format (str "Thread %d exiting with retcode: %d%s %lx%%") [AInt 3; AInt (-1); AStr (str "!"); AInt 0xffff] = inr out.
Proof. apply printf_well_typed. reflexivity. Defined.

Lemma print_hex64_correct_witness :
  exists l, tfp_format (str "0x%08x%08x")
      [AInt (Z.shiftr 0xffff000000401000 32); AInt (Z.shiftr (u64 (Z.shiftl 0xffff000000401000 32)) 32)]
    = inr (str "0x" ++ l) /\ length l = 16%nat /\ value 16 l = 0xffff000000401000.
Proof. apply (print_hex64_correct 0xffff000000401000). lia. Defined.

Lemma ui2a_correct_witness :
  exists l, ui2a 4294967295 10 false = inr l /\ value 10 l = 4294967295 /\ Forall (is_digit 10) l
    /\ (length l = 1%nat \/ 10 ^ (Z.of_nat (length l) - 1) <= 4294967295)
    /\ (10 <= 10 -> into_bf (ui2a 4294967295 10 false) = inr l).
Proof. apply (ui2a_correct 4294967295 10 false); lia. Defined.

Lemma uli2a_divides_by_zero_witness : uli2a 0xffff000000000000 16 false = inl DivByZero.
Proof. apply uli2a_divides_by_zero. left. lia. Defined.

Lemma a2i_ui2a_roundtrip_witness :
  exists c l, ui2a 1080 10 false = inr (c :: l) /\ a2i c l 10 0 = (0, [], 1080).
Proof. apply (a2i_ui2a_roundtrip 1080). lia. Defined.
