(* ===== verification/Kstate.v ===== *)
(** * The kernel's state

    One record holds what the C code keeps in memory and in its static
    variables.  Raw memory (heap, pages, page tables, ramdisk) is byte-addressed
    ([k_mem]); task structures and saved user registers, which live in kernel
    pages of their own, are typed objects keyed by their address ([k_tasks],
    [k_regs]); the remaining fields are the static variables of the files under
    src/, grouped by file. *)

From S2P Require Export Memory Printf.

(** ** include/scheduler/task.h *)

Inductive TaskState :=
  | TASK_STATE_RUNNING
  | TASK_STATE_BLOCKED
  | TASK_STATE_SUSPENDED
  | TASK_STATE_WAITING
  | TASK_STATE_ZOMBIE.

#[export] Instance TaskState_eq_dec : EqDecision TaskState.
Proof. solve_decision. Defined.

Record cpu_context := CpuContext {
  x19 : Z; x20 : Z; x21 : Z; x22 : Z; x23 : Z; x24 : Z; x25 : Z; x26 : Z;
  x27 : Z; x28 : Z; fp : Z; sp : Z; pc : Z }.
Definition zero_context : cpu_context := CpuContext 0 0 0 0 0 0 0 0 0 0 0 0 0.

Record user_page := UserPage { physical_adr : Z; virtual_adr : Z }.

(** The two arrays have [MAX_PROCESS_PAGES] entries. *)
Definition MAX_PROCESS_PAGES : Z := 16.
Record mm_t := Mm {
  pagedirectory : Z;
  userpages_count : Z;
  userpages : list user_page;
  kernelpages_count : Z;
  kernelpages : list Z }.
Definition zero_mm : mm_t :=
  Mm 0 0 (replicate 16 (UserPage 0 0)) 0 (replicate 16 0).

(** include/fs/fd.h: two pointers to kernel-heap blocks. *)
Record file_desc_table_t := FdTable { fd_bitmap : Z; fd_file : Z }.

Record task_struct := Task {
  t_context : cpu_context;
  state : TaskState;
  counter : Z;
  priority : Z;
  preempt_count : Z;
  stack : Z;
  flags : Z;
  t_mm : mm_t;
  fd_table : file_desc_table_t }.

Definition TASK_FLAGS_KERNEL_THREAD : Z := 2.
Definition TASK_SIZE : Z := 4096.
(** [sizeof(task_pt_regs)]: 31 + 3 words. *)
Definition SIZEOF_PT_REGS : Z := 272.

(** A task structure in a page just zeroed by the page allocator. *)
Definition zero_task : task_struct :=
  Task zero_context TASK_STATE_RUNNING 0 0 0 0 0 zero_mm (FdTable 0 0).
Definition INIT_TASK : task_struct :=
  Task zero_context TASK_STATE_RUNNING 0 1 0 0 TASK_FLAGS_KERNEL_THREAD zero_mm (FdTable 0 0).

Record task_pt_regs := PtRegs { regs : list Z; pt_sp : Z; pt_pc : Z; pstate : Z }.
Definition zero_regs : task_pt_regs := PtRegs (replicate 31 0) 0 0 0.

Definition set_context c t := Task c (state t) (counter t) (priority t) (preempt_count t) (stack t) (flags t) (t_mm t) (fd_table t).
Definition set_state x t := Task (t_context t) x (counter t) (priority t) (preempt_count t) (stack t) (flags t) (t_mm t) (fd_table t).
Definition set_counter x t := Task (t_context t) (state t) x (priority t) (preempt_count t) (stack t) (flags t) (t_mm t) (fd_table t).
Definition set_priority x t := Task (t_context t) (state t) (counter t) x (preempt_count t) (stack t) (flags t) (t_mm t) (fd_table t).
Definition set_preempt x t := Task (t_context t) (state t) (counter t) (priority t) x (stack t) (flags t) (t_mm t) (fd_table t).
Definition set_flags x t := Task (t_context t) (state t) (counter t) (priority t) (preempt_count t) (stack t) x (t_mm t) (fd_table t).
Definition set_mm x t := Task (t_context t) (state t) (counter t) (priority t) (preempt_count t) (stack t) (flags t) x (fd_table t).
Definition set_fd_table x t := Task (t_context t) (state t) (counter t) (priority t) (preempt_count t) (stack t) (flags t) (t_mm t) x.

(** ** Static variables, file by file *)

(** src/lib/kmalloc.c *)
Record heap_globals := HeapGlobals {
  first_free : Z;
  heap_start_ptr : Z;
  heap_start_adr : Z;
  kheap_size : Z }.

(** src/scheduler/scheduler.c; [task_array] has [N_TASKS] pointers. *)
Definition N_TASKS : Z := 64.
Record sched_globals := SchedGlobals {
  current : Z;
  task_array : list Z;
  n_tasks : Z }.

(** src/lib/software_timer.c *)
Record onehit_timer_t := OneHit { finish_time : Z; task_ptr : Z }.
Definition N_TIMERS : Z := 5.
Record timer_globals := TimerGlobals {
  timer_arr : list onehit_timer_t;
  current_tick : Z }.

(** src/fs/rdfs/rdfs.c *)
Record rdfs_globals := RdfsGlobals { rdfs_start : Z; first_file : Z; numFiles : Z }.

(** The processor registers the kernel manages: the callee-saved set, the user
    translation base [ttbr0_el1] and the IRQ mask bit of [daif]. *)
Record cpu := Cpu { c_regs : cpu_context; ttbr0 : Z; irq_masked : bool }.

Record kstate := KState {
  k_mem : mem;
  k_heap : heap_globals;
  k_pages : gmap Z Z;
  k_tasks : gmap Z task_struct;
  k_regs : gmap Z task_pt_regs;
  k_sched : sched_globals;
  k_timers : timer_globals;
  k_rdfs : rdfs_globals;
  k_cpu : cpu;
  k_console : list Z }.

Definition with_mem x s := KState x (k_heap s) (k_pages s) (k_tasks s) (k_regs s) (k_sched s) (k_timers s) (k_rdfs s) (k_cpu s) (k_console s).
Definition with_heap x s := KState (k_mem s) x (k_pages s) (k_tasks s) (k_regs s) (k_sched s) (k_timers s) (k_rdfs s) (k_cpu s) (k_console s).
Definition with_pages x s := KState (k_mem s) (k_heap s) x (k_tasks s) (k_regs s) (k_sched s) (k_timers s) (k_rdfs s) (k_cpu s) (k_console s).
Definition with_tasks x s := KState (k_mem s) (k_heap s) (k_pages s) x (k_regs s) (k_sched s) (k_timers s) (k_rdfs s) (k_cpu s) (k_console s).
Definition with_regs x s := KState (k_mem s) (k_heap s) (k_pages s) (k_tasks s) x (k_sched s) (k_timers s) (k_rdfs s) (k_cpu s) (k_console s).
Definition with_sched x s := KState (k_mem s) (k_heap s) (k_pages s) (k_tasks s) (k_regs s) x (k_timers s) (k_rdfs s) (k_cpu s) (k_console s).
Definition with_timers x s := KState (k_mem s) (k_heap s) (k_pages s) (k_tasks s) (k_regs s) (k_sched s) x (k_rdfs s) (k_cpu s) (k_console s).
Definition with_rdfs x s := KState (k_mem s) (k_heap s) (k_pages s) (k_tasks s) (k_regs s) (k_sched s) (k_timers s) x (k_cpu s) (k_console s).
Definition with_cpu x s := KState (k_mem s) (k_heap s) (k_pages s) (k_tasks s) (k_regs s) (k_sched s) (k_timers s) (k_rdfs s) x (k_console s).
Definition with_console x s := KState (k_mem s) (k_heap s) (k_pages s) (k_tasks s) (k_regs s) (k_sched s) (k_timers s) (k_rdfs s) (k_cpu s) x.

(** The state at the entry of [main]: every static variable has its initializer.
    [mapped] says which addresses the boot page tables map, [init] is the address
    of the static [init_task]. *)
Definition boot_state (mapped : Z -> bool) (image : gmap Z Z) (init : Z) : kstate :=
  KState (Mem mapped image)
    (HeapGlobals 0 0 0 (64 * 4096)) ∅ {[init := INIT_TASK]} ∅
    (SchedGlobals init (init :: replicate 63 0) 1)
    (TimerGlobals (replicate 5 (OneHit 0 0)) 0)
    (RdfsGlobals 0 0 0)
    (Cpu zero_context 0 true) [].

(** The monad of the kernel's operations. *)
Abbreviation K := (M kstate).

(** ** Memory accesses *)

(** Address of a member or an array element: pointer arithmetic wraps. *)
Definition ptr_add (p o : Z) : Z := u64 (p + o).

Definition loadn (n : nat) (a : Z) : K Z := fun s =>
  match ldn n (k_mem s) a with Some v => Ok v s | None => Err (BadAccess a) end.
Definition storen (n : nat) (a v : Z) : K unit := fun s =>
  match stn n (k_mem s) a v with Some m => Ok tt (with_mem m s) | None => Err (BadAccess a) end.

Definition load64 : Z -> K Z := loadn 8.
Definition load32 : Z -> K Z := loadn 4.
Definition load16 : Z -> K Z := loadn 2.
Definition load8 : Z -> K Z := loadn 1.
Definition store64 : Z -> Z -> K unit := storen 8.
Definition store32 : Z -> Z -> K unit := storen 4.
Definition store8 : Z -> Z -> K unit := storen 1.

Lemma load64_ok s a v : ldn 8 (k_mem s) a = Some v -> load64 a s = Ok v s.
Proof. intros E. unfold load64, loadn. by rewrite E. Qed.
Lemma store64_ok s a v m : stn 8 (k_mem s) a v = Some m -> store64 a v s = Ok tt (with_mem m s).
Proof. intros E. unfold store64, storen. by rewrite E. Qed.
Lemma load8_ok s a v : ld8 (k_mem s) a = Some v -> load8 a s = Ok v s.
Proof. intros E. unfold load8, loadn. cbn. rewrite E. cbn. by rewrite Z.add_0_r. Qed.
Lemma load64_fault s a : m_valid (k_mem s) a = false -> load64 a s = Err (BadAccess a).
Proof.
  intros E. assert (L : ld8 (k_mem s) a = None) by (unfold ld8; by rewrite E).
  unfold load64, loadn. cbn. by rewrite L.
Qed.

(** ** Console output: [printf] through [putc] (src/kernel.c) *)

Definition printf (fmt : list Z) (va : list arg) : K unit := fun s =>
  match tfp_format fmt va with
  | inr out => Ok tt (with_console (k_console s ++ out) s)
  | inl e => Err e
  end.

(** ** Tasks *)

Definition get_task (p : Z) : K task_struct := fun s =>
  match k_tasks s !! p with Some t => Ok t s | None => Err (BadAccess p) end.
Definition put_task (p : Z) (t : task_struct) : K unit := fun s =>
  match k_tasks s !! p with
  | Some _ => Ok tt (with_tasks (<[p := t]> (k_tasks s)) s)
  | None => Err (BadAccess p)
  end.
Definition modify_task (p : Z) (f : task_struct -> task_struct) : K unit :=
  t ← get_task p; put_task p (f t).

Lemma modify_task_ok p f s t :
  k_tasks s !! p = Some t -> modify_task p f s = Ok tt (with_tasks (<[p := f t]> (k_tasks s)) s).
Proof.
  intros E. unfold modify_task, get_task, put_task, mbind, M_bind. by rewrite !E.
Qed.
