(* ===== verification/MemUtils.v ===== *)
(** * Memory utilities (src/asm/utils.S)

    The assembly loops behind [memcpy], [memzero], [strcmp] and [strcpy_s], as
    declared in include/utils/memutils.h.  All of them test their counter after
    the access: they are do-while loops. *)

From S2P Require Export Kstate.

(** [subs x, x, #k] then [b.gt]: the signed value before was above [k]. *)
Definition subs_gt (x k : Z) : bool := k <? s64 x.

(** [ldr; str; subs; b.gt] on [k]-byte chunks: [memcpy_u64] and [memcpy_u8]. *)
Definition copy_body (k : nat) : Z * Z * Z -> K ((Z * Z * Z) + unit) := fun '(dest, src, size) =>
  x ← loadn k src;
  _ ← storen k dest x;
  if subs_gt size (Z.of_nat k)
  then mret (inl (ptr_add dest (Z.of_nat k), ptr_add src (Z.of_nat k), u64 (size - Z.of_nat k)))
  else mret (inr tt).

Definition memcpy_u64 (dest src size : Z) : K unit := loop (copy_body 8) (dest, src, size).
Definition memcpy_u8 (dest src size : Z) : K unit := loop (copy_body 1) (dest, src, size).

(** [msub x4, x2, x5, x2] is [x2 - x2 * x5]: the quotient in [x3] is not used. *)
Definition memcpy (dest src size : Z) : K unit :=
  let x5 := 64 in
  let x4 := u64 (size - size * x5) in
  if u64 (x4 - 0) =? 0 then memcpy_u64 dest src size else memcpy_u8 dest src size.

(** [str zr]: [width] bytes are stored, the pointer moves by [step]. *)
Definition zero_body (width : nat) (step : Z) : Z * Z -> K ((Z * Z) + unit) := fun '(start, size) =>
  _ ← storen width start 0;
  if subs_gt size step then mret (inl (ptr_add start step, u64 (size - step))) else mret (inr tt).

Definition memzero (start size : Z) : K unit := loop (zero_body 8 8) (start, size).
(** [str wzr, [x0], #1]: a 32-bit store, one byte at a time. *)
Definition memzero_u8 (start size : Z) : K unit := loop (zero_body 4 1) (start, size).

(** Returns the difference of the first bytes that differ, or of the bytes at
    the first terminator. *)
Definition strcmp_body : Z * Z -> K ((Z * Z) + Z) := fun '(a, b) =>
  w3 ← load8 a;
  w4 ← load8 b;
  if (w3 =? 0) || (w4 =? 0) then mret (inr (w3 - w4))
  else if w3 - w4 =? 0 then mret (inl (ptr_add a 1, ptr_add b 1))
  else mret (inr (w3 - w4)).
Definition strcmp (a b : Z) : K Z := r ← loop strcmp_body (a, b); mret (s8 r).

(** The copy loop of [strcpy_s] moves 32-bit words one byte apart and leaves on
    the first word that is not positive. *)
Definition strcpy_s_body : Z * Z * Z -> K ((Z * Z * Z) + unit) := fun '(dest, destsz, src) =>
  if destsz =? 0 then mret (inr tt)
  else
    w3 ← load32 src;
    _ ← store32 dest w3;
    if 0 <? s32 w3 then mret (inl (ptr_add dest 1, destsz - 1, ptr_add src 1)) else mret (inr tt).
Definition strcpy_s (dest destsz src : Z) : K unit := loop strcpy_s_body (dest, destsz, src).

(** The store loop of [memset] has no [ret]: control falls through into
    [strcmp], which compares the memory after the filled area with the memory at
    the address [x]. *)
Definition memset_body (x : Z) : Z * Z -> K ((Z * Z) + Z) := fun '(start, size) =>
  _ ← store64 start x;
  if subs_gt size 8 then mret (inl (ptr_add start 8, u64 (size - 8))) else mret (inr (ptr_add start 8)).
Definition memset (start x size : Z) : K Z :=
  e ← loop (memset_body x) (start, size); strcmp e x.

(** ** Lemmas *)

Lemma land_1 z : Z.land z 1 = Z.b2z (Z.testbit z 0).
Proof. change 1 with (Z.ones 1). rewrite Z.land_ones, Z.pow_1_r by lia. by rewrite Z.bit0_mod. Qed.

(** The bytes of a value loaded and stored elsewhere. *)
Lemma ldn_stn_copy k : forall m m0 src dest v m',
  ldn k m src = Some v -> stn k m0 dest v = Some m' ->
  forall i, 0 <= i < Z.of_nat k -> ld8 m' (dest + i) = ld8 m (src + i).
Proof.
  induction k as [|k IH]; intros m m0 src dest v m' Hl Hs i Hi; [lia|].
  cbn -[Z.pow] in Hl, Hs. destruct (ld8 m src) as [b|] eqn:Eb; cbn -[Z.pow] in Hl; [|done].
  destruct (ldn k m (src + 1)) as [r|] eqn:Er; cbn -[Z.pow] in Hl; [|done]. injection Hl as <-.
  destruct (st8 m0 dest (b + 2 ^ 8 * r)) as [m1|] eqn:E1; cbn -[Z.pow] in Hs; [|done].
  pose proof (ld8_range _ _ _ Eb) as Hb.
  replace ((b + 2 ^ 8 * r) / 2 ^ 8) with r in Hs.
  2: { rewrite Z.mul_comm, Z.div_add by lia. rewrite Z.div_small by lia. lia. }
  destruct (Z.eq_dec i 0) as [->|].
  - rewrite !Z.add_0_r, Eb. rewrite (ld8_stn_other _ _ _ _ _ _ Hs) by lia.
    rewrite (ld8_st8_same _ _ _ _ E1). f_equal. unfold u8.
    replace (b + 2 ^ 8 * r) with (b + r * 2 ^ 8) by lia. rewrite Z_mod_plus_full. apply Z.mod_small. lia.
  - replace (dest + i) with (dest + 1 + (i - 1)) by lia.
    replace (src + i) with (src + 1 + (i - 1)) by lia. eapply IH; eauto. lia.
Qed.

(** Frame and content of a copy of [n] bytes. *)
Definition copied (n dest src : Z) (m m' : mem) : Prop :=
  (forall i, 0 <= i < n -> ld8 m' (dest + i) = ld8 m (src + i))
  /\ same_on (fun a => a < dest \/ dest + n <= a) m m' /\ m_valid m' = m_valid m.

Lemma copy_loops k (n : nat) : forall s dest src size,
  (0 < k)%nat -> 0 < size < 2 ^ 63 ->
  Z.of_nat n * Z.of_nat k < size <= (Z.of_nat n + 1) * Z.of_nat k ->
  let len := (Z.of_nat n + 1) * Z.of_nat k in
  valid_range (k_mem s) src len -> valid_range (k_mem s) dest len ->
  0 <= src -> src + len < 2 ^ 64 -> 0 <= dest -> dest + len < 2 ^ 64 ->
  src + len <= dest \/ dest + len <= src ->
  exists m', loops (copy_body k) (S n) (dest, src, size) s tt (with_mem m' s)
    /\ copied len dest src (k_mem s) m'.
Proof.
  induction n as [|n IH]; intros s dest src size Hk Hsz Hn len Vs Vd Hs0 Hs1 Hd0 Hd1 Hdj;
    (destruct (ldn_ok k (k_mem s) src) as [v Ev]; [intros i Hi; apply Vs; nia|]);
    (destruct (stn_ok k (k_mem s) dest v) as [m1 E1]; [intros i Hi; apply Vd; nia|]);
    pose proof (ldn_stn_copy _ _ _ _ _ _ _ Ev E1) as C1;
    assert (S64 : s64 size = size) by (apply swrap_small; cbn; lia).
  - exists m1. split.
    + apply loops_done. unfold copy_body, loadn, storen, mbind, M_bind. rewrite Ev, E1.
      unfold subs_gt. rewrite S64. by replace (_ <? size) with false by lia.
    + unfold len. rewrite Z.mul_1_l || replace ((Z.of_nat 0 + 1) * Z.of_nat k) with (Z.of_nat k) by lia.
      split; [done|]. split; [|by eapply stn_valid_eq]. eapply same_on_stn; [done|]. lia.
  - set (s1 := with_mem m1 s).
    assert (V1 : m_valid m1 = m_valid (k_mem s)) by (by eapply stn_valid_eq).
    destruct (IH s1 (dest + Z.of_nat k) (src + Z.of_nat k) (size - Z.of_nat k)) as (m' & L & C & F & V);
      [done|lia|lia| | |lia|lia|lia|lia|lia|].
    { intros i Hi. cbn. rewrite V1. apply Vs. lia. }
    { intros i Hi. cbn. rewrite V1. apply Vd. lia. }
    exists m'. split.
    + eapply loops_step; [|exact L]. unfold copy_body, loadn, storen, mbind, M_bind. rewrite Ev, E1.
      unfold subs_gt. rewrite S64. replace (_ <? size) with true by lia.
      unfold ptr_add. by rewrite !u64_small by lia.
    + cbn in C, F, V. split; [|split; [|congruence]].
      * intros i Hi. destruct (Z_lt_le_dec i (Z.of_nat k)).
        -- rewrite (F (dest + i)) by lia. apply C1. lia.
        -- specialize (C (i - Z.of_nat k) ltac:(lia)).
           replace (dest + Z.of_nat k + (i - Z.of_nat k)) with (dest + i) in C by lia.
           replace (src + Z.of_nat k + (i - Z.of_nat k)) with (src + i) in C by lia.
           rewrite C. apply (ld8_stn_other _ _ _ _ _ _ E1). lia.
      * intros a Ha. rewrite (F a) by lia. apply (ld8_stn_other _ _ _ _ _ _ E1). lia.
Qed.

Lemma zero_stn k : forall m a m' i, stn k m a 0 = Some m' -> 0 <= i < Z.of_nat k -> ld8 m' (a + i) = Some 0.
Proof.
  induction k as [|k IH]; intros m a m' i H Hi; [lia|].
  cbn in H. destruct (st8 m a 0) as [m1|] eqn:E; cbn in H; [|done]. rewrite Zdiv_0_l in H.
  destruct (Z.eq_dec i 0) as [->|].
  - rewrite Z.add_0_r. rewrite (ld8_stn_other _ _ _ _ _ _ H) by lia. by rewrite (ld8_st8_same _ _ _ _ E).
  - replace (a + i) with (a + 1 + (i - 1)) by lia. eapply IH; [done|lia].
Qed.

(** Frame and content of a zeroed area. *)
Definition zeroed (n start : Z) (m m' : mem) : Prop :=
  (forall i, 0 <= i < n -> ld8 m' (start + i) = Some 0)
  /\ same_on (fun a => a < start \/ start + n <= a) m m' /\ m_valid m' = m_valid m.

(** [width] bytes stored every [step] bytes: the last store sticks out. *)
Lemma zero_loops width step (n : nat) : forall s start size,
  0 < step <= Z.of_nat width -> 0 < size < 2 ^ 63 ->
  Z.of_nat n * step < size <= (Z.of_nat n + 1) * step ->
  let len := Z.of_nat n * step + Z.of_nat width in
  valid_range (k_mem s) start len -> 0 <= start -> start + len < 2 ^ 64 ->
  exists m', loops (zero_body width step) (S n) (start, size) s tt (with_mem m' s)
    /\ zeroed len start (k_mem s) m'.
Proof.
  induction n as [|n IH]; intros s start size Hst Hsz Hn len Vd Hd0 Hd1;
    (destruct (stn_ok width (k_mem s) start 0) as [m1 E1]; [intros i Hi; apply Vd; lia|]);
    pose proof (fun i => zero_stn _ _ _ _ i E1) as Z1;
    assert (S64 : s64 size = size) by (apply swrap_small; cbn; lia).
  - exists m1. split.
    + apply loops_done. unfold zero_body, storen, mbind, M_bind. rewrite E1.
      unfold subs_gt. rewrite S64. by replace (_ <? size) with false by lia.
    + split; [intros i Hi; apply Z1; lia|]. split; [|by eapply stn_valid_eq].
      eapply same_on_stn; [done|]. lia.
  - set (s1 := with_mem m1 s).
    assert (V1 : m_valid m1 = m_valid (k_mem s)) by (by eapply stn_valid_eq).
    destruct (IH s1 (start + step) (size - step)) as (m' & L & C & F & V); [done|lia|lia| |lia|lia|].
    { intros i Hi. cbn. rewrite V1. apply Vd. lia. }
    exists m'. split.
    + eapply loops_step; [|exact L]. unfold zero_body, storen, mbind, M_bind. rewrite E1.
      unfold subs_gt. rewrite S64. replace (_ <? size) with true by lia.
      unfold ptr_add. by rewrite !u64_small by lia.
    + cbn in C, F, V. split; [|split; [|congruence]].
      * intros i Hi. destruct (Z_lt_le_dec i step).
        -- rewrite (F (start + i)) by lia. apply Z1. lia.
        -- specialize (C (i - step) ltac:(lia)). by replace (start + step + (i - step)) with (start + i) in C by lia.
      * intros a Ha. rewrite (F a) by lia. apply (ld8_stn_other _ _ _ _ _ _ E1). lia.
Qed.

Lemma memzero_run s start size :
  0 < size < 2 ^ 63 -> size mod 8 = 0 ->
  valid_range (k_mem s) start size -> 0 <= start -> start + size < 2 ^ 64 ->
  exists m', memzero start size s = Ok tt (with_mem m' s) /\ zeroed size start (k_mem s) m'.
Proof.
  intros Hsz H8 V Hs He. pose proof (Z.div_mod size 8 ltac:(lia)) as D.
  destruct (zero_loops 8 8 (Z.to_nat (size / 8 - 1)) s start size) as (m' & L & Z);
    rewrite ?Z2Nat.id in * by lia; [lia..|intros i Hi; apply V; lia|lia|lia|].
  exists m'. split.
  - apply (loops_loop _ _ _ _ _ _ L). lia.
  - by replace ((size / 8 - 1) * 8 + Z.of_nat 8) with size in Z by lia.
Qed.

Lemma memzero_u8_run s start size :
  0 < size < 2 ^ 63 ->
  valid_range (k_mem s) start (size + 3) -> 0 <= start -> start + size + 3 < 2 ^ 64 ->
  exists m', memzero_u8 start size s = Ok tt (with_mem m' s) /\ zeroed (size + 3) start (k_mem s) m'.
Proof.
  intros Hsz V Hs He.
  destruct (zero_loops 4 1 (Z.to_nat (size - 1)) s start size) as (m' & L & Z);
    rewrite ?Z2Nat.id in * by lia; [lia..|intros i Hi; apply V; lia|lia|lia|].
  exists m'. split.
  - apply (loops_loop _ _ _ _ _ _ L). lia.
  - by replace ((size - 1) * 1 + Z.of_nat 4) with (size + 3) in Z by lia.
Qed.

(** The remainder that selects the loop is 0 only for the size 0. *)
Lemma memcpy_path dest src size : 0 <= size < 2 ^ 64 ->
  memcpy dest src size = if size =? 0 then memcpy_u64 dest src size else memcpy_u8 dest src size.
Proof.
  intros H. unfold memcpy. rewrite Z.sub_0_r. unfold u64. rewrite Zmod_mod.
  destruct (Z.eqb_spec size 0) as [->|N]; [reflexivity|].
  destruct (Z.eqb_spec ((size - size * 64) mod 2 ^ 64) 0) as [E|]; [|done]. exfalso.
  assert (D : (2 ^ 64 | 63 * size)).
  { apply Z.mod_divide in E; [|lia]. replace (63 * size) with (- (size - size * 64)) by lia. by apply Z.divide_opp_r. }
  apply Z.gauss in D; [|reflexivity]. apply Z.divide_pos_le in D; lia.
Qed.

Lemma memcpy_run s dest src size :
  0 < size < 2 ^ 63 ->
  valid_range (k_mem s) src size -> valid_range (k_mem s) dest size ->
  0 <= src -> src + size < 2 ^ 64 -> 0 <= dest -> dest + size < 2 ^ 64 ->
  src + size <= dest \/ dest + size <= src ->
  exists m', memcpy dest src size s = Ok tt (with_mem m' s) /\ copied size dest src (k_mem s) m'.
Proof.
  intros Hsz Vs Vd Hs0 Hs1 Hd0 Hd1 Hdj. rewrite memcpy_path by lia. rewrite (proj2 (Z.eqb_neq size 0)) by lia.
  destruct (copy_loops 1 (Z.to_nat (size - 1)) s dest src size) as (m' & L & Z);
    rewrite ?Z2Nat.id in * by lia;
    replace ((size - 1 + 1) * Z.of_nat 1) with size in * by lia; try done; try lia.
  exists m'. split; [|done]. apply (loops_loop _ _ _ _ _ _ L). lia.
Qed.

(** ** C strings in memory *)

(** The characters of [l] and a terminator are at [a]. *)
Fixpoint cstr (m : mem) (a : Z) (l : list Z) : Prop :=
  match l with
  | [] => ld8 m a = Some 0
  | c :: r => 0 < c < 2 ^ 8 /\ ld8 m a = Some c /\ cstr m (a + 1) r
  end.

(** The comparison [strcmp] performs, on the strings themselves. *)
Fixpoint str_diff (la lb : list Z) : Z :=
  match la, lb with
  | x :: la, y :: lb => if x =? y then str_diff la lb else x - y
  | x :: _, [] => x
  | [], y :: _ => - y
  | [], [] => 0
  end.

Lemma str_diff_zero la : forall lb,
  Forall (fun c => 0 < c) la -> Forall (fun c => 0 < c) lb -> str_diff la lb = 0 <-> la = lb.
Proof.
  induction la as [|x la IH]; intros [|y lb] Ha Hb; cbn;
    rewrite ?Forall_cons in *; try (split; [lia|done]); [done|].
  destruct Ha as [Hx Ha], Hb as [Hy Hb]. destruct (x =? y) eqn:C.
  - apply Z.eqb_eq in C as ->. rewrite IH by done. split; congruence.
  - apply Z.eqb_neq in C. split; [lia|congruence].
Qed.

Lemma str_diff_range la : forall lb,
  Forall (fun c => 0 < c < 2 ^ 8) la -> Forall (fun c => 0 < c < 2 ^ 8) lb -> - 2 ^ 8 < str_diff la lb < 2 ^ 8.
Proof.
  induction la as [|x la IH]; intros [|y lb] Ha Hb; cbn -[Z.pow]; rewrite ?Forall_cons in *; try lia.
  destruct (x =? y); [apply IH; tauto|lia].
Qed.

Lemma cstr_same m m' (P : Z -> Prop) l : forall a, same_on P m m' -> (forall x, a <= x <= a + Z.of_nat (length l) -> P x) ->
  cstr m a l -> cstr m' a l.
Proof.
  induction l as [|c l IH]; intros a S HP C; cbn [cstr length] in *; [by rewrite (S a) by (apply HP; lia)|].
  destruct C as (C1 & C2 & C3). split; [done|]. split; [by rewrite (S a) by (apply HP; lia)|].
  apply IH; [done|intros x Hx; apply HP; lia|done].
Qed.
Lemma cstr_chars m l : forall a, cstr m a l -> Forall (fun c => 0 < c < 2 ^ 8) l.
Proof. induction l as [|c l IH]; intros a H; [constructor|]. destruct H as (? & _ & ?). eauto. Qed.

Lemma strcmp_loops la : forall lb s a b,
  cstr (k_mem s) a la -> cstr (k_mem s) b lb ->
  0 <= a -> a + Z.of_nat (length la) < 2 ^ 64 -> 0 <= b -> b + Z.of_nat (length lb) < 2 ^ 64 ->
  exists n, (n <= S (length la))%nat /\ loops strcmp_body n (a, b) s (str_diff la lb) s.
Proof.
  induction la as [|x la IH]; intros lb s a b Ha Hb A0 A1 B0 B1.
  - exists 1%nat. split; [lia|]. apply loops_done. cbn in Ha. unfold strcmp_body.
    destruct lb as [|y lb]; cbn in Hb.
    + by rewrite (bind_ok _ _ _ _ _ (load8_ok _ _ _ Ha)), (bind_ok _ _ _ _ _ (load8_ok _ _ _ Hb)).
    + destruct Hb as (_ & Hb & _).
      by rewrite (bind_ok _ _ _ _ _ (load8_ok _ _ _ Ha)), (bind_ok _ _ _ _ _ (load8_ok _ _ _ Hb)).
  - destruct Ha as (Hx & Ha & Hla). destruct lb as [|y lb].
    + exists 1%nat. split; [lia|]. apply loops_done. cbn in Hb. unfold strcmp_body.
      rewrite (bind_ok _ _ _ _ _ (load8_ok _ _ _ Ha)), (bind_ok _ _ _ _ _ (load8_ok _ _ _ Hb)).
      cbn. rewrite orb_true_r, Z.sub_0_r. done.
    + destruct Hb as (Hy & Hb & Hlb). cbn [length] in *.
      assert (E : strcmp_body (a, b) s = if x - y =? 0 then Ok (inl (ptr_add a 1, ptr_add b 1)) s else Ok (inr (x - y)) s).
      { unfold strcmp_body.
        rewrite (bind_ok _ _ _ _ _ (load8_ok _ _ _ Ha)), (bind_ok _ _ _ _ _ (load8_ok _ _ _ Hb)).
        replace (x =? 0) with false by lia. replace (y =? 0) with false by lia. cbn. by destruct (x - y =? 0). }
      cbn [str_diff]. destruct (x =? y) eqn:C.
      * apply Z.eqb_eq in C as <-. rewrite Z.sub_diag in E.
        destruct (IH lb s (a + 1) (b + 1)) as (n & Hn & L); [done|done|lia..|].
        exists (S n). split; [lia|]. eapply loops_step; [|exact L]. rewrite E.
        unfold ptr_add. by rewrite !u64_small by lia.
      * exists 1%nat. split; [lia|]. apply loops_done. rewrite E. by replace (x - y =? 0) with false by lia.
Qed.

Lemma s8_zero d : - 2 ^ 8 < d < 2 ^ 8 -> s8 d = 0 <-> d = 0.
Proof.
  intros H. unfold s8, swrap. change (2 ^ 8) with 256 in *. change (2 ^ (8 - 1)) with 128. cbv zeta.
  split; [|intros ->; reflexivity].
  destruct (d mod 256 <? 128) eqn:C; Z.to_euclidean_division_equations; lia.
Qed.

Lemma strcmp_run s a b la lb :
  cstr (k_mem s) a la -> cstr (k_mem s) b lb ->
  0 <= a -> a + Z.of_nat (length la) < 2 ^ 64 -> 0 <= b -> b + Z.of_nat (length lb) < 2 ^ 64 ->
  exists r, strcmp a b s = Ok r s /\ (r = 0 <-> la = lb).
Proof.
  intros Ha Hb A0 A1 B0 B1. destruct (strcmp_loops la lb s a b) as (n & Hn & L); [done..|].
  exists (s8 (str_diff la lb)). split.
  - unfold strcmp. rewrite (bind_ok _ _ _ _ _ (loops_loop _ _ _ _ _ _ L ltac:(lia))). done.
  - pose proof (cstr_chars _ _ _ Ha) as Ca. pose proof (cstr_chars _ _ _ Hb) as Cb.
    rewrite s8_zero by (by apply str_diff_range).
    apply str_diff_zero; eapply Forall_impl; eauto; cbn; lia.
Qed.

(** ** Properties *)

(** [memcpy] of a non-empty area that does not overlap its source copies
    exactly [size] bytes and changes nothing else. *)
Theorem memcpy_correct s dest src size :
  0 < size < 2 ^ 63 ->
  valid_range (k_mem s) src size -> valid_range (k_mem s) dest size ->
  0 <= src -> src + size < 2 ^ 64 -> 0 <= dest -> dest + size < 2 ^ 64 ->
  src + size <= dest \/ dest + size <= src ->
  exists m', memcpy dest src size s = Ok tt (with_mem m' s) /\ copied size dest src (k_mem s) m'.
Proof. apply memcpy_run. Qed.

(** [memcpy] of an empty area copies eight bytes: the size 0 selects the word
    loop, which tests its counter after the first word. *)
Theorem memcpy_empty_copies_word s dest src :
  valid_range (k_mem s) src 8 -> valid_range (k_mem s) dest 8 ->
  0 <= src -> src + 8 < 2 ^ 64 -> 0 <= dest -> dest + 8 < 2 ^ 64 -> src + 8 <= dest \/ dest + 8 <= src ->
  exists m', memcpy dest src 0 s = Ok tt (with_mem m' s) /\ copied 8 dest src (k_mem s) m'.
Proof.
  intros Vs Vd Hs0 Hs1 Hd0 Hd1 Hdj. rewrite memcpy_path by lia. cbn [Z.eqb].
  destruct (ldn_ok 8 (k_mem s) src) as [v Ev]; [exact Vs|]. destruct (stn_ok 8 (k_mem s) dest v) as [m1 E1]; [exact Vd|].
  exists m1. split.
  - apply (loops_loop _ 1%nat); [|lia]. apply loops_done. unfold copy_body, loadn, storen, mbind, M_bind. by rewrite Ev, E1.
  - split; [exact (ldn_stn_copy _ _ _ _ _ _ _ Ev E1)|]. split; [|by eapply stn_valid_eq].
    eapply same_on_stn; [done|]. cbn. lia.
Qed.

(** [memzero_u8] clears the [size] bytes it is given and the three bytes
    after them. *)
Theorem memzero_u8_overruns s start size :
  0 < size < 2 ^ 63 ->
  valid_range (k_mem s) start (size + 3) -> 0 <= start -> start + size + 3 < 2 ^ 64 ->
  exists m', memzero_u8 start size s = Ok tt (with_mem m' s) /\ zeroed (size + 3) start (k_mem s) m'.
Proof. apply memzero_u8_run. Qed.

(** [strcmp] terminates on two C strings and returns 0, in the 8 bits its
    prototype keeps, exactly when they are equal. *)
Theorem strcmp_decides_equality s a b la lb :
  cstr (k_mem s) a la -> cstr (k_mem s) b lb ->
  0 <= a -> a + Z.of_nat (length la) < 2 ^ 64 -> 0 <= b -> b + Z.of_nat (length lb) < 2 ^ 64 ->
  exists r, strcmp a b s = Ok r s /\ (r = 0 <-> la = lb).
Proof. apply strcmp_run. Qed.

(** ** Witnesses *)

Definition sample_state : kstate :=
  boot_state (fun a => (0 <=? a) && (a <? 4096)) (list_to_map (zip [100; 101; 102; 200; 201] [72; 105; 33; 72; 105])) 1.

Lemma memcpy_correct_witness :
  exists m', memcpy 300 100 3 sample_state = Ok tt (with_mem m' sample_state)
    /\ copied 3 300 100 (k_mem sample_state) m'.
Proof. apply memcpy_correct; try lia; intros i Hi; cbn; lia. Defined.

Lemma memcpy_empty_copies_word_witness :
  exists m', memcpy 300 100 0 sample_state = Ok tt (with_mem m' sample_state)
    /\ copied 8 300 100 (k_mem sample_state) m'.
Proof. apply memcpy_empty_copies_word; try lia; intros i Hi; cbn; lia. Defined.

Lemma memzero_u8_overruns_witness :
  exists m', memzero_u8 100 1 sample_state = Ok tt (with_mem m' sample_state)
    /\ zeroed 4 100 (k_mem sample_state) m'.
Proof. apply (memzero_u8_overruns sample_state 100 1); try lia. intros i Hi; cbn; lia. Defined.

Lemma strcmp_decides_equality_witness :
  exists r, strcmp 100 200 sample_state = Ok r sample_state /\ (r = 0 <-> [72; 105; 33] = [72; 105]).
Proof. apply strcmp_decides_equality; cbn; repeat split; lia. Defined.
