(* ===== verification/Kmalloc.v ===== *)
(** * The kernel heap (src/lib/kmalloc.c, include/lib/kmalloc.h)

    A first-fit allocator over a doubly linked list of free blocks.  A free
    block starts with a [free_mem_header_t] (prev, next, size: 24 bytes), an
    allocated one with its size (8 bytes); both live in the byte memory, so that
    a header really overlays what was stored there before. *)

From S2P Require Export MemUtils.

Definition START_OF_HEAP : Z := 0.
Definition END_OF_HEAP : Z := 2 ^ 64 - 1.
Definition KERNEL_HEAP_SIZE_PAGES : Z := 64.
Definition KERNEL_HEAP_SIZE : Z := KERNEL_HEAP_SIZE_PAGES * 4096.
Definition KERNEL_MALLOC_HEADER_SIZE : Z := 8.

(** Member accesses of [free_mem_header_t]. *)
Definition get_prev (p : Z) : K Z := load64 (ptr_add p 0).
Definition get_next (p : Z) : K Z := load64 (ptr_add p 8).
Definition get_size (p : Z) : K Z := load64 (ptr_add p 16).
Definition set_prev (p v : Z) : K unit := store64 (ptr_add p 0) v.
Definition set_next (p v : Z) : K unit := store64 (ptr_add p 8) v.
Definition set_size (p v : Z) : K unit := store64 (ptr_add p 16) v.

Definition get_first_free : K Z := get (fun s => first_free (k_heap s)).
Definition with_first_free (p : Z) (s : kstate) : kstate :=
  with_heap (HeapGlobals p (heap_start_ptr (k_heap s)) (heap_start_adr (k_heap s)) (kheap_size (k_heap s))) s.
Definition set_first_free (p : Z) : K unit := put (with_first_free p).

Definition kmalloc_init (heap_start : Z) : K unit :=
  _ ← put (fun s => with_heap (HeapGlobals heap_start heap_start heap_start (kheap_size (k_heap s))) s);
  p ← get_first_free;
  n ← get (fun s => kheap_size (k_heap s));
  _ ← memzero p n;
  _ ← set_prev p START_OF_HEAP;
  _ ← set_next p END_OF_HEAP;
  set_size p n.

(** The body of the [if] once a block that fits is found: carve [alloc_size]
    bytes from its start.  The header is copied before it is overwritten. *)
Definition kmalloc_take (block size alloc_size : Z) : K Z :=
  let new_ptr := block in
  prev ← get_prev block;
  next ← get_next block;
  bsize ← get_size block;
  let free_block := ptr_add block alloc_size in
  let rest := u64 (bsize - alloc_size) in
  _ ← (if (prev =? START_OF_HEAP) && (next =? END_OF_HEAP) then
         if rest =? 0 then set_first_free 0
         else
           _ ← set_prev free_block START_OF_HEAP;
           _ ← set_next free_block END_OF_HEAP;
           _ ← set_size free_block rest;
           set_first_free free_block
       else if prev =? START_OF_HEAP then
         if rest =? 0 then
           _ ← set_prev next START_OF_HEAP;
           set_first_free next
         else
           _ ← set_next free_block next;
           n ← get_next free_block;
           _ ← set_prev n free_block;
           _ ← set_size free_block rest;
           _ ← set_prev free_block START_OF_HEAP;
           set_first_free free_block
       else if next =? END_OF_HEAP then
         if rest =? 0 then set_next prev END_OF_HEAP
         else
           _ ← set_prev free_block prev;
           p ← get_prev free_block;
           _ ← set_next p free_block;
           _ ← set_size free_block rest;
           set_next free_block END_OF_HEAP
       else
         if rest =? 0 then
           _ ← set_next prev next;
           set_prev next prev
         else
           _ ← set_prev free_block prev;
           p ← get_prev free_block;
           _ ← set_next p free_block;
           _ ← set_next free_block next;
           n ← get_next free_block;
           _ ← set_prev n free_block;
           set_size free_block rest);
  _ ← store64 new_ptr size;
  mret (ptr_add new_ptr 8).

(** The search.  The loop condition is the code's: a disjunction. *)
Definition kmalloc_body (size alloc_size free_block : Z) : K (Z + Z) :=
  bsize ← get_size free_block;
  if alloc_size <=? bsize then
    p ← kmalloc_take free_block size alloc_size; mret (inr p)
  else
    free_block ← get_next free_block;
    if negb (free_block =? END_OF_HEAP) || negb (free_block =? START_OF_HEAP)
    then mret (inl free_block) else mret (inr 0).

Definition kmalloc (size : Z) : K Z :=
  let alloc_size := u64 (size + KERNEL_MALLOC_HEADER_SIZE) in
  first ← get_first_free;
  if first =? 0 then
    _ ← printf (str "KMALLOC FAILED" ++ [10]) []; mret 0
  else loop (kmalloc_body size alloc_size) first.

(** [while(free_block->next != END_OF_HEAP)]: the block at which the search of
    [kfree] stops, and whether it lies after [ptr]. *)
Definition kfree_search_body (ptr : Z) (free_block : Z) : K (Z + (Z * bool)) :=
  next ← get_next free_block;
  if next =? END_OF_HEAP then mret (inr (free_block, false))
  else if ptr <? free_block then mret (inr (free_block, true))
  else free_block ← get_next free_block; mret (inl free_block).

(** The single-block test, then the search, then the test on the last block. *)
Definition kfree_search (ptr free_block : Z) : K (Z * bool) :=
  next ← get_next free_block;
  single ← (if next =? END_OF_HEAP then
              prev ← get_prev free_block; mret (prev =? START_OF_HEAP)
            else mret false);
  if single : bool then mret (free_block, true)
  else
    r ← loop (kfree_search_body ptr) free_block;
    let '(fb, found) := (r : Z * bool) in
    if found then mret (fb, true)
    else next ← get_next fb; mret (fb, (next =? END_OF_HEAP) && (ptr <? fb)).

(** No free block lies after the block to free. *)
Definition kfree_tail (header_adr size free_block : Z) : K unit :=
  next ← get_next free_block;
  if (next =? END_OF_HEAP) && (free_block <=? header_adr) then
    if free_block <? header_adr then
      _ ← set_next free_block header_adr;
      _ ← set_prev header_adr free_block;
      set_size header_adr size
    else
      fsize ← get_size free_block;
      set_size free_block (u64 (fsize + size))
  else mret tt.

(** [*dst = tmp] for a header moved [size] bytes down, grown by [size]. *)
Definition move_block_down (free_block size : Z) : K Z :=
  prev ← get_prev free_block;
  next ← get_next free_block;
  fsize ← get_size free_block;
  let free_block := u64 (free_block - size) in
  _ ← set_prev free_block prev;
  _ ← set_next free_block next;
  _ ← set_size free_block (u64 (fsize + size));
  mret free_block.

(** The block found is the first of the list. *)
Definition kfree_head (header_adr size free_block : Z) : K unit :=
  if u64 (header_adr + size) =? free_block then
    free_block ← move_block_down free_block size;
    _ ← set_first_free free_block;
    next ← get_next free_block;
    if negb (next =? END_OF_HEAP) then
      n ← get_next free_block; set_prev n free_block
    else mret tt
  else
    _ ← set_prev header_adr START_OF_HEAP;
    _ ← set_next header_adr free_block;
    _ ← set_size header_adr size;
    _ ← set_prev free_block header_adr;
    set_first_free header_adr.

(** The general case, with the code's contiguity tests. *)
Definition kfree_middle (header_adr size free_block : Z) : K unit :=
  prev ← get_prev free_block;
  psize ← get_size prev;
  let end_of_prev := u64 (prev + psize) in
  let prev_contig_header := u64 (end_of_prev + 1) =? header_adr in
  let header_contig_free_block := u64 (u64 (header_adr + size) + 1) =? free_block in
  if prev_contig_header && header_contig_free_block then
    next ← get_next free_block;
    _ ← set_next prev next;
    psize ← get_size prev;
    fsize ← get_size free_block;
    _ ← set_size prev (u64 (psize + u64 (size + fsize)));
    next ← get_next free_block;
    if negb (next =? END_OF_HEAP) then
      n ← get_next free_block; set_prev n prev
    else mret tt
  else if prev_contig_header then
    psize ← get_size prev; set_size prev (u64 (psize + size))
  else if header_contig_free_block then
    free_block ← move_block_down free_block size;
    p ← get_prev free_block;
    set_next p free_block
  else
    _ ← set_size header_adr size;
    _ ← set_next header_adr free_block;
    _ ← set_prev free_block header_adr;
    _ ← set_prev header_adr prev;
    set_next prev header_adr.

Definition kfree (ptr : Z) : K unit :=
  if ptr =? 0 then mret tt
  else
    let header_adr := u64 (ptr - KERNEL_MALLOC_HEADER_SIZE) in
    hsize ← load64 header_adr;
    let size := u64 (hsize + KERNEL_MALLOC_HEADER_SIZE) in
    first ← get_first_free;
    if first =? 0 then printf (str "KFREE FAILED" ++ [10]) []
    else
      r ← kfree_search ptr first;
      let '(free_block, found) := (r : Z * bool) in
      if negb found then kfree_tail header_adr size free_block
      else
        prev ← get_prev free_block;
        if prev =? START_OF_HEAP then kfree_head header_adr size free_block
        else kfree_middle header_adr size free_block.
