(* ===== verification/HeapChain.v ===== *)
(** * Doubly linked chains of free blocks in memory

    The representation of the free list of src/lib/kmalloc.c and the lemmas that
    carry it across stores. *)

From S2P Require Export Kmalloc.

Arguments ldn : simpl never.
Arguments stn : simpl never.

Abbreviation blk := (Z * Z)%type.

Definition first_of (l : list blk) (d : Z) : Z := match l with [] => d | (a, _) :: _ => a end.
Fixpoint last_of (l : list blk) (d : Z) : Z := match l with [] => d | (a, _) :: r => last_of r a end.

(** A [free_mem_header_t] at [a]. *)
Definition hdr (m : mem) (a prev next size : Z) : Prop :=
  ldn 8 m a = Some prev /\ ldn 8 m (a + 8) = Some next /\ ldn 8 m (a + 16) = Some size.

(** The blocks [l] are linked; the first one points back to [p], the last one
    forward to [n]. *)
Fixpoint chain (m : mem) (p : Z) (l : list blk) (n : Z) : Prop :=
  match l with
  | [] => True
  | (a, sz) :: r => hdr m a p (first_of r n) sz /\ chain m a r n
  end.

(** The blocks [l] lie in [lo, hi) in increasing order, each with room for a
    header. *)
Fixpoint blocks (lo : Z) (l : list blk) (hi : Z) : Prop :=
  match l with
  | [] => lo <= hi
  | (a, sz) :: r => lo <= a /\ 24 <= sz /\ blocks (a + sz) r hi
  end.

Definition in_blocks (l : list blk) (b : Z) : Prop := exists a sz, (a, sz) ∈ l /\ a <= b < a + sz.

Lemma first_of_app l1 l2 d : first_of (l1 ++ l2) d = first_of l1 (first_of l2 d).
Proof. by destruct l1 as [|[]]. Qed.
Lemma last_of_app l1 : forall l2 d, last_of (l1 ++ l2) d = last_of l2 (last_of l1 d).
Proof. induction l1 as [|[a sz] l1 IH]; intros l2 d; [done|]. apply IH. Qed.

Lemma chain_app m l1 : forall p l2 n,
  chain m p (l1 ++ l2) n <-> chain m p l1 (first_of l2 n) /\ chain m (last_of l1 p) l2 n.
Proof.
  induction l1 as [|[a sz] l1 IH]; intros p l2 n; cbn; [tauto|].
  rewrite IH, first_of_app. tauto.
Qed.

Lemma blocks_le l : forall lo hi, blocks lo l hi -> lo <= hi.
Proof.
  induction l as [|[a sz] l IH]; cbn; intros lo hi H; [done|].
  destruct H as (H1 & H2 & H3). apply IH in H3. lia.
Qed.

Lemma blocks_app l1 : forall lo l2 hi, blocks lo (l1 ++ l2) hi <-> exists mid, blocks lo l1 mid /\ blocks mid l2 hi.
Proof.
  induction l1 as [|[a sz] l1 IH]; cbn; intros lo l2 hi.
  - split.
    + intros H. exists lo. split; [lia|done].
    + intros (mid & Hle & H). destruct l2 as [|[a sz] l2]; cbn in *; [lia|]. intuition lia.
  - rewrite IH. split.
    + intros (H1 & H2 & mid & H3 & H4). eauto 6.
    + intros (mid & (H1 & H2 & H3) & H4). eauto 6.
Qed.

Lemma blocks_in l a sz : forall lo hi, blocks lo l hi -> (a, sz) ∈ l -> lo <= a /\ 24 <= sz /\ a + sz <= hi.
Proof.
  induction l as [|[x xs] l IH]; cbn; intros lo hi H Hin; [by apply elem_of_nil in Hin|].
  destruct H as (H1 & H2 & H3). apply elem_of_cons in Hin as [[= -> ->]|Hin].
  - apply blocks_le in H3. lia.
  - destruct (IH _ _ H3 Hin). lia.
Qed.

Lemma blocks_weaken l lo lo' hi hi' : lo' <= lo -> hi <= hi' -> blocks lo l hi -> blocks lo' l hi'.
Proof.
  revert lo lo'. induction l as [|[x xs] l IH]; cbn; intros lo lo' H1 H2 H; [lia|].
  destruct H as (? & ? & H). split; [lia|]. split; [done|]. eapply IH; [|done|exact H]. lia.
Qed.

Lemma first_of_bounds l lo hi d :
  blocks lo l hi -> l <> [] -> lo <= first_of l d /\ first_of l d + 24 <= hi.
Proof.
  destruct l as [|[a sz] l]; [done|]. cbn. intros (? & ? & B) _. apply blocks_le in B. lia.
Qed.

Lemma blocks_length l : forall lo hi, blocks lo l hi -> 24 * Z.of_nat (length l) <= hi - lo.
Proof.
  induction l as [|[x xs] l IH]; cbn [blocks length]; intros lo hi H; [lia|].
  destruct H as (? & ? & H). apply IH in H. lia.
Qed.

(** A store outside the range of a chain keeps it. *)
Lemma chain_store k a v m m' l : forall p n lo hi,
  stn k m a v = Some m' -> blocks lo l hi -> a + Z.of_nat k <= lo \/ hi <= a ->
  chain m p l n -> chain m' p l n.
Proof.
  induction l as [|[x xs] l IH]; [done|]. intros p n lo hi E B Ha [(H1 & H2 & H3) C].
  destruct B as (B1 & B2 & B). pose proof (blocks_le _ _ _ B).
  split; [|eapply IH; [done|exact B|lia|done]].
  repeat split; (rewrite (ldn_stn_other _ _ _ _ _ _ _ E); [done|lia]).
Qed.

(** A write inside a block of [l] leaves the addresses outside [l] alone. *)
Lemma same_on_block (l : list blk) k a v m m' x xs :
  stn k m a v = Some m' -> (x, xs) ∈ l -> x <= a -> a + Z.of_nat k <= x + xs ->
  same_on (fun b => ~ in_blocks l b) m m'.
Proof.
  intros E Hin Hx Ha. eapply same_on_stn; [done|]. intros b Hb.
  destruct (Z_lt_le_dec b a); [by left|]. destruct (Z_lt_le_dec b (a + Z.of_nat k)); [|by right].
  exfalso. apply Hb. exists x, xs. split; [done|lia].
Qed.

(** ** The states reached while the heap code runs

    It writes the memory and [first_free] only. *)

Definition hstate (m : mem) (f : Z) (s : kstate) : kstate :=
  with_mem m (with_first_free f s).

Lemma hstate_store s m f a v m' : stn 8 m a v = Some m' -> store64 a v (hstate m f s) = Ok tt (hstate m' f s).
Proof. intros H. unfold store64, storen. cbn [k_mem hstate with_mem with_first_free with_heap]. by rewrite H. Qed.

Lemma hstate_id s : hstate (k_mem s) (first_free (k_heap s)) s = s.
Proof. destruct s as [m [f p a z]]. done. Qed.

Section access.
Context (s : kstate) (m : mem) (f p : Z).
Context (Hp : 0 <= p) (Hp' : p + 24 <= 2 ^ 64).

Lemma get_prev_ok v : ldn 8 m p = Some v -> get_prev p (hstate m f s) = Ok v (hstate m f s).
Proof. intros H. apply load64_ok. unfold ptr_add. rewrite u64_small by lia. by rewrite Z.add_0_r. Qed.
Lemma get_next_ok v : ldn 8 m (p + 8) = Some v -> get_next p (hstate m f s) = Ok v (hstate m f s).
Proof. intros H. apply load64_ok. unfold ptr_add. by rewrite u64_small by lia. Qed.
Lemma get_size_ok v : ldn 8 m (p + 16) = Some v -> get_size p (hstate m f s) = Ok v (hstate m f s).
Proof. intros H. apply load64_ok. unfold ptr_add. by rewrite u64_small by lia. Qed.
Lemma set_prev_ok v m' : stn 8 m p v = Some m' -> set_prev p v (hstate m f s) = Ok tt (hstate m' f s).
Proof. intros H. unfold set_prev, ptr_add. rewrite u64_small, Z.add_0_r by lia. apply (hstate_store _ _ _ _ _ _ H). Qed.
Lemma set_next_ok v m' : stn 8 m (p + 8) v = Some m' -> set_next p v (hstate m f s) = Ok tt (hstate m' f s).
Proof. intros H. unfold set_next, ptr_add. rewrite u64_small by lia. apply (hstate_store _ _ _ _ _ _ H). Qed.
Lemma set_size_ok v m' : stn 8 m (p + 16) v = Some m' -> set_size p v (hstate m f s) = Ok tt (hstate m' f s).
Proof. intros H. unfold set_size, ptr_add. rewrite u64_small by lia. apply (hstate_store _ _ _ _ _ _ H). Qed.
Lemma hstore64_ok v m' : stn 8 m p v = Some m' -> store64 p v (hstate m f s) = Ok tt (hstate m' f s).
Proof using Hp Hp'. intros H. apply (hstate_store _ _ _ _ _ _ H). Qed.
Lemma hload64_ok v : ldn 8 m p = Some v -> load64 p (hstate m f s) = Ok v (hstate m f s).
Proof using Hp Hp'. intros H. by apply load64_ok. Qed.
End access.

Lemma set_first_free_ok s m f g : set_first_free g (hstate m f s) = Ok tt (hstate m g s).
Proof. done. Qed.

Lemma get_first_free_ok s m f : get_first_free (hstate m f s) = Ok f (hstate m f s).
Proof. done. Qed.

Lemma bind_mret_r {S A} (c : M S A) s : (c ≫= mret) s = c s.
Proof. unfold mbind, M_bind. by destruct (c s). Qed.

(** ** Symbolic execution

    [hread] runs a member read whose value is among the hypotheses; [hwrite]
    runs a member write and carries every hypothesis about the old memory to the
    new one, dropping the value that was overwritten.  [hrun] alternates. *)

Ltac hread_with L q H :=
  match goal with
  | |- context [(?op ≫= _) (hstate ?m ?f ?s)] =>
      rewrite (bind_ok _ _ _ _ _ (L s m f q ltac:(lia) ltac:(lia) _ H))
  end; cbv beta.

Ltac hread :=
  match goal with
  | |- context [(get_prev ?q ≫= _) (hstate ?m ?f ?s)] =>
      match goal with H : ldn 8 m q = Some _ |- _ => hread_with get_prev_ok q H end
  | |- context [(get_next ?q ≫= _) (hstate ?m ?f ?s)] =>
      match goal with H : ldn 8 m (q + 8) = Some _ |- _ => hread_with get_next_ok q H end
  | |- context [(get_size ?q ≫= _) (hstate ?m ?f ?s)] =>
      match goal with H : ldn 8 m (q + 16) = Some _ |- _ => hread_with get_size_ok q H end
  | |- context [(load64 ?q ≫= _) (hstate ?m ?f ?s)] =>
      match goal with H : ldn 8 m q = Some _ |- _ => hread_with hload64_ok q H end
  | |- context [(get_first_free ≫= _) (hstate ?m ?f ?s)] =>
      rewrite (bind_ok _ _ _ _ _ (get_first_free_ok s m f)); cbv beta
  end.

Ltac xfer E :=
  match type of E with
  | stn 8 ?m ?a ?v = Some ?m' =>
      repeat match goal with
      | H : ldn 8 m ?b = Some ?x |- _ =>
          first [ apply (ld64_st64_other m a v m' b x E) in H; [|lia] | clear H ]
      | H : chain m ?p ?l ?n, B : blocks ?lo ?l ?hi |- _ =>
          apply (chain_store 8 a v m m' l p n lo hi E B ltac:(lia)) in H
      | H : valid_range m ?b ?n |- _ => apply (valid_range_stn m a v m' 8 b n E) in H
      end;
      let N := fresh "N" in
      assert (N : ldn 8 m' a = Some v) by (apply (ld64_st64_same m a v m' E); lia)
  end.

Ltac hstore L q a v :=
  match goal with
  | |- context [(_ ≫= _) (hstate ?m ?f ?s)] =>
      match goal with
      | V : valid_range m ?lo ?len |- _ =>
          let m' := fresh "m" in let E := fresh "E" in
          destruct (stn_ok 8 m a v) as [m' E];
          [ apply (valid_range_sub m lo len a 8 V); lia | ];
          rewrite (bind_ok _ _ _ _ _ (L s m f q ltac:(lia) ltac:(lia) _ _ E)); cbv beta;
          xfer E
      end
  end.

Ltac hwrite :=
  match goal with
  | |- context [(set_prev ?q ?v ≫= _) (hstate _ _ _)] => hstore set_prev_ok q q v
  | |- context [(set_next ?q ?v ≫= _) (hstate _ _ _)] => hstore set_next_ok q (q + 8) v
  | |- context [(set_size ?q ?v ≫= _) (hstate _ _ _)] => hstore set_size_ok q (q + 16) v
  | |- context [(store64 ?q ?v ≫= _) (hstate _ _ _)] => hstore hstore64_ok q q v
  | |- context [(set_first_free ?g ≫= _) (hstate ?m ?f ?s)] =>
      rewrite (bind_ok _ _ _ _ _ (set_first_free_ok s m f g)); cbv beta
  end.

(** A conditional whose test [lia] decides. *)
Ltac hif :=
  match goal with
  | |- context [((if ?b then ?x else ?y) ≫= ?k) ?s] =>
      first [ replace ((if b then x else y) ≫= k) with (x ≫= k) by (replace b with true by lia; reflexivity)
            | replace ((if b then x else y) ≫= k) with (y ≫= k) by (replace b with false by lia; reflexivity) ]
  | |- context [(if ?b then ?x else ?y) (hstate ?m ?f ?s)] =>
      first [ replace ((if b then x else y) (hstate m f s)) with (x (hstate m f s)) by (replace b with true by lia; reflexivity)
            | replace ((if b then x else y) (hstate m f s)) with (y (hstate m f s)) by (replace b with false by lia; reflexivity) ]
  end.

Ltac hwrap :=
  match goal with |- context [u64 ?z] => rewrite (u64_small z) by lia end.

Ltac hrun := repeat first [hread | hwrite | hif | hwrap | rewrite bind_assoc; cbv beta | rewrite bind_ret; cbv beta].
