(* ===== verification/HeapSpec.v ===== *)
(** * Specification of the kernel heap, and its refinement

    Abstractly the heap is the sequence of the segments that tile it, in address
    order.  [alloc_seg] is first fit, [release] gives a segment back.  [heap_rep]
    relates such a sequence to the memory and static variables of
    src/lib/kmalloc.c; the refinement lemmas show that [kmalloc] and [kfree]
    implement the two operations. *)

From S2P Require Export HeapChain.

Inductive seg := Used (n : Z) | Free (n : Z).
Definition seg_size (g : seg) : Z := match g with Used n | Free n => n end.
Definition is_free (g : seg) : bool := match g with Free _ => true | Used _ => false end.

Fixpoint total (segs : list seg) : Z :=
  match segs with [] => 0 | g :: r => seg_size g + total r end.

(** The free blocks (address, size) and the allocated ones. *)
Fixpoint frees (base : Z) (segs : list seg) : list blk :=
  match segs with
  | [] => []
  | Used n :: r => frees (base + n) r
  | Free n :: r => (base, n) :: frees (base + n) r
  end.
Fixpoint useds (base : Z) (segs : list seg) : list blk :=
  match segs with
  | [] => []
  | Used n :: r => (base, n) :: useds (base + n) r
  | Free n :: r => useds (base + n) r
  end.

(** Every segment can hold a free header once it is released. *)
Definition MIN_BLOCK : Z := 24.
Definition segs_wf (segs : list seg) : Prop := Forall (fun g => MIN_BLOCK <= seg_size g) segs.

(** First fit. *)
Fixpoint alloc_seg (req base : Z) (segs : list seg) : option (Z * list seg) :=
  match segs with
  | [] => None
  | Free n :: r =>
      if req <=? n then Some (base, Used req :: (if n - req =? 0 then [] else [Free (n - req)]) ++ r)
      else '(a, r') ← alloc_seg req (base + n) r; Some (a, Free n :: r')
  | Used n :: r => '(a, r') ← alloc_seg req (base + n) r; Some (a, Used n :: r')
  end.

(** Giving back the segment between [l] and [r]: it merges with a free segment
    that follows it immediately only when no free segment precedes it. *)
Definition release (l : list seg) (n : Z) (r : list seg) : list seg :=
  match existsb is_free l, r with
  | false, Free k :: r' => l ++ Free (n + k) :: r'
  | _, _ => l ++ Free n :: r
  end.

(** The first word of an allocated block holds the size asked for. *)
Definition used_headers (m : mem) (l : list blk) : Prop :=
  Forall (fun '(a, n) => ldn 8 m a = Some (n - 8)) l.

Record heap_layout (base : Z) (segs : list seg) (m : mem) (first : Z) : Prop := {
  hl_wf : segs_wf segs;
  hl_lo : 0 < base;
  hl_hi : base + total segs < 2 ^ 64 - 1;
  hl_valid : valid_range m base (total segs);
  hl_first : first = first_of (frees base segs) 0;
  hl_chain : chain m START_OF_HEAP (frees base segs) END_OF_HEAP;
  hl_used : used_headers m (useds base segs) }.

Definition heap_rep (s : kstate) (segs : list seg) : Prop :=
  heap_layout (heap_start_adr (k_heap s)) segs (k_mem s) (first_free (k_heap s))
  /\ total segs = kheap_size (k_heap s).

(** ** Lemmas on segments *)

Lemma total_app l1 l2 : total (l1 ++ l2) = total l1 + total l2.
Proof. induction l1 as [|g l1 IH]; cbn; lia. Qed.

Lemma frees_app l1 : forall base l2, frees base (l1 ++ l2) = frees base l1 ++ frees (base + total l1) l2.
Proof.
  induction l1 as [|[n|n] l1 IH]; intros base l2; cbn; rewrite ?Z.add_0_r, ?IH, ?Z.add_assoc; done.
Qed.
Lemma useds_app l1 : forall base l2, useds base (l1 ++ l2) = useds base l1 ++ useds (base + total l1) l2.
Proof.
  induction l1 as [|[n|n] l1 IH]; intros base l2; cbn; rewrite ?Z.add_0_r, ?IH, ?Z.add_assoc; done.
Qed.

Lemma segs_wf_app l1 l2 : segs_wf (l1 ++ l2) <-> segs_wf l1 /\ segs_wf l2.
Proof. apply Forall_app. Qed.
Lemma segs_wf_cons g l : segs_wf (g :: l) <-> 24 <= seg_size g /\ segs_wf l.
Proof. unfold segs_wf. rewrite Forall_cons. done. Qed.

Lemma total_nonneg segs : segs_wf segs -> 0 <= total segs.
Proof. induction 1 as [|g l Hg _ IH]; unfold MIN_BLOCK in *; cbn; lia. Qed.

Lemma frees_blocks segs : forall base, segs_wf segs -> blocks base (frees base segs) (base + total segs).
Proof.
  induction segs as [|[n|n] segs IH]; intros base H; cbn; [lia|..];
    apply segs_wf_cons in H as [Hn H]; cbn in Hn; specialize (IH (base + n) H);
    rewrite <- Z.add_assoc in IH.
  - eapply blocks_weaken; [| |exact IH]; lia.
  - split; [lia|]. split; [done|]. exact IH.
Qed.
Lemma useds_blocks segs : forall base, segs_wf segs -> blocks base (useds base segs) (base + total segs).
Proof.
  induction segs as [|[n|n] segs IH]; intros base H; cbn; [lia|..];
    apply segs_wf_cons in H as [Hn H]; cbn in Hn; specialize (IH (base + n) H);
    rewrite <- Z.add_assoc in IH.
  - split; [lia|]. split; [done|]. exact IH.
  - eapply blocks_weaken; [| |exact IH]; lia.
Qed.

(** Allocated and free blocks do not overlap. *)
Lemma used_not_free segs a n b : forall base,
  segs_wf segs -> (a, n) ∈ useds base segs -> a <= b < a + n -> ~ in_blocks (frees base segs) b.
Proof.
  induction segs as [|[k|k] segs IH]; intros base H Hin Hb (x & xs & Hx & Hxb); cbn in *;
    [by apply elem_of_nil in Hin|..]; apply segs_wf_cons in H as [Hk H]; cbn in Hk.
  - apply elem_of_cons in Hin as [[= -> ->]|Hin].
    + apply (blocks_in _ _ _ _ _ (frees_blocks segs _ H)) in Hx. lia.
    + by apply (IH _ H Hin Hb); exists x, xs.
  - apply elem_of_cons in Hx as [[= -> ->]|Hx].
    + apply (blocks_in _ _ _ _ _ (useds_blocks segs _ H)) in Hin. lia.
    + by apply (IH _ H Hin Hb); exists x, xs.
Qed.

Lemma existsb_frees l : forall base, existsb is_free l = false <-> frees base l = [].
Proof.
  induction l as [|[n|n] l IH]; intros base; cbn; [done|apply IH|split; done].
Qed.

(** What first fit does to the sequence. *)
Lemma alloc_seg_spec req segs : forall base a segs',
  alloc_seg req base segs = Some (a, segs') ->
  exists l n r, segs = l ++ Free n :: r /\ a = base + total l /\ req <= n
    /\ segs' = l ++ Used req :: (if n - req =? 0 then [] else [Free (n - req)]) ++ r
    /\ Forall (fun '(_, sz) => sz < req) (frees base l).
Proof.
  induction segs as [|[n|n] segs IH]; intros base a segs' H; cbn in H; [done|..].
  - destruct (alloc_seg req (base + n) segs) as [[a0 r0]|] eqn:E; cbn in H; [|done]. injection H as -> <-.
    destruct (IH _ _ _ E) as (l & k & r & -> & -> & Hk & -> & Hl).
    exists (Used n :: l), k, r. repeat split; [cbn; lia|lia|done].
  - destruct (req <=? n) eqn:C.
    + injection H as <- <-. exists [], n, segs. cbn. repeat split; [lia|lia|done].
    + destruct (alloc_seg req (base + n) segs) as [[a0 r0]|] eqn:E; cbn in H; [|done]. injection H as -> <-.
      destruct (IH _ _ _ E) as (l & k & r & -> & -> & Hk & -> & Hl).
      exists (Free n :: l), k, r. repeat split; [cbn; lia|lia|]. cbn. constructor; [lia|done].
Qed.

Lemma alloc_seg_none req segs : forall base,
  alloc_seg req base segs = None -> Forall (fun '(_, sz) => sz < req) (frees base segs).
Proof.
  induction segs as [|[n|n] segs IH]; intros base H; cbn in *; [constructor|..].
  - apply IH. by destruct (alloc_seg req (base + n) segs) as [[]|].
  - destruct (req <=? n) eqn:C; [done|]. constructor; [lia|].
    apply IH. by destruct (alloc_seg req (base + n) segs) as [[]|].
Qed.

Lemma alloc_seg_total req base segs a segs' :
  alloc_seg req base segs = Some (a, segs') -> total segs' = total segs.
Proof.
  intros H. destruct (alloc_seg_spec _ _ _ _ _ H) as (l & n & r & -> & _ & _ & -> & _).
  rewrite !total_app. cbn. rewrite total_app. destruct (n - req =? 0) eqn:C; cbn; lia.
Qed.

Lemma release_total l n r : total (release l n r) = total (l ++ Used n :: r).
Proof.
  unfold release. destruct (existsb is_free l), r as [|[k|k] r]; rewrite !total_app; cbn; lia.
Qed.

Lemma release_wf l n r : segs_wf (l ++ Used n :: r) -> segs_wf (release l n r).
Proof.
  rewrite segs_wf_app, segs_wf_cons. cbn. intros (Hl & Hn & Hr). unfold release.
  destruct (existsb is_free l), r as [|[k|k] r]; rewrite segs_wf_app, ?segs_wf_cons in *; cbn in *; intuition lia.
Qed.

(** The headers of allocated blocks survive writes outside them. *)
Lemma used_headers_same m m' l (lo hi : Z) (Q : Z -> Prop) :
  blocks lo l hi -> same_on Q m m' -> (forall b, in_blocks l b -> Q b) ->
  used_headers m l -> used_headers m' l.
Proof.
  intros B S HQ H. unfold used_headers in *. rewrite Forall_forall in *.
  intros [a n] Hin. specialize (H _ Hin). cbv beta iota in *.
  rewrite <- H. apply ldn_ext. intros i Hi. apply S, HQ. exists a, n. split; [done|].
  destruct (blocks_in _ _ _ _ _ B Hin). lia.
Qed.
