(* ===== verification/HeapProofs.v ===== *)
(** * The kernel heap refines its specification

    [kmalloc] and [kfree] of src/lib/kmalloc.c against [alloc_seg] and [release]
    of HeapSpec. *)

From S2P Require Export HeapSpec.

(** ** Closing tactics for a run of header writes *)

Ltac frame_tac :=
  match goal with
  | |- same_on _ ?m ?m => apply same_on_refl
  | E : stn 8 ?mp ?a ?v = Some ?m' |- same_on (fun b => ~ in_blocks ?l b) _ ?m' =>
      apply same_on_trans with mp; [frame_tac|];
      match goal with I : (?x, ?xs) ∈ l |- _ => apply (same_on_block l 8 a v mp m' x xs E I); lia end
  end.

Ltac valid_tac :=
  match goal with
  | |- m_valid ?m = m_valid ?m => reflexivity
  | E : stn 8 ?mp ?a ?v = Some ?m' |- m_valid ?m' = _ =>
      rewrite (stn_valid_eq 8 mp a v m' E); valid_tac
  end.

(** Splitting hypotheses on blocks and chains into their members; proving the
    goal's chains from the facts left by a run. *)
Ltac split_hyps :=
  repeat match goal with
  | H : exists _, _ |- _ => destruct H
  | H : _ /\ _ |- _ => destruct H
  end.
Ltac split_layout :=
  unfold hdr in *;
  repeat match goal with
  | H : blocks _ (_ ++ _) _ |- _ => rewrite blocks_app in H; split_hyps
  | H : blocks _ (_ :: _) _ |- _ => cbn [blocks] in H; split_hyps
  | H : blocks _ [] _ |- _ => cbn [blocks] in H
  | H : chain _ _ (_ ++ _) _ |- _ => rewrite chain_app in H; split_hyps
  | H : chain _ _ (_ :: _) _ |- _ => cbn [chain] in H; unfold hdr in H; split_hyps
  | H : chain _ _ [] _ |- _ => clear H
  end;
  repeat match goal with
  | H : blocks ?lo ?l ?hi |- _ =>
      lazymatch goal with
      | _ : lo <= hi |- _ => fail
      | _ => pose proof (blocks_le l lo hi H)
      end
  end;
  rewrite ?first_of_app, ?last_of_app in *; cbn [first_of last_of app] in *.
Ltac chain_tac :=
  repeat first
    [ rewrite chain_app | rewrite first_of_app | rewrite last_of_app
    | progress cbn [chain first_of last_of app] | progress unfold hdr ];
  repeat match goal with
  | |- _ /\ _ => split
  | |- True => exact I
  end; try eassumption.

(** What a run of the heap code leaves: the result, the new free list [fl'], and
    the memory outside the old free blocks [fl]. *)
Definition heap_post (m : mem) (fl fl' : list blk) (m' : mem) : Prop :=
  chain m' START_OF_HEAP fl' END_OF_HEAP
  /\ same_on (fun b => ~ in_blocks fl b) m m' /\ m_valid m' = m_valid m.

Definition carve (a sz alloc : Z) : list blk :=
  if sz - alloc =? 0 then [] else [(a + alloc, sz - alloc)].

Ltac mem_tac := rewrite ?elem_of_app, ?elem_of_cons, ?elem_of_app, ?elem_of_cons; tauto.

Definition take_post (s : kstate) (m : mem) (a size : Z) (fl fl' : list blk) (f : Z) : Prop :=
  exists m', kmalloc_take a size (size + 8) (hstate m f s) = Ok (a + 8) (hstate m' (first_of fl' 0) s)
    /\ ldn 8 m' a = Some size /\ heap_post m fl fl' m'.

Ltac start_take := unfold take_post, kmalloc_take, carve, START_OF_HEAP, END_OF_HEAP, ptr_add in *.

Ltac finish_take :=
  eexists; split; [rewrite ?first_of_app; reflexivity|]; split; [eassumption|]; split; [chain_tac|split; [frame_tac|valid_tac]].

Lemma kmalloc_take_ok s m base hi pre a sz post size :
  let fl := pre ++ (a, sz) :: post in
  0 < base -> hi < 2 ^ 64 - 1 -> valid_range m base (hi - base) ->
  0 <= size -> size + 8 <= sz -> 24 <= size + 8 ->
  sz - (size + 8) = 0 \/ 24 <= sz - (size + 8) ->
  blocks base fl hi -> chain m START_OF_HEAP fl END_OF_HEAP ->
  take_post s m a size fl (pre ++ carve a sz (size + 8) ++ post) (first_of fl 0).
Proof.
  intros fl Hbase Hhi V Hsize Hfit Hmin Hrest B C. unfold fl in *. clear fl.
  assert (Ia : (a, sz) ∈ pre ++ (a, sz) :: post) by mem_tac.
  destruct (list_snoc_cases pre) as [->|(pre' & [pa ps] & ->)], post as [|[na ns] post].
  - split_layout; start_take. hrun. destruct (sz - (size + 8) =? 0) eqn:D; hrun; finish_take.
  - assert (In : (na, ns) ∈ [] ++ (a, sz) :: (na, ns) :: post) by mem_tac.
    split_layout; start_take. hrun. destruct (sz - (size + 8) =? 0) eqn:D; hrun; finish_take.
  - assert (Ip : (pa, ps) ∈ (pre' ++ [(pa, ps)]) ++ [(a, sz)]) by mem_tac.
    split_layout; start_take. hrun. destruct (sz - (size + 8) =? 0) eqn:D; hrun; finish_take.
  - assert (Ip : (pa, ps) ∈ (pre' ++ [(pa, ps)]) ++ (a, sz) :: (na, ns) :: post) by mem_tac.
    assert (In : (na, ns) ∈ (pre' ++ [(pa, ps)]) ++ (a, sz) :: (na, ns) :: post) by mem_tac.
    split_layout; start_take. hrun. destruct (sz - (size + 8) =? 0) eqn:D; hrun; finish_take.
Qed.

(** ** The search of [kmalloc] *)

Lemma kmalloc_body_skip s m f size alloc a sz next :
  0 <= a -> a + 24 <= 2 ^ 64 -> ldn 8 m (a + 16) = Some sz -> ldn 8 m (a + 8) = Some next ->
  sz < alloc ->
  kmalloc_body size alloc a (hstate m f s) = Ok (inl next) (hstate m f s).
Proof.
  intros Ha Ha' S N Hlt. unfold kmalloc_body. hrun.
  by replace (negb (next =? END_OF_HEAP) || negb (next =? START_OF_HEAP)) with true
    by (unfold START_OF_HEAP, END_OF_HEAP; lia).
Qed.

Lemma kmalloc_search s m f size alloc hi pre a sz post r s' : forall p base,
  0 < base -> hi < 2 ^ 64 - 1 -> blocks base (pre ++ (a, sz) :: post) hi ->
  chain m p (pre ++ (a, sz) :: post) END_OF_HEAP ->
  Forall (fun '(_, n) => n < alloc) pre -> alloc <= sz ->
  kmalloc_take a size alloc (hstate m f s) = Ok r s' ->
  loops (kmalloc_body size alloc) (S (length pre)) (first_of (pre ++ (a, sz) :: post) 0) (hstate m f s) r s'.
Proof.
  induction pre as [|[x xs] pre IH]; intros p base Hb Hhi B C Hpre Hfit T; cbn [app first_of length].
  - apply loops_done. split_layout. unfold kmalloc_body. hrun. by rewrite (bind_ok _ _ _ _ _ T).
  - apply Forall_cons in Hpre as [Hx Hpre]. cbn [app] in B, C. destruct B as (B1 & B2 & B), C as ((_ & N & S) & C).
    pose proof (blocks_le _ _ _ B).
    eapply loops_step; [|eapply (IH x (x + xs)); eauto; lia].
    erewrite kmalloc_body_skip; [|lia|lia|exact S|exact N|exact Hx].
    by destruct pre as [|[]].
Qed.

Lemma kmalloc_search_fails s m f size alloc hi l : forall p base d,
  0 < base -> hi < 2 ^ 64 - 1 -> blocks base l hi -> chain m p l END_OF_HEAP ->
  Forall (fun '(_, n) => n < alloc) l -> l <> [] -> m_valid m 15 = false ->
  loop_fails (kmalloc_body size alloc) (S (length l)) (first_of l d) (hstate m f s) (BadAccess 15).
Proof.
  induction l as [|[x xs] l IH]; intros p base d Hb Hhi B C Hl Hne H15; [done|]. cbn [first_of length].
  apply Forall_cons in Hl as [Hx Hl]. destruct B as (B1 & B2 & B), C as ((_ & N & S) & C).
  pose proof (blocks_le _ _ _ B).
  eapply loop_fails_later.
  - eapply kmalloc_body_skip; [lia|lia|exact S|exact N|exact Hx].
  - destruct l as [|[y ys] l].
    + apply loop_fails_now. unfold kmalloc_body, get_size. apply bind_err.
      change (ptr_add END_OF_HEAP 16) with 15. by apply load64_fault.
    + eapply (IH x (x + xs) 0); eauto; lia.
Qed.

Lemma kmalloc_unfold size s :
  0 <= size -> size + 8 < 2 ^ 64 -> first_free (k_heap s) <> 0 ->
  kmalloc size s = loop (kmalloc_body size (size + 8)) (first_free (k_heap s)) s.
Proof.
  intros H1 H2 H3. unfold kmalloc, KERNEL_MALLOC_HEADER_SIZE. rewrite u64_small by lia.
  unfold get_first_free. rewrite bind_get. by replace (first_free (k_heap s) =? 0) with false by lia.
Qed.

Lemma carve_frees n req r base :
  req <= n ->
  frees (base + req) ((if n - req =? 0 then [] else [Free (n - req)]) ++ r)
  = (if n - req =? 0 then [] else [(base + req, n - req)]) ++ frees (base + n) r.
Proof.
  intros H. destruct (n - req =? 0) eqn:C; cbn.
  - by replace (base + req) with (base + n) by lia.
  - by replace (base + req + (n - req)) with (base + n) by lia.
Qed.

Lemma carve_useds n req r base :
  req <= n ->
  useds (base + req) ((if n - req =? 0 then [] else [Free (n - req)]) ++ r) = useds (base + n) r.
Proof.
  intros H. destruct (n - req =? 0) eqn:C; cbn.
  - by replace (base + req) with (base + n) by lia.
  - by replace (base + req + (n - req)) with (base + n) by lia.
Qed.

Lemma layout_length base segs m f : heap_layout base segs m f -> Z.of_nat (length (frees base segs)) < 2 ^ 64 - 1.
Proof.
  intros [Hwf Hlo Hhi _ _ _ _]. pose proof (blocks_length _ _ _ (frees_blocks _ base Hwf)). lia.
Qed.

(** The frame of a heap operation: the statics other than [first_free], the rest
    of the kernel state and the memory outside the free blocks do not change. *)
Definition heap_frame (base : Z) (segs : list seg) (s s' : kstate) : Prop :=
  s' = hstate (k_mem s') (first_free (k_heap s')) s
  /\ same_on (fun b => ~ in_blocks (frees base segs) b) (k_mem s) (k_mem s')
  /\ m_valid (k_mem s') = m_valid (k_mem s).

Lemma kmalloc_refines s segs size a segs' :
  heap_rep s segs -> 0 <= size -> size + 8 < 2 ^ 64 ->
  alloc_seg (size + 8) (heap_start_adr (k_heap s)) segs = Some (a, segs') -> segs_wf segs' ->
  exists s', kmalloc size s = Ok (a + 8) s' /\ heap_rep s' segs'
    /\ heap_frame (heap_start_adr (k_heap s)) segs s s'.
Proof.
  intros [L Htot] Hs0 Hs1 Halloc Hwf'.
  pose proof (layout_length _ _ _ _ L) as Hlen. destruct L as [Hwf Hlo Hhi HV Hf HC HU].
  set (base := heap_start_adr (k_heap s)) in *.
  pose proof (alloc_seg_total _ _ _ _ _ Halloc) as Htot'.
  destruct (alloc_seg_spec _ _ _ _ _ Halloc) as (l & n & r & -> & -> & Hn & -> & Hl).
  pose proof (frees_blocks _ base Hwf) as B. rewrite frees_app in *. cbn [frees] in *.
  set (pre := frees base l) in *. set (post := frees (base + total l + n) r) in *. set (x := base + total l) in *.
  assert (Hrest : 24 <= size + 8 /\ (n - (size + 8) = 0 \/ 24 <= n - (size + 8))).
  { rewrite segs_wf_app, segs_wf_cons in Hwf'. destruct Hwf' as (_ & H24 & Hc). cbn in H24. split; [done|].
    destruct (n - (size + 8) =? 0) eqn:C; [lia|]. apply segs_wf_cons in Hc as [Hc _]. cbn in Hc. lia. }
  destruct Hrest as [H24 Hrest].
  destruct (kmalloc_take_ok s (k_mem s) base (base + total (l ++ Free n :: r)) pre x n post size)
    as (m' & T & U & C' & S' & V');
    [done|done|by replace (_ - base) with (total (l ++ Free n :: r)) by lia|done|lia|lia|done|done|done|].
  rewrite <- Hf in T.
  set (f' := first_of (pre ++ carve x n (size + 8) ++ post) 0) in *.
  exists (hstate m' f' s). split; [|split].
  - rewrite kmalloc_unfold; [|done|done|].
    + rewrite Hf. eapply (loops_loop _ (S (length pre))).
      * rewrite <- (hstate_id s) at 1. by apply (kmalloc_search _ _ _ _ _ _ _ _ _ _ _ _ _ base Hlo Hhi B HC Hl).
      * rewrite length_app in Hlen. lia.
    + rewrite Hf. pose proof (first_of_bounds _ _ _ 0 B ltac:(by destruct pre)). lia.
  - split; [|cbn; rewrite Htot'; done].
    assert (F : frees base (l ++ Used (size + 8) :: (if n - (size + 8) =? 0 then [] else [Free (n - (size + 8))]) ++ r)
                = pre ++ carve x n (size + 8) ++ post).
    { rewrite frees_app. cbn [frees]. rewrite carve_frees by done. done. }
    constructor; cbn; fold base; try done; rewrite ?F, ?Htot'; try done.
    + intros i Hi. rewrite V'. by apply HV.
    + rewrite useds_app. cbn [useds]. rewrite carve_useds by done. fold x.
      rewrite useds_app in HU. cbn [useds] in HU. fold x in HU.
      apply Forall_app in HU as [HU1 HU2]. apply Forall_app.
      rewrite segs_wf_app, segs_wf_cons in Hwf. destruct Hwf as (Wl & Wn & Wr).
      assert (HQ : forall b, in_blocks (useds base (l ++ Free n :: r)) b -> ~ in_blocks (pre ++ (x, n) :: post) b).
      { intros b (y & ys & Hy & Hb). pose proof (used_not_free (l ++ Free n :: r) y ys b base) as N.
        rewrite frees_app in N. apply N; [|done|done]. by rewrite segs_wf_app, segs_wf_cons. }
      rewrite useds_app in HQ. cbn [useds] in HQ. fold x in HQ.
      split; [|constructor].
      * eapply (used_headers_same _ _ _ base); [by apply useds_blocks|exact S'| |exact HU1].
        intros b (y & ys & Hy & Hb). apply HQ. exists y, ys. split; [|done]. apply elem_of_app. by left.
      * replace (size + 8 - 8) with size by lia. exact U.
      * eapply (used_headers_same _ _ _ (x + n)); [by apply useds_blocks|exact S'| |exact HU2].
        intros b (y & ys & Hy & Hb). apply HQ. exists y, ys. split; [|done]. apply elem_of_app. by right.
  - split; [done|]. split; [|done]. cbn. by rewrite frees_app.
Qed.

(** ** The search of [kfree] *)

Lemma kfree_search_loops s m f hi ptr pre fa fs post : forall p base,
  0 < base -> hi < 2 ^ 64 - 1 -> blocks base (pre ++ (fa, fs) :: post) hi ->
  chain m p (pre ++ (fa, fs) :: post) END_OF_HEAP ->
  Forall (fun '(a, _) => a < ptr) pre -> ptr < fa ->
  loops (kfree_search_body ptr) (S (length pre)) (first_of (pre ++ (fa, fs) :: post) 0) (hstate m f s)
    (fa, match post with [] => false | _ => true end) (hstate m f s).
Proof.
  induction pre as [|[x xs] pre IH]; intros p base Hb Hhi B C Hpre Hfa; cbn [app first_of length].
  - apply loops_done. unfold END_OF_HEAP in *. destruct post as [|[na ns] post]; split_layout;
      unfold kfree_search_body, END_OF_HEAP; hrun.
    + by replace (2 ^ 64 - 1 =? 2 ^ 64 - 1) with true by lia.
    + replace (na =? 2 ^ 64 - 1) with false by lia. by replace (ptr <? fa) with true by lia.
  - apply Forall_cons in Hpre as [Hx Hpre]. cbn [app] in B, C. destruct B as (B1 & B2 & B), C as ((_ & N & S) & C).
    pose proof (blocks_le _ _ _ B). pose proof (first_of_bounds _ _ _ END_OF_HEAP B ltac:(by destruct pre)) as F1.
    eapply loops_step; [|apply (IH x (x + xs)); try done; lia].
    unfold kfree_search_body. hrun. unfold END_OF_HEAP in *.
    replace (first_of (pre ++ (fa, fs) :: post) (2 ^ 64 - 1) =? 2 ^ 64 - 1) with false by lia.
    replace (ptr <? x) with false by lia. hrun. by destruct pre as [|[]].
Qed.

Lemma kfree_search_ok s m f base hi ptr pre fa fs post :
  0 < base -> hi < 2 ^ 64 - 1 -> blocks base (pre ++ (fa, fs) :: post) hi ->
  chain m START_OF_HEAP (pre ++ (fa, fs) :: post) END_OF_HEAP ->
  Forall (fun '(a, _) => a < ptr) pre -> ptr < fa ->
  kfree_search ptr (first_of (pre ++ (fa, fs) :: post) 0) (hstate m f s) = Ok (fa, true) (hstate m f s).
Proof.
  intros Hb Hhi B C Hpre Hfa.
  pose proof (kfree_search_loops s m f hi ptr pre fa fs post _ base Hb Hhi B C Hpre Hfa) as L.
  apply loops_loop in L; [|pose proof (blocks_length _ _ _ B) as Q; rewrite length_app in Q; lia].
  assert (Hend : post = [] -> ldn 8 m (fa + 8) = Some END_OF_HEAP).
  { intros ->. rewrite chain_app in C. destruct C as [_ ((_ & N & _) & _)]. exact N. }
  assert (Hhdr : ldn 8 m fa = Some (last_of pre 0)).
  { rewrite chain_app in C. destruct C as [_ ((P & _) & _)]. exact P. }
  assert (Hrange : base <= fa /\ fa + 24 <= hi).
  { destruct (blocks_in _ fa fs _ _ B); [mem_tac|lia]. }
  unfold kfree_search. unfold START_OF_HEAP, END_OF_HEAP in *.
  destruct pre as [|[x xs] pre]; cbn [app first_of last_of length] in *.
  - destruct post as [|[na ns] post].
    + split_layout. hrun. done.
    + split_layout. hrun. rewrite (bind_ok _ _ _ _ _ L). done.
  - destruct B as (B1 & B2 & B), C as ((P & N & S) & C).
    pose proof (blocks_le _ _ _ B). pose proof (first_of_bounds _ _ _ (2 ^ 64 - 1) B ltac:(by destruct pre)) as F1.
    hrun. rewrite (bind_ok _ _ _ _ _ L). destruct post; [|done].
    specialize (Hend eq_refl). hrun. rewrite bind_ret || idtac.
    by replace ((2 ^ 64 - 1 =? 2 ^ 64 - 1) && (ptr <? fa)) with true by lia.
Qed.

(** ** Freeing in memory *)

Definition inserted (pre : list blk) (a n fa fs : Z) (post : list blk) : list blk :=
  match pre with
  | [] => if a + n =? fa then (a, fs + n) :: post else (a, n) :: (fa, fs) :: post
  | _ => pre ++ (a, n) :: (fa, fs) :: post
  end.

Ltac finish_free :=
  eexists; split; [rewrite ?first_of_app; reflexivity|]; split; [chain_tac|split; [frame_tac|valid_tac]].

Lemma kfree_insert_ok s m base hi pre a n fa fs post :
  let fl := pre ++ (fa, fs) :: post in
  0 < base -> hi < 2 ^ 64 - 1 -> valid_range m base (hi - base) ->
  blocks base (pre ++ (a, n) :: (fa, fs) :: post) hi -> chain m START_OF_HEAP fl END_OF_HEAP ->
  ldn 8 m a = Some (n - 8) ->
  (forall pre' pa ps, pre = pre' ++ [(pa, ps)] -> pa + ps + 1 <> a) -> a + n + 1 <> fa ->
  exists m', kfree (a + 8) (hstate m (first_of fl 0) s) = Ok tt (hstate m' (first_of (inserted pre a n fa fs post) 0) s)
    /\ heap_post m (pre ++ (a, n) :: (fa, fs) :: post) (inserted pre a n fa fs post) m'.
Proof.
  intros fl Hb Hhi V B C U G1 G2. unfold fl in *.
  assert (Bfl : blocks base (pre ++ (fa, fs) :: post) hi).
  { rewrite blocks_app in *. destruct B as (mid & B1 & B2 & B3 & B4). exists mid. split; [done|].
    eapply blocks_weaken; [| |exact B4]; lia. }
  assert (Q : kfree_search (a + 8) (first_of fl 0) (hstate m (first_of fl 0) s) = Ok (fa, true) (hstate m (first_of fl 0) s)).
  { rewrite blocks_app in B. destruct B as (mid & B1 & B2 & B3 & B4 & _).
    eapply kfree_search_ok; eauto; [|lia]. apply Forall_forall. intros [x xs] Hx.
    destruct (blocks_in _ _ _ _ _ B1 Hx). lia. }
  assert (F0 : base <= first_of fl 0) by (apply (first_of_bounds _ _ _ 0 Bfl); by destruct pre).
  unfold fl in *. clear fl Bfl.
  assert (Ia : (a, n) ∈ pre ++ (a, n) :: (fa, fs) :: post) by mem_tac.
  assert (If : (fa, fs) ∈ pre ++ (a, n) :: (fa, fs) :: post) by mem_tac.
  assert (Hra : base <= a /\ a + n <= hi /\ 24 <= n) by (destruct (blocks_in _ _ _ _ _ B Ia); lia).
  rewrite <- bind_mret_r. unfold kfree, KERNEL_MALLOC_HEADER_SIZE.
  replace (a + 8 =? 0) with false by lia. cbv zeta.
  replace (a + 8 - 8) with a by lia. hrun. replace (n - 8 + 8) with n by lia.
  rewrite (bind_ok _ _ _ _ _ Q). cbn [negb]. cbv beta iota.
  unfold kfree_head, kfree_middle, move_block_down, inserted, START_OF_HEAP, END_OF_HEAP in *.
  destruct (list_snoc_cases pre) as [->|(pre' & [pa ps] & ->)].
  - clear G1. destruct (a + n =? fa) eqn:D.
    + destruct post as [|[na ns] post].
      * split_layout. hrun. replace (fa - n) with a in * by lia. hrun. finish_free.
      * assert (In : (na, ns) ∈ [] ++ (a, n) :: (fa, fs) :: (na, ns) :: post) by mem_tac.
        split_layout. hrun. replace (fa - n) with a in * by lia. hrun. finish_free.
    + split_layout. hrun. finish_free.
  - specialize (G1 pre' pa ps eq_refl).
    assert (Ip : (pa, ps) ∈ (pre' ++ [(pa, ps)]) ++ (a, n) :: (fa, fs) :: post) by mem_tac.
    split_layout. hrun. 
    destruct (pre' ++ [(pa, ps)]) as [|b0 l0] eqn:Z; [by destruct pre'|]. rewrite <- Z in *. clear Z b0 l0.
    finish_free.
Qed.

(** ** [kfree] on the abstract heap *)

(** A free block and the next boundary are adjacent or a whole segment apart. *)
Lemma gap_before l : forall base pre' pa ps,
  segs_wf l -> frees base l = pre' ++ [(pa, ps)] -> pa + ps + 1 <> base + total l.
Proof.
  induction l as [|g l IH] using rev_ind; intros base pre' pa ps Hwf E; [by destruct pre'|].
  rewrite segs_wf_app, segs_wf_cons in Hwf. destruct Hwf as (Hl & Hg & _).
  rewrite frees_app in E. rewrite total_app. destruct g as [k|k]; cbn in E, Hg |- *.
  - rewrite app_nil_r in E. pose proof (frees_blocks l base Hl) as B. rewrite E in B.
    destruct (blocks_in _ pa ps _ _ B); [mem_tac|]. lia.
  - apply app_inj_tail in E as [_ [= <- <-]]. lia.
Qed.

Lemma gap_after r base fa fs post :
  segs_wf r -> frees base r = (fa, fs) :: post -> fa = base \/ base + 24 <= fa.
Proof.
  destruct r as [|[k|k] r]; cbn; intros Hwf E; [done|..].
  - right. apply segs_wf_cons in Hwf as [Hk Hr]. cbn in Hk.
    pose proof (frees_blocks r (base + k) Hr) as B. rewrite E in B. cbn in B. lia.
  - injection E as <- _ _. by left.
Qed.

Lemma release_frees base l n r fa fs post :
  segs_wf (l ++ Used n :: r) ->
  frees (base + total l + n) r = (fa, fs) :: post ->
  frees base (release l n r) = inserted (frees base l) (base + total l) n fa fs post.
Proof.
  intros Hwf E. rewrite segs_wf_app, segs_wf_cons in Hwf. destruct Hwf as (Hl & Hn & Hr). cbn in Hn.
  unfold release, inserted. destruct (existsb is_free l) eqn:X.
  - assert (Hne : frees base l <> []) by (intros H; apply existsb_frees in H; congruence).
    destruct (frees base l) as [|b0 pre] eqn:P; [done|]. rewrite frees_app, P. cbn. by rewrite E.
  - apply (existsb_frees _ base) in X. rewrite X. destruct r as [|[k|k] r]; cbn in E; [done|..].
    + apply segs_wf_cons in Hr as [Hk Hr]. cbn in Hk.
      pose proof (frees_blocks r (base + total l + n + k) Hr) as B. rewrite E in B. cbn in B.
      replace (base + total l + n =? fa) with false by lia.
      rewrite frees_app, X. cbn. by rewrite E.
    + injection E as <- <- <-. replace (base + total l + n =? base + total l + n) with true by lia.
      rewrite frees_app, X. cbn. f_equal; [f_equal; lia|]. f_equal. lia.
Qed.

Lemma release_useds base l n r :
  useds base (release l n r) = useds base l ++ useds (base + total l + n) r.
Proof.
  unfold release. destruct (existsb is_free l), r as [|[k|k] r]; rewrite useds_app; cbn; try done.
  f_equal. f_equal. lia.
Qed.

Lemma kfree_refines s l n r :
  let base := heap_start_adr (k_heap s) in
  heap_rep s (l ++ Used n :: r) -> existsb is_free r = true ->
  exists s', kfree (base + total l + 8) s = Ok tt s' /\ heap_rep s' (release l n r)
    /\ heap_frame base (l ++ Free n :: r) s s'.
Proof.
  intros base [[Hwf Hlo Hhi HV Hf HC HU] Htot] Hr. fold base in Hlo, Hhi, HV, Hf, HC, HU.
  destruct (frees (base + total l + n) r) as [|[fa fs] post] eqn:Er.
  { apply existsb_frees in Er. congruence. }
  pose proof Hwf as Hwf0. rewrite segs_wf_app, segs_wf_cons in Hwf. destruct Hwf as (Wl & Wn & Wr). cbn in Wn.
  set (segs := l ++ Used n :: r) in *. set (a := base + total l) in *. set (pre := frees base l).
  assert (Efl : frees base segs = pre ++ (fa, fs) :: post).
  { unfold segs. rewrite frees_app. cbn. fold a. by rewrite Er. }
  assert (Efl' : frees base (l ++ Free n :: r) = pre ++ (a, n) :: (fa, fs) :: post).
  { rewrite frees_app. cbn. fold a. by rewrite Er. }
  rewrite Efl in *.
  assert (B : blocks base (pre ++ (a, n) :: (fa, fs) :: post) (base + total segs)).
  { rewrite <- Efl'. replace (total segs) with (total (l ++ Free n :: r)).
    - apply frees_blocks. by rewrite segs_wf_app, segs_wf_cons.
    - unfold segs. by rewrite !total_app. }
  assert (U : ldn 8 (k_mem s) a = Some (n - 8)).
  { unfold segs in HU. rewrite useds_app in HU. cbn in HU. apply Forall_app in HU as [_ HU].
    apply Forall_cons in HU as [HU _]. exact HU. }
  destruct (kfree_insert_ok s (k_mem s) base (base + total segs) pre a n fa fs post) as (m' & R & C' & S' & V');
    [done|done|by replace (base + total segs - base) with (total segs) by lia|done|done|done| | |].
  { intros pre' pa ps Ep. unfold a. eapply gap_before; [exact Wl|exact Ep]. }
  { destruct (gap_after _ _ _ _ _ Wr Er); lia. }
  rewrite <- Hf, hstate_id in R.
  set (f' := first_of (inserted pre a n fa fs post) 0) in *.
  exists (hstate m' f' s). split; [done|]. split.
  - split; [|cbn; rewrite release_total; done].
    pose proof (release_frees base l n r fa fs post Hwf0 Er) as EF. fold pre a in EF.
    constructor; cbn; fold base; try done; rewrite ?EF, ?release_total; fold segs; try done.
    + by apply release_wf.
    + intros i Hi. rewrite V'. by apply HV.
    + rewrite release_useds. fold a. unfold segs in HU. rewrite useds_app in HU. cbn in HU.
      apply Forall_app in HU as [HU1 HU2]. apply Forall_cons in HU2 as [_ HU2].
      assert (W' : segs_wf (l ++ Free n :: r)) by (by rewrite segs_wf_app, segs_wf_cons).
      assert (HQ : forall b, in_blocks (useds base l ++ useds (a + n) r) b ->
                 ~ in_blocks (pre ++ (a, n) :: (fa, fs) :: post) b).
      { intros b (y & ys & Hy & Hb). rewrite <- Efl'. apply (used_not_free _ y ys); [done| |done].
        rewrite useds_app. cbn. done. }
      apply Forall_app. split.
      * eapply (used_headers_same _ _ _ base); [by apply useds_blocks|exact S'| |exact HU1].
        intros b (y & ys & Hy & Hb). apply HQ. exists y, ys. split; [|done]. apply elem_of_app. by left.
      * eapply (used_headers_same _ _ _ (a + n)); [by apply useds_blocks|exact S'| |exact HU2].
        intros b (y & ys & Hy & Hb). apply HQ. exists y, ys. split; [|done]. apply elem_of_app. by right.
  - split; [done|]. split; [|done]. cbn. by rewrite Efl'.
Qed.
