(* ===== verification/HeapTheorems.v ===== *)
(** * Properties of the kernel heap

    The statements about [kmalloc_init], [kmalloc] and [kfree]
    (src/lib/kmalloc.c), each with a concrete instance. *)

From S2P Require Export HeapProofs.

(** ** Initialisation *)

Definition init_heap (s : kstate) (b : Z) : kstate :=
  with_heap (HeapGlobals b b b (kheap_size (k_heap s))) s.

Lemma kmalloc_init_run s b :
  let n := kheap_size (k_heap s) in
  0 < b -> b + n < 2 ^ 64 - 1 -> MIN_BLOCK <= n -> n < 2 ^ 63 -> n mod 8 = 0 ->
  valid_range (k_mem s) b n ->
  exists m, kmalloc_init b s = Ok tt (hstate m b (init_heap s b))
    /\ heap_rep (hstate m b (init_heap s b)) [Free n]
    /\ (forall i, 24 <= i < n -> ld8 m (b + i) = Some 0)
    /\ same_on (fun a => a < b \/ b + n <= a) (k_mem s) m /\ m_valid m = m_valid (k_mem s).
Proof.
  intros n Hb Hhi Hmin Hmax H8 HV. unfold MIN_BLOCK in Hmin.
  destruct (memzero_run (init_heap s b) b n) as (m0 & R & Z0 & F0 & V0); [lia|done|done|lia|lia|].
  rewrite <- bind_mret_r. unfold kmalloc_init. rewrite bind_assoc, bind_put.
  change (with_heap (HeapGlobals b b b (kheap_size (k_heap s))) s) with (init_heap s b).
  cbv beta. change (init_heap s b) with (hstate (k_mem s) b (init_heap s b)) at 1.
  rewrite bind_assoc. cbv beta. hread. rewrite bind_assoc, bind_get. cbv beta.
  change (kheap_size (k_heap (hstate (k_mem s) b (init_heap s b)))) with n.
  rewrite bind_assoc. cbv beta. change (hstate (k_mem s) b (init_heap s b)) with (init_heap s b).
  rewrite (bind_ok _ _ _ _ _ R). cbv beta. change (with_mem m0 (init_heap s b)) with (hstate m0 b (init_heap s b)).
  assert (V : valid_range m0 b n) by (intros i Hi; rewrite V0; by apply HV).
  assert (Hsame : forall m m' a v, stn 8 m a v = Some m' -> b <= a -> a + 8 <= b + 24 ->
            same_on (fun x => x < b \/ b + 24 <= x) m m').
  { intros m m' a v E H1 H2. eapply same_on_stn; [exact E|]. cbn. lia. }
  unfold START_OF_HEAP, END_OF_HEAP. hrun.
  assert (S : same_on (fun x => x < b \/ b + 24 <= x) m0 m2).
  { etrans; [eapply Hsame; [exact E|lia|lia]|]. etrans; [eapply Hsame; [exact E0|lia|lia]|].
    eapply Hsame; [exact E1|lia|lia]. }
  exists m2. split; [done|]. split; [|split; [|split]].
  - split; [|cbn; unfold n; lia]. constructor; cbn; rewrite ?Z.add_0_r; try done; try lia.
    + repeat constructor. done.
    + constructor.
  - intros i Hi. rewrite (S (b + i)) by lia. apply Z0. lia.
  - intros a Ha. rewrite (S a) by lia. apply F0. exact Ha.
  - rewrite (stn_valid_eq _ _ _ _ _ E1), (stn_valid_eq _ _ _ _ _ E0), (stn_valid_eq _ _ _ _ _ E). exact V0.
Qed.

(** ** The searches that find nothing *)

Lemma kmalloc_no_fit_run s segs size :
  heap_rep s segs -> 0 <= size -> size + 8 < 2 ^ 64 ->
  alloc_seg (size + 8) (heap_start_adr (k_heap s)) segs = None ->
  existsb is_free segs = true -> m_valid (k_mem s) 15 = false ->
  kmalloc size s = Err (BadAccess 15).
Proof.
  intros [L _] H0 H1 HN Hfree H15. pose proof (layout_length _ _ _ _ L) as Hlen.
  destruct L as [Hwf Hlo Hhi HV Hf HC HU]. set (base := heap_start_adr (k_heap s)) in *.
  pose proof (frees_blocks segs base Hwf) as B. apply alloc_seg_none in HN.
  assert (Hne : frees base segs <> []) by (intros E; apply existsb_frees in E; congruence).
  pose proof (first_of_bounds _ _ _ 0 B Hne).
  rewrite kmalloc_unfold by lia. rewrite Hf. apply (loop_fails_loop _ (S (length (frees base segs)))); [|lia].
  rewrite <- (hstate_id s) at 1. by apply (kmalloc_search_fails _ _ _ _ _ (base + total segs) _ START_OF_HEAP base).
Qed.

Lemma kfree_search_last s m f hi ptr pre fa fs : forall p base,
  0 < base -> hi < 2 ^ 64 - 1 -> blocks base (pre ++ [(fa, fs)]) hi ->
  chain m p (pre ++ [(fa, fs)]) END_OF_HEAP ->
  Forall (fun '(a, _) => a < ptr) pre ->
  loops (kfree_search_body ptr) (S (length pre)) (first_of (pre ++ [(fa, fs)]) 0) (hstate m f s)
    (fa, false) (hstate m f s).
Proof.
  induction pre as [|[x xs] pre IH]; intros p base Hb Hhi B C Hpre; cbn [app first_of length].
  - apply loops_done. unfold END_OF_HEAP in *. split_layout. unfold kfree_search_body, END_OF_HEAP. by hrun.
  - apply Forall_cons in Hpre as [Hx Hpre]. cbn [app] in B, C. destruct B as (B1 & B2 & B), C as ((_ & N & S) & C).
    pose proof (blocks_le _ _ _ B). pose proof (first_of_bounds _ _ _ END_OF_HEAP B ltac:(by destruct pre)) as F1.
    eapply loops_step; [|apply (IH x (x + xs)); try done; lia].
    unfold kfree_search_body. hrun. unfold END_OF_HEAP in *.
    replace (first_of (pre ++ [(fa, fs)]) (2 ^ 64 - 1) =? 2 ^ 64 - 1) with false by lia.
    replace (ptr <? x) with false by lia. hrun. by destruct pre as [|[]].
Qed.

Lemma kfree_tail_run s l n r pre fa fs :
  let base := heap_start_adr (k_heap s) in
  let a := base + total l in
  heap_rep s (l ++ Used n :: r) -> existsb is_free r = false ->
  frees base l = pre ++ [(fa, fs)] -> pre <> [] ->
  exists s', kfree (a + 8) s = Ok tt s'
    /\ ldn 8 (k_mem s') (fa + 8) = Some a
    /\ ldn 8 (k_mem s') (a + 8) = ldn 8 (k_mem s) (a + 8).
Proof.
  intros base a [[Hwf Hlo Hhi HV Hf HC HU] _] Hr Hl Hpre.
  fold base in Hlo, Hhi, HV, Hf, HC, HU.
  apply (existsb_frees _ (a + n)) in Hr.
  rewrite segs_wf_app, segs_wf_cons in Hwf. destruct Hwf as (Wl & Wn & Wr). cbn in Wn.
  rewrite frees_app in Hf, HC. cbn in Hf, HC. fold a in Hf, HC. rewrite Hr, Hl, app_nil_r in Hf, HC.
  rewrite useds_app in HU. cbn in HU. fold a in HU. apply Forall_app in HU as [_ HU]. apply Forall_cons in HU as [U _].
  cbv beta iota in U.
  pose proof (frees_blocks l base Wl) as B. rewrite Hl in B. fold a in B.
  rewrite total_app in Hhi, HV. cbn in Hhi, HV. pose proof (total_nonneg _ Wl). pose proof (total_nonneg _ Wr).
  set (hi := base + (total l + (n + total r))) in *.
  assert (V : valid_range (k_mem s) base (hi - base)) by (by replace (hi - base) with (total l + (n + total r)) by lia).
  destruct (blocks_in _ fa fs _ _ B) as (B1 & B2 & B3); [mem_tac|].
  destruct (ldn_ok 8 (k_mem s) (a + 8)) as [w Hw].
  { apply (valid_range_sub _ _ _ _ _ V); unfold hi, a; lia. }
  assert (L : loops (kfree_search_body (a + 8)) (S (length pre)) (first_of (pre ++ [(fa, fs)]) 0)
            (hstate (k_mem s) (first_free (k_heap s)) s) (fa, false) (hstate (k_mem s) (first_free (k_heap s)) s)).
  { apply (kfree_search_last _ _ _ a _ _ _ _ START_OF_HEAP base); try done; [unfold hi in *; lia|].
    rewrite blocks_app in B. destruct B as (mid & Bp & Bm & _). apply Forall_forall. intros [x xs] Hx.
    destruct (blocks_in _ _ _ _ _ Bp Hx). lia. }
  apply loops_loop in L; [|pose proof (blocks_length _ _ _ B) as Q; rewrite length_app in Q; unfold hi in *; lia].
  replace (kfree (a + 8) s) with (kfree (a + 8) (hstate (k_mem s) (first_free (k_heap s)) s)) by (by rewrite hstate_id).
  rewrite <- bind_mret_r. rewrite Hf in *. rewrite Hw.
  destruct pre as [|[x xs] pre]; [done|]. cbn [app first_of] in *. clear Hpre.
  assert (Hx : base <= x /\ x + 24 <= a) by (destruct B as (? & ? & B); apply blocks_le in B; lia).
  destruct HC as ((P & N & S) & C). destruct B as (_ & _ & B).
  pose proof (first_of_bounds _ _ _ END_OF_HEAP B ltac:(by destruct pre)) as F2. unfold END_OF_HEAP in F2.
  rewrite chain_app in C. destruct C as (_ & ((_ & Nf & _) & _)). cbn [first_of] in Nf.
  unfold kfree, KERNEL_MALLOC_HEADER_SIZE. replace (a + 8 =? 0) with false by lia. cbv zeta.
  replace (a + 8 - 8) with a by lia. unfold hi in *. unfold kfree_search, START_OF_HEAP, END_OF_HEAP in *.
  hrun. replace (n - 8 + 8) with n by lia. rewrite ?bind_assoc. hrun.
  rewrite (bind_ok _ _ _ _ _ L). cbv beta iota. hrun.
  replace ((2 ^ 64 - 1 =? 2 ^ 64 - 1) && (a + 8 <? fa)) with false by lia. cbn [negb]. cbv beta iota.
  unfold kfree_tail, END_OF_HEAP. hrun.
  eexists. split; [reflexivity|]. cbn [k_mem hstate with_mem with_first_free with_heap]. auto.
Qed.

(** ** Histories of allocations and releases *)

Inductive heap_op := OpAlloc (size : Z) | OpFree (ptr : Z).

(** The abstract heap a client may rely on: segments large enough for a free
    header, the last one free. *)
Definition segs_ok (segs : list seg) : bool :=
  forallb (fun g => MIN_BLOCK <=? seg_size g) segs
  && match last segs with Some (Free _) => true | _ => false end.

Fixpoint abs_free (pre : list seg) (base ptr : Z) (segs : list seg) : option (list seg) :=
  match segs with
  | [] => None
  | g :: r =>
      if ptr =? base + 8 then match g with Used n => Some (release pre n r) | Free _ => None end
      else abs_free (pre ++ [g]) (base + seg_size g) ptr r
  end.

Definition abs_op (base : Z) (op : heap_op) (segs : list seg) : option (Z * list seg) :=
  '(ret, segs') ← (match op with
    | OpAlloc size =>
        if (0 <=? size) && (size + 8 <? 2 ^ 64) then
          '(a, segs') ← alloc_seg (size + 8) base segs; Some (a + 8, segs')
        else None
    | OpFree ptr => segs' ← abs_free [] base ptr segs; Some (0, segs')
    end);
  if segs_ok segs' then Some (ret, segs') else None.

Fixpoint abs_run (base : Z) (ops : list heap_op) (segs : list seg) : option (list Z * list seg) :=
  match ops with
  | [] => Some ([], segs)
  | op :: ops =>
      '(ret, segs') ← abs_op base op segs;
      '(rets, segs'') ← abs_run base ops segs'; Some (ret :: rets, segs'')
  end.

Definition run_op (op : heap_op) : K Z :=
  match op with OpAlloc size => kmalloc size | OpFree ptr => _ ← kfree ptr; mret 0 end.
Fixpoint run_ops (ops : list heap_op) : K (list Z) :=
  match ops with
  | [] => mret []
  | op :: ops => ret ← run_op op; rets ← run_ops ops; mret (ret :: rets)
  end.

Lemma segs_ok_wf segs : segs_ok segs = true -> segs_wf segs.
Proof.
  unfold segs_ok. rewrite andb_true_iff, forallb_forall. intros [H _]. apply Forall_forall.
  intros g Hg. apply list_elem_of_In in Hg. apply H in Hg. lia.
Qed.

Lemma last_free_app l r : r <> [] ->
  match last (l ++ r) with Some (Free _) => true | _ => false end = true -> existsb is_free r = true.
Proof.
  intros Hr H. destruct r as [|g r _] using rev_ind; [done|].
  rewrite app_assoc, last_snoc in H. rewrite existsb_app. destruct g; [done|]. apply orb_true_r.
Qed.

Lemma segs_ok_tail_free l n r : segs_ok (l ++ Used n :: r) = true -> existsb is_free r = true.
Proof.
  unfold segs_ok. intros H. apply andb_prop in H as [_ H]. destruct r as [|g r].
  - by rewrite last_snoc in H.
  - apply (last_free_app (l ++ [Used n])); [done|]. by rewrite <- app_assoc.
Qed.

Lemma abs_free_spec ptr r : forall pre base segs',
  abs_free pre (base + total pre) ptr r = Some segs' ->
  exists l n r', pre ++ r = l ++ Used n :: r' /\ ptr = base + total l + 8 /\ segs' = release l n r'.
Proof.
  induction r as [|g r IH]; intros pre base segs' H; cbn in H; [done|].
  destruct (ptr =? base + total pre + 8) eqn:C.
  - destruct g as [n|n]; [|done]. injection H as <-. exists pre, n, r. repeat split. lia.
  - destruct (IH (pre ++ [g]) base segs') as (l & n & r' & E & Hp & Hs).
    + rewrite total_app. cbn. replace (base + (total pre + (seg_size g + 0))) with (base + total pre + seg_size g) by lia. done.
    + exists l, n, r'. rewrite <- app_assoc in E. done.
Qed.

(** The heap area and the mapping are those of the start. *)
Definition same_heap_area (s s' : kstate) : Prop :=
  heap_start_adr (k_heap s') = heap_start_adr (k_heap s) /\ m_valid (k_mem s') = m_valid (k_mem s).

Lemma heap_frame_area base segs s s' : heap_frame base segs s s' -> same_heap_area s s'.
Proof. intros (E & _ & V). split; [by rewrite E|done]. Qed.

Lemma abs_op_refines s segs op ret segs' :
  heap_rep s segs -> segs_ok segs = true ->
  abs_op (heap_start_adr (k_heap s)) op segs = Some (ret, segs') ->
  exists s', run_op op s = Ok ret s' /\ heap_rep s' segs' /\ segs_ok segs' = true
    /\ same_heap_area s s'.
Proof.
  intros R Hok H. unfold abs_op in H. destruct op as [size|ptr].
  - destruct ((0 <=? size) && (size + 8 <? 2 ^ 64)) eqn:C; [|done].
    destruct (alloc_seg _ _ _) as [[a segs1]|] eqn:E; [|done]. cbn in H.
    destruct (segs_ok segs1) eqn:O; [|done]. injection H as <- <-.
    destruct (kmalloc_refines _ _ size _ _ R ltac:(lia) ltac:(lia) E (segs_ok_wf _ O)) as (s' & K & R' & F).
    exists s'. split; [done|]. split; [done|]. split; [done|]. by eapply heap_frame_area.
  - destruct (abs_free _ _ _ _) as [segs1|] eqn:E; [|done]. cbn in H.
    destruct (segs_ok segs1) eqn:O; [|done]. injection H as <- <-.
    destruct (abs_free_spec ptr segs [] (heap_start_adr (k_heap s)) segs1) as (l & n & r & Es & -> & ->).
    { cbn. by rewrite Z.add_0_r. }
    cbn in Es. subst segs.
    destruct (kfree_refines s l n r R (segs_ok_tail_free _ _ _ Hok)) as (s' & K & R' & F).
    exists s'. cbn. rewrite (bind_ok _ _ _ _ _ K). split; [done|]. split; [done|]. split; [done|]. by eapply heap_frame_area.
Qed.

Lemma run_ops_refines ops : forall s segs rets segs',
  heap_rep s segs -> segs_ok segs = true ->
  abs_run (heap_start_adr (k_heap s)) ops segs = Some (rets, segs') ->
  exists s', run_ops ops s = Ok rets s' /\ heap_rep s' segs' /\ segs_ok segs' = true
    /\ same_heap_area s s'.
Proof.
  induction ops as [|op ops IH]; intros s segs rets segs' R Hok H; cbn in H.
  - injection H as <- <-. exists s. repeat split; done || apply R.
  - destruct (abs_op _ op segs) as [[ret segs1]|] eqn:E; [|done]. cbn in H.
    destruct (abs_op_refines _ _ _ _ _ R Hok E) as (s1 & K & R1 & O1 & Eb & Ev).
    destruct (abs_run _ ops segs1) as [[rets1 segs2]|] eqn:E2; [|done]. cbn in H. injection H as <- <-.
    rewrite <- Eb in E2. destruct (IH _ _ _ _ R1 O1 E2) as (s2 & K2 & R2 & O2 & Eb2 & Ev2).
    exists s2. cbn. rewrite (bind_ok _ _ _ _ _ K), (bind_ok _ _ _ _ _ K2).
    split; [done|]. split; [done|]. split; [done|]. split; congruence.
Qed.

(** The state after a command that returns. *)
Definition exec {A} (c : K A) (s : kstate) : kstate := match c s with Ok _ s' => s' | Err _ => s end.

(** The heap at [b] is represented, in the mapping of [s0]. *)
Definition heap_at (b : Z) (segs : list seg) (s0 s : kstate) : Prop :=
  heap_rep s segs /\ heap_start_adr (k_heap s) = b /\ m_valid (k_mem s) = m_valid (k_mem s0).

Lemma exec_history s b ops rets segs :
  let n := kheap_size (k_heap s) in
  0 < b -> b + n < 2 ^ 64 - 1 -> MIN_BLOCK <= n -> n < 2 ^ 63 -> n mod 8 = 0 ->
  valid_range (k_mem s) b n ->
  abs_run b ops [Free n] = Some (rets, segs) ->
  heap_at b segs s (exec (_ ← kmalloc_init b; run_ops ops) s).
Proof.
  intros n Hb Hhi Hmin Hmax H8 HV HA.
  destruct (kmalloc_init_run s b Hb Hhi Hmin Hmax H8 HV) as (m & I & R & _ & _ & V).
  destruct (run_ops_refines ops _ _ rets segs R) as (s' & K & R' & _ & E1 & E2).
  - unfold segs_ok, MIN_BLOCK in *. cbn. lia.
  - exact HA.
  - unfold exec. rewrite (bind_ok _ _ _ _ _ I), K. split; [done|]. rewrite E1, E2. done.
Qed.

Lemma exec_kmalloc b s0 s segs size a segs' :
  heap_at b segs s0 s -> 0 <= size -> size + 8 < 2 ^ 64 ->
  alloc_seg (size + 8) b segs = Some (a, segs') -> segs_wf segs' ->
  heap_at b segs' s0 (exec (kmalloc size) s).
Proof.
  intros (R & Eb & Ev) H0 H1 HA W. rewrite <- Eb in HA.
  destruct (kmalloc_refines _ _ _ _ _ R H0 H1 HA W) as (s' & K & R' & F).
  unfold exec. rewrite K. destruct (heap_frame_area _ _ _ _ F). split; [done|]. split; congruence.
Qed.

(** ** Properties *)

(** The address [kmalloc_init] was given. *)
Definition heap_base (s : kstate) : Z := heap_start_adr (k_heap s).

(** [kmalloc_init] turns the area it is given into a heap of one free block,
    cleared after its header, and touches nothing else. *)
Theorem kmalloc_init_correct s b :
  let n := kheap_size (k_heap s) in
  0 < b -> b + n < 2 ^ 64 - 1 -> MIN_BLOCK <= n -> n < 2 ^ 63 -> n mod 8 = 0 ->
  valid_range (k_mem s) b n ->
  exists m, kmalloc_init b s = Ok tt (hstate m b (init_heap s b))
    /\ heap_rep (hstate m b (init_heap s b)) [Free n]
    /\ (forall i, 24 <= i < n -> ld8 m (b + i) = Some 0)
    /\ same_on (fun a => a < b \/ b + n <= a) (k_mem s) m /\ m_valid m = m_valid (k_mem s).
Proof. apply kmalloc_init_run. Qed.

(** [kmalloc] refines first fit: when the abstract heap finds a segment and
    its remainder is usable, the call returns that address past the size word,
    the memory represents the new segments, and only free blocks were written. *)
Theorem kmalloc_first_fit s segs size a segs' :
  heap_rep s segs -> 0 <= size -> size + 8 < 2 ^ 64 ->
  alloc_seg (size + 8) (heap_base s) segs = Some (a, segs') -> segs_wf segs' ->
  exists s', kmalloc size s = Ok (a + 8) s' /\ heap_rep s' segs'
    /\ heap_frame (heap_base s) segs s s'.
Proof. apply kmalloc_refines. Qed.

(** C14. The block [kmalloc] returns lies inside the heap and overlaps no live
    block, and every byte of every live block keeps its value. *)
Theorem kmalloc_returns_fresh_block s segs size a segs' b n :
  heap_rep s segs -> 0 <= size -> size + 8 < 2 ^ 64 ->
  alloc_seg (size + 8) (heap_base s) segs = Some (a, segs') -> segs_wf segs' ->
  (b, n) ∈ useds (heap_base s) segs ->
  exists s', kmalloc size s = Ok (a + 8) s'
    /\ heap_base s <= a /\ a + 8 + size <= heap_base s + kheap_size (k_heap s)
    /\ (a + 8 + size <= b \/ b + n <= a)
    /\ (forall i, b <= i < b + n -> ld8 (k_mem s') i = ld8 (k_mem s) i).
Proof.
  intros R H0 H1 HA Hwf' Hin. destruct (kmalloc_refines _ _ _ _ _ R H0 H1 HA Hwf') as (s' & K & R' & _ & S & _).
  exists s'. split; [done|]. destruct R as [[Hwf _ _ _ _ _ _] <-].
  unfold heap_base in *. set (base := heap_start_adr (k_heap s)) in *.
  destruct (alloc_seg_spec _ _ _ _ _ HA) as (l & k & r & -> & -> & Hk & _ & _).
  assert (Hf : (base + total l, k) ∈ frees base (l ++ Free k :: r)) by (rewrite frees_app; cbn [frees]; mem_tac).
  destruct (blocks_in _ _ _ _ _ (frees_blocks _ base Hwf) Hf) as (F1 & F2 & F3).
  destruct (blocks_in _ _ _ _ _ (useds_blocks _ base Hwf) Hin) as (U1 & U2 & U3).
  split; [lia|]. split; [lia|]. split.
  - destruct (Z_le_gt_dec (base + total l + 8 + size) b); [by left|].
    destruct (Z_le_gt_dec (b + n) (base + total l)); [by right|]. exfalso.
    apply (used_not_free _ b n (Z.max b (base + total l)) base Hwf Hin); [lia|].
    exists (base + total l), k. split; [done|lia].
  - intros i Hi. apply S. by apply (used_not_free _ b n i base Hwf Hin).
Qed.

(** C13. [kfree] refines [release]: the block becomes free in address order, merged
    with the free block right after it only if it is the first of the list; live
    blocks and the rest of memory are not written. *)
Theorem kfree_releases_block s l n r :
  let base := heap_base s in
  heap_rep s (l ++ Used n :: r) -> existsb is_free r = true ->
  exists s', kfree (base + total l + 8) s = Ok tt s' /\ heap_rep s' (release l n r)
    /\ heap_frame base (l ++ Free n :: r) s s'.
Proof. apply kfree_refines. Qed.

(** C1. Any sequence of allocations and releases that the abstract heap accepts
    runs without error, returns the abstract heap's addresses, and ends in a
    memory that represents its segments. *)
Theorem heap_history_refines ops s segs rets segs' :
  heap_rep s segs -> segs_ok segs = true ->
  abs_run (heap_base s) ops segs = Some (rets, segs') ->
  exists s', run_ops ops s = Ok rets s' /\ heap_rep s' segs' /\ segs_ok segs' = true
    /\ same_heap_area s s'.
Proof. apply run_ops_refines. Qed.

(** When no free block is large enough, [kmalloc] does not return 0: its loop
    condition holds for every pointer, so it goes on to the end marker and reads
    a size through it, an access to address 15. *)
Theorem kmalloc_no_fit_faults s segs size :
  heap_rep s segs -> 0 <= size -> size + 8 < 2 ^ 64 ->
  alloc_seg (size + 8) (heap_base s) segs = None ->
  existsb is_free segs = true -> m_valid (k_mem s) 15 = false ->
  kmalloc size s = Err (BadAccess 15).
Proof. apply kmalloc_no_fit_run. Qed.

(** Releasing a block that follows the last of several free blocks links it
    behind that block without writing its [next] member: the free list goes on
    with the first word of the caller's data. *)
Theorem kfree_tail_keeps_payload_as_link s l n r pre fa fs :
  let base := heap_base s in
  let a := base + total l in
  heap_rep s (l ++ Used n :: r) -> existsb is_free r = false ->
  frees base l = pre ++ [(fa, fs)] -> pre <> [] ->
  exists s', kfree (a + 8) s = Ok tt s'
    /\ ldn 8 (k_mem s') (fa + 8) = Some a
    /\ ldn 8 (k_mem s') (a + 8) = ldn 8 (k_mem s) (a + 8).
Proof. apply kfree_tail_run. Qed.

(** ** Concrete instances *)

(** A 256-byte heap at address 4096. *)
Definition small_state : kstate :=
  with_heap (HeapGlobals 0 0 0 256) (boot_state (fun a => (4096 <=? a) && (a <? 8192)) ∅ 1).

(** Three blocks allocated, the first one released. *)
Definition sample_ops : list heap_op := [OpAlloc 16; OpAlloc 32; OpAlloc 16; OpFree 4104].
Definition sample_heap : kstate := exec (_ ← kmalloc_init 4096; run_ops sample_ops) small_state.
Definition sample_segs : list seg := [Free 24; Used 40; Used 24; Free 168].

(** The third block released too and the tail of the heap allocated: the last
    free block is followed by an allocated one. *)
Definition full_heap : kstate :=
  exec (kmalloc 160) (exec (_ ← kmalloc_init 4096; run_ops (sample_ops ++ [OpFree 4168])) small_state).
Definition full_segs : list seg := [Free 24; Used 40; Free 24; Used 168].

Lemma small_valid b n : 4096 <= b -> b + n <= 8192 -> valid_range (k_mem small_state) b n.
Proof. intros H1 H2 i Hi. cbn. lia. Qed.

Lemma sample_heap_at : heap_at 4096 sample_segs small_state sample_heap.
Proof.
  eapply exec_history; [lia|cbn; lia|vm_compute; discriminate|cbn; lia|reflexivity|apply small_valid; cbn; lia|reflexivity].
Qed.
Lemma full_heap_at : heap_at 4096 full_segs small_state full_heap.
Proof.
  eapply exec_kmalloc; [|lia|lia| |].
  - eapply exec_history; [lia|cbn; lia|vm_compute; discriminate|cbn; lia|reflexivity|apply small_valid; cbn; lia|reflexivity].
  - reflexivity.
  - repeat constructor; vm_compute; discriminate.
Qed.

Lemma kmalloc_init_correct_witness :
  exists m, kmalloc_init 4096 small_state = Ok tt (hstate m 4096 (init_heap small_state 4096))
    /\ heap_rep (hstate m 4096 (init_heap small_state 4096)) [Free 256]
    /\ (forall i, 24 <= i < 256 -> ld8 m (4096 + i) = Some 0)
    /\ same_on (fun a => a < 4096 \/ 4096 + 256 <= a) (k_mem small_state) m /\ m_valid m = m_valid (k_mem small_state).
Proof.
  apply (kmalloc_init_correct small_state 4096); [lia|cbn; lia|vm_compute; discriminate|cbn; lia|reflexivity|].
  apply small_valid; cbn; lia.
Defined.

(** A fourth block of 16 bytes reuses the block released. *)
Lemma kmalloc_first_fit_witness :
  exists s', kmalloc 16 sample_heap = Ok 4104 s' /\ heap_rep s' [Used 24; Used 40; Used 24; Free 168]
    /\ heap_frame (heap_base sample_heap) sample_segs sample_heap s'.
Proof.
  destruct sample_heap_at as (R & Eb & _).
  apply (kmalloc_first_fit sample_heap sample_segs 16 4096); [exact R|lia|lia|unfold heap_base; rewrite Eb; reflexivity|].
  repeat constructor; vm_compute; discriminate.
Defined.

Lemma kmalloc_returns_fresh_block_witness :
  exists s', kmalloc 16 sample_heap = Ok (4096 + 8) s'
    /\ heap_base sample_heap <= 4096
    /\ 4096 + 8 + 16 <= heap_base sample_heap + kheap_size (k_heap sample_heap)
    /\ (4096 + 8 + 16 <= 4120 \/ 4120 + 40 <= 4096)
    /\ (forall i, 4120 <= i < 4120 + 40 -> ld8 (k_mem s') i = ld8 (k_mem sample_heap) i).
Proof.
  destruct sample_heap_at as (R & Eb & _).
  eapply (kmalloc_returns_fresh_block sample_heap sample_segs 16 4096); [exact R|lia|lia|unfold heap_base; rewrite Eb; reflexivity| |].
  - repeat constructor; vm_compute; discriminate.
  - unfold heap_base; rewrite Eb. cbn. mem_tac.
Defined.

(** Releasing the second block: a free block precedes it, no merge. *)
Lemma kfree_releases_block_witness :
  exists s', kfree (heap_base sample_heap + 24 + 8) sample_heap = Ok tt s'
    /\ heap_rep s' [Free 24; Free 40; Used 24; Free 168]
    /\ heap_frame (heap_base sample_heap) [Free 24; Free 40; Used 24; Free 168] sample_heap s'.
Proof.
  destruct sample_heap_at as (R & _).
  exact (kfree_releases_block sample_heap [Free 24] 40 [Used 24; Free 168] R eq_refl).
Defined.

Lemma heap_history_refines_witness :
  exists s', run_ops [OpAlloc 24; OpFree 4128; OpAlloc 16] sample_heap = Ok [4192; 0; 4104] s'
    /\ heap_rep s' [Used 24; Free 40; Used 24; Used 32; Free 136]
    /\ segs_ok [Used 24; Free 40; Used 24; Used 32; Free 136] = true /\ same_heap_area sample_heap s'.
Proof.
  destruct sample_heap_at as (R & Eb & _).
  apply (heap_history_refines _ sample_heap sample_segs); [exact R|reflexivity|unfold heap_base; rewrite Eb; reflexivity].
Defined.

Lemma kmalloc_no_fit_faults_witness : kmalloc 200 sample_heap = Err (BadAccess 15).
Proof.
  destruct sample_heap_at as (R & Eb & V).
  apply (kmalloc_no_fit_faults sample_heap sample_segs); [exact R|lia|lia|unfold heap_base; rewrite Eb; reflexivity|reflexivity|].
  rewrite V. reflexivity.
Defined.

Lemma kfree_tail_keeps_payload_as_link_witness :
  exists s', kfree (heap_base full_heap + 88 + 8) full_heap = Ok tt s'
    /\ ldn 8 (k_mem s') (heap_base full_heap + 64 + 8) = Some (heap_base full_heap + 88)
    /\ ldn 8 (k_mem s') (heap_base full_heap + 88 + 8)
       = ldn 8 (k_mem full_heap) (heap_base full_heap + 88 + 8).
Proof.
  destruct full_heap_at as (R & Eb & _).
  eapply (kfree_tail_keeps_payload_as_link full_heap [Free 24; Used 40; Free 24] 168 [] [(4096, 24)] _ 24 R);
    [reflexivity|unfold heap_base; rewrite Eb; reflexivity|done].
Defined.
