(* ===== verification/HeapFront.v ===== *)
(** * Short-lived blocks at the front of the heap

    src/fs/rdfs/rdfs.c takes two blocks for each component of a path and gives
    them back in the opposite order.  They may be smaller than the header of a
    free block, which [segs_wf] of HeapSpec excludes.  As long as both are carved
    from the first free block, [kfree] merges them back with it and the list is
    as it was: the lemmas of this file run that case on the memory itself. *)

From S2P Require Export HeapTheorems.

(** The first free block: [n] bytes at [p], the next one at [nx]. *)
Record front (m : mem) (p nx n : Z) : Prop := {
  fr_hdr : hdr m p START_OF_HEAP nx n;
  fr_pos : 0 < p;
  fr_fits : 24 <= n /\ p + n < 2 ^ 64 - 1;
  fr_valid : valid_range m p n;
  fr_next : nx = END_OF_HEAP \/ p + n <= nx /\ nx + 24 < 2 ^ 64 - 1 /\ valid_range m nx 24 /\ ldn 8 m nx = Some p }.

(** Addresses outside the block and the link back to it. *)
Definition beyond (p nx n a : Z) : Prop := (a < p \/ p + n <= a) /\ (a < nx \/ nx + 8 <= a).

(** Inclusions between sets of addresses. *)
Ltac addr_tac := let x := fresh "x" in let Hx := fresh "Hx" in intros x Hx; cbv beta in *; unfold beyond in *; lia.
(** The frame of a run of stores. *)
Ltac beyond_tac :=
  match goal with
  | |- same_on _ ?m ?m => apply same_on_refl
  | E : stn 8 ?mp ?a ?v = Some ?m' |- same_on _ _ ?m' =>
      apply same_on_trans with mp; [beyond_tac|eapply same_on_stn; [exact E|unfold beyond; cbn; lia]]
  end.
Ltac range_tac :=
  match goal with V : valid_range ?m ?lo ?len |- valid_range ?m ?a ?k => apply (valid_range_sub m lo len a k V); lia end.
(** The parts of [front] from the facts a run leaves. *)
Ltac front_tac :=
  split; [repeat split; assumption|lia|lia|range_tac|];
  first [left; reflexivity|right; split; [lia|]; split; [lia|]; split; [assumption|assumption]].
Ltac finish_front :=
  eexists; split; [reflexivity|]; split; [assumption|]; split; [front_tac|split; [beyond_tac|valid_tac]].

Lemma front_below m p nx n : front m p nx n -> p + n <= nx.
Proof. intros [_ _ Fn _ [->|(Nx & _)]]; [unfold END_OF_HEAP; lia|done]. Qed.

(** Stores below the block do not matter to it. *)
Lemma front_keep m m' p nx n : front m p nx n -> same_on (fun a => p <= a) m m' -> m_valid m' = m_valid m -> front m' p nx n.
Proof.
  intros [(G1 & G2 & G3) Fp Fn V Fx] S Vm.
  assert (Keep : forall x, p <= x -> ldn 8 m' x = ldn 8 m x) by (intros x Hx; apply ldn_ext; intros i Hi; apply S; lia).
  split; [split; [|split]; by rewrite Keep by lia|done|done|intros a Ha; rewrite Vm; by apply V|].
  destruct Fx as [->|(X1 & X2 & X3 & X4)]; [by left|right]. split; [done|]. split; [done|].
  split; [intros a Ha; rewrite Vm; by apply X3|by rewrite Keep by lia].
Qed.

Section front.
Context (s : kstate).

Lemma take_front m p nx n size : front m p nx n -> 0 <= size -> size + 32 <= n ->
  exists m', kmalloc_take p size (size + 8) (hstate m p s) = Ok (p + 8) (hstate m' (p + (size + 8)) s)
    /\ ldn 8 m' p = Some size /\ front m' (p + (size + 8)) nx (n - (size + 8))
    /\ same_on (beyond p nx n) m m' /\ m_valid m' = m_valid m.
Proof.
  intros [(H1 & H2 & H3) Hp [_ Hn] V Nx] H0 Hs. start_take. destruct Nx as [->|(N1 & N2 & VN & NP)].
  - unfold END_OF_HEAP in *. hrun. finish_front.
  - hrun. finish_front.
Qed.

Lemma kmalloc_front m p nx n size : front m p nx n -> 0 <= size -> size + 32 <= n ->
  exists m', kmalloc size (hstate m p s) = Ok (p + 8) (hstate m' (p + (size + 8)) s)
    /\ ldn 8 m' p = Some size /\ front m' (p + (size + 8)) nx (n - (size + 8))
    /\ same_on (beyond p nx n) m m' /\ m_valid m' = m_valid m.
Proof.
  intros F H0 Hs. destruct (take_front m p nx n size F H0 Hs) as (m' & T & R). exists m'. split; [|exact R].
  destruct F as [(H1 & H2 & H3) Hp [_ Hn] V Nx].
  rewrite kmalloc_unfold by (cbn; lia). apply (loops_loop _ 1); [|lia]. apply loops_done.
  change (first_free (k_heap (hstate m p s))) with p. unfold kmalloc_body. hrun. by rewrite (bind_ok _ _ _ _ _ T).
Qed.

(** An empty block is found only when no free block follows. *)
Lemma kfree_front m p nx n size : front m (p + (size + 8)) nx n -> ldn 8 m p = Some size -> 0 < p -> 0 < size ->
  valid_range m p (n + (size + 8)) ->
  exists m', kfree (p + 8) (hstate m (p + (size + 8)) s) = Ok tt (hstate m' p s)
    /\ front m' p nx (n + (size + 8)) /\ same_on (beyond p nx (n + (size + 8))) m m' /\ m_valid m' = m_valid m.
Proof.
  intros [(H1 & H2 & H3) _ [Hn0 Hn] _ Nx] Hsz Hp H0 V.
  set (q := p + (size + 8)) in *.
  assert (R : kfree_search (p + 8) q (hstate m q s) = Ok (q, true) (hstate m q s)).
  { unfold kfree_search. destruct (Z.eq_dec nx END_OF_HEAP) as [->|Nn].
    - hrun. done.
    - hrun.
      rewrite (bind_ok _ _ _ (q, true) (hstate m q s)); [done|]. apply (loops_loop _ 1); [|lia]. apply loops_done.
      unfold kfree_search_body. hrun. by replace (p + 8 <? q) with true by lia. }
  unfold kfree, KERNEL_MALLOC_HEADER_SIZE. replace (p + 8 =? 0) with false by lia. hwrap.
  replace (p + 8 - 8) with p by lia. hrun. rewrite (bind_ok _ _ _ _ _ R). cbn [negb]. hrun. unfold kfree_head, move_block_down.
  assert (E1 : (u64 (p + (size + 8)) =? q) = true) by (hwrap; apply Z.eqb_refl). rewrite E1.
  replace (u64 (q - (size + 8))) with p by (unfold q; hwrap; lia). unfold START_OF_HEAP in *.
  destruct Nx as [->|(N1 & N2 & VN & NP)].
  - unfold END_OF_HEAP in *. hrun. eexists; split; [reflexivity|]. split; [front_tac|split; [beyond_tac|valid_tac]].
  - hrun. rewrite (proj2 (Z.eqb_neq nx END_OF_HEAP)) by (unfold END_OF_HEAP; lia). cbn [negb]. hrun. rewrite <- bind_mret_r.
    hrun. eexists; split; [reflexivity|]. split; [front_tac|split; [beyond_tac|valid_tac]].
Qed.
End front.

(** ** The abstract heap and its first free block *)

Lemma heap_rep_front s segs p n post : heap_rep s segs -> frees (heap_start_adr (k_heap s)) segs = (p, n) :: post ->
  front (k_mem s) p (first_of post END_OF_HEAP) n /\ first_free (k_heap s) = p.
Proof.
  intros [[Hwf Hlo Hhi V Hf HC HU] _] EF. rewrite EF in *. pose proof (frees_blocks segs (heap_start_adr (k_heap s)) Hwf) as B. rewrite EF in B.
  destruct B as (B1 & B2 & B). pose proof (blocks_le _ _ _ B). destruct HC as [Hh HC].
  split; [|done].
  split; [done|lia|lia|range_tac|]. destruct post as [|[nx ns] post]; [by left|right].
  destruct HC as [(Hn & _) _]. destruct B as (B3 & B4 & B). pose proof (blocks_le _ _ _ B). cbn [first_of].
  split; [lia|]. split; [lia|]. split; [range_tac|done].
Qed.

(** A chain above an address survives what happens elsewhere. *)
Lemma chain_above m' m (P : Z -> Prop) l : forall lo hi pv d,
  blocks lo l hi -> same_on P m m' -> (forall a, lo <= a -> P a) -> chain m pv l d -> chain m' pv l d.
Proof.
  induction l as [|[a sz] l IH]; intros lo hi pv d B S HP C; [done|]. destruct B as (B1 & B2 & B), C as [(C1 & C2 & C3) C].
  assert (Same : forall x, a <= x -> ldn 8 m' x = ldn 8 m x) by (intros x Hx; apply ldn_ext; intros i Hi; apply S, HP; lia).
  split; [unfold hdr; by rewrite !Same by lia|]. eapply (IH (a + sz)); [exact B|exact S|intros x Hx; apply HP; lia|exact C].
Qed.

Lemma heap_rep_restored s segs p n post m : heap_rep s segs -> frees (heap_start_adr (k_heap s)) segs = (p, n) :: post ->
  front m p (first_of post END_OF_HEAP) n -> same_on (beyond p (first_of post END_OF_HEAP) n) (k_mem s) m ->
  m_valid m = m_valid (k_mem s) -> heap_rep (hstate m p s) segs.
Proof.
  intros [[Hwf Hlo Hhi V Hf HC HU] HT] EF F S Vm. split; [|exact HT].
  pose proof (frees_blocks segs (heap_start_adr (k_heap s)) Hwf) as B. rewrite EF in *. destruct B as (B1 & B2 & B). pose proof (blocks_le _ _ _ B).
  split; cbn [k_mem k_heap hstate with_mem with_first_free with_heap heap_start_adr first_free];
    rewrite ?EF; [done|done|done|intros a Ha; rewrite Vm; by apply V|done| |].
  - split; [apply F|]. destruct HC as [_ HC]. destruct post as [|[nx ns] post]; [done|].
    destruct B as (B3 & B4 & B). pose proof (blocks_le _ _ _ B). destruct HC as [(Hn & Hn2 & Hn3) HC]. cbn [first_of] in *.
    destruct (fr_next _ _ _ _ F) as [E|(_ & _ & _ & NP)]; [unfold END_OF_HEAP in E; lia|].
    assert (Same : forall a, nx + 8 <= a -> ldn 8 m a = ldn 8 (k_mem s) a).
    { intros a Ha. apply ldn_ext. intros i Hi. apply S. unfold beyond. lia. }
    split; [split; [done|split; rewrite Same by lia; done]|].
    eapply (chain_above m (k_mem s)); [exact B|exact S|intros a Ha; unfold beyond; lia|exact HC].
  - eapply used_headers_same; [by apply useds_blocks|exact S| |done].
    intros b (a & k & Hin & Hb). pose proof (used_not_free segs a k b _ Hwf Hin Hb) as NF. rewrite EF in NF. unfold beyond. split.
    + destruct (Z_lt_le_dec b p); [by left|]. destruct (Z_lt_le_dec b (p + n)); [|by right].
      exfalso. apply NF. exists p, n. split; [left|lia].
    + destruct post as [|[nx ns] post]; cbn [first_of].
      * pose proof (blocks_in _ _ _ _ _ (useds_blocks segs _ Hwf) Hin). unfold END_OF_HEAP. lia.
      * destruct (Z_lt_le_dec b nx); [by left|]. destruct (Z_lt_le_dec b (nx + 8)); [|by right].
        exfalso. apply NF. exists nx, ns. destruct B as (B3 & B4 & _). split; [right; left|lia].
Qed.
