(* ===== verification/PageAlloc.v ===== *)
(** * The page allocator (src/mm/mm.c, include/mm/mm.h)

    The file holds two allocators, chosen at build time by USE_BITMAP
    (include/config.h defines it).  [PageOps] is their common interface,
    [PageLaws] what its clients (paging, the scheduler) rely on; both
    implementations satisfy it.  [ReleaseLaw], that a released page becomes
    available again, holds of the second implementation only.

    [k_pages] is the static array: an index never written holds 0. *)

From S2P Require Export MemUtils.

#[global] Arguments Z.testbit : simpl never.

(** ** include/mm/mm.h, include/mm/paging.h *)

Definition VIRTUAL_ADDRESS_START : Z := 0xffff000000000000.
Definition DEVICE_BASE_PHYS : Z := 0xFE000000.
Definition PAGE_SHIFT : Z := 12.
Definition PAGE_SIZE : Z := Z.shiftl 1 PAGE_SHIFT.
Definition TABLE_SHIFT : Z := 9.
Definition SECTION_SHIFT : Z := PAGE_SHIFT + TABLE_SHIFT.
Definition SECTION_SIZE : Z := Z.shiftl 1 SECTION_SHIFT.
Definition LOW_MEMORY : Z := 2 * SECTION_SIZE.
Definition MM_AVAILABLE_PAGE_MIN : Z := Z.shiftl 1 22.
Definition MM_AVAILABLE_PAGE_MAX : Z := DEVICE_BASE_PHYS.
Definition MM_PAGE_MEMORY_SIZE : Z := MM_AVAILABLE_PAGE_MAX - MM_AVAILABLE_PAGE_MIN.
Definition MM_NUM_OF_PAGES : Z := MM_PAGE_MEMORY_SIZE / PAGE_SIZE.
Definition SIZEOF_CHAR : Z := 1.
Definition UINT8_MASK : Z := 255.

(** ** The static array *)

Definition map_get (i : Z) : K Z := fun s =>
  if (0 <=? i) && (i <? MM_NUM_OF_PAGES) then Ok (default 0 (k_pages s !! i)) s else Err OutOfBounds.
Definition map_set (i v : Z) : K unit := fun s =>
  if (0 <=? i) && (i <? MM_NUM_OF_PAGES)
  then Ok tt (with_pages (<[i := u8 v]> (k_pages s)) s) else Err OutOfBounds.

Module Bitmap.

(** The inner loop, over the bits of one [char]: [sizeof(char)] of them. *)
Definition bit_body (i : Z) : Z * Z -> K ((Z * Z) + option Z) := fun '(j, byte) =>
  if j <? SIZEOF_CHAR then
    if Z.land byte 1 =? 0 then
      old ← map_get i;
      _ ← map_set i (Z.lor old (Z.shiftl 1 j));
      let new_page := u64 (LOW_MEMORY + PAGE_SIZE * (i * SIZEOF_CHAR) + j) in
      _ ← memzero (u64 (new_page + VIRTUAL_ADDRESS_START)) PAGE_SIZE;
      mret (inr (Some new_page))
    else mret (inl (j + 1, Z.shiftr byte 1))
  else mret (inr None).

Definition page_body (i : Z) : K (Z + Z) :=
  if i <? MM_NUM_OF_PAGES / SIZEOF_CHAR then
    byte ← map_get i;
    if Z.land byte UINT8_MASK =? UINT8_MASK then mret (inl (i + 1))
    else
      found ← loop (bit_body i) (0, byte);
      match (found : option Z) with Some page => mret (inr page) | None => mret (inl (i + 1)) end
  else mret (inr 0).

Definition get_next_free_page : K Z := loop page_body 0.

Definition free_page (ptr : Z) : K unit :=
  let idx := u32 (u64 (ptr - MM_AVAILABLE_PAGE_MIN) / PAGE_SIZE) in
  let i := idx / 8 in
  let j := idx mod 8 in
  old ← map_get i;
  map_set i (Z.land old (Z.lnot (Z.shiftl 1 j))).

End Bitmap.

Module Bytemap.

Definition page_body (i : Z) : K (Z + Z) :=
  if i <? MM_NUM_OF_PAGES then
    byte ← map_get i;
    if byte =? 0 then
      _ ← map_set i 1;
      let new_page := u32 (LOW_MEMORY + i * PAGE_SIZE) in
      _ ← memzero (u64 (new_page + VIRTUAL_ADDRESS_START)) PAGE_SIZE;
      mret (inr new_page)
    else mret (inl (i + 1))
  else mret (inr 0).

Definition get_next_free_page : K Z := loop page_body 0.

Definition free_page (ptr : Z) : K unit := map_set (u64 (ptr - MM_AVAILABLE_PAGE_MIN) / PAGE_SIZE) 0.

End Bytemap.

(** ** The interface *)

Definition page_addr (i : Z) : Z := LOW_MEMORY + i * PAGE_SIZE.
Definition page_index (i : Z) : Prop := 0 <= i < MM_NUM_OF_PAGES.

(** The kernel's alias of page [i] is mapped. *)
Definition page_mapped (s : kstate) (i : Z) : Prop :=
  valid_range (k_mem s) (page_addr i + VIRTUAL_ADDRESS_START) PAGE_SIZE.

Class PageOps := { next_free_page : K Z; release_page : Z -> K unit; page_used : kstate -> Z -> bool }.

(** Page [i] was handed out between [s] and [s'], cleared; nothing else changed. *)
Definition fresh_page `{PageOps} (i : Z) (s s' : kstate) : Prop :=
  page_used s i = false
  /\ (forall j, page_used s' j = (j =? i) || page_used s j)
  /\ zeroed PAGE_SIZE (page_addr i + VIRTUAL_ADDRESS_START) (k_mem s) (k_mem s')
  /\ s' = with_mem (k_mem s') (with_pages (k_pages s') s).

Class PageLaws `{PageOps} := {
  page_used_ext s s' : k_pages s = k_pages s' -> page_used s = page_used s';
  next_free_page_some s i :
    page_index i -> page_used s i = false -> (forall j, 0 <= j < i -> page_used s j = true) ->
    page_mapped s i -> exists s', next_free_page s = Ok (page_addr i) s' /\ fresh_page i s s';
  next_free_page_none s :
    (forall j, page_index j -> page_used s j = true) -> next_free_page s = Ok 0 s }.

(** Releasing a page makes that page, and no other, available. *)
Class ReleaseLaw `{PageOps} := {
  release_page_frees s i : page_index i ->
    exists s', release_page (page_addr i) s = Ok tt s' /\ s' = with_pages (k_pages s') s
      /\ (forall j, page_used s' j = negb (j =? i) && page_used s j) }.

Definition map_byte (s : kstate) (i : Z) : Z := default 0 (k_pages s !! i).
#[export] Instance bitmap_ops : PageOps :=
  { next_free_page := Bitmap.get_next_free_page; release_page := Bitmap.free_page;
    page_used s i := Z.testbit (map_byte s i) 0 }.
Definition bytemap_ops : PageOps :=
  {| next_free_page := Bytemap.get_next_free_page; release_page := Bytemap.free_page;
     page_used s i := negb (map_byte s i =? 0) |}.

#[global] Strategy expand [bitmap_ops bytemap_ops next_free_page release_page page_used].

(** ** Both implementations *)

Lemma num_pages : MM_NUM_OF_PAGES = 1039360.
Proof. reflexivity. Qed.

Lemma page_addr_eq i : page_addr i = 4194304 + i * 4096.
Proof. reflexivity. Qed.

Lemma map_get_ok s i : page_index i -> map_get i s = Ok (map_byte s i) s.
Proof. unfold page_index, map_get, map_byte. intros H. by decb. Qed.
Lemma map_set_ok s i v : page_index i -> map_set i v s = Ok tt (with_pages (<[i := u8 v]> (k_pages s)) s).
Proof. unfold page_index, map_set. intros H. by decb. Qed.
Lemma map_byte_set s i v j :
  map_byte (with_pages (<[i := v]> (k_pages s)) s) j = if j =? i then v else map_byte s j.
Proof.
  unfold map_byte. cbn. destruct (j =? i) eqn:E.
  - apply Z.eqb_eq in E as ->. by rewrite lookup_insert_eq.
  - by rewrite lookup_insert_ne by lia.
Qed.

(** Marking page [i] with a byte [v] and clearing it. *)
Lemma mark_and_clear s i v :
  page_index i -> page_mapped s i ->
  exists m, (_ ← map_set i v; memzero (u64 (page_addr i + VIRTUAL_ADDRESS_START)) PAGE_SIZE) s
      = Ok tt (with_mem m (with_pages (<[i := u8 v]> (k_pages s)) s))
    /\ zeroed PAGE_SIZE (page_addr i + VIRTUAL_ADDRESS_START) (k_mem s) m.
Proof.
  intros Hi HM. rewrite (bind_ok _ _ _ _ _ (map_set_ok _ _ v Hi)).
  unfold page_index, page_mapped in *. rewrite num_pages in Hi. rewrite page_addr_eq in *.
  change PAGE_SIZE with 4096 in *. unfold VIRTUAL_ADDRESS_START in *. uw.
  destruct (memzero_run (with_pages (<[i := u8 v]> (k_pages s)) s)
    (4194304 + i * 4096 + 0xffff000000000000) 4096) as (m & R & Z); [lia|done|done|lia|lia|].
  exists m. split; [exact R|done].
Qed.

(** ** The bitmap *)

Lemma bitmap_skip s j : page_index j -> Z.testbit (map_byte s j) 0 = true ->
  Bitmap.page_body j s = Ok (inl (j + 1)) s.
Proof.
  intros Hj Hb. unfold Bitmap.page_body. unfold SIZEOF_CHAR. rewrite Z.div_1_r.
  unfold page_index in Hj. decb. rewrite (bind_ok _ _ _ _ _ (map_get_ok _ _ Hj)).
  destruct (_ =? UINT8_MASK); [done|].
  rewrite (bind_ok _ _ _ None s); [done|].
  apply (loops_loop _ 2); [|lia]. eapply loops_step; [|apply loops_done].
  - unfold Bitmap.bit_body. change (0 <? SIZEOF_CHAR) with true. by rewrite land_1, Hb.
  - done.
Qed.

Lemma bitmap_take s i : page_index i -> Z.testbit (map_byte s i) 0 = false -> page_mapped s i ->
  exists m, Bitmap.page_body i s
      = Ok (inr (page_addr i)) (with_mem m (with_pages (<[i := u8 (Z.lor (map_byte s i) 1)]> (k_pages s)) s))
    /\ zeroed PAGE_SIZE (page_addr i + VIRTUAL_ADDRESS_START) (k_mem s) m.
Proof.
  intros Hi Hb HM. destruct (mark_and_clear s i (Z.lor (map_byte s i) 1) Hi HM) as (m & R & Z).
  exists m. split; [|done]. unfold Bitmap.page_body. unfold SIZEOF_CHAR. rewrite Z.div_1_r.
  pose proof Hi as Hr. unfold page_index in Hr. rewrite num_pages in *. decb.
  rewrite (bind_ok _ _ _ _ _ (map_get_ok _ _ Hi)).
  replace (_ =? UINT8_MASK) with false.
  2: { symmetry. apply Z.eqb_neq. intros E. apply (f_equal (fun z => Z.testbit z 0)) in E.
       rewrite Z.land_spec, Hb in E. done. }
  rewrite (bind_ok _ _ _ (Some (page_addr i))
    (with_mem m (with_pages (<[i := u8 (Z.lor (map_byte s i) 1)]> (k_pages s)) s))); [done|].
  apply (loops_loop _ 1); [|lia]. apply loops_done. unfold Bitmap.bit_body.
  change (0 <? SIZEOF_CHAR) with true. cbv iota.
  rewrite land_1, Hb. cbn [Z.b2z Z.eqb]. rewrite (bind_ok _ _ _ _ _ (map_get_ok _ _ Hi)).
  change (Z.shiftl 1 0) with 1. cbv zeta. unfold SIZEOF_CHAR.
  assert (EA : u64 (LOW_MEMORY + PAGE_SIZE * (i * 1) + 0) = page_addr i).
  { unfold page_addr. change LOW_MEMORY with 4194304. change PAGE_SIZE with 4096. uw. lia. }
  rewrite EA. rewrite <- bind_assoc. by rewrite (bind_ok _ _ _ _ _ R).
Qed.

#[export] Instance bitmap_laws : PageLaws (H := bitmap_ops).
Proof.
  split.
  - intros s s' E. cbn. unfold map_byte. by rewrite E.
  - intros s i Hi Hf Hlow HM. cbn in *. destruct (bitmap_take s i Hi Hf HM) as (m & R & Z).
    eexists. split.
    + eapply search_first; [|intros j Hj; apply bitmap_skip; [|by apply Hlow]|exact R];
        unfold page_index in *; rewrite num_pages in *; lia.
    + split; [done|]. split; [|done]. intros j. cbn. unfold map_byte at 1. cbn [k_pages with_mem].
      change (default 0 _) with (map_byte (with_pages (<[i := u8 (Z.lor (map_byte s i) 1)]> (k_pages s)) s) j).
      rewrite map_byte_set. destruct (j =? i) eqn:E; [|done]. unfold u8.
      rewrite Z.mod_pow2_bits_low by lia. rewrite Z.lor_spec. apply orb_true_r.
  - intros s Hall. cbn in *. eapply (search_first _ _ _ _ MM_NUM_OF_PAGES); [rewrite num_pages; lia| |].
    + intros j Hj. apply bitmap_skip; [done|]. by apply Hall.
    + unfold Bitmap.page_body. unfold SIZEOF_CHAR. by rewrite Z.div_1_r, Z.ltb_irrefl.
Qed.

(** ** The array of bytes *)

Lemma bytemap_skip s j : page_index j -> (map_byte s j =? 0) = false ->
  Bytemap.page_body j s = Ok (inl (j + 1)) s.
Proof.
  intros Hj Hb. unfold Bytemap.page_body. unfold page_index in Hj. decb.
  rewrite (bind_ok _ _ _ _ _ (map_get_ok _ _ Hj)). by rewrite Hb.
Qed.

Lemma bytemap_take s i : page_index i -> (map_byte s i =? 0) = true -> page_mapped s i ->
  exists m, Bytemap.page_body i s
      = Ok (inr (page_addr i)) (with_mem m (with_pages (<[i := u8 1]> (k_pages s)) s))
    /\ zeroed PAGE_SIZE (page_addr i + VIRTUAL_ADDRESS_START) (k_mem s) m.
Proof.
  intros Hi Hb HM. destruct (mark_and_clear s i 1 Hi HM) as (m & R & Z).
  exists m. split; [|done]. unfold Bytemap.page_body.
  pose proof Hi as Hr. unfold page_index in Hr. rewrite num_pages in *. decb.
  rewrite (bind_ok _ _ _ _ _ (map_get_ok _ _ Hi)). rewrite Hb. cbv zeta.
  assert (EA : u32 (LOW_MEMORY + i * PAGE_SIZE) = page_addr i).
  { unfold page_addr. change LOW_MEMORY with 4194304. change PAGE_SIZE with 4096. uw. lia. }
  rewrite EA. rewrite <- bind_assoc. by rewrite (bind_ok _ _ _ _ _ R).
Qed.

Lemma bytemap_laws : PageLaws (H := bytemap_ops).
Proof.
  split.
  - intros s s' E. cbn. unfold map_byte. by rewrite E.
  - intros s i Hi Hf Hlow HM. cbn in *. apply negb_false_iff in Hf.
    destruct (bytemap_take s i Hi Hf HM) as (m & R & Z). eexists. split.
    + eapply search_first; [|intros j Hj; apply bytemap_skip; [|apply negb_true_iff; by apply Hlow]|exact R];
        unfold page_index in *; rewrite num_pages in *; lia.
    + split; [cbn; by rewrite Hf|]. split; [|done]. intros j. cbn. unfold map_byte at 1. cbn [k_pages with_mem].
      change (default 0 _) with (map_byte (with_pages (<[i := u8 1]> (k_pages s)) s) j).
      rewrite map_byte_set. by destruct (j =? i).
  - intros s Hall. cbn in *. eapply (search_first _ _ _ _ MM_NUM_OF_PAGES); [rewrite num_pages; lia| |].
    + intros j Hj. apply bytemap_skip; [done|]. apply negb_true_iff. by apply Hall.
    + unfold Bytemap.page_body. by rewrite Z.ltb_irrefl.
Qed.

(** ** Abstract view: the ordered list of available pages *)

Definition free_list `{PageOps} (s : kstate) : list Z :=
  filter (fun i => page_used s i = false) (seqZ 0 MM_NUM_OF_PAGES).

(** A request takes the first page of the list, or gives 0 when it is empty. *)
Definition abs_next (l : list Z) : Z * list Z :=
  match l with [] => (0, []) | i :: r => (page_addr i, r) end.
Fixpoint abs_requests (n : nat) (l : list Z) : list Z :=
  match n with O => [] | S n => (abs_next l).1 :: abs_requests n (abs_next l).2 end.

(** [n] requests in a row. *)
Fixpoint request_pages `{PageOps} (n : nat) : K (list Z) :=
  match n with
  | O => mret []
  | S n => p ← next_free_page; r ← request_pages n; mret (p :: r)
  end.

Definition pages_mapped (s : kstate) : Prop := forall i, page_index i -> page_mapped s i.

Lemma seqZ_filter_head (P : Z -> Prop) `{HP : !forall x, Decision (P x)} n : forall a i r,
  filter P (seqZ a (Z.of_nat n)) = i :: r ->
  a <= i < a + Z.of_nat n /\ P i /\ (forall j, a <= j < i -> ~ P j).
Proof.
  induction n as [|n IH]; intros a i r H; [done|].
  rewrite seqZ_cons in H by lia. rewrite filter_cons in H. destruct (decide (P a)) as [Ha|Ha].
  - injection H as <- _. split; [lia|]. split; [done|]. lia.
  - replace (Z.pred (Z.of_nat (S n))) with (Z.of_nat n) in H by lia.
    destruct (IH _ _ _ H) as (? & ? & Hlow). split; [lia|]. split; [done|].
    intros j Hj. destruct (Z.eq_dec j a) as [->|]; [done|]. apply Hlow. lia.
Qed.

Lemma filter_agree (P Q : Z -> Prop) `{HP : !forall x, Decision (P x), HQ : !forall x, Decision (Q x)} (l : list Z) :
  (forall j, j ∈ l -> Q j <-> P j) -> filter Q l = filter P l.
Proof.
  induction l as [|x l IH]; intros E; [done|]. rewrite !filter_cons.
  pose proof (E x ltac:(left)) as Ex. rewrite IH by (intros j Hj; apply E; by right).
  destruct (decide (Q x)), (decide (P x)); tauto.
Qed.

Lemma filter_remove (P Q : Z -> Prop) `{HP : !forall x, Decision (P x), HQ : !forall x, Decision (Q x)} i r : forall l : list Z,
  NoDup l -> filter P l = i :: r -> (forall j, j ∈ l -> Q j <-> P j /\ j <> i) -> filter Q l = r.
Proof.
  induction l as [|x l IH]; intros ND E HQP; [done|]. apply NoDup_cons in ND as [Hx ND].
  rewrite filter_cons in E |- *. pose proof (HQP x ltac:(left)) as Hqx. destruct (decide (P x)).
  - injection E as -> <-. rewrite decide_False by tauto. apply filter_agree. intros j Hj.
    rewrite HQP by (by right). split; [tauto|]. intros Hp. split; [done|]. by intros ->.
  - rewrite decide_False by tauto. apply IH; [done|done|]. intros j Hj. apply HQP. by right.
Qed.

(** ** What every allocator of the interface promises *)

Section page_clients.
Context `{O : PageOps} `{!PageLaws}.

Lemma free_list_next s i r : free_list s = i :: r ->
  page_index i /\ page_used s i = false /\ (forall j, 0 <= j < i -> page_used s j = true).
Proof.
  unfold free_list, page_index. assert (N : 0 <= MM_NUM_OF_PAGES) by (rewrite num_pages; lia).
  revert N. generalize MM_NUM_OF_PAGES. intros N HN E. rewrite <- (Z2Nat.id N) in E by done. apply seqZ_filter_head in E as (H1 & H2 & H3). split; [lia|]. split; [done|].
  intros j Hj. destruct (page_used s j) eqn:U; [done|]. exfalso. by apply (H3 j).
Qed.

Lemma free_list_fresh s s' i r : free_list s = i :: r -> fresh_page i s s' -> free_list s' = r.
Proof.
  intros E (_ & HU & _). eapply filter_remove; [apply NoDup_seqZ|exact E|].
  intros j _. cbv beta. rewrite HU. destruct (j =? i) eqn:C; cbn; [|].
  - split; [done|]. lia.
  - split; [|tauto]. intros ->. split; [done|]. lia.
Qed.

Lemma free_list_nil s : free_list s = [] -> forall j, page_index j -> page_used s j = true.
Proof.
  intros E j Hj. destruct (page_used s j) eqn:U; [done|]. exfalso.
  assert (Hin : j ∈ free_list s).
  { unfold free_list. apply list_elem_of_filter. split; [done|]. apply elem_of_seqZ. unfold page_index in Hj. lia. }
  rewrite E in Hin. by apply elem_of_nil in Hin.
Qed.

(** One request: the head of the list, or 0. *)
Lemma next_free_page_run s : pages_mapped s ->
  match free_list s with
  | [] => next_free_page s = Ok 0 s
  | i :: r => exists s', next_free_page s = Ok (page_addr i) s' /\ fresh_page i s s' /\ page_index i
      /\ free_list s' = r
  end.
Proof.
  intros HM. destruct (free_list s) as [|i r] eqn:E.
  - apply next_free_page_none. by apply free_list_nil.
  - destruct (free_list_next _ _ _ E) as (Hi & Hu & Hlow).
    destruct (next_free_page_some s i Hi Hu Hlow (HM i Hi)) as (s' & R & F).
    exists s'. split; [done|]. split; [done|]. split; [done|]. by eapply free_list_fresh.
Qed.

Lemma fresh_page_mapped i s s' : fresh_page i s s' -> pages_mapped s -> pages_mapped s'.
Proof. intros (_ & _ & (_ & _ & V) & _) HM j Hj k Hk. rewrite V. by apply (HM j). Qed.

Lemma request_pages_run n : forall s, pages_mapped s ->
  exists s', request_pages n s = Ok (abs_requests n (free_list s)) s'
    /\ free_list s' = drop n (free_list s) /\ pages_mapped s'
    /\ s' = with_mem (k_mem s') (with_pages (k_pages s') s).
Proof.
  induction n as [|n IH]; intros s HM; cbn [request_pages abs_requests].
  - exists s. repeat split; [done|]. by destruct s.
  - pose proof (next_free_page_run s HM) as R. destruct (free_list s) as [|i r] eqn:E.
    + rewrite (bind_ok _ _ _ _ _ R). destruct (IH s HM) as (s' & R' & E' & HM' & F').
      rewrite (bind_ok _ _ _ _ _ R'). exists s'. rewrite E in *. cbn [abs_next fst snd].
      split; [done|]. rewrite drop_nil in *. done.
    + destruct R as (s1 & R & F & _ & E1). rewrite (bind_ok _ _ _ _ _ R).
      pose proof (fresh_page_mapped _ _ _ F HM) as HM1.
      destruct (IH s1 HM1) as (s' & R' & E' & HM' & F').
      rewrite (bind_ok _ _ _ _ _ R'). exists s'. cbn [abs_next fst snd]. rewrite E1 in *.
      split; [done|]. split; [done|]. split; [done|].
      destruct F as (_ & _ & _ & F). rewrite F', F. by destruct s.
Qed.

End page_clients.

(** ** Releasing pages *)

Lemma page_addr_index i : page_index i -> u64 (page_addr i - MM_AVAILABLE_PAGE_MIN) / PAGE_SIZE = i.
Proof.
  unfold page_index. rewrite num_pages, page_addr_eq. intros Hi.
  change MM_AVAILABLE_PAGE_MIN with 4194304. change PAGE_SIZE with 4096. uw.
  replace (4194304 + i * 4096 - 4194304) with (i * 4096) by lia. by apply Z.div_mul.
Qed.

Lemma bytemap_release : ReleaseLaw (H := bytemap_ops).
Proof.
  split. intros s i Hi. cbn. unfold Bytemap.free_page. rewrite page_addr_index, map_set_ok by done.
  eexists. split; [done|]. split; [done|]. intros j. rewrite map_byte_set. by destruct (j =? i).
Qed.

Lemma bitmap_release_run s i : page_index i ->
  exists s', Bitmap.free_page (page_addr i) s = Ok tt s' /\ s' = with_pages (k_pages s') s
    /\ forall j, page_used s' j = negb ((i mod 8 =? 0) && (j =? i / 8)) && page_used s j.
Proof.
  intros Hi. unfold Bitmap.free_page. rewrite page_addr_index by done.
  pose proof Hi as Hr. unfold page_index in Hr. rewrite num_pages in Hr. uw.
  assert (Hi8 : page_index (i / 8)) by (unfold page_index; rewrite num_pages; Z.to_euclidean_division_equations; lia).
  rewrite (bind_ok _ _ _ _ _ (map_get_ok _ _ Hi8)). rewrite map_set_ok by done.
  eexists. split; [done|]. split; [done|]. intros j. cbn [page_used bitmap_ops]. rewrite map_byte_set.
  destruct (Z.eqb_spec j (i / 8)) as [->|]; [|by rewrite andb_false_r].
  unfold u8. rewrite Z.mod_pow2_bits_low, Z.land_spec, Z.lnot_spec by lia. rewrite andb_true_r, andb_comm.
  f_equal. f_equal. pose proof (Z.mod_pos_bound i 8 ltac:(lia)).
  destruct (Z.eqb_spec (i mod 8) 0) as [->|]; [done|].
  rewrite Z.shiftl_spec_low by lia. done.
Qed.

(** ** Properties *)


(** The allocator in use returns the lowest page whose mark is clear, sets
    that mark and no other, clears the page through its kernel alias and writes
    nothing else; with every mark set it returns 0. *)
Theorem bitmap_request_correct s :
  pages_mapped s ->
  (exists i s', page_index i /\ (forall j, 0 <= j < i -> Z.testbit (map_byte s j) 0 = true)
     /\ Bitmap.get_next_free_page s = Ok (page_addr i) s' /\ fresh_page i s s')
  \/ ((forall j, page_index j -> Z.testbit (map_byte s j) 0 = true)
     /\ Bitmap.get_next_free_page s = Ok 0 s).
Proof.
  intros HM. pose proof (next_free_page_run s HM) as R. cbn [next_free_page bitmap_ops] in R.
  destruct (free_list s) as [|i r] eqn:E.
  - right. split; [|exact R]. intros j Hj. exact (free_list_nil s E j Hj).
  - left. destruct R as (s' & R & F & Hi & _). destruct (free_list_next s i r E) as (_ & _ & Hlow).
    exists i, s'. split; [exact Hi|]. split; [exact Hlow|]. split; [exact R|exact F].
Qed.

(** In the bitmap, releasing page [i] clears bit [i mod 8] of byte [i / 8],
    while requests look at bit 0 of byte [i]: no page becomes available unless
    [i] is a multiple of 8, and then it is page [i / 8]. *)
Theorem bitmap_free_page_effect s i :
  page_index i ->
  exists s', Bitmap.free_page (page_addr i) s = Ok tt s' /\ s' = with_pages (k_pages s') s
    /\ forall j, page_used s' j = negb ((i mod 8 =? 0) && (j =? i / 8)) && page_used s j.
Proof. apply bitmap_release_run. Qed.

(** Consequently a page still in use is handed out a second time after
    another page is released: with pages 0 to [k] taken, releasing page [8 k]
    makes the next request return page [k]. *)
Theorem bitmap_free_page_reissues_live_page s k :
  page_index (8 * k) -> (forall j, 0 <= j <= k -> page_used s j = true) -> pages_mapped s ->
  exists s1 s2, Bitmap.free_page (page_addr (8 * k)) s = Ok tt s1
    /\ Bitmap.get_next_free_page s1 = Ok (page_addr k) s2.
Proof.
  intros Hi HU HM. destruct (bitmap_release_run s (8 * k) Hi) as (s1 & R & F & U).
  assert (Hk : page_index k) by (unfold page_index in *; lia).
  replace (8 * k / 8) with k in U by (by rewrite Z.mul_comm, Z.div_mul).
  replace (8 * k mod 8) with 0 in U by (by rewrite Z.mul_comm, Z.mod_mul). cbn [Z.eqb andb] in U.
  destruct (next_free_page_some s1 k) as (s2 & R2 & _); [done|by rewrite U, Z.eqb_refl| | |by eauto].
  - intros j Hj. rewrite U, HU by lia. by replace (j =? k) with false by lia.
  - rewrite F. by apply HM.
Qed.

(** With one byte per page (USE_BITMAP undefined) release and request are
    inverse: a released page is the next one handed out when the pages below it
    are taken, and every other page keeps its owner. *)
Theorem bytemap_release_then_request s i :
  page_index i -> pages_mapped s -> (forall j, 0 <= j < i -> map_byte s j <> 0) ->
  exists s1 s2, Bytemap.free_page (page_addr i) s = Ok tt s1
    /\ Bytemap.get_next_free_page s1 = Ok (page_addr i) s2
    /\ (forall j, j <> i -> (map_byte s2 j =? 0) = (map_byte s j =? 0)) /\ map_byte s2 i <> 0.
Proof.
  intros Hi HM HU. destruct (@release_page_frees _ bytemap_release s i Hi) as (s1 & R & F & U).
  destruct (@next_free_page_some _ bytemap_laws s1 i Hi) as (s2 & R2 & _ & U2 & _).
  - by rewrite U, Z.eqb_refl.
  - intros j Hj. rewrite U. replace (j =? i) with false by lia. cbn.
    apply negb_true_iff, Z.eqb_neq, HU. lia.
  - rewrite F. by apply HM.
  - exists s1, s2. split; [done|]. split; [done|]. cbn in U, U2. split.
    + intros j Hj. specialize (U2 j). rewrite U in U2. replace (j =? i) with false in U2 by lia.
      cbn in U2. by destruct (map_byte s2 j =? 0), (map_byte s j =? 0).
    + specialize (U2 i). rewrite Z.eqb_refl in U2. cbn in U2. by apply negb_true_iff, Z.eqb_neq in U2.
Qed.

(** ** Concrete instances *)

(** The kernel at boot, with its alias of the page area mapped. *)
Definition boot_mapped : kstate :=
  boot_state (fun a => (VIRTUAL_ADDRESS_START <=? a) && (a <? VIRTUAL_ADDRESS_START + 2 ^ 32)) ∅ 1.
(** The same after some pages were taken. *)
Definition pages_taken (l : list Z) : kstate :=
  with_pages (list_to_map ((fun i => (i, 1)) <$> l)) boot_mapped.

Lemma pages_taken_mapped l : pages_mapped (pages_taken l).
Proof.
  intros i Hi a. unfold page_index in Hi. rewrite num_pages in Hi. rewrite page_addr_eq.
  change PAGE_SIZE with 4096. cbn [k_mem pages_taken boot_mapped boot_state with_pages m_valid].
  unfold VIRTUAL_ADDRESS_START. intros Ha. apply andb_true_intro. split; lia.
Qed.

Lemma free_list_boot : free_list (pages_taken []) = 0 :: 1 :: seqZ 2 (MM_NUM_OF_PAGES - 2).
Proof.
  unfold free_list. assert (All : forall l : list Z, filter (fun i => page_used (pages_taken []) i = false) l = l).
  { induction l as [|x l IH]; [done|]. rewrite filter_cons, decide_True by done. by rewrite IH. }
  rewrite All. assert (N : 2 <= MM_NUM_OF_PAGES) by (rewrite num_pages; lia).
  revert N. generalize MM_NUM_OF_PAGES. intros N HN.
  rewrite (seqZ_cons 0) by lia. rewrite (seqZ_cons (Z.succ 0)) by lia.
  replace (Z.pred (Z.pred N)) with (N - 2) by lia. done.
Qed.


Lemma bitmap_request_correct_witness :
  (exists i s', page_index i /\ (forall j, 0 <= j < i -> Z.testbit (map_byte (pages_taken [0; 1; 2]) j) 0 = true)
     /\ Bitmap.get_next_free_page (pages_taken [0; 1; 2]) = Ok (page_addr i) s'
     /\ fresh_page i (pages_taken [0; 1; 2]) s')
  \/ ((forall j, page_index j -> Z.testbit (map_byte (pages_taken [0; 1; 2]) j) 0 = true)
     /\ Bitmap.get_next_free_page (pages_taken [0; 1; 2]) = Ok 0 (pages_taken [0; 1; 2])).
Proof. apply bitmap_request_correct, pages_taken_mapped. Defined.

Lemma bitmap_free_page_effect_witness :
  exists s', Bitmap.free_page (page_addr 3) (pages_taken [0; 1; 2; 3]) = Ok tt s'
    /\ s' = with_pages (k_pages s') (pages_taken [0; 1; 2; 3])
    /\ forall j, page_used s' j = negb ((3 mod 8 =? 0) && (j =? 3 / 8)) && page_used (pages_taken [0; 1; 2; 3]) j.
Proof. apply bitmap_free_page_effect. unfold page_index. rewrite num_pages. lia. Defined.

Lemma bitmap_free_page_reissues_live_page_witness :
  exists s1 s2, Bitmap.free_page (page_addr (8 * 1)) (pages_taken [0; 1]) = Ok tt s1
    /\ Bitmap.get_next_free_page s1 = Ok (page_addr 1) s2.
Proof.
  apply bitmap_free_page_reissues_live_page.
  - unfold page_index. rewrite num_pages. lia.
  - intros j Hj. assert (j = 0 \/ j = 1) as [->| ->] by lia; reflexivity.
  - apply pages_taken_mapped.
Defined.

Lemma bytemap_release_then_request_witness :
  exists s1 s2, Bytemap.free_page (page_addr 1) (pages_taken [0; 1; 2]) = Ok tt s1
    /\ Bytemap.get_next_free_page s1 = Ok (page_addr 1) s2
    /\ (forall j, j <> 1 -> (map_byte s2 j =? 0) = (map_byte (pages_taken [0; 1; 2]) j =? 0)) /\ map_byte s2 1 <> 0.
Proof.
  apply bytemap_release_then_request.
  - unfold page_index. rewrite num_pages. lia.
  - apply pages_taken_mapped.
  - intros j Hj. assert (j = 0) as -> by lia. discriminate.
Defined.
