(* ===== verification/Device.v ===== *)
(** * Memory-mapped devices (src/reg_utils.c, include/peripherals/base.h)

    The peripherals answer loads and stores to their addresses.  What they
    answer is not part of the repository: the hardware is an interface
    [Hardware] of two operations, and the drivers run over any implementation of
    it.  Every access is also recorded, so that the order of accesses, which
    drivers must respect, can be stated.  Volatile memory shared with a device
    (the mailbox buffer) and the frame buffer are accessed the same way. *)

From S2P Require Export Prelude.

Definition PERIPHERAL_BASE_ADDR : Z := 0xFFFF00003E000000.

(** A 32-bit access: address and value. *)
Inductive event := BusRead (a v : Z) | BusWrite (a v : Z).
#[export] Instance event_eq_dec : EqDecision event.
Proof. solve_decision. Defined.
Definition event_addr (e : event) : Z := match e with BusRead a _ | BusWrite a _ => a end.

Class Hardware := {
  hw : Type;
  hw_read : hw -> Z -> Z * hw;
  hw_write : hw -> Z -> Z -> hw }.

(** The static variables of src/peripherals/framebuffer.c and src/utils/shell.c. *)
Record fb_globals := FbGlobals { width : Z; height : Z; pitch : Z; isrgb : Z; fb : Z }.
Record shell_globals := ShellGlobals { cursorX : Z; cursorY : Z }.

Section device.
Context `{H : Hardware}.

Record dstate := DState {
  d_hw : hw;
  d_log : list event;
  d_fb : fb_globals;
  d_shell : shell_globals }.
Definition with_bus (h : hw) (l : list event) (d : dstate) : dstate := DState h l (d_fb d) (d_shell d).
Definition with_fb (g : fb_globals) (d : dstate) : dstate := DState (d_hw d) (d_log d) g (d_shell d).
Definition with_shell (g : shell_globals) (d : dstate) : dstate := DState (d_hw d) (d_log d) (d_fb d) g.

Definition reg_read (regAddr : Z) : M dstate Z := fun d =>
  let '(v, h) := hw_read (d_hw d) regAddr in
  Ok (u32 v) (with_bus h (d_log d ++ [BusRead regAddr (u32 v)]) d).
Definition reg_write (regAddr val : Z) : M dstate unit := fun d =>
  Ok tt (with_bus (hw_write (d_hw d) regAddr val) (d_log d ++ [BusWrite regAddr val]) d).

(** [while (!m()) {}] *)
Definition poll_body (m : M dstate bool) (_ : unit) : M dstate (unit + unit) :=
  b ← m; if (b : bool) then mret (inr tt) else mret (inl tt).
Definition poll (m : M dstate bool) : M dstate unit := loop (poll_body m) tt.

(** ** Runs *)

Lemma reg_read_run a d v h : hw_read (d_hw d) a = (v, h) ->
  reg_read a d = Ok (u32 v) (with_bus h (d_log d ++ [BusRead a (u32 v)]) d).
Proof. intros E. unfold reg_read. by rewrite E. Qed.

(** A test that is false as long as a measure goes down ends the wait. *)
Lemma poll_loops (m : M dstate bool) (I Q : dstate -> Prop) (f : dstate -> nat) :
  (forall d, I d -> (exists d', m d = Ok true d' /\ Q d') \/ (exists d', m d = Ok false d' /\ I d' /\ (f d' < f d)%nat)) ->
  forall n d, I d -> (f d <= n)%nat -> exists k d', loops (poll_body m) k tt d tt d' /\ (k <= S n)%nat /\ Q d'.
Proof.
  intros Hm. induction n as [|n IH]; intros d HI Hf; destruct (Hm d HI) as [(d' & E & HQ)|(d' & E & HI' & Hlt)].
  1, 3: exists 1%nat, d'; split; [apply loops_done; unfold poll_body; by rewrite (bind_ok _ _ _ _ _ E)|split; [lia|done]].
  - lia.
  - destruct (IH d' HI') as (k & d2 & L & Hk & HQ); [lia|]. exists (S k), d2. split; [|split; [lia|done]].
    eapply loops_step; [|exact L]. unfold poll_body. by rewrite (bind_ok _ _ _ _ _ E).
Qed.

Lemma poll_run (m : M dstate bool) (I Q : dstate -> Prop) (f : dstate -> nat) d :
  (forall d, I d -> (exists d', m d = Ok true d' /\ Q d') \/ (exists d', m d = Ok false d' /\ I d' /\ (f d' < f d)%nat)) ->
  I d -> Z.of_nat (f d) < 2 ^ 64 -> exists d', poll m d = Ok tt d' /\ Q d'.
Proof.
  intros Hm HI Hf. destruct (poll_loops m I Q f Hm (f d) d HI (le_n _)) as (k & d' & L & Hk & HQ).
  exists d'. split; [|done]. unfold poll. apply (loops_loop _ _ _ _ _ _ L). lia.
Qed.

(** A test that is never true waits for ever. *)
Lemma poll_never (m : M dstate bool) (I : dstate -> Prop) d :
  (forall d, I d -> exists d', m d = Ok false d' /\ I d') -> I d -> poll m d = Err OutOfFuel.
Proof.
  intros Hm HI. unfold poll. apply (loop_never _ (fun _ d => I d)); [|done]. intros [] d1 H1. destruct (Hm d1 H1) as (d' & E & H').
  exists tt, d'. split; [|done]. unfold poll_body. by rewrite (bind_ok _ _ _ _ _ E).
Qed.

End device.
Arguments dstate H : clear implicits.

(** The monad of the drivers. *)
Abbreviation D := (M (dstate _)).
