(* ===== verification/Gpio.v ===== *)
(** * Pins (include/peripherals/gpio.h)

    A pin's settings are fields of registers that several pins share; the
    drivers change one field by reading, masking and writing the register. *)

From S2P Require Export Device.

Definition GPIO_MAX_PIN : Z := 53.
Definition GPIO_BASE_PERIPHERAL : Z := PERIPHERAL_BASE_ADDR + 0x200000.
Definition GPIO_GPFSEL0_ADDR : Z := GPIO_BASE_PERIPHERAL + 0x00.
Definition GPIO_GPFSEL1_ADDR : Z := GPIO_BASE_PERIPHERAL + 0x04.
Definition GPIO_GPFSEL2_ADDR : Z := GPIO_BASE_PERIPHERAL + 0x08.
Definition GPIO_GPFSEL3_ADDR : Z := GPIO_BASE_PERIPHERAL + 0x0C.
Definition GPIO_GPFSEL4_ADDR : Z := GPIO_BASE_PERIPHERAL + 0x10.
Definition GPIO_GPFSEL5_ADDR : Z := GPIO_BASE_PERIPHERAL + 0x14.
Definition GPIO_GPSET0_ADDR : Z := GPIO_BASE_PERIPHERAL + 0x1C.
Definition GPIO_GPSET1_ADDR : Z := GPIO_BASE_PERIPHERAL + 0x20.
Definition GPIO_GPCLR0_ADDR : Z := GPIO_BASE_PERIPHERAL + 0x28.
Definition GPIO_GPCLR1_ADDR : Z := GPIO_BASE_PERIPHERAL + 0x2C.
Definition GPIO_GPLEV0_ADDR : Z := GPIO_BASE_PERIPHERAL + 0x34.
Definition GPIO_GPLEV1_ADDR : Z := GPIO_BASE_PERIPHERAL + 0x38.
Definition GPIO_GPEDS0_ADDR : Z := GPIO_BASE_PERIPHERAL + 0x40.
Definition GPIO_GPEDS1_ADDR : Z := GPIO_BASE_PERIPHERAL + 0x44.
Definition GPIO_GPREN0_ADDR : Z := GPIO_BASE_PERIPHERAL + 0x4C.
Definition GPIO_GPREN1_ADDR : Z := GPIO_BASE_PERIPHERAL + 0x50.
Definition GPIO_GPFEN0_ADDR : Z := GPIO_BASE_PERIPHERAL + 0x58.
Definition GPIO_GPFEN1_ADDR : Z := GPIO_BASE_PERIPHERAL + 0x5C.
Definition GPIO_GPHEN0_ADDR : Z := GPIO_BASE_PERIPHERAL + 0x64.
Definition GPIO_GPHEN1_ADDR : Z := GPIO_BASE_PERIPHERAL + 0x68.
Definition GPIO_GPLEN0_ADDR : Z := GPIO_BASE_PERIPHERAL + 0x70.
Definition GPIO_GPLEN1_ADDR : Z := GPIO_BASE_PERIPHERAL + 0x74.
Definition GPIO_GPAREN0_ADDR : Z := GPIO_BASE_PERIPHERAL + 0x7C.
Definition GPIO_GPAREN1_ADDR : Z := GPIO_BASE_PERIPHERAL + 0x08.
Definition GPIO_GPAFEN0_ADDR : Z := GPIO_BASE_PERIPHERAL + 0x88.
Definition GPIO_GPAFEN1_ADDR : Z := GPIO_BASE_PERIPHERAL + 0x8C.
Definition GPIO_PUP_PDN_CNTRL_REG0_ADDR : Z := GPIO_BASE_PERIPHERAL + 0xE4.
Definition GPIO_PUP_PDN_CNTRL_REG1_ADDR : Z := GPIO_BASE_PERIPHERAL + 0xE8.
Definition GPIO_PUP_PDN_CNTRL_REG2_ADDR : Z := GPIO_BASE_PERIPHERAL + 0xEC.
Definition GPIO_PUP_PDN_CNTRL_REG3_ADDR : Z := GPIO_BASE_PERIPHERAL + 0xF0.
Definition GPIO_PUP_PDN_PULL_NONE : Z := 0.
Definition GPIO_FUNC_ALT_0 : Z := 4.
Definition GPIO_FUNC_ALT_5 : Z := 2.

Section gpio.
Context `{H : Hardware}.

(** [currVal] with the field of [fieldMax] at [shift] replaced by [value]. *)
Definition replace_field (currVal fieldMax shift value : Z) : Z :=
  Z.lor (Z.land currVal (u32 (Z.lnot (u32 (Z.shiftl fieldMax shift))))) (u32 (Z.shiftl value shift)).

Definition gpio_writeReg (base pin value fieldSize : Z) : D Z :=
  if GPIO_MAX_PIN <? pin then mret 0
  else
    let fieldMax := u32 (Z.shiftl 1 fieldSize - 1) in
    if fieldMax <? value then mret 0
    else
      let numFields := u8 (32 / fieldSize) in
      let shift := u8 (pin mod numFields * fieldSize) in
      let regAddr := u64 (base + u32 (pin / numFields * 4)) in
      currVal ← reg_read regAddr;
      _ ← reg_write regAddr (replace_field currVal fieldMax shift value);
      mret 1.

Definition gpio_set (pin : Z) : D Z := gpio_writeReg GPIO_GPSET0_ADDR pin 1 1.
Definition gpio_clear (pin : Z) : D Z := gpio_writeReg GPIO_GPCLR0_ADDR pin 0 1.
Definition gpio_function (pin func : Z) : D Z := gpio_writeReg GPIO_GPFSEL0_ADDR pin func 3.
Definition gpio_pullUpDown (pin val : Z) : D Z := gpio_writeReg GPIO_PUP_PDN_CNTRL_REG0_ADDR pin val 1.

(** [gpio_function] takes a byte. *)
Definition gpio_useAlt (pin alt : Z) : D Z :=
  r ← gpio_pullUpDown pin GPIO_PUP_PDN_PULL_NONE;
  if negb (r =? 0) then gpio_function pin (u8 alt) else mret 0.

Definition gpio_writePin (pin value : Z) : D Z := if 0 <? value then gpio_set pin else gpio_clear pin.
End gpio.

(** ** The field arithmetic *)

Definition field (w k r : Z) : Z := (r / 2 ^ (k * w)) mod 2 ^ w.

Lemma lnot_u32_bit a i : 0 <= i < 32 -> Z.testbit (u32 (Z.lnot a)) i = negb (Z.testbit a i).
Proof. intros Hi. unfold u32. by rewrite Z.mod_pow2_bits_low, Z.lnot_spec by lia. Qed.

Lemma replace_field_bit r w s v i : 0 <= r < 2 ^ 32 -> 0 < w -> 0 <= s -> s + w <= 32 -> 0 <= v < 2 ^ w -> 0 <= i < 32 ->
  Z.testbit (replace_field r (Z.ones w) s v) i = if (s <=? i) && (i <? s + w) then Z.testbit v (i - s) else Z.testbit r i.
Proof.
  intros Hr Hw Hs Hsw Hv Hi. unfold replace_field. rewrite Z.lor_spec, Z.land_spec, lnot_u32_bit by done.
  unfold u32. rewrite !Z.mod_pow2_bits_low, !Z.shiftl_spec by lia.
  destruct (Z.leb_spec s i), (Z.ltb_spec i (s + w)); cbn [andb].
  - rewrite Z.ones_spec_low by lia. by rewrite andb_false_r.
  - rewrite Z.ones_spec_high by lia. rewrite andb_true_r.
    replace (Z.testbit v (i - s)) with false; [apply orb_false_r|]. symmetry.
    rewrite <- (Z.mod_small v (2 ^ w)) by done. apply Z.mod_pow2_bits_high. lia.
  - rewrite (Z.testbit_neg_r _ (i - s)) by lia. rewrite (Z.testbit_neg_r v) by lia. by rewrite andb_true_r, orb_false_r.
  - lia.
Qed.

Lemma bits_u32 x : (forall i, 32 <= i -> Z.testbit x i = false) -> 0 <= x < 2 ^ 32.
Proof.
  intros Hx. replace x with (x mod 2 ^ 32); [apply Z.mod_pos_bound; lia|]. apply Z.bits_inj'. intros i Hi.
  destruct (Z_lt_le_dec i 32); [by rewrite Z.mod_pow2_bits_low|]. by rewrite Z.mod_pow2_bits_high, Hx by lia.
Qed.
Lemma u32_bit_high x i : 0 <= x < 2 ^ 32 -> 32 <= i -> Z.testbit x i = false.
Proof. intros Hx Hi. rewrite <- (Z.mod_small x (2 ^ 32)) by done. apply Z.mod_pow2_bits_high. lia. Qed.

Lemma replace_field_range r fm s v : 0 <= r < 2 ^ 32 -> 0 <= replace_field r fm s v < 2 ^ 32.
Proof.
  intros Hr. apply bits_u32. intros i Hi. unfold replace_field. rewrite Z.lor_spec, Z.land_spec.
  rewrite (u32_bit_high r) by done. cbn [andb orb]. apply u32_bit_high; [apply u32_range|done].
Qed.

Lemma field_bit w k r i : 0 <= k * w -> 0 < w -> 0 <= i -> Z.testbit (field w k r) i = if i <? w then Z.testbit r (k * w + i) else false.
Proof.
  intros Hk Hw Hi. unfold field. destruct (Z.ltb_spec i w).
  - rewrite Z.mod_pow2_bits_low by lia. rewrite Z.div_pow2_bits by lia. f_equal. lia.
  - apply Z.mod_pow2_bits_high. lia.
Qed.

(** Writing field [k] of width [w] sets that field and keeps the others. *)
Lemma replace_field_fields r w k v j : 0 <= r < 2 ^ 32 -> 0 < w -> 0 <= k -> 0 <= j -> k * w + w <= 32 -> j * w + w <= 32 ->
  0 <= v < 2 ^ w -> field w j (replace_field r (Z.ones w) (k * w) v) = if j =? k then v else field w j r.
Proof.
  intros Hr Hw Hk Hj Hkw Hjw Hv. apply Z.bits_inj'. intros i Hi. rewrite field_bit by nia. destruct (Z.ltb_spec i w) as [Hlt|Hge].
  - rewrite replace_field_bit by nia. destruct (Z.eqb_spec j k) as [->|N].
    + rewrite (proj2 (Z.leb_le _ _)), (proj2 (Z.ltb_lt _ _)) by lia. cbn [andb].
      f_equal. lia.
    + rewrite field_bit by nia. rewrite (proj2 (Z.ltb_lt i w)) by done.
      destruct (Z.leb_spec (k * w) (j * w + i)); [|done]. destruct (Z.ltb_spec (j * w + i) (k * w + w)); [|done]. nia.
  - symmetry. destruct (j =? k); [|by rewrite field_bit, (proj2 (Z.ltb_ge i w)) by nia].
    rewrite <- (Z.mod_small v (2 ^ w)) by done. apply Z.mod_pow2_bits_high. lia.
Qed.

(** ** Registers that keep what is written

    The function-select and pull registers are plain read-write registers: a
    read returns the value and no other access changes it. *)

Definition gpio_rw (a : Z) : bool :=
  (GPIO_GPFSEL0_ADDR <=? a) && (a <=? GPIO_GPFSEL5_ADDR) || (GPIO_PUP_PDN_CNTRL_REG0_ADDR <=? a) && (a <=? GPIO_PUP_PDN_CNTRL_REG3_ADDR).

Class GpioBank `{Hardware} := {
  gpio_val : hw -> Z -> Z;
  gpio_val_range h a : 0 <= gpio_val h a < 2 ^ 32;
  gpio_read h a b : gpio_rw b = true -> gpio_val (snd (hw_read h a)) b = gpio_val h b;
  gpio_read_val h a : gpio_rw a = true -> u32 (fst (hw_read h a)) = gpio_val h a;
  gpio_write h a v b : gpio_rw b = true -> 0 <= v < 2 ^ 32 -> gpio_val (hw_write h a v) b = if b =? a then v else gpio_val h b }.

(** The setting of a pin in a bank of registers with fields of [w] bits. *)
Definition pin_field `{GpioBank} (h : hw) (base w pin : Z) : Z := field w (pin mod (32 / w)) (gpio_val h (base + pin / (32 / w) * 4)).
Definition pin_function `{GpioBank} (h : hw) (pin : Z) : Z := pin_field h GPIO_GPFSEL0_ADDR 3 pin.
Definition is_pin (pin : Z) : Prop := 0 <= pin <= GPIO_MAX_PIN.

(** Where a field lies: 10 pins of 3 bits or 32 pins of 1 bit a register. *)
Definition reg_of (base w pin : Z) : Z := base + pin / (32 / w) * 4.
Definition slot_of (w pin : Z) : Z := pin mod (32 / w).
Definition gpio_base (base : Z) : Prop := GPIO_BASE_PERIPHERAL <= base <= GPIO_BASE_PERIPHERAL + 0x100.

Section exec.
Context `{H : Hardware}.

Lemma slot_range w pin : w = 1 \/ w = 3 -> is_pin pin ->
  0 <= slot_of w pin /\ slot_of w pin * w + w <= 32 /\ 0 <= pin / (32 / w) <= 5.
Proof.
  unfold is_pin, GPIO_MAX_PIN, slot_of. intros [->| ->] Hp.
  - change (32 / 1) with 32. Z.to_euclidean_division_equations; lia.
  - change (32 / 3) with 10. Z.to_euclidean_division_equations; lia.
Qed.

(** The read and the write of one field change. *)
Lemma gpio_writeReg_exec d base w pin value v h : w = 1 \/ w = 3 -> gpio_base base -> is_pin pin -> 0 <= value < 2 ^ w ->
  hw_read (d_hw d) (reg_of base w pin) = (v, h) ->
  let v' := replace_field (u32 v) (Z.ones w) (slot_of w pin * w) value in
  gpio_writeReg base pin value w d
  = Ok 1 (with_bus (hw_write h (reg_of base w pin) v') (d_log d ++ [BusRead (reg_of base w pin) (u32 v); BusWrite (reg_of base w pin) v']) d).
Proof.
  intros Hw Hb Hp Hv Er v'. unfold gpio_base in Hb. change GPIO_BASE_PERIPHERAL with 0xFFFF00003E200000 in Hb.
  destruct (slot_range w pin Hw Hp) as (Hk & Hkw & Hq). unfold gpio_writeReg. unfold is_pin, GPIO_MAX_PIN in Hp.
  rewrite (proj2 (Z.ltb_ge _ _)) by (unfold GPIO_MAX_PIN; lia). assert (Efm : u32 (Z.shiftl 1 w - 1) = Z.ones w) by (by destruct Hw as [->| ->]).
  cbv zeta. rewrite Efm. assert (Eo : Z.ones w = 2 ^ w - 1) by (rewrite Z.ones_equiv; lia). rewrite (proj2 (Z.ltb_ge _ _)) by lia.
  assert (En : u8 (32 / w) = 32 / w) by (by destruct Hw as [->| ->]). rewrite En. fold (slot_of w pin).
  rewrite (u32_small (pin / _ * 4)), (u8_small (slot_of w pin * w)) by lia. fold (reg_of base w pin).
  rewrite (u64_small (reg_of _ _ _)) by (unfold reg_of; lia). rewrite (bind_ok _ _ _ _ _ (reg_read_run _ d v h Er)). fold v'.
  unfold reg_write, mbind, M_bind, mret, M_ret. cbn. by rewrite <- app_assoc.
Qed.

(** Arguments out of range: no access. *)
Lemma gpio_writeReg_rejects d base w pin value : w = 1 \/ w = 3 -> GPIO_MAX_PIN < pin \/ 2 ^ w <= value ->
  gpio_writeReg base pin value w d = Ok 0 d.
Proof.
  intros Hw Hbad. unfold gpio_writeReg. destruct (Z.ltb_spec GPIO_MAX_PIN pin); [done|].
  assert (Efm : u32 (Z.shiftl 1 w - 1) = 2 ^ w - 1) by (by destruct Hw as [->| ->]). cbv zeta. rewrite Efm.
  by rewrite (proj2 (Z.ltb_lt _ _)) by lia.
Qed.
End exec.

Section bank.
Context `{B : GpioBank}.

(** The two banks of plain registers the drivers write. *)
Definition bank (base w : Z) : Prop :=
  base = GPIO_GPFSEL0_ADDR /\ w = 3 \/ base = GPIO_PUP_PDN_CNTRL_REG0_ADDR /\ w = 1.

Lemma bank_reg base w pin : bank base w -> is_pin pin ->
  (w = 1 \/ w = 3) /\ gpio_base base /\ gpio_rw (reg_of base w pin) = true.
Proof.
  intros Hb Hp. assert (Hw : w = 1 \/ w = 3) by (destruct Hb as [[_ ->]|[_ ->]]; lia).
  destruct (slot_range w pin Hw Hp) as (_ & _ & Hq). split; [done|].
  unfold is_pin, GPIO_MAX_PIN, reg_of, gpio_base, gpio_rw in *.
  assert (V : GPIO_GPFSEL0_ADDR = GPIO_BASE_PERIPHERAL /\ GPIO_GPFSEL5_ADDR = GPIO_BASE_PERIPHERAL + 0x14
    /\ GPIO_PUP_PDN_CNTRL_REG0_ADDR = GPIO_BASE_PERIPHERAL + 0xE4 /\ GPIO_PUP_PDN_CNTRL_REG3_ADDR = GPIO_BASE_PERIPHERAL + 0xF0) by done.
  destruct Hb as [[-> ->]|[-> ->]]; (split; [lia|]); apply orb_true_intro; [left|right].
  - lia.
  - change (32 / 1) with 32 in *. assert (0 <= pin / 32 <= 1) by (Z.to_euclidean_division_equations; lia). lia.
Qed.

(** A change of one pin's setting; every other setting stays. *)
Lemma gpio_writeReg_run d base w pin value : bank base w -> is_pin pin -> 0 <= value < 2 ^ w ->
  let a := reg_of base w pin in
  exists h v v', gpio_writeReg base pin value w d = Ok 1 (with_bus h (d_log d ++ [BusRead a v; BusWrite a v']) d)
    /\ (forall p, is_pin p -> pin_field h base w p = if p =? pin then value else pin_field (d_hw d) base w p)
    /\ (forall b, gpio_rw b = true -> b <> a -> gpio_val h b = gpio_val (d_hw d) b).
Proof.
  intros Hb Hp Hv a. destruct (bank_reg base w pin Hb Hp) as (Hw & Hbase & Ra). fold a in Ra.
  destruct (slot_range w pin Hw Hp) as (Hk & Hkw & _). destruct (hw_read (d_hw d) a) as [v0 h0] eqn:Er.
  pose proof (gpio_read_val (d_hw d) a Ra) as Ev. rewrite Er in Ev. cbn in Ev.
  pose proof (gpio_writeReg_exec d base w pin value v0 h0 Hw Hbase Hp Hv Er) as R. cbv zeta in R. rewrite Ev in R.
  set (r := gpio_val (d_hw d) a) in *. set (v' := replace_field r (Z.ones w) (slot_of w pin * w) value) in *.
  assert (Hr : 0 <= r < 2 ^ 32) by apply gpio_val_range.
  pose proof (replace_field_range r (Z.ones w) (slot_of w pin * w) value Hr) as Hv'. fold v' in Hv'.
  assert (Hval : forall b, gpio_rw b = true -> gpio_val (hw_write h0 a v') b = if b =? a then v' else gpio_val (d_hw d) b).
  { intros b Rb. rewrite gpio_write by done. destruct (b =? a); [done|]. rewrite <- (gpio_read (d_hw d) a b Rb). by rewrite Er. }
  exists (hw_write h0 a v'), r, v'. split; [exact R|]. split.
  - intros p Hpp. unfold pin_field. fold (reg_of base w p) (slot_of w p). destruct (bank_reg base w p Hb Hpp) as (_ & _ & Rp).
    destruct (slot_range w p Hw Hpp) as (Hkp & Hkwp & _). rewrite (Hval _ Rp).
    destruct (Z.eqb_spec (reg_of base w p) a) as [E|E]; [|by destruct (Z.eqb_spec p pin) as [->|]].
    rewrite E. fold r. unfold v'. rewrite replace_field_fields by lia.
    destruct (Z.eqb_spec (slot_of w p) (slot_of w pin)) as [Es|Es], (Z.eqb_spec p pin) as [Ep|Ep]; try done; [|by subst].
    exfalso. apply Ep. unfold a, reg_of, slot_of in *. assert (Hn : 32 / w <> 0) by (by destruct Hw as [->| ->]).
    assert (Eq : p / (32 / w) = pin / (32 / w)) by lia. pose proof (Z.div_mod p _ Hn) as D1. pose proof (Z.div_mod pin _ Hn) as D2.
    rewrite Es, Eq in D1. congruence.
  - intros b Rb Nb. rewrite Hval by done. by rewrite (proj2 (Z.eqb_neq _ _) Nb).
Qed.

(** [gpio_function] gives the pin the function asked for and leaves the function
    of every other pin as it was, although ten pins share a register; a pin or a
    function out of range is refused without any access. *)
Theorem gpio_function_sets_one_pin d pin func : 0 <= func ->
  (is_pin pin /\ func < 8 -> exists h log, gpio_function pin func d = Ok 1 (with_bus h log d)
     /\ forall p, is_pin p -> pin_function h p = if p =? pin then func else pin_function (d_hw d) p)
  /\ (GPIO_MAX_PIN < pin \/ 8 <= func -> gpio_function pin func d = Ok 0 d).
Proof.
  intros Hf. split.
  - intros [Hp Hf8]. destruct (gpio_writeReg_run d GPIO_GPFSEL0_ADDR 3 pin func) as (h & v & v' & R & F & _); [by left|done|done|].
    exists h, (d_log d ++ [BusRead (reg_of GPIO_GPFSEL0_ADDR 3 pin) v; BusWrite (reg_of GPIO_GPFSEL0_ADDR 3 pin) v']).
    split; [exact R|exact F].
  - intros Hbad. apply gpio_writeReg_rejects; [by right|done].
Qed.
End bank.

(** ** Output levels

    Writing a set or clear register acts on the pins whose bit is 1; bits that
    are 0 have no effect. *)

Class GpioPins `{Hardware} := {
  pin_high : hw -> Z -> bool;
  pin_read h a p : pin_high (snd (hw_read h a)) p = pin_high h p;
  pin_write h a v p : is_pin p -> pin_high (hw_write h a v) p
    = if a =? reg_of GPIO_GPSET0_ADDR 1 p then pin_high h p || Z.testbit v (slot_of 1 p)
      else if a =? reg_of GPIO_GPCLR0_ADDR 1 p then pin_high h p && negb (Z.testbit v (slot_of 1 p))
      else pin_high h p }.

(** [gpio_writePin] with a value above 0 raises the pin; with 0 it leaves the
    pin's level as it was, because it writes a 0 bit to the clear register. *)
Theorem gpio_writePin_never_lowers `{B : GpioPins} d pin value : is_pin pin -> 0 <= value ->
  exists h log, gpio_writePin pin value d = Ok 1 (with_bus h log d)
    /\ pin_high h pin = if 0 <? value then true else pin_high (d_hw d) pin.
Proof.
  intros Hp Hv. destruct (slot_range 1 pin (or_introl eq_refl) Hp) as (Hk & Hkw & Hq).
  assert (V : GPIO_GPSET0_ADDR = GPIO_BASE_PERIPHERAL + 0x1C /\ GPIO_GPCLR0_ADDR = GPIO_BASE_PERIPHERAL + 0x28) by done.
  destruct V as [VS VC]. unfold gpio_writePin, gpio_set, gpio_clear.
  assert (Hq1 : 0 <= pin / (32 / 1) <= 1).
  { change (32 / 1) with 32. unfold is_pin, GPIO_MAX_PIN in Hp. Z.to_euclidean_division_equations; lia. }
  destruct (0 <? value); cbv beta iota.
  - destruct (hw_read (d_hw d) (reg_of GPIO_GPSET0_ADDR 1 pin)) as [v h] eqn:Er.
    eexists _, _. split; [apply (gpio_writeReg_exec d GPIO_GPSET0_ADDR 1 pin 1 v h); [by left|unfold gpio_base; lia|done|lia|done]|].
    rewrite pin_write, Z.eqb_refl, replace_field_bit by (done || apply u32_range || lia).
    rewrite (proj2 (Z.leb_le _ _)), (proj2 (Z.ltb_lt _ _)) by lia. cbn [andb].
    replace (slot_of 1 pin - slot_of 1 pin * 1) with 0 by lia. apply orb_true_r.
  - destruct (hw_read (d_hw d) (reg_of GPIO_GPCLR0_ADDR 1 pin)) as [v h] eqn:Er.
    eexists _, _. split; [apply (gpio_writeReg_exec d GPIO_GPCLR0_ADDR 1 pin 0 v h); [by left|unfold gpio_base; lia|done|lia|done]|].
    rewrite pin_write by done. rewrite (proj2 (Z.eqb_neq (reg_of GPIO_GPCLR0_ADDR 1 pin) _)) by (unfold reg_of; lia).
    rewrite Z.eqb_refl, replace_field_bit by (done || apply u32_range || lia).
    rewrite (proj2 (Z.leb_le _ _)), (proj2 (Z.ltb_lt _ _)) by lia. cbn [andb]. rewrite Z.bits_0, andb_true_r.
    change h with (snd (v, h)). rewrite <- Er. apply pin_read.
Qed.

(** The register map gives one address to two registers; the others differ. *)
Lemma gpio_map_collision : GPIO_GPAREN1_ADDR = GPIO_GPFSEL2_ADDR
  /\ NoDup [GPIO_GPFSEL0_ADDR; GPIO_GPFSEL1_ADDR; GPIO_GPFSEL2_ADDR; GPIO_GPFSEL3_ADDR; GPIO_GPFSEL4_ADDR; GPIO_GPFSEL5_ADDR;
       GPIO_GPSET0_ADDR; GPIO_GPSET1_ADDR; GPIO_GPCLR0_ADDR; GPIO_GPCLR1_ADDR; GPIO_GPLEV0_ADDR; GPIO_GPLEV1_ADDR;
       GPIO_GPEDS0_ADDR; GPIO_GPEDS1_ADDR; GPIO_GPREN0_ADDR; GPIO_GPREN1_ADDR; GPIO_GPFEN0_ADDR; GPIO_GPFEN1_ADDR;
       GPIO_GPHEN0_ADDR; GPIO_GPHEN1_ADDR; GPIO_GPLEN0_ADDR; GPIO_GPLEN1_ADDR; GPIO_GPAREN0_ADDR; GPIO_GPAFEN0_ADDR;
       GPIO_GPAFEN1_ADDR; GPIO_PUP_PDN_CNTRL_REG0_ADDR; GPIO_PUP_PDN_CNTRL_REG1_ADDR; GPIO_PUP_PDN_CNTRL_REG2_ADDR;
       GPIO_PUP_PDN_CNTRL_REG3_ADDR].
Proof. split; [done|]. apply (bool_decide_unpack _). by vm_compute. Qed.

(** ** Concrete instances *)

(** Registers that keep what is written to them, whatever their address. *)
Definition plain_registers : Hardware := {|
  hw := gmap Z Z;
  hw_read m a := (default 0 (m !! a), m);
  hw_write m a v := <[a := v]> m |}.
Definition plain_device (h : gmap Z Z) : dstate plain_registers :=
  @DState plain_registers h [] (FbGlobals 0 0 0 0 0) (ShellGlobals 15 15).

#[refine] Definition plain_bank : @GpioBank plain_registers := {| gpio_val (m : @hw plain_registers) a := u32 (default 0 ((m : gmap Z Z) !! a)) |}.
Proof.
  - intros. apply u32_range.
  - done.
  - done.
  - intros h a v b _ Hv. cbn. destruct (Z.eqb_spec b a) as [->|].
    + rewrite lookup_insert_eq. by apply u32_small.
    + by rewrite lookup_insert_ne.
Defined.

Lemma gpio_function_sets_one_pin_witness :
  (exists h log, @gpio_function plain_registers 14 GPIO_FUNC_ALT_5 (plain_device ∅) = Ok 1 (with_bus h log (plain_device ∅))
     /\ forall p, is_pin p -> @pin_function _ plain_bank h p = if p =? 14 then GPIO_FUNC_ALT_5 else @pin_function _ plain_bank ∅ p)
  /\ @gpio_function plain_registers 54 GPIO_FUNC_ALT_5 (plain_device ∅) = Ok 0 (plain_device ∅).
Proof.
  split.
  - apply (@gpio_function_sets_one_pin _ plain_bank (plain_device ∅) 14 GPIO_FUNC_ALT_5); [done|].
    unfold is_pin, GPIO_MAX_PIN, GPIO_FUNC_ALT_5. lia.
  - apply (@gpio_function_sets_one_pin _ plain_bank (plain_device ∅) 54 GPIO_FUNC_ALT_5); [done|]. by left.
Defined.

(** Pins driven by the set and clear registers. *)
Definition pin_levels : Hardware := {|
  hw := Z -> bool;
  hw_read h a := (0, h);
  hw_write h a v p := if a =? reg_of GPIO_GPSET0_ADDR 1 p then h p || Z.testbit v (slot_of 1 p)
    else if a =? reg_of GPIO_GPCLR0_ADDR 1 p then h p && negb (Z.testbit v (slot_of 1 p)) else h p |}.
Definition pin_levels_pins : @GpioPins pin_levels :=
  {| pin_high (h : @hw pin_levels) p := (h : Z -> bool) p; pin_read _ _ _ := eq_refl; pin_write _ _ _ _ _ := eq_refl |}.

(** Pin 42, which drives the board's LED, stays on. *)
Lemma gpio_writePin_never_lowers_witness :
  exists h log, @gpio_writePin pin_levels 42 0 (@DState pin_levels (fun p => p =? 42) [] (FbGlobals 0 0 0 0 0) (ShellGlobals 15 15))
    = Ok 1 (@DState pin_levels h log (FbGlobals 0 0 0 0 0) (ShellGlobals 15 15)) /\ h 42 = true.
Proof.
  apply (@gpio_writePin_never_lowers _ pin_levels_pins
    (@DState pin_levels (fun p => p =? 42) [] (FbGlobals 0 0 0 0 0) (ShellGlobals 15 15)) 42 0); unfold is_pin, GPIO_MAX_PIN; lia.
Defined.
