(* ===== verification/Uart.v ===== *)
(** * The mini UART (src/peripherals/uart.c, include/peripherals/aux.h)

    The configured UART ([UART] is [UART1] in include/config.h).  A byte may be
    written to the data register only when the line status says that there is
    room.  The last part connects the driver to [printf]: the console of the
    kernel's state is what the UART sends. *)

From S2P Require Export Kstate Gpio.

Definition AUX_UART_CLOCK : Z := 500000000.
Definition AUX_MU_BAUD (baud : Z) : Z := AUX_UART_CLOCK / (baud * 8) - 1.
Definition AUX_BASE_PERIPHERAL : Z := PERIPHERAL_BASE_ADDR + 0x215000.
Definition AUX_ENABLES_ADDR : Z := AUX_BASE_PERIPHERAL + 0x04.
Definition AUX_MU_IO_REG_ADDR : Z := AUX_BASE_PERIPHERAL + 0x40.
Definition AUX_MU_IER_REG_ADDR : Z := AUX_BASE_PERIPHERAL + 0x44.
Definition AUX_MU_LCR_REG_ADDR : Z := AUX_BASE_PERIPHERAL + 0x4C.
Definition AUX_MU_MCR_REG_ADDR : Z := AUX_BASE_PERIPHERAL + 0x50.
Definition AUX_MU_LSR_REG_ADDR : Z := AUX_BASE_PERIPHERAL + 0x54.
Definition AUX_MU_CNTL_REG_ADDR : Z := AUX_BASE_PERIPHERAL + 0x60.
Definition AUX_MU_BAUD_REG_ADDR : Z := AUX_BASE_PERIPHERAL + 0x68.

Section uart.
Context `{H : Hardware}.

Definition uart_init : D unit :=
  _ ← reg_write AUX_ENABLES_ADDR 1;
  _ ← reg_write AUX_MU_IER_REG_ADDR 0;
  _ ← reg_write AUX_MU_CNTL_REG_ADDR 0;
  _ ← reg_write AUX_MU_LCR_REG_ADDR 3;
  _ ← reg_write AUX_MU_MCR_REG_ADDR 0;
  _ ← reg_write AUX_MU_BAUD_REG_ADDR (AUX_MU_BAUD 115200);
  let alt := GPIO_FUNC_ALT_5 in
  _ ← gpio_useAlt 14 alt;
  _ ← gpio_useAlt 15 alt;
  reg_write AUX_MU_CNTL_REG_ADDR 3.

Definition uart_txReady : D Z := v ← reg_read AUX_MU_LSR_REG_ADDR; mret (u8 (Z.land v 0x20)).

Definition uart_writeByteBlocks (byte : Z) : D unit :=
  _ ← poll (r ← uart_txReady; mret (negb (r =? 0)));
  reg_write AUX_MU_IO_REG_ADDR byte.

Definition _putchar (character : Z) : D unit := uart_writeByteBlocks character.

(** [buff] is the content of memory from the pointer on. *)
Definition transmit_body (buff : list Z) (size i : Z) : D (Z + unit) :=
  if i <? size then
    c ← of_option OutOfBounds (buff !! Z.to_nat i);
    _ ← uart_writeByteBlocks c;
    mret (inl (u32 (i + 1)))
  else mret (inr tt).
Definition uart_transmit (buff : list Z) (size : Z) : D unit :=
  _ ← loop (transmit_body buff size) 0;
  _ ← uart_writeByteBlocks 13;
  uart_writeByteBlocks 10.

(** The characters before the first [stop]; the index of [stop]. *)
Definition until_body (buff : list Z) (stop i : Z) : D (Z + Z) :=
  c ← of_option OutOfBounds (buff !! Z.to_nat i);
  if negb (c =? stop) then _ ← uart_writeByteBlocks c; mret (inl (u32 (i + 1))) else mret (inr i).
Definition uart_transmitToEndLine (buff : list Z) : D unit :=
  i ← loop (until_body buff 10) 0;
  c ← of_option OutOfBounds (buff !! Z.to_nat i);
  _ ← uart_writeByteBlocks c;
  uart_writeByteBlocks 13.
Definition uart_transmitStr (buff : list Z) : D unit :=
  _ ← loop (until_body buff 0) 0;
  _ ← uart_writeByteBlocks 10;
  uart_writeByteBlocks 13.

(** [printf] with [putc] of src/kernel.c, which under [UART_DEBUG] sends each
    character to the UART. *)
Definition putc (c : Z) : D unit := uart_writeByteBlocks c.
Fixpoint send (l : list Z) : D unit :=
  match l with [] => mret tt | c :: r => _ ← putc c; send r end.
Definition uart_printf (fmt : list Z) (va : list arg) : D unit :=
  match tfp_format fmt va with inr out => send out | inl e => fail e end.
End uart.

(** ** The order of accesses *)

(** The line is polled until it has room, then the byte is written. *)
Definition busy (e : event) : Prop := exists v, e = BusRead AUX_MU_LSR_REG_ADDR v /\ Z.testbit v 5 = false.
Definition byte_sent (b : Z) (l : list event) : Prop :=
  exists waits v, l = waits ++ [BusRead AUX_MU_LSR_REG_ADDR v; BusWrite AUX_MU_IO_REG_ADDR b]
    /\ Forall busy waits /\ Z.testbit v 5 = true.
Inductive bytes_sent : list Z -> list event -> Prop :=
  | bytes_sent_nil : bytes_sent [] []
  | bytes_sent_cons b bs l l' : byte_sent b l -> bytes_sent bs l' -> bytes_sent (b :: bs) (l ++ l').

Lemma bytes_sent_app bs bs' l l' : bytes_sent bs l -> bytes_sent bs' l' -> bytes_sent (bs ++ bs') (l ++ l').
Proof.
  induction 1 as [|b bs l1 l2 Hb _ IH]; intros H'; [done|]. rewrite <- app_assoc. constructor; [done|]. by apply IH.
Qed.
Lemma bytes_sent_one b l : byte_sent b l -> bytes_sent [b] l.
Proof. intros Hb. rewrite <- (app_nil_r l). constructor; [done|constructor]. Qed.

(** ** What the driver relies on

    [wire] is the bytes the UART has accepted, [backlog] bounds the number of
    polls before it has room.  A write with room appends the byte. *)

Class MiniUart `{Hardware} := {
  wire : hw -> list Z;
  backlog : hw -> nat;
  backlog_bound h : Z.of_nat (backlog h) < 2 ^ 64;
  uart_lsr h : let '(v, h') := hw_read h AUX_MU_LSR_REG_ADDR in
    wire h' = wire h /\ Z.testbit v 5 = (backlog h =? 0)%nat
    /\ (backlog h = 0%nat -> backlog h' = 0%nat) /\ (backlog h <> 0%nat -> (backlog h' < backlog h)%nat);
  uart_io h v : backlog h = 0%nat -> 0 <= v < 256 -> wire (hw_write h AUX_MU_IO_REG_ADDR v) = wire h ++ [v] }.

Section mini_uart.
Context `{U : MiniUart}.

Lemma txReady_run d : exists v h, hw_read (d_hw d) AUX_MU_LSR_REG_ADDR = (v, h)
  /\ (r ← uart_txReady; mret (negb (r =? 0))) d
     = Ok (Z.testbit (u32 v) 5) (with_bus h (d_log d ++ [BusRead AUX_MU_LSR_REG_ADDR (u32 v)]) d)
  /\ Z.testbit (u32 v) 5 = Z.testbit v 5.
Proof.
  destruct (hw_read (d_hw d) AUX_MU_LSR_REG_ADDR) as [v h] eqn:E. exists v, h. split; [done|].
  split; [|unfold u32; by rewrite Z.mod_pow2_bits_low].
  unfold uart_txReady. rewrite bind_assoc, (bind_ok _ _ _ _ _ (reg_read_run _ d v h E)), bind_ret. unfold mret, M_ret. f_equal.
  change 0x20 with (2 ^ 5). rewrite land_pow2 by lia. by destruct (Z.testbit (u32 v) 5).
Qed.

(** One byte: it waits for room, and the byte is on the wire. *)
Lemma uart_writeByteBlocks_run d b : 0 <= b < 256 ->
  exists h l, uart_writeByteBlocks b d = Ok tt (with_bus h (d_log d ++ l) d) /\ wire h = wire (d_hw d) ++ [b] /\ byte_sent b l.
Proof.
  intros Hb. unfold uart_writeByteBlocks.
  set (I d' := exists h ws, d' = with_bus h (d_log d ++ ws) d /\ wire h = wire (d_hw d) /\ Forall busy ws).
  set (Q d' := exists h ws v, d' = with_bus h (d_log d ++ ws ++ [BusRead AUX_MU_LSR_REG_ADDR v]) d /\ wire h = wire (d_hw d)
    /\ Forall busy ws /\ Z.testbit v 5 = true /\ backlog h = 0%nat).
  destruct (poll_run (r ← uart_txReady; mret (negb (r =? 0))) I Q (fun d' => backlog (d_hw d')) d) as (d' & R & h & ws & v & -> & Hw & Hws & Hv & Hl).
  - intros d1 (h1 & ws & -> & Hw & Hws). destruct (txReady_run (with_bus h1 (d_log d ++ ws) d)) as (v & h & E & R & Ev).
    pose proof (uart_lsr h1) as L. cbn [d_hw with_bus] in E. rewrite E in L. destruct L as (L1 & L2 & L3 & L4). rewrite R.
    destruct (Nat.eqb_spec (backlog h1) 0) as [E0|E0]; [left|right]; eexists; (split; [by rewrite Ev, L2|]).
    + exists h, ws, (u32 v). cbn [d_log with_bus]. rewrite app_assoc. split; [done|]. split; [by rewrite L1|]. split; [done|]. split; [by rewrite Ev|]. auto.
    + split; [|by apply L4]. exists h, (ws ++ [BusRead AUX_MU_LSR_REG_ADDR (u32 v)]). cbn [d_log with_bus]. rewrite app_assoc. split; [done|].
      split; [by rewrite L1|]. apply Forall_app. split; [done|]. constructor; [|constructor]. exists (u32 v). split; [done|by rewrite Ev].
  - exists (d_hw d), []. rewrite app_nil_r. split; [by destruct d|]. split; [done|constructor].
  - apply backlog_bound.
  - rewrite (bind_ok _ _ _ _ _ R). exists (hw_write h AUX_MU_IO_REG_ADDR b), (ws ++ [BusRead AUX_MU_LSR_REG_ADDR v; BusWrite AUX_MU_IO_REG_ADDR b]).
    split; [|split; [by rewrite uart_io, Hw|by exists ws, v]].
    unfold reg_write. cbn. by rewrite <- !app_assoc.
Qed.

(** [d'] is [d] after the bytes [bs] were sent. *)
Definition after_sending (bs : list Z) (d d' : dstate _) : Prop :=
  exists h l, d' = with_bus h (d_log d ++ l) d /\ wire h = wire (d_hw d) ++ bs /\ bytes_sent bs l.

Lemma after_sending_nil d : after_sending [] d d.
Proof. exists (d_hw d), []. rewrite !app_nil_r. split; [by destruct d|]. split; [done|constructor]. Qed.
Lemma after_sending_app bs bs' d d' d'' : after_sending bs d d' -> after_sending bs' d' d'' -> after_sending (bs ++ bs') d d''.
Proof.
  intros (h & l & -> & Hw & Hl) (h' & l' & -> & Hw' & Hl'). exists h', (l ++ l'). cbn in *.
  split; [by rewrite app_assoc|]. split; [by rewrite Hw', Hw, app_assoc|]. by apply bytes_sent_app.
Qed.
Lemma write_byte_sends b d : 0 <= b < 256 -> exists d', uart_writeByteBlocks b d = Ok tt d' /\ after_sending [b] d d'.
Proof.
  intros Hb. destruct (uart_writeByteBlocks_run d b Hb) as (h & l & R & Hw & Hl). eexists. split; [exact R|].
  exists h, l. split; [done|]. split; [done|]. by apply bytes_sent_one.
Qed.

Definition bytes (l : list Z) : Prop := Forall is_byte l.

Lemma send_run l : forall d, bytes l -> exists d', send l d = Ok tt d' /\ after_sending l d d'.
Proof.
  induction l as [|b l IH]; intros d Hl; [exists d; split; [done|apply after_sending_nil]|]. inversion Hl as [|? ? Hb Hl']; subst.
  destruct (write_byte_sends b d Hb) as (d1 & R1 & A1). destruct (IH d1 Hl') as (d2 & R2 & A2). exists d2.
  cbn [send]. unfold putc. rewrite (bind_ok _ _ _ _ _ R1). split; [done|]. by apply (after_sending_app [b] l d d1 d2).
Qed.

(** The characters before the terminator. *)
Lemma until_loops buff stop rest : forall pre done_ d, buff = done_ ++ pre ++ stop :: rest -> bytes pre -> stop ∉ pre ->
  Z.of_nat (length buff) < 2 ^ 32 ->
  exists d', loops (until_body buff stop) (S (length pre)) (Z.of_nat (length done_)) d (Z.of_nat (length done_ + length pre)) d'
    /\ after_sending pre d d'.
Proof.
  induction pre as [|c pre IH]; intros dn d -> Hb Hn Hl.
  - exists d. rewrite Nat.add_0_r. split; [|apply after_sending_nil]. apply loops_done. unfold until_body.
    rewrite Nat2Z.id, lookup_app_r, Nat.sub_diag by lia. cbn [lookup list_lookup app of_option].
    by rewrite bind_ret, Z.eqb_refl.
  - inversion Hb as [|? ? Hc Hb']; subst. apply not_elem_of_cons in Hn as [Nc Hn].
    destruct (write_byte_sends c d Hc) as (d1 & R1 & A1).
    destruct (IH (dn ++ [c]) d1) as (d' & L & A); [by rewrite <- app_assoc|done|done|done|].
    exists d'. split; [|by apply (after_sending_app [c] pre d d1 d')]. rewrite length_app in L. cbn [length] in *.
    eapply loops_step; [|replace (length dn + S (length pre))%nat with (length dn + 1 + length pre)%nat by lia; exact L].
    unfold until_body. rewrite Nat2Z.id, lookup_app_r, Nat.sub_diag by lia. cbn [lookup list_lookup app of_option].
    rewrite bind_ret, (proj2 (Z.eqb_neq c stop)) by congruence. cbn [negb]. rewrite (bind_ok _ _ _ _ _ R1).
    unfold mret, M_ret. do 2 f_equal. rewrite !length_app in Hl. cbn in Hl. rewrite u32_small by lia. lia.
Qed.

Lemma transmit_loops buff size n : forall i d, bytes buff -> 0 <= i -> i + Z.of_nat n = size -> size <= Z.of_nat (length buff) -> size < 2 ^ 32 ->
  exists d', loops (transmit_body buff size) (S n) i d tt d' /\ after_sending (take n (drop (Z.to_nat i) buff)) d d'.
Proof.
  induction n as [|n IH]; intros i d Hb Hi Hs Hl Hw.
  - exists d. split; [|rewrite take_0; apply after_sending_nil]. apply loops_done. unfold transmit_body.
    by rewrite (proj2 (Z.ltb_ge _ _)) by lia.
  - destruct (lookup_lt_is_Some_2 buff (Z.to_nat i)) as [c Ec]; [lia|].
    assert (Hc : is_byte c) by (by eapply (Forall_lookup_1 _ _ _ _ Hb)).
    destruct (write_byte_sends c d Hc) as (d1 & R1 & A1).
    destruct (IH (i + 1) d1) as (d' & L & A); [done|lia..|]. exists d'. split.
    + eapply loops_step; [|exact L]. unfold transmit_body. rewrite (proj2 (Z.ltb_lt _ _)) by lia. rewrite Ec.
      cbn [of_option]. rewrite bind_ret, (bind_ok _ _ _ _ _ R1). unfold mret, M_ret. by rewrite u32_small by lia.
    + rewrite (drop_S _ _ _ Ec). replace (S (Z.to_nat i)) with (Z.to_nat (i + 1)) by lia.
      by apply (after_sending_app [c] _ d d1 d').
Qed.

(** Two more bytes at the end of a message. *)
Lemma two_bytes_run a b d : is_byte a -> is_byte b ->
  exists d', (_ ← uart_writeByteBlocks a; uart_writeByteBlocks b) d = Ok tt d' /\ after_sending [a; b] d d'.
Proof.
  intros Ha Hb. destruct (write_byte_sends a d Ha) as (d1 & R1 & A1). destruct (write_byte_sends b d1 Hb) as (d2 & R2 & A2).
  exists d2. rewrite (bind_ok _ _ _ _ _ R1). split; [done|]. by apply (after_sending_app [a] [b] d d1 d2).
Qed.

(** The three transmit functions return, whatever the UART's backlog; what they
    put on the wire is the message and its line end, in order; and every byte is
    written only after a poll that reported room. *)
Theorem uart_transmits_messages buff size s rest d : bytes buff -> Z.of_nat (length buff) < 2 ^ 32 ->
  (0 <= size <= Z.of_nat (length buff) -> exists d', uart_transmit buff size d = Ok tt d'
     /\ after_sending (take (Z.to_nat size) buff ++ [13; 10]) d d')
  /\ (buff = s ++ 0 :: rest -> 0 ∉ s -> exists d', uart_transmitStr buff d = Ok tt d' /\ after_sending (s ++ [10; 13]) d d')
  /\ (buff = s ++ 10 :: rest -> 10 ∉ s -> exists d', uart_transmitToEndLine buff d = Ok tt d' /\ after_sending (s ++ [10; 13]) d d').
Proof.
  intros Hb Hl. split; [|split].
  - intros Hs. destruct (transmit_loops buff size (Z.to_nat size) 0 d Hb) as (d1 & L1 & A1); [lia..|].
    destruct (two_bytes_run 13 10 d1) as (d' & R & A); [unfold is_byte; lia..|]. exists d'. split.
    + unfold uart_transmit. rewrite (bind_ok _ _ _ _ _ (loops_loop _ _ _ _ _ _ L1 ltac:(lia))). exact R.
    + by apply (after_sending_app _ _ d d1 d').
  - intros E Hn. assert (Hs : bytes s) by (rewrite E in Hb; by apply Forall_app in Hb as [Hb _]).
    destruct (until_loops buff 0 rest s [] d E Hs Hn Hl) as (d1 & L1 & A1).
    destruct (two_bytes_run 10 13 d1) as (d' & R & A); [unfold is_byte; lia..|]. exists d'. split.
    + unfold uart_transmitStr. assert (Hk : Z.of_nat (S (length s)) <= 2 ^ 64) by (rewrite E, length_app in Hl; lia).
      rewrite (bind_ok _ _ _ _ _ (loops_loop _ _ _ _ _ _ L1 Hk)). exact R.
    + by apply (after_sending_app _ _ d d1 d').
  - intros E Hn. assert (Hs : bytes s) by (rewrite E in Hb; by apply Forall_app in Hb as [Hb _]).
    destruct (until_loops buff 10 rest s [] d E Hs Hn Hl) as (d1 & L1 & A1).
    destruct (two_bytes_run 10 13 d1) as (d' & R & A); [unfold is_byte; lia..|]. exists d'. split.
    + unfold uart_transmitToEndLine. assert (Hk : Z.of_nat (S (length s)) <= 2 ^ 64) by (rewrite E, length_app in Hl; lia).
      rewrite (bind_ok _ _ _ _ _ (loops_loop _ _ _ _ _ _ L1 Hk)). cbn [length Nat.add]. rewrite Nat2Z.id, E, lookup_app_r, Nat.sub_diag by lia.
      cbn [lookup list_lookup of_option]. rewrite bind_ret. exact R.
    + by apply (after_sending_app _ _ d d1 d').
Qed.

(** The bytes on the wire are those of the console, after what was there before. *)
Definition console_on_wire (pre : list Z) (s : kstate) (d : dstate _) : Prop := wire (d_hw d) = pre ++ k_console s.

(** C24. The console of the kernel's state is implemented by the UART: a [printf] that
    the kernel's model answers by appending to its console, the driver answers by
    sending the same bytes, one poll-and-write each; the wire then again shows
    the console. *)
Theorem printf_reaches_the_wire pre fmt va s s' d : bytes fmt -> Forall byte_arg va ->
  console_on_wire pre s d -> printf fmt va s = Ok tt s' ->
  exists out d', uart_printf fmt va d = Ok tt d' /\ after_sending out d d' /\ console_on_wire pre s' d'.
Proof.
  intros Hf Ha C E. unfold printf in E. unfold uart_printf. destruct (tfp_format fmt va) as [e|out] eqn:F; [done|].
  injection E as <-. destruct (send_run out d (tfp_format_bytes _ _ _ Hf Ha F)) as (d' & R & A). exists out, d'.
  split; [done|]. split; [done|]. destruct A as (h & l & -> & Hw & _). unfold console_on_wire in *. cbn [d_hw with_bus k_console with_console].
  by rewrite Hw, C, app_assoc.
Qed.
End mini_uart.

(** ** Initialisation *)

Section init.
Context `{B : GpioBank}.

Lemma pin_function_kept h h' : (forall b, gpio_rw b = true -> b <> reg_of GPIO_PUP_PDN_CNTRL_REG0_ADDR 1 14 ->
    b <> reg_of GPIO_PUP_PDN_CNTRL_REG0_ADDR 1 15 -> gpio_val h' b = gpio_val h b) ->
  forall p, is_pin p -> pin_function h' p = pin_function h p.
Proof.
  intros Hk p Hp. unfold pin_function, pin_field. fold (reg_of GPIO_GPFSEL0_ADDR 3 p).
  destruct (bank_reg GPIO_GPFSEL0_ADDR 3 p (or_introl (conj eq_refl eq_refl)) Hp) as (_ & _ & Rp).
  destruct (slot_range 3 p (or_intror eq_refl) Hp) as (_ & _ & Hq).
  assert (V : GPIO_GPFSEL0_ADDR = GPIO_BASE_PERIPHERAL /\ reg_of GPIO_PUP_PDN_CNTRL_REG0_ADDR 1 14 = GPIO_BASE_PERIPHERAL + 0xE4
    /\ reg_of GPIO_PUP_PDN_CNTRL_REG0_ADDR 1 15 = GPIO_BASE_PERIPHERAL + 0xE4) by done. destruct V as (V1 & V2 & V3).
  rewrite Hk; [done|done|..]; rewrite ?V2, ?V3; unfold reg_of; rewrite V1; lia.
Qed.

(** The pull setting and the function of a UART pin. *)
Lemma gpio_useAlt_run d pin alt : pin = 14 \/ pin = 15 -> 0 <= alt < 8 ->
  exists h l, gpio_useAlt pin alt d = Ok 1 (with_bus h (d_log d ++ l) d) /\ Forall (fun e => gpio_rw (event_addr e) = true) l
    /\ forall p, is_pin p -> pin_function h p = if p =? pin then alt else pin_function (d_hw d) p.
Proof.
  intros Hpin Ha. assert (Hp : is_pin pin) by (unfold is_pin, GPIO_MAX_PIN; lia).
  assert (Bp : bank GPIO_PUP_PDN_CNTRL_REG0_ADDR 1) by (by right). assert (Bf : bank GPIO_GPFSEL0_ADDR 3) by (by left).
  destruct (bank_reg _ _ pin Bp Hp) as (_ & _ & R1). destruct (bank_reg _ _ pin Bf Hp) as (_ & _ & R2).
  destruct (gpio_writeReg_run d _ _ pin 0 Bp Hp ltac:(lia)) as (h1 & v1 & w1 & E1 & _ & K1).
  set (d1 := with_bus h1 _ d) in E1. destruct (gpio_writeReg_run d1 _ _ pin alt Bf Hp Ha) as (h2 & v2 & w2 & E2 & F2 & _).
  eexists h2, _. split; [|split].
  - unfold gpio_useAlt, gpio_pullUpDown. change GPIO_PUP_PDN_PULL_NONE with 0. rewrite (bind_ok _ _ _ _ _ E1). cbn [negb Z.eqb].
    unfold gpio_function. rewrite u8_small by lia. rewrite E2. unfold d1. cbn [d_log with_bus]. by rewrite <- app_assoc.
  - by repeat constructor.
  - intros p Hpp. unfold pin_function at 1. rewrite (F2 p Hpp). destruct (p =? pin); [done|]. fold (pin_function (d_hw d1) p).
    apply pin_function_kept; [|done]. intros b Rb N1 N2. apply K1; [done|]. by destruct Hpin as [->| ->].
Qed.

Definition AUX_WRITES : list event :=
  [BusWrite AUX_ENABLES_ADDR 1; BusWrite AUX_MU_IER_REG_ADDR 0; BusWrite AUX_MU_CNTL_REG_ADDR 0; BusWrite AUX_MU_LCR_REG_ADDR 3;
   BusWrite AUX_MU_MCR_REG_ADDR 0; BusWrite AUX_MU_BAUD_REG_ADDR 541].

(** [uart_init] configures with transmitter and receiver off: they are switched
    off before the line settings are written (8 bits, divisor 541) and on last,
    after the pins 14 and 15 were given to the UART; no other pin changes its
    function. *)
Theorem uart_init_configures d :
  exists h cfg, uart_init d = Ok tt (with_bus h (d_log d ++ AUX_WRITES ++ cfg ++ [BusWrite AUX_MU_CNTL_REG_ADDR 3]) d)
    /\ Forall (fun e => gpio_rw (event_addr e) = true) cfg
    /\ forall p, is_pin p -> pin_function h p = if (p =? 14) || (p =? 15) then GPIO_FUNC_ALT_5 else pin_function (d_hw d) p.
Proof.
  set (h0 := hw_write (hw_write (hw_write (hw_write (hw_write (hw_write (d_hw d) AUX_ENABLES_ADDR 1) AUX_MU_IER_REG_ADDR 0)
    AUX_MU_CNTL_REG_ADDR 0) AUX_MU_LCR_REG_ADDR 3) AUX_MU_MCR_REG_ADDR 0) AUX_MU_BAUD_REG_ADDR (AUX_MU_BAUD 115200)).
  set (d0 := with_bus h0 (d_log d ++ AUX_WRITES) d).
  assert (K : forall h a v b, (0 <= v < 2 ^ 32) -> gpio_rw a = false -> gpio_rw b = true -> gpio_val (hw_write h a v) b = gpio_val h b).
  { intros h a v b Hv Na Rb. rewrite gpio_write by done. destruct (Z.eqb_spec b a) as [->|]; [congruence|done]. }
  assert (P0 : forall p, is_pin p -> pin_function h0 p = pin_function (d_hw d) p).
  { apply pin_function_kept. intros b Rb _ _. unfold h0. rewrite !K; try done; vm_compute; split; congruence. }
  destruct (gpio_useAlt_run d0 14 GPIO_FUNC_ALT_5) as (h1 & l1 & R1 & F1 & P1); [by left|done|]. set (d1 := with_bus h1 _ d0) in R1.
  destruct (gpio_useAlt_run d1 15 GPIO_FUNC_ALT_5) as (h2 & l2 & R2 & F2 & P2); [by right|done|].
  exists (hw_write h2 AUX_MU_CNTL_REG_ADDR 3), (l1 ++ l2). split; [|split; [by apply Forall_app|]].
  - unfold uart_init. unfold reg_write. unfold mbind at 1 2 3 4 5 6, M_bind at 1 2 3 4 5 6. cbv beta iota. cbn [d_hw d_log with_bus].
    assert (E0 : forall (k : unit -> D unit) x, x = d0 -> k tt x = k tt d0) by (by intros k x ->).
    match goal with |- (mbind ?f ?m) ?x = _ => change x with
      (with_bus h0 ((((((d_log d ++ [BusWrite AUX_ENABLES_ADDR 1]) ++ [BusWrite AUX_MU_IER_REG_ADDR 0]) ++ [BusWrite AUX_MU_CNTL_REG_ADDR 0])
        ++ [BusWrite AUX_MU_LCR_REG_ADDR 3]) ++ [BusWrite AUX_MU_MCR_REG_ADDR 0]) ++ [BusWrite AUX_MU_BAUD_REG_ADDR 541]) d) end.
    rewrite <- !app_assoc. change (with_bus h0 _ d) with d0.
    rewrite (bind_ok _ _ _ _ _ R1), (bind_ok _ _ _ _ _ R2). unfold d1, d0. cbn [d_hw d_log with_bus].
    by rewrite <- !app_assoc.
  - intros p Hp. assert (E : pin_function (hw_write h2 AUX_MU_CNTL_REG_ADDR 3) p = pin_function h2 p).
    { apply pin_function_kept; [|done]. intros b Rb _ _. by apply K. }
    rewrite E, P2 by done. destruct (Z.eqb_spec p 15) as [->|]; [done|]. rewrite P1 by done.
    destruct (p =? 14); [done|]. cbn [orb]. by apply P0.
Qed.
End init.

(** ** Concrete instances *)

(** A UART that is busy for one poll after each byte. *)
Definition slow_uart : Hardware := {|
  hw := list Z * bool;
  hw_read h a := if a =? AUX_MU_LSR_REG_ADDR then (if snd h then 0 else 0x20, (fst h, false)) else (0, h);
  hw_write h a v := if a =? AUX_MU_IO_REG_ADDR then (fst h ++ [v], true) else h |}.
#[refine] Definition slow_uart_ok : @MiniUart slow_uart :=
  {| wire (h : @hw slow_uart) := fst h; backlog (h : @hw slow_uart) := if snd h then 1%nat else 0%nat |}.
Proof.
  - intros [w []]; cbn; lia.
  - intros [w []]; cbn; naive_solver lia.
  - intros [w []] v; cbn; [done|]. intros _ _. done.
Defined.
Definition uart_device : dstate slow_uart := @DState slow_uart ([], true) [] (FbGlobals 0 0 0 0 0) (ShellGlobals 15 15).

Lemma uart_transmits_messages_witness :
  exists d', @uart_transmitStr slow_uart (str "kernel" ++ 0 :: str "x") uart_device = Ok tt d'
    /\ @after_sending _ slow_uart_ok (str "kernel" ++ [10; 13]) uart_device d'.
Proof.
  apply (@uart_transmits_messages _ slow_uart_ok (str "kernel" ++ 0 :: str "x") 0 (str "kernel") (str "x") uart_device); [|done|done|].
  - repeat constructor; unfold is_byte; vm_compute; congruence.
  - by apply (bool_decide_unpack _).
Defined.

Lemma printf_reaches_the_wire_witness : exists out d', @uart_printf slow_uart (str "pid %d") [AInt 7] uart_device = Ok tt d'
  /\ @after_sending _ slow_uart_ok out uart_device d'
  /\ @console_on_wire _ slow_uart_ok [] (with_console (str "pid 7") (boot_state (fun _ => false) ∅ 4096)) d'.
Proof.
  apply (@printf_reaches_the_wire _ slow_uart_ok [] (str "pid %d") [AInt 7] (boot_state (fun _ => false) ∅ 4096)).
  - repeat constructor; unfold is_byte; vm_compute; congruence.
  - repeat constructor.
  - reflexivity.
  - reflexivity.
Defined.
