(* ===== verification/SystemTimer.v ===== *)
(** * Waiting on the system timer (src/peripherals/system_timer.c)

    The free-running counter and the status bits, read in loops.  The interrupt
    handler of the same file is in Irq.v. *)

From S2P Require Export Device.

Definition SYSTEM_TIMER_PERIPHERAL_BASE : Z := PERIPHERAL_BASE_ADDR + 0x3000.
Definition TICK_INTERVAL : Z := 200000.
(** [&SYSTEM_TIMER_REGS_PTR->cs], [->clo] and [->c1] *)
Definition timer_cs : Z := SYSTEM_TIMER_PERIPHERAL_BASE.
Definition timer_clo : Z := SYSTEM_TIMER_PERIPHERAL_BASE + 4.
Definition timer_c1 : Z := SYSTEM_TIMER_PERIPHERAL_BASE + 16.

Section timer.
Context `{H : Hardware}.

Definition get_timer_val : D Z := reg_read timer_clo.

Definition time_reached (startTime time_us : Z) : D bool :=
  v ← get_timer_val; mret (negb (v <? u32 (startTime + time_us))).
Definition wait_time (time_us : Z) : D Z :=
  startTime ← get_timer_val;
  _ ← poll (time_reached startTime time_us);
  mret time_us.

Definition poll_isr (timer_id : Z) : D Z :=
  cs ← reg_read timer_cs;
  mret (u8 (Z.land (Z.shiftr cs timer_id) 1)).
End timer.

(** The counter goes up: within [lag] accesses it advances, by at most [step]; a
    read gives its lower 32 bits. *)
Class FreeRunning `{Hardware} := {
  now : hw -> Z;
  lag : hw -> nat;
  step : Z;
  lag_max : nat;
  now_nonneg h : 0 <= now h;
  step_range : 0 < step < 2 ^ 31;
  lag_range h : (lag h <= lag_max)%nat /\ Z.of_nat lag_max < 2 ^ 31;
  clo_value h : u32 (fst (hw_read h timer_clo)) = u32 (now h);
  clo_advance h : let h' := snd (hw_read h timer_clo) in
    (now h' = now h /\ (lag h' < lag h)%nat) \/ now h < now h' <= now h + step }.

Section waiting.
Context `{F : FreeRunning}.

Lemma get_timer_run d : exists h log, get_timer_val d = Ok (u32 (now (d_hw d))) (with_bus h log d)
  /\ now (d_hw d) <= now h <= now (d_hw d) + step
  /\ (now h = now (d_hw d) -> (lag h < lag (d_hw d))%nat).
Proof.
  destruct (hw_read (d_hw d) timer_clo) as [v h] eqn:E. pose proof (clo_value (d_hw d)) as V. pose proof (clo_advance (d_hw d)) as A.
  rewrite E in V, A. cbn in V, A. pose proof step_range. exists h, (d_log d ++ [BusRead timer_clo (u32 v)]).
  split; [|split; [lia|intros; lia]]. unfold get_timer_val. by rewrite (reg_read_run _ d v h E), V.
Qed.

Lemma time_reached_run startTime us d : exists h log,
  time_reached startTime us d = Ok (negb (u32 (now (d_hw d)) <? u32 (startTime + us))) (with_bus h log d)
  /\ now (d_hw d) <= now h <= now (d_hw d) + step /\ (now h = now (d_hw d) -> (lag h < lag (d_hw d))%nat).
Proof.
  destruct (get_timer_run d) as (h & log & R & A). exists h, log. split; [|done].
  unfold time_reached. by rewrite (bind_ok _ _ _ _ _ R).
Qed.

(** The counter between two wraps. *)
Lemma u32_window t0 t : 0 <= t0 -> t0 <= t -> u32 t0 + (t - t0) < 2 ^ 32 -> u32 t = u32 t0 + (t - t0).
Proof.
  intros H0 Ht Hw. unfold u32 in *. rewrite <- (Z.mod_small (t0 mod 2 ^ 32 + (t - t0)) (2 ^ 32)).
  - rewrite Z.add_mod_idemp_l by lia. f_equal. lia.
  - pose proof (Z.mod_pos_bound t0 (2 ^ 32) ltac:(lia)). lia.
Qed.

Lemma wait_in_range d us t0 : 0 <= us -> 0 <= t0 -> u32 t0 + us + 2 * step < 2 ^ 32 -> t0 <= now (d_hw d) <= t0 + us + step ->
  exists d', poll (time_reached (u32 t0) us) d = Ok tt d' /\ exists h log, d' = with_bus h log d /\ t0 + us <= now h <= t0 + us + 2 * step.
Proof.
  intros Hus H0 Hw Hn. pose proof step_range as Hs. pose proof (u32_range t0) as Hr.
  apply (poll_run _ (fun d' => exists h log, d' = with_bus h log d /\ t0 <= now h <= t0 + us + step) _
    (fun d' => Z.to_nat (t0 + us + step - now (d_hw d')) * S lag_max + lag (d_hw d'))%nat).
  - intros d1 (h1 & log1 & -> & H1). destruct (time_reached_run (u32 t0) us (with_bus h1 log1 d)) as (h & log & R & A & A').
    cbn [d_hw with_bus] in *. rewrite R, (u32_window t0) by lia. rewrite (u32_small (u32 t0 + us)) by lia.
    destruct (Z.ltb_spec (u32 t0 + (now h1 - t0)) (u32 t0 + us)); [right|left]; eexists; (split; [reflexivity|]).
    + split; [exists h, log; split; [done|lia]|]. cbn [d_hw with_bus]. destruct (lag_range h1), (lag_range h).
      destruct (Z.eq_dec (now h) (now h1)) as [E|]; [rewrite E; pose proof (A' E); lia|].
      assert (Z.to_nat (t0 + us + step - now h) < Z.to_nat (t0 + us + step - now h1))%nat by lia. nia.
    + exists h, log. split; [done|lia].
  - exists (d_hw d), (d_log d). split; [by destruct d|done].
  - destruct (lag_range (d_hw d)). rewrite Nat2Z.inj_add, Nat2Z.inj_mul, Z2Nat.id by lia. nia.
Qed.

Lemma wait_wrapped d us t0 : 0 <= us < 2 ^ 32 -> 0 <= t0 -> 2 ^ 32 <= u32 t0 + us -> u32 t0 + step < 2 ^ 32 ->
  t0 <= now (d_hw d) <= t0 + step ->
  exists h log, poll (time_reached (u32 t0) us) d = Ok tt (with_bus h log d) /\ now h <= t0 + 2 * step.
Proof.
  intros Hus H0 Hw Hs Hn. destruct (time_reached_run (u32 t0) us d) as (h & log & R & A & _). exists h, log. split; [|lia].
  unfold poll. apply (loops_loop _ 1); [|lia]. apply loops_done. unfold poll_body. rewrite (bind_ok _ _ _ _ _ R).
  pose proof (u32_range t0). rewrite (u32_window t0 (now (d_hw d))) by lia.
  replace (u32 (u32 t0 + us)) with (u32 t0 + us - 2 ^ 32).
  - by rewrite (proj2 (Z.ltb_ge _ _)) by lia.
  - unfold u32 at 2. rewrite <- (Z_mod_plus_full _ (-1)), Z.mod_small by lia. lia.
Qed.

(** [wait_time] returns.  When the deadline fits the 32-bit counter it does so
    after at least the time asked for and at most two counter steps later; when
    the start time plus the time asked for exceeds 32 bits, the deadline wraps and
    it returns within two counter steps, whatever the time asked for. *)
Theorem wait_time_duration d us :
  let t0 := now (d_hw d) in
  0 <= us < 2 ^ 32 ->
  u32 t0 + us + 2 * step < 2 ^ 32 \/ 2 ^ 32 <= u32 t0 + us /\ u32 t0 + step < 2 ^ 32 ->
  exists h log, wait_time us d = Ok us (with_bus h log d)
    /\ (if u32 t0 + us <? 2 ^ 32 then t0 + us <= now h <= t0 + us + 2 * step else now h <= t0 + 2 * step).
Proof.
  intros t0 Hus Hc. destruct (get_timer_run d) as (h1 & log1 & R1 & A1 & _). fold t0 in R1, A1. pose proof (now_nonneg (d_hw d)) as H0.
  pose proof step_range. unfold wait_time. rewrite (bind_ok _ _ _ _ _ R1).
  destruct Hc as [Hc|[Hc1 Hc2]].
  - destruct (wait_in_range (with_bus h1 log1 d) us t0) as (d' & R & h & log & -> & Hh); [lia|done|done|cbn [d_hw with_bus]; lia|].
    exists h, log. rewrite (bind_ok _ _ _ _ _ R). split; [done|]. by rewrite (proj2 (Z.ltb_lt _ _)) by lia.
  - destruct (wait_wrapped (with_bus h1 log1 d) us t0) as (h & log & R & Hh); [done|done|done|done|cbn [d_hw with_bus]; lia|].
    exists h, log. rewrite (bind_ok _ _ _ _ _ R). split; [done|]. by rewrite (proj2 (Z.ltb_ge _ _)) by lia.
Qed.
End waiting.

(** ** A concrete instance: one microsecond per access *)

Definition tick_clock : Hardware := {| hw := N; hw_read t a := (Z.of_N t, N.succ t); hw_write t _ _ := t |}.
#[refine] Definition tick_running : @FreeRunning tick_clock :=
  {| now (t : @hw tick_clock) := Z.of_N t; lag _ := 0%nat; step := 1; lag_max := 0%nat |}.
Proof.
  - intros h. apply N2Z.is_nonneg.
  - lia.
  - intros _. cbn. lia.
  - done.
  - intros h. right. cbn. lia.
Defined.
Definition clock_at (t : N) : dstate tick_clock := @DState tick_clock t [] (FbGlobals 0 0 0 0 0) (ShellGlobals 15 15).

(** 100 microseconds before the counter wraps, a wait of 0.4 s is over at once. *)
Lemma wait_time_duration_witness :
  exists h log, @wait_time tick_clock 400000 (clock_at (2 ^ 32 - 100)) = Ok 400000 (with_bus h log (clock_at (2 ^ 32 - 100)))
    /\ Z.of_N h <= 2 ^ 32 - 100 + 2 * 1.
Proof. apply (@wait_time_duration _ tick_running (clock_at (2 ^ 32 - 100)) 400000); [lia|]. right. vm_compute. split; congruence. Defined.
