(* ===== verification/Mailbox.v ===== *)
(** * The VideoCore mailbox (src/peripherals/mailbox.c, include/peripherals/mailbox.h)

    A request is the address of a message buffer with the channel in its low
    bits; replies to other requests are skipped.  The buffer [mbox] is volatile
    memory the graphics processor reads and writes: its words are accessed
    through the bus like registers. *)

From S2P Require Export Device.

Definition MBOX_REQUEST : Z := 0.
Definition MBOX_CH_PROP : Z := 8.
Definition VIDEOCORE_MBOX : Z := PERIPHERAL_BASE_ADDR + 0x0000B880.
Definition MBOX_READ : Z := VIDEOCORE_MBOX + 0x0.
Definition MBOX_STATUS : Z := VIDEOCORE_MBOX + 0x18.
Definition MBOX_WRITE : Z := VIDEOCORE_MBOX + 0x20.
Definition MBOX_RESPONSE : Z := 0x80000000.
Definition MBOX_FULL : Z := 0x80000000.
Definition MBOX_EMPTY : Z := 0x40000000.

Section mailbox.
Context `{H : Hardware}.
(** The address of [mbox], which the linker chooses. *)
Context (mbox : Z).

Definition mbox_get (i : Z) : D Z := reg_read (mbox + 4 * i).
Definition mbox_set (i v : Z) : D unit := reg_write (mbox + 4 * i) v.

(** The message: the buffer's address, truncated to 32 bits, and the channel. *)
Definition mailbox_message (ch : Z) : Z := Z.lor (Z.land (u32 mbox) 0xFFFFFFF0) (Z.land ch 0xF).

(** [while (reg_read(MBOX_STATUS) & flag);] *)
Definition status_clear (flag : Z) : D bool := v ← reg_read MBOX_STATUS; mret (Z.land v flag =? 0).

Definition reply_body (r : Z) (_ : unit) : D (unit + Z) :=
  _ ← poll (status_clear MBOX_EMPTY);
  v ← reg_read MBOX_READ;
  if r =? v then m ← mbox_get 1; mret (inr (if m =? MBOX_RESPONSE then 1 else 0)) else mret (inl tt).

Definition mailbox_call (ch : Z) : D Z :=
  let r := mailbox_message ch in
  _ ← poll (status_clear MBOX_FULL);
  _ ← reg_write MBOX_WRITE r;
  loop (reply_body r) tt.
End mailbox.

(** A poll count goes down to 0 and stays there. *)
Definition polled (n n' : nat) : Prop := (n = 0%nat -> n' = 0%nat) /\ (n <> 0%nat -> (n' < n)%nat).

(** The mailbox's side of the protocol.  [full] and [empty] bound the polls until
    a message can be written and until a reply can be read; [replies] are the
    replies to come; [word i] is word [i] of the buffer, which [answer] says the
    graphics processor rewrites when it is sent the message. *)
Class VideoCore `{Hardware} (mbox : Z) := {
  full : hw -> nat;
  empty : hw -> nat;
  replies : hw -> list Z;
  word : hw -> Z -> Z;
  answer : Z -> (Z -> Z) -> Z -> Z;
  answer_ext r w w' j : (forall i, w i = w' i) -> answer r w j = answer r w' j;
  wait_bound h : Z.of_nat (full h) < 2 ^ 63 /\ Z.of_nat (empty h) < 2 ^ 63;
  vc_status h : let '(v, h') := hw_read h MBOX_STATUS in
    Z.testbit v 31 = negb (full h =? 0)%nat /\ (replies h <> [] -> Z.testbit v 30 = negb (empty h =? 0)%nat)
    /\ polled (full h) (full h') /\ polled (empty h) (empty h') /\ replies h' = replies h /\ (forall i, word h' i = word h i);
  vc_write h r : full h = 0%nat -> 0 <= r < 2 ^ 32 -> let h' := hw_write h MBOX_WRITE r in
    replies h' = replies h ++ [r] /\ forall i, 0 <= i < 36 -> word h' i = answer r (word h) i;
  vc_read h x l : empty h = 0%nat -> replies h = x :: l ->
    let '(v, h') := hw_read h MBOX_READ in u32 v = x /\ replies h' = l /\ forall i, word h' i = word h i;
  vc_get h i : 0 <= i < 36 -> let '(v, h') := hw_read h (mbox + 4 * i) in
    u32 v = word h i /\ replies h' = replies h /\ forall j, word h' j = word h j;
  vc_set h i v : 0 <= i < 36 -> 0 <= v < 2 ^ 32 -> let h' := hw_write h (mbox + 4 * i) v in
    replies h' = replies h /\ forall j, 0 <= j < 36 -> word h' j = if j =? i then v else word h j }.

Section protocol.
Context `{V : VideoCore}.

Lemma flag_bit v k : 0 <= k < 32 -> (Z.land (u32 v) (2 ^ k) =? 0) = negb (Z.testbit v k).
Proof.
  intros Hk. rewrite land_pow2 by lia. unfold u32. rewrite Z.mod_pow2_bits_low by lia. destruct (Z.testbit v k); [|done]. apply Z.eqb_neq. pose proof (Z.pow_pos_nonneg 2 k). lia.
Qed.

(** What stays while the driver polls. *)
Definition same_box (h h' : hw) : Prop := replies h' = replies h /\ forall i, word h' i = word h i.
Lemma same_box_refl h : same_box h h.
Proof. done. Qed.
Lemma same_box_trans h1 h2 h3 : same_box h1 h2 -> same_box h2 h3 -> same_box h1 h3.
Proof. intros [R1 W1] [R2 W2]. split; [by rewrite R2|]. intros i. by rewrite W2. Qed.

Lemma wait_full d : exists h log, poll (status_clear MBOX_FULL) d = Ok tt (with_bus h log d) /\ full h = 0%nat /\ same_box (d_hw d) h.
Proof.
  destruct (poll_run (status_clear MBOX_FULL) (fun d' => exists h log, d' = with_bus h log d /\ same_box (d_hw d) h)
    (fun d' => exists h log, d' = with_bus h log d /\ full h = 0%nat /\ same_box (d_hw d) h) (fun d' => full (d_hw d')) d)
    as (d' & R & h & log & -> & Hf & Hs).
  - intros d1 (h1 & log1 & -> & S1). pose proof (vc_status h1) as L. destruct (hw_read h1 MBOX_STATUS) as [v h] eqn:E.
    destruct L as (L1 & _ & [L2 L2'] & _ & L3). unfold status_clear.
    rewrite (bind_ok _ _ _ _ _ (reg_read_run MBOX_STATUS (with_bus h1 log1 d) v h E)). unfold mret, M_ret.
    change MBOX_FULL with (2 ^ 31). rewrite flag_bit, L1, negb_involutive by lia.
    assert (S2 : same_box (d_hw d) h) by (by eapply same_box_trans).
    destruct (Nat.eqb_spec (full h1) 0) as [E0|E0]; [left|right]; eexists; (split; [reflexivity|]).
    + eexists h, _. split; [reflexivity|]. split; [by apply L2|done].
    + split; [eexists h, _; split; [reflexivity|done]|]. cbn [d_hw with_bus]. by apply L2'.
  - exists (d_hw d), (d_log d). split; [by destruct d|done].
  - pose proof (wait_bound (d_hw d)). lia.
  - by exists h, log.
Qed.

Lemma wait_reply d : replies (d_hw d) <> [] ->
  exists h log, poll (status_clear MBOX_EMPTY) d = Ok tt (with_bus h log d) /\ empty h = 0%nat /\ same_box (d_hw d) h.
Proof.
  intros HR.
  destruct (poll_run (status_clear MBOX_EMPTY) (fun d' => exists h log, d' = with_bus h log d /\ same_box (d_hw d) h)
    (fun d' => exists h log, d' = with_bus h log d /\ empty h = 0%nat /\ same_box (d_hw d) h) (fun d' => empty (d_hw d')) d)
    as (d' & R & h & log & -> & Hf & Hs).
  - intros d1 (h1 & log1 & -> & S1). pose proof (vc_status h1) as L. destruct (hw_read h1 MBOX_STATUS) as [v h] eqn:E.
    destruct L as (_ & L1 & _ & [L2 L2'] & L3). unfold status_clear.
    rewrite (bind_ok _ _ _ _ _ (reg_read_run MBOX_STATUS (with_bus h1 log1 d) v h E)). unfold mret, M_ret.
    change MBOX_EMPTY with (2 ^ 30). rewrite flag_bit, L1, negb_involutive by (lia || by rewrite (proj1 S1)).
    assert (S2 : same_box (d_hw d) h) by (by eapply same_box_trans).
    destruct (Nat.eqb_spec (empty h1) 0) as [E0|E0]; [left|right]; eexists; (split; [reflexivity|]).
    + eexists h, _. split; [reflexivity|]. split; [by apply L2|done].
    + split; [eexists h, _; split; [reflexivity|done]|]. cbn [d_hw with_bus]. by apply L2'.
  - exists (d_hw d), (d_log d). split; [by destruct d|done].
  - pose proof (wait_bound (d_hw d)). lia.
  - by exists h, log.
Qed.

(** The replies to others are skipped. *)
Lemma reply_loops r pre : forall d post, replies (d_hw d) = pre ++ r :: post -> r ∉ pre ->
  exists h log, loops (reply_body mbox r) (S (length pre)) tt d (if word (d_hw d) 1 =? MBOX_RESPONSE then 1 else 0) (with_bus h log d)
    /\ replies h = post /\ forall i, word h i = word (d_hw d) i.
Proof.
  induction pre as [|x pre IH]; intros d post HR Hn;
    (destruct (wait_reply d) as (h1 & log1 & R1 & E1 & [S1 W1]); [by rewrite HR|]);
    rewrite HR in S1; cbn [app] in S1; pose proof (vc_read h1 _ _ E1 S1) as L;
    destruct (hw_read h1 MBOX_READ) as [v h2] eqn:E2; destruct L as (Ev & HR2 & W2);
    pose proof (reg_read_run MBOX_READ (with_bus h1 log1 d) v h2 E2) as R2; set (d2 := with_bus h2 _ (with_bus h1 log1 d)) in R2.
  - pose proof (vc_get h2 1 ltac:(lia)) as L3. destruct (hw_read h2 (mbox + 4 * 1)) as [v3 h3] eqn:E3. destruct L3 as (Ev3 & HR3 & W3).
    pose proof (reg_read_run (mbox + 4 * 1) d2 v3 h3 E3) as R3. eexists h3, _. split; [|split].
    + apply loops_done. unfold reply_body. rewrite (bind_ok _ _ _ _ _ R1), (bind_ok _ _ _ _ _ R2), Ev, Z.eqb_refl.
      unfold mbox_get. rewrite (bind_ok _ _ _ _ _ R3), Ev3, W2, W1. reflexivity.
    + by rewrite HR3.
    + intros i. by rewrite W3, W2, W1.
  - apply not_elem_of_cons in Hn as [Nx Hn]. destruct (IH d2 post) as (h & log & L & HRh & Wh); [by cbn [d2 d_hw with_bus]|done|].
    cbn [d2 d_hw with_bus] in L, Wh. rewrite W2, W1 in L. exists h, log. split; [|split; [done|]].
    + eapply loops_step; [|exact L]. unfold reply_body. rewrite (bind_ok _ _ _ _ _ R1), (bind_ok _ _ _ _ _ R2), Ev.
      by rewrite (proj2 (Z.eqb_neq _ _)).
    + intros i. by rewrite Wh, W2, W1.
Qed.

Lemma message_range ch : 0 <= mailbox_message mbox ch < 2 ^ 32.
Proof.
  assert (E : Z.land (mailbox_message mbox ch) (Z.ones 32) = mailbox_message mbox ch).
  { unfold mailbox_message. by rewrite Z.land_lor_distr_l, <- !Z.land_assoc. }
  rewrite Z.land_ones in E by lia. rewrite <- E. by apply Z.mod_pos_bound.
Qed.

(** Fewer pending replies than the loop's fuel. *)
Definition few_replies (h : hw) : Prop := Z.of_nat (length (replies h)) < 2 ^ 63.

Lemma mailbox_call_run d ch : let r := mailbox_message mbox ch in few_replies (d_hw d) -> r ∉ replies (d_hw d) ->
  exists h log, mailbox_call mbox ch d = Ok (if answer r (word (d_hw d)) 1 =? MBOX_RESPONSE then 1 else 0) (with_bus h log d)
    /\ replies h = [] /\ forall i, 0 <= i < 36 -> word h i = answer r (word (d_hw d)) i.
Proof.
  intros r Hl Hn. destruct (wait_full d) as (h1 & log1 & R1 & E1 & S1 & W1). destruct (vc_write h1 r E1 (message_range ch)) as [S2 W2].
  set (d2 := with_bus (hw_write h1 MBOX_WRITE r) (log1 ++ [BusWrite MBOX_WRITE r]) (with_bus h1 log1 d)).
  destruct (reply_loops r (replies (d_hw d)) d2 []) as (h & log & L & HR & W); [by cbn [d2 d_hw with_bus]; rewrite S2, S1|done|].
  cbn [d2 d_hw with_bus] in L, W. rewrite W2, (answer_ext r _ (word (d_hw d)) 1 W1) in L by lia.
  exists h, log. split; [|split; [done|]].
  - unfold mailbox_call. fold r. rewrite (bind_ok _ _ _ _ _ R1). unfold reg_write. unfold mbind at 1, M_bind at 1.
    apply (loops_loop _ _ _ _ _ _ L). unfold few_replies in Hl. lia.
  - intros i Hi. by rewrite W, W2, (answer_ext r _ (word (d_hw d)) i W1).
Qed.

(** [mailbox_call] waits for room, sends one message and returns when the reply to
    it arrives, having skipped the replies to other messages: it returns 1 exactly
    when the graphics processor marked the buffer as answered, and the buffer then
    holds the answer.  The message is the buffer's physical address with the
    channel in the low four bits, the buffer being aligned and linked at the
    kernel's base. *)
Theorem mailbox_call_answers d ch phys : 0 <= ch < 16 -> mbox = 0xffff000000000000 + phys -> 0 <= phys < 2 ^ 32 -> phys mod 16 = 0 ->
  let r := mailbox_message mbox ch in
  r = phys + ch /\
  (few_replies (d_hw d) -> r ∉ replies (d_hw d) ->
   exists h log, mailbox_call mbox ch d = Ok (if answer r (word (d_hw d)) 1 =? MBOX_RESPONSE then 1 else 0) (with_bus h log d)
     /\ replies h = [] /\ forall i, 0 <= i < 36 -> word h i = answer r (word (d_hw d)) i).
Proof.
  intros Hch Em Hp Ha r. split; [|apply mailbox_call_run]. unfold r, mailbox_message.
  assert (E1 : u32 mbox = phys) by (unfold u32; rewrite Em; Z.to_euclidean_division_equations; lia). rewrite E1.
  change 0xF with (Z.ones 4). rewrite Z.land_ones, (Z.mod_small ch) by lia. change 0xFFFFFFF0 with (Z.shiftl (Z.ones 28) 4).
  assert (E2 : Z.land phys (Z.shiftl (Z.ones 28) 4) = phys).
  { apply Z.bits_inj'. intros i Hi. rewrite Z.land_spec, Z.shiftl_spec by done. destruct (Z_lt_le_dec i 4) as [Hlt|Hge].
    - rewrite (Z.testbit_neg_r _ (i - 4)), andb_false_r by lia. replace phys with (phys / 2 ^ 4 * 2 ^ 4) by (Z.to_euclidean_division_equations; lia).
      by rewrite Z.mul_pow2_bits_low.
    - destruct (Z_lt_le_dec i 32); [rewrite Z.ones_spec_low by lia; apply andb_true_r|].
      rewrite <- (Z.mod_small phys (2 ^ 32)) by done. by rewrite Z.mod_pow2_bits_high by lia. }
  rewrite E2. symmetry. apply Z.add_nocarry_lor. apply Z.bits_inj'. intros i Hi. rewrite Z.land_spec, Z.bits_0.
  destruct (Z_lt_le_dec i 4) as [Hlt|Hge].
  - replace phys with (phys / 2 ^ 4 * 2 ^ 4) by (Z.to_euclidean_division_equations; lia). by rewrite Z.mul_pow2_bits_low.
  - rewrite <- (Z.mod_small ch (2 ^ 4)) by lia. by rewrite (Z.mod_pow2_bits_high ch), andb_false_r by lia.
Qed.
End protocol.

(** ** A graphics processor

    It answers after one poll each way, marks the buffer as answered and fills
    the response words from [reply]. *)

Record gpu := Gpu { g_full : bool; g_empty : bool; g_replies : list Z; g_words : list Z }.
Definition box_addr : Z := 0xffff000000100000.
Definition g_word (l : list Z) (i : Z) : Z := if (0 <=? i) && (i <? 36) then u32 (default 0 (l !! Z.to_nat i)) else 0.
Definition gpu_answer (reply : list (Z * Z)) (i old : Z) : Z :=
  match list_find (fun p => p.1 = i) reply with Some (_, (_, v)) => u32 v | None => old end.
Definition gpu_words (w : Z -> Z) : list Z := w <$> seqZ 0 36.

Section gpu.
Context (reply : list (Z * Z)).

#[local] Instance gpu_hardware : Hardware := {
  hw := gpu;
  hw_read g a :=
    if a =? MBOX_STATUS then (Z.lor (if g_full g then MBOX_FULL else 0) (if g_empty g then MBOX_EMPTY else 0), Gpu false false (g_replies g) (g_words g))
    else if a =? MBOX_READ then (hd 0 (u32 <$> g_replies g), Gpu (g_full g) (g_empty g) (tl (g_replies g)) (g_words g))
    else (g_word (g_words g) ((a - box_addr) / 4), g);
  hw_write g a v :=
    if a =? MBOX_WRITE then Gpu true true (g_replies g ++ [v]) (gpu_words (fun i => gpu_answer reply i (g_word (g_words g) i)))
    else Gpu (g_full g) (g_empty g) (g_replies g) (gpu_words (fun i => if a =? box_addr + 4 * i then v else g_word (g_words g) i)) }.

Lemma g_word_words w i : 0 <= i < 36 -> 0 <= w i < 2 ^ 32 -> g_word (gpu_words w) i = w i.
Proof.
  intros Hi Hw. unfold g_word, gpu_words. rewrite (proj2 (Z.leb_le 0 i)), (proj2 (Z.ltb_lt i 36)) by lia. cbn [andb].
  rewrite list_lookup_fmap, lookup_seqZ_lt by lia. cbn [fmap option_fmap option_map default from_option id].
  rewrite Z2Nat.id by lia. by rewrite Z.add_0_l, u32_small.
Qed.
Lemma g_word_range l i : 0 <= g_word l i < 2 ^ 32.
Proof. unfold g_word. destruct (_ && _); [apply u32_range|lia]. Qed.
Lemma gpu_answer_range i old : 0 <= old < 2 ^ 32 -> 0 <= gpu_answer reply i old < 2 ^ 32.
Proof. intros H. unfold gpu_answer. destruct (list_find _ _) as [[? [? v]]|]; [apply u32_range|done]. Qed.

Lemma box_addr_apart i : 0 <= i < 36 ->
  (box_addr + 4 * i =? MBOX_STATUS) = false /\ (box_addr + 4 * i =? MBOX_READ) = false /\ (box_addr + 4 * i =? MBOX_WRITE) = false.
Proof. intros Hi. rewrite !Z.eqb_neq. unfold box_addr, MBOX_STATUS, MBOX_READ, MBOX_WRITE, VIDEOCORE_MBOX, PERIPHERAL_BASE_ADDR. lia. Qed.

#[local, refine] Instance gpu_videocore : VideoCore box_addr := {
  full g := if g_full g then 1%nat else 0%nat;
  empty g := if g_empty g then 1%nat else 0%nat;
  replies g := u32 <$> g_replies g;
  word g := g_word (g_words g);
  answer _ w i := gpu_answer reply i (w i);
  answer_ext := _; wait_bound := _; vc_status := _; vc_write := _; vc_read := _; vc_get := _; vc_set := _ }.
Proof.
  - intros r w w' j E. by rewrite E.
  - intros []. destruct g_full0, g_empty0; cbn; lia.
  - intros [f e l w]. cbn [hw_read gpu_hardware]. rewrite Z.eqb_refl. unfold polled. cbn.
    destruct f, e; repeat split; intros; first [done|lia].
  - intros [f e l w] r Hf Hr. cbn [hw_write gpu_hardware]. rewrite Z.eqb_refl. cbn [g_replies g_words].
    split; [rewrite fmap_app; cbn [fmap list_fmap]; by rewrite u32_small|].
    intros i Hi. rewrite g_word_words; [done|done|]. apply gpu_answer_range, g_word_range.
  - intros [f e l w] x l' He El. cbn in El |- *. destruct l as [|y l]; [done|]. cbn in El. injection El as <- <-. cbn.
    split; [by rewrite u32_small by apply u32_range|done].
  - intros g i Hi. cbn [hw_read gpu_hardware]. destruct (box_addr_apart i Hi) as (-> & -> & _).
    replace (box_addr + 4 * i - box_addr) with (i * 4) by lia. rewrite Z.div_mul by lia.
    split; [by rewrite u32_small by apply g_word_range|done].
  - intros g i v Hi Hv. cbn [hw_write gpu_hardware]. destruct (box_addr_apart i Hi) as (_ & _ & ->). split; [done|].
    intros j Hj. cbn [g_words]. rewrite g_word_words; [|done|].
    + destruct (Z.eqb_spec (box_addr + 4 * i) (box_addr + 4 * j)), (Z.eqb_spec j i); try done; lia.
    + destruct (_ =? _); [done|apply g_word_range].
Defined.
End gpu.

(** The witness: the buffer is marked as answered, another client's reply is
    skipped. *)
Definition gpu_idle (l : list Z) (w : list Z) : gpu := Gpu true true l w.
Lemma mailbox_call_answers_witness :
  exists h log, mailbox_call (H := gpu_hardware [(1, MBOX_RESPONSE)]) box_addr 8
      (DState (H := gpu_hardware [(1, MBOX_RESPONSE)]) (gpu_idle [0x30000] []) [] (FbGlobals 0 0 0 0 0) (ShellGlobals 15 15))
    = Ok 1 (with_bus (H := gpu_hardware [(1, MBOX_RESPONSE)]) h log
        (DState (H := gpu_hardware [(1, MBOX_RESPONSE)]) (gpu_idle [0x30000] []) [] (FbGlobals 0 0 0 0 0) (ShellGlobals 15 15))).
Proof.
  destruct (mailbox_call_answers (V := gpu_videocore [(1, MBOX_RESPONSE)])
    (DState (H := gpu_hardware [(1, MBOX_RESPONSE)]) (gpu_idle [0x30000] []) [] (FbGlobals 0 0 0 0 0) (ShellGlobals 15 15)) 8 0x100000)
    as [Er R]; [lia|done|lia|done|].
  rewrite Er in R. destruct R as (h & log & R & _).
  - reflexivity.
  - by apply (bool_decide_unpack _).
  - exists h, log. exact R.
Defined.
