(* ===== verification/Font.v ===== *)
(** * The glyphs of the frame buffer console (include/peripherals/framebuffer_char.h)

    224 glyphs of 8 bytes, one byte a line, the leftmost pixel in bit 0: the
    first 128 are ASCII, the others code page 437 in part. *)

From S2P Require Export Prelude.

Definition FONT_WIDTH : Z := 8.
Definition FONT_HEIGHT : Z := 8.
Definition FONT_BPG : Z := 8.
Definition FONT_BPL : Z := 1.
Definition FONT_NUMGLYPHS : Z := 224.

Definition font_ascii : list (list Z) := [
  [0x00; 0x00; 0x00; 0x00; 0x00; 0x00; 0x00; 0x00];
  [0x00; 0x00; 0x00; 0x00; 0x00; 0x00; 0x00; 0x00];
  [0x00; 0x00; 0x00; 0x00; 0x00; 0x00; 0x00; 0x00];
  [0x00; 0x00; 0x00; 0x00; 0x00; 0x00; 0x00; 0x00];
  [0x00; 0x00; 0x00; 0x00; 0x00; 0x00; 0x00; 0x00];
  [0x00; 0x00; 0x00; 0x00; 0x00; 0x00; 0x00; 0x00];
  [0x00; 0x00; 0x00; 0x00; 0x00; 0x00; 0x00; 0x00];
  [0x00; 0x00; 0x00; 0x00; 0x00; 0x00; 0x00; 0x00];
  [0x00; 0x00; 0x00; 0x00; 0x00; 0x00; 0x00; 0x00];
  [0x00; 0x00; 0x00; 0x00; 0x00; 0x00; 0x00; 0x00];
  [0x00; 0x00; 0x00; 0x00; 0x00; 0x00; 0x00; 0x00];
  [0x00; 0x00; 0x00; 0x00; 0x00; 0x00; 0x00; 0x00];
  [0x00; 0x00; 0x00; 0x00; 0x00; 0x00; 0x00; 0x00];
  [0x00; 0x00; 0x00; 0x00; 0x00; 0x00; 0x00; 0x00];
  [0x00; 0x00; 0x00; 0x00; 0x00; 0x00; 0x00; 0x00];
  [0x00; 0x00; 0x00; 0x00; 0x00; 0x00; 0x00; 0x00];
  [0x00; 0x00; 0x00; 0x00; 0x00; 0x00; 0x00; 0x00];
  [0x00; 0x00; 0x00; 0x00; 0x00; 0x00; 0x00; 0x00];
  [0x00; 0x00; 0x00; 0x00; 0x00; 0x00; 0x00; 0x00];
  [0x00; 0x00; 0x00; 0x00; 0x00; 0x00; 0x00; 0x00];
  [0x00; 0x00; 0x00; 0x00; 0x00; 0x00; 0x00; 0x00];
  [0x00; 0x00; 0x00; 0x00; 0x00; 0x00; 0x00; 0x00];
  [0x00; 0x00; 0x00; 0x00; 0x00; 0x00; 0x00; 0x00];
  [0x00; 0x00; 0x00; 0x00; 0x00; 0x00; 0x00; 0x00];
  [0x00; 0x00; 0x00; 0x00; 0x00; 0x00; 0x00; 0x00];
  [0x00; 0x00; 0x00; 0x00; 0x00; 0x00; 0x00; 0x00];
  [0x00; 0x00; 0x00; 0x00; 0x00; 0x00; 0x00; 0x00];
  [0x00; 0x00; 0x00; 0x00; 0x00; 0x00; 0x00; 0x00];
  [0x00; 0x00; 0x00; 0x00; 0x00; 0x00; 0x00; 0x00];
  [0x00; 0x00; 0x00; 0x00; 0x00; 0x00; 0x00; 0x00];
  [0x00; 0x00; 0x00; 0x00; 0x00; 0x00; 0x00; 0x00];
  [0x00; 0x00; 0x00; 0x00; 0x00; 0x00; 0x00; 0x00];
  [0x00; 0x00; 0x00; 0x00; 0x00; 0x00; 0x00; 0x00];
  [0x18; 0x3C; 0x3C; 0x18; 0x18; 0x00; 0x18; 0x00];
  [0x36; 0x36; 0x00; 0x00; 0x00; 0x00; 0x00; 0x00];
  [0x36; 0x36; 0x7F; 0x36; 0x7F; 0x36; 0x36; 0x00];
  [0x0C; 0x3E; 0x03; 0x1E; 0x30; 0x1F; 0x0C; 0x00];
  [0x00; 0x63; 0x33; 0x18; 0x0C; 0x66; 0x63; 0x00];
  [0x1C; 0x36; 0x1C; 0x6E; 0x3B; 0x33; 0x6E; 0x00];
  [0x06; 0x06; 0x03; 0x00; 0x00; 0x00; 0x00; 0x00];
  [0x18; 0x0C; 0x06; 0x06; 0x06; 0x0C; 0x18; 0x00];
  [0x06; 0x0C; 0x18; 0x18; 0x18; 0x0C; 0x06; 0x00];
  [0x00; 0x66; 0x3C; 0xFF; 0x3C; 0x66; 0x00; 0x00];
  [0x00; 0x0C; 0x0C; 0x3F; 0x0C; 0x0C; 0x00; 0x00];
  [0x00; 0x00; 0x00; 0x00; 0x00; 0x0C; 0x0C; 0x06];
  [0x00; 0x00; 0x00; 0x3F; 0x00; 0x00; 0x00; 0x00];
  [0x00; 0x00; 0x00; 0x00; 0x00; 0x0C; 0x0C; 0x00];
  [0x60; 0x30; 0x18; 0x0C; 0x06; 0x03; 0x01; 0x00];
  [0x3E; 0x63; 0x73; 0x7B; 0x6F; 0x67; 0x3E; 0x00];
  [0x0C; 0x0E; 0x0C; 0x0C; 0x0C; 0x0C; 0x3F; 0x00];
  [0x1E; 0x33; 0x30; 0x1C; 0x06; 0x33; 0x3F; 0x00];
  [0x1E; 0x33; 0x30; 0x1C; 0x30; 0x33; 0x1E; 0x00];
  [0x38; 0x3C; 0x36; 0x33; 0x7F; 0x30; 0x78; 0x00];
  [0x3F; 0x03; 0x1F; 0x30; 0x30; 0x33; 0x1E; 0x00];
  [0x1C; 0x06; 0x03; 0x1F; 0x33; 0x33; 0x1E; 0x00];
  [0x3F; 0x33; 0x30; 0x18; 0x0C; 0x0C; 0x0C; 0x00];
  [0x1E; 0x33; 0x33; 0x1E; 0x33; 0x33; 0x1E; 0x00];
  [0x1E; 0x33; 0x33; 0x3E; 0x30; 0x18; 0x0E; 0x00];
  [0x00; 0x0C; 0x0C; 0x00; 0x00; 0x0C; 0x0C; 0x00];
  [0x00; 0x0C; 0x0C; 0x00; 0x00; 0x0C; 0x0C; 0x06];
  [0x18; 0x0C; 0x06; 0x03; 0x06; 0x0C; 0x18; 0x00];
  [0x00; 0x00; 0x3F; 0x00; 0x00; 0x3F; 0x00; 0x00];
  [0x06; 0x0C; 0x18; 0x30; 0x18; 0x0C; 0x06; 0x00];
  [0x1E; 0x33; 0x30; 0x18; 0x0C; 0x00; 0x0C; 0x00];
  [0x3E; 0x63; 0x7B; 0x7B; 0x7B; 0x03; 0x1E; 0x00];
  [0x0C; 0x1E; 0x33; 0x33; 0x3F; 0x33; 0x33; 0x00];
  [0x3F; 0x66; 0x66; 0x3E; 0x66; 0x66; 0x3F; 0x00];
  [0x3C; 0x66; 0x03; 0x03; 0x03; 0x66; 0x3C; 0x00];
  [0x1F; 0x36; 0x66; 0x66; 0x66; 0x36; 0x1F; 0x00];
  [0x7F; 0x46; 0x16; 0x1E; 0x16; 0x46; 0x7F; 0x00];
  [0x7F; 0x46; 0x16; 0x1E; 0x16; 0x06; 0x0F; 0x00];
  [0x3C; 0x66; 0x03; 0x03; 0x73; 0x66; 0x7C; 0x00];
  [0x33; 0x33; 0x33; 0x3F; 0x33; 0x33; 0x33; 0x00];
  [0x1E; 0x0C; 0x0C; 0x0C; 0x0C; 0x0C; 0x1E; 0x00];
  [0x78; 0x30; 0x30; 0x30; 0x33; 0x33; 0x1E; 0x00];
  [0x67; 0x66; 0x36; 0x1E; 0x36; 0x66; 0x67; 0x00];
  [0x0F; 0x06; 0x06; 0x06; 0x46; 0x66; 0x7F; 0x00];
  [0x63; 0x77; 0x7F; 0x7F; 0x6B; 0x63; 0x63; 0x00];
  [0x63; 0x67; 0x6F; 0x7B; 0x73; 0x63; 0x63; 0x00];
  [0x1C; 0x36; 0x63; 0x63; 0x63; 0x36; 0x1C; 0x00];
  [0x3F; 0x66; 0x66; 0x3E; 0x06; 0x06; 0x0F; 0x00];
  [0x1E; 0x33; 0x33; 0x33; 0x3B; 0x1E; 0x38; 0x00];
  [0x3F; 0x66; 0x66; 0x3E; 0x36; 0x66; 0x67; 0x00];
  [0x1E; 0x33; 0x07; 0x0E; 0x38; 0x33; 0x1E; 0x00];
  [0x3F; 0x2D; 0x0C; 0x0C; 0x0C; 0x0C; 0x1E; 0x00];
  [0x33; 0x33; 0x33; 0x33; 0x33; 0x33; 0x3F; 0x00];
  [0x33; 0x33; 0x33; 0x33; 0x33; 0x1E; 0x0C; 0x00];
  [0x63; 0x63; 0x63; 0x6B; 0x7F; 0x77; 0x63; 0x00];
  [0x63; 0x63; 0x36; 0x1C; 0x1C; 0x36; 0x63; 0x00];
  [0x33; 0x33; 0x33; 0x1E; 0x0C; 0x0C; 0x1E; 0x00];
  [0x7F; 0x63; 0x31; 0x18; 0x4C; 0x66; 0x7F; 0x00];
  [0x1E; 0x06; 0x06; 0x06; 0x06; 0x06; 0x1E; 0x00];
  [0x03; 0x06; 0x0C; 0x18; 0x30; 0x60; 0x40; 0x00];
  [0x1E; 0x18; 0x18; 0x18; 0x18; 0x18; 0x1E; 0x00];
  [0x08; 0x1C; 0x36; 0x63; 0x00; 0x00; 0x00; 0x00];
  [0x00; 0x00; 0x00; 0x00; 0x00; 0x00; 0x00; 0xFF];
  [0x0C; 0x0C; 0x18; 0x00; 0x00; 0x00; 0x00; 0x00];
  [0x00; 0x00; 0x1E; 0x30; 0x3E; 0x33; 0x6E; 0x00];
  [0x07; 0x06; 0x06; 0x3E; 0x66; 0x66; 0x3B; 0x00];
  [0x00; 0x00; 0x1E; 0x33; 0x03; 0x33; 0x1E; 0x00];
  [0x38; 0x30; 0x30; 0x3e; 0x33; 0x33; 0x6E; 0x00];
  [0x00; 0x00; 0x1E; 0x33; 0x3f; 0x03; 0x1E; 0x00];
  [0x1C; 0x36; 0x06; 0x0f; 0x06; 0x06; 0x0F; 0x00];
  [0x00; 0x00; 0x6E; 0x33; 0x33; 0x3E; 0x30; 0x1F];
  [0x07; 0x06; 0x36; 0x6E; 0x66; 0x66; 0x67; 0x00];
  [0x0C; 0x00; 0x0E; 0x0C; 0x0C; 0x0C; 0x1E; 0x00];
  [0x30; 0x00; 0x30; 0x30; 0x30; 0x33; 0x33; 0x1E];
  [0x07; 0x06; 0x66; 0x36; 0x1E; 0x36; 0x67; 0x00];
  [0x0E; 0x0C; 0x0C; 0x0C; 0x0C; 0x0C; 0x1E; 0x00];
  [0x00; 0x00; 0x33; 0x7F; 0x7F; 0x6B; 0x63; 0x00];
  [0x00; 0x00; 0x1F; 0x33; 0x33; 0x33; 0x33; 0x00];
  [0x00; 0x00; 0x1E; 0x33; 0x33; 0x33; 0x1E; 0x00];
  [0x00; 0x00; 0x3B; 0x66; 0x66; 0x3E; 0x06; 0x0F];
  [0x00; 0x00; 0x6E; 0x33; 0x33; 0x3E; 0x30; 0x78];
  [0x00; 0x00; 0x3B; 0x6E; 0x66; 0x06; 0x0F; 0x00];
  [0x00; 0x00; 0x3E; 0x03; 0x1E; 0x30; 0x1F; 0x00];
  [0x08; 0x0C; 0x3E; 0x0C; 0x0C; 0x2C; 0x18; 0x00];
  [0x00; 0x00; 0x33; 0x33; 0x33; 0x33; 0x6E; 0x00];
  [0x00; 0x00; 0x33; 0x33; 0x33; 0x1E; 0x0C; 0x00];
  [0x00; 0x00; 0x63; 0x6B; 0x7F; 0x7F; 0x36; 0x00];
  [0x00; 0x00; 0x63; 0x36; 0x1C; 0x36; 0x63; 0x00];
  [0x00; 0x00; 0x33; 0x33; 0x33; 0x3E; 0x30; 0x1F];
  [0x00; 0x00; 0x3F; 0x19; 0x0C; 0x26; 0x3F; 0x00];
  [0x38; 0x0C; 0x0C; 0x07; 0x0C; 0x0C; 0x38; 0x00];
  [0x18; 0x18; 0x18; 0x00; 0x18; 0x18; 0x18; 0x00];
  [0x07; 0x0C; 0x0C; 0x38; 0x0C; 0x0C; 0x07; 0x00];
  [0x6E; 0x3B; 0x00; 0x00; 0x00; 0x00; 0x00; 0x00];
  [0x00; 0x00; 0x00; 0x00; 0x00; 0x00; 0x00; 0x00]].

Definition font_extended : list (list Z) := [
  [0x1E; 0x33; 0x03; 0x33; 0x1E; 0x18; 0x30; 0x1E];
  [0x00; 0x33; 0x00; 0x33; 0x33; 0x33; 0x7E; 0x00];
  [0x38; 0x00; 0x1E; 0x33; 0x3F; 0x03; 0x1E; 0x00];
  [0x7E; 0xC3; 0x3C; 0x60; 0x7C; 0x66; 0xFC; 0x00];
  [0x33; 0x00; 0x1E; 0x30; 0x3E; 0x33; 0x7E; 0x00];
  [0x07; 0x00; 0x1E; 0x30; 0x3E; 0x33; 0x7E; 0x00];
  [0x0C; 0x0C; 0x1E; 0x30; 0x3E; 0x33; 0x7E; 0x00];
  [0x00; 0x00; 0x1E; 0x03; 0x03; 0x1E; 0x30; 0x1C];
  [0x7E; 0xC3; 0x3C; 0x66; 0x7E; 0x06; 0x3C; 0x00];
  [0x33; 0x00; 0x1E; 0x33; 0x3F; 0x03; 0x1E; 0x00];
  [0x07; 0x00; 0x1E; 0x33; 0x3F; 0x03; 0x1E; 0x00];
  [0x33; 0x00; 0x0E; 0x0C; 0x0C; 0x0C; 0x1E; 0x00];
  [0x3E; 0x63; 0x1C; 0x18; 0x18; 0x18; 0x3C; 0x00];
  [0x07; 0x00; 0x0E; 0x0C; 0x0C; 0x0C; 0x1E; 0x00];
  [0x63; 0x1C; 0x36; 0x63; 0x7F; 0x63; 0x63; 0x00];
  [0x0C; 0x0C; 0x00; 0x1E; 0x33; 0x3F; 0x33; 0x00];
  [0x07; 0x00; 0x3F; 0x06; 0x1E; 0x06; 0x3F; 0x00];
  [0x00; 0x00; 0xFE; 0x30; 0xFE; 0x33; 0xFE; 0x00];
  [0x7C; 0x36; 0x33; 0x7F; 0x33; 0x33; 0x73; 0x00];
  [0x1E; 0x33; 0x00; 0x1E; 0x33; 0x33; 0x1E; 0x00];
  [0x00; 0x33; 0x00; 0x1E; 0x33; 0x33; 0x1E; 0x00];
  [0x00; 0x07; 0x00; 0x1E; 0x33; 0x33; 0x1E; 0x00];
  [0x1E; 0x33; 0x00; 0x33; 0x33; 0x33; 0x7E; 0x00];
  [0x00; 0x07; 0x00; 0x33; 0x33; 0x33; 0x7E; 0x00];
  [0x00; 0x33; 0x00; 0x33; 0x33; 0x3E; 0x30; 0x1F];
  [0xC3; 0x18; 0x3C; 0x66; 0x66; 0x3C; 0x18; 0x00];
  [0x33; 0x00; 0x33; 0x33; 0x33; 0x33; 0x1E; 0x00];
  [0x18; 0x18; 0x7E; 0x03; 0x03; 0x7E; 0x18; 0x18];
  [0x1C; 0x36; 0x26; 0x0F; 0x06; 0x67; 0x3F; 0x00];
  [0x33; 0x33; 0x1E; 0x3F; 0x0C; 0x3F; 0x0C; 0x0C];
  [0x7C; 0xC6; 0x1C; 0x36; 0x36; 0x1C; 0x33; 0x1E];
  [0x70; 0xD8; 0x18; 0x3C; 0x18; 0x18; 0x1B; 0x0E];
  [0x38; 0x00; 0x1E; 0x30; 0x3E; 0x33; 0x7E; 0x00];
  [0x1C; 0x00; 0x0E; 0x0C; 0x0C; 0x0C; 0x1E; 0x00];
  [0x00; 0x38; 0x00; 0x1E; 0x33; 0x33; 0x1E; 0x00];
  [0x00; 0x38; 0x00; 0x33; 0x33; 0x33; 0x7E; 0x00];
  [0x00; 0x1F; 0x00; 0x1F; 0x33; 0x33; 0x33; 0x00];
  [0x3F; 0x00; 0x33; 0x37; 0x3F; 0x3B; 0x33; 0x00];
  [0x3C; 0x36; 0x36; 0x7C; 0x00; 0x00; 0x00; 0x00];
  [0x1C; 0x36; 0x36; 0x1C; 0x00; 0x00; 0x00; 0x00];
  [0x0C; 0x00; 0x0C; 0x06; 0x03; 0x33; 0x1E; 0x00];
  [0x00; 0x00; 0x00; 0x3F; 0x03; 0x03; 0x00; 0x00];
  [0x00; 0x00; 0x00; 0x3F; 0x30; 0x30; 0x00; 0x00];
  [0xC3; 0x63; 0x33; 0x7B; 0xCC; 0x66; 0x33; 0xF0];
  [0xC3; 0x63; 0x33; 0xBD; 0xEC; 0xF6; 0xF3; 0x03];
  [0x18; 0x18; 0x00; 0x18; 0x18; 0x18; 0x18; 0x00];
  [0x00; 0xCC; 0x66; 0x33; 0x66; 0xCC; 0x00; 0x00];
  [0x00; 0x33; 0x66; 0xCC; 0x66; 0x33; 0x00; 0x00];
  [0x55; 0x00; 0xAA; 0x00; 0x55; 0x00; 0xAA; 0x00];
  [0x55; 0xAA; 0x55; 0xAA; 0x55; 0xAA; 0x55; 0xAA];
  [0xFF; 0xAA; 0xFF; 0x55; 0xFF; 0xAA; 0xFF; 0x55];
  [0x08; 0x08; 0x08; 0x08; 0x08; 0x08; 0x08; 0x08];
  [0x08; 0x08; 0x08; 0x08; 0x0f; 0x08; 0x08; 0x08];
  [0x08; 0x08; 0x08; 0x0F; 0x08; 0x0F; 0x08; 0x08];
  [0x14; 0x14; 0x14; 0x14; 0x17; 0x14; 0x14; 0x14];
  [0x00; 0x00; 0x00; 0x00; 0x1F; 0x14; 0x14; 0x14];
  [0x00; 0x00; 0x00; 0x0F; 0x08; 0x0F; 0x08; 0x08];
  [0x14; 0x14; 0x14; 0x17; 0x10; 0x17; 0x14; 0x14];
  [0x14; 0x14; 0x14; 0x14; 0x14; 0x14; 0x14; 0x14];
  [0x00; 0x00; 0x00; 0x1F; 0x10; 0x17; 0x14; 0x14];
  [0x14; 0x14; 0x14; 0x17; 0x10; 0x1F; 0x00; 0x00];
  [0x14; 0x14; 0x14; 0x14; 0x1F; 0x00; 0x00; 0x00];
  [0x08; 0x08; 0x08; 0x0F; 0x08; 0x0F; 0x00; 0x00];
  [0x00; 0x00; 0x00; 0x00; 0x0f; 0x08; 0x08; 0x08];
  [0x08; 0x08; 0x08; 0x08; 0xf8; 0x00; 0x00; 0x00];
  [0x08; 0x08; 0x08; 0x08; 0xff; 0x00; 0x00; 0x00];
  [0x00; 0x00; 0x00; 0x00; 0xff; 0x08; 0x08; 0x08];
  [0x08; 0x08; 0x08; 0x08; 0xf8; 0x08; 0x08; 0x08];
  [0x00; 0x00; 0x00; 0x00; 0xFF; 0x00; 0x00; 0x00];
  [0x08; 0x08; 0x08; 0x08; 0xff; 0x08; 0x08; 0x08];
  [0x08; 0x08; 0x08; 0xF8; 0x08; 0xF8; 0x08; 0x08];
  [0x14; 0x14; 0x14; 0x14; 0xF4; 0x14; 0x14; 0x14];
  [0x14; 0x14; 0x14; 0xF4; 0x04; 0xFC; 0x00; 0x00];
  [0x00; 0x00; 0x00; 0xFC; 0x04; 0xF4; 0x14; 0x14];
  [0x14; 0x14; 0x14; 0xF7; 0x00; 0xFF; 0x00; 0x00];
  [0x00; 0x00; 0x00; 0xFF; 0x00; 0xF7; 0x14; 0x14];
  [0x14; 0x14; 0x14; 0xF4; 0x04; 0xF4; 0x14; 0x14];
  [0x00; 0x00; 0x00; 0xFF; 0x00; 0xFF; 0x00; 0x00];
  [0x14; 0x14; 0x14; 0xF7; 0x00; 0xF7; 0x14; 0x14];
  [0x08; 0x08; 0x08; 0xFF; 0x00; 0xFF; 0x00; 0x00];
  [0x14; 0x14; 0x14; 0x14; 0xFF; 0x00; 0x00; 0x00];
  [0x00; 0x00; 0x00; 0xFF; 0x00; 0xFF; 0x08; 0x08];
  [0x00; 0x00; 0x00; 0x00; 0xFF; 0x14; 0x14; 0x14];
  [0x14; 0x14; 0x14; 0x14; 0xFC; 0x00; 0x00; 0x00];
  [0x08; 0x08; 0x08; 0xF8; 0x08; 0xF8; 0x00; 0x00];
  [0x00; 0x00; 0x00; 0xF8; 0x08; 0xF8; 0x08; 0x08];
  [0x00; 0x00; 0x00; 0x00; 0xFC; 0x14; 0x14; 0x14];
  [0x14; 0x14; 0x14; 0x14; 0xFF; 0x14; 0x14; 0x14];
  [0x08; 0x08; 0x08; 0xFF; 0x08; 0xFF; 0x08; 0x08];
  [0x08; 0x08; 0x08; 0x08; 0x0f; 0x00; 0x00; 0x00];
  [0x00; 0x00; 0x00; 0x00; 0xf8; 0x08; 0x08; 0x08];
  [0xFF; 0xFF; 0xFF; 0xFF; 0xFF; 0xFF; 0xFF; 0xFF];
  [0x00; 0x00; 0x00; 0x00; 0xFF; 0xFF; 0xFF; 0xFF];
  [0x0F; 0x0F; 0x0F; 0x0F; 0x0F; 0x0F; 0x0F; 0x0F];
  [0xF0; 0xF0; 0xF0; 0xF0; 0xF0; 0xF0; 0xF0; 0xF0];
  [0xFF; 0xFF; 0xFF; 0xFF; 0x00; 0x00; 0x00; 0x00]].

Definition font : list (list Z) := font_ascii ++ font_extended.
(** The array as the code addresses it: byte by byte. *)
Definition font_bytes : list Z := concat font.

Lemma font_shape : length font = 224%nat /\ Forall (fun g => length g = 8%nat) font.
Proof. split; [done|]. by apply (bool_decide_unpack _). Qed.

Lemma concat_lookup {A} (l : list (list A)) (n : nat) : Forall (fun g => length g = n) l ->
  forall g i, (i < n)%nat -> concat l !! (g * n + i)%nat = l !! g ≫= (.!! i).
Proof.
  induction 1 as [|x l Hx Hl IH]; intros g i Hi; [by destruct g|]. cbn [concat]. destruct g as [|g].
  - cbn. by rewrite lookup_app_l by lia.
  - rewrite lookup_app_r by lia. cbn. rewrite <- IH by done. f_equal. lia.
Qed.

(** Line [row] of glyph [g]. *)
Definition glyph_line (g row : Z) : Z := default 0 (font_bytes !! Z.to_nat (g * FONT_BPG + row * FONT_BPL)).
Lemma font_byte g row : 0 <= g < FONT_NUMGLYPHS -> 0 <= row < FONT_HEIGHT ->
  exists b, font_bytes !! Z.to_nat (g * FONT_BPG + row * FONT_BPL) = Some b /\ glyph_line g row = b.
Proof.
  unfold FONT_NUMGLYPHS, FONT_HEIGHT, FONT_BPG, FONT_BPL. intros Hg Hr. destruct font_shape as [Hl Hf].
  unfold glyph_line, FONT_BPG, FONT_BPL, font_bytes.
  replace (Z.to_nat (g * 8 + row * 1)) with (Z.to_nat g * 8 + Z.to_nat row)%nat by lia.
  rewrite (concat_lookup font 8 Hf) by lia. destruct (lookup_lt_is_Some_2 font (Z.to_nat g)) as [x Ex]; [lia|]. rewrite Ex. cbn [mbind option_bind].
  rewrite Forall_lookup in Hf. pose proof (Hf _ _ Ex) as Hx. destruct (lookup_lt_is_Some_2 x (Z.to_nat row)) as [b Eb]; [lia|].
  rewrite Eb. by exists b.
Qed.
