(* ===== verification/Framebuffer.v ===== *)
(** * The frame buffer (src/peripherals/framebuffer.c)

    The message that asks the graphics processor for a frame buffer, and the
    drawing of pixels and glyphs in it. *)

From S2P Require Export Mailbox Font.

Definition VIRTUAL_BASE : Z := 0xffff000000000000.
Definition MBOX_TAG_SETPHYWH : Z := 0x48003.
Definition MBOX_TAG_SETVIRTWH : Z := 0x48004.
Definition MBOX_TAG_SETVIRTOFF : Z := 0x48009.
Definition MBOX_TAG_SETDEPTH : Z := 0x48005.
Definition MBOX_TAG_SETPXLORDR : Z := 0x48006.
Definition MBOX_TAG_GETFB : Z := 0x40001.
Definition MBOX_TAG_GETPITCH : Z := 0x40008.
Definition MBOX_TAG_LAST : Z := 0.

Definition vgapal : list Z :=
  [0x000000; 0x0000AA; 0x00AA00; 0x00AAAA; 0xAA0000; 0xAA00AA; 0xAA5500; 0xAAAAAA;
   0x555555; 0x5555FF; 0x55FF55; 0x55FFFF; 0xFF5555; 0xFF55FF; 0xFFFF55; 0xFFFFFF].

(** The words of the request, [mbox[0]] first. *)
Definition fb_request : list Z :=
  [35 * 4; MBOX_REQUEST;
   MBOX_TAG_SETPHYWH; 8; 0; 1920; 1080;
   MBOX_TAG_SETVIRTWH; 8; 8; 1920; 1080;
   MBOX_TAG_SETVIRTOFF; 8; 8; 0; 0;
   MBOX_TAG_SETDEPTH; 4; 4; 32;
   MBOX_TAG_SETPXLORDR; 4; 4; 1;
   MBOX_TAG_GETFB; 8; 8; 4096; 0;
   MBOX_TAG_GETPITCH; 4; 4; 0;
   MBOX_TAG_LAST].

Section framebuffer.
Context `{H : Hardware}.

Fixpoint mbox_fill (mbox i : Z) (l : list Z) : D unit :=
  match l with [] => mret tt | v :: r => _ ← mbox_set mbox i v; mbox_fill mbox (i + 1) r end.

Definition framebuffer_init (mbox : Z) : D unit :=
  _ ← mbox_fill mbox 0 fb_request;
  ok ← mailbox_call mbox MBOX_CH_PROP;
  if ok =? 0 then mret tt
  else
    depth ← mbox_get mbox 20;
    if negb (depth =? 32) then mret tt
    else
      p ← mbox_get mbox 28;
      if p =? 0 then mret tt
      else
        p ← mbox_get mbox 28;
        _ ← mbox_set mbox 28 (Z.land p 0x3FFFFFFF);
        w ← mbox_get mbox 10;
        h ← mbox_get mbox 11;
        pt ← mbox_get mbox 33;
        rgb ← mbox_get mbox 24;
        p ← mbox_get mbox 28;
        put (with_fb (FbGlobals w h pt rgb (Z.lor p VIRTUAL_BASE))).

(** The offset is computed modulo 2^32 and read as an [int]. *)
Definition pixel_offset (g : fb_globals) (x y : Z) : Z := s32 (y * pitch g + x * 4).
Definition framebuffer_drawPixel (x y attr : Z) : D unit :=
  g ← get d_fb;
  c ← of_option OutOfBounds (vgapal !! Z.to_nat (Z.land attr 0x0f));
  reg_write (u64 (fb g + pixel_offset g x y)) c.

(** [glyph]: index of the current line in the font. *)
Definition pixel_body (glyph x y attr zoom i j : Z) (_ : unit) : D unit :=
  let mask := u8 (Z.shiftl 1 (j / zoom)) in
  b ← of_option OutOfBounds (font_bytes !! Z.to_nat glyph);
  let col := if negb (Z.land b mask =? 0) then Z.land attr 0x0f else Z.shiftr (Z.land attr 0xf0) 4 in
  framebuffer_drawPixel (s32 (x + j)) (s32 (y + i)) col.
Definition line_body (x y attr zoom i glyph : Z) : D Z :=
  _ ← for_range (Z.to_nat (FONT_WIDTH * zoom)) 0 (pixel_body glyph x y attr zoom i) tt;
  mret (glyph + (if negb (i mod zoom =? 0) then 0 else FONT_BPL)).
Definition framebuffer_drawChar (ch x y attr zoom : Z) : D unit :=
  let glyph := (if ch <? FONT_NUMGLYPHS then ch else 0) * FONT_BPG in
  _ ← for_range (Z.to_nat (FONT_HEIGHT * zoom)) 1 (line_body x y attr zoom) glyph;
  mret tt.

(** [s] is the text from the pointer on, with its terminator. *)
Fixpoint framebuffer_drawString (x y : Z) (s : list Z) (attr : Z) : D unit :=
  match s with
  | [] => fail OutOfBounds
  | c :: s =>
      if c =? 0 then mret tt
      else if c =? 13 then framebuffer_drawString 0 y s attr
      else if c =? 10 then framebuffer_drawString 0 (s32 (y + FONT_HEIGHT)) s attr
      else _ ← framebuffer_drawChar c x y attr 2; framebuffer_drawString (s32 (x + FONT_WIDTH)) y s attr
  end.

(** ** Writes as a list *)

Definition bus_write (h : hw) (e : event) : hw := match e with BusWrite a v => hw_write h a v | BusRead _ _ => h end.
(** [d] after the writes [l]. *)
Definition wrote (l : list event) (d : dstate H) : dstate H := with_bus (fold_left bus_write l (d_hw d)) (d_log d ++ l) d.

Lemma wrote_nil d : wrote [] d = d.
Proof. unfold wrote. rewrite app_nil_r. by destruct d. Qed.
Lemma wrote_app l l' d : wrote l' (wrote l d) = wrote (l ++ l') d.
Proof. unfold wrote. cbn. by rewrite fold_left_app, app_assoc. Qed.
Lemma wrote_fb l d : d_fb (wrote l d) = d_fb d.
Proof. done. Qed.

(** ** The picture of a glyph *)

(** The write of one pixel in colour [c]. *)
Definition pixel (g : fb_globals) (x y c : Z) : event :=
  BusWrite (u64 (fb g + pixel_offset g x y)) (default 0 (vgapal !! Z.to_nat (Z.land c 0x0f))).
(** Foreground and background of an attribute byte; the foreground is drawn where
    the line of the glyph has a 1 bit. *)
Definition colour (attr line k : Z) : Z := if Z.testbit line k then Z.land attr 0x0f else Z.shiftr (Z.land attr 0xf0) 4.
Definition glyph_of (ch : Z) : Z := if ch <? FONT_NUMGLYPHS then ch else 0.
(** Line [i] of the enlarged glyph, from left to right, and the glyph from its
    first line, which is drawn below [y], to its last. *)
Definition picture_line (g : fb_globals) (ch x y attr zoom i : Z) : list event :=
  (fun j => pixel g (x + j) (y + i) (colour attr (glyph_line (glyph_of ch) ((i - 1) / zoom)) (j / zoom))) <$> seqZ 0 (FONT_WIDTH * zoom).
Definition picture (g : fb_globals) (ch x y attr zoom : Z) : list event :=
  concat ((fun i => picture_line g ch x y attr zoom i) <$> seqZ 1 (FONT_HEIGHT * zoom)).

Lemma bit_mask line k : 0 <= k < 8 -> negb (Z.land line (u8 (Z.shiftl 1 k)) =? 0) = Z.testbit line k.
Proof.
  intros Hk. assert (E : u8 (Z.shiftl 1 k) = 2 ^ k).
  { rewrite Z.shiftl_1_l. apply u8_small. split; [by apply Z.pow_nonneg|]. apply Z.pow_lt_mono_r; lia. }
  rewrite E, land_pow2 by lia. destruct (Z.testbit line k); [|done]. pose proof (Z.pow_pos_nonneg 2 k).
  by rewrite (proj2 (Z.eqb_neq _ _)) by lia.
Qed.

Lemma vgapal_colour c : is_Some (vgapal !! Z.to_nat (Z.land c 0x0f)).
Proof.
  apply lookup_lt_is_Some_2. change 0x0f with (Z.ones 4). rewrite Z.land_ones by lia.
  pose proof (Z.mod_pos_bound c (2 ^ 4) ltac:(lia)). cbn [length vgapal]. lia.
Qed.
Lemma drawPixel_run x y c d : framebuffer_drawPixel x y c d = Ok tt (wrote [pixel (d_fb d) x y c] d).
Proof.
  unfold framebuffer_drawPixel. rewrite bind_get. destruct (vgapal_colour c) as [v Ev]. rewrite Ev. cbn [of_option]. rewrite bind_ret.
  unfold wrote, pixel. by rewrite Ev.
Qed.

(** A [for] loop that only writes. *)
Lemma for_range_writes (f : Z -> list event) (body : Z -> unit -> D unit) n : forall i d,
  (forall j d', i <= j < i + Z.of_nat n -> d_fb d' = d_fb d -> body j tt d' = Ok tt (wrote (f j) d')) ->
  for_range n i body tt d = Ok tt (wrote (concat (f <$> seqZ i (Z.of_nat n))) d).
Proof.
  induction n as [|n IH]; intros i d Hb.
  - cbn. by rewrite wrote_nil.
  - cbn [for_range]. rewrite (bind_ok _ _ _ _ _ (Hb i d ltac:(lia) eq_refl)). rewrite IH.
    + rewrite wrote_app. rewrite (seqZ_cons i) by lia. cbn [fmap list_fmap concat].
      replace (Z.pred (Z.of_nat (S n))) with (Z.of_nat n) by lia. by replace (Z.succ i) with (i + 1) by lia.
    + intros j d' Hj E. apply Hb; [lia|done].
Qed.

Lemma concat_singletons {A B} (f : A -> B) l : concat ((fun x => [f x]) <$> l) = f <$> l.
Proof. induction l as [|x l IH]; [done|]. cbn. by rewrite IH. Qed.

Definition fits_int (x n : Z) : Prop := - 2 ^ 31 <= x /\ x + n < 2 ^ 31.

(** One line: the glyph's line repeated [zoom] times. *)
Lemma line_run ch x y attr zoom i d : 1 <= zoom -> 0 <= ch -> fits_int x (FONT_WIDTH * zoom) -> fits_int y (FONT_HEIGHT * zoom + 1) ->
  1 <= i <= FONT_HEIGHT * zoom ->
  line_body x y attr zoom i (glyph_of ch * FONT_BPG + (i - 1) / zoom * FONT_BPL) d
  = Ok (glyph_of ch * FONT_BPG + i / zoom * FONT_BPL) (wrote (picture_line (d_fb d) ch x y attr zoom i) d).
Proof.
  unfold fits_int, FONT_WIDTH, FONT_HEIGHT. intros Hz Hc Hx Hy Hi. unfold line_body, FONT_WIDTH.
  assert (Hg : 0 <= glyph_of ch < FONT_NUMGLYPHS) by (unfold glyph_of, FONT_NUMGLYPHS; destruct (Z.ltb_spec ch 224); lia).
  assert (Hrow : 0 <= (i - 1) / zoom < FONT_HEIGHT).
  { split; [apply Z.div_pos; lia|]. apply Z.div_lt_upper_bound; unfold FONT_HEIGHT; lia. }
  destruct (font_byte (glyph_of ch) ((i - 1) / zoom) Hg Hrow) as (b & Eb & El).
  set (g := glyph_of ch * FONT_BPG + (i - 1) / zoom * FONT_BPL) in *.
  assert (R : for_range (Z.to_nat (8 * zoom)) 0 (pixel_body g x y attr zoom i) tt d
    = Ok tt (wrote (concat ((fun j => [pixel (d_fb d) (x + j) (y + i) (colour attr b (j / zoom))]) <$> seqZ 0 (Z.of_nat (Z.to_nat (8 * zoom))))) d)).
  { apply for_range_writes. intros j d' Hj Ed. unfold pixel_body. rewrite Eb. cbn [of_option]. rewrite bind_ret.
    assert (Hk : 0 <= j / zoom < 8) by (split; [apply Z.div_pos; lia|apply Z.div_lt_upper_bound; lia]).
    rewrite (bit_mask b (j / zoom) Hk). fold (colour attr b (j / zoom)). rewrite drawPixel_run, Ed.
    unfold s32. by rewrite !swrap_small by lia. }
  rewrite (bind_ok _ _ _ _ _ R), concat_singletons, Z2Nat.id by lia. unfold mret, M_ret.
  unfold picture_line. rewrite El. f_equal. unfold g.
  assert (Em : i / zoom = (i - 1) / zoom + (if negb (i mod zoom =? 0) then 0 else 1)).
  { destruct (Z.eqb_spec (i mod zoom) 0) as [E|E]; cbn [negb]; pose proof (Z.div_mod i zoom ltac:(lia)) as D;
      pose proof (Z.mod_pos_bound i zoom ltac:(lia)).
    - assert (Q : (i - 1) / zoom = i / zoom - 1); [|lia]. symmetry. apply (Z.div_unique _ _ _ (zoom - 1)); [left; lia|nia].
    - assert (Q : (i - 1) / zoom = i / zoom); [|lia]. symmetry. apply (Z.div_unique _ _ _ (i mod zoom - 1)); [left; lia|lia]. }
  rewrite Em. destruct (negb _); unfold FONT_BPL; lia.
Qed.

Lemma lines_run ch x y attr zoom n : forall i d, 1 <= zoom -> 0 <= ch -> fits_int x (FONT_WIDTH * zoom) -> fits_int y (FONT_HEIGHT * zoom + 1) ->
  1 <= i -> i + Z.of_nat n = FONT_HEIGHT * zoom + 1 ->
  for_range n i (line_body x y attr zoom) (glyph_of ch * FONT_BPG + (i - 1) / zoom * FONT_BPL) d
  = Ok (glyph_of ch * FONT_BPG + FONT_HEIGHT * FONT_BPL)
      (wrote (concat ((fun i => picture_line (d_fb d) ch x y attr zoom i) <$> seqZ i (Z.of_nat n))) d).
Proof.
  induction n as [|n IH]; intros i d Hz Hc Hx Hy Hi Hn.
  - cbn [for_range seqZ]. cbn. rewrite wrote_nil. unfold mret, M_ret. do 2 f_equal. f_equal.
    replace (i - 1) with (FONT_HEIGHT * zoom) by lia. by rewrite Z.div_mul by lia.
  - cbn [for_range]. rewrite (bind_ok _ _ _ _ _ (line_run ch x y attr zoom i d Hz Hc Hx Hy ltac:(lia))).
    specialize (IH (i + 1) (wrote (picture_line (d_fb d) ch x y attr zoom i) d) Hz Hc Hx Hy ltac:(lia) ltac:(lia)).
    replace (i + 1 - 1) with i in IH by lia. rewrite IH, wrote_app, wrote_fb. rewrite (seqZ_cons i) by lia. cbn [fmap list_fmap concat].
    replace (Z.pred (Z.of_nat (S n))) with (Z.of_nat n) by lia. by replace (Z.succ i) with (i + 1) by lia.
Qed.

Lemma drawChar_run ch x y attr zoom d : 1 <= zoom -> 0 <= ch -> fits_int x (FONT_WIDTH * zoom) -> fits_int y (FONT_HEIGHT * zoom + 1) ->
  framebuffer_drawChar ch x y attr zoom d = Ok tt (wrote (picture (d_fb d) ch x y attr zoom) d).
Proof.
  intros Hz Hc Hx Hy. unfold framebuffer_drawChar. fold (glyph_of ch).
  pose proof (lines_run ch x y attr zoom (Z.to_nat (FONT_HEIGHT * zoom)) 1 d Hz Hc Hx Hy ltac:(lia)) as R.
  rewrite Z2Nat.id in R by (unfold FONT_HEIGHT; lia). specialize (R ltac:(lia)).
  change (1 - 1) with 0 in R. rewrite Z.div_0_l, Z.mul_0_l, Z.add_0_r in R by lia.
  by rewrite (bind_ok _ _ _ _ _ R).
Qed.

Lemma picture_length g ch x y attr zoom : 0 <= zoom -> length (picture g ch x y attr zoom) = Z.to_nat (FONT_WIDTH * zoom * (FONT_HEIGHT * zoom)).
Proof.
  intros Hz. unfold picture, FONT_HEIGHT, FONT_WIDTH. assert (L : forall l : list Z,
    length (concat ((fun i => picture_line g ch x y attr zoom i) <$> l)) = (length l * Z.to_nat (8 * zoom))%nat).
  { induction l as [|i l IH]; [done|]. cbn. rewrite length_app, IH. unfold picture_line. by rewrite length_fmap, length_seqZ. }
  rewrite L, length_seqZ. lia.
Qed.

Lemma picture_lookup g ch x y attr zoom n : 1 <= zoom -> 0 <= n < FONT_WIDTH * zoom * (FONT_HEIGHT * zoom) ->
  picture g ch x y attr zoom !! Z.to_nat n
  = Some (pixel g (x + n mod (FONT_WIDTH * zoom)) (y + (1 + n / (FONT_WIDTH * zoom)))
      (colour attr (glyph_line (glyph_of ch) ((1 + n / (FONT_WIDTH * zoom) - 1) / zoom)) (n mod (FONT_WIDTH * zoom) / zoom))).
Proof.
  intros Hz. unfold picture. set (W := FONT_WIDTH * zoom). assert (HW : 0 < W) by (unfold W, FONT_WIDTH; lia).
  generalize (FONT_HEIGHT * zoom). intros h Hn.
  assert (L : forall k a m, 0 <= m < W * Z.of_nat k ->
    concat ((fun i => picture_line g ch x y attr zoom i) <$> seqZ a (Z.of_nat k)) !! Z.to_nat m
    = picture_line g ch x y attr zoom (a + m / W) !! Z.to_nat (m mod W)).
  { induction k as [|k IH]; intros a m Hm; [lia|]. rewrite (seqZ_cons a) by lia. cbn [fmap list_fmap concat].
    replace (Z.pred (Z.of_nat (S k))) with (Z.of_nat k) by lia.
    assert (Ll : length (picture_line g ch x y attr zoom a) = Z.to_nat W) by (unfold picture_line; by rewrite length_fmap, length_seqZ).
    destruct (Z_lt_le_dec m W) as [Hlt|Hge].
    - rewrite lookup_app_l by (rewrite Ll; lia). by rewrite Z.div_small, Z.mod_small, Z.add_0_r by lia.
    - rewrite lookup_app_r by (rewrite Ll; lia). rewrite Ll. replace (Z.to_nat m - Z.to_nat W)%nat with (Z.to_nat (m - 1 * W)) by lia.
      rewrite IH by lia. replace (m - 1 * W) with (m + (-1) * W) by lia. rewrite Z.div_add, Z.mod_add by lia.
      by replace (Z.succ a + (m / W + -1)) with (a + m / W) by lia. }
  specialize (L (Z.to_nat h) 1 n). rewrite Z2Nat.id in L by nia. rewrite L by lia.
  unfold picture_line. pose proof (Z.mod_pos_bound n W HW) as Hr. rewrite list_lookup_fmap. fold W.
  rewrite lookup_seqZ_lt by lia. cbn [fmap option_fmap option_map]. by rewrite Z2Nat.id, Z.add_0_l by lia.
Qed.

(** C30. [framebuffer_drawChar] draws the glyph: the pixel [j] to the right of and [i]
    below the given point gets the foreground colour exactly when bit [j / zoom] of
    line [(i - 1) / zoom] of the character's glyph is set, else the background
    colour (characters outside the font get the first glyph); the square of side
    [8 * zoom] is written once, row by row, and nothing else happens. *)
Theorem drawChar_draws_glyph ch x y attr zoom d : 1 <= zoom -> 0 <= ch -> fits_int x (FONT_WIDTH * zoom) -> fits_int y (FONT_HEIGHT * zoom + 1) ->
  framebuffer_drawChar ch x y attr zoom d = Ok tt (wrote (picture (d_fb d) ch x y attr zoom) d)
  /\ length (picture (d_fb d) ch x y attr zoom) = Z.to_nat (FONT_WIDTH * zoom * (FONT_HEIGHT * zoom))
  /\ forall n, 0 <= n < FONT_WIDTH * zoom * (FONT_HEIGHT * zoom) ->
       let i := 1 + n / (FONT_WIDTH * zoom) in let j := n mod (FONT_WIDTH * zoom) in
       picture (d_fb d) ch x y attr zoom !! Z.to_nat n
       = Some (pixel (d_fb d) (x + j) (y + i) (colour attr (glyph_line (glyph_of ch) ((i - 1) / zoom)) (j / zoom))).
Proof.
  intros Hz Hc Hx Hy. split; [by apply drawChar_run|]. split; [by apply picture_length; lia|]. intros n Hn. cbv zeta.
  apply picture_lookup; lia.
Qed.
End framebuffer.

(** ** Asking for the frame buffer *)

Section init.
Context `{V : VideoCore}.

Lemma mbox_get_run i d : 0 <= i < 36 -> exists h log, mbox_get mbox i d = Ok (word (d_hw d) i) (with_bus h log d)
  /\ same_box (d_hw d) h.
Proof.
  intros Hi. pose proof (vc_get (d_hw d) i Hi) as L. destruct (hw_read (d_hw d) (mbox + 4 * i)) as [v h] eqn:E.
  destruct L as (Ev & R & W). eexists h, _. split; [|done]. unfold mbox_get. by rewrite (reg_read_run _ d v h E), Ev.
Qed.

Lemma mbox_fill_run l : forall i d, 0 <= i -> i + Z.of_nat (length l) <= 36 -> Forall (fun v => 0 <= v < 2 ^ 32) l ->
  exists h log, mbox_fill mbox i l d = Ok tt (with_bus h log d) /\ replies h = replies (d_hw d)
    /\ forall j, 0 <= j < 36 -> word h j = if (i <=? j) && (j <? i + Z.of_nat (length l)) then default 0 (l !! Z.to_nat (j - i)) else word (d_hw d) j.
Proof.
  induction l as [|v l IH]; intros i d Hi Hl HF.
  - exists (d_hw d), (d_log d). split; [by destruct d|]. split; [done|]. intros j Hj. change (Z.of_nat (length [])) with 0. rewrite Z.add_0_r.
    destruct (Z.leb_spec i j) as [L|L], (Z.ltb_spec j i) as [L'|L']; try done. exfalso. lia.
  - apply Forall_cons in HF as [Hv HF]. cbn [length] in *. rewrite Nat2Z.inj_succ in *.
    destruct (vc_set (d_hw d) i v ltac:(lia) Hv) as [R W]. set (h1 := hw_write _ _ _) in *.
    destruct (IH (i + 1) (with_bus h1 (d_log d ++ [BusWrite (mbox + 4 * i) v]) d)) as (h & log & E & R' & W'); [lia..|done|].
    exists h, log. split; [exact E|]. split; [by rewrite R', <- R|]. intros j Hj. rewrite W' by done. cbn [d_hw with_bus].
    destruct (Z.eq_dec j i) as [->|N].
    + rewrite (proj2 (Z.leb_gt (i + 1) i)), (proj2 (Z.leb_le i i)), (proj2 (Z.ltb_lt i (i + Z.succ _))) by lia. cbn [andb].
      rewrite W, Z.eqb_refl by lia. by rewrite Z.sub_diag.
    + destruct (Z.leb_spec (i + 1) j), (Z.leb_spec i j); try lia; cbn [andb].
      * replace (i + Z.succ (Z.of_nat (length l))) with (i + 1 + Z.of_nat (length l)) by lia.
        destruct (j <? _); [|by rewrite W, (proj2 (Z.eqb_neq _ _) N)].
        by replace (Z.to_nat (j - i)) with (S (Z.to_nat (j - (i + 1)))) by lia.
      * by rewrite W, (proj2 (Z.eqb_neq _ _) N).
Qed.

Definition request_message : Z := mailbox_message mbox MBOX_CH_PROP.
(** The answer is one the driver accepts; what it then stores. *)
Definition accepted (a : Z -> Z) : bool := (a 1 =? MBOX_RESPONSE) && (a 20 =? 32) && negb (a 28 =? 0).
Definition granted (a : Z -> Z) : fb_globals := FbGlobals (a 10) (a 11) (a 33) (a 24) (Z.lor (Z.land (a 28) 0x3FFFFFFF) VIRTUAL_BASE).

(** Reading the answer. *)
Definition read_answer : D unit :=
  p ← mbox_get mbox 28;
  _ ← mbox_set mbox 28 (Z.land p 0x3FFFFFFF);
  w ← mbox_get mbox 10;
  h ← mbox_get mbox 11;
  pt ← mbox_get mbox 33;
  rgb ← mbox_get mbox 24;
  p ← mbox_get mbox 28;
  put (with_fb (FbGlobals w h pt rgb (Z.lor p VIRTUAL_BASE))).

Lemma get_word i d h log (a : Z -> Z) : 0 <= i < 36 -> (forall j, 0 <= j < 36 -> word h j = a j) ->
  exists h' log', mbox_get mbox i (with_bus h log d) = Ok (a i) (with_bus h' log' d) /\ (forall j, 0 <= j < 36 -> word h' j = a j).
Proof.
  intros Hi W. destruct (mbox_get_run i (with_bus h log d) Hi) as (h' & log' & R & _ & W'). exists h', log'.
  cbn [d_hw with_bus] in R, W'. split; [by rewrite R, W|]. intros j Hj. by rewrite W', W.
Qed.

Lemma granted_run d (a : Z -> Z) h log : (forall j, 0 <= j < 36 -> word h j = a j) ->
  exists h' log', read_answer (with_bus h log d) = Ok tt (with_bus h' log' (with_fb (granted a) d)).
Proof.
  intros W. unfold read_answer. destruct (get_word 28 d h log a) as (h1 & log1 & R1 & W1); [lia|done|]. rewrite (bind_ok _ _ _ _ _ R1).
  set (p := Z.land (a 28) 0x3FFFFFFF). assert (Hp : 0 <= p < 2 ^ 32).
  { unfold p. change 0x3FFFFFFF with (Z.ones 30). rewrite Z.land_ones by lia. pose proof (Z.mod_pos_bound (a 28) (2 ^ 30)). lia. }
  destruct (vc_set h1 28 p ltac:(lia) Hp) as [_ W2]. set (h2 := hw_write h1 _ p) in *. set (b j := if j =? 28 then p else a j).
  assert (Wb : forall j, 0 <= j < 36 -> word h2 j = b j) by (intros j Hj; rewrite W2 by done; unfold b; destruct (j =? 28); [done|by apply W1]).
  unfold mbox_set, reg_write. unfold mbind at 1, M_bind at 1. cbn [d_hw d_log with_bus]. fold h2.
  match goal with |- context [with_bus h2 ?l _] => generalize l; intros log2 end.
  destruct (get_word 10 d h2 log2 b) as (h3 & log3 & R3 & W3); [lia|done|]. change (with_bus h2 log2 (with_bus h1 log1 d)) with (with_bus h2 log2 d).
  rewrite (bind_ok _ _ _ _ _ R3).
  destruct (get_word 11 d h3 log3 b) as (h4 & log4 & R4 & W4); [lia|done|]. rewrite (bind_ok _ _ _ _ _ R4).
  destruct (get_word 33 d h4 log4 b) as (h5 & log5 & R5 & W5); [lia|done|]. rewrite (bind_ok _ _ _ _ _ R5).
  destruct (get_word 24 d h5 log5 b) as (h6 & log6 & R6 & W6); [lia|done|]. rewrite (bind_ok _ _ _ _ _ R6).
  destruct (get_word 28 d h6 log6 b) as (h7 & log7 & R7 & W7); [lia|done|]. rewrite (bind_ok _ _ _ _ _ R7).
  exists h7, log7. reflexivity.
Qed.

Lemma framebuffer_init_run d : few_replies (d_hw d) -> request_message ∉ replies (d_hw d) ->
  exists ws h log, (forall i, 0 <= i < 35 -> ws i = default 0 (fb_request !! Z.to_nat i))
    /\ let a := answer request_message ws in
       framebuffer_init mbox d = Ok tt (with_bus h log (if accepted a then with_fb (granted a) d else d)).
Proof.
  intros Hl Hr. destruct (mbox_fill_run fb_request 0 d) as (h1 & log1 & R1 & B1 & W1); [lia|cbn; lia|by apply (bool_decide_unpack _); vm_compute|].
  set (d1 := with_bus h1 log1 d) in *. destruct (mailbox_call_run (mbox := mbox) d1 MBOX_CH_PROP) as (h2 & log2 & R2 & _ & W2).
  { unfold few_replies. cbn [d1 d_hw with_bus]. by rewrite B1. }
  { cbn [d1 d_hw with_bus]. by rewrite B1. }
  set (a := answer request_message (word h1)). set (d2 := with_bus h2 log2 d1) in *. fold request_message in R2, W2. cbn [d1 d_hw with_bus] in R2, W2. fold a in R2, W2.
  exists (word h1). unfold framebuffer_init. rewrite (bind_ok _ _ _ _ _ R1), (bind_ok _ _ _ _ _ R2).
  assert (Wr : forall i, 0 <= i < 35 -> word h1 i = default 0 (fb_request !! Z.to_nat i)).
  { intros i Hi. rewrite W1 by lia. rewrite (proj2 (Z.leb_le _ _)), (proj2 (Z.ltb_lt _ _)) by (cbn; lia). cbn [andb]. by rewrite Z.sub_0_r. }
  fold request_message a. cbv zeta. unfold accepted.
  destruct (a 1 =? MBOX_RESPONSE) eqn:E1; cbn [andb]; [|by exists h2, log2].
  change (1 =? 0) with false. cbv iota. destruct (get_word 20 d h2 log2 a ltac:(lia) W2) as (h3 & log3 & R3 & W3). change d2 with (with_bus h2 log2 d).
  rewrite (bind_ok _ _ _ _ _ R3). destruct (a 20 =? 32) eqn:E2; cbn [andb negb]; [|by exists h3, log3].
  destruct (get_word 28 d h3 log3 a ltac:(lia) W3) as (h4 & log4 & R4 & W4). rewrite (bind_ok _ _ _ _ _ R4).
  destruct (a 28 =? 0) eqn:E3; cbn [negb]; [by exists h4, log4|].
  destruct (granted_run d a h4 log4 W4) as (h & log & R5).
  exists h, log. split; [done|exact R5].
Qed.
End init.

(** ** Witnesses *)

Definition gpu_reply : list (Z * Z) :=
  [(1, MBOX_RESPONSE); (10, 1920); (11, 1080); (20, 32); (24, 1); (28, 0xFE8FA000); (33, 7680)].
Definition boot_device (l : list (Z * Z)) : dstate (gpu_hardware l) :=
  DState (H := gpu_hardware l) (gpu_idle [] []) [] (FbGlobals 0 0 0 0 0) (ShellGlobals 15 15).


Lemma drawChar_draws_glyph_witness :
  framebuffer_drawChar (H := gpu_hardware gpu_reply) 65 15 15 0x0F 2 (boot_device gpu_reply)
  = Ok tt (wrote (picture (FbGlobals 0 0 0 0 0) 65 15 15 0x0F 2) (boot_device gpu_reply)).
Proof.
  by refine (proj1 (drawChar_draws_glyph 65 15 15 0x0F 2 (boot_device gpu_reply) _ _ _ _)); unfold fits_int, FONT_WIDTH, FONT_HEIGHT; lia.
Defined.
