(* ===== verification/Shell.v ===== *)
(** * The shell on the frame buffer (src/utils/shell.c)

    Characters are drawn at a cursor that moves right, starts a new line at the
    right edge and stops at the bottom.  The reference is a terminal of
    [COLUMNS] by [ROWS] cells. *)

From S2P Require Export Framebuffer.

Definition INITIAL_X : Z := 15.
Definition INITIAL_Y : Z := 15.
Definition SHELL_ZOOM_LEVEL : Z := 2.
Definition CHAR_WIDTH : Z := 8.
Definition CHAR_HEIGHT : Z := 8.
Definition SCALED_CHAR_WIDTH : Z := CHAR_WIDTH * SHELL_ZOOM_LEVEL.
Definition SCALED_CHAR_HEIGHT : Z := CHAR_HEIGHT * SHELL_ZOOM_LEVEL.
Definition SCREEN_WIDTH : Z := 1920.
Definition SCREEN_HEIGHT : Z := 1080.
(** The static cursor at start. *)
Definition shell_start : shell_globals := ShellGlobals INITIAL_X INITIAL_Y.

Section shell.
Context `{H : Hardware}.

Definition set_cursor (x y : Z) : D unit := put (with_shell (ShellGlobals (u16 x) (u16 y))).

Definition kernel_writeChar (ch : Z) : D unit :=
  c ← get d_shell;
  _ ← when (SCREEN_WIDTH - 1 <? u32 (cursorX c + SCALED_CHAR_WIDTH))
        (set_cursor INITIAL_X (cursorY c + SCALED_CHAR_HEIGHT));
  c ← get d_shell;
  if SCREEN_HEIGHT - 1 <? u32 (cursorY c + SCALED_CHAR_HEIGHT) then mret tt
  else if ch =? 10 then set_cursor INITIAL_X (cursorY c + SCALED_CHAR_HEIGHT)
  else if ch =? 13 then set_cursor INITIAL_X (cursorY c)
  else
    _ ← framebuffer_drawChar ch (cursorX c) (cursorY c) 0x0F SHELL_ZOOM_LEVEL;
    c ← get d_shell;
    set_cursor (cursorX c + SCALED_CHAR_WIDTH) (cursorY c).

(** [s] is the text with its terminator. *)
Definition writeStr_body (s : list Z) (i : Z) : D (Z + unit) :=
  c ← of_option OutOfBounds (s !! Z.to_nat i);
  if c =? 0 then mret (inr tt) else _ ← kernel_writeChar c; mret (inl (u32 (i + 1))).
Definition kernel_writeStr (s : list Z) : D unit := loop (writeStr_body s) 0.

(** ** A terminal of cells *)

Definition COLUMNS : Z := 119.
Definition ROWS : Z := 66.
(** Row and column of the next character; column [COLUMNS] is past the edge. *)
Definition cell : Type := Z * Z.
Definition cell_ok (p : cell) : Prop := 0 <= p.1 <= ROWS /\ 0 <= p.2 <= COLUMNS.
Definition cell_cursor (p : cell) : shell_globals := ShellGlobals (INITIAL_X + 16 * p.2) (INITIAL_Y + 16 * p.1).
Definition wrap_cell (p : cell) : cell := if p.2 =? COLUMNS then (p.1 + 1, 0) else p.

(** Where the character goes, and the cell after it. *)
Definition type_char (p : cell) (ch : Z) : option cell * cell :=
  let '(r, c) := wrap_cell p in
  if ROWS <=? r then (None, (r, c))
  else if ch =? 10 then (None, (r + 1, 0))
  else if ch =? 13 then (None, (r, 0))
  else (Some (r, c), (r, c + 1)).
Definition draw_cell (g : fb_globals) (ch : Z) (p : cell) : list event :=
  picture g ch (INITIAL_X + 16 * p.2) (INITIAL_Y + 16 * p.1) 0x0F 2.
Definition typed (g : fb_globals) (ch : Z) (o : option cell) : list event :=
  match o with Some q => draw_cell g ch q | None => [] end.
Fixpoint type_text (g : fb_globals) (p : cell) (s : list Z) : list event * cell :=
  match s with
  | [] => ([], p)
  | ch :: s =>
      let '(o, p1) := type_char p ch in
      let '(l, p2) := type_text g p1 s in (typed g ch o ++ l, p2)
  end.
(** [d] with the cursor at cell [p]. *)
Definition at_cell (p : cell) (d : dstate H) : dstate H := with_shell (cell_cursor p) d.

(** Past the last row the cursor stays at the row's start. *)
Definition cell_stays (p : cell) : Prop := cell_ok p /\ (p.1 = ROWS -> p.2 < COLUMNS).

Lemma type_char_stays p ch : cell_stays p -> cell_stays (type_char p ch).2 /\
  (forall q, (type_char p ch).1 = Some q -> 0 <= q.1 < ROWS /\ 0 <= q.2 < COLUMNS).
Proof.
  destruct p as [r c]. unfold cell_stays, cell_ok, type_char, wrap_cell. cbn [fst snd]. intros [[Hr Hc] Hs].
  unfold COLUMNS, ROWS in *. destruct (Z.eqb_spec c 119) as [E|E].
  - destruct (Z.leb_spec 66 (r + 1)), (ch =? 10), (ch =? 13); cbn [fst snd]; (split; [lia|]); intros q [= <-]; cbn [fst snd]; lia.
  - destruct (Z.leb_spec 66 r), (ch =? 10), (ch =? 13); cbn [fst snd]; (split; [lia|]); intros q [= <-]; cbn [fst snd]; lia.
Qed.

Lemma wrote_shell l g d : wrote l (with_shell g d) = with_shell g (wrote l d).
Proof. done. Qed.
Lemma with_shell_twice g g' (d : dstate H) : with_shell g (with_shell g' d) = with_shell g d.
Proof. done. Qed.

(** One character at a cell inside the screen. *)
Lemma writeChar_inside p ch d : 0 <= ch -> 0 <= p.1 <= ROWS -> 0 <= p.2 < COLUMNS ->
  kernel_writeChar ch (at_cell p d) = Ok tt (at_cell (type_char p ch).2 (wrote (typed (d_fb d) ch (type_char p ch).1) d)).
Proof.
  destruct p as [r c]. cbn [fst snd]. unfold COLUMNS, ROWS. intros Hch Hr Hc.
  unfold kernel_writeChar, at_cell, set_cursor, cell_cursor, type_char, wrap_cell, INITIAL_X, INITIAL_Y, COLUMNS, ROWS,
    SCREEN_WIDTH, SCREEN_HEIGHT, SCALED_CHAR_WIDTH, SCALED_CHAR_HEIGHT, CHAR_WIDTH, CHAR_HEIGHT, SHELL_ZOOM_LEVEL. cbn [fst snd].
  rewrite bind_get. cbn [d_shell with_shell cursorX cursorY]. rewrite !(Z.mul_comm 8 2). change (2 * 8) with 16.
  rewrite !u32_small by lia. rewrite (proj2 (Z.ltb_ge _ _)) by lia. cbn [when]. rewrite bind_ret, bind_get.
  cbn [d_shell with_shell cursorX cursorY]. rewrite u32_small by lia.
  rewrite (proj2 (Z.eqb_neq c 119)) by lia. destruct (Z.leb_spec 66 r) as [L|L].
  - rewrite (proj2 (Z.ltb_lt _ _)) by lia. cbn [typed fst snd]. by rewrite wrote_nil.
  - rewrite (proj2 (Z.ltb_ge _ _)) by lia. destruct (ch =? 10) eqn:E10; [|destruct (ch =? 13) eqn:E13].
    + cbn [typed fst snd]. rewrite wrote_nil, !u16_small by lia. by replace (15 + 16 * (r + 1)) with (15 + 16 * r + 16) by lia.
    + cbn [typed fst snd]. rewrite wrote_nil, !u16_small by lia. done.
    + pose proof (drawChar_run ch (15 + 16 * c) (15 + 16 * r) 0x0F 2 (at_cell (r, c) d)) as R. unfold at_cell in R.
      cbn [fst snd typed]. rewrite (bind_ok _ _ _ _ _ (R ltac:(lia) Hch ltac:(unfold fits_int, FONT_WIDTH; lia) ltac:(unfold fits_int, FONT_HEIGHT; lia))).
      rewrite bind_get. cbn [d_shell wrote with_bus with_shell cell_cursor cursorX cursorY fst snd].
      change INITIAL_X with 15. change INITIAL_Y with 15. rewrite !u16_small by lia. unfold put. rewrite wrote_shell, with_shell_twice.
      by replace (15 + 16 * c + 16) with (15 + 16 * (c + 1)) by lia.
Qed.

(** Past the right edge the character starts the next line. *)
Lemma writeChar_run p ch d : 0 <= ch -> cell_stays p ->
  kernel_writeChar ch (at_cell p d) = Ok tt (at_cell (type_char p ch).2 (wrote (typed (d_fb d) ch (type_char p ch).1) d)).
Proof.
  intros Hch [[Hr Hc] Hs]. destruct (Z.eq_dec p.2 COLUMNS) as [E|N]; [|apply writeChar_inside; [done..|lia]].
  assert (W : type_char p ch = type_char (p.1 + 1, 0) ch) by (unfold type_char, wrap_cell; by rewrite E).
  rewrite W, <- writeChar_inside by (cbn [fst snd]; unfold COLUMNS, ROWS in *; lia).
  destruct p as [r c]. cbn [fst snd] in *. subst c. unfold COLUMNS, ROWS in *.
  unfold kernel_writeChar, at_cell, set_cursor, cell_cursor. rewrite !bind_get. cbn [d_shell with_shell cursorX cursorY fst snd].
  change INITIAL_X with 15. change INITIAL_Y with 15. change SCALED_CHAR_WIDTH with 16. change SCALED_CHAR_HEIGHT with 16. change SCREEN_WIDTH with 1920.
  rewrite (proj2 (Z.ltb_lt (1920 - 1) (u32 (15 + 16 * 119 + 16)))), (proj2 (Z.ltb_ge (1920 - 1) (u32 (15 + 16 * 0 + 16)))) by (rewrite u32_small; lia).
  cbn [when]. rewrite bind_put, bind_ret. rewrite !u16_small by lia. by replace (15 + 16 * (r + 1)) with (15 + 16 * r + 16) by lia.
Qed.

Definition is_text (s : list Z) : Prop := Forall (fun ch => 0 < ch < 256) s.

Lemma writeStr_loops full s : forall pre p d, full = pre ++ s ++ [0] -> Z.of_nat (length full) < 2 ^ 32 -> is_text s -> cell_stays p ->
  loops (writeStr_body full) (S (length s)) (Z.of_nat (length pre)) (at_cell p d) tt
    (at_cell (type_text (d_fb d) p s).2 (wrote (type_text (d_fb d) p s).1 d)).
Proof.
  induction s as [|ch s IH]; intros pre p d Ef Hl HT Hp; cbn [app] in Ef.
  - apply loops_done. unfold writeStr_body. rewrite Nat2Z.id, Ef, list_lookup_middle by done. cbn. by rewrite wrote_nil.
  - apply Forall_cons in HT as [Hch HT]. cbn [length type_text].
    destruct (type_char_stays p ch Hp) as [Hp1 _]. pose proof (writeChar_run p ch d ltac:(lia) Hp) as R.
    destruct (type_char p ch) as [o p1]. cbn [fst snd] in *.
    eapply loops_step.
    + unfold writeStr_body. rewrite Nat2Z.id, Ef, list_lookup_middle by done. cbn [of_option]. rewrite bind_ret.
      rewrite (proj2 (Z.eqb_neq ch 0)) by lia. rewrite (bind_ok _ _ _ _ _ R). reflexivity.
    + assert (El : Z.of_nat (length full) = Z.of_nat (length pre) + Z.of_nat (length s) + 2) by (rewrite Ef, length_app; cbn [length]; rewrite length_app; cbn [length]; lia).
      rewrite u32_small by lia. specialize (IH (pre ++ [ch]) p1 (wrote (typed (d_fb d) ch o) d)).
      rewrite length_app in IH. cbn [length] in IH. replace (Z.of_nat (length pre + 1)) with (Z.of_nat (length pre) + 1) in IH by lia.
      rewrite wrote_fb, wrote_app in IH. destruct (type_text (d_fb d) p1 s) as [l p2]. cbn [fst snd] in *. apply IH; [|done..].
      by rewrite Ef, <- app_assoc.
Qed.

(** The string as its characters typed on the terminal. *)
Lemma writeStr_run s p d : Z.of_nat (length s) < 2 ^ 32 - 1 -> is_text s -> cell_stays p ->
  kernel_writeStr (s ++ [0]) (at_cell p d) = Ok tt (at_cell (type_text (d_fb d) p s).2 (wrote (type_text (d_fb d) p s).1 d)).
Proof.
  intros Hl HT Hp. unfold kernel_writeStr. apply (loops_loop _ (S (length s))); [|lia].
  apply (writeStr_loops (s ++ [0]) s [] p d); [done| |done|done]. rewrite length_app. cbn [length]. lia.
Qed.

(** ** Inside the screen *)

(** A 32-bit write to a pixel of the 1920x1080 buffer. *)
Definition on_screen (g : fb_globals) (e : event) : Prop :=
  exists px py v, 0 <= px < SCREEN_WIDTH /\ 0 <= py < SCREEN_HEIGHT /\ e = BusWrite (fb g + py * pitch g + px * 4) v.
(** The buffer [framebuffer_init] asks for, as granted. *)
Definition screen_buffer (g : fb_globals) : Prop :=
  SCREEN_WIDTH * 4 <= pitch g /\ SCREEN_HEIGHT * pitch g < 2 ^ 31 /\ 0 <= fb g /\ fb g + SCREEN_HEIGHT * pitch g <= 2 ^ 64.

Lemma draw_cell_on_screen g ch q : screen_buffer g -> 0 <= q.1 < ROWS -> 0 <= q.2 < COLUMNS -> Forall (on_screen g) (draw_cell g ch q).
Proof.
  unfold screen_buffer, SCREEN_WIDTH, SCREEN_HEIGHT, ROWS, COLUMNS. intros (Hp & Hp' & Hf & Hf') Hr Hc.
  unfold draw_cell, picture, picture_line, FONT_HEIGHT, FONT_WIDTH, INITIAL_X, INITIAL_Y. apply Forall_concat, Forall_fmap, Forall_forall.
  intros i Hi%elem_of_seqZ. apply Forall_fmap, Forall_forall. intros j Hj%elem_of_seqZ. cbn [compose].
  set (px := 15 + 16 * q.2 + j). set (py := 15 + 16 * q.1 + i). eexists px, py, _. unfold SCREEN_WIDTH, SCREEN_HEIGHT.
  split; [unfold px; lia|]. split; [unfold py; lia|]. unfold pixel, pixel_offset. f_equal.
  assert (Hpx : 0 <= px < 1920) by (unfold px; lia). assert (Hpy : 0 <= py < 1080) by (unfold py; lia).
  assert (B : py * pitch g + px * 4 < 1080 * pitch g) by nia. assert (B' : 0 <= py * pitch g) by nia.
  unfold s32. rewrite swrap_small by lia. rewrite u64_small by lia. lia.
Qed.

Lemma type_text_on_screen g s : screen_buffer g -> forall p, cell_stays p ->
  Forall (on_screen g) (type_text g p s).1 /\ cell_stays (type_text g p s).2.
Proof.
  intros Hg. induction s as [|ch s IH]; intros p Hp; [by split; [constructor|]|]. cbn [type_text].
  destruct (type_char_stays p ch Hp) as [Hp1 Ho]. destruct (type_char p ch) as [o p1]. cbn [fst snd] in *.
  destruct (IH p1 Hp1) as [I1 I2]. destruct (type_text g p1 s) as [l p2]. cbn [fst snd] in *. split; [|done].
  apply Forall_app. split; [|done]. destruct o as [q|]; [|constructor]. destruct (Ho q eq_refl). by apply draw_cell_on_screen.
Qed.

(** [kernel_writeStr] prints a string of any bytes, from any cursor it can have
    reached, as the terminal of cells types it, and returns; every access it makes
    is a write to a pixel inside the 1920x1080 buffer, and the cursor stays one
    from which this holds again. *)
Theorem shell_types_on_screen s p d : Z.of_nat (length s) < 2 ^ 32 - 1 -> is_text s -> cell_stays p -> screen_buffer (d_fb d) ->
  let '(l, p') := type_text (d_fb d) p s in
  kernel_writeStr (s ++ [0]) (at_cell p d) = Ok tt (at_cell p' (wrote l d))
  /\ Forall (on_screen (d_fb d)) l /\ cell_stays p'.
Proof.
  intros Hl HT Hp Hg. pose proof (writeStr_run s p d Hl HT Hp) as R. pose proof (type_text_on_screen _ s Hg p Hp) as F.
  by destruct (type_text (d_fb d) p s) as [l p'].
Qed.

(** ** Plain text *)

Definition is_plain (ch : Z) : Prop := 0 < ch < 256 /\ ch <> 10 /\ ch <> 13.
(** The cell of the cursor after [n] characters: a full row is left at the next. *)
Definition cell_after (n : Z) : cell :=
  if n =? 0 then (0, 0) else if n <=? ROWS * COLUMNS then ((n - 1) / COLUMNS, (n - 1) mod COLUMNS + 1) else (ROWS, 0).

Lemma cell_after_stays n : 0 <= n -> cell_stays (cell_after n).
Proof.
  intros Hn. unfold cell_stays, cell_ok, cell_after, ROWS, COLUMNS. destruct (Z.eqb_spec n 0) as [E|E]; [cbn; lia|].
  destruct (Z.leb_spec n (66 * 119)); cbn [fst snd]; [|lia]. Z.to_euclidean_division_equations. lia.
Qed.

Lemma type_char_after n ch : 0 <= n -> is_plain ch ->
  type_char (cell_after n) ch = ((if n <? ROWS * COLUMNS then Some (n / COLUMNS, n mod COLUMNS) else None), cell_after (n + 1)).
Proof.
  intros Hn (Hc & N10 & N13). unfold type_char. rewrite (proj2 (Z.eqb_neq ch 10) N10), (proj2 (Z.eqb_neq ch 13) N13).
  assert (W : wrap_cell (cell_after n) = if n <=? ROWS * COLUMNS then (n / COLUMNS, n mod COLUMNS) else (ROWS, 0)).
  { unfold wrap_cell, cell_after, ROWS, COLUMNS. destruct (Z.eqb_spec n 0) as [->|E]; [done|].
    destruct (Z.leb_spec n (66 * 119)); cbn [fst snd]; [|done].
    destruct (Z.eqb_spec ((n - 1) mod 119 + 1) 119); f_equal; Z.to_euclidean_division_equations; lia. }
  rewrite W. unfold cell_after. rewrite (proj2 (Z.eqb_neq (n + 1) 0)) by lia. unfold ROWS, COLUMNS. replace (n + 1 - 1) with n by lia.
  destruct (Z.ltb_spec n (66 * 119)), (Z.leb_spec n (66 * 119)), (Z.leb_spec (n + 1) (66 * 119)); try lia.
  - by rewrite (proj2 (Z.leb_gt 66 (n / 119))) by (Z.to_euclidean_division_equations; lia).
  - by replace n with (66 * 119) by lia.
  - done.
Qed.

Lemma type_plain g s : Forall is_plain s -> forall n, 0 <= n ->
  type_text g (cell_after n) s
  = (concat (zip_with (fun k ch => draw_cell g ch (k / COLUMNS, k mod COLUMNS)) (seqZ n (ROWS * COLUMNS - n)) s), cell_after (n + Z.of_nat (length s))).
Proof.
  induction 1 as [|ch s Hc Hs IH]; intros n Hn; cbn [type_text length].
  - rewrite Z.add_0_r. by destruct (seqZ _ _).
  - rewrite type_char_after by done. rewrite IH by lia. replace (n + 1 + Z.of_nat (length s)) with (n + Z.of_nat (S (length s))) by lia.
    f_equal. destruct (Z.ltb_spec n (ROWS * COLUMNS)) as [L|L].
    + rewrite (seqZ_cons n) by lia. cbn [zip_with concat typed]. unfold Z.succ. by replace (Z.pred (ROWS * COLUMNS - n)) with (ROWS * COLUMNS - (n + 1)) by lia.
    + by rewrite !seqZ_nil by lia.
Qed.

(** C29. Text without line breaks written at start is laid out as a grid: character
    [k] is drawn at ([15 + 16 * (k mod 119)], [15 + 16 * (k / 119)]) for [k] below
    119 * 66, the characters after that are dropped. *)
Theorem shell_lays_out_text s d : Z.of_nat (length s) < 2 ^ 32 - 1 -> Forall is_plain s -> d_shell d = shell_start ->
  kernel_writeStr (s ++ [0]) d
  = Ok tt (with_shell (cell_cursor (cell_after (Z.of_nat (length s))))
      (wrote (concat (zip_with (fun k ch => picture (d_fb d) ch (15 + 16 * (k mod 119)) (15 + 16 * (k / 119)) 0x0F 2) (seqZ 0 (119 * 66)) s)) d)).
Proof.
  intros Hl HP Hs. assert (HT : is_text s) by (eapply Forall_impl; [exact HP|]; by intros ch [Hc _]).
  pose proof (writeStr_run s (0, 0) d Hl HT (cell_after_stays 0 ltac:(lia))) as R. change (0, 0) with (cell_after 0) in R at 2 3.
  rewrite (type_plain (d_fb d) s HP 0 ltac:(lia)) in R. cbn [fst snd] in R.
  replace (at_cell (0, 0) d) with d in R by (destruct d as [h l g c]; cbn in Hs; by rewrite Hs). exact R.
Qed.
End shell.

(** ** Witnesses *)

Definition screen : fb_globals := FbGlobals 1920 1080 7680 1 0xffff00003E8FA000.
Definition screen_device : dstate (gpu_hardware []) := DState (H := gpu_hardware []) (gpu_idle [] []) [] screen shell_start.

Lemma shell_types_on_screen_witness :
  let '(l, p') := type_text screen (65, 118) (str "ok" ++ [10]) in
  kernel_writeStr (H := gpu_hardware []) ((str "ok" ++ [10]) ++ [0]) (at_cell (65, 118) screen_device) = Ok tt (at_cell p' (wrote l screen_device))
  /\ Forall (on_screen screen) l /\ cell_stays p'.
Proof.
  apply (shell_types_on_screen (H := gpu_hardware []) (str "ok" ++ [10]) (65, 118) screen_device).
  - cbn. lia.
  - unfold is_text. cbn. repeat constructor; lia.
  - unfold cell_stays, cell_ok, ROWS, COLUMNS. cbn. lia.
  - unfold screen_buffer, SCREEN_WIDTH, SCREEN_HEIGHT. cbn. lia.
Defined.

Lemma shell_lays_out_text_witness :
  kernel_writeStr (H := gpu_hardware []) (str "hi" ++ [0]) screen_device
  = Ok tt (with_shell (ShellGlobals 47 15) (wrote (picture screen 104 15 15 0x0F 2 ++ picture screen 105 31 15 0x0F 2 ++ []) screen_device)).
Proof.
  pose proof (shell_lays_out_text (H := gpu_hardware []) (str "hi") screen_device) as R. cbn [str length chr] in R.
  unfold is_plain in R. refine (R _ _ _); [cbn; lia|cbn; repeat constructor; lia|reflexivity].
Defined.
