(* ===== verification/Timer.v ===== *)
(** * One-shot software timers (src/lib/software_timer.c)

    Five slots, each a finish time in ticks and the task to wake.  [check_timers]
    runs at the start of every scheduling decision, [increment_tick] in the timer
    interrupt; [register_one_hit], which blocks the caller, is in Process.v,
    after the scheduler it calls. *)

From S2P Require Export Kstate.

Definition SOFTWARE_TIMER_PRESCALER : Z := 100.
Definition SOFTWARE_TIMER_MS_TO_TICKS (t : Z) : Z := t / SOFTWARE_TIMER_PRESCALER.

(** [timer_arr[i]], an array of [N_TIMERS] entries. *)
Definition timer_get (i : Z) : K onehit_timer_t := fun s =>
  match timer_arr (k_timers s) !! Z.to_nat i with
  | Some t => if 0 <=? i then Ok t s else Err OutOfBounds
  | None => Err OutOfBounds
  end.
Definition timer_set (i : Z) (t : onehit_timer_t) : K unit := fun s =>
  if (0 <=? i) && (i <? Z.of_nat (length (timer_arr (k_timers s))))
  then Ok tt (with_timers (TimerGlobals (<[Z.to_nat i := t]> (timer_arr (k_timers s))) (current_tick (k_timers s))) s)
  else Err OutOfBounds.

Definition increment_tick : K unit :=
  put (fun s => with_timers (TimerGlobals (timer_arr (k_timers s)) (u64 (current_tick (k_timers s) + 1))) s).

Definition check_timer (i : Z) : K unit :=
  t ← timer_get i;
  if negb (task_ptr t =? 0) then
    now ← get (fun s => current_tick (k_timers s));
    if finish_time t <=? now then
      _ ← modify_task (task_ptr t) (set_state TASK_STATE_RUNNING);
      _ ← timer_set i (OneHit (finish_time t) 0);
      timer_set i (OneHit 0 0)
    else mret tt
  else mret tt.
Definition check_timers : K unit := for_range 5 0 (fun i _ => check_timer i) tt.

(** ** What a check does to the timers and the tasks *)

Definition expired (now : Z) (t : onehit_timer_t) : bool := negb (task_ptr t =? 0) && (finish_time t <=? now).
Definition clear_expired (now : Z) (t : onehit_timer_t) : onehit_timer_t :=
  if expired now t then OneHit 0 0 else t.
(** Some expired timer names the task at [p]. *)
Definition woken (now : Z) (l : list onehit_timer_t) (p : Z) : bool :=
  existsb (fun t => expired now t && (task_ptr t =? p)) l.
Definition wake (now : Z) (l : list onehit_timer_t) (p : Z) (t : task_struct) : task_struct :=
  if woken now l p then set_state TASK_STATE_RUNNING t else t.

(** Every armed timer names a task. *)
Definition timers_wf (s : kstate) : Prop :=
  length (timer_arr (k_timers s)) = 5%nat
  /\ Forall (fun t => task_ptr t <> 0 -> is_Some (k_tasks s !! task_ptr t)) (timer_arr (k_timers s)).

Definition after_check (s : kstate) : kstate :=
  let now := current_tick (k_timers s) in
  let l := timer_arr (k_timers s) in
  with_timers (TimerGlobals (clear_expired now <$> l) now)
    (with_tasks (map_imap (fun p t => Some (wake now l p t)) (k_tasks s)) s).

Lemma after_check_task s p :
  k_tasks (after_check s) !! p
  = wake (current_tick (k_timers s)) (timer_arr (k_timers s)) p <$> k_tasks s !! p.
Proof. cbn. rewrite map_lookup_imap. by destruct (k_tasks s !! p). Qed.

Lemma woken_snoc now l t p : woken now (l ++ [t]) p = woken now l p || (expired now t && (task_ptr t =? p)).
Proof. unfold woken. rewrite existsb_app. cbn. by rewrite orb_false_r. Qed.

(** One slot, split at index [length done]: the slots before it were cleared. *)
Lemma check_timer_run s now pre t post :
  let l := pre ++ t :: post in
  current_tick (k_timers s) = now ->
  (task_ptr t <> 0 -> is_Some (k_tasks s !! task_ptr t)) ->
  timer_arr (k_timers s) = (clear_expired now <$> pre) ++ t :: post ->
  check_timer (Z.of_nat (length pre)) s
  = Ok tt (with_timers (TimerGlobals ((clear_expired now <$> pre) ++ clear_expired now t :: post) now)
      (with_tasks (if expired now t then alter (set_state TASK_STATE_RUNNING) (task_ptr t) (k_tasks s) else k_tasks s) s)).
Proof.
  intros l Hnow Ht Harr. unfold check_timer.
  assert (G : timer_get (Z.of_nat (length pre)) s = Ok t s).
  { unfold timer_get. rewrite Nat2Z.id, Harr, list_lookup_middle by (by rewrite length_fmap). by decb. }
  rewrite (bind_ok _ _ _ _ _ G). unfold expired, clear_expired, expired.
  assert (Same : s = with_timers (TimerGlobals ((clear_expired now <$> pre) ++ t :: post) now) (with_tasks (k_tasks s) s)).
  { rewrite <- Harr, <- Hnow. by destruct s as [? ? ? ? ? ? [] ? ? ?]. }
  destruct (Z.eqb_spec (task_ptr t) 0) as [E0|N0]; cbn [negb andb]; [by f_equal|].
  rewrite bind_get, Hnow. destruct (finish_time t <=? now); [|by f_equal].
  destruct (Ht N0) as [tk Etk]. rewrite (bind_ok _ _ _ _ _ (modify_task_ok _ _ _ _ Etk)).
  assert (Hlen : (Z.of_nat (length pre) <? Z.of_nat (length ((clear_expired now <$> pre) ++ t :: post))) = true).
  { apply Z.ltb_lt, inj_lt. rewrite length_app, length_fmap. cbn [length]. lia. }
  assert (Hins : forall x y, <[length pre := y]> ((clear_expired now <$> pre) ++ x :: post)
            = (clear_expired now <$> pre) ++ y :: post).
  { intros x y. apply list_insert_middle. by rewrite length_fmap. }
  unfold timer_set, mbind, M_bind. cbn [k_timers with_tasks timer_arr current_tick]. rewrite Harr.
  rewrite Hlen, (proj2 (Z.leb_le _ _) (Nat2Z.is_nonneg _)). cbn [andb].
  rewrite Nat2Z.id, Hins. cbn [k_timers with_timers timer_arr current_tick].
  rewrite !length_app in *. cbn [length] in *. rewrite Hlen.
  rewrite Hins, Hnow. f_equal. unfold with_timers, with_tasks. cbn. f_equal.
  symmetry. apply map_eq. intros q. destruct (Z.eq_dec q (task_ptr t)) as [->|].
  - by rewrite lookup_alter_eq, lookup_insert_eq, Etk.
  - by rewrite lookup_alter_ne, lookup_insert_ne by done.
Qed.

Lemma check_timers_run s : timers_wf s -> check_timers s = Ok tt (after_check s).
Proof.
  intros [Hlen Hwf]. set (now := current_tick (k_timers s)). set (l := timer_arr (k_timers s)) in *.
  set (I := fun (i : Z) (_ : unit) (s' : kstate) =>
    s' = with_timers (TimerGlobals ((clear_expired now <$> take (Z.to_nat i) l) ++ drop (Z.to_nat i) l) now)
           (with_tasks (map_imap (fun p t => Some (wake now (take (Z.to_nat i) l) p t)) (k_tasks s)) s)).
  destruct (for_range_run I (fun i _ => check_timer i) 5 0 tt s) as ([] & s' & R & HI).
  - unfold I. cbn. rewrite drop_0. destruct s as [? ? ? tk ? ? [] ? ? ?]. unfold with_timers, with_tasks. cbn.
    f_equal. apply map_eq. intros p. rewrite map_lookup_imap. by destruct (tk !! p).
  - intros j [] s1 Hj ->. exists tt. 
    destruct (lookup_lt_is_Some_2 l (Z.to_nat j)) as [t Et]; [lia|].
    assert (Hsplit : l = take (Z.to_nat j) l ++ t :: drop (S (Z.to_nat j)) l) by (by rewrite take_drop_middle).
    assert (Hlj : length (take (Z.to_nat j) l) = Z.to_nat j) by (rewrite length_take; lia).
    rewrite Forall_lookup in Hwf. specialize (Hwf _ _ Et).
    eexists. split.
    + replace j with (Z.of_nat (length (take (Z.to_nat j) l))) at 1 by lia.
      apply (check_timer_run _ now _ t (drop (S (Z.to_nat j)) l)); [done| |].
      * intros Hp. cbn. rewrite map_lookup_imap. destruct (Hwf Hp) as [tk ->]. cbn. eauto.
      * cbn. by rewrite (drop_S l t (Z.to_nat j) Et).
    + unfold I. replace (Z.to_nat (j + 1)) with (S (Z.to_nat j)) by lia.
      rewrite (take_S_r l _ t Et), fmap_app, <- app_assoc. cbn.
      unfold with_timers, with_tasks. cbn. f_equal. apply map_eq. intros p.
      rewrite map_lookup_imap. unfold wake. rewrite woken_snoc. destruct (expired now t) eqn:Ex; cbn [andb].
      * destruct (Z.eqb_spec (task_ptr t) p) as [->|].
        -- rewrite lookup_alter_eq, map_lookup_imap. rewrite orb_true_r.
           destruct (k_tasks s !! p); [|done]. cbn. by destruct (woken _ _ p).
        -- rewrite lookup_alter_ne, map_lookup_imap by done. by rewrite orb_false_r.
      * rewrite map_lookup_imap. by rewrite orb_false_r.
  - unfold check_timers. rewrite R, HI. unfold after_check. cbn [Z.add].
    change (Z.to_nat (0 + Z.of_nat 5)) with 5%nat. fold l now. rewrite take_ge, drop_ge by lia. by rewrite app_nil_r.
Qed.

(** ** How long a timer runs *)

(** A timer interrupt and the check of the decision that follows it, [n] times. *)
Definition tick_and_check : K unit := _ ← increment_tick; check_timers.
Fixpoint checked_ticks (n : nat) : K unit := match n with O => mret tt | S n => _ ← tick_and_check; checked_ticks n end.

(** No slot but [i] names the task at [p]. *)
Definition only_slot (l : list onehit_timer_t) (i : nat) (p : Z) : Prop :=
  forall j x, l !! j = Some x -> j <> i -> task_ptr x <> p.

Lemma woken_only now l i x p : l !! i = Some x -> only_slot l i p -> woken now l p = expired now x && (task_ptr x =? p).
Proof.
  intros E H. unfold woken. apply eq_true_iff_eq. rewrite existsb_exists. split.
  - intros (y & Hy & A). apply list_elem_of_In, list_elem_of_lookup in Hy as [j Ej].
    destruct (decide (j = i)) as [->|N]; [by replace y with x in A by congruence|].
    apply andb_true_iff in A as [_ A]. apply Z.eqb_eq in A. by destruct (H j y Ej N).
  - intros A. exists x. split; [|done]. apply list_elem_of_In, list_elem_of_lookup. by exists i.
Qed.

Lemma checked_timers_wf s : timers_wf s -> timers_wf (after_check s).
Proof.
  intros [Hl HF]. split; [by cbn; rewrite length_fmap|]. apply Forall_lookup. intros j x. cbn. rewrite list_lookup_fmap.
  destruct (timer_arr (k_timers s) !! j) as [y|] eqn:Ey; [|done]. intros [= <-]. intros Hx.
  assert (E : clear_expired (current_tick (k_timers s)) y = y) by (unfold clear_expired in *; by destruct (expired _ y)).
  rewrite E in *. rewrite map_lookup_imap. destruct (Forall_lookup_1 _ _ _ _ HF Ey Hx) as [t ->]. by eexists.
Qed.

(** The next tick. *)
Definition next_tick (s : kstate) : kstate :=
  after_check (with_timers (TimerGlobals (timer_arr (k_timers s)) (u64 (current_tick (k_timers s) + 1))) s).
Lemma tick_run s : timers_wf s -> tick_and_check s = Ok tt (next_tick s) /\ timers_wf (next_tick s).
Proof.
  intros W. unfold tick_and_check, increment_tick. rewrite bind_put.
  set (s1 := with_timers _ s). assert (W1 : timers_wf s1) by exact W. split; [by apply check_timers_run|by apply checked_timers_wf].
Qed.

(** The timer of slot [i] runs until [f] for the task [t] at [p]. *)
Record sleeping (s : kstate) (i : nat) (f p : Z) (t : task_struct) : Prop := {
  sl_slot : timer_arr (k_timers s) !! i = Some (OneHit f p);
  sl_only : only_slot (timer_arr (k_timers s)) i p;
  sl_task : k_tasks s !! p = Some t }.
(** Its task was woken. *)
Record awake (s : kstate) (i : nat) (p : Z) (t : task_struct) : Prop := {
  aw_slot : timer_arr (k_timers s) !! i = Some (OneHit 0 0);
  aw_only : only_slot (timer_arr (k_timers s)) i p;
  aw_task : k_tasks s !! p = Some (set_state TASK_STATE_RUNNING t) }.

Lemma only_slot_next s i p : p <> 0 -> only_slot (timer_arr (k_timers s)) i p -> only_slot (timer_arr (k_timers (next_tick s))) i p.
Proof.
  intros Hp H j x. cbn. rewrite list_lookup_fmap. destruct (timer_arr (k_timers s) !! j) as [y|] eqn:Ey; [|done]. intros [= <-] N.
  unfold clear_expired. destruct (expired _ y); [cbn; congruence|]. by eapply H.
Qed.

Lemma next_tick_task s p : k_tasks (next_tick s) !! p
  = wake (u64 (current_tick (k_timers s) + 1)) (timer_arr (k_timers s)) p <$> k_tasks s !! p.
Proof. unfold next_tick. by rewrite after_check_task. Qed.

Lemma sleeping_next s i f p t : p <> 0 -> sleeping s i f p t -> let now := u64 (current_tick (k_timers s) + 1) in
  if f <=? now then awake (next_tick s) i p t else sleeping (next_tick s) i f p t.
Proof.
  intros Hp [E H Ht] now.
  assert (Ex : expired now (OneHit f p) = (f <=? now)) by (unfold expired; cbn [task_ptr finish_time]; by rewrite (proj2 (Z.eqb_neq p 0) Hp)).
  assert (Ek : k_tasks (next_tick s) !! p = Some (if f <=? now then set_state TASK_STATE_RUNNING t else t)).
  { rewrite next_tick_task, Ht. fold now. cbn. unfold wake. rewrite (woken_only now _ i _ p E H), Ex. cbn [task_ptr]. by rewrite Z.eqb_refl, andb_true_r. }
  assert (Es : timer_arr (k_timers (next_tick s)) !! i = Some (if f <=? now then OneHit 0 0 else OneHit f p)).
  { cbn. rewrite list_lookup_fmap, E. cbn [fmap option_fmap option_map]. unfold clear_expired. fold now. by rewrite Ex. }
  pose proof (only_slot_next s i p Hp H) as Ho. destruct (f <=? now); by split.
Qed.
Lemma awake_next s i p t : p <> 0 -> awake s i p t -> awake (next_tick s) i p t.
Proof.
  intros Hp [E H Ht]. split.
  - cbn. by rewrite list_lookup_fmap, E.
  - by apply only_slot_next.
  - rewrite next_tick_task, Ht. cbn. unfold wake. by rewrite (woken_only _ _ i _ p E H).
Qed.

Lemma sleep_ticks_run i f p t n : p <> 0 -> forall s, timers_wf s -> sleeping s i f p t \/ awake s i p t ->
  0 <= current_tick (k_timers s) -> current_tick (k_timers s) + Z.of_nat n < 2 ^ 64 ->
  exists s', checked_ticks n s = Ok tt s' /\ timers_wf s' /\ current_tick (k_timers s') = current_tick (k_timers s) + Z.of_nat n
    /\ (awake s i p t -> awake s' i p t)
    /\ (sleeping s i f p t -> current_tick (k_timers s) < f -> if f <=? current_tick (k_timers s) + Z.of_nat n then awake s' i p t else sleeping s' i f p t).
Proof.
  intros Hp. induction n as [|n IH]; intros s W HS H0 H1; cbn [checked_ticks].
  - exists s. rewrite Z.add_0_r. split; [done|]. split; [done|]. split; [done|]. split; [done|]. intros S L.
    by rewrite (proj2 (Z.leb_gt _ _)) by lia.
  - destruct (tick_run s W) as [R W1]. set (T := current_tick (k_timers s)) in *.
    assert (ET : current_tick (k_timers (next_tick s)) = T + 1) by (cbn; fold T; apply u64_small; lia).
    assert (HS1 : sleeping (next_tick s) i f p t \/ awake (next_tick s) i p t).
    { destruct HS as [Sl|A]; [|right; by apply awake_next]. pose proof (sleeping_next s i f p t Hp Sl) as N. cbv zeta in N.
      destruct (f <=? _); [by right|by left]. }
    destruct (IH (next_tick s) W1 HS1) as (s' & R' & W' & E' & A' & S'); [lia|lia|].
    exists s'. rewrite (bind_ok _ _ _ _ _ R). split; [done|]. split; [done|]. split; [lia|]. split.
    + intros A. by apply A', awake_next.
    + intros Sl L. pose proof (sleeping_next s i f p t Hp Sl) as N. cbv zeta in N. fold T in N. rewrite u64_small in N by lia.
      rewrite ET in S'. destruct (Z.leb_spec f (T + 1)).
      * rewrite (proj2 (Z.leb_le _ _)) by lia. by apply A'.
      * specialize (S' N ltac:(lia)). by replace (T + Z.of_nat (S n)) with (T + 1 + Z.of_nat n) by lia.
Qed.


(** A task at 8192 that sleeps for three more ticks. *)
Definition sleep_sample : kstate :=
  with_timers (TimerGlobals (OneHit 10 8192 :: replicate 4 (OneHit 0 0)) 7)
    (with_tasks {[8192 := set_state TASK_STATE_BLOCKED INIT_TASK]} (boot_state (fun _ => false) ∅ 0)).
