(* ===== verification/Sched.v ===== *)
(** * The scheduler (src/scheduler/scheduler.c, src/asm/task.S)

    Task selection, the context switch and the timer tick.  [kernel_fork] and
    [exit_task], which also use paging and files, are in Process.v.

    [cpu_switch_to] leaves on the stack of the task it switches to: what follows
    it in [_schedule] is executed by the resumed task.  A task is suspended
    either there or, when it is new, at [ret_from_fork], whose first call
    ([end_of_sched]) does the same [preempt_enable]; so the code of [_schedule]
    read in sequence, with [current] changed by the switch, is what the processor
    executes. *)

From S2P Require Export Timer.

(** ** Accesses to [task_array] *)

Definition array_get (i : Z) : K Z := fun s =>
  match task_array (k_sched s) !! Z.to_nat i with
  | Some p => if 0 <=? i then Ok p s else Err OutOfBounds
  | None => Err OutOfBounds
  end.
Definition array_set (i p : Z) : K unit := fun s =>
  if (0 <=? i) && (i <? Z.of_nat (length (task_array (k_sched s))))
  then Ok tt (with_sched (SchedGlobals (current (k_sched s)) (<[Z.to_nat i := p]> (task_array (k_sched s))) (n_tasks (k_sched s))) s)
  else Err OutOfBounds.
Definition set_current (p : Z) : K unit :=
  put (fun s => with_sched (SchedGlobals p (task_array (k_sched s)) (n_tasks (k_sched s))) s).

Definition get_current_task : K Z := get (fun s => current (k_sched s)).

(** ** Preemption counter *)

Definition add_preempt (d : Z) (t : task_struct) : task_struct := set_preempt (s64 (preempt_count t + d)) t.
Definition get_current_task_preempt : K Z :=
  p ← get_current_task; t ← get_task p; mret (u64 (preempt_count t)).
Definition preempt_disable : K unit := p ← get_current_task; modify_task p (add_preempt 1).
Definition preempt_enable : K unit := p ← get_current_task; modify_task p (add_preempt (-1)).
Definition end_of_sched : K unit := preempt_enable.

(** ** Process numbers *)

Definition get_pid_from_ptr_body (ptr : Z) (i : Z) : K (Z + Z) :=
  if i <? N_TASKS then
    p ← array_get i; if p =? ptr then mret (inr i) else mret (inl (u8 (i + 1)))
  else mret (inr 0).
Definition get_pid_from_ptr (ptr : Z) : K Z := loop (get_pid_from_ptr_body ptr) 0.
Definition get_pid : K Z := p ← get_current_task; get_pid_from_ptr p.

(** ** Context switch *)

(** The registers [cpu_switch_to] saves and restores; its [x30] is the [pc]. *)
Definition cpu_switch_to (prev next : Z) : K unit :=
  r ← get (fun s => c_regs (k_cpu s));
  _ ← modify_task prev (set_context r);
  t ← get_task next;
  put (fun s => with_cpu (Cpu (t_context t) (ttbr0 (k_cpu s)) (irq_masked (k_cpu s))) s).

(** src/asm/paging.S *)
Definition set_page_directory (page_directory : Z) : K unit :=
  put (fun s => with_cpu (Cpu (c_regs (k_cpu s)) page_directory (irq_masked (k_cpu s))) s).
(** src/asm/irq.S *)
Definition enable_irq : K unit := put (fun s => with_cpu (Cpu (c_regs (k_cpu s)) (ttbr0 (k_cpu s)) false) s).
Definition disable_irq : K unit := put (fun s => with_cpu (Cpu (c_regs (k_cpu s)) (ttbr0 (k_cpu s)) true) s).

Definition switch_to (next : Z) : K unit :=
  cur ← get_current_task;
  if cur =? next then mret tt
  else
    _ ← set_current next;
    t ← get_task next;
    _ ← set_page_directory (pagedirectory (t_mm t));
    cpu_switch_to cur next.

(** ** Selection *)

Definition pick_body (startIdx i : Z) (acc : Z * Z) : K (Z * Z) :=
  let '(c, next) := acc in
  task_ptr ← array_get (u32 (startIdx + i) mod N_TASKS);
  if 0 <? task_ptr then
    t ← get_task task_ptr;
    if bool_decide (state t = TASK_STATE_RUNNING) && (c <? s32 (counter t))
    then mret (s32 (counter t), u32 (startIdx + i) mod N_TASKS)
    else mret (c, next)
  else mret (c, next).

Definition recharge (t : task_struct) : task_struct :=
  set_counter (s64 (Z.shiftr (counter t) 1 + priority t)) t.
Definition recharge_body (i : Z) (_ : unit) : K unit :=
  task_ptr ← array_get i;
  if negb (task_ptr =? 0) then modify_task task_ptr recharge else mret tt.

Definition schedule_body (_ : unit) : K (unit + Z) :=
  startIdx ← get_pid;
  best ← for_range 64 0 (pick_body startIdx) (-1, 0);
  let '(c, next) := (best : Z * Z) in
  if 0 <? c then mret (inr next)
  else _ ← for_range 64 0 recharge_body tt; mret (inl tt).

Definition _schedule : K unit :=
  _ ← preempt_disable;
  _ ← check_timers;
  next ← loop schedule_body tt;
  p ← array_get next;
  _ ← switch_to p;
  preempt_enable.

Definition schedule : K unit :=
  p ← get_current_task; _ ← modify_task p (set_counter 0); _schedule.

Definition scheduler_tick : K unit :=
  p ← get_current_task;
  _ ← modify_task p (fun t => set_counter (s64 (counter t - 1)) t);
  _ ← increment_tick;
  t ← get_task p;
  if (0 <? counter t) || (0 <? preempt_count t) then mret tt
  else
    _ ← modify_task p (set_counter 0);
    _ ← enable_irq;
    _ ← _schedule;
    disable_irq.

Definition set_task_priority (taskId prio : Z) : K unit :=
  task_ptr ← array_get taskId;
  if task_ptr =? 0 then mret tt else modify_task task_ptr (set_priority prio).

(** ** Well-formed scheduler states *)

(** Priorities are [uint8_t] values and a counter never exceeds twice the
    largest one; it is negative after ticks with preemption disabled. *)
Definition MAX_COUNTER : Z := 510.
Definition task_ok (t : task_struct) : Prop :=
  - 2 ^ 31 < counter t <= MAX_COUNTER /\ 0 <= priority t <= 255.

Record sched_wf (s : kstate) : Prop := {
  sw_len : length (task_array (k_sched s)) = 64%nat;
  sw_cur : current (k_sched s) ∈ task_array (k_sched s) /\ 0 < current (k_sched s);
  sw_ptr : forall p, p ∈ task_array (k_sched s) ->
    p = 0 \/ 0 < p /\ exists t, k_tasks s !! p = Some t /\ task_ok t;
  sw_inj : forall i j p, task_array (k_sched s) !! i = Some p -> task_array (k_sched s) !! j = Some p ->
    p <> 0 -> i = j;
  sw_timers : timers_wf s }.

(** The counter of slot [i] when it holds a task that can run. *)
Definition cand (s : kstate) (i : Z) : option Z :=
  p ← task_array (k_sched s) !! Z.to_nat i;
  if p =? 0 then None
  else t ← k_tasks s !! p; if bool_decide (state t = TASK_STATE_RUNNING) then Some (counter t) else None.

(** Slot [i] wins with counter [c]: no runnable task has more, and none that
    comes before it, in order from slot [start] round, has as much. *)
Definition wins (s : kstate) (start i c : Z) : Prop :=
  exists k, 0 <= k < 64 /\ i = (start + k) mod 64 /\ cand s i = Some c
    /\ (forall j c', 0 <= j < 64 -> cand s ((start + j) mod 64) = Some c' -> c' <= c)
    /\ (forall j c', 0 <= j < k -> cand s ((start + j) mod 64) = Some c' -> c' < c).

(** ** Pure effects of the parts *)

Definition bump (d p : Z) (s : kstate) : kstate := with_tasks (alter (add_preempt d) p (k_tasks s)) s.

Definition in_array (s : kstate) (p : Z) : bool :=
  negb (p =? 0) && bool_decide (p ∈ task_array (k_sched s)).
Definition recharge_all (s : kstate) : kstate :=
  with_tasks (map_imap (fun p t => Some (if in_array s p then recharge t else t)) (k_tasks s)) s.

Definition do_switch (p : Z) (s : kstate) : kstate :=
  if current (k_sched s) =? p then s
  else match k_tasks s !! p with
  | Some t =>
      with_cpu (Cpu (t_context t) (pagedirectory (t_mm t)) (irq_masked (k_cpu s)))
        (with_tasks (alter (set_context (c_regs (k_cpu s))) (current (k_sched s)) (k_tasks s))
          (with_sched (SchedGlobals p (task_array (k_sched s)) (n_tasks (k_sched s))) s))
  | None => s
  end.
