(* ===== verification/SchedProofs.v ===== *)
(** * Execution of the scheduler's parts

    Each part of [_schedule] (Sched.v) run on a well-formed state, with its
    effect given as a function of the state, and the invariants it keeps. *)

From S2P Require Export Sched.

(** ** Pointwise changes of the tasks *)

(** [s'] has the tasks of [s], each changed by [f]. *)
Definition tasks_by (f : Z -> task_struct -> task_struct) (s s' : kstate) : Prop :=
  forall p, k_tasks s' !! p = f p <$> k_tasks s !! p.

Lemma alter_by (f : task_struct -> task_struct) p (m : gmap Z task_struct) q :
  alter f p m !! q = (fun t => if q =? p then f t else t) <$> m !! q.
Proof.
  destruct (Z.eqb_spec q p) as [->|].
  - by rewrite lookup_alter_eq.
  - rewrite lookup_alter_ne by done. by destruct (m !! q).
Qed.

Lemma bump_by d p s : tasks_by (fun q t => if q =? p then add_preempt d t else t) s (bump d p s).
Proof. intros q. apply alter_by. Qed.
Lemma recharge_by s : tasks_by (fun q t => if in_array s q then recharge t else t) s (recharge_all s).
Proof. intros q. cbn. rewrite map_lookup_imap. by destruct (k_tasks s !! q). Qed.
Lemma do_switch_by p s :
  tasks_by (fun q t => if negb (current (k_sched s) =? p) && bool_decide (is_Some (k_tasks s !! p)) && (q =? current (k_sched s))
    then set_context (c_regs (k_cpu s)) t else t) s (do_switch p s).
Proof.
  intros q. unfold do_switch. destruct (current (k_sched s) =? p); cbn [negb andb].
  - by destruct (k_tasks s !! q).
  - destruct (k_tasks s !! p); cbn.
    + rewrite alter_by. by destruct (k_tasks s !! q).
    + by destruct (k_tasks s !! q).
Qed.
Lemma after_check_by s :
  tasks_by (wake (current_tick (k_timers s)) (timer_arr (k_timers s))) s (after_check s).
Proof. intros q. apply after_check_task. Qed.

Lemma recharge_ok t : task_ok t -> task_ok (recharge t) /\ counter (recharge t) = counter t / 2 + priority t.
Proof.
  unfold task_ok, recharge, MAX_COUNTER. cbn. rewrite Z.shiftr_div_pow2 by lia. change (2 ^ 1) with 2.
  intros [Hc Hp]. assert (-2 ^ 31 <= counter t / 2 <= 255) by (Z.to_euclidean_division_equations; lia).
  assert (-2 ^ 31 < counter t / 2 + priority t) by (Z.to_euclidean_division_equations; lia).
  unfold s64. rewrite swrap_small by lia. lia.
Qed.

(** A change that keeps every task in range keeps the state well formed. *)
Lemma sched_wf_by f s s' :
  sched_wf s -> tasks_by f s s' -> (forall p t, task_ok t -> task_ok (f p t)) ->
  task_array (k_sched s') = task_array (k_sched s) ->
  current (k_sched s') ∈ task_array (k_sched s) /\ 0 < current (k_sched s') ->
  timers_wf s' -> sched_wf s'.
Proof.
  intros [L C P I T] F Ok Ea Hc Ht. split; rewrite ?Ea; try done.
  intros p Hp. destruct (P p Hp) as [->|(Hp0 & t & E & O)]; [by left|right].
  split; [done|]. exists (f p t). rewrite F, E. split; [done|by apply Ok].
Qed.

Lemma timers_wf_by f s s' : timers_wf s -> tasks_by f s s' -> k_timers s' = k_timers s -> timers_wf s'.
Proof.
  intros [L T] F E. split; rewrite E; [done|]. eapply Forall_impl; [exact T|]. intros t Ht Hp.
  rewrite F. destruct (Ht Hp) as [? ->]. eauto.
Qed.

Lemma bump_wf d p s : sched_wf s -> sched_wf (bump d p s).
Proof.
  intros W. eapply sched_wf_by; [done|apply bump_by| |done|apply W|].
  - intros q t Ht. cbn. by destruct (q =? p).
  - eapply timers_wf_by; [apply W|apply bump_by|done].
Qed.
Lemma recharge_wf s : sched_wf s -> sched_wf (recharge_all s).
Proof.
  intros W. eapply sched_wf_by; [done|apply recharge_by| |done|apply W|].
  - intros q t Ht. cbn. destruct (in_array s q); [by apply recharge_ok|done].
  - eapply timers_wf_by; [apply W|apply recharge_by|done].
Qed.
Lemma after_check_wf s : sched_wf s -> sched_wf (after_check s).
Proof.
  intros W. eapply sched_wf_by; [done|apply after_check_by| |done|apply W|].
  - intros q t Ht. unfold wake. by destruct (woken _ _ q).
  - destruct (sw_timers _ W) as [L T]. split; cbn; [by rewrite length_fmap|].
    apply Forall_fmap. eapply Forall_impl; [exact T|]. intros t Ht. cbn. unfold clear_expired.
    destruct (expired _ t); [done|]. intros Hp. rewrite map_lookup_imap.
    destruct (Ht Hp) as [? ->]. cbn. eauto.
Qed.
Lemma do_switch_wf p s : sched_wf s -> p ∈ task_array (k_sched s) -> 0 < p -> sched_wf (do_switch p s).
Proof.
  intros W Hin Hp. eapply sched_wf_by; [done|apply do_switch_by| | | |].
  - intros q t Ht. cbn. by destruct (_ && _).
  - unfold do_switch. destruct (_ =? p); [done|]. by destruct (k_tasks s !! p).
  - unfold do_switch. destruct (Z.eqb_spec (current (k_sched s)) p) as [E|]; [apply W|].
    destruct (k_tasks s !! p); [done|apply W].
  - eapply timers_wf_by; [apply W|apply do_switch_by|]. unfold do_switch.
    destruct (_ =? p); [done|]. by destruct (k_tasks s !! p).
Qed.

(** ** Executions *)

Lemma array_get_ok s i p : 0 <= i -> task_array (k_sched s) !! Z.to_nat i = Some p -> array_get i s = Ok p s.
Proof. intros Hi E. unfold array_get. rewrite E. by decb. Qed.

Lemma sched_slot s i : sched_wf s -> 0 <= i < 64 -> exists p, task_array (k_sched s) !! Z.to_nat i = Some p.
Proof. intros W Hi. apply lookup_lt_is_Some_2. rewrite (sw_len _ W). lia. Qed.

Lemma current_task s : sched_wf s -> exists t, k_tasks s !! current (k_sched s) = Some t /\ task_ok t.
Proof. intros W. destruct (sw_cur _ W) as [C P]. destruct (sw_ptr _ W _ C) as [|(_ & ?)]; [lia|done]. Qed.

Lemma modify_alter p f s t : k_tasks s !! p = Some t ->
  modify_task p f s = Ok tt (with_tasks (alter f p (k_tasks s)) s).
Proof.
  intros E. rewrite (modify_task_ok _ _ _ _ E). do 2 f_equal. apply map_eq. intros q.
  rewrite alter_by. destruct (Z.eqb_spec q p) as [->|].
  - by rewrite lookup_insert_eq, E.
  - rewrite lookup_insert_ne by done. by destruct (k_tasks s !! q).
Qed.

Lemma get_pid_run s i : sched_wf s -> 0 <= i < 64 ->
  task_array (k_sched s) !! Z.to_nat i = Some (current (k_sched s)) -> get_pid s = Ok i s.
Proof.
  intros W Hi E. unfold get_pid, get_current_task, get_pid_from_ptr. rewrite bind_get.
  apply (search_first _ _ _ _ i); [lia| |].
  - intros j Hj. destruct (sched_slot s j W ltac:(lia)) as [p Ep].
    unfold get_pid_from_ptr_body, N_TASKS. decb. rewrite (bind_ok _ _ _ _ _ (array_get_ok s j p ltac:(lia) Ep)).
    destruct (Z.eqb_spec p (current (k_sched s))) as [->|]; [|by uw].
    pose proof (sw_inj _ W _ _ _ E Ep). destruct (sw_cur _ W). lia.
  - unfold get_pid_from_ptr_body, N_TASKS. decb. rewrite (bind_ok _ _ _ _ _ (array_get_ok s i _ ltac:(lia) E)).
    by rewrite Z.eqb_refl.
Qed.

Lemma current_slot s : sched_wf s ->
  exists i, 0 <= i < 64 /\ task_array (k_sched s) !! Z.to_nat i = Some (current (k_sched s)).
Proof.
  intros W. destruct (sw_cur _ W) as [C _]. apply list_elem_of_lookup in C as [n E].
  exists (Z.of_nat n). rewrite Nat2Z.id. split; [|done]. apply lookup_lt_Some in E. rewrite (sw_len _ W) in E. lia.
Qed.

(** The selection scan. *)
Definition scanned (s : kstate) (start j c next : Z) : Prop :=
  (c = -1 /\ next = 0 /\ forall k c', 0 <= k < j -> cand s ((start + k) mod 64) = Some c' -> c' <= -1)
  \/ exists k, 0 <= k < j /\ next = (start + k) mod 64 /\ cand s next = Some c /\ -1 < c
     /\ (forall i c', 0 <= i < j -> cand s ((start + i) mod 64) = Some c' -> c' <= c)
     /\ (forall i c', 0 <= i < k -> cand s ((start + i) mod 64) = Some c' -> c' < c).

Lemma s32_counter t : task_ok t -> s32 (counter t) = counter t.
Proof. intros [H _]. unfold MAX_COUNTER in H. apply swrap_small; cbn; lia. Qed.

Lemma scanned_keep s start j c next :
  0 <= j -> scanned s start j c next ->
  (forall c', cand s ((start + j) mod 64) = Some c' -> c' <= c) -> scanned s start (j + 1) c next.
Proof.
  intros Hj H Hc. assert (B : forall i, 0 <= i < j + 1 -> i = j \/ 0 <= i < j) by lia.
  destruct H as [(-> & -> & H)|(k & Hk & -> & E & H1 & H2 & H3)]; [left|right].
  - split; [done|]. split; [done|]. intros k c' Hk E. destruct (B k Hk) as [->|]; eauto.
  - exists k. split; [lia|]. split; [done|]. split; [done|]. split; [done|]. split; [|done].
    intros i c' Hi E'. destruct (B i Hi) as [->|]; eauto.
Qed.
Lemma scanned_take s start j c next c1 :
  0 <= j -> scanned s start j c next -> cand s ((start + j) mod 64) = Some c1 -> c < c1 ->
  scanned s start (j + 1) c1 ((start + j) mod 64).
Proof.
  intros Hj H E Hc. assert (B : forall i, 0 <= i < j + 1 -> i = j \/ 0 <= i < j) by lia.
  right. exists j. split; [lia|]. split; [done|]. split; [done|].
  assert (Hlow : forall i c', 0 <= i < j -> cand s ((start + i) mod 64) = Some c' -> c' < c1).
  { intros i c' Hi E'. destruct H as [(-> & -> & H)|(k & Hk & -> & _ & _ & H2 & _)].
    - pose proof (H i c' Hi E'). lia.
    - pose proof (H2 i c' Hi E'). lia. }
  split; [destruct H as [(-> & _)|(k & _ & _ & _ & ? & _)]; lia|]. split; [|done].
  intros i c' Hi E'. destruct (B i Hi) as [->|Hi']; [|by apply Z.lt_le_incl, (Hlow i)]. rewrite E' in E. injection E as ->. lia.
Qed.

Lemma pick_run s start : sched_wf s -> 0 <= start < 64 ->
  exists c next, for_range 64 0 (pick_body start) (-1, 0) s = Ok (c, next) s /\ scanned s start 64 c next.
Proof.
  intros W Hst.
  destruct (for_range_run (fun j '(c, next) s' => s' = s /\ scanned s start j c next)
    (pick_body start) 64 0 (-1, 0) s) as ([c next] & s' & R & -> & H).
  - split; [done|]. left. split; [done|]. split; [done|]. lia.
  - intros j [c next] s' Hj [-> H]. unfold pick_body, N_TASKS. uw.
    pose proof (Z.mod_pos_bound (start + j) 64 ltac:(lia)) as Hm.
    destruct (sched_slot s _ W Hm) as [p Ep]. rewrite (bind_ok _ _ _ _ _ (array_get_ok s _ p (proj1 Hm) Ep)).
    assert (Hin : p ∈ task_array (k_sched s)) by (by apply list_elem_of_lookup_2 in Ep).
    destruct (sw_ptr _ W p Hin) as [->|(Hp & t & Et & Ok)].
    + exists (c, next), s. split; [done|]. split; [done|]. apply scanned_keep; [lia|done|].
      unfold cand. rewrite Ep. done.
    + decb. unfold get_task. unfold mbind at 1, M_bind at 1. rewrite Et, (s32_counter _ Ok).
      assert (EC : cand s ((start + j) mod 64) = if bool_decide (state t = TASK_STATE_RUNNING) then Some (counter t) else None).
      { unfold cand. rewrite Ep. cbn. replace (p =? 0) with false by lia. rewrite Et. done. }
      destruct (bool_decide (state t = TASK_STATE_RUNNING)) eqn:B; cbn [andb].
      * destruct (Z.ltb_spec c (counter t)).
        -- eexists (_, _), s. split; [done|]. split; [done|]. eapply scanned_take; [lia|done|done|lia].
        -- exists (c, next), s. split; [done|]. split; [done|]. apply scanned_keep; [lia|done|]. rewrite EC.
           intros c' [= <-]. lia.
      * exists (c, next), s. split; [done|]. split; [done|]. apply scanned_keep; [lia|done|]. by rewrite EC.
  - exists c, next. done.
Qed.

Lemma elem_of_snoc_ne (q p : Z) l : q <> p -> q ∈ l ++ [p] <-> q ∈ l.
Proof. intros H. rewrite elem_of_app, list_elem_of_singleton. tauto. Qed.

(** The recharge pass. *)
Lemma recharge_run s : sched_wf s -> for_range 64 0 recharge_body tt s = Ok tt (recharge_all s).
Proof.
  intros W. set (arr := task_array (k_sched s)).
  set (st := fun j => with_tasks (map_imap (fun p t =>
    Some (if negb (p =? 0) && bool_decide (p ∈ take (Z.to_nat j) arr) then recharge t else t)) (k_tasks s)) s).
  destruct (for_range_run (fun j _ s' => s' = st j) recharge_body 64 0 tt s) as ([] & s' & R & ->).
  - unfold st. destruct s as [? ? ? tk ? ? ? ? ? ?]. unfold with_tasks. cbn. f_equal. apply map_eq. intros p.
    rewrite map_lookup_imap, andb_false_r. by destruct (tk !! p).
  - intros j [] s' Hj ->. exists tt. destruct (sched_slot s j W ltac:(lia)) as [p Ep].
    unfold recharge_body. rewrite (bind_ok _ _ _ _ _ (array_get_ok (st j) j p ltac:(lia) Ep)).
    fold arr in Ep. unfold st. replace (Z.to_nat (j + 1)) with (S (Z.to_nat j)) by lia.
    rewrite (take_S_r _ _ _ Ep).
    assert (Hin : p ∈ arr) by (by apply list_elem_of_lookup_2 in Ep).
    destruct (sw_ptr _ W p Hin) as [->|(Hp & t & Et & Ok)].
    + eexists. split; [done|]. unfold with_tasks. cbn. f_equal. apply map_eq. intros q.
      rewrite !map_lookup_imap. destruct (k_tasks s !! q); [|done]. cbn.
      destruct (Z.eqb_spec q 0) as [->|]; [done|]. cbn. 
      rewrite (bool_decide_ext (q ∈ take (Z.to_nat j) arr ++ [0]) (q ∈ take (Z.to_nat j) arr)); [done|]. by apply elem_of_snoc_ne.
    + replace (p =? 0) with false by lia. cbn [negb]. eexists. split.
      * eapply (modify_alter _ _ _ t). cbn. rewrite map_lookup_imap, Et. cbn.
        rewrite (bool_decide_eq_false_2 (p ∈ _)); [by rewrite andb_false_r|].
        intros [n [E Hn]]%elem_of_take. pose proof (sw_inj _ W _ _ _ E Ep). lia.
      * unfold with_tasks. cbn. f_equal. apply map_eq. intros q. rewrite alter_by, !map_lookup_imap.
        destruct (k_tasks s !! q); [|done]. cbn. destruct (Z.eqb_spec q p) as [->|].
        -- replace (p =? 0) with false by lia. cbn.
           rewrite (bool_decide_eq_true_2 (p ∈ take (Z.to_nat j) arr ++ [p])) by (rewrite elem_of_app; right; left).
           rewrite bool_decide_eq_false_2; [done|].
           intros [n [E Hn]]%elem_of_take. pose proof (sw_inj _ W _ _ _ E Ep). lia.
        -- rewrite (bool_decide_ext (q ∈ take (Z.to_nat j) arr ++ [p]) (q ∈ take (Z.to_nat j) arr)); [done|]. by apply elem_of_snoc_ne.
  - rewrite R. unfold st, recharge_all, in_array. fold arr.
    rewrite take_ge; [done|]. unfold arr. rewrite (sw_len _ W). lia.
Qed.

Fixpoint recharges (r : nat) (s : kstate) : kstate :=
  match r with O => s | S r => recharges r (recharge_all s) end.

(** Some task can run and gains credit at every recharge. *)
Definition can_progress (s : kstate) : Prop :=
  exists p t, p ∈ task_array (k_sched s) /\ p <> 0 /\ k_tasks s !! p = Some t
    /\ state t = TASK_STATE_RUNNING /\ 1 <= priority t.

(** No runnable task has credit left. *)
Definition exhausted (s : kstate) : Prop := forall i c, 0 <= i < 64 -> cand s i = Some c -> c <= 0.

Lemma rotation start i : 0 <= start < 64 -> 0 <= i < 64 -> exists k, 0 <= k < 64 /\ i = (start + k) mod 64.
Proof.
  intros H1 H2. exists ((i - start) mod 64). split; [apply Z.mod_pos_bound; lia|].
  rewrite Z.add_mod_idemp_r by lia. replace (start + (i - start)) with i by lia. by rewrite Z.mod_small.
Qed.

Lemma scanned_exhausted s start c next : 0 <= start < 64 -> scanned s start 64 c next -> c <= 0 -> exhausted s.
Proof.
  intros Hst H Hc i c' Hi E. destruct (rotation start i Hst Hi) as (k & Hk & ->).
  destruct H as [(-> & _ & H)|(k' & _ & _ & _ & _ & H & _)]; pose proof (H _ _ Hk E); lia.
Qed.

Lemma schedule_body_run s start : sched_wf s -> 0 <= start < 64 ->
  task_array (k_sched s) !! Z.to_nat start = Some (current (k_sched s)) ->
  (exists i c, schedule_body tt s = Ok (inr i) s /\ wins s start i c /\ 0 < c)
  \/ (schedule_body tt s = Ok (inl tt) (recharge_all s) /\ exhausted s).
Proof.
  intros W Hst E. unfold schedule_body. rewrite (bind_ok _ _ _ _ _ (get_pid_run s start W Hst E)).
  destruct (pick_run s start W Hst) as (c & next & R & H). rewrite (bind_ok _ _ _ _ _ R). cbv beta iota.
  destruct (Z.ltb_spec 0 c) as [Hc|Hc].
  - left. exists next, c. split; [done|]. split; [|done].
    destruct H as [(-> & _)|(k & Hk & En & Ec & _ & H2 & H3)]; [lia|]. exists k. auto.
  - right. rewrite (bind_ok _ _ _ _ _ (recharge_run s W)). split; [done|]. by eapply scanned_exhausted.
Qed.

Lemma cand_task s p t : sched_wf s -> p ∈ task_array (k_sched s) -> p <> 0 ->
  k_tasks s !! p = Some t -> state t = TASK_STATE_RUNNING -> exists i, 0 <= i < 64 /\ cand s i = Some (counter t).
Proof.
  intros W Hin Hp Et Hs. apply list_elem_of_lookup in Hin as [n E]. exists (Z.of_nat n).
  pose proof (lookup_lt_Some _ _ _ E) as Hn. rewrite (sw_len _ W) in Hn. split; [lia|].
  unfold cand. rewrite Nat2Z.id, E. cbn. replace (p =? 0) with false by lia. rewrite Et. cbn.
  by rewrite bool_decide_eq_true_2.
Qed.

(** The selection loop leaves: every recharge raises a counter that is not
    positive. *)
Lemma schedule_loop_run start p n : forall s t,
  sched_wf s -> 0 <= start < 64 ->
  task_array (k_sched s) !! Z.to_nat start = Some (current (k_sched s)) ->
  p ∈ task_array (k_sched s) -> p <> 0 -> k_tasks s !! p = Some t ->
  state t = TASK_STATE_RUNNING -> 1 <= priority t -> 1 - counter t <= Z.of_nat n ->
  exists r i c, (r <= n)%nat /\ loops schedule_body (S r) tt s i (recharges r s)
    /\ wins (recharges r s) start i c /\ 0 < c /\ (forall r', (r' < r)%nat -> exhausted (recharges r' s)).
Proof.
  induction n as [|n IH]; intros s t W Hst E Hin Hp Et Hs Hpr Hn;
    (destruct (schedule_body_run s start W Hst E) as [(i & c & R & Hw & Hc)|[R Hex]];
      [exists 0%nat, i, c; repeat split; [lia|by apply loops_done|done|done|lia]|]);
    destruct (cand_task s p t W Hin Hp Et Hs) as (i0 & Hi0 & E0); pose proof (Hex _ _ Hi0 E0) as H0; [lia|].
  destruct (sw_ptr _ W p Hin) as [|(_ & t' & Et' & Ok)]; [done|]. rewrite Et in Et'. injection Et' as <-.
  destruct (recharge_ok t Ok) as [_ Ec].
  destruct (IH (recharge_all s) (recharge t)) as (r & i & c & Hr & L & Hw & Hc & Hall);
    [by apply recharge_wf|done|done|done|done| |done|done| |].
  - rewrite (recharge_by s), Et. cbn. unfold in_array. replace (p =? 0) with false by lia. cbn.
    by rewrite bool_decide_eq_true_2.
  - rewrite Ec. Z.to_euclidean_division_equations; lia.
  - exists (S r), i, c. split; [lia|]. split; [by eapply loops_step|]. split; [done|]. split; [done|].
    intros [|r'] Hr'; [done|]. apply Hall. lia.
Qed.

(** ** The switch and the whole decision *)

Lemma cand_inv s i c : cand s i = Some c ->
  exists p t, task_array (k_sched s) !! Z.to_nat i = Some p /\ p <> 0 /\ k_tasks s !! p = Some t
    /\ state t = TASK_STATE_RUNNING /\ counter t = c.
Proof.
  unfold cand. destruct (_ !! Z.to_nat i) as [p|] eqn:Ep; cbn; [|done].
  destruct (Z.eqb_spec p 0); [done|]. destruct (k_tasks s !! p) as [t|] eqn:Et; cbn; [|done].
  case_bool_decide; [|done]. intros [= <-]. eauto 10.
Qed.

Lemma preempt_run d s : sched_wf s ->
  (p ← get_current_task; modify_task p (add_preempt d)) s = Ok tt (bump d (current (k_sched s)) s).
Proof.
  intros W. destruct (current_task s W) as (t & E & _). unfold get_current_task. rewrite bind_get.
  apply (modify_alter _ _ _ _ E).
Qed.

Lemma switch_to_run s p : sched_wf s -> p ∈ task_array (k_sched s) -> 0 < p ->
  switch_to p s = Ok tt (do_switch p s).
Proof.
  intros W Hin Hp. destruct (sw_ptr _ W p Hin) as [|(_ & t & Et & _)]; [lia|].
  destruct (current_task s W) as (tc & Ec & _).
  unfold switch_to, do_switch, get_current_task. rewrite bind_get, Et.
  destruct (Z.eqb_spec (current (k_sched s)) p) as [|N]; [done|].
  unfold set_current. rewrite bind_put. unfold get_task at 1. unfold mbind at 1, M_bind at 1. cbn [k_tasks with_sched]. rewrite Et.
  unfold set_page_directory. rewrite bind_put. unfold cpu_switch_to. rewrite bind_get.
  erewrite bind_ok; [|apply (modify_alter _ _ _ tc); exact Ec].
  unfold get_task, mbind, M_bind. cbn [k_tasks with_tasks with_cpu with_sched].
  rewrite lookup_alter_ne by done. by rewrite Et.
Qed.

Lemma recharges_wf r : forall s, sched_wf s -> sched_wf (recharges r s).
Proof. induction r as [|r IH]; intros s W; cbn; [done|]. by apply IH, recharge_wf. Qed.
Lemma recharges_sched r : forall s, k_sched (recharges r s) = k_sched s.
Proof. induction r as [|r IH]; intros s; cbn; [done|]. by rewrite IH. Qed.

(** The state in which a decision is taken, and the one after it. *)
Definition decision_state (s : kstate) (r : nat) : kstate :=
  recharges r (after_check (bump 1 (current (k_sched s)) s)).
Definition switched (s : kstate) (r : nat) (p : Z) : kstate := bump (-1) p (do_switch p (decision_state s r)).

Lemma decision_wf s r : sched_wf s -> sched_wf (decision_state s r).
Proof. intros W. by apply recharges_wf, after_check_wf, bump_wf. Qed.
Lemma decision_sched s r : k_sched (decision_state s r) = k_sched s.
Proof. unfold decision_state. by rewrite recharges_sched. Qed.

Lemma do_switch_current p s : is_Some (k_tasks s !! p) -> current (k_sched (do_switch p s)) = p.
Proof. intros [t E]. unfold do_switch. destruct (Z.eqb_spec (current (k_sched s)) p); [done|]. by rewrite E. Qed.

Lemma switched_wf s r p : sched_wf s -> p ∈ task_array (k_sched s) -> 0 < p -> sched_wf (switched s r p).
Proof.
  intros W Hin Hp. apply bump_wf, do_switch_wf; [by apply decision_wf| |done]. by rewrite decision_sched.
Qed.

Lemma switched_current s r p : sched_wf s -> p ∈ task_array (k_sched s) -> 0 < p ->
  current (k_sched (switched s r p)) = p.
Proof.
  intros W Hin Hp. cbn. apply do_switch_current. pose proof (decision_wf s r W) as W2.
  rewrite <- (decision_sched s r) in Hin. destruct (sw_ptr _ W2 p Hin) as [|(_ & t & E & _)]; [lia|]. eauto.
Qed.

Definition ready (s : kstate) : Prop := can_progress (after_check s).

Lemma ready_bump d p s : ready s -> can_progress (after_check (bump d p s)).
Proof.
  intros (q & t & Hin & Hq & E & Hs & Hpr). rewrite after_check_task in E.
  destruct (k_tasks s !! q) as [t0|] eqn:E0; cbn in E; [|done]. injection E as <-.
  exists q, (wake (current_tick (k_timers s)) (timer_arr (k_timers s)) q (if q =? p then add_preempt d t0 else t0)).
  split; [done|]. split; [done|]. rewrite after_check_task, (bump_by d p s), E0. cbn.
  split; [done|]. unfold wake in *. by destruct (woken _ _ q), (q =? p).
Qed.

(** [_schedule] returns; it takes the first task with the largest positive
    counter, after as many recharges as it takes for one to be positive. *)
Lemma _schedule_run s start : sched_wf s -> ready s -> 0 <= start < 64 ->
  task_array (k_sched s) !! Z.to_nat start = Some (current (k_sched s)) ->
  exists r i c p, _schedule s = Ok tt (switched s r p)
    /\ wins (decision_state s r) start i c /\ 0 < c
    /\ (forall r', (r' < r)%nat -> exhausted (decision_state s r'))
    /\ task_array (k_sched s) !! Z.to_nat i = Some p /\ 0 < p.
Proof.
  intros W HR Hst E. set (s0 := bump 1 (current (k_sched s)) s).
  pose proof (bump_wf 1 (current (k_sched s)) s W : sched_wf s0) as W0.
  pose proof (after_check_wf _ W0) as W1.
  destruct (ready_bump 1 (current (k_sched s)) s HR) as (q & t & Hin & Hq & Eq & Hs & Hpr). fold s0 in Hin, Eq.
  destruct (sw_ptr _ W1 q Hin) as [|(_ & t' & Et' & [Hc _])]; [done|]. rewrite Eq in Et'. injection Et' as <-.
  destruct (schedule_loop_run start q (Z.to_nat (1 - counter t)) (after_check s0) t W1 Hst E Hin Hq Eq Hs Hpr)
    as (r & i & c & Hr & L & Hw & Hpos & Hex); [lia|].
  apply loops_loop in L; [|lia].
  destruct Hw as (k & Hk & Ei & Ec & Hw1 & Hw2).
  destruct (cand_inv _ _ _ Ec) as (p & tp & Ep & Hp & Etp & _). rewrite recharges_sched in Ep. cbn in Ep.
  assert (Hinp : p ∈ task_array (k_sched s)) by (by apply list_elem_of_lookup_2 in Ep).
  destruct (sw_ptr _ W p Hinp) as [|(Hp0 & _)]; [done|].
  pose proof (decision_wf s r W) as W2.
  assert (Hi : 0 <= i) by (subst i; apply Z.mod_pos_bound; lia).
  exists r, i, c, p. split; [|split; [by exists k|auto]]. unfold _schedule.
  rewrite (bind_ok _ _ _ _ _ (preempt_run 1 s W)). fold s0.
  rewrite (bind_ok _ _ _ _ _ (check_timers_run s0 (sw_timers _ W0))), (bind_ok _ _ _ _ _ L).
  change (recharges r (after_check s0)) with (decision_state s r).
  rewrite (bind_ok _ _ _ _ _ (array_get_ok (decision_state s r) i p Hi ltac:(by rewrite decision_sched))).
  rewrite (bind_ok _ _ _ _ _ (switch_to_run _ p W2 ltac:(by rewrite decision_sched) Hp0)).
  rewrite (preempt_run (-1)) by (apply do_switch_wf; [done|by rewrite decision_sched|done]).
  f_equal. unfold switched. rewrite do_switch_current; [done|eauto].
Qed.
