(* ===== verification/SchedTheorems.v ===== *)
(** * Properties of the scheduler

    Selection, the balance of the preemption counters over any sequence of
    ticks and yields, bounded waiting, time slices, critical sections, and the
    case where no task can run. *)

From S2P Require Export SchedProofs.

(** ** The invariant *)

(** Outside critical sections the running task has preemption enabled and every
    suspended task holds the count taken by the switch that suspended it. *)
Definition preempt_balanced (s : kstate) : Prop :=
  forall p t, p ∈ task_array (k_sched s) -> p <> 0 -> k_tasks s !! p = Some t ->
    preempt_count t = (if p =? current (k_sched s) then 0 else 1) /\ 0 <= counter t.

Record sched_inv (s : kstate) : Prop := {
  si_wf : sched_wf s;
  si_balanced : preempt_balanced s;
  si_progress : can_progress s }.

(** What a decision does to the tasks: counters and states are those of the
    decision, contexts and preemption counters change. *)
Lemma decision_task s r p t : sched_wf s -> k_tasks s !! p = Some t ->
  exists t', k_tasks (decision_state s r) !! p = Some t'
    /\ preempt_count t' = preempt_count (if p =? current (k_sched s) then add_preempt 1 t else t)
    /\ priority t' = priority t /\ (state t = TASK_STATE_RUNNING -> state t' = TASK_STATE_RUNNING)
    /\ (0 <= counter t -> task_ok t -> 0 <= counter t' /\ task_ok t').
Proof.
  intros W E. unfold decision_state.
  set (s1 := after_check (bump 1 (current (k_sched s)) s)).
  assert (B : exists t1, k_tasks s1 !! p = Some t1
    /\ preempt_count t1 = preempt_count (if p =? current (k_sched s) then add_preempt 1 t else t)
    /\ priority t1 = priority t /\ (state t = TASK_STATE_RUNNING -> state t1 = TASK_STATE_RUNNING)
    /\ (0 <= counter t -> task_ok t -> 0 <= counter t1 /\ task_ok t1)).
  { unfold s1. rewrite after_check_task, (bump_by 1 (current (k_sched s)) s), E. cbn.
    eexists. split; [done|]. unfold wake. destruct (woken _ _ p), (p =? current (k_sched s)); cbn; auto 10. }
  revert B. generalize s1. clear E. induction r as [|r IH]; intros s2 (t1 & E & H1 & H2 & H3 & H4); cbn.
  - exists t1. auto.
  - apply IH. rewrite (recharge_by s2), E. cbn. eexists. split; [done|].
    destruct (in_array s2 p); [|auto]. cbn. split; [done|]. split; [done|]. split; [done|].
    intros C1 C2. destruct (H4 C1 C2) as [C3 C4]. destruct (recharge_ok _ C4) as [C5 C6].
    split; [|done]. change (0 <= counter (recharge t1)). rewrite C6. destruct C4 as [_ ?]. Z.to_euclidean_division_equations; lia.
Qed.

Lemma switched_task s r p q t : k_tasks (decision_state s r) !! q = Some t -> is_Some (k_tasks (decision_state s r) !! p) ->
  exists t', k_tasks (switched s r p) !! q = Some t'
    /\ preempt_count t' = preempt_count (if q =? p then add_preempt (-1) t else t)
    /\ priority t' = priority t /\ state t' = state t /\ counter t' = counter t.
Proof.
  intros E H. unfold switched. rewrite (bump_by (-1) p _), (do_switch_by p _), E. cbn. eexists. split; [done|].
  destruct (_ && (q =? _)), (q =? p); cbn; auto.
Qed.

Lemma cand_by f s s' i : tasks_by f s s' -> task_array (k_sched s') = task_array (k_sched s) ->
  (forall p t, state (f p t) = state t /\ counter (f p t) = counter t) -> cand s' i = cand s i.
Proof.
  intros F Ea H. unfold cand. rewrite Ea. destruct (_ !! Z.to_nat i) as [p|]; [|done]. cbn.
  destruct (p =? 0); [done|]. rewrite F. destruct (k_tasks s !! p) as [t|]; [|done]. cbn.
  by destruct (H p t) as [-> ->].
Qed.

Lemma switched_cand s r p i : is_Some (k_tasks (decision_state s r) !! p) ->
  cand (switched s r p) i = cand (decision_state s r) i.
Proof.
  intros [t Et]. transitivity (cand (do_switch p (decision_state s r)) i).
  - eapply cand_by; [apply bump_by|done|]. intros q x. cbv beta. by destruct (q =? p).
  - eapply cand_by; [apply do_switch_by| |].
    + unfold do_switch. destruct (_ =? p); [done|]. by rewrite Et.
    + intros q x. cbv beta. by destruct (_ && _).
Qed.

Lemma slot_task s p : sched_wf s -> p ∈ task_array (k_sched s) -> 0 < p -> exists t, k_tasks s !! p = Some t.
Proof. intros W Hin Hp. destruct (sw_ptr _ W p Hin) as [|(_ & t & E & _)]; [lia|eauto]. Qed.

Lemma timers_array_switched s r p : task_array (k_sched (switched s r p)) = task_array (k_sched s).
Proof.
  unfold switched. cbn. unfold do_switch. destruct (_ =? p); [by rewrite decision_sched|].
  destruct (k_tasks _ !! p); cbn; by rewrite decision_sched.
Qed.

Lemma after_check_progress s : can_progress s -> can_progress (after_check s).
Proof.
  intros (q & t & Hin & Hq & E & Hs & Hpr). eexists q, _. split; [done|]. split; [done|].
  rewrite after_check_task, E. split; [done|]. unfold wake. by destruct (woken _ _ q).
Qed.

Lemma decision_running s r q t0 : k_tasks s !! q = Some t0 ->
  state (wake (current_tick (k_timers s)) (timer_arr (k_timers s)) q t0) = TASK_STATE_RUNNING ->
  1 <= priority (wake (current_tick (k_timers s)) (timer_arr (k_timers s)) q t0) ->
  exists t', k_tasks (decision_state s r) !! q = Some t' /\ state t' = TASK_STATE_RUNNING /\ 1 <= priority t'.
Proof.
  intros E0 Hs Hpr. unfold decision_state. set (s1 := after_check _).
  assert (B : exists t1, k_tasks s1 !! q = Some t1 /\ state t1 = TASK_STATE_RUNNING /\ 1 <= priority t1).
  { unfold s1. rewrite after_check_task, (bump_by 1 (current (k_sched s)) s), E0. cbn. eexists. split; [done|].
    unfold wake in *. by destruct (woken _ _ q), (q =? current (k_sched s)). }
  revert B. generalize s1. induction r as [|r IH]; intros s2 (t1 & E1 & H1 & H2); cbn; [eauto|].
  apply IH. rewrite (recharge_by s2), E1. cbn. eexists. split; [done|]. by destruct (in_array s2 q).
Qed.

(** The invariant after a decision. *)
Lemma switched_inv s r p : sched_wf s -> ready s -> p ∈ task_array (k_sched s) -> 0 < p ->
  preempt_balanced s -> sched_inv (switched s r p).
Proof.
  intros W HR Hin Hp HB. destruct (slot_task s p W Hin Hp) as [tp Ep].
  destruct (decision_task s r p tp W Ep) as (tp' & Ep' & _).
  assert (Hsome : is_Some (k_tasks (decision_state s r) !! p)) by eauto.
  split; [by apply switched_wf| |].
  - intros q t' Hq Hq0 E'. rewrite timers_array_switched in Hq. rewrite switched_current by done.
    destruct (sw_ptr _ W q Hq) as [|(_ & t & E & Ok)]; [done|]. destruct (HB q t Hq Hq0 E) as [Pc C0].
    destruct (decision_task s r q t W E) as (t1 & E1 & P1 & _ & _ & C1). destruct (C1 C0 Ok) as [C2 _].
    destruct (switched_task s r p q t1 E1 Hsome) as (t2 & E2 & P2 & _ & _ & C3).
    rewrite E' in E2. injection E2 as <-. rewrite P2, C3. split; [|done].
    assert (P1' : preempt_count t1 = 1).
    { rewrite P1. destruct (q =? current (k_sched s)); cbn; rewrite Pc; reflexivity. }
    destruct (q =? p); cbn; rewrite P1'; reflexivity.
  - destruct HR as (q & t & Hq & Hq0 & E & Hs & Hpr). cbn in Hq.
    rewrite after_check_task in E. destruct (k_tasks s !! q) as [t0|] eqn:E0; cbn in E; [|done].
    injection E as <-.
    destruct (decision_running s r q _ E0 Hs Hpr) as (t1 & E1 & H1 & H2). destruct (switched_task s r p q t1 E1 Hsome) as (t2 & E2 & _ & P2 & S2 & _).
    exists q, t2. rewrite timers_array_switched, P2, S2. done.
Qed.

(** ** Ticks, yields and priority changes *)

Lemma inv_by f s s' :
  sched_inv s -> tasks_by f s s' -> k_sched s' = k_sched s -> timer_arr (k_timers s') = timer_arr (k_timers s) ->
  (forall p t, p ∈ task_array (k_sched s) -> p <> 0 -> k_tasks s !! p = Some t -> 0 <= counter t -> task_ok t ->
     task_ok (f p t) /\ preempt_count (f p t) = preempt_count t
     /\ (state t = TASK_STATE_RUNNING -> state (f p t) = TASK_STATE_RUNNING)
     /\ (1 <= priority t -> 1 <= priority (f p t)) /\ 0 <= counter (f p t)) ->
  sched_inv s'.
Proof.
  intros [W B P] F Es Et H. destruct W as [L C Pt I [Tl Tw]]. split.
  - split; rewrite ?Es; try done.
    + intros p Hp. destruct (Pt p Hp) as [->|(Hp0 & t & E & O)]; [by left|right]. split; [done|].
      exists (f p t). rewrite F, E. split; [done|].
      destruct (B p t Hp ltac:(lia) E) as [_ B2]. apply H; [done|lia|done..].
    + split; rewrite Et; [done|]. eapply Forall_impl; [exact Tw|]. intros t Ht Hp.
      rewrite F. destruct (Ht Hp) as [? ->]. eauto.
  - intros p t' Hp Hp0 E'. rewrite Es in *. rewrite F in E'. destruct (k_tasks s !! p) as [t|] eqn:E; cbn in E'; [|done].
    injection E' as <-. destruct (Pt p Hp) as [|(_ & t1 & E1 & O)]; [done|]. rewrite E in E1. injection E1 as <-.
    destruct (B p t Hp Hp0 E) as [B1 B2]. destruct (H p t Hp Hp0 E B2 O) as (_ & -> & _ & _ & ?). done.
  - destruct P as (p & t & Hp & Hp0 & E & Hs & Hpr). destruct (B p t Hp Hp0 E) as [B1 B2].
    destruct (Pt p Hp) as [|(_ & t1 & E1 & O)]; [done|]. rewrite E in E1. injection E1 as <-.
    destruct (H p t Hp Hp0 E B2 O) as (_ & _ & H3 & H4 & _). exists p, (f p t). rewrite Es, F, E. auto 10.
Qed.

(** The running task gives up its credit. *)
Definition yielded (s : kstate) : kstate := with_tasks (alter (set_counter 0) (current (k_sched s)) (k_tasks s)) s.

Lemma yielded_inv s : sched_inv s -> sched_inv (yielded s).
Proof.
  intros I. eapply inv_by; [done|intros q; apply alter_by|done|done|]. intros p t _ _ _ C [O1 O2]. cbv beta.
  unfold task_ok, MAX_COUNTER in *. destruct (p =? _); cbn; auto with lia.
Qed.

Lemma _schedule_inv s : sched_inv s ->
  exists r p, _schedule s = Ok tt (switched s r p) /\ sched_inv (switched s r p)
    /\ p ∈ task_array (k_sched s) /\ 0 < p.
Proof.
  intros [W B P]. destruct (current_slot s W) as (start & Hst & E).
  pose proof (after_check_progress s P) as R.
  destruct (_schedule_run s start W R Hst E) as (r & i & c & p & Run & _ & _ & _ & Ep & Hp).
  exists r, p. apply list_elem_of_lookup_2 in Ep. split; [done|]. split; [by apply switched_inv|]. done.
Qed.

Lemma schedule_yields s : sched_inv s -> schedule s = _schedule (yielded s).
Proof.
  intros [W _ _]. destruct (current_task s W) as (t & E & _). unfold schedule, get_current_task. rewrite bind_get.
  by rewrite (bind_ok _ _ _ _ _ (modify_alter _ _ _ _ E)).
Qed.

(** The tick's bookkeeping, before it decides whether to schedule. *)
Definition ticked (s : kstate) : kstate :=
  with_timers (TimerGlobals (timer_arr (k_timers s)) (u64 (current_tick (k_timers s) + 1)))
    (with_tasks (alter (fun t => set_counter (s64 (counter t - 1)) t) (current (k_sched s)) (k_tasks s)) s).

Lemma scheduler_tick_run s t : k_tasks s !! current (k_sched s) = Some t -> task_ok t -> - 2 ^ 31 + 1 < counter t ->
  scheduler_tick s =
    if (1 <? counter t) || (0 <? preempt_count t) then Ok tt (ticked s)
    else (_ ← enable_irq; _ ← _schedule; disable_irq) (yielded (ticked s)).
Proof.
  intros E [O _] Hlo. unfold MAX_COUNTER in O. unfold scheduler_tick, get_current_task. rewrite bind_get.
  rewrite (bind_ok _ _ _ _ _ (modify_alter _ _ _ _ E)). unfold increment_tick. rewrite bind_put.
  set (s1 := with_timers _ _). change s1 with (ticked s).
  assert (E1 : k_tasks (ticked s) !! current (k_sched s) = Some (set_counter (counter t - 1) t)).
  { cbn. rewrite lookup_alter_eq, E. cbn. unfold s64. rewrite swrap_small by lia. done. }
  unfold get_task. unfold mbind at 1, M_bind at 1. rewrite E1. cbn [counter set_counter preempt_count].
  replace (0 <? counter t - 1) with (1 <? counter t) by lia. destruct (_ || _); [done|].
  rewrite (bind_ok _ _ _ _ _ (modify_alter _ _ _ _ E1)). done.
Qed.

Lemma ticked_inv s t : sched_inv s -> k_tasks s !! current (k_sched s) = Some t -> 0 < counter t -> sched_inv (ticked s).
Proof.
  intros I E Hc. eapply inv_by; [done|intros q; apply alter_by|done|done|]. intros p t' _ _ Ep C [O1 O2]. cbv beta.
  unfold task_ok, MAX_COUNTER in *. destruct (Z.eqb_spec p (current (k_sched s))) as [->|]; [|auto with lia].
  rewrite E in Ep. injection Ep as <-. cbn. unfold s64. rewrite swrap_small by lia. auto with lia.
Qed.

Lemma yielded_ticked_inv s : sched_inv s -> sched_inv (yielded (ticked s)).
Proof.
  intros I. eapply (inv_by (fun q t => if q =? current (k_sched s) then set_counter 0 t else t)); [done| |done|done|].
  - intros q. cbn. rewrite !alter_by. destruct (k_tasks s !! q); [|done]. cbn. by destruct (q =? _).
  - intros p t _ _ _ C [O1 O2]. cbv beta. unfold task_ok, MAX_COUNTER in *. destruct (p =? _); cbn; auto with lia.
Qed.

(** The invariant is about the scheduler, the tasks and the timers. *)
Lemma sched_inv_same s s' : k_sched s' = k_sched s -> k_tasks s' = k_tasks s -> k_timers s' = k_timers s -> sched_inv s -> sched_inv s'.
Proof.
  intros Es Et Em [[L C P J T] B G]. destruct s, s'. cbn in Es, Et, Em. subst. by split; [split|..].
Qed.

(** Changes of the interrupt mask do not matter to the invariant. *)
Lemma masked_inv s c : sched_inv s -> sched_inv (with_cpu c s).
Proof.
  intros I. eapply (inv_by (fun _ t => t)); [done| |done|done|auto 10].
  intros q. cbn. by destruct (k_tasks s !! q).
Qed.

Lemma recharges_kept r : forall s, k_mem (recharges r s) = k_mem s /\ k_console (recharges r s) = k_console s.
Proof. induction r as [|r IH]; intros s; cbn; [done|]. apply (IH (recharge_all s)). Qed.
Lemma switched_kept s r p : k_mem (switched s r p) = k_mem s /\ k_console (switched s r p) = k_console s.
Proof.
  destruct (recharges_kept r (after_check (bump 1 (current (k_sched s)) s))) as [Em Ec]. fold (decision_state s r) in Em, Ec.
  unfold switched. cbn [bump with_tasks k_mem k_console]. unfold do_switch. destruct (_ =? p); [done|]. by destruct (k_tasks _ !! p).
Qed.

(** A tick keeps the invariant, the memory, the tasks that exist and the console. *)
Lemma scheduler_tick_inv s : sched_inv s ->
  exists s', scheduler_tick s = Ok tt s' /\ sched_inv s' /\ k_mem s' = k_mem s
    /\ task_array (k_sched s') = task_array (k_sched s) /\ k_console s' = k_console s.
Proof.
  intros I. destruct (current_task s (si_wf _ I)) as (t & E & O). destruct (sw_cur _ (si_wf _ I)) as [Hc Hc0].
  destruct (si_balanced _ I _ _ Hc ltac:(lia) E) as [Pc C0]. rewrite Z.eqb_refl in Pc.
  rewrite (scheduler_tick_run s t E O) by lia. rewrite Pc. cbn [Z.ltb Z.compare]. rewrite orb_false_r.
  destruct (Z.ltb_spec 1 (counter t)).
  - exists (ticked s). split; [done|]. split; [apply (ticked_inv s t); [done|done|lia]|done].
  - unfold enable_irq. rewrite bind_put.
    destruct (_schedule_inv _ (masked_inv _ (Cpu (c_regs (k_cpu (yielded (ticked s)))) (ttbr0 (k_cpu (yielded (ticked s)))) false)
      (yielded_ticked_inv s I))) as (r & p & R & I' & _).
    rewrite (bind_ok _ _ _ _ _ R). unfold disable_irq. eexists. split; [done|]. split; [by apply masked_inv|].
    cbn [with_cpu k_mem k_sched k_console]. rewrite timers_array_switched, !(proj1 (switched_kept _ _ _)), !(proj2 (switched_kept _ _ _)). done.
Qed.

Inductive sched_op := OpYield | OpTick | OpPriority (taskId prio : Z).
Definition run_sched_op (op : sched_op) : K unit :=
  match op with
  | OpYield => schedule
  | OpTick => scheduler_tick
  | OpPriority i prio => set_task_priority i prio
  end.
Fixpoint run_sched_ops (ops : list sched_op) : K unit :=
  match ops with [] => mret tt | op :: ops => _ ← run_sched_op op; run_sched_ops ops end.

(** Slots exist and priorities are positive 8-bit values. *)
Definition op_ok (op : sched_op) : Prop :=
  match op with OpPriority i prio => 0 <= i < 64 /\ 1 <= prio <= 255 | _ => True end.

Lemma run_sched_op_inv op s : sched_inv s -> op_ok op -> exists s', run_sched_op op s = Ok tt s' /\ sched_inv s'.
Proof.
  intros I Hop. destruct op as [| |i prio]; cbn [run_sched_op].
  - rewrite (schedule_yields s I). destruct (_schedule_inv _ (yielded_inv s I)) as (r & p & R & I' & _). eauto.
  - destruct (scheduler_tick_inv s I) as (s' & R & I' & _). eauto.
  - destruct Hop as [Hi Hp]. destruct (sched_slot s i (si_wf _ I) Hi) as [p Ep]. unfold set_task_priority.
    rewrite (bind_ok _ _ _ _ _ (array_get_ok s i p (proj1 Hi) Ep)).
    assert (Hin : p ∈ task_array (k_sched s)) by (by apply list_elem_of_lookup_2 in Ep).
    destruct (sw_ptr _ (si_wf _ I) p Hin) as [->|(Hp0 & t & Et & _)]; [by exists s|].
    replace (p =? 0) with false by lia. rewrite (modify_alter _ _ _ _ Et). eexists. split; [done|].
    eapply inv_by; [done|intros q; apply alter_by|done|done|]. intros q x _ _ _ C [O1 O2]. cbv beta.
    unfold task_ok in *. destruct (q =? p); cbn; auto with lia.
Qed.

Lemma run_sched_ops_inv ops : forall s, sched_inv s -> Forall op_ok ops ->
  exists s', run_sched_ops ops s = Ok tt s' /\ sched_inv s'.
Proof.
  induction ops as [|op ops IH]; intros s I H; [by exists s|].
  apply Forall_cons in H as [Hop H]. destruct (run_sched_op_inv op s I Hop) as (s1 & R & I1).
  destruct (IH s1 I1 H) as (s2 & R2 & I2). exists s2. cbn. by rewrite (bind_ok _ _ _ _ _ R).
Qed.

(** ** Tasks that cannot run *)

(** The task at [p] is not runnable, no timer will wake it, and it is not the
    one running. *)
Definition stopped (p : Z) (s : kstate) : Prop :=
  p <> 0 /\ p <> current (k_sched s)
  /\ (exists t, k_tasks s !! p = Some t /\ state t <> TASK_STATE_RUNNING)
  /\ Forall (fun t => task_ptr t <> p) (timer_arr (k_timers s)).

Lemma unarmed_not_woken now l p : Forall (fun t => task_ptr t <> p) l -> woken now l p = false.
Proof.
  induction 1 as [|t l Ht _ IH]; [done|]. unfold woken in *. cbn. rewrite IH, orb_false_r.
  replace (task_ptr t =? p) with false by lia. apply andb_false_r.
Qed.

Lemma recharges_task r : forall s p t, k_tasks s !! p = Some t ->
  exists t', k_tasks (recharges r s) !! p = Some t' /\ state t' = state t.
Proof.
  induction r as [|r IH]; intros s p t E; [by exists t|]. cbn.
  destruct (IH (recharge_all s) p (if in_array s p then recharge t else t)) as (t' & E' & H).
  - by rewrite (recharge_by s), E.
  - exists t'. split; [done|]. rewrite H. by destruct (in_array s p).
Qed.
Lemma recharges_timers r : forall s, k_timers (recharges r s) = k_timers s.
Proof. induction r as [|r IH]; intros s; cbn; [done|]. by rewrite IH. Qed.

Lemma decision_state_of s r p t :
  Forall (fun t => task_ptr t <> p) (timer_arr (k_timers s)) -> k_tasks s !! p = Some t ->
  exists t', k_tasks (decision_state s r) !! p = Some t' /\ state t' = state t.
Proof.
  intros T E. unfold decision_state.
  destruct (recharges_task r (after_check (bump 1 (current (k_sched s)) s)) p
    (if p =? current (k_sched s) then add_preempt 1 t else t)) as (t' & E' & H).
  - rewrite after_check_task, (bump_by 1 (current (k_sched s)) s), E. cbn. unfold wake.
    by rewrite unarmed_not_woken.
  - exists t'. split; [done|]. rewrite H. by destruct (p =? _).
Qed.

Lemma switched_timers s r p : is_Some (k_tasks (decision_state s r) !! p) ->
  k_timers (switched s r p) = k_timers (after_check s).
Proof.
  intros [t E]. unfold switched. cbn. unfold do_switch. destruct (_ =? p); [|rewrite E; cbn];
    unfold decision_state; by rewrite recharges_timers.
Qed.

Lemma stopped_switched s r q i c p start :
  sched_wf s -> stopped p s -> wins (decision_state s r) start i c ->
  task_array (k_sched s) !! Z.to_nat i = Some q -> 0 < q -> stopped p (switched s r q).
Proof.
  intros W (Hp & _ & (t & Et & Hs) & T) (k & _ & _ & Ec & _) Eq Hq.
  assert (Hin : q ∈ task_array (k_sched s)) by (by apply list_elem_of_lookup_2 in Eq).
  destruct (decision_state_of s r p t T Et) as (t1 & E1 & S1).
  destruct (cand_inv _ _ _ Ec) as (q' & tq & Eq' & _ & Etq & Sq & _).
  rewrite decision_sched, Eq in Eq'. injection Eq' as <-.
  destruct (switched_task s r q p t1 E1 ltac:(eauto)) as (t2 & E2 & _ & _ & S2 & _).
  split; [done|]. split.
  - rewrite switched_current by done. intros ->. rewrite E1 in Etq. injection Etq as <-. congruence.
  - split; [exists t2; split; [done|congruence]|]. rewrite switched_timers by eauto. cbn.
    apply Forall_fmap. eapply Forall_impl; [exact T|]. intros x Hx. cbn. unfold clear_expired. by destruct (expired _ x).
Qed.

(** ** Without timers, decisions depend on states and counters only *)

Definition no_timers (s : kstate) : Prop := Forall (fun t => task_ptr t = 0) (timer_arr (k_timers s)).

(** Two states with the same slots, states and counters. *)
Definition same_cands (s s' : kstate) : Prop := forall i, cand s' i = cand s i.

(** The number of runnable tasks with credit. *)
Definition positive (s : kstate) (i : Z) : bool := match cand s i with Some c => 0 <? c | None => false end.
Definition n_positive (s : kstate) : nat := length (filter (fun i => positive s i = true) (seqZ 0 64)).

Lemma filter_le_on (P Q : Z -> bool) : forall l : list Z,
  (forall y, y ∈ l -> Q y = true -> P y = true) ->
  (length (filter (fun y => Q y = true) l) <= length (filter (fun y => P y = true) l))%nat.
Proof.
  induction l as [|y l IH]; intros H; [done|]. rewrite !filter_cons. pose proof (H y ltac:(left)) as Hy.
  specialize (IH (fun z Hz => H z ltac:(by right))).
  destruct (decide (Q y = true)), (decide (P y = true)); cbn; lia || tauto.
Qed.
Lemma filter_lt_on (P Q : Z -> bool) x : forall l : list Z,
  (forall y, y ∈ l -> Q y = true -> P y = true) -> x ∈ l -> P x = true -> Q x = false ->
  (length (filter (fun y => Q y = true) l) < length (filter (fun y => P y = true) l))%nat.
Proof.
  induction l as [|y l IH]; intros H Hx HP HQ; [by apply elem_of_nil in Hx|]. rewrite !filter_cons.
  pose proof (H y ltac:(left)) as Hy. assert (Hl : forall z, z ∈ l -> Q z = true -> P z = true) by (intros z Hz; apply H; by right).
  apply elem_of_cons in Hx as [<-|Hx].
  - rewrite decide_False by congruence. rewrite decide_True by done. cbn. pose proof (filter_le_on P Q l Hl). lia.
  - specialize (IH Hl Hx HP HQ). destruct (decide (Q y = true)), (decide (P y = true)); cbn; lia || tauto.
Qed.

Lemma n_positive_le s : (n_positive s <= 64)%nat.
Proof. unfold n_positive. etrans; [apply length_filter|]. by rewrite length_seqZ. Qed.

(** A task that can always be chosen, in slot [i]. *)
Definition live_slot (s : kstate) (i p : Z) : Prop :=
  0 <= i < 64 /\ task_array (k_sched s) !! Z.to_nat i = Some p /\ 0 < p
  /\ exists t, k_tasks s !! p = Some t /\ state t = TASK_STATE_RUNNING /\ 1 <= priority t.

(** Yields left before slot [i] is certainly chosen, in a state where the running
    task has given up its credit. *)
Definition wait_bound (s : kstate) (i : Z) : nat :=
  if positive s i then n_positive s else 65 + n_positive s.

Lemma cand_slot s i p t : task_array (k_sched s) !! Z.to_nat i = Some p -> 0 < p -> k_tasks s !! p = Some t ->
  cand s i = if bool_decide (state t = TASK_STATE_RUNNING) then Some (counter t) else None.
Proof. intros E Hp Et. unfold cand. rewrite E. cbn. replace (p =? 0) with false by lia. by rewrite Et. Qed.

Lemma recharges_credit r : forall s p t,
  sched_wf s -> p ∈ task_array (k_sched s) -> p <> 0 -> k_tasks s !! p = Some t -> 1 <= priority t ->
  0 <= counter t -> 0 < Z.of_nat r + counter t ->
  exists t', k_tasks (recharges r s) !! p = Some t' /\ 1 <= counter t' /\ state t' = state t /\ priority t' = priority t.
Proof.
  induction r as [|r IH]; intros s p t W Hin Hp E Hpr C0 C1; [exists t; split; [done|]; split; [lia|done]|]. cbn.
  destruct (sw_ptr _ W p Hin) as [|(_ & t0 & E0 & O)]; [done|]. rewrite E in E0. injection E0 as <-.
  destruct (recharge_ok t O) as [_ Ec].
  destruct (IH (recharge_all s) p (recharge t)) as (t' & E' & H1 & H2 & H3); [by apply recharge_wf|done|done| |done| | |].
  - rewrite (recharge_by s), E. cbn. unfold in_array. replace (p =? 0) with false by lia.
    by rewrite bool_decide_eq_true_2.
  - rewrite Ec. Z.to_euclidean_division_equations; lia.
  - rewrite Ec. Z.to_euclidean_division_equations; lia.
  - exists t'. auto.
Qed.

Lemma no_timers_unarmed s p : no_timers s -> p <> 0 -> Forall (fun t => task_ptr t <> p) (timer_arr (k_timers s)).
Proof. intros H Hp. eapply Forall_impl; [exact H|]. cbn. congruence. Qed.

Lemma no_timers_woken now l p : Forall (fun t => task_ptr t = 0) l -> woken now l p = false.
Proof.
  induction 1 as [|t l Ht _ IH]; [done|]. unfold woken in *. cbn. rewrite IH. unfold expired. by rewrite Ht.
Qed.

Lemma decision_cand0 s i : no_timers s -> cand (decision_state s 0) i = cand s i.
Proof.
  intros T. transitivity (cand (bump 1 (current (k_sched s)) s) i).
  - eapply cand_by; [apply after_check_by|done|]. intros p t. unfold wake. by rewrite no_timers_woken.
  - eapply cand_by; [apply bump_by|done|]. intros p t. cbv beta. by destruct (p =? _).
Qed.

(** The yielded state has the candidates of [s] without the credit of its
    running task. *)
Lemma yielded_positive s i : sched_wf s -> 0 <= i < 64 ->
  positive (yielded s) i = positive s i && negb (bool_decide (task_array (k_sched s) !! Z.to_nat i = Some (current (k_sched s)))).
Proof.
  intros W Hi. unfold positive, cand. change (k_sched (yielded s)) with (k_sched s).
  destruct (_ !! Z.to_nat i) as [p|]; [|done]. cbn. destruct (Z.eqb_spec p 0); [done|].
  rewrite alter_by. destruct (k_tasks s !! p) as [t|]; [|done]. cbn.
  destruct (Z.eqb_spec p (current (k_sched s))) as [->|N].
  - rewrite (bool_decide_eq_true_2 (Some _ = Some _)) by done. cbn. rewrite andb_false_r. by destruct (bool_decide _).
  - rewrite (bool_decide_eq_false_2 (Some p = _)) by congruence. cbn. by rewrite andb_true_r.
Qed.

Lemma live_slot_decision s r i p : sched_wf s -> live_slot s i p ->
  exists t, k_tasks (decision_state s r) !! p = Some t /\ state t = TASK_STATE_RUNNING /\ 1 <= priority t.
Proof.
  intros W (_ & E & Hp & t & Et & Hs & Hpr).
  destruct (decision_task s r p t W Et) as (t' & E' & _ & P & S & _). exists t'. rewrite P. auto.
Qed.

Lemma switched_live s r i p q : sched_wf s -> q ∈ task_array (k_sched s) -> 0 < q ->
  live_slot s i p -> live_slot (switched s r q) i p.
Proof.
  intros W Hq Hq0 L. destruct (live_slot_decision s r i p W L) as (t & E & Hs & Hpr).
  destruct (slot_task (decision_state s r) q) as [tq Eq]; [by apply decision_wf|by rewrite decision_sched|done|].
  destruct (switched_task s r q p t E ltac:(eauto)) as (t' & E' & _ & P & S & _).
  destruct L as (Hi & Ei & Hp & _). split; [done|]. rewrite timers_array_switched. split; [done|]. split; [done|].
  exists t'. rewrite P, S. done.
Qed.

(** One decision from a state [z] whose running task has no credit: slot [i] is
    chosen or its bound decreases. *)
Lemma wait_decreases z i p : sched_inv z -> no_timers z -> live_slot z i p ->
  exists r q, _schedule z = Ok tt (switched z r q) /\ sched_inv (switched z r q) /\ no_timers (switched z r q)
    /\ live_slot (switched z r q) i p
    /\ (q = p \/ (wait_bound (yielded (switched z r q)) i < wait_bound z i)%nat)
    /\ current (k_sched (switched z r q)) = q.
Proof.
  intros I T L. destruct I as [W B P]. destruct (current_slot z W) as (start & Hst & Es).
  destruct (_schedule_run z start W (after_check_progress z P) Hst Es) as (r & j & c & q & R & Hw & Hc & Hex & Eq & Hq).
  assert (Hin : q ∈ task_array (k_sched z)) by (by apply list_elem_of_lookup_2 in Eq).
  pose proof (switched_inv z r q W (after_check_progress z P) Hin Hq B) as I'.
  destruct (slot_task (decision_state z r) q) as [tq Etq]; [by apply decision_wf|by rewrite decision_sched|done|].
  exists r, q. split; [done|]. split; [done|]. split; [|split; [by apply switched_live|split]].
  { unfold no_timers. rewrite switched_timers by eauto. cbn. apply Forall_fmap. eapply Forall_impl; [exact T|].
    intros x Hx. cbn. unfold clear_expired. by destruct (expired _ x). }
  2: by apply switched_current.
  destruct (Z.eq_dec q p) as [|Hqp]; [by left|right]. destruct L as (Hi & Ei & Hp & t & Et & Hs & Hpr).
  set (s' := switched z r q). assert (W' : sched_wf s') by apply I'.
  assert (Ecur : current (k_sched s') = q) by (by apply switched_current).
  pose proof (timers_array_switched z r q : task_array (k_sched s') = _) as Earr.
  assert (Ei' : positive (yielded s') i = positive (decision_state z r) i).
  { rewrite yielded_positive by done. rewrite Earr, Ei, Ecur. unfold positive, s'. rewrite switched_cand by eauto.
    rewrite (bool_decide_eq_false_2 (Some p = _)) by congruence. apply andb_true_r. }
  unfold wait_bound. rewrite Ei'. destruct r as [|r].
  - assert (Hd : forall k, positive (decision_state z 0) k = positive z k).
    { intros k. unfold positive. by rewrite decision_cand0. }
    rewrite Hd. assert (N : (n_positive (yielded s') < n_positive z)%nat).
    { destruct Hw as (k & Hk & Ej & Ec & _). assert (Hj : 0 <= j < 64) by (subst j; apply Z.mod_pos_bound; lia).
      assert (Hpos : forall y, positive s' y = positive z y).
      { intros y. rewrite <- Hd. unfold positive, s'. by rewrite switched_cand by eauto. }
      apply (filter_lt_on (positive z) (positive (yielded s')) j).
      - intros y Hy. apply elem_of_seqZ in Hy. rewrite yielded_positive, Hpos by (done || lia). by intros [? _]%andb_prop.
      - apply elem_of_seqZ. lia.
      - rewrite <- Hd. unfold positive. rewrite Ec. by apply Z.ltb_lt.
      - rewrite yielded_positive by done. rewrite Earr, Eq, Ecur.
        rewrite (bool_decide_eq_true_2 (Some q = Some q)) by done. apply andb_false_r. }
    destruct (positive z i); lia.
  - assert (Hz : positive z i = false).
    { unfold positive. rewrite <- (decision_cand0 z i T). destruct (cand (decision_state z 0) i) as [ci|] eqn:Eci; [|done].
      pose proof (Hex 0%nat ltac:(lia) i ci Hi Eci). apply Z.ltb_ge. lia. }
    assert (Hd : positive (decision_state z (S r)) i = true).
    { destruct (decision_task z 0 p t W Et) as (t1 & E1 & _ & P1 & S1 & C1).
      assert (Hinp : p ∈ task_array (k_sched z)) by (by apply list_elem_of_lookup_2 in Ei).
      destruct (sw_ptr _ W p Hinp) as [|(_ & t' & Et' & O)]; [lia|]. rewrite Et in Et'. injection Et' as <-.
      destruct (B p t Hinp ltac:(lia) Et) as [_ C0]. destruct (C1 C0 O) as [C2 _].
      destruct (recharges_credit (S r) (decision_state z 0) p t1) as (t2 & E2 & C3 & S2 & _);
        [by apply decision_wf|by rewrite decision_sched|lia|done|lia|done|lia|].
      unfold positive. rewrite (cand_slot (decision_state z (S r)) i p t2); [|by rewrite decision_sched|done|exact E2].
      rewrite S2, (S1 Hs). rewrite bool_decide_eq_true_2 by done. apply Z.ltb_lt. lia. }
    rewrite Hz, Hd. pose proof (n_positive_le (yielded s')). lia.
Qed.

(** ** No task can run *)

Definition none_runnable (s : kstate) : Prop := forall i, cand s i = None.

Lemma recharge_none s : none_runnable s -> none_runnable (recharge_all s).
Proof.
  intros H i. specialize (H i). unfold cand in *. change (k_sched (recharge_all s)) with (k_sched s).
  destruct (_ !! Z.to_nat i) as [p|]; [|done]. cbn [mbind option_bind] in *. destruct (p =? 0); [done|].
  rewrite (recharge_by s). destruct (k_tasks s !! p) as [t|]; [|done].
  cbn [fmap option_fmap option_map mbind option_bind] in *. destruct (in_array s p); [|done].
  change (state (recharge t)) with (state t). by destruct (bool_decide _).
Qed.

Lemma schedule_body_spins s : sched_wf s -> none_runnable s ->
  exists u s', schedule_body tt s = Ok (inl u) s' /\ sched_wf s' /\ none_runnable s'.
Proof.
  intros W N. destruct (current_slot s W) as (start & Hst & E).
  destruct (schedule_body_run s start W Hst E) as [(i & c & _ & (k & _ & _ & Ec & _) & _)|[R _]].
  - by rewrite N in Ec.
  - exists tt, (recharge_all s). split; [done|]. split; [by apply recharge_wf|by apply recharge_none].
Qed.

(** ** Ticks that do not schedule *)

Lemma ticked_task s t : k_tasks s !! current (k_sched s) = Some t -> - 2 ^ 31 + 1 < counter t <= MAX_COUNTER ->
  k_tasks (ticked s) !! current (k_sched (ticked s)) = Some (set_counter (counter t - 1) t).
Proof.
  intros E Hc. unfold MAX_COUNTER in Hc. cbn. rewrite lookup_alter_eq, E. cbn. unfold s64. by rewrite swrap_small by lia.
Qed.

Lemma ticks_run n : forall s t,
  k_tasks s !! current (k_sched s) = Some t -> task_ok t -> - 2 ^ 31 + Z.of_nat n < counter t ->
  Z.of_nat n < counter t \/ 0 < preempt_count t ->
  exists s', run_sched_ops (replicate n OpTick) s = Ok tt s' /\ k_sched s' = k_sched s
    /\ k_tasks s' !! current (k_sched s) = Some (set_counter (counter t - Z.of_nat n) t)
    /\ timer_arr (k_timers s') = timer_arr (k_timers s).
Proof.
  induction n as [|n IH]; intros s t E O Hlo H.
  - exists s. cbn. rewrite Z.sub_0_r. split; [done|]. split; [done|]. split; [|done]. rewrite E. by destruct t.
  - cbn [replicate run_sched_ops run_sched_op].
    assert (R : scheduler_tick s = Ok tt (ticked s)).
    { rewrite (scheduler_tick_run s t E O) by lia. by replace ((1 <? counter t) || (0 <? preempt_count t)) with true by lia. }
    rewrite (bind_ok _ _ _ _ _ R). destruct O as [O1 O2].
    destruct (IH (ticked s) (set_counter (counter t - 1) t)) as (s' & R' & Es & Et & Ea); cbn [counter preempt_count set_counter]; try lia.
    + apply ticked_task; [done|lia].
    + unfold task_ok in *. cbn. lia.
    + exists s'. split; [done|]. split; [done|]. split; [|done]. cbn in Et. rewrite Et.
      unfold set_counter. cbn. do 2 f_equal. lia.
Qed.

(** ** Properties *)

(** [_schedule] from [s] ends with the task at [p] running, chosen after [r]
    recharges. *)
Definition selects (s : kstate) (r : nat) (p : Z) : Prop :=
  exists start i c, task_array (k_sched s) !! Z.to_nat start = Some (current (k_sched s))
    /\ task_array (k_sched s) !! Z.to_nat i = Some p
    /\ wins (decision_state s r) start i c /\ 0 < c
    /\ (forall r', (r' < r)%nat -> exhausted (decision_state s r')).



Lemma stopped_op p op s s' : sched_inv s -> op_ok op -> stopped p s -> run_sched_op op s = Ok tt s' -> stopped p s'.
Proof.
  assert (Keep : forall f s s', tasks_by f s s' -> (forall q t, state (f q t) = state t) -> k_sched s' = k_sched s ->
    timer_arr (k_timers s') = timer_arr (k_timers s) -> stopped p s -> stopped p s').
  { intros f x y F Hf Es Et (H0 & H1 & (t & E & Hs) & H3). unfold stopped. rewrite Es, Et. split; [done|]. split; [done|].
    split; [|done]. exists (f p t). rewrite F, E, Hf. done. }
  assert (Sched : forall x y, sched_inv x -> stopped p x -> _schedule x = Ok tt y -> stopped p y).
  { intros x y [W _ P] Hst R. destruct (current_slot x W) as (start & Hs & E).
    destruct (_schedule_run x start W (after_check_progress x P) Hs E) as (r & i & c & q & Run & Hw & _ & _ & Eq & Hq).
    rewrite R in Run. injection Run as ->. by eapply stopped_switched. }
  assert (Yield : forall x, stopped p x -> stopped p (yielded x)).
  { intros x. apply (Keep _ x (yielded x) (fun q => alter_by _ _ _ q)); [|done|done]. intros q t. cbv beta. by destruct (q =? _). }
  intros I Hop Hst R. destruct op as [| |i prio]; cbn [run_sched_op] in R.
  - rewrite (schedule_yields s I) in R. apply (Sched (yielded s)); [by apply yielded_inv|by apply Yield|done].
  - destruct (current_task s (si_wf _ I)) as (t & E & O). destruct (sw_cur _ (si_wf _ I)) as [Hc Hc0].
    destruct (si_balanced _ I _ _ Hc ltac:(lia) E) as [Pc C0].
    rewrite (scheduler_tick_run s t E O) in R by lia.
    assert (Ht : stopped p (ticked s)).
    { apply (Keep _ s (ticked s) (fun q => alter_by _ _ _ q)); [|done|done|done]. intros q x. cbv beta. by destruct (q =? _). }
    destruct (_ || _); [by injection R as <-|]. unfold enable_irq in R. rewrite bind_put in R.
    apply bind_inv in R as ([] & s1 & R1 & R2). unfold disable_irq in R2. injection R2 as <-.
    eapply (Sched _ s1) in R1; [exact R1|by apply masked_inv, yielded_ticked_inv|by apply Yield].
  - destruct Hop as [Hi Hp]. destruct (sched_slot s i (si_wf _ I) Hi) as [q Eq]. unfold set_task_priority in R.
    rewrite (bind_ok _ _ _ _ _ (array_get_ok s i q (proj1 Hi) Eq)) in R.
    assert (Hin : q ∈ task_array (k_sched s)) by (by apply list_elem_of_lookup_2 in Eq).
    destruct (sw_ptr _ (si_wf _ I) q Hin) as [->|(Hp0 & t & Et & _)]; [by injection R as <-|].
    replace (q =? 0) with false in R by lia. rewrite (modify_alter _ _ _ _ Et) in R. injection R as <-.
    eapply (Keep _ s); [intros x; apply alter_by| |done|done|done]. intros x y. cbv beta. by destruct (x =? q).
Qed.

Lemma stopped_ops p ops : forall s, sched_inv s -> Forall op_ok ops -> stopped p s ->
  exists s', run_sched_ops ops s = Ok tt s' /\ stopped p s'.
Proof.
  induction ops as [|op ops IH]; intros s I H Hst; [by exists s|].
  apply Forall_cons in H as [Hop H]. destruct (run_sched_op_inv op s I Hop) as (s1 & R & I1).
  destruct (IH s1 I1 H (stopped_op p op s s1 I Hop Hst R)) as (s2 & R2 & I2). exists s2. cbn. by rewrite (bind_ok _ _ _ _ _ R).
Qed.

(** A task that is not runnable and that no timer names, in particular a
    zombie, stays so and is never the running task, whatever the ticks, yields
    and priority changes. *)
Theorem stopped_task_never_runs p ops s :
  sched_inv s -> Forall op_ok ops -> stopped p s ->
  exists s', run_sched_ops ops s = Ok tt s' /\ stopped p s'.
Proof. apply stopped_ops. Qed.

Lemma yielded_live s i p : live_slot s i p -> live_slot (yielded s) i p.
Proof.
  intros (Hi & Ei & Hp & t & Et & Hs & Hpr). split; [done|]. split; [done|]. split; [done|].
  eexists. split; [cbn; rewrite alter_by, Et; reflexivity|]. cbn. by destruct (p =? _).
Qed.

Lemma yields_reach i p n : forall s, sched_inv s -> no_timers s -> live_slot s i p ->
  (wait_bound (yielded s) i <= n)%nat ->
  exists k s', (k <= S n)%nat /\ run_sched_ops (replicate k OpYield) s = Ok tt s' /\ current (k_sched s') = p.
Proof.
  induction n as [|n IH]; intros s I T L Hn; pose proof (yielded_live s i p L) as LY;
    destruct (wait_decreases (yielded s) i p (yielded_inv s I) T LY) as (r & q & R & I' & T' & L' & [->|Hdec] & Ec);
    rewrite <- (schedule_yields s I) in R.
  - exists 1%nat, (switched (yielded s) r p). split; [lia|]. split; [|done]. cbn [replicate run_sched_ops run_sched_op].
    by rewrite (bind_ok _ _ _ _ _ R).
  - lia.
  - exists 1%nat, (switched (yielded s) r p). split; [lia|]. split; [|done]. cbn [replicate run_sched_ops run_sched_op].
    by rewrite (bind_ok _ _ _ _ _ R).
  - destruct (IH _ I' T' L' ltac:(lia)) as (k & s' & Hk & R' & Hcur). exists (S k), s'. split; [lia|].
    split; [|done]. cbn [replicate run_sched_ops run_sched_op].
    by rewrite (bind_ok _ _ _ _ _ R).
Qed.

(** C28. Bounded waiting: when no timer is pending, a runnable task with a
    positive priority runs after at most 130 yields of the tasks chosen before
    it. *)
Theorem yield_reaches_every_task s i p :
  sched_inv s -> no_timers s -> live_slot s i p ->
  exists k s', (k <= 130)%nat /\ run_sched_ops (replicate k OpYield) s = Ok tt s' /\ current (k_sched s') = p.
Proof.
  intros I T L. apply (yields_reach i p 129); [done..|]. unfold wait_bound. pose proof (n_positive_le (yielded s)).
  destruct (positive _ i); lia.
Qed.

(** A task keeps the processor for as many ticks as its counter: during [n]
    ticks with [n] below the counter nothing is switched and the counter drops
    by [n]. *)
Theorem time_slice s t n :
  sched_inv s -> k_tasks s !! current (k_sched s) = Some t -> Z.of_nat n < counter t ->
  exists s', run_sched_ops (replicate n OpTick) s = Ok tt s' /\ k_sched s' = k_sched s
    /\ k_tasks s' !! current (k_sched s) = Some (set_counter (counter t - Z.of_nat n) t).
Proof.
  intros [W B _] E Hn. destruct (current_task s W) as (t0 & E0 & O). rewrite E in E0. injection E0 as <-.
  destruct (ticks_run n s t E O ltac:(lia) ltac:(by left)) as (s' & R & Es & Et & _). eauto.
Qed.

(** Ticks never switch tasks while the running task has preemption disabled;
    they are charged to it, so its counter becomes negative. *)
Theorem no_switch_in_critical_section s t n :
  sched_wf s -> k_tasks s !! current (k_sched s) = Some t -> 0 < preempt_count t ->
  - 2 ^ 31 + Z.of_nat n < counter t ->
  exists s', run_sched_ops (replicate n OpTick) s = Ok tt s' /\ k_sched s' = k_sched s
    /\ k_tasks s' !! current (k_sched s) = Some (set_counter (counter t - Z.of_nat n) t).
Proof.
  intros W E Hp Hn. destruct (current_task s W) as (t0 & E0 & O). rewrite E in E0. injection E0 as <-.
  destruct (ticks_run n s t E O Hn ltac:(by right)) as (s' & R & Es & Et & _). eauto.
Qed.

(** When no task is runnable after the expired timers are handled, the
    selection loop never ends: timers are only examined before it, so no later
    expiry can get the kernel out of it. *)
Theorem schedule_spins_when_none_runnable s :
  sched_wf s -> none_runnable (after_check (bump 1 (current (k_sched s)) s)) ->
  (forall n, exists u s', turns schedule_body n tt (after_check (bump 1 (current (k_sched s)) s)) = Ok (inl u) s')
  /\ _schedule s = Err OutOfFuel.
Proof.
  intros W N. set (s1 := after_check (bump 1 (current (k_sched s)) s)) in *.
  assert (W0 : sched_wf (bump 1 (current (k_sched s)) s)) by (by apply bump_wf).
  assert (W1 : sched_wf s1) by (by apply after_check_wf).
  pose (I := fun (_ : unit) x => sched_wf x /\ none_runnable x).
  assert (Hb : forall u x, I u x -> exists u' x', schedule_body u x = Ok (inl u') x' /\ I u' x').
  { intros [] x [Wx Nx]. destruct (schedule_body_spins x Wx Nx) as (u & x' & R & W' & N'). by exists u, x'. }
  split.
  - intros n. destruct (turns_never schedule_body I Hb n tt s1) as (u & s' & R & _); [done|eauto].
  - unfold _schedule. rewrite (bind_ok _ _ _ _ _ (preempt_run 1 s W)).
    rewrite (bind_ok _ _ _ _ _ (check_timers_run _ (sw_timers _ W0))). fold s1.
    rewrite (bind_err _ _ _ OutOfFuel); [done|]. by apply (loop_never schedule_body I).
Qed.

(** ** Concrete instances *)

Definition sample_task (st : TaskState) (c prio pre : Z) : task_struct :=
  Task zero_context st c prio pre 0 0 zero_mm (FdTable 0 0).

(** Three tasks at 4096, 8192 and 12288; the first one runs. *)
Definition three_tasks (t1 t2 t3 : task_struct) : kstate :=
  with_tasks {[4096 := t1; 8192 := t2; 12288 := t3]}
    (with_sched (SchedGlobals 4096 ([4096; 8192; 12288] ++ replicate 61 0) 3) (boot_state (fun _ => true) ∅ 1)).

Lemma three_slots p : p ∈ [4096; 8192; 12288] ++ replicate 61 0 -> p = 4096 \/ p = 8192 \/ p = 12288 \/ p = 0.
Proof.
  rewrite elem_of_app, !elem_of_cons, elem_of_nil, elem_of_replicate. tauto.
Qed.

Lemma three_index n p : ([4096; 8192; 12288] ++ replicate 61 0) !! n = Some p -> p <> 0 ->
  (n = 0%nat /\ p = 4096) \/ (n = 1%nat /\ p = 8192) \/ (n = 2%nat /\ p = 12288).
Proof.
  destruct n as [|[|[|n]]]; cbn [app lookup list_lookup]; [intros [= <-]; auto..|].
  intros [-> _]%lookup_replicate_1. done.
Qed.

Lemma three_wf t1 t2 t3 : task_ok t1 -> task_ok t2 -> task_ok t3 -> sched_wf (three_tasks t1 t2 t3).
Proof.
  intros O1 O2 O3. split.
  - done.
  - split; [left|done].
  - intros p [->|[->|[->| ->]]]%three_slots; [right..|by left]; (split; [done|]); eexists; (split; [reflexivity|done]).
  - intros i j p Hi Hj Hp. apply three_index in Hi, Hj; [|done..]. lia.
  - split; [done|]. repeat constructor; done.
Qed.

Definition sample_sched : kstate :=
  three_tasks (sample_task TASK_STATE_RUNNING 2 1 0) (sample_task TASK_STATE_RUNNING 0 3 1) (sample_task TASK_STATE_ZOMBIE 4 1 1).

Ltac task_range := unfold task_ok, MAX_COUNTER; cbn; lia.

Lemma sample_sched_wf : sched_wf sample_sched.
Proof. apply three_wf; task_range. Qed.
Lemma sample_progress : can_progress sample_sched.
Proof. exists 8192, (sample_task TASK_STATE_RUNNING 0 3 1). split; [right; left|]. done. Qed.
Lemma sample_sched_inv : sched_inv sample_sched.
Proof.
  split; [apply sample_sched_wf| |apply sample_progress].
  intros p t [->|[->|[->| ->]]]%three_slots _; vm_compute; intros [= <-]; split; (reflexivity || discriminate).
Qed.

(** The state [main] starts in has the invariant: the first task runs and is the only one. *)
Lemma boot_tasks mapped image init p : p ∈ task_array (k_sched (boot_state mapped image init)) -> p = init \/ p = 0.
Proof. cbn [boot_state k_sched task_array]. rewrite elem_of_cons, elem_of_replicate. tauto. Qed.
Lemma boot_sched_inv mapped image init : 0 < init -> sched_inv (boot_state mapped image init).
Proof.
  intros Hi. assert (O : task_ok INIT_TASK) by task_range.
  assert (E : k_tasks (boot_state mapped image init) !! init = Some INIT_TASK) by apply lookup_singleton_eq.
  split; [split| |].
  - done.
  - split; [left|done].
  - intros p [->| ->]%boot_tasks; [right|by left]. split; [done|]. by exists INIT_TASK.
  - intros i j p. cbn [boot_state k_sched task_array]. destruct i as [|i], j as [|j]; [done|..]; cbn [lookup list_lookup].
    + intros [= <-] [-> _]%lookup_replicate_1. lia.
    + intros [-> _]%lookup_replicate_1 [= H]. lia.
    + intros [-> _]%lookup_replicate_1. done.
  - split; [done|]. repeat constructor; done.
  - intros p t [->| ->]%boot_tasks Hp; [|done]. rewrite E. intros [= <-]. cbn. by rewrite Z.eqb_refl.
  - exists init, INIT_TASK. split; [left|]. split; [lia|done].
Qed.



(** The zombie at 12288. *)
Lemma stopped_task_never_runs_witness :
  exists s', run_sched_ops [OpTick; OpYield; OpYield] sample_sched = Ok tt s' /\ stopped 12288 s'.
Proof.
  apply stopped_task_never_runs; [apply sample_sched_inv|repeat constructor|].
  split; [done|]. split; [done|]. split; [eexists; split; [reflexivity|done]|]. repeat constructor; done.
Defined.

Lemma yield_reaches_every_task_witness :
  exists k s', (k <= 130)%nat /\ run_sched_ops (replicate k OpYield) sample_sched = Ok tt s' /\ current (k_sched s') = 8192.
Proof.
  apply (yield_reaches_every_task sample_sched 1 8192); [apply sample_sched_inv|repeat constructor|].
  split; [done|]. split; [done|]. split; [done|]. eexists. split; [reflexivity|]. done.
Defined.

Lemma time_slice_witness :
  exists s', run_sched_ops (replicate 1 OpTick) sample_sched = Ok tt s' /\ k_sched s' = k_sched sample_sched
    /\ k_tasks s' !! current (k_sched sample_sched) = Some (set_counter (2 - Z.of_nat 1) (sample_task TASK_STATE_RUNNING 2 1 0)).
Proof. apply (time_slice sample_sched (sample_task TASK_STATE_RUNNING 2 1 0) 1); [apply sample_sched_inv|reflexivity|cbn; lia]. Defined.

(** The first task in a critical section for ten ticks. *)
Lemma no_switch_in_critical_section_witness :
  let s := three_tasks (sample_task TASK_STATE_RUNNING 2 1 1) (sample_task TASK_STATE_RUNNING 5 3 1) (sample_task TASK_STATE_RUNNING 4 1 1) in
  exists s', run_sched_ops (replicate 10 OpTick) s = Ok tt s' /\ k_sched s' = k_sched s
    /\ k_tasks s' !! current (k_sched s) = Some (set_counter (2 - Z.of_nat 10) (sample_task TASK_STATE_RUNNING 2 1 1)).
Proof.
  intros s. apply (no_switch_in_critical_section s (sample_task TASK_STATE_RUNNING 2 1 1) 10);
    [apply three_wf; task_range|reflexivity|cbn; lia|cbn; lia].
Defined.

(** The running task blocked, the others zombies. *)
Lemma schedule_spins_when_none_runnable_witness :
  let s := three_tasks (sample_task TASK_STATE_BLOCKED 0 1 0) (sample_task TASK_STATE_ZOMBIE 5 3 1) (sample_task TASK_STATE_ZOMBIE 4 1 1) in
  (forall n, exists u s', turns schedule_body n tt (after_check (bump 1 (current (k_sched s)) s)) = Ok (inl u) s')
  /\ _schedule s = Err OutOfFuel.
Proof.
  intros s. apply schedule_spins_when_none_runnable; [apply three_wf; task_range|].
  intros i. unfold cand. destruct (_ !! Z.to_nat i) as [p|] eqn:E; [|done]. cbn [mbind option_bind].
  destruct (Z.eqb_spec p 0) as [|Hp]; [done|]. apply three_index in E as [[_ ->]|[[_ ->]|[_ ->]]]; [reflexivity..|done].
Defined.
