(* ===== verification/Paging.v ===== *)
(** * Page tables (src/mm/paging.c, include/mm/paging.h, include/arm/mmu.h)

    The operations, over any page allocator of PageAlloc.v.  Tables live in
    physical pages that the kernel reads and writes through its linear alias at
    [VIRTUAL_ADDRESS_START].  [mm_t] is part of the task structure. *)

From S2P Require Export PageAlloc Sched.

Definition PAGE_MASK : Z := 0xfffffffffffff000.
Definition PTRS_PER_TABLE : Z := Z.shiftl 1 TABLE_SHIFT.
Definition PGD_SHIFT : Z := PAGE_SHIFT + 3 * TABLE_SHIFT.
Definition PUD_SHIFT : Z := PAGE_SHIFT + 2 * TABLE_SHIFT.
Definition PMD_SHIFT : Z := PAGE_SHIFT + TABLE_SHIFT.
Definition MM_TYPE_PAGE_TABLE : Z := 3.
Definition MM_TYPE_PAGE : Z := 3.
Definition MT_NORMAL_NC : Z := 1.
Definition MM_ACCESS : Z := Z.shiftl 1 10.
Definition MM_ACCESS_PERMISSION : Z := Z.shiftl 1 6.
Definition MMU_PTE_FLAGS : Z :=
  Z.lor (Z.lor (Z.lor MM_TYPE_PAGE (Z.shiftl MT_NORMAL_NC 2)) MM_ACCESS) MM_ACCESS_PERMISSION.

(** [(virt_adr >> shift) & (PTRS_PER_TABLE - 1)] *)
Definition table_index (shift virt_adr : Z) : Z := Z.land (Z.shiftr virt_adr shift) (PTRS_PER_TABLE - 1).
(** [&table[idx]], the table given by its kernel address. *)
Definition table_slot (table idx : Z) : Z := ptr_add table (8 * idx).

Section paging.
Context `{O : PageOps}.

(** Returns the next table and the value of [*new_table]. *)
Definition map_table (table shift virt_adr : Z) : K (Z * Z) :=
  let idx := table_index shift virt_adr in
  e ← load64 (table_slot table idx);
  if e =? 0 then
    next_level_table ← next_free_page;
    let entry := Z.lor next_level_table MM_TYPE_PAGE_TABLE in
    _ ← store64 (table_slot table idx) entry;
    mret (next_level_table, 1)
  else
    e ← load64 (table_slot table idx);
    mret (Z.land e PAGE_MASK, 0).

Definition map_table_entry (table_entry virt_adr phys_adr : Z) : K unit :=
  let idx := table_index PAGE_SHIFT virt_adr in
  let entry := Z.lor phys_adr MMU_PTE_FLAGS in
  store64 (table_slot table_entry idx) entry.

(** [task->mm.kernelpages[++task->mm.kernelpages_count] = page] *)
Definition add_kernelpage (task page : Z) : K unit :=
  t ← get_task task;
  let mm := t_mm t in
  let n := s32 (kernelpages_count mm + 1) in
  if (0 <=? n) && (n <? MAX_PROCESS_PAGES) then
    put_task task (set_mm (Mm (pagedirectory mm) (userpages_count mm) (userpages mm) n
      (<[Z.to_nat n := page]> (kernelpages mm))) t)
  else fail OutOfBounds.
(** [task->mm.userpages[task->mm.userpages_count++] = p] *)
Definition add_userpage (task : Z) (p : user_page) : K unit :=
  t ← get_task task;
  let mm := t_mm t in
  let n := userpages_count mm in
  if (0 <=? n) && (n <? MAX_PROCESS_PAGES) then
    put_task task (set_mm (Mm (pagedirectory mm) (s32 (n + 1)) (<[Z.to_nat n := p]> (userpages mm))
      (kernelpages_count mm) (kernelpages mm)) t)
  else fail OutOfBounds.

Definition set_pagedirectory (task page : Z) : K unit :=
  modify_task task (fun t => let mm := t_mm t in
    set_mm (Mm page (userpages_count mm) (userpages mm) (kernelpages_count mm) (kernelpages mm)) t).

(** One level of [map_page]: the next table, recorded when it is new. *)
Definition map_level (task table shift virt_adr : Z) : K Z :=
  r ← map_table (u64 (table + VIRTUAL_ADDRESS_START)) shift virt_adr;
  let '(next, new_table) := (r : Z * Z) in
  _ ← when (negb (new_table =? 0)) (add_kernelpage task next);
  mret next.

Definition map_page (task virt_adr page : Z) : K unit :=
  t ← get_task task;
  _ ← when (pagedirectory (t_mm t) =? 0)
    (pgd ← next_free_page;
     _ ← set_pagedirectory task pgd;
     t ← get_task task;
     add_kernelpage task (pagedirectory (t_mm t)));
  t ← get_task task;
  let page_directory := pagedirectory (t_mm t) in
  pud ← map_level task page_directory PGD_SHIFT virt_adr;
  pmd ← map_level task pud PUD_SHIFT virt_adr;
  pte ← map_level task pmd PMD_SHIFT virt_adr;
  _ ← map_table_entry (u64 (pte + VIRTUAL_ADDRESS_START)) virt_adr page;
  add_userpage task (UserPage page virt_adr).

Definition allocate_kernel_page : K Z :=
  page ← next_free_page;
  if page =? 0 then mret 0 else mret (u64 (page + VIRTUAL_ADDRESS_START)).

Definition allocate_user_page (task virt_adr : Z) : K Z :=
  page ← next_free_page;
  if page =? 0 then mret 0
  else
    _ ← map_page task virt_adr page;
    mret (u64 (page + VIRTUAL_ADDRESS_START)).

(** [mmu m ttbr0 va]: the kernel address of the byte user address [va] designates
    under that table base, as the processor translates it. *)
Definition copy_page_body (mmu : mem -> Z -> Z -> option Z) (src task i : Z) : K (Z + Z) :=
  t ← get_task src;
  if i <? userpages_count (t_mm t) then
    up ← of_option OutOfBounds (userpages (t_mm t) !! Z.to_nat i);
    kernel_virtual_adr ← allocate_user_page task (virtual_adr up);
    if kernel_virtual_adr =? 0 then mret (inr (-1))
    else
      s ← get (fun s => s);
      from ← of_option (BadAccess (virtual_adr up)) (mmu (k_mem s) (ttbr0 (k_cpu s)) (virtual_adr up));
      _ ← memcpy kernel_virtual_adr from PAGE_SIZE;
      mret (inl (s32 (i + 1)))
  else mret (inr 0).
Definition copy_virtual_memory (mmu : mem -> Z -> Z -> option Z) (task : Z) : K Z :=
  src ← get_current_task;
  loop (copy_page_body mmu src task) 0.

Definition do_mem_abort (addr esr : Z) : K Z :=
  let dfs := Z.land esr 63 in
  if Z.land dfs 60 =? 4 then
    page ← next_free_page;
    if page =? 0 then mret (-1)
    else
      cur ← get_current_task;
      _ ← map_page cur (Z.land addr PAGE_MASK) page;
      mret 0
  else mret (-1).

End paging.

(** ** What the tables say: the lookup *)

(** The table entry a virtual address selects at a level. *)
Definition level_shift (n : nat) : Z := PAGE_SHIFT + Z.of_nat n * TABLE_SHIFT.
Definition entry_addr (table idx : Z) : Z := table + VIRTUAL_ADDRESS_START + 8 * idx.

(** [walk n m table va] follows [n + 1] levels; [None] at an empty entry. *)
Fixpoint walk (n : nat) (m : mem) (table va : Z) : option Z :=
  e ← ldn 8 m (entry_addr table (table_index (level_shift n) va));
  if e =? 0 then None
  else match n with
  | O => Some (Z.land e PAGE_MASK)
  | S n => walk n m (Z.land e PAGE_MASK) va
  end.

(** The page a task's tables give for a virtual address. *)
Definition translate (s : kstate) (task va : Z) : option Z :=
  t ← k_tasks s !! task;
  if pagedirectory (t_mm t) =? 0 then None else walk 3 (k_mem s) (pagedirectory (t_mm t)) va.

Definition va_indices (va : Z) : list Z :=
  [table_index PGD_SHIFT va; table_index PUD_SHIFT va; table_index PMD_SHIFT va; table_index PAGE_SHIFT va].
