(* ===== verification/PagingProofs.v ===== *)
(** * Page tables as a tree

    [tables_wf] says which pages hold tables of a task and at which level, and
    that they form a tree.  The lemmas run [map_table] and [map_table_entry]
    against it: adding an empty table changes no translation, writing a last
    level entry changes exactly one. *)

From S2P Require Export Paging.

Definition entry (m : mem) (p i : Z) : option Z := ldn 8 m (entry_addr p i).

Lemma ldn_zero n : forall m a, (forall j, 0 <= j < Z.of_nat n -> ld8 m (a + j) = Some 0) -> ldn n m a = Some 0.
Proof.
  induction n as [|n IH]; intros m a H; [done|]. pose proof (H 0 ltac:(lia)) as H0. rewrite Z.add_0_r in H0.
  cbn [ldn]. rewrite H0. cbn [mbind option_bind]. rewrite IH; [done|]. intros j Hj.
  rewrite <- Z.add_assoc. apply H. lia.
Qed.

Section tables.
Context {O : PageOps} {Laws : PageLaws}.

Definition is_table (s : kstate) (p : Z) : Prop :=
  exists i, page_index i /\ p = page_addr i /\ page_used s i = true.

(** [L] gives the level of each table: 3 for a directory, 0 for the tables whose
    entries are pages. *)
Record tables_wf (s : kstate) (L : gmap Z nat) : Prop := {
  tw_page p n : L !! p = Some n -> is_table s p;
  tw_entry p n i e : L !! p = Some (S n) -> 0 <= i < 512 -> entry (k_mem s) p i = Some e -> e <> 0 ->
    exists q, e = Z.lor q 3 /\ L !! q = Some n;
  tw_inj p p' n n' i i' q : L !! p = Some (S n) -> L !! p' = Some (S n') -> 0 <= i < 512 -> 0 <= i' < 512 ->
    entry (k_mem s) p i = Some (Z.lor q 3) -> entry (k_mem s) p' i' = Some (Z.lor q 3) -> p = p' /\ i = i' }.

(** ** Entries *)

Lemma page_addr_bounds i : page_index i -> 4194304 <= page_addr i < 2 ^ 32 /\ page_addr i mod 4096 = 0.
Proof.
  unfold page_index. rewrite num_pages, page_addr_eq. intros H. split; [lia|].
  replace (4194304 + i * 4096) with ((1024 + i) * 4096) by lia. apply Z.mod_mul. lia.
Qed.

Lemma is_table_bounds s p : is_table s p -> 4194304 <= p < 2 ^ 32 /\ p mod 4096 = 0.
Proof. intros (i & Hi & -> & _). by apply page_addr_bounds. Qed.

Lemma table_index_range shift va : 0 <= table_index shift va < 512.
Proof.
  unfold table_index. change (PTRS_PER_TABLE - 1) with (Z.ones 9). rewrite Z.land_ones by lia.
  apply Z.mod_pos_bound. lia.
Qed.

Lemma mask_entry q f : 0 <= q < 2 ^ 32 -> q mod 4096 = 0 -> 0 <= f < 4096 -> Z.land (Z.lor q f) PAGE_MASK = q.
Proof.
  intros Hq Ha Hf. apply Z.bits_inj'. intros k Hk. rewrite Z.land_spec, Z.lor_spec.
  change PAGE_MASK with (Z.shiftl (Z.ones 52) 12). rewrite Z.shiftl_spec by done.
  destruct (Z_lt_le_dec k 12).
  - rewrite (Z.testbit_neg_r _ (k - 12)), andb_false_r by lia.
    replace q with (q / 2 ^ 12 * 2 ^ 12) by (change (2 ^ 12) with 4096; Z.to_euclidean_division_equations; lia).
    by rewrite Z.mul_pow2_bits_low.
  - replace (Z.testbit f k) with false.
    2: { symmetry. replace f with (f mod 2 ^ 12) by (apply Z.mod_small; lia). apply Z.mod_pow2_bits_high. lia. }
    rewrite orb_false_r. destruct (Z_lt_le_dec k 64).
    + rewrite Z.ones_spec_low by lia. apply andb_true_r.
    + replace (Z.testbit q k) with false; [done|]. symmetry.
      replace q with (q mod 2 ^ 32) by (apply Z.mod_small; lia). apply Z.mod_pow2_bits_high. lia.
Qed.

Lemma lor3_nonzero q : Z.lor q 3 <> 0.
Proof. intros E. apply Z.lor_eq_0_iff in E as [_ E]. done. Qed.
Lemma lor_pos q f : 0 <= q < 2 ^ 32 -> 0 <= f < 2 ^ 32 -> 0 <= Z.lor q f < 2 ^ 32.
Proof.
  intros Hq Hf. assert (N0 : 0 <= Z.lor q f) by (apply Z.lor_nonneg; lia). split; [done|]. destruct (Z.eq_dec (Z.lor q f) 0) as [->|N]; [lia|].
  apply Z.log2_lt_pow2; [lia|].
  rewrite Z.log2_lor by lia. apply Z.max_lub_lt.
  - destruct (Z.eq_dec q 0) as [->|]; [done|]. apply Z.log2_lt_pow2; lia.
  - destruct (Z.eq_dec f 0) as [->|]; [done|]. apply Z.log2_lt_pow2; lia.
Qed.

(** Entries of different slots are 8 bytes apart. *)
Lemma entry_addr_apart p p' i i' : p mod 4096 = 0 -> p' mod 4096 = 0 -> 0 <= i < 512 -> 0 <= i' < 512 ->
  (p, i) <> (p', i') -> entry_addr p i + 8 <= entry_addr p' i' \/ entry_addr p' i' + 8 <= entry_addr p i.
Proof.
  intros Hp Hp' Hi Hi' N. unfold entry_addr.
  destruct (Z.eq_dec p p') as [->|Np].
  - assert (i <> i') by congruence. lia.
  - assert (p + 4096 <= p' \/ p' + 4096 <= p) by (Z.to_euclidean_division_equations; lia). lia.
Qed.

Lemma entry_store m m' p i v p' i' :
  p mod 4096 = 0 -> p' mod 4096 = 0 -> 0 <= i < 512 -> 0 <= i' < 512 -> 0 <= v < 2 ^ 64 ->
  stn 8 m (entry_addr p i) v = Some m' ->
  entry m' p' i' = if (p' =? p) && (i' =? i) then Some v else entry m p' i'.
Proof.
  intros Hp Hp' Hi Hi' Hv H. unfold entry. destruct ((p' =? p) && (i' =? i)) eqn:C.
  - apply andb_prop in C as [->%Z.eqb_eq ->%Z.eqb_eq]. by eapply ld64_st64_same.
  - eapply ldn_stn_other; [exact H|]. destruct (entry_addr_apart p' p i' i); [done..| |lia|lia].
    intros [= -> ->]. by rewrite !Z.eqb_refl in C.
Qed.

Lemma zero_entry m p i : (forall k, 0 <= k < 4096 -> ld8 m (p + VIRTUAL_ADDRESS_START + k) = Some 0) ->
  0 <= i < 512 -> entry m p i = Some 0.
Proof.
  intros H Hi. unfold entry, entry_addr. apply ldn_zero. intros j Hj. rewrite <- Z.add_assoc. apply H. lia.
Qed.

Lemma fresh_entry s s' i p j : fresh_page i s s' -> page_index i -> is_table s p -> 0 <= j < 512 ->
  entry (k_mem s') p j = entry (k_mem s) p j.
Proof.
  intros (Hu & _ & (_ & S & _) & _) Hi (k & Hk & -> & Uk) Hj. unfold entry, entry_addr. apply ldn_ext.
  intros b Hb. apply S. assert (k <> i) by congruence. rewrite !page_addr_eq in *. change PAGE_SIZE with 4096. lia.
Qed.
Lemma fresh_zero s s' i j : fresh_page i s s' -> 0 <= j < 512 -> entry (k_mem s') (page_addr i) j = Some 0.
Proof. intros (_ & _ & (Z0 & _) & _) Hj. apply zero_entry; [|done]. intros k Hk. by apply Z0. Qed.

Lemma fresh_not_table s s' i L n : fresh_page i s s' -> page_index i -> tables_wf s L -> L !! page_addr i = Some n -> False.
Proof.
  intros (Hu & _) Hi W E. destruct (tw_page _ _ W _ _ E) as (k & Hk & Ek & Uk).
  rewrite !page_addr_eq in Ek. assert (k = i) by lia. congruence.
Qed.

Lemma is_table_fresh s s' i p : fresh_page i s s' -> is_table s p -> is_table s' p.
Proof. intros (_ & U & _) (k & Hk & -> & Uk). exists k. rewrite U, Uk, orb_true_r. done. Qed.

Lemma slot_addr s p i : is_table s p -> 0 <= i < 512 -> table_slot (u64 (p + VIRTUAL_ADDRESS_START)) i = entry_addr p i.
Proof.
  intros Hp Hi. destruct (is_table_bounds s p Hp) as [B _]. unfold table_slot, ptr_add, entry_addr, VIRTUAL_ADDRESS_START.
  by uw.
Qed.

Lemma table_valid s p i : pages_mapped s -> is_table s p -> 0 <= i < 512 -> valid_range (k_mem s) (entry_addr p i) 8.
Proof.
  intros HM (k & Hk & -> & _) Hi a Ha. apply (HM k Hk). unfold entry_addr in Ha. change PAGE_SIZE with 4096. lia.
Qed.

(** ** A new table linked into an empty slot *)

Section link.
Context (s s1 : kstate) (L : gmap Z nat) (p idx i : Z) (n : nat) (m : mem).
Let q := page_addr i.
Context (W : tables_wf s L) (Hi : page_index i) (F : fresh_page i s s1).
Context (Ep : L !! p = Some (S n)) (Hidx : 0 <= idx < 512) (E0 : entry (k_mem s) p idx = Some 0).
Context (St : stn 8 (k_mem s1) (entry_addr p idx) (Z.lor q 3) = Some m).

Lemma link_value : 0 <= Z.lor q 3 < 2 ^ 64.
Proof. destruct (page_addr_bounds i Hi) as [Bq _]. pose proof (lor_pos q 3). unfold q in *. lia. Qed.

Lemma link_entry p' j : is_table s p' -> 0 <= j < 512 ->
  entry m p' j = if (p' =? p) && (j =? idx) then Some (Z.lor q 3) else entry (k_mem s) p' j.
Proof.
  intros Hp' Hj. destruct (page_addr_bounds i Hi) as [Bq Aq]. destruct (is_table_bounds s p (tw_page _ _ W _ _ Ep)) as [_ Ap].
  destruct (is_table_bounds s p' Hp') as [_ Ap'].
  rewrite (entry_store (k_mem s1) m p idx (Z.lor q 3) p' j Ap Ap' Hidx Hj link_value St).
  destruct (_ && _); [done|]. by rewrite (fresh_entry s s1 i p' j).
Qed.
Lemma link_new j : 0 <= j < 512 -> entry m q j = Some 0.
Proof.
  intros Hj. destruct (page_addr_bounds i Hi) as [Bq Aq]. destruct (is_table_bounds s p (tw_page _ _ W _ _ Ep)) as [_ Ap].
  rewrite (entry_store (k_mem s1) m p idx (Z.lor q 3) q j Ap Aq Hidx Hj link_value St).
  destruct (Z.eqb_spec q p) as [E|]; [|by apply (fresh_zero s)].
  exfalso. apply (fresh_not_table s s1 i L (S n) F Hi W). change (L !! q = Some (S n)). by rewrite E.
Qed.

Lemma link_wf : tables_wf (with_mem m s1) (<[q := n]> L).
Proof.
  assert (Hq : forall x, L !! q = Some x -> False) by (intros x; apply (fresh_not_table s s1 i L x F Hi W)).
  assert (Lor : forall x, Z.lor x 3 = Z.lor q 3 -> 0 <= x < 2 ^ 32 -> x mod 4096 = 0 -> x = q).
  { intros x Ex Bx Ax. destruct (page_addr_bounds i Hi) as [Bq Aq].
    rewrite <- (mask_entry x 3), <- (mask_entry q 3) by (unfold q in *; lia). by rewrite Ex. }
  split.
  - intros p' n' [[<- <-]|[_ E']]%lookup_insert_Some.
    + exists i. destruct F as (_ & U & _). change (page_used (with_mem m s1) i) with (page_used (with_mem m s1) i).
      rewrite (page_used_ext (with_mem m s1) s1) by done. rewrite U, Z.eqb_refl. done.
    + destruct (is_table_fresh s s1 i p' F (tw_page _ _ W _ _ E')) as (k & Hk & -> & Uk). exists k.
      by rewrite (page_used_ext (with_mem m s1) s1).
  - intros p' n' j e [[<- _]|[_ E']]%lookup_insert_Some Hj He Hne; change (k_mem (with_mem m s1)) with m in He.
    + rewrite link_new in He by done. congruence.
    + rewrite link_entry in He by (done || by eapply tw_page). destruct ((p' =? p) && (j =? idx)) eqn:C.
      * injection He as <-. apply andb_prop in C as [->%Z.eqb_eq _]. exists q. split; [done|].
        rewrite Ep in E'. injection E' as <-. apply lookup_insert_eq.
      * destruct (tw_entry _ _ W _ _ _ _ E' Hj He Hne) as (x & -> & Ex). exists x. split; [done|].
        rewrite lookup_insert_ne; [done|]. intros <-. by eapply Hq.
  - intros p1 p2 n1 n2 j1 j2 x L1 L2 Hj1 Hj2 H1 H2. change (k_mem (with_mem m s1)) with m in H1, H2.
    assert (Old : forall p' n' j, <[q := n]> L !! p' = Some (S n') -> 0 <= j < 512 -> entry m p' j = Some (Z.lor x 3) ->
      L !! p' = Some (S n')).
    { intros p' n' j [[<- _]|[_ E']]%lookup_insert_Some Hj H; [|done]. rewrite link_new in H by done.
      injection H as H. symmetry in H. by apply lor3_nonzero in H. }
    pose proof (Old _ _ _ L1 Hj1 H1) as E1. pose proof (Old _ _ _ L2 Hj2 H2) as E2. clear L1 L2 Old. revert H1 H2.
    rewrite !link_entry by (done || by eapply tw_page).
    destruct ((p1 =? p) && (j1 =? idx)) eqn:C1, ((p2 =? p) && (j2 =? idx)) eqn:C2.
    + intros _ _. apply andb_prop in C1 as [->%Z.eqb_eq ->%Z.eqb_eq], C2 as [->%Z.eqb_eq ->%Z.eqb_eq]. done.
    + intros [= Ex] H2. exfalso. destruct (tw_entry _ _ W _ _ _ _ E2 Hj2 H2 (lor3_nonzero _)) as (y & Ey & Ly).
      destruct (is_table_bounds _ _ (tw_page _ _ W _ _ Ly)) as [By Ay].
      apply (Hq _ ltac:(by rewrite <- (Lor y) by (congruence || lia))).
    + intros H1 [= Ex]. exfalso. destruct (tw_entry _ _ W _ _ _ _ E1 Hj1 H1 (lor3_nonzero _)) as (y & Ey & Ly).
      destruct (is_table_bounds _ _ (tw_page _ _ W _ _ Ly)) as [By Ay].
      apply (Hq _ ltac:(by rewrite <- (Lor y) by (congruence || lia))).
    + intros H1 H2. eapply (tw_inj _ _ W); eauto.
Qed.

(** The new table is empty: no translation changes. *)
Lemma link_walk n0 : forall p0 va, L !! p0 = Some n0 -> walk n0 m p0 va = walk n0 (k_mem s) p0 va.
Proof.
  induction n0 as [|n0 IH]; intros p0 va E; cbn [walk]; set (j := table_index _ va);
    assert (Hj : 0 <= j < 512) by apply table_index_range;
    change (ldn 8 m (entry_addr p0 j)) with (entry m p0 j);
    change (ldn 8 (k_mem s) (entry_addr p0 j)) with (entry (k_mem s) p0 j);
    rewrite link_entry by (done || by eapply tw_page).
  - destruct ((p0 =? p) && (j =? idx)) eqn:C; [|done]. apply andb_prop in C as [->%Z.eqb_eq _]. congruence.
  - destruct ((p0 =? p) && (j =? idx)) eqn:C.
    + apply andb_prop in C as [->%Z.eqb_eq ->%Z.eqb_eq]. rewrite E0. cbn [mbind option_bind Z.eqb].
      rewrite (proj2 (Z.eqb_neq _ _) (lor3_nonzero q)). destruct (page_addr_bounds i Hi) as [Bq Aq].
      rewrite mask_entry by (unfold q in *; lia).
      assert (N : entry m q (table_index (level_shift n0) va) = Some 0) by (apply link_new, table_index_range).
      unfold entry in N. destruct n0; cbn [walk]; rewrite N; done.
    + destruct (entry (k_mem s) p0 j) as [e|] eqn:Ee; [|done]. cbn [mbind option_bind].
      destruct (Z.eqb_spec e 0); [done|]. destruct (tw_entry _ _ W _ _ _ _ E Hj Ee) as (x & -> & Ex); [done|].
      destruct (is_table_bounds _ _ (tw_page _ _ W _ _ Ex)) as [Bx Ax]. rewrite mask_entry by lia. by apply IH.
Qed.
End link.

(** ** Running [map_table] *)

(** Pages in use that hold no table keep their content and stay so. *)
Definition same_page (m m' : mem) (j : Z) : Prop :=
  forall o, 0 <= o < 4096 -> ld8 m' (page_addr j + VIRTUAL_ADDRESS_START + o) = ld8 m (page_addr j + VIRTUAL_ADDRESS_START + o).
Definition data_page (s : kstate) (L : gmap Z nat) (j : Z) : Prop :=
  page_index j /\ page_used s j = true /\ L !! page_addr j = None.
Definition data_kept (s s' : kstate) (L L' : gmap Z nat) : Prop :=
  forall j, data_page s L j -> data_page s' L' j /\ same_page (k_mem s) (k_mem s') j.

Lemma data_kept_refl s L : data_kept s s L L.
Proof. intros j H. by split. Qed.
Lemma data_kept_trans s1 s2 s3 L1 L2 L3 : data_kept s1 s2 L1 L2 -> data_kept s2 s3 L2 L3 -> data_kept s1 s3 L1 L3.
Proof.
  intros H1 H2 j Hj. destruct (H1 j Hj) as [D1 S1]. destruct (H2 j D1) as [D2 S2]. split; [done|].
  intros o Ho. by rewrite S2, S1.
Qed.
Lemma data_kept_ext s s1 s' L L' : k_mem s' = k_mem s1 -> k_pages s' = k_pages s1 -> data_kept s s1 L L' -> data_kept s s' L L'.
Proof.
  intros Em Ep H j Hj. destruct (H j Hj) as [(Hi & U & E) S]. unfold data_page. rewrite Em, (page_used_ext s' s1) by done. done.
Qed.

Lemma page_addr_inj i j : page_addr i = page_addr j -> i = j.
Proof. rewrite !page_addr_eq. lia. Qed.

Lemma fresh_data s s' i L L' : page_index i -> fresh_page i s s' ->
  (forall j, j <> i -> L' !! page_addr j = L !! page_addr j) -> data_kept s s' L L'.
Proof.
  intros Hi (Hu & HU & (_ & S & _) & _) HL j (Hj & Uj & Ej). assert (N : j <> i) by (intros ->; congruence).
  split; [split; [done|split]|].
  - rewrite HU, Uj. apply orb_true_r.
  - by rewrite HL.
  - intros o Ho. apply S. change PAGE_SIZE with 4096. rewrite !page_addr_eq. lia.
Qed.
(** A store into a table. *)
Lemma store_data s m L p j v n : is_table s p -> L !! p = Some n -> 0 <= j < 512 -> stn 8 (k_mem s) (entry_addr p j) v = Some m ->
  data_kept s (with_mem m s) L L.
Proof.
  intros Tp Ep Hj St k (Hk & Uk & Ek). split; [split; [done|split; [|done]]|].
  - by rewrite (page_used_ext (with_mem m s) s).
  - intros o Ho. cbn [k_mem with_mem]. apply (ld8_stn_other _ _ _ _ _ _ St).
    destruct Tp as (i & Hi & -> & Ui). assert (N : i <> k) by (intros ->; congruence).
    unfold entry_addr. rewrite !page_addr_eq. cbn. lia.
Qed.

(** What a step of [map_page] may do to the tables: nothing that a translation
    or a recorded entry shows. *)
Record extends (k : nat) (s s' : kstate) (L L' : gmap Z nat) : Prop := {
  ex_wf : tables_wf s' L';
  ex_sub : L ⊆ L';
  ex_entry p n i e : L !! p = Some n -> 0 <= i < 512 -> entry (k_mem s) p i = Some e -> e <> 0 ->
    entry (k_mem s') p i = Some e;
  ex_walk p n va : L !! p = Some n -> walk n (k_mem s') p va = walk n (k_mem s) p va;
  ex_mapped : pages_mapped s';
  ex_data : data_kept s s' L L';
  ex_free : (length (free_list s) <= k + length (free_list s'))%nat;
  ex_frame : s' = with_mem (k_mem s') (with_pages (k_pages s') (with_tasks (k_tasks s') s)) }.

Lemma free_list_ext s s' : k_pages s = k_pages s' -> free_list s = free_list s'.
Proof. intros E. unfold free_list. by rewrite (page_used_ext s s'). Qed.

Lemma fresh_wf s s' i L : tables_wf s L -> page_index i -> fresh_page i s s' -> tables_wf s' L.
Proof.
  intros W Hi F. split.
  - intros p n E. eapply is_table_fresh; [done|]. by eapply tw_page.
  - intros p n j e E Hj. rewrite (fresh_entry s s' i p j) by (done || by eapply tw_page). by eapply tw_entry.
  - intros p p' n n' j j' q E E' Hj Hj'. rewrite !(fresh_entry s s' i) by (done || by eapply tw_page).
    by eapply (tw_inj _ _ W).
Qed.

Lemma map_table_run s L p n va : tables_wf s L -> pages_mapped s -> free_list s <> [] -> L !! p = Some (S n) ->
  exists q fl s' L', map_table (u64 (p + VIRTUAL_ADDRESS_START)) (level_shift (S n)) va s = Ok (q, fl) s'
    /\ extends 1 s s' L L' /\ L' !! q = Some n /\ k_tasks s' = k_tasks s /\ (fl = 0 \/ fl = 1)
    /\ entry (k_mem s') p (table_index (level_shift (S n)) va) = Some (Z.lor q 3).
Proof.
  intros W HM HF Ep. set (idx := table_index (level_shift (S n)) va).
  assert (Hidx : 0 <= idx < 512) by apply table_index_range.
  pose proof (tw_page _ _ W _ _ Ep) as Tp.
  destruct (ldn_ok 8 (k_mem s) (entry_addr p idx)) as [e Ee]; [by apply table_valid|].
  unfold map_table. fold idx. rewrite (slot_addr s) by done.
  rewrite (bind_ok _ _ _ _ _ (load64_ok s _ _ Ee)). destruct (Z.eqb_spec e 0) as [->|Ne].
  - pose proof (next_free_page_run s HM) as R. destruct (free_list s) as [|i r] eqn:EF; [done|].
    destruct R as (s1 & R & F & Hi & EF1). rewrite (bind_ok _ _ _ _ _ R). cbv zeta.
    pose proof (fresh_page_mapped _ _ _ F HM) as HM1.
    destruct (stn_ok 8 (k_mem s1) (entry_addr p idx) (Z.lor (page_addr i) MM_TYPE_PAGE_TABLE)) as [m St].
    { apply table_valid; [done|by eapply is_table_fresh|done]. }
    rewrite (bind_ok _ _ _ _ _ (store64_ok s1 _ _ _ St)).
    exists (page_addr i), 1, (with_mem m s1), (<[page_addr i := n]> L). split; [done|].
    pose proof (link_wf s s1 L p idx i n m W Hi F Ep Hidx St) as W'.
    pose proof (link_entry s s1 L p idx i n m W Hi F Ep Hidx St) as LE.
    split; [split|split; [|split; [|split; [by right|]]]].
    + exact W'.
    + apply insert_subseteq. destruct (L !! page_addr i) eqn:E; [|done]. exfalso. by eapply fresh_not_table.
    + intros p' n' j x E' Hj Hx Nx. cbn [k_mem with_mem]. rewrite LE by (done || by eapply tw_page).
      destruct ((p' =? p) && (j =? idx)) eqn:C; [|done]. apply andb_prop in C as [->%Z.eqb_eq ->%Z.eqb_eq].
      unfold entry in Hx. congruence.
    + intros p' n' va' E'. by apply (link_walk s s1 L p idx i n m W Hi F Ep Hidx Ee St).
    + intros k Hk a Ha. cbn. rewrite (stn_valid_eq _ _ _ _ _ St). by apply (HM1 k).
    + eapply data_kept_trans.
      * apply (fresh_data s s1 i L (<[page_addr i := n]> L) Hi F). intros k Nk. apply lookup_insert_ne.
        intros E. apply Nk. symmetry. by apply page_addr_inj.
      * apply (store_data s1 m (<[page_addr i := n]> L) p idx (Z.lor (page_addr i) MM_TYPE_PAGE_TABLE) (S n)); [by eapply is_table_fresh| |done|done].
        rewrite lookup_insert_ne; [done|]. intros <-. by eapply (fresh_not_table s s1 i L (S n)).
    + rewrite (free_list_ext (with_mem m s1) s1), EF1, EF by done. cbn. lia.
    + destruct F as (_ & _ & _ & ->). done.
    + apply lookup_insert_eq.
    + destruct F as (_ & _ & _ & ->). done.
    + cbn [k_mem with_mem]. rewrite LE by done. by rewrite !Z.eqb_refl.
  - rewrite (bind_ok _ _ _ _ _ (load64_ok s _ _ Ee)).
    destruct (tw_entry _ _ W _ _ _ _ Ep Hidx Ee Ne) as (q & -> & Eq).
    destruct (is_table_bounds _ _ (tw_page _ _ W _ _ Eq)) as [Bq Aq]. rewrite mask_entry by lia.
    exists q, 0, s, L. split; [done|]. split; [|auto].
    split; try done; [lia|by destruct s].
Qed.

Lemma extends_trans k1 k2 s1 s2 s3 L1 L2 L3 :
  extends k1 s1 s2 L1 L2 -> extends k2 s2 s3 L2 L3 -> extends (k1 + k2) s1 s3 L1 L3.
Proof.
  intros E1 E2. pose proof (ex_sub _ _ _ _ _ E1) as S1. split.
  - apply E2.
  - etrans; [done|]. apply E2.
  - intros p n i e E Hi He Ne. eapply (ex_entry _ _ _ _ _ E2); [by eapply lookup_weaken|done| |done]. by eapply (ex_entry _ _ _ _ _ E1).
  - intros p n va E. rewrite (ex_walk _ _ _ _ _ E2 p n), (ex_walk _ _ _ _ _ E1 p n); [done|done|by eapply lookup_weaken].
  - apply E2.
  - eapply data_kept_trans; [apply E1|apply E2].
  - pose proof (ex_free _ _ _ _ _ E1). pose proof (ex_free _ _ _ _ _ E2). lia.
  - rewrite (ex_frame _ _ _ _ _ E2), (ex_frame _ _ _ _ _ E1). done.
Qed.

(** Changes of task structures do not matter to the tables. *)
Lemma extends_tasks k s s' L L' tk : extends k s s' L L' -> extends k s (with_tasks tk s') L L'.
Proof.
  intros [W S E Wk M D F Fr]. split; try done.
  - destruct W as [W1 W2 W3]. split; [|done..]. intros p n Ep. destruct (W1 p n Ep) as (i & Hi & -> & U). exists i.
    by rewrite (page_used_ext (with_tasks tk s') s').
  - exact (data_kept_ext s s' (with_tasks tk s') L L' eq_refl eq_refl D).
  - by rewrite (free_list_ext (with_tasks tk s') s').
  - rewrite Fr. done.
Qed.

(** ** The record of kernel pages in the task *)

(** [t'] is [t] with at most [k] more kernel pages recorded. *)
Definition mm_grown (k : Z) (t t' : task_struct) : Prop :=
  exists n kp, t' = set_mm (Mm (pagedirectory (t_mm t)) (userpages_count (t_mm t)) (userpages (t_mm t)) n kp) t
    /\ kernelpages_count (t_mm t) <= n <= kernelpages_count (t_mm t) + k.

Lemma mm_grown_refl t : mm_grown 0 t t.
Proof. exists (kernelpages_count (t_mm t)), (kernelpages (t_mm t)). split; [|lia]. by destruct t as [? ? ? ? ? ? ? [] ?]. Qed.
Lemma mm_grown_trans k1 k2 t1 t2 t3 : mm_grown k1 t1 t2 -> mm_grown k2 t2 t3 -> mm_grown (k1 + k2) t1 t3.
Proof. intros (n1 & kp1 & -> & H1) (n2 & kp2 & -> & H2). cbn in *. exists n2, kp2. split; [done|lia]. Qed.
Lemma mm_grown_weaken k k' t t' : mm_grown k t t' -> k <= k' -> mm_grown k' t t'.
Proof. intros (n & kp & -> & H) Hk. exists n, kp. split; [done|lia]. Qed.

Lemma add_kernelpage_run s task t page : k_tasks s !! task = Some t -> 0 <= kernelpages_count (t_mm t) < 15 ->
  exists t', add_kernelpage task page s = Ok tt (with_tasks (<[task := t']> (k_tasks s)) s) /\ mm_grown 1 t t'.
Proof.
  intros E Hc. unfold add_kernelpage, get_task, put_task, mbind, M_bind, MAX_PROCESS_PAGES. rewrite E.
  unfold s32. rewrite swrap_small by lia. decb. cbn [andb]. rewrite E. eexists. split; [done|].
  eexists _, _. split; [done|lia].
Qed.

Lemma map_level_run s L task t p n va : tables_wf s L -> pages_mapped s -> free_list s <> [] -> L !! p = Some (S n) ->
  k_tasks s !! task = Some t -> 0 <= kernelpages_count (t_mm t) < 15 ->
  exists q s' L' t', map_level task p (level_shift (S n)) va s = Ok q s'
    /\ extends 1 s s' L L' /\ L' !! q = Some n
    /\ entry (k_mem s') p (table_index (level_shift (S n)) va) = Some (Z.lor q 3)
    /\ k_tasks s' = <[task := t']> (k_tasks s) /\ mm_grown 1 t t'.
Proof.
  intros W HM HF Ep Et Hc. destruct (map_table_run s L p n va W HM HF Ep) as (q & fl & s' & L' & R & X & Eq & Ek & Hfl & En).
  unfold map_level. rewrite (bind_ok _ _ _ _ _ R). cbv beta iota. destruct Hfl as [->| ->]; cbn [negb Z.eqb when].
  - exists q, s', L', t. split; [done|]. split; [done|]. split; [done|]. split; [done|].
    rewrite Ek, insert_id by done. split; [done|]. eapply mm_grown_weaken; [apply mm_grown_refl|lia].
  - rewrite <- Ek in Et. destruct (add_kernelpage_run s' task t q Et Hc) as (t' & R' & G).
    unfold when. rewrite (bind_ok _ _ _ _ _ R'). eexists q, _, L', t'. split; [done|]. split; [by apply extends_tasks|].
    split; [done|]. split; [done|]. cbn. by rewrite Ek.
Qed.

(** ** A new directory *)

Lemma root_wf s s1 i L : tables_wf s L -> page_index i -> fresh_page i s s1 -> tables_wf s1 (<[page_addr i := 3%nat]> L).
Proof.
  intros W Hi F. pose proof (fresh_wf s s1 i L W Hi F) as [W1 W2 W3].
  assert (New : forall j e, 0 <= j < 512 -> entry (k_mem s1) (page_addr i) j = Some e -> e = 0).
  { intros j e Hj. rewrite (fresh_zero s s1 i j F Hj). by intros [= <-]. }
  assert (Nq : forall q n, L !! q = Some n -> q <> page_addr i) by (intros q n E ->; by eapply fresh_not_table).
  split.
  - intros p n [[<- <-]|[_ E]]%lookup_insert_Some; [|by eapply W1]. exists i. destruct F as (_ & U & _).
    rewrite U, Z.eqb_refl. done.
  - intros p n j e [[<- _]|[_ E]]%lookup_insert_Some Hj He Ne; [by apply New in He|].
    destruct (W2 _ _ _ _ E Hj He Ne) as (q & -> & Eq). exists q. split; [done|].
    rewrite lookup_insert_ne; [done|]. intros Heq. by eapply Nq.
  - intros p p' n n' j j' q [[<- _]|[_ E]]%lookup_insert_Some [[<- _]|[_ E']]%lookup_insert_Some Hj Hj' H H';
      try (apply New in H; [|done]; by apply lor3_nonzero in H); try (apply New in H'; [|done]; by apply lor3_nonzero in H').
    by eapply (W3 p p' n n').
Qed.

Lemma fresh_walk s s1 i L n0 : tables_wf s L -> page_index i -> fresh_page i s s1 ->
  forall p0 va, L !! p0 = Some n0 -> walk n0 (k_mem s1) p0 va = walk n0 (k_mem s) p0 va.
Proof.
  intros W Hi F. induction n0 as [|n0 IH]; intros p0 va E; cbn [walk]; set (j := table_index _ va);
    assert (Hj : 0 <= j < 512) by apply table_index_range;
    change (ldn 8 (k_mem s1) (entry_addr p0 j)) with (entry (k_mem s1) p0 j);
    change (ldn 8 (k_mem s) (entry_addr p0 j)) with (entry (k_mem s) p0 j);
    rewrite (fresh_entry s s1 i) by (done || by eapply tw_page); [done|].
  destruct (entry (k_mem s) p0 j) as [e|] eqn:Ee; [|done]. cbn [mbind option_bind].
  destruct (Z.eqb_spec e 0); [done|]. destruct (tw_entry _ _ W _ _ _ _ E Hj Ee) as (x & -> & Ex); [done|].
  destruct (is_table_bounds _ _ (tw_page _ _ W _ _ Ex)) as [Bx Ax]. rewrite mask_entry by lia. by apply IH.
Qed.

(** ** The last level *)

(** The last-level table a virtual address leads to. *)
Fixpoint reach (n : nat) (m : mem) (p va : Z) : option Z :=
  match n with
  | 0%nat => Some p
  | S k => e ← entry m p (table_index (level_shift n) va); if e =? 0 then None else reach k m (Z.land e PAGE_MASK) va
  end.

Lemma walk_reach n m : forall p va,
  walk n m p va = (r ← reach n m p va; e ← entry m r (table_index PAGE_SHIFT va);
                   if e =? 0 then None else Some (Z.land e PAGE_MASK)).
Proof.
  induction n as [|n IH]; intros p va; cbn [walk reach].
  - done.
  - fold (entry m p (table_index (level_shift (S n)) va)).
    destruct (entry m p (table_index (level_shift (S n)) va)) as [e|]; [|done]. cbn [mbind option_bind]. destruct (e =? 0); [done|]. apply IH.
Qed.

Lemma reach_level s L n : tables_wf s L -> forall p va r, L !! p = Some n -> reach n (k_mem s) p va = Some r -> L !! r = Some 0%nat.
Proof.
  intros W. induction n as [|n IH]; intros p va r E H; cbn [reach] in H; [by injection H as <-|].
  destruct (entry _ p _) as [e|] eqn:Ee; [|done]. cbn [mbind option_bind] in H. destruct (Z.eqb_spec e 0); [done|].
  destruct (tw_entry _ _ W _ _ _ _ E (table_index_range _ _) Ee) as (x & -> & Ex); [done|].
  destruct (is_table_bounds _ _ (tw_page _ _ W _ _ Ex)) as [Bx Ax]. rewrite mask_entry in H by lia. by eapply IH.
Qed.

(** Two addresses that lead to the same table have the same indices above it,
    from the same directory. *)
Lemma reach_inj s L n : tables_wf s L -> forall p p' va va' r,
  L !! p = Some n -> L !! p' = Some n -> reach n (k_mem s) p va = Some r -> reach n (k_mem s) p' va' = Some r ->
  p = p' /\ (forall k, (0 < k <= n)%nat -> table_index (level_shift k) va = table_index (level_shift k) va').
Proof.
  intros W. induction n as [|n IH]; intros p p' va va' r E E' H H'; cbn [reach] in H, H'.
  - split; [congruence|]. lia.
  - destruct (entry _ p _) as [e|] eqn:Ee; [|done]. destruct (entry _ p' _) as [e'|] eqn:Ee'; [|done].
    cbn [mbind option_bind] in H, H'. destruct (Z.eqb_spec e 0), (Z.eqb_spec e' 0); try done.
    destruct (tw_entry _ _ W _ _ _ _ E (table_index_range _ _) Ee) as (x & -> & Ex); [done|].
    destruct (tw_entry _ _ W _ _ _ _ E' (table_index_range _ _) Ee') as (x' & -> & Ex'); [done|].
    destruct (is_table_bounds _ _ (tw_page _ _ W _ _ Ex)) as [Bx Ax]. rewrite mask_entry in H by lia.
    destruct (is_table_bounds _ _ (tw_page _ _ W _ _ Ex')) as [Bx' Ax']. rewrite mask_entry in H' by lia.
    destruct (IH x x' va va' r Ex Ex' H H') as [-> Hk].
    destruct (tw_inj _ _ W _ _ _ _ _ _ _ E E' (table_index_range _ _) (table_index_range _ _) Ee Ee') as [-> Hi].
    split; [done|]. intros k Hk'. destruct (decide (k = S n)) as [->|]; [done|]. apply Hk. lia.
Qed.

Section leaf.
Context (s : kstate) (L : gmap Z nat) (pte j v : Z) (m : mem).
Context (W : tables_wf s L) (Epte : L !! pte = Some 0%nat) (Hj : 0 <= j < 512) (Hv : 0 < v < 2 ^ 64).
Context (St : stn 8 (k_mem s) (entry_addr pte j) v = Some m).

Lemma leaf_entry p i : is_table s p -> 0 <= i < 512 ->
  entry m p i = if (p =? pte) && (i =? j) then Some v else entry (k_mem s) p i.
Proof.
  intros Hp Hi. destruct (is_table_bounds s p Hp) as [_ Ap].
  destruct (is_table_bounds s pte (tw_page _ _ W _ _ Epte)) as [_ Apte].
  apply (entry_store (k_mem s) m pte j v p i Apte Ap Hj Hi); [lia|exact St].
Qed.
Lemma leaf_upper p n i : L !! p = Some (S n) -> 0 <= i < 512 -> entry m p i = entry (k_mem s) p i.
Proof.
  intros E Hi. rewrite leaf_entry by (done || by eapply tw_page). destruct (Z.eqb_spec p pte) as [->|]; [congruence|done].
Qed.
Lemma leaf_wf : tables_wf (with_mem m s) L.
Proof.
  split.
  - intros p n E. destruct (tw_page _ _ W _ _ E) as (i & Hi & -> & U). exists i. by rewrite (page_used_ext (with_mem m s) s).
  - intros p n i e E Hi. cbn [k_mem with_mem]. rewrite (leaf_upper p n) by done. by eapply tw_entry.
  - intros p p' n n' i i' q E E' Hi Hi'. cbn [k_mem with_mem]. rewrite (leaf_upper p n), (leaf_upper p' n') by done.
    by eapply (tw_inj _ _ W).
Qed.
Lemma leaf_reach n : forall p va, L !! p = Some n -> reach n m p va = reach n (k_mem s) p va.
Proof.
  induction n as [|n IH]; intros p va E; cbn [reach]; [done|]. rewrite (leaf_upper p n) by (done || apply table_index_range).
  destruct (entry _ p _) as [e|] eqn:Ee; [|done]. cbn [mbind option_bind]. destruct (Z.eqb_spec e 0); [done|].
  destruct (tw_entry _ _ W _ _ _ _ E (table_index_range _ _) Ee) as (x & -> & Ex); [done|].
  destruct (is_table_bounds _ _ (tw_page _ _ W _ _ Ex)) as [Bx Ax]. rewrite mask_entry by lia. by apply IH.
Qed.
Lemma leaf_walk n p va : L !! p = Some n ->
  walk n m p va = if bool_decide (reach n (k_mem s) p va = Some pte /\ table_index PAGE_SHIFT va = j)
                  then Some (Z.land v PAGE_MASK) else walk n (k_mem s) p va.
Proof.
  intros E. rewrite !walk_reach, leaf_reach by done. destruct (reach n (k_mem s) p va) as [r|] eqn:R; cbn [mbind option_bind].
  2: by rewrite bool_decide_eq_false_2 by (intros [? _]; done).
  pose proof (reach_level _ _ _ W _ _ _ E R) as Er.
  rewrite leaf_entry by (apply table_index_range || by eapply tw_page).
  destruct (Z.eqb_spec r pte) as [->|N]; cbn [andb].
  - destruct (Z.eqb_spec (table_index PAGE_SHIFT va) j) as [Ej|Nj].
    + rewrite bool_decide_eq_true_2 by done. cbn [mbind option_bind]. by replace (v =? 0) with false by lia.
    + rewrite bool_decide_eq_false_2 by (intros [_ ?]; done). done.
  - rewrite bool_decide_eq_false_2 by (intros [[= ?] _]; done). done.
Qed.
End leaf.

End tables.
