(* ===== verification/PagingTheorems.v ===== *)
(** * Properties of address-space construction (src/mm/paging.c)

    [map_page] implements insertion in the map from virtual pages to physical
    pages that a task's tables encode, and leaves every other address space as
    it was; the fault handler maps exactly the page that faulted. *)

From S2P Require Export PagingProofs.

Section map_page.
Context {O : PageOps} {Laws : PageLaws}.

(** The task at [task] has the tables of [L], or none yet, and room in its
    arrays for one more page and its tables. *)
Record space_ok (s : kstate) (L : gmap Z nat) (task : Z) (t : task_struct) : Prop := {
  so_tables : tables_wf s L;
  so_mapped : pages_mapped s;
  so_task : k_tasks s !! task = Some t;
  so_dir : pagedirectory (t_mm t) = 0 \/ L !! pagedirectory (t_mm t) = Some 3%nat;
  so_kernel : 0 <= kernelpages_count (t_mm t) <= 11;
  so_user : 0 <= userpages_count (t_mm t) < 16 }.

Definition ensure_directory (task : Z) (t : task_struct) : K unit :=
  when (pagedirectory (t_mm t) =? 0)
    (pgd ← next_free_page;
     _ ← set_pagedirectory task pgd;
     t ← get_task task;
     add_kernelpage task (pagedirectory (t_mm t))).

Lemma page_addr_pos i : page_index i -> page_addr i <> 0.
Proof. intros H. destruct (page_addr_bounds i H). lia. Qed.

(** The task with a directory; its translations are those it had. *)
Lemma ensure_directory_run s L task t :
  space_ok s L task t -> free_list s <> [] ->
  exists s1 L1 t1, ensure_directory task t s = Ok tt s1 /\ extends 1 s s1 L L1
    /\ k_tasks s1 = <[task := t1]> (k_tasks s)
    /\ pagedirectory (t_mm t1) <> 0 /\ L1 !! pagedirectory (t_mm t1) = Some 3%nat
    /\ 0 <= kernelpages_count (t_mm t1) <= kernelpages_count (t_mm t) + 1
    /\ (userpages_count (t_mm t1) = userpages_count (t_mm t) /\ userpages (t_mm t1) = userpages (t_mm t)
      /\ t1 = set_mm (t_mm t1) t)
    /\ (forall va, walk 3 (k_mem s1) (pagedirectory (t_mm t1)) va = translate s task va)
    /\ (forall d, L !! d = Some 3%nat -> d <> pagedirectory (t_mm t) -> d <> pagedirectory (t_mm t1)).
Proof.
  intros [W HM Et Hd Hk Hu] HF. unfold ensure_directory. destruct (Z.eqb_spec (pagedirectory (t_mm t)) 0) as [E0|N0]; cbn [when].
  - pose proof (next_free_page_run s HM) as R. destruct (free_list s) as [|i r] eqn:EF; [done|].
    destruct R as (s1 & R & F & Hi & EF1). rewrite (bind_ok _ _ _ _ _ R).
    assert (Et1 : k_tasks s1 !! task = Some t) by (destruct F as (_ & _ & _ & ->); done).
    unfold set_pagedirectory. rewrite (bind_ok _ _ _ _ _ (modify_task_ok _ _ _ _ Et1)).
    set (t1 := set_mm _ t). set (s2 := with_tasks _ s1).
    assert (Et2 : k_tasks s2 !! task = Some t1) by apply lookup_insert_eq.
    unfold get_task. unfold mbind at 1, M_bind at 1. rewrite Et2.
    destruct (add_kernelpage_run s2 task t1 (pagedirectory (t_mm t1)) Et2) as (t2 & R2 & n & kp & -> & Hn); [cbn; lia|].
    rewrite R2. cbn in Hn. pose proof (root_wf s s1 i L W Hi F) as W1.
    assert (X : extends 1 s s1 L (<[page_addr i := 3%nat]> L)).
    { split.
      - done.
      - apply insert_subseteq. destruct (L !! page_addr i) eqn:E; [|done]. exfalso. by eapply fresh_not_table.
      - intros p m j e E Hj He _. rewrite (fresh_entry s s1 i); [done|done|done|by eapply tw_page|done].
      - intros p m va E. by eapply (fresh_walk s s1 i L m W Hi F).
      - by eapply fresh_page_mapped.
      - apply (fresh_data s s1 i L _ Hi F). intros k Nk. apply lookup_insert_ne. intros E. apply Nk. symmetry. by apply page_addr_inj.
      - rewrite EF, EF1. cbn. lia.
      - destruct F as (_ & _ & _ & ->). done. }
    eexists _, (<[page_addr i := 3%nat]> L), _. split; [reflexivity|]. split; [by do 2 apply extends_tasks|].
    split; [cbn; rewrite insert_insert_eq; destruct F as (_ & _ & _ & ->); reflexivity|].
    cbn [t_mm set_mm pagedirectory kernelpages_count userpages_count userpages t1].
    split; [by apply page_addr_pos|]. split; [apply lookup_insert_eq|]. split; [lia|]. split; [done|]. split.
    + intros va. unfold translate. rewrite Et. cbn [mbind option_bind]. rewrite E0. cbn [Z.eqb].
      match goal with |- walk 3 ?m _ _ = _ => change m with (k_mem s1) end.
      rewrite walk_reach. cbn [reach]. by rewrite (fresh_zero s s1 i _ F (table_index_range _ _)).
    + intros d Ed _ ->. by eapply fresh_not_table.
  - destruct Hd as [|Hd]; [done|]. exists s, L, t. split; [done|]. split.
    { split; try done; [lia|]. by destruct s. }
    rewrite insert_id by done. split; [done|]. split; [done|]. split; [done|]. split; [lia|]. split; [by destruct t|]. split; [|done].
    intros va. unfold translate. rewrite Et. cbn [mbind option_bind]. by replace (pagedirectory (t_mm t) =? 0) with false by lia.
Qed.

(** The three table levels: the directory leads to the last-level table. *)
Lemma map_levels_run s L task t va :
  tables_wf s L -> pages_mapped s -> (3 <= length (free_list s))%nat -> k_tasks s !! task = Some t ->
  L !! pagedirectory (t_mm t) = Some 3%nat -> 0 <= kernelpages_count (t_mm t) <= 12 ->
  exists pte s' L' t', (pud ← map_level task (pagedirectory (t_mm t)) PGD_SHIFT va;
      pmd ← map_level task pud PUD_SHIFT va; map_level task pmd PMD_SHIFT va) s = Ok pte s'
    /\ extends 3 s s' L L' /\ L' !! pte = Some 0%nat /\ reach 3 (k_mem s') (pagedirectory (t_mm t)) va = Some pte
    /\ k_tasks s' = <[task := t']> (k_tasks s) /\ mm_grown 3 t t'.
Proof.
  intros W HM HF Et Ed Hk. set (pgd := pagedirectory (t_mm t)) in *.
  assert (NE : forall x : kstate, (1 <= length (free_list x))%nat -> free_list x <> []) by (intros x Hx E; rewrite E in Hx; cbn in Hx; lia).
  destruct (map_level_run s L task t pgd 2 va W HM (NE s ltac:(lia)) Ed Et ltac:(lia))
    as (pud & s1 & L1 & t1 & R1 & X1 & E1 & En1 & Ek1 & G1).
  pose proof (ex_free _ _ _ _ _ X1) as F1. assert (Et1 : k_tasks s1 !! task = Some t1) by (rewrite Ek1; apply lookup_insert_eq).
  pose proof G1 as (n1 & kp1 & Eg1 & Hn1).
  destruct (map_level_run s1 L1 task t1 pud 1 va (ex_wf _ _ _ _ _ X1) (ex_mapped _ _ _ _ _ X1) (NE s1 ltac:(lia)) E1 Et1)
    as (pmd & s2 & L2 & t2 & R2 & X2 & E2 & En2 & Ek2 & G2); [rewrite Eg1; cbn; lia|].
  pose proof (ex_free _ _ _ _ _ X2) as F2. assert (Et2 : k_tasks s2 !! task = Some t2) by (rewrite Ek2; apply lookup_insert_eq).
  pose proof (mm_grown_trans _ _ _ _ _ G1 G2) as (n2 & kp2 & Eg2 & Hn2).
  destruct (map_level_run s2 L2 task t2 pmd 0 va (ex_wf _ _ _ _ _ X2) (ex_mapped _ _ _ _ _ X2) (NE s2 ltac:(lia)) E2 Et2)
    as (pte & s3 & L3 & t3 & R3 & X3 & E3 & En3 & Ek3 & G3); [rewrite Eg2; cbn; lia|].
  exists pte, s3, L3, t3. change PGD_SHIFT with (level_shift 3). change PUD_SHIFT with (level_shift 2). change PMD_SHIFT with (level_shift 1).
  rewrite (bind_ok _ _ _ _ _ R1), (bind_ok _ _ _ _ _ R2). split; [done|].
  split; [by eapply (extends_trans 2); [eapply (extends_trans 1)|]|]. split; [done|]. split; [|split].
  - pose proof (ex_sub _ _ _ _ _ X1) as S1. pose proof (ex_sub _ _ _ _ _ X2) as S2.
    assert (En1' : entry (k_mem s3) pgd (table_index (level_shift 3) va) = Some (Z.lor pud 3)).
    { eapply (ex_entry _ _ _ _ _ X3); [eapply lookup_weaken; [eapply lookup_weaken; [exact Ed|done]|done]|apply table_index_range| |apply lor3_nonzero].
      eapply (ex_entry _ _ _ _ _ X2); [eapply lookup_weaken; [exact Ed|done]|apply table_index_range|done|apply lor3_nonzero]. }
    assert (En2' : entry (k_mem s3) pud (table_index (level_shift 2) va) = Some (Z.lor pmd 3)).
    { eapply (ex_entry _ _ _ _ _ X3); [eapply lookup_weaken; [exact E1|done]|apply table_index_range|done|apply lor3_nonzero]. }
    pose proof (ex_wf _ _ _ _ _ X3) as W3.
    assert (B : forall x n, L3 !! x = Some n -> Z.land (Z.lor x 3) PAGE_MASK = x).
    { intros x n Ex. destruct (is_table_bounds _ _ (tw_page _ _ W3 _ _ Ex)) as [Bx Ax]. apply mask_entry; lia. }
    cbn [reach]. rewrite En1'. cbn [mbind option_bind]. rewrite (proj2 (Z.eqb_neq _ _) (lor3_nonzero pud)).
    rewrite (B pud 2%nat) by (eapply lookup_weaken; [eapply lookup_weaken; [exact E1|done]|apply X3]).
    rewrite En2'. cbn [mbind option_bind]. rewrite (proj2 (Z.eqb_neq _ _) (lor3_nonzero pmd)).
    rewrite (B pmd 1%nat) by (eapply lookup_weaken; [exact E2|apply X3]).
    rewrite En3. cbn [mbind option_bind]. rewrite (proj2 (Z.eqb_neq _ _) (lor3_nonzero pte)). by rewrite (B pte 0%nat).
  - by rewrite Ek3, Ek2, Ek1, !insert_insert_eq.
  - eapply (mm_grown_trans 2 1); [eapply (mm_grown_trans 1 1)|]; done.
Qed.

(** The task with one more user page recorded. *)
Definition with_userpage (p : user_page) (t : task_struct) : task_struct :=
  let mm := t_mm t in
  set_mm (Mm (pagedirectory mm) (userpages_count mm + 1) (<[Z.to_nat (userpages_count mm) := p]> (userpages mm))
    (kernelpages_count mm) (kernelpages mm)) t.

Lemma add_userpage_run s task t p : k_tasks s !! task = Some t -> 0 <= userpages_count (t_mm t) < 16 ->
  add_userpage task p s = Ok tt (with_tasks (<[task := with_userpage p t]> (k_tasks s)) s).
Proof.
  intros E Hc. unfold add_userpage, get_task, put_task, mbind, M_bind, MAX_PROCESS_PAGES. rewrite E.
  decb. cbn [andb]. rewrite E. unfold s32. by rewrite swrap_small by lia.
Qed.

Lemma bool_decide_translate (P Q : Prop) `{HP : !Decision P, HQ : !Decision Q} {A} (x y : A) :
  (P <-> Q) -> (if bool_decide P then x else y) = if bool_decide Q then x else y.
Proof. intros H. by rewrite (bool_decide_ext P Q). Qed.

Lemma frame_update (s s2 : kstate) a b c m tk : s2 = with_mem a (with_pages b (with_tasks c s)) ->
  with_tasks tk (with_mem m s2) = with_mem m (with_pages b (with_tasks tk s)).
Proof. by intros ->. Qed.

(** [s'] is [s] with [va] mapped to [page] for [task]. *)
Record mapped_page (s s' : kstate) (L L' : gmap Z nat) (task va page : Z) (t t' : task_struct) : Prop := {
  mp_wf : tables_wf s' L';
  mp_sub : L ⊆ L';
  mp_mapped : pages_mapped s';
  mp_tasks : k_tasks s' = <[task := t']> (k_tasks s);
  mp_dir : L' !! pagedirectory (t_mm t') = Some 3%nat;
  mp_count : userpages_count (t_mm t') = userpages_count (t_mm t) + 1;
  mp_user : userpages (t_mm t') = <[Z.to_nat (userpages_count (t_mm t)) := UserPage page va]> (userpages (t_mm t));
  mp_rest : t' = set_mm (t_mm t') t;
  mp_kernel : 0 <= kernelpages_count (t_mm t') <= kernelpages_count (t_mm t) + 4;
  mp_data : data_kept s s' L L';
  mp_free : (length (free_list s) <= 4 + length (free_list s'))%nat;
  mp_translate va' : translate s' task va'
    = if bool_decide (va_indices va' = va_indices va) then Some page else translate s task va';
  mp_others d va' : L !! d = Some 3%nat -> d <> pagedirectory (t_mm t) ->
    walk 3 (k_mem s') d va' = walk 3 (k_mem s) d va';
  mp_apart d : L !! d = Some 3%nat -> d <> pagedirectory (t_mm t) -> d <> pagedirectory (t_mm t');
  mp_frame : s' = with_mem (k_mem s') (with_pages (k_pages s') (with_tasks (k_tasks s') s)) }.

(** The state [s2] in which [map_page] writes the last-level entry: the tables
    lead from the directory [pgd] to [pte], and translate as they did. *)
Record at_last_level (s s2 : kstate) (L L2 : gmap Z nat) (task va pgd pte : Z) (t t2 : task_struct) : Prop := {
  al_extends : extends 4 s s2 L L2;
  al_pte : L2 !! pte = Some 0%nat;
  al_pgd : L2 !! pgd = Some 3%nat;
  al_nonzero : pgd <> 0;
  al_reach : reach 3 (k_mem s2) pgd va = Some pte;
  al_tasks : k_tasks s2 = <[task := t2]> (k_tasks s);
  al_dir : pagedirectory (t_mm t2) = pgd;
  al_count : userpages_count (t_mm t2) = userpages_count (t_mm t);
  al_user : userpages (t_mm t2) = userpages (t_mm t);
  al_rest : t2 = set_mm (t_mm t2) t;
  al_kernel : 0 <= kernelpages_count (t_mm t2) <= kernelpages_count (t_mm t) + 4;
  al_walk va' : walk 3 (k_mem s2) pgd va' = translate s task va';
  al_others d : L !! d = Some 3%nat -> d <> pagedirectory (t_mm t) -> d <> pgd }.

Lemma map_page_exec s L task t va page :
  space_ok s L task t -> (4 <= length (free_list s))%nat ->
  exists pgd pte s2 L2 t2, at_last_level s s2 L L2 task va pgd pte t t2
    /\ forall m, stn 8 (k_mem s2) (entry_addr pte (table_index PAGE_SHIFT va)) (Z.lor page MMU_PTE_FLAGS) = Some m ->
      map_page task va page s
      = Ok tt (with_tasks (<[task := with_userpage (UserPage page va) t2]> (k_tasks s2)) (with_mem m s2)).
Proof.
  intros SO HF. pose proof SO as [W HM Et Hd Hk Hu].
  destruct (ensure_directory_run s L task t SO) as (s1 & L1 & t1 & R1 & X1 & Ek1 & N1 & Ed1 & Hk1 & (Hu1 & Hv1 & Hr1) & T1 & O1).
  { intros E. rewrite E in HF. cbn in HF. lia. }
  pose proof (ex_free _ _ _ _ _ X1) as F1. assert (Et1 : k_tasks s1 !! task = Some t1) by (rewrite Ek1; apply lookup_insert_eq).
  destruct (map_levels_run s1 L1 task t1 va (ex_wf _ _ _ _ _ X1) (ex_mapped _ _ _ _ _ X1) ltac:(lia) Et1 Ed1 ltac:(lia))
    as (pte & s2 & L2 & t2 & R2 & X2 & Ept & Rch & Ek2 & n & kp & Eg & Hn).
  set (pgd := pagedirectory (t_mm t1)) in *.
  assert (Hu2 : userpages_count (t_mm t2) = userpages_count (t_mm t)) by (by rewrite Eg).
  exists pgd, pte, s2, L2, t2. split.
  { split; try done.
    - exact (extends_trans _ _ _ _ _ _ _ _ X1 X2).
    - eapply lookup_weaken; [exact Ed1|apply X2].
    - by rewrite Ek2, Ek1, insert_insert_eq.
    - by rewrite Eg.
    - by rewrite Eg.
    - by rewrite Eg, Hr1.
    - rewrite Eg. cbn. lia.
    - intros va'. by rewrite <- T1, <- (ex_walk _ _ _ _ _ X2 pgd 3 va' Ed1). }
  intros m St. unfold map_page, get_task. unfold mbind at 1, M_bind at 1. rewrite Et. fold (ensure_directory task t).
  rewrite (bind_ok _ _ _ _ _ R1). unfold mbind at 1, M_bind at 1. rewrite Et1. cbv zeta. fold pgd.
  assert (R2' : forall B (k : Z -> K B), (pud ← map_level task pgd PGD_SHIFT va;
    pmd ← map_level task pud PUD_SHIFT va; pte ← map_level task pmd PMD_SHIFT va; k pte) s1 = k pte s2).
  { intros B k. rewrite <- (bind_ok _ k _ _ _ R2). rewrite bind_assoc. unfold mbind, M_bind.
    destruct (map_level task pgd PGD_SHIFT va s1) as [x sx|]; [|done]. by destruct (map_level task x PUD_SHIFT va sx). }
  rewrite R2'. unfold map_table_entry.
  rewrite (slot_addr s2) by (apply table_index_range || exact (tw_page _ _ (ex_wf _ _ _ _ _ X2) _ _ Ept)).
  rewrite (bind_ok _ _ _ _ _ (store64_ok s2 _ _ _ St)).
  apply (add_userpage_run (with_mem m s2) task t2); [cbn; rewrite Ek2; apply lookup_insert_eq|lia].
Qed.

Lemma pte_value page : 0 <= page < 2 ^ 32 -> 0 < Z.lor page MMU_PTE_FLAGS < 2 ^ 64.
Proof.
  intros H. pose proof (lor_pos page MMU_PTE_FLAGS ltac:(lia) ltac:(vm_compute; split; congruence)) as B.
  assert (Z.lor page MMU_PTE_FLAGS <> 0) by (intros [_ E]%Z.lor_eq_0_iff; done). lia.
Qed.

(** The addresses that lead through the same entries. *)
Lemma reach_indices s L pgd pte va va' : tables_wf s L -> L !! pgd = Some 3%nat -> reach 3 (k_mem s) pgd va = Some pte ->
  reach 3 (k_mem s) pgd va' = Some pte /\ table_index PAGE_SHIFT va' = table_index PAGE_SHIFT va
  <-> va_indices va' = va_indices va.
Proof.
  intros W Ed R. unfold va_indices. split.
  - intros [R' Ej]. destruct (reach_inj _ _ _ W pgd pgd va' va pte Ed Ed R' R) as [_ I].
    change PGD_SHIFT with (level_shift 3). change PUD_SHIFT with (level_shift 2). change PMD_SHIFT with (level_shift 1).
    rewrite (I 3%nat), (I 2%nat), (I 1%nat), Ej by lia. done.
  - intros [= I3 I2 I1 I0]. split; [|done]. transitivity (reach 3 (k_mem s) pgd va); [|done]. cbn [reach].
    change (table_index (level_shift 3)) with (table_index PGD_SHIFT). change (table_index (level_shift 2)) with (table_index PUD_SHIFT).
    change (table_index (level_shift 1)) with (table_index PMD_SHIFT). by rewrite I3, I2, I1.
Qed.

Lemma map_page_run s L task t va page :
  space_ok s L task t -> (4 <= length (free_list s))%nat -> 0 <= page < 2 ^ 32 -> page mod 4096 = 0 ->
  exists s' L' t', map_page task va page s = Ok tt s' /\ mapped_page s s' L L' task va page t t'.
Proof.
  intros SO HF Hpg Hal.
  destruct (map_page_exec s L task t va page SO HF) as (pgd & pte & s2 & L2 & t2 & [X Ept Ed2 N0 Rch Ek2 Ed Hu2 Hv2 Hr2 Hk2 T1 O1] & R).
  pose proof (ex_wf _ _ _ _ _ X) as W2. set (j := table_index PAGE_SHIFT va) in *.
  assert (Hj : 0 <= j < 512) by apply table_index_range. pose proof (pte_value page Hpg) as Hv.
  destruct (stn_ok 8 (k_mem s2) (entry_addr pte j) (Z.lor page MMU_PTE_FLAGS)) as [m St].
  { apply table_valid; [apply X|by eapply tw_page|done]. }
  pose proof (leaf_walk s2 L2 pte j _ m W2 Ept Hj Hv St 3) as LW.
  eexists _, L2, _. split; [by apply R|]. split.
  - destruct (leaf_wf s2 L2 pte j _ m W2 Ept Hj Hv St) as [A B C]. split; [|done..].
    intros p k Ep. destruct (A p k Ep) as (i & Hi & -> & U). exists i. split; [done|]. split; [done|].
    rewrite <- U. by erewrite page_used_ext.
  - apply X.
  - intros i Hi a Ha. cbn. rewrite (stn_valid_eq _ _ _ _ _ St). by apply (ex_mapped _ _ _ _ _ X i).
  - cbn. by rewrite Ek2, insert_insert_eq.
  - cbn. by rewrite Ed.
  - cbn. by rewrite Hu2.
  - cbn. by rewrite Hu2, Hv2.
  - by rewrite Hr2.
  - exact Hk2.
  - eapply data_kept_trans; [apply X|]. eapply (data_kept_ext _ (with_mem m s2)); [done|done|].
    apply (store_data s2 m L2 pte j (Z.lor page MMU_PTE_FLAGS) 0); [by eapply tw_page|done|done|done].
  - rewrite (free_list_ext (with_tasks _ _) s2) by done. apply X.
  - intros va'. unfold translate at 1. cbn [k_tasks with_tasks]. rewrite lookup_insert_eq. cbn [mbind option_bind].
    cbn [with_userpage t_mm set_mm pagedirectory]. rewrite Ed. replace (pgd =? 0) with false by lia.
    change (k_mem (with_tasks _ (with_mem m s2))) with m. rewrite (LW pgd va' Ed2), T1.
    rewrite mask_entry by (done || vm_compute; split; congruence).
    apply bool_decide_translate. by eapply reach_indices.
  - intros d va' Edd Nd. pose proof (O1 d Edd Nd) as Npd. change (k_mem (with_tasks _ (with_mem m s2))) with m.
    assert (Ed' : L2 !! d = Some 3%nat) by (eapply lookup_weaken; [exact Edd|apply X]).
    rewrite (LW d va' Ed'), bool_decide_eq_false_2; [by apply (ex_walk _ _ _ _ _ X)|].
    intros [R' _]. destruct (reach_inj _ _ _ W2 d pgd va' va pte Ed' Ed2 R' Rch) as [? _]. done.
  - intros d Edd Nd. cbn. rewrite Ed. by apply O1.
  - apply (frame_update s s2 _ _ _ _ _ (ex_frame _ _ _ _ _ X)).
Qed.

Lemma fresh_space s s1 i L task t : space_ok s L task t -> page_index i -> fresh_page i s s1 ->
  space_ok s1 L task t /\ (forall va, translate s1 task va = translate s task va).
Proof.
  intros [W HM Et Hd Hk Hu] Hi F. assert (Ek : k_tasks s1 = k_tasks s) by (destruct F as (_ & _ & _ & ->); done).
  split; [split; try done|].
  - by eapply fresh_wf.
  - by eapply fresh_page_mapped.
  - by rewrite Ek.
  - intros va. unfold translate. rewrite Ek, Et. cbn [mbind option_bind]. destruct (Z.eqb_spec (pagedirectory (t_mm t)) 0); [done|].
    destruct Hd as [|Hd]; [done|]. by eapply (fresh_walk s s1 i L 3).
Qed.

Lemma page_index_value i : page_index i -> 0 <= page_addr i < 2 ^ 32 /\ page_addr i mod 4096 = 0.
Proof. intros H. destruct (page_addr_bounds i H). split; [lia|done]. Qed.

(** The page bits of an address select the same entries. *)
Lemma table_index_mask shift va : shift = 12 \/ shift = 21 \/ shift = 30 \/ shift = 39 ->
  table_index shift (Z.land va PAGE_MASK) = table_index shift va.
Proof.
  intros Hs. unfold table_index. rewrite Z.shiftr_land, <- Z.land_assoc. f_equal.
  destruct Hs as [->|[->|[->| ->]]]; reflexivity.
Qed.
Lemma va_indices_mask va : va_indices (Z.land va PAGE_MASK) = va_indices va.
Proof. unfold va_indices. rewrite !table_index_mask by (vm_compute; tauto). done. Qed.

(** Taking a page and mapping it. *)
Lemma take_and_map_run s L task t va i r : space_ok s L task t -> free_list s = i :: r -> (4 <= length r)%nat ->
  exists s1 s' L' t', next_free_page s = Ok (page_addr i) s1 /\ page_addr i <> 0
    /\ map_page task va (page_addr i) s1 = Ok tt s' /\ mapped_page s1 s' L L' task va (page_addr i) t t'
    /\ (forall va', translate s' task va'
         = if bool_decide (va_indices va' = va_indices va) then Some (page_addr i) else translate s task va')
    /\ s1 = with_mem (k_mem s1) (with_pages (k_pages s1) s).
Proof.
  intros SO EF Hr. pose proof (next_free_page_run s (so_mapped _ _ _ _ SO)) as R. rewrite EF in R.
  destruct R as (s1 & R & F & Hi & EF1). destruct (fresh_space s s1 i L task t SO Hi F) as [SO1 T1].
  destruct (page_index_value i Hi) as [B A].
  destruct (map_page_run s1 L task t va (page_addr i) SO1) as (s' & L' & t' & R' & M); [by rewrite EF1|done|done|].
  exists s1, s', L', t'. split; [done|]. split; [by apply page_addr_pos|]. split; [done|]. split; [done|]. split.
  - intros va'. by rewrite (mp_translate _ _ _ _ _ _ _ _ _ M), T1.
  - apply F.
Qed.

(** The handler on a translation fault with a free page. *)
Lemma do_mem_abort_run s L t addr esr i r :
  space_ok s L (current (k_sched s)) t -> Z.land (Z.land esr 63) 60 = 4 -> free_list s = i :: r -> (4 <= length r)%nat ->
  exists s', do_mem_abort addr esr s = Ok 0 s' /\ s' = with_mem (k_mem s') (with_pages (k_pages s') (with_tasks (k_tasks s') s))
    /\ forall va', translate s' (current (k_sched s)) va'
         = if bool_decide (va_indices va' = va_indices addr) then Some (page_addr i) else translate s (current (k_sched s)) va'.
Proof.
  intros SO E4 EF Hr. unfold do_mem_abort. rewrite E4, Z.eqb_refl.
  destruct (take_and_map_run s L _ t (Z.land addr PAGE_MASK) i r SO EF Hr) as (s1 & s' & L' & t' & R & N & R' & M & T & F).
  assert (Es : k_sched s1 = k_sched s) by (by rewrite F).
  exists s'. rewrite (bind_ok _ _ _ _ _ R). replace (page_addr i =? 0) with false by lia.
  unfold get_current_task. rewrite bind_get, Es, (bind_ok _ _ _ _ _ R'). split; [done|].
  rewrite va_indices_mask in T. split; [|done]. rewrite (mp_frame _ _ _ _ _ _ _ _ _ M) at 1. by rewrite F at 1.
Qed.

(** ** Properties *)

(** C11. [map_page] is insertion in the map a task's tables encode: afterwards the
    page of [va] (all addresses with the same four indices) translates to
    [page], every other address of the task translates as before, the tables are
    still a tree, and the page is recorded in the task. *)
Theorem map_page_inserts s L task t va page :
  space_ok s L task t -> (4 <= length (free_list s))%nat -> 0 <= page < 2 ^ 32 -> page mod 4096 = 0 ->
  exists s' L' t', map_page task va page s = Ok tt s' /\ tables_wf s' L' /\ L ⊆ L'
    /\ k_tasks s' = <[task := t']> (k_tasks s) /\ userpages_count (t_mm t') = userpages_count (t_mm t) + 1
    /\ forall va', translate s' task va'
         = if bool_decide (va_indices va' = va_indices va) then Some page else translate s task va'.
Proof.
  intros SO HF Hp Ha. destruct (map_page_run s L task t va page SO HF Hp Ha) as (s' & L' & t' & R & []).
  exists s', L', t'. auto 10.
Qed.

(** C25. Mapping a page for one task leaves the translations of every other task
    whose directory is among the tables unchanged. *)
Theorem map_page_isolates s L task t va page other t2 va' :
  space_ok s L task t -> (4 <= length (free_list s))%nat -> 0 <= page < 2 ^ 32 -> page mod 4096 = 0 ->
  other <> task -> k_tasks s !! other = Some t2 -> L !! pagedirectory (t_mm t2) = Some 3%nat ->
  pagedirectory (t_mm t2) <> pagedirectory (t_mm t) ->
  exists s', map_page task va page s = Ok tt s' /\ translate s' other va' = translate s other va'.
Proof.
  intros SO HF Hp Ha No E2 Ed Nd. destruct (map_page_run s L task t va page SO HF Hp Ha) as (s' & L' & t' & R & M).
  exists s'. split; [done|]. unfold translate. rewrite (mp_tasks _ _ _ _ _ _ _ _ _ M), lookup_insert_ne by done.
  rewrite E2. cbn [mbind option_bind]. destruct (_ =? 0); [done|]. by apply (mp_others _ _ _ _ _ _ _ _ _ M).
Qed.

(** [allocate_user_page] takes the lowest free page, maps it and returns its
    kernel alias. *)
Theorem allocate_user_page_maps s L task t va i r :
  space_ok s L task t -> free_list s = i :: r -> (4 <= length r)%nat ->
  exists s', allocate_user_page task va s = Ok (page_addr i + VIRTUAL_ADDRESS_START) s'
    /\ forall va', translate s' task va'
         = if bool_decide (va_indices va' = va_indices va) then Some (page_addr i) else translate s task va'.
Proof.
  intros SO EF Hr. destruct (take_and_map_run s L task t va i r SO EF Hr) as (s1 & s' & L' & t' & R & N & R' & M & T & _).
  destruct (free_list_next s i r EF) as [Hi _]. destruct (page_index_value i Hi) as [B _].
  exists s'. split; [|done]. unfold allocate_user_page. rewrite (bind_ok _ _ _ _ _ R).
  replace (page_addr i =? 0) with false by lia. rewrite (bind_ok _ _ _ _ _ R').
  unfold VIRTUAL_ADDRESS_START. by rewrite u64_small by lia.
Qed.

(** On a translation fault of a user access the handler returns 0 and the
    faulting address then translates to a page that was free; every other page
    of the task keeps its translation.  On any other fault status, and when no
    page is free, it returns -1 and changes nothing. *)
Theorem do_mem_abort_correct s L t addr esr :
  space_ok s L (current (k_sched s)) t ->
  match bool_decide (Z.land (Z.land esr 63) 60 = 4), free_list s with
  | true, i :: r => (4 <= length r)%nat ->
      exists s', do_mem_abort addr esr s = Ok 0 s' /\ translate s' (current (k_sched s)) addr = Some (page_addr i)
        /\ forall va', va_indices va' <> va_indices addr ->
             translate s' (current (k_sched s)) va' = translate s (current (k_sched s)) va'
  | _, _ => do_mem_abort addr esr s = Ok (-1) s
  end.
Proof.
  intros SO. unfold do_mem_abort. destruct (Z.eqb_spec (Z.land (Z.land esr 63) 60) 4) as [E4|N4].
  2: by rewrite bool_decide_eq_false_2.
  rewrite bool_decide_eq_true_2 by done. destruct (free_list s) as [|i r] eqn:EF.
  - pose proof (next_free_page_run s (so_mapped _ _ _ _ SO)) as R. rewrite EF in R. by rewrite (bind_ok _ _ _ _ _ R).
  - intros Hr. destruct (do_mem_abort_run s L t addr esr i r SO E4 EF Hr) as (s' & R & _ & T).
    unfold do_mem_abort in R. rewrite E4, Z.eqb_refl in R. exists s'. split; [done|]. split.
    + rewrite T. by rewrite bool_decide_eq_true_2.
    + intros va' Nv. rewrite T. by rewrite bool_decide_eq_false_2.
Qed.

(** [map_table] does not test the page it is given: with no free page an
    empty slot is linked to a table at physical address 0, which the next level
    of [map_page] then reads and writes. *)
Theorem map_table_out_of_memory s L task t p n va :
  space_ok s L task t -> free_list s = [] -> L !! p = Some (S n) ->
  entry (k_mem s) p (table_index (level_shift (S n)) va) = Some 0 ->
  exists s', map_table (u64 (p + VIRTUAL_ADDRESS_START)) (level_shift (S n)) va s = Ok (0, 1) s'
    /\ entry (k_mem s') p (table_index (level_shift (S n)) va) = Some MM_TYPE_PAGE_TABLE.
Proof.
  intros [W HM _ _ _ _] EF Ep E0. set (idx := table_index (level_shift (S n)) va) in *.
  assert (Hidx : 0 <= idx < 512) by apply table_index_range. pose proof (tw_page _ _ W _ _ Ep) as Tp.
  unfold map_table. fold idx. rewrite (slot_addr s) by done.
  rewrite (bind_ok _ _ _ _ _ (load64_ok s _ _ E0)). cbn [Z.eqb].
  pose proof (next_free_page_run s HM) as R. rewrite EF in R. rewrite (bind_ok _ _ _ _ _ R). cbv zeta.
  destruct (stn_ok 8 (k_mem s) (entry_addr p idx) (Z.lor 0 MM_TYPE_PAGE_TABLE)) as [m St]; [by apply table_valid|].
  rewrite (bind_ok _ _ _ _ _ (store64_ok s _ _ _ St)). eexists. split; [done|].
  unfold entry. cbn [k_mem with_mem]. rewrite (ld64_st64_same _ _ _ _ St); [done|]. split; vm_compute; congruence.
Qed.

End map_page.

(** ** Concrete instances *)

(** A task without tables at address 1, all pages free. *)
Definition empty_space : kstate := pages_taken [].
Lemma empty_space_ok : space_ok empty_space ∅ 1 INIT_TASK.
Proof.
  split; [|apply pages_taken_mapped|reflexivity|by left|cbn; lia|cbn; lia].
  by split; intros p n; rewrite ?lookup_empty.
Qed.
Lemma free_list_length : (4 <= length (free_list empty_space))%nat.
Proof.
  unfold empty_space. rewrite free_list_boot. cbn [length]. rewrite length_seqZ, num_pages.
  assert (2 <= Z.to_nat (1039360 - 2))%nat; [|lia]. apply Nat2Z.inj_le. rewrite Z2Nat.id; lia.
Qed.

Lemma map_page_inserts_witness :
  exists s' L' t', map_page 1 0x2000 0x500000 empty_space = Ok tt s' /\ tables_wf s' L' /\ ∅ ⊆ L'
    /\ k_tasks s' = <[1 := t']> (k_tasks empty_space) /\ userpages_count (t_mm t') = 0 + 1
    /\ forall va', translate s' 1 va'
         = if bool_decide (va_indices va' = va_indices 0x2000) then Some 0x500000 else translate empty_space 1 va'.
Proof. apply (map_page_inserts _ _ _ _ _ _ empty_space_ok free_list_length); [lia|reflexivity]. Defined.

(** Page 0 is the empty directory of a second task, at address 2. *)
Definition second_task : task_struct := set_mm (Mm (page_addr 0) 0 (replicate 16 (UserPage 0 0)) 0 (replicate 16 0)) INIT_TASK.
Definition two_spaces (taken : list Z) : kstate :=
  with_tasks {[1 := INIT_TASK; 2 := second_task]} (pages_taken taken).

Lemma boot_entry_zero taken i : 0 <= i < 512 -> entry (k_mem (two_spaces taken)) (page_addr 0) i = Some 0.
Proof.
  intros Hi. apply zero_entry; [|done]. intros k Hk. unfold ld8.
  change (m_valid (k_mem (two_spaces taken))) with (fun a => (VIRTUAL_ADDRESS_START <=? a) && (a <? VIRTUAL_ADDRESS_START + 2 ^ 32)).
  cbv beta. rewrite page_addr_eq. unfold VIRTUAL_ADDRESS_START. decb. done.
Qed.

Lemma two_spaces_tables taken : page_used (pages_taken taken) 0 = true -> tables_wf (two_spaces taken) {[page_addr 0 := 3%nat]}.
Proof.
  intros U. split.
  - intros p n [<- <-]%lookup_singleton_Some. exists 0. split; [unfold page_index; rewrite num_pages; lia|]. done.
  - intros p n i e [<- _]%lookup_singleton_Some Hi. rewrite boot_entry_zero by done. by intros [= <-].
  - intros p p' n n' i i' q [<- _]%lookup_singleton_Some _ Hi _. rewrite boot_entry_zero by done.
    intros [= E]. symmetry in E. by apply lor3_nonzero in E.
Qed.
Lemma two_spaces_ok taken : page_used (pages_taken taken) 0 = true ->
  space_ok (two_spaces taken) {[page_addr 0 := 3%nat]} 1 INIT_TASK.
Proof.
  intros U. split; [by apply two_spaces_tables|apply (pages_taken_mapped taken)|reflexivity|by left|cbn; lia|cbn; lia].
Qed.

Lemma two_spaces_free : (4 <= length (free_list (two_spaces [0%Z])))%nat.
Proof.
  unfold free_list. assert (N : 5 <= MM_NUM_OF_PAGES) by (rewrite num_pages; lia). revert N.
  generalize MM_NUM_OF_PAGES. intros N HN. do 5 rewrite seqZ_cons by lia. rewrite !filter_cons.
  rewrite decide_False by done. rewrite !decide_True by done. cbn [length]. lia.
Qed.

Lemma map_page_isolates_witness :
  exists s', map_page 1 0x2000 0x500000 (two_spaces [0%Z]) = Ok tt s'
    /\ translate s' 2 0x2000 = translate (two_spaces [0%Z]) 2 0x2000.
Proof.
  apply (map_page_isolates _ {[page_addr 0 := 3%nat]} 1 INIT_TASK 0x2000 0x500000 2 second_task 0x2000);
    [by apply two_spaces_ok|apply two_spaces_free|lia|reflexivity|lia|reflexivity|reflexivity|discriminate].
Defined.

Lemma many_left : (4 <= length (1%Z :: seqZ 2 (MM_NUM_OF_PAGES - 2)%Z))%nat.
Proof.
  cbn [length].  rewrite length_seqZ, num_pages.
  assert (3 <= Z.to_nat (1039360 - 2))%nat; [|lia]. apply Nat2Z.inj_le. rewrite Z2Nat.id; lia.
Qed.

Lemma allocate_user_page_maps_witness :
  exists s', allocate_user_page 1 0x2000 empty_space = Ok (page_addr 0 + VIRTUAL_ADDRESS_START) s'
    /\ forall va', translate s' 1 va'
         = if bool_decide (va_indices va' = va_indices 0x2000) then Some (page_addr 0) else translate empty_space 1 va'.
Proof. exact (allocate_user_page_maps _ _ _ _ _ _ _ empty_space_ok free_list_boot many_left). Defined.

(** A level 3 translation fault at 0x3123. *)
Lemma do_mem_abort_correct_witness :
  exists s', do_mem_abort 0x3123 7 empty_space = Ok 0 s' /\ translate s' 1 0x3123 = Some (page_addr 0)
    /\ forall va', va_indices va' <> va_indices 0x3123 -> translate s' 1 va' = translate empty_space 1 va'.
Proof.
  pose proof (do_mem_abort_correct empty_space ∅ INIT_TASK 0x3123 7 empty_space_ok) as T.
  change (free_list empty_space) with (free_list (pages_taken [])) in T. rewrite free_list_boot in T. exact (T many_left).
Defined.

Lemma taken_used l i : NoDup l -> i ∈ l -> page_used (two_spaces l) i = true.
Proof.
  intros ND Hi. assert (E : map_byte (pages_taken l) i = 1).
  { unfold map_byte. cbn [k_pages pages_taken with_pages]. rewrite (elem_of_list_to_map_1 _ i 1); [done| |].
    - rewrite <- list_fmap_compose. rewrite (list_fmap_ext _ id l) by done. by rewrite list_fmap_id.
    - apply list_elem_of_fmap. by exists i. }
  change (Z.testbit (map_byte (pages_taken l) i) 0 = true). by rewrite E.
Qed.
Lemma two_spaces_taken l : NoDup l -> 0 ∈ l -> space_ok (two_spaces l) {[page_addr 0 := 3%nat]} 1 INIT_TASK.
Proof. intros ND H0. apply two_spaces_ok. exact (taken_used l 0 ND H0). Qed.
Lemma filter_none (P : Z -> Prop) `{HP : !forall x, Decision (P x)} (l : list Z) :
  (forall x, x ∈ l -> ~ P x) -> filter P l = [].
Proof.
  induction l as [|x l IH]; intros H; [done|]. rewrite filter_cons, decide_False by (apply H; left).
  apply IH. intros y Hy. apply H. by right.
Qed.
Lemma all_taken : free_list (two_spaces (seqZ 0 MM_NUM_OF_PAGES)) = [].
Proof.
  unfold free_list. generalize (NoDup_seqZ 0 MM_NUM_OF_PAGES). generalize (seqZ 0 MM_NUM_OF_PAGES). intros l ND.
  apply filter_none. intros x Hx. by rewrite taken_used.
Qed.

Lemma map_table_out_of_memory_witness :
  exists s', map_table (u64 (page_addr 0 + VIRTUAL_ADDRESS_START)) (level_shift 3) 0x2000 (two_spaces (seqZ 0 MM_NUM_OF_PAGES)) = Ok (0, 1) s'
    /\ entry (k_mem s') (page_addr 0) (table_index (level_shift 3) 0x2000) = Some MM_TYPE_PAGE_TABLE.
Proof.
  eapply (map_table_out_of_memory _ {[page_addr 0 := 3%nat]} 1 INIT_TASK); [|apply all_taken|reflexivity|].
  - apply two_spaces_taken; [apply NoDup_seqZ|]. apply elem_of_seqZ. rewrite num_pages. lia.
  - apply boot_entry_zero, table_index_range.
Defined.
