(* ===== verification/Boot.v ===== *)
(** * Start of the processor (src/asm/boot.S, src/asm/paging.S, src/asm/gic.S)

    From reset to the call of [main]: the change to exception level 1, the
    first page tables, the start of the translation and the clearing of the
    static variables.  Until the translation is on, the addresses of the byte
    memory are physical; then they are those of the kernel's half.  Addresses
    the linker chooses are section variables. *)

From S2P Require Export PagingProofs.

(** ** Constants of include/arm/mmu.h, include/arm/regs.h and include/mm/mm.h *)

Definition PG_DIR_SIZE : Z := 3 * PAGE_SIZE.
Definition PHYSICAL_MEMORY_SIZE : Z := 0xFFFFFFFF.
Definition BOOT_CODE_START : Z := 0.
Definition VC_BASE_PHYS : Z := 0x3C000000.
Definition MM_TYPE_BLOCK : Z := 1.
Definition MT_DEVICE_nGnRnE : Z := 0.
Definition MMU_FLAGS : Z := Z.lor (Z.lor MM_TYPE_BLOCK (Z.shiftl MT_NORMAL_NC 2)) MM_ACCESS.
Definition MMU_DEVICE_FLAGS : Z := Z.lor (Z.lor MM_TYPE_BLOCK (Z.shiftl MT_DEVICE_nGnRnE 2)) MM_ACCESS.
Definition MAIR_VALUE : Z := Z.lor (Z.shiftl 0 (8 * MT_DEVICE_nGnRnE)) (Z.shiftl 0x44 (8 * MT_NORMAL_NC)).
Definition TCR_VALUE : Z :=
  Z.lor (Z.lor (Z.lor (64 - 48) (Z.shiftl (64 - 48) 16)) (Z.shiftl 0 14)) (Z.shiftl 2 30).
Definition SCTLR_RESERVED : Z := Z.lor (Z.lor (Z.lor (Z.shiftl 3 28) (Z.shiftl 3 22)) (Z.shiftl 1 20)) (Z.shiftl 1 11).
Definition SCTLR_MMU_ENABLED : Z := 1.
Definition SCTLR_VALUE_MMU_DISABLED : Z := SCTLR_RESERVED.
Definition HCR_VALUE : Z := Z.shiftl 1 31.
Definition SCR_VALUE : Z := Z.lor (Z.lor (Z.shiftl 3 4) (Z.shiftl 1 10)) (Z.shiftl 1 0).
Definition SPSR_VALUE : Z := Z.lor (Z.shiftl 7 6) (Z.shiftl 5 0).
Definition SPSR_EL3_VAL : Z := 0x1e9.

(** ** The first page tables *)

(** Links the next table, in the page that follows; returns it. *)
Definition create_table_entry (tbl virtual_adr shift : Z) : K Z :=
  let tmp1 := Z.land (Z.shiftr virtual_adr shift) (PTRS_PER_TABLE - 1) in
  let tmp2 := Z.lor (u64 (tbl + PAGE_SIZE)) MM_TYPE_PAGE_TABLE in
  _ ← store64 (ptr_add tbl (8 * tmp1)) tmp2;
  mret (u64 (tbl + PAGE_SIZE)).

(** [b.ls]: the index is compared after it was advanced. *)
Definition block_body (tbl virt_end : Z) : Z * Z -> K ((Z * Z) + unit) := fun '(virt_start, phys_adr) =>
  _ ← store64 (ptr_add tbl (8 * virt_start)) phys_adr;
  let virt_start := u64 (virt_start + 1) in
  let phys_adr := u64 (phys_adr + SECTION_SIZE) in
  if virt_start <=? virt_end then mret (inl (virt_start, phys_adr)) else mret (inr tt).
Definition create_block_map (tbl phys_adr virt_start virt_end flags : Z) : K unit :=
  let virt_start := Z.land (Z.shiftr virt_start SECTION_SHIFT) (PTRS_PER_TABLE - 1) in
  let virt_end := Z.land (Z.shiftr virt_end SECTION_SHIFT) (PTRS_PER_TABLE - 1) in
  let phys_adr := Z.shiftr phys_adr SECTION_SHIFT in
  let phys_adr := Z.lor flags (u64 (Z.shiftl phys_adr SECTION_SHIFT)) in
  loop (block_body tbl virt_end) (virt_start, phys_adr).

Definition create_pgd_entry (tbl virt : Z) : K Z :=
  tbl ← create_table_entry tbl virt PGD_SHIFT;
  create_table_entry tbl virt PUD_SHIFT.

(** Returns x0 and x1. *)
Definition create_page_tables (pg_dir : Z) : K (Z * Z) :=
  _ ← memzero pg_dir PG_DIR_SIZE;
  x0 ← create_pgd_entry pg_dir BOOT_CODE_START;
  _ ← create_block_map x0 0 BOOT_CODE_START (BOOT_CODE_START + DEVICE_BASE_PHYS - SECTION_SIZE) MMU_FLAGS;
  let x26 := x0 in
  x0 ← create_pgd_entry x0 VIRTUAL_ADDRESS_START;
  _ ← create_block_map x0 0 VIRTUAL_ADDRESS_START (VIRTUAL_ADDRESS_START + VC_BASE_PHYS - SECTION_SIZE) MMU_FLAGS;
  _ ← create_block_map x0 VC_BASE_PHYS (VIRTUAL_ADDRESS_START + VC_BASE_PHYS)
        (VIRTUAL_ADDRESS_START + DEVICE_BASE_PHYS - SECTION_SIZE) MMU_DEVICE_FLAGS;
  _ ← create_block_map x0 DEVICE_BASE_PHYS (VIRTUAL_ADDRESS_START + DEVICE_BASE_PHYS)
        (VIRTUAL_ADDRESS_START + PHYSICAL_MEMORY_SIZE - SECTION_SIZE) MMU_DEVICE_FLAGS;
  mret (pg_dir, x26).

(** ** The translation the processor makes of the tables

    With 4 KB granules and 48-bit addresses ([TCR_VALUE]): level 0 ([n = 3]) has
    only tables, levels 1 and 2 tables and blocks, level 3 pages; a descriptor
    without the access flag faults.  The result is the physical address and the
    index of the memory attributes. *)

Definition descriptor_base (n : nat) (e : Z) : Z := e mod 2 ^ 48 / 2 ^ level_shift n * 2 ^ level_shift n.
Definition descriptor_leaf (n : nat) (e va : Z) : option (Z * Z) :=
  if Z.testbit e 10 then Some (descriptor_base n e + va mod 2 ^ level_shift n, e / 4 mod 8) else None.
Fixpoint hw_walk (n : nat) (m : mem) (table va : Z) : option (Z * Z) :=
  e ← ldn 8 m (table + 8 * table_index (level_shift n) va);
  match e mod 4, n with
  | 3, O => descriptor_leaf 0 e va
  | 3, S n' => hw_walk n' m (descriptor_base 0 e) va
  | 1, 1%nat | 1, 2%nat => descriptor_leaf n e va
  | _, _ => None
  end.
Definition mmu_translate (m : mem) (ttbr0 ttbr1 va : Z) : option (Z * Z) :=
  if va <? 2 ^ 48 then hw_walk 3 m ttbr0 va
  else if VIRTUAL_ADDRESS_START <=? va then hw_walk 3 m ttbr1 va else None.

(** The kernel's half as it sees memory: where the alias is linear.  The alias of
    the device registers is not, they are not byte memory. *)
Definition kernel_alias (pa : Z) : Z := pa + VIRTUAL_ADDRESS_START.
Definition kernel_view (ttbr0 ttbr1 : Z) (m : mem) : mem :=
  Mem (fun va => match mmu_translate m ttbr0 ttbr1 va with
                 | Some (pa, _) => (va =? kernel_alias pa) && m_valid m pa
                 | None => false
                 end)
    (kmap kernel_alias (m_bytes m)).

(** ** Registers and control flow *)

Inductive sysreg :=
  | MPIDR_EL1 | CurrentEL | CPTR_EL3 | CPACR_EL1 | SCR_EL3 | SPSR_EL3 | ELR_EL3
  | SCTLR_EL1 | HCR_EL2 | SPSR_EL2 | ELR_EL2 | TTBR0_EL1 | TTBR1_EL1 | TCR_EL1 | MAIR_EL1 | SP.
#[export] Instance sysreg_eq_dec : EqDecision sysreg.
Proof. solve_decision. Defined.

Record machine := Machine { sys : sysreg -> Z; ks : kstate }.
Abbreviation B := (M machine).

Definition mrs (r : sysreg) : B Z := get (fun s => sys s r).
Definition msr (r : sysreg) (v : Z) : B unit :=
  put (fun s => Machine (fun r' => if decide (r' = r) then v else sys s r') (ks s)).
Definition lift {A} (m : K A) : B A := fun s =>
  match m (ks s) with Ok a k => Ok a (Machine (sys s) k) | Err e => Err e end.

(** The places control passes through, and how it leaves them. *)
Inductive label := _start | EL2 | main_entry.
Inductive outcome := Main | Hang | Lost (address : Z).

Definition get_el : B Z := x0 ← mrs CurrentEL; mret (Z.shiftr x0 2).

(** src/asm/gic.S: the group registers, [IT_NR] words from the last.  Returns the
    value it leaves in x0. *)
Definition IRQ_GIC_BASE : Z := 0xffff00003f840000.
Definition GICD : Z := IRQ_GIC_BASE + 0x1000.
Definition GICC : Z := IRQ_GIC_BASE + 0x2000.
Definition IT_NR : Z := 8.
Definition igroup_body (x2 : Z) (x0 : Z) : K (Z + Z) :=
  let x0 := u64 (x0 - 4) in
  _ ← store32 (ptr_add x2 x0) 0xffffffff;
  if negb (x0 =? 0) then mret (inl x0) else mret (inr x0).
Definition setup_gic : B Z :=
  x0 ← mrs MPIDR_EL1;
  _ ← when (negb (Z.land x0 3 =? 0)) (lift (store32 GICD 3));
  _ ← lift (store32 GICC 0x1e7);
  _ ← lift (store32 (GICC + 4) 0xff);
  lift (loop (igroup_body (GICD + 0x80)) (IT_NR * 4)).

Section boot.
(** Addresses: of the label [EL2] as linked, of [main_entry] where it runs, what
    code lies at an address, the page tables where they lie, the static variables
    as linked. *)
Context (link_EL2 adr_main_entry : Z) (code_at : Z -> option label).
Context (pg_dir bss_start bss_end : Z).

(** The level and the address of the registers of the current level. *)
Definition eret (spsr elr : sysreg) : B (label + outcome) :=
  p ← mrs spsr;
  a ← mrs elr;
  _ ← msr CurrentEL (Z.land p 12);
  mret (match code_at a with Some l => inl l | None => inr (Lost a) end).

(** [bl setup_gic] leaves its counter in x0. *)
Definition switch_to_el2 (x0 : Z) : B (label + outcome) :=
  _ ← msr CPTR_EL3 0x33ff;
  _ ← msr CPACR_EL1 (Z.shiftl 3 20);
  x0 ← setup_gic;
  _ ← msr SCR_EL3 SCR_VALUE;
  _ ← msr SPSR_EL3 SPSR_EL3_VAL;
  _ ← msr ELR_EL3 x0;
  eret SPSR_EL3 ELR_EL3.

Definition switch_to_el1 (x0 : Z) : B (label + outcome) :=
  _ ← msr SCTLR_EL1 SCTLR_VALUE_MMU_DISABLED;
  _ ← msr HCR_EL2 HCR_VALUE;
  _ ← msr SPSR_EL2 SPSR_VALUE;
  _ ← msr ELR_EL2 x0;
  eret SPSR_EL2 ELR_EL2.

(** [__bss_size] of the linker scripts. *)
Definition bss_size : Z := Z.shiftr (bss_end - bss_start) 3.

(** The write of SCTLR_EL1 that starts the translation. *)
Definition enable_mmu : B unit :=
  _ ← msr SCTLR_EL1 SCTLR_MMU_ENABLED;
  put (fun s => Machine (sys s)
    (with_mem (kernel_view (sys s TTBR0_EL1) (sys s TTBR1_EL1) (k_mem (ks s))) (ks s))).

Definition enter_kernel : B (label + outcome) :=
  x ← lift (create_page_tables pg_dir);
  let '(_, x1) := (x : Z * Z) in
  _ ← msr TTBR1_EL1 x1;
  _ ← msr TTBR0_EL1 x1;
  _ ← msr SP (u64 (VIRTUAL_ADDRESS_START + LOW_MEMORY));
  _ ← msr TCR_EL1 TCR_VALUE;
  _ ← msr MAIR_EL1 MAIR_VALUE;
  _ ← enable_mmu;
  _ ← lift (memzero bss_start bss_size);
  mret (inr Main).

Definition boot_block (l : label) : B (label + outcome) :=
  match l with
  | _start =>
      x1 ← mrs MPIDR_EL1;
      if Z.land x1 3 =? 0 then
        x0 ← get_el;
        if x0 - 3 =? 0 then switch_to_el2 link_EL2 else mret (inl EL2)
      else mret (inr Hang)
  | EL2 =>
      x0 ← get_el;
      if x0 - 2 =? 0 then switch_to_el1 adr_main_entry else mret (inl main_entry)
  | main_entry => enter_kernel
  end.

Definition reset : B outcome := loop boot_block _start.
End boot.

(** ** The tables written *)

Lemma block_map_loops tbl : 0 <= tbl -> tbl + PAGE_SIZE < 2 ^ 64 -> forall (n : nat) i d s,
  0 <= i -> i + Z.of_nat n < 512 -> 0 <= d -> d + (Z.of_nat n + 1) * SECTION_SIZE < 2 ^ 64 -> valid_range (k_mem s) tbl PAGE_SIZE ->
  exists m', loops (block_body tbl (i + Z.of_nat n)) (S n) (i, d) s tt (with_mem m' s)
    /\ (forall k, 0 <= k <= Z.of_nat n -> ldn 8 m' (tbl + 8 * (i + k)) = Some (d + k * SECTION_SIZE))
    /\ same_on (fun a => a < tbl + 8 * i \/ tbl + 8 * (i + Z.of_nat n) + 8 <= a) (k_mem s) m'
    /\ m_valid m' = m_valid (k_mem s).
Proof.
  change PAGE_SIZE with 4096. change SECTION_SIZE with 2097152. intros Ht Ht'. induction n as [|n IH]; intros i d s Hi Hn Hd Hdn V;
    (destruct (stn_ok 8 (k_mem s) (tbl + 8 * i) d) as [m1 E1]; [intros a Ha; apply V; lia|]);
    assert (R : store64 (ptr_add tbl (8 * i)) d s = Ok tt (with_mem m1 s)) by (unfold ptr_add; uw; by apply store64_ok);
    pose proof (stn_valid_eq _ _ _ _ _ E1) as V1.
  - exists m1. split; [|split; [|split; [|done]]].
    + apply loops_done. unfold block_body. rewrite (bind_ok _ _ _ _ _ R). change SECTION_SIZE with 2097152. uw. by decb.
    + intros k Hk. assert (k = 0) as -> by lia. rewrite Z.add_0_r, Z.add_0_r. apply (ld64_st64_same _ _ _ _ E1). lia.
    + eapply same_on_stn; [exact E1|]. cbv beta. lia.
  - destruct (IH (i + 1) (d + 2097152) (with_mem m1 s)) as (m' & L & W & F & V'); [lia..| |].
    { intros a Ha. cbn. rewrite V1. by apply V. }
    cbn [k_mem with_mem] in *. exists m'. split; [|split; [|split; [|congruence]]].
    + eapply loops_step; [|replace (i + Z.of_nat (S n)) with (i + 1 + Z.of_nat n) by lia; exact L].
      unfold block_body. rewrite (bind_ok _ _ _ _ _ R). change SECTION_SIZE with 2097152. uw. by decb.
    + intros k Hk. destruct (Z.eq_dec k 0) as [->|N].
      * rewrite Z.add_0_r, Z.add_0_r. rewrite <- (ld64_st64_same _ _ _ _ E1) by lia.
        apply ldn_ext. intros a Ha. apply F. lia.
      * replace (tbl + 8 * (i + k)) with (tbl + 8 * (i + 1 + (k - 1))) by lia. rewrite W by lia. f_equal. lia.
    + intros a Ha. rewrite (F a) by lia. apply (ld8_stn_other _ _ _ _ _ _ E1). lia.
Qed.

(** What [create_block_map] writes: the entries [i..j] of a table. *)
Definition blocks (tbl i j d : Z) (m m' : mem) : Prop :=
  (forall k, i <= k <= j -> ldn 8 m' (tbl + 8 * k) = Some (d + (k - i) * SECTION_SIZE))
  /\ same_on (fun a => a < tbl + 8 * i \/ tbl + 8 * j + 8 <= a) m m' /\ m_valid m' = m_valid m.

Lemma create_block_map_run s tbl pa vs ve flags i j d :
  0 <= tbl -> tbl + PAGE_SIZE < 2 ^ 64 -> valid_range (k_mem s) tbl PAGE_SIZE ->
  Z.land (Z.shiftr vs SECTION_SHIFT) (PTRS_PER_TABLE - 1) = i -> Z.land (Z.shiftr ve SECTION_SHIFT) (PTRS_PER_TABLE - 1) = j ->
  Z.lor flags (u64 (Z.shiftl (Z.shiftr pa SECTION_SHIFT) SECTION_SHIFT)) = d ->
  0 <= i <= j -> j < 512 -> 0 <= d < 2 ^ 63 ->
  exists m', create_block_map tbl pa vs ve flags s = Ok tt (with_mem m' s) /\ blocks tbl i j d (k_mem s) m'.
Proof.
  intros Ht Ht' V Ei Ej Ed Hij Hj Hd. destruct (block_map_loops tbl Ht Ht' (Z.to_nat (j - i)) i d s) as (m' & L & W & F & V'); rewrite ?Z2Nat.id in * by lia;
    [lia..| |done|].
  { change SECTION_SIZE with 2097152. lia. }
  replace (i + (j - i)) with j in * by lia. exists m'. split; [|split; [|done]].
  - unfold create_block_map. rewrite Ei, Ej, Ed. apply (loops_loop _ _ _ _ _ _ L). lia.
  - intros k Hk. specialize (W (k - i)). replace (i + (k - i)) with k in W by lia. apply W. lia.
Qed.

Lemma lor3_add q : q mod 4096 = 0 -> Z.lor q 3 = q + 3.
Proof.
  intros H. symmetry. apply Z.add_nocarry_lor. apply Z.bits_inj'. intros k Hk. rewrite Z.land_spec, Z.bits_0.
  destruct (Z_lt_le_dec k 12).
  - rewrite (Z.div_mod q 4096), H, Z.add_0_r by lia. rewrite Z.mul_comm. change 4096 with (2 ^ 12). by rewrite Z.mul_pow2_bits_low by lia.
  - rewrite andb_comm. rewrite (Z.bits_above_log2 3) by (cbn; lia). done.
Qed.

Lemma create_table_entry_run s tbl va shift :
  0 <= tbl -> tbl + 2 * PAGE_SIZE < 2 ^ 64 -> tbl mod PAGE_SIZE = 0 -> valid_range (k_mem s) tbl PAGE_SIZE ->
  Z.land (Z.shiftr va shift) (PTRS_PER_TABLE - 1) = 0 ->
  exists m', create_table_entry tbl va shift s = Ok (tbl + PAGE_SIZE) (with_mem m' s)
    /\ ldn 8 m' tbl = Some (tbl + PAGE_SIZE + 3) /\ same_on (fun a => a < tbl \/ tbl + 8 <= a) (k_mem s) m' /\ m_valid m' = m_valid (k_mem s).
Proof.
  change PAGE_SIZE with 4096. intros Ht Ht' Al V Ei.
  destruct (stn_ok 8 (k_mem s) tbl (tbl + 4096 + 3)) as [m1 E1]; [intros a Ha; apply V; lia|].
  exists m1. unfold create_table_entry. rewrite Ei. change PAGE_SIZE with 4096. change MM_TYPE_PAGE_TABLE with 3. unfold ptr_add. uw.
  rewrite Z.mul_0_r, Z.add_0_r, lor3_add by (rewrite <- Zplus_mod_idemp_l, Al; done).
  rewrite (bind_ok _ _ _ _ _ (store64_ok s tbl _ _ E1)).
  split; [done|]. split; [apply (ld64_st64_same _ _ _ _ E1); lia|]. split; [|by eapply stn_valid_eq].
  eapply same_on_stn; [exact E1|]. cbv beta. lia.
Qed.

(** The memory the tables leave: the directory used is the third page, [D + 0x2000],
    first filled as the table of identity blocks; the two pages after the three
    reserved ones are its next levels. *)
Record boot_tables (D : Z) (m0 m : mem) : Prop := {
  bt_pgd : ldn 8 m (D + 0x2000) = Some (D + 0x3000 + 3);
  bt_pgd_blocks : forall k, 1 <= k < 496 -> ldn 8 m (D + 0x2000 + 8 * k) = Some (0x405 + k * SECTION_SIZE);
  bt_pgd_zero : forall k, 496 <= k < 512 -> ldn 8 m (D + 0x2000 + 8 * k) = Some 0;
  bt_pud : ldn 8 m (D + 0x3000) = Some (D + 0x4000 + 3);
  bt_pud_stale : forall k, 1 <= k < 512 -> ldn 8 m (D + 0x3000 + 8 * k) = ldn 8 m0 (D + 0x3000 + 8 * k);
  bt_normal : forall k, 0 <= k < 480 -> ldn 8 m (D + 0x4000 + 8 * k) = Some (0x405 + k * SECTION_SIZE);
  bt_vc : forall k, 480 <= k < 496 -> ldn 8 m (D + 0x4000 + 8 * k) = Some (0x401 + k * SECTION_SIZE);
  bt_device : forall k, 496 <= k < 511 -> ldn 8 m (D + 0x4000 + 8 * k) = Some (0x401 + (k + 1536) * SECTION_SIZE);
  bt_pmd_stale : ldn 8 m (D + 0x4000 + 8 * 511) = ldn 8 m0 (D + 0x4000 + 8 * 511);
  bt_frame : same_on (fun a => a < D \/ D + 0x5000 <= a) m0 m;
  bt_valid : m_valid m = m_valid m0 }.

(** The five pages the tables take. *)
Definition table_pages (m : mem) (D : Z) : Prop := 0 <= D < 2 ^ 32 /\ D mod PAGE_SIZE = 0 /\ valid_range m D 0x5000.

(** Follows a word back to the memory that a step of the run wrote. *)
Ltac back :=
  repeat match goal with
  | F : same_on _ ?m ?m' |- ldn 8 ?m' ?a = _ => rewrite (ldn_ext 8 m m' a) by (intros ? ?; apply F; lia); clear F
  end.

Lemma create_pgd_entry_run s tbl va :
  0 <= tbl < 2 ^ 33 -> tbl mod PAGE_SIZE = 0 -> valid_range (k_mem s) tbl 0x2000 ->
  Z.land (Z.shiftr va PGD_SHIFT) (PTRS_PER_TABLE - 1) = 0 -> Z.land (Z.shiftr va PUD_SHIFT) (PTRS_PER_TABLE - 1) = 0 ->
  exists m', create_pgd_entry tbl va s = Ok (tbl + 0x2000) (with_mem m' s)
    /\ ldn 8 m' tbl = Some (tbl + 0x1000 + 3) /\ ldn 8 m' (tbl + 0x1000) = Some (tbl + 0x2000 + 3)
    /\ same_on (fun a => a < tbl \/ tbl + 8 <= a < tbl + 0x1000 \/ tbl + 0x1000 + 8 <= a) (k_mem s) m' /\ m_valid m' = m_valid (k_mem s).
Proof.
  intros Ht Al V Ei Ej. unfold create_pgd_entry.
  destruct (create_table_entry_run s tbl va PGD_SHIFT) as (m1 & R1 & E1 & F1 & V1);
    [lia|change PAGE_SIZE with 4096; lia|done|by eapply valid_range_sub; [exact V|lia|change PAGE_SIZE with 4096; lia]|done|].
  rewrite (bind_ok _ _ _ _ _ R1). change PAGE_SIZE with 4096 in *. change 0x1000 with 4096.
  destruct (create_table_entry_run (with_mem m1 s) (tbl + 4096) va PUD_SHIFT) as (m2 & R2 & E2 & F2 & V2);
    [lia|change PAGE_SIZE with 4096; lia|change PAGE_SIZE with 4096; by rewrite <- Zplus_mod_idemp_l, Al| |done|].
  { intros a Ha. cbn. rewrite V1. apply V. change PAGE_SIZE with 4096 in Ha. lia. }
  change PAGE_SIZE with 4096 in *. replace (tbl + 4096 + 4096) with (tbl + 0x2000) in * by lia. cbn [k_mem with_mem] in *.
  exists m2. split; [exact R2|]. split; [by back|]. split; [done|]. split; [|congruence].
  intros a Ha. rewrite (F2 a) by lia. apply F1. lia.
Qed.

Lemma create_page_tables_run s D : table_pages (k_mem s) D ->
  exists m, create_page_tables D s = Ok (D, D + 0x2000) (with_mem m s) /\ boot_tables D (k_mem s) m.
Proof.
  intros (HD & Al & V). change PAGE_SIZE with 4096 in Al.
  assert (W : forall m a n, m_valid m = m_valid (k_mem s) -> D <= a -> a + n <= D + 0x5000 -> valid_range m a n)
    by (intros m a n Hm Ha Hn i Hi; rewrite Hm; apply V; lia).
  assert (Al2 : (D + 0x2000) mod 4096 = 0) by (by rewrite <- Zplus_mod_idemp_l, Al).
  unfold create_page_tables. change PG_DIR_SIZE with 12288.
  destruct (memzero_run s D 12288) as (m1 & R1 & Z1 & F1 & V1); [lia|done|by apply W; [|lia..]|lia|lia|].
  rewrite (bind_ok _ _ _ _ _ R1).
  destruct (create_pgd_entry_run (with_mem m1 s) D BOOT_CODE_START) as (m2 & R2 & E2 & E2' & F2 & V2); [lia|done|by apply W; [|lia..]|done..|].
  rewrite (bind_ok _ _ _ _ _ R2). cbn [k_mem with_mem] in *.
  destruct (create_block_map_run (with_mem m2 s) (D + 0x2000) 0 BOOT_CODE_START (BOOT_CODE_START + DEVICE_BASE_PHYS - SECTION_SIZE) MMU_FLAGS 0 495 0x405)
    as (m3 & R3 & B3 & F3 & V3); [lia|change PAGE_SIZE with 4096; lia|apply W; [cbn in *; congruence|lia|change PAGE_SIZE with 4096; lia]|reflexivity..|lia|lia|lia|].
  rewrite (bind_ok _ _ _ _ _ R3). cbn [k_mem with_mem] in *.
  destruct (create_pgd_entry_run (with_mem m3 s) (D + 0x2000) VIRTUAL_ADDRESS_START) as (m4 & R4 & E4 & E4' & F4 & V4);
    [lia|done|apply W; [cbn in *; congruence|lia..]|done..|].
  rewrite (bind_ok _ _ _ _ _ R4). cbn [k_mem with_mem] in *. replace (D + 0x2000 + 0x2000) with (D + 0x4000) in * by lia.
  destruct (create_block_map_run (with_mem m4 s) (D + 0x4000) 0 VIRTUAL_ADDRESS_START (VIRTUAL_ADDRESS_START + VC_BASE_PHYS - SECTION_SIZE) MMU_FLAGS 0 479 0x405)
    as (m5 & R5 & B5 & F5 & V5); [lia|change PAGE_SIZE with 4096; lia|apply W; [cbn in *; congruence|lia|change PAGE_SIZE with 4096; lia]|reflexivity..|lia|lia|lia|].
  rewrite (bind_ok _ _ _ _ _ R5). cbn [k_mem with_mem] in *.
  destruct (create_block_map_run (with_mem m5 s) (D + 0x4000) VC_BASE_PHYS (VIRTUAL_ADDRESS_START + VC_BASE_PHYS)
    (VIRTUAL_ADDRESS_START + DEVICE_BASE_PHYS - SECTION_SIZE) MMU_DEVICE_FLAGS 480 495 (0x401 + 480 * SECTION_SIZE))
    as (m6 & R6 & B6 & F6 & V6); [lia|change PAGE_SIZE with 4096; lia|apply W; [cbn in *; congruence|lia|change PAGE_SIZE with 4096; lia]|reflexivity..|lia|lia|cbv; intuition congruence|].
  rewrite (bind_ok _ _ _ _ _ R6). cbn [k_mem with_mem] in *.
  destruct (create_block_map_run (with_mem m6 s) (D + 0x4000) DEVICE_BASE_PHYS (VIRTUAL_ADDRESS_START + DEVICE_BASE_PHYS)
    (VIRTUAL_ADDRESS_START + PHYSICAL_MEMORY_SIZE - SECTION_SIZE) MMU_DEVICE_FLAGS 496 510 (0x401 + 2032 * SECTION_SIZE))
    as (m7 & R7 & B7 & F7 & V7); [lia|change PAGE_SIZE with 4096; lia|apply W; [cbn in *; congruence|lia|change PAGE_SIZE with 4096; lia]|reflexivity..|lia|lia|cbv; intuition congruence|].
  rewrite (bind_ok _ _ _ _ _ R7). cbn [k_mem with_mem] in *. exists m7. split; [done|].
  change SECTION_SIZE with 2097152 in *. replace (D + 0x2000 + 0x1000) with (D + 0x3000) in * by lia. split; change SECTION_SIZE with 2097152.
  - back. by rewrite E4.
  - intros k Hk. back. rewrite B3 by lia. f_equal. lia.
  - intros k Hk. back. apply ldn_zero. intros j Hj.
    replace (D + 0x2000 + 8 * k + j) with (D + (0x2000 + 8 * k + j)) by lia. apply Z1. lia.
  - back. rewrite E4'. done.
  - intros k Hk. by back.
  - intros k Hk. back. rewrite B5 by lia. f_equal. lia.
  - intros k Hk. back. rewrite B6 by lia. f_equal. lia.
  - intros k Hk. rewrite B7 by lia. f_equal. lia.
  - by back.
  - intros a Ha. rewrite (F7 a), (F6 a), (F5 a), (F4 a), (F3 a), (F2 a) by lia. apply F1. lia.
  - congruence.
Qed.

(** ** What the tables translate *)

Lemma descriptor_base_block n d a : (n = 1 \/ n = 2)%nat -> 0 <= d < 2 ^ 12 -> 0 <= a * 2 ^ level_shift n < 2 ^ 48 ->
  descriptor_base n (d + a * 2 ^ level_shift n) = a * 2 ^ level_shift n.
Proof.
  intros Hn Hd Ha. unfold descriptor_base.
  destruct Hn as [-> | ->]; [change (2 ^ level_shift 1) with 2097152 in *|change (2 ^ level_shift 2) with 1073741824 in *];
    (rewrite Z.mod_small by lia); by rewrite Z.div_add, Z.div_small, Z.add_0_l by lia.
Qed.
Lemma descriptor_base_table q : 0 <= q < 2 ^ 48 -> q mod 4096 = 0 -> descriptor_base 0 (q + 3) = q.
Proof.
  intros Hq Al. unfold descriptor_base. change (level_shift 0) with 12. change (2 ^ 12) with 4096. pose proof (Z.div_mod q 4096).
  rewrite Z.mod_small by (Z.to_euclidean_division_equations; lia). Z.to_euclidean_division_equations; lia.
Qed.

(** A block of level 2 at [a] sections, with attributes 1 (normal) or 0 (device). *)
Lemma block_leaf va c a : 0 <= c < 2 -> 0 <= a < 2 ^ 12 ->
  (0x401 + 4 * c + a * SECTION_SIZE) mod 4 = 1
  /\ descriptor_leaf 1 (0x401 + 4 * c + a * SECTION_SIZE) va = Some (a * SECTION_SIZE + va mod SECTION_SIZE, c).
Proof.
  intros Hc Ha. change SECTION_SIZE with (2 ^ level_shift 1). split.
  { change (2 ^ level_shift 1) with (524288 * 4). Z.to_euclidean_division_equations; lia. }
  unfold descriptor_leaf. rewrite descriptor_base_block; [|by left|lia|change (2 ^ level_shift 1) with 2097152; lia].
  assert (Z.testbit (0x401 + 4 * c + a * 2 ^ level_shift 1) 10 = true) as ->.
  { change (2 ^ level_shift 1) with (2048 * 2 ^ 10). rewrite Z.mul_assoc, Z.testbit_odd, Z.shiftr_div_pow2 by lia.
    rewrite Z.div_add by lia. replace ((0x401 + 4 * c) / 2 ^ 10) with 1 by (assert (c = 0 \/ c = 1) as [-> | ->] by lia; done).
    rewrite Z.odd_add, Z.odd_mul. change (Z.odd 2048) with false. by rewrite andb_false_r. }
  f_equal. f_equal. change (2 ^ level_shift 1) with (524288 * 4). replace (1025 + 4 * c + a * (524288 * 4)) with (1 + (256 + c + a * 524288) * 4) by lia.
  rewrite Z.div_add by lia. change (1 / 4) with 0. Z.to_euclidean_division_equations; lia.
Qed.

(** The two halves look the same to the tables: base 0 or [VIRTUAL_ADDRESS_START]. *)
Lemma table_index_half n b o : (n <= 3)%nat -> b = 0 \/ b = VIRTUAL_ADDRESS_START -> 0 <= o < 2 ^ 48 ->
  table_index (level_shift n) (b + o) = o / 2 ^ level_shift n mod 512.
Proof.
  intros Hn Hb Ho. unfold table_index. change (PTRS_PER_TABLE - 1) with (Z.ones 9).
  assert (L : 0 <= level_shift n) by (unfold level_shift; change PAGE_SHIFT with 12; change TABLE_SHIFT with 9; lia).
  rewrite Z.land_ones, Z.shiftr_div_pow2 by lia. change (2 ^ 9) with 512.
  assert (E : exists c, b = c * 512 * 2 ^ level_shift n).
  { destruct Hb as [-> | ->]; [by exists 0|].
    destruct n as [|[|[|[|n]]]]; [exists (0xffff * 2 ^ 27)|exists (0xffff * 2 ^ 18)|exists (0xffff * 2 ^ 9)|exists 0xffff|lia]; reflexivity. }
  destruct E as [c ->]. rewrite Z.add_comm, Z.div_add by (apply Z.pow_nonzero; lia). by rewrite Z_mod_plus_full.
Qed.

Section translation.
Context (D : Z) (m0 m : mem).
Hypothesis (HD : 0 <= D < 2 ^ 32) (Al : D mod PAGE_SIZE = 0) (T : boot_tables D m0 m).
Context (b o : Z) (Hb : b = 0 \/ b = VIRTUAL_ADDRESS_START).

Lemma next_table q : q mod PAGE_SIZE = 0 -> 0 <= q < 2 ^ 33 -> (D + q + 3) mod 4 = 3 /\ descriptor_base 0 (D + q + 3) = D + q.
Proof.
  change PAGE_SIZE with 4096 in *. intros Hq Hq'. assert (A : (D + q) mod 4096 = 0) by (rewrite Z.add_mod, Al, Hq by lia; done).
  split; [|apply descriptor_base_table; [lia|done]]. Z.to_euclidean_division_equations; lia.
Qed.

Lemma walk_block c a : 0 <= o < 2 ^ 30 -> ldn 8 m (D + 0x4000 + 8 * (o / SECTION_SIZE)) = Some (0x401 + 4 * c + a * SECTION_SIZE) ->
  0 <= c < 2 -> 0 <= a < 2 ^ 12 -> hw_walk 3 m (D + 0x2000) (b + o) = Some (a * SECTION_SIZE + o mod SECTION_SIZE, c).
Proof.
  intros Ho E Hc Ha. destruct (next_table 0x3000) as [M3 B3]; [done|lia|]. destruct (next_table 0x4000) as [M4 B4]; [done|lia|].
  destruct (block_leaf (b + o) c a Hc Ha) as [M1 L1]. cbn [hw_walk]. rewrite !table_index_half by (done || lia).
  change (2 ^ level_shift 3) with (2 ^ 39). change (2 ^ level_shift 2) with (2 ^ 30). change (2 ^ level_shift 1) with SECTION_SIZE.
  rewrite (Z.div_small o (2 ^ 39)), (Z.div_small o (2 ^ 30)), Z.mod_0_l, Z.mul_0_r, !Z.add_0_r by lia.
  rewrite (bt_pgd _ _ _ T). cbn [mbind option_bind]. rewrite M3, B3, Z.add_0_r, (bt_pud _ _ _ T). cbn [mbind option_bind]. rewrite M4, B4.
  rewrite (Z.mod_small (o / SECTION_SIZE)) by (change SECTION_SIZE with 2097152; Z.to_euclidean_division_equations; lia).
  rewrite E. cbn [mbind option_bind]. rewrite M1, L1. f_equal. f_equal. f_equal.
  rewrite Z.add_comm. destruct Hb as [-> | ->]; [by rewrite Z.add_0_r|].
  change VIRTUAL_ADDRESS_START with (0xffff * 2 ^ 27 * SECTION_SIZE). by rewrite Z_mod_plus_full.
Qed.

(** Above 512 GB the directory has blocks, which level 0 does not know, or nothing. *)
Lemma walk_none : 2 ^ 39 <= o < 2 ^ 48 -> hw_walk 3 m (D + 0x2000) (b + o) = None.
Proof.
  intros Ho. cbn [hw_walk]. rewrite (table_index_half 3) by (done || lia). change (2 ^ level_shift 3) with (2 ^ 39).
  assert (Hi : 1 <= o / 2 ^ 39 < 512) by (Z.to_euclidean_division_equations; lia). rewrite (Z.mod_small (o / 2 ^ 39)) by lia.
  destruct (Z_lt_le_dec (o / 2 ^ 39) 496).
  - rewrite (bt_pgd_blocks _ _ _ T) by lia. cbn [mbind option_bind].
    destruct (block_leaf 0 1 (o / 2 ^ 39)) as [M _]; [lia|lia|]. change (0x405) with (0x401 + 4 * 1). by rewrite M.
  - by rewrite (bt_pgd_zero _ _ _ T) by lia.
Qed.
End translation.

(** What the processor makes of the offset [o] of an address, in either half. *)
Definition boot_map (o : Z) : option (Z * Z) :=
  if o <? 0x3C000000 then Some (o, MT_NORMAL_NC)
  else if o <? 0x3E000000 then Some (o, MT_DEVICE_nGnRnE)
  else if o <? 0x3FE00000 then Some (o - 0x3E000000 + DEVICE_BASE_PHYS, MT_DEVICE_nGnRnE)
  else None.

Lemma boot_translates D m0 m b o : 0 <= D < 2 ^ 32 -> D mod PAGE_SIZE = 0 -> boot_tables D m0 m ->
  b = 0 \/ b = VIRTUAL_ADDRESS_START -> 0 <= o < 0x3FE00000 \/ 2 ^ 39 <= o < 2 ^ 48 ->
  mmu_translate m (D + 0x2000) (D + 0x2000) (b + o) = boot_map o.
Proof.
  intros HD Al T Hb Ho.
  assert (mmu_translate m (D + 0x2000) (D + 0x2000) (b + o) = hw_walk 3 m (D + 0x2000) (b + o)) as ->.
  { unfold mmu_translate. change VIRTUAL_ADDRESS_START with 0xffff000000000000 in *. destruct Hb as [-> | ->]; decb; done. }
  destruct Ho as [Ho|Ho]; [|rewrite (walk_none D m0 m) by done; unfold boot_map; decb; done].
  assert (Ek : o = o / SECTION_SIZE * SECTION_SIZE + o mod SECTION_SIZE) by (rewrite Z.mul_comm; apply Z_div_mod_eq_full).
  assert (Hk : 0 <= o / SECTION_SIZE < 511) by (change SECTION_SIZE with 2097152 in *; Z.to_euclidean_division_equations; lia).
  assert (S : forall c a, ldn 8 m (D + 0x4000 + 8 * (o / SECTION_SIZE)) = Some (0x401 + 4 * c + a * SECTION_SIZE) ->
    0 <= c < 2 -> 0 <= a < 2 ^ 12 -> hw_walk 3 m (D + 0x2000) (b + o) = Some (a * SECTION_SIZE + o mod SECTION_SIZE, c))
    by (intros c a; by apply (walk_block D m0 m); [..|lia]).
  unfold boot_map. change SECTION_SIZE with 2097152 in *. pose proof (Z.mod_pos_bound o 2097152).
  destruct (Z.ltb_spec o 0x3C000000); [|destruct (Z.ltb_spec o 0x3E000000)].
  - rewrite (S 1 (o / 2097152)); [f_equal; f_equal; lia|by rewrite (bt_normal _ _ _ T) by lia|lia|lia].
  - rewrite (S 0 (o / 2097152)); [f_equal; f_equal; lia|by rewrite (bt_vc _ _ _ T) by lia|lia|lia].
  - rewrite (S 0 (o / 2097152 + 1536)); [decb; f_equal; f_equal; change DEVICE_BASE_PHYS with 0xFE000000; lia|by rewrite (bt_device _ _ _ T) by lia|lia|lia].
Qed.

#[export] Instance kernel_alias_inj : Inj (=) (=) kernel_alias.
Proof. intros x y. unfold kernel_alias. lia. Qed.

(** The memory behind the kernel's half, in terms of the physical one. *)
Lemma kernel_view_ld8 D m0 m pa : 0 <= D < 2 ^ 32 -> D mod PAGE_SIZE = 0 -> boot_tables D m0 m -> 0 <= pa < 0x3E000000 ->
  m_valid (kernel_view (D + 0x2000) (D + 0x2000) m) (kernel_alias pa) = m_valid m pa
  /\ ld8 (kernel_view (D + 0x2000) (D + 0x2000) m) (kernel_alias pa) = ld8 m pa.
Proof.
  intros HD Al T Hp. assert (E : m_valid (kernel_view (D + 0x2000) (D + 0x2000) m) (kernel_alias pa) = m_valid m pa).
  { unfold kernel_view, kernel_alias. cbn [m_valid]. rewrite (Z.add_comm pa), (boot_translates D m0 m) by (done || auto || lia).
    unfold boot_map. destruct (Z.ltb_spec pa 0x3C000000); [|destruct (Z.ltb_spec pa 0x3E000000); [|lia]]; by rewrite Z.add_comm, Z.eqb_refl. }
  split; [done|]. unfold ld8. rewrite E. unfold kernel_view. cbn [m_bytes]. by rewrite (lookup_kmap kernel_alias).
Qed.

Lemma lift_ok {A} (m : K A) s a k : m (ks s) = Ok a k -> lift m s = Ok a (Machine (sys s) k).
Proof. intros E. unfold lift. by rewrite E. Qed.

Definition set_sys (r : sysreg) (v : Z) (f : sysreg -> Z) : sysreg -> Z := fun r' => if decide (r' = r) then v else f r'.

(** The registers [enter_kernel] leaves. *)
Definition kernel_regs (D : Z) (f : sysreg -> Z) : sysreg -> Z :=
  set_sys SCTLR_EL1 1 (set_sys MAIR_EL1 MAIR_VALUE (set_sys TCR_EL1 TCR_VALUE (set_sys SP (VIRTUAL_ADDRESS_START + LOW_MEMORY)
    (set_sys TTBR0_EL1 (D + 0x2000) (set_sys TTBR1_EL1 (D + 0x2000) f))))).

(** The static variables as linked: [len] bytes from the alias of [B], in memory. *)
Definition bss_ok (m : mem) (D B len : Z) : Prop :=
  0 <= B /\ 0 < len /\ len mod 64 = 0 /\ B + len <= 0x3C000000 /\ valid_range m B len /\ (B + len <= D \/ D + 0x5000 <= B).

(** What the kernel finds in its half of memory. *)
Definition entered (D B len : Z) (m m' : mem) : Prop :=
  (forall pa, 0 <= pa < 0x3E000000 -> (pa < D \/ D + 0x5000 <= pa) -> (pa < B \/ B + len / 8 <= pa) ->
     ld8 m' (kernel_alias pa) = ld8 m pa)
  /\ (forall pa, B <= pa < B + len / 8 -> ld8 m' (kernel_alias pa) = Some 0).

Lemma enter_kernel_run D B len s :
  table_pages (k_mem (ks s)) D -> bss_ok (k_mem (ks s)) D B len ->
  exists m, enter_kernel D (kernel_alias B) (kernel_alias (B + len)) s = Ok (inr Main) (Machine (kernel_regs D (sys s)) (with_mem m (ks s)))
    /\ entered D B len (k_mem (ks s)) m.
Proof.
  intros TP (HB & Hl & Al & He & V & Dj). destruct (create_page_tables_run (ks s) D TP) as (m1 & R & T). destruct TP as (HD & AlD & VD).
  set (m2 := kernel_view (D + 0x2000) (D + 0x2000) m1).
  assert (EL : Z.shiftr (kernel_alias (B + len) - kernel_alias B) 3 = len / 8).
  { unfold kernel_alias. replace (_ - _) with len by lia. by rewrite Z.shiftr_div_pow2. }
  assert (L8 : 0 < len / 8 /\ (len / 8) mod 8 = 0 /\ len / 8 <= len) by (Z.to_euclidean_division_equations; lia).
  assert (K : forall pa, 0 <= pa < 0x3E000000 -> m_valid m2 (kernel_alias pa) = m_valid m1 pa /\ ld8 m2 (kernel_alias pa) = ld8 m1 pa)
    by (intros pa Hp; by apply (kernel_view_ld8 D (k_mem (ks s)))).
  destruct (memzero_run (with_mem m2 (ks s)) (kernel_alias B) (len / 8)) as (m3 & R3 & Z3 & F3 & _);
    [lia|lia| |unfold kernel_alias; change VIRTUAL_ADDRESS_START with 0xffff000000000000; lia..|].
  { intros a Ha. cbn [k_mem with_mem]. replace a with (kernel_alias (a - VIRTUAL_ADDRESS_START)) by (unfold kernel_alias; lia).
    unfold kernel_alias in Ha. destruct (K (a - VIRTUAL_ADDRESS_START)) as [-> _]; [lia|]. rewrite (bt_valid _ _ _ T). apply V. lia. }
  exists m3. split.
  - unfold enter_kernel. rewrite (bind_ok _ _ _ _ _ (lift_ok _ s _ _ R)). unfold enable_mmu, bss_size. rewrite EL.
    unfold msr. rewrite !bind_put, !bind_assoc, !bind_put. cbv beta. cbn [sys ks].
    change (u64 (VIRTUAL_ADDRESS_START + LOW_MEMORY)) with (VIRTUAL_ADDRESS_START + LOW_MEMORY).
    rewrite (bind_ok _ _ _ tt (Machine (kernel_regs D (sys s)) (with_mem m3 (ks s)))); [done|]. by apply lift_ok.
  - cbn [k_mem with_mem] in *. split.
    + intros pa Hp Hd Hb. rewrite (F3 (kernel_alias pa)) by (unfold kernel_alias; lia). rewrite (proj2 (K pa Hp)). by apply (bt_frame _ _ _ T).
    + intros pa Hp. replace (kernel_alias pa) with (kernel_alias B + (pa - B)) by (unfold kernel_alias; lia). apply Z3. lia.
Qed.

(** ** The way to [main] *)

Section reset.
Context (link_EL2 adr_main_entry : Z) (code_at : Z -> option label) (D B len : Z).
Abbreviation block := (boot_block link_EL2 adr_main_entry code_at D (kernel_alias B) (kernel_alias (B + len))).

Lemma start_run s : Z.land (sys s MPIDR_EL1) 3 = 0 -> sys s CurrentEL = 4 \/ sys s CurrentEL = 8 -> block _start s = Ok (inl EL2) s.
Proof.
  intros Hc Hl. unfold boot_block, mrs, get_el, mrs. rewrite bind_get, Hc. cbn [Z.eqb]. rewrite bind_assoc, bind_get, bind_ret.
  by destruct Hl as [-> | ->].
Qed.

Lemma EL2_run s : code_at adr_main_entry = Some main_entry -> sys s CurrentEL = 4 \/ sys s CurrentEL = 8 ->
  exists f, block EL2 s = Ok (inl main_entry) (Machine f (ks s)) /\ f CurrentEL = 4.
Proof.
  intros Hm Hl. unfold boot_block, get_el, mrs. rewrite bind_assoc, bind_get, bind_ret. destruct Hl as [E|E]; rewrite E.
  - exists (sys s). split; [by destruct s|done].
  - exists (set_sys CurrentEL 4 (set_sys ELR_EL2 adr_main_entry (set_sys SPSR_EL2 SPSR_VALUE
      (set_sys HCR_EL2 HCR_VALUE (set_sys SCTLR_EL1 SCTLR_VALUE_MMU_DISABLED (sys s)))))).
    split; [|done]. change (Z.shiftr 8 2 - 2 =? 0) with true. unfold switch_to_el1, eret, msr, mrs, put, get, mbind, M_bind. cbn. rewrite (decide_True (P := ELR_EL2 = ELR_EL2)), Hm by done. reflexivity.
Qed.
End reset.

(** On the main core, entered at exception level 1 or 2, the start code
    reaches [main] at level 1 with the translation on, both halves using the third page of
    tables, the stack below 4 MB, and the kernel's half showing physical
    memory.  Of the static variables only the first eighth is cleared:
    [__bss_size] is the size divided by 8, which [memzero] takes for bytes. *)
Theorem reset_enters_main link_EL2 adr_main_entry code_at D B len s :
  Z.land (sys s MPIDR_EL1) 3 = 0 -> sys s CurrentEL = 4 \/ sys s CurrentEL = 8 -> code_at adr_main_entry = Some main_entry ->
  table_pages (k_mem (ks s)) D -> bss_ok (k_mem (ks s)) D B len ->
  exists f m, reset link_EL2 adr_main_entry code_at D (kernel_alias B) (kernel_alias (B + len)) s = Ok Main (Machine f (with_mem m (ks s)))
    /\ f CurrentEL = 4 /\ f SCTLR_EL1 = 1 /\ f SP = VIRTUAL_ADDRESS_START + LOW_MEMORY
    /\ f TTBR0_EL1 = D + 0x2000 /\ f TTBR1_EL1 = D + 0x2000 /\ entered D B len (k_mem (ks s)) m.
Proof.
  intros Hc Hl Hm TP HB. destruct (EL2_run link_EL2 adr_main_entry code_at D B len s Hm Hl) as (f & R2 & Ef).
  destruct (enter_kernel_run D B len (Machine f (ks s)) TP HB) as (m & R3 & En). exists (kernel_regs D f), m.
  split; [|repeat split; [exact Ef|exact (proj1 En)|exact (proj2 En)]]. apply (loops_loop _ 3); [|lia].
  eapply loops_step; [by apply start_run|]. eapply loops_step; [exact R2|]. by apply loops_done.
Qed.

(** After the start code an address of either half designates the same offset
    of physical memory up to 0x3E000000, from 0x3C000000 on as device
    memory; the next 30 MB are the device registers, and nothing is mapped
    above 512 GB.  Three pages are reserved for the tables, five are written. *)
Theorem boot_tables_translate D s : table_pages (k_mem s) D ->
  exists m, create_page_tables D s = Ok (D, D + 0x2000) (with_mem m s)
    /\ same_on (fun a => a < D \/ D + 0x5000 <= a) (k_mem s) m
    /\ forall b o, b = 0 \/ b = VIRTUAL_ADDRESS_START -> 0 <= o < 0x3FE00000 \/ 2 ^ 39 <= o < 2 ^ 48 ->
       mmu_translate m (D + 0x2000) (D + 0x2000) (b + o) = boot_map o.
Proof.
  intros TP. destruct (create_page_tables_run s D TP) as (m & R & T). destruct TP as (HD & Al & _).
  exists m. split; [done|]. split; [apply (bt_frame _ _ _ T)|]. intros b o. by apply boot_translates with (m0 := k_mem s).
Qed.

(** Entered at level 3 the start code faults: it stores to the kernel's address
    of the interrupt controller while the translation is off.  Were the stores to
    succeed, it would continue at address 0: the call of [setup_gic] overwrites
    the address it was given. *)
Theorem reset_at_el3_faults link_EL2 adr_main_entry code_at D B E s :
  Z.land (sys s MPIDR_EL1) 3 = 0 -> sys s CurrentEL = 12 ->
  (m_valid (k_mem (ks s)) GICC = false -> reset link_EL2 adr_main_entry code_at D B E s = Err (BadAccess GICC))
  /\ forall r s', boot_block link_EL2 adr_main_entry code_at D B E _start s = Ok r s' ->
     r = match code_at 0 with Some l => inl l | None => inr (Lost 0) end.
Proof.
  intros Hc Hl.
  assert (R : boot_block link_EL2 adr_main_entry code_at D B E _start s = switch_to_el2 code_at link_EL2 s).
  { unfold boot_block, get_el, mrs. rewrite bind_get, Hc. cbn [Z.eqb]. rewrite bind_assoc, bind_get, bind_ret, Hl. done. }
  split.
  - intros V. apply (loop_fails_loop _ 1); [|lia]. apply loop_fails_now. rewrite R.
    unfold switch_to_el2, msr. rewrite !bind_put. apply bind_err. unfold setup_gic, mrs. rewrite bind_get. cbn [sys].
    rewrite !decide_False, Hc by done. cbn [when negb Z.eqb]. rewrite bind_ret. apply bind_err. unfold lift, store32, storen.
    cbn [ks stn]. unfold st8. by rewrite V.
  - intros r s' Er. rewrite R in Er. unfold switch_to_el2, msr in Er. rewrite !bind_put in Er.
    apply bind_inv in Er as (x0 & s1 & Eg & Er).
    assert (x0 = 0) as ->.
    { unfold setup_gic in Eg. repeat (apply bind_inv in Eg as (? & ? & _ & Eg)). unfold lift in Eg. destruct (loop _ _ _) as [y k|] eqn:EL; [|done].
      injection Eg as <- _. revert EL. apply (loop_result _ (fun x => x = 0)). intros a k1 y' k2 Hx. unfold igroup_body in Hx.
      apply bind_inv in Hx as (? & ? & _ & Hx). destruct (Z.eqb_spec (u64 (a - 4)) 0) as [E0|]; [|done]. injection Hx as <- _. done. }
    rewrite !bind_put in Er. unfold eret, mrs, msr in Er. rewrite !bind_get, bind_put in Er. injection Er as <- _. done.
Qed.

(** ** Concrete instances *)

(** 64 KB of memory at 1 MB, the code at 0x80000. *)
Definition small_ram : kstate := boot_state (fun a => (0x100000 <=? a) && (a <? 0x110000)) ∅ 1.
Definition at_level (el : Z) : machine := Machine (fun r => match r with CurrentEL => 4 * el | _ => 0 end) small_ram.
Definition small_code (a : Z) : option label :=
  if a =? 0x80000 then Some _start else if a =? 0x80040 then Some main_entry else None.

Lemma small_tables : table_pages (k_mem small_ram) 0x104000.
Proof. split; [lia|]. split; [done|]. intros a Ha. cbn. lia. Qed.
Lemma small_bss : bss_ok (k_mem small_ram) 0x104000 0x100000 256.
Proof. repeat split; try lia. intros a Ha. cbn. lia. Qed.

Lemma reset_enters_main_witness :
  exists f m, reset 0xffff000000080030 0x80040 small_code 0x104000 (kernel_alias 0x100000) (kernel_alias (0x100000 + 256)) (at_level 2)
      = Ok Main (Machine f (with_mem m small_ram))
    /\ f CurrentEL = 4 /\ f SCTLR_EL1 = 1 /\ f SP = VIRTUAL_ADDRESS_START + LOW_MEMORY
    /\ f TTBR0_EL1 = 0x104000 + 0x2000 /\ f TTBR1_EL1 = 0x104000 + 0x2000 /\ entered 0x104000 0x100000 256 (k_mem small_ram) m.
Proof. apply (reset_enters_main _ _ _ _ _ _ (at_level 2)); [reflexivity|by right|reflexivity|apply small_tables|apply small_bss]. Defined.

Lemma boot_tables_translate_witness :
  exists m, create_page_tables 0x104000 small_ram = Ok (0x104000, 0x104000 + 0x2000) (with_mem m small_ram)
    /\ same_on (fun a => a < 0x104000 \/ 0x104000 + 0x5000 <= a) (k_mem small_ram) m
    /\ forall b o, b = 0 \/ b = VIRTUAL_ADDRESS_START -> 0 <= o < 0x3FE00000 \/ 2 ^ 39 <= o < 2 ^ 48 ->
       mmu_translate m (0x104000 + 0x2000) (0x104000 + 0x2000) (b + o) = boot_map o.
Proof. apply boot_tables_translate, small_tables. Defined.

Lemma reset_at_el3_faults_witness : reset 0xffff000000080030 0x80040 small_code 0x104000 0 0 (at_level 3) = Err (BadAccess GICC).
Proof. apply (reset_at_el3_faults _ _ _ _ _ _ (at_level 3)); reflexivity. Defined.
