(* ===== verification/Fd.v ===== *)
(** * File descriptors (src/fs/fd.c, include/fs/fd.h, include/fs/file.h)

    A task's descriptor table is two blocks of the kernel heap: a bitmap of the
    descriptors in use and an array of [file_t].  The theorems are about any
    memory that holds the two blocks. *)

From S2P Require Export Kmalloc Sched.

Record file_t := File { file_id : Z; index : Z; f_flags : Z }.
Definition zero_file : file_t := File 0 0 0.
Definition SIZEOF_FILE : Z := 24.
Definition SIZEOF_PTR : Z := 8.
Definition FILE_DESC_TABLE_INIT_SIZE : Z := 127.
(** [sizeof(uint8_t) * FILE_DESC_TABLE_INIT_SIZE / 8] *)
Definition FD_BITMAP_SIZE : Z := 1 * FILE_DESC_TABLE_INIT_SIZE / 8.

(** [&file[fd]] *)
Definition file_slot (file fd : Z) : Z := ptr_add file (SIZEOF_FILE * fd).
Definition load_file (a : Z) : K file_t :=
  i ← load64 a; x ← load64 (ptr_add a 8); f ← load64 (ptr_add a 16); mret (File i x f).
Definition store_file (a : Z) (f : file_t) : K unit :=
  _ ← store64 a (file_id f); _ ← store64 (ptr_add a 8) (index f); store64 (ptr_add a 16) (f_flags f).

Definition current_fd_table : K file_desc_table_t :=
  p ← get_current_task; t ← get_task p; mret (fd_table t).

Definition is_valid_fd (fd : Z) : K Z :=
  if fd <? 0 then mret 0
  else
    tbl ← current_fd_table;
    fl ← load64 (ptr_add (file_slot (fd_file tbl) fd) 16);
    mret (if 0 <? fl then 1 else 0).

(** The file, or [None] for the return value -1. *)
Definition get_file_from_fd (fd : Z) : K (option file_t) :=
  tbl ← current_fd_table;
  v ← is_valid_fd fd;
  if v =? 0 then mret None else f ← load_file (file_slot (fd_file tbl) fd); mret (Some f).

Definition set_fd_bitmap (p : Z) (t : task_struct) : task_struct := set_fd_table (FdTable p (fd_file (fd_table t))) t.
Definition set_fd_file (p : Z) (t : task_struct) : task_struct := set_fd_table (FdTable (fd_bitmap (fd_table t)) p) t.

Definition init_fd_table : K unit :=
  task ← get_current_task;
  t ← get_task task;
  if fd_file (fd_table t) =? 0 then
    bm ← kmalloc FD_BITMAP_SIZE;
    _ ← modify_task task (set_fd_bitmap bm);
    _ ← memzero_u8 bm FD_BITMAP_SIZE;
    ft ← kmalloc (SIZEOF_FILE * FILE_DESC_TABLE_INIT_SIZE);
    _ ← modify_task task (set_fd_file ft);
    memzero_u8 ft (SIZEOF_PTR * FILE_DESC_TABLE_INIT_SIZE)
  else mret tt.

Definition destroy_fd_table : K unit :=
  tbl ← current_fd_table;
  _ ← kfree (fd_bitmap tbl);
  tbl ← current_fd_table;
  kfree (fd_file tbl).

(** The bits of byte [i]: a free one is taken. *)
Definition create_bit_body (tbl : file_desc_table_t) (file : file_t) (i : Z) : Z * Z -> K ((Z * Z) + option Z) :=
  fun '(j, byte) =>
  if j <? 8 then
    if Z.land byte 1 =? 0 then
      b ← load8 (ptr_add (fd_bitmap tbl) i);
      _ ← store8 (ptr_add (fd_bitmap tbl) i) (Z.lor b (Z.shiftl 1 j));
      let fd := s16 (j + i * 8) in
      _ ← store_file (file_slot (fd_file tbl) fd) file;
      _ ← store64 (ptr_add (file_slot (fd_file tbl) fd) 16) 1;
      mret (inr (Some fd))
    else mret (inl (u8 (j + 1), Z.shiftr byte 1))
  else mret (inr None).

Definition create_byte_body (tbl : file_desc_table_t) (file : file_t) (i : Z) : K (Z + Z) :=
  if i <? FILE_DESC_TABLE_INIT_SIZE / 8 then
    b ← load8 (ptr_add (fd_bitmap tbl) i);
    if b =? 255 then mret (inl (u8 (i + 1)))
    else
      byte ← load8 (ptr_add (fd_bitmap tbl) i);
      r ← loop (create_bit_body tbl file i) (0, byte);
      match (r : option Z) with Some fd => mret (inr fd) | None => mret (inl (u8 (i + 1))) end
  else mret (inr (-1)).

Definition create_fd (file : file_t) : K Z :=
  tbl ← current_fd_table; loop (create_byte_body tbl file) 0.

(** [fd / 8] and [fd % 8] truncate; a negative shift is undefined. *)
Definition delete_fd (fd : Z) : K unit :=
  tbl ← current_fd_table;
  let j := Z.rem fd 8 in
  if j <? 0 then fail OutOfBounds
  else
    let a := ptr_add (fd_bitmap tbl) (Z.quot fd 8) in
    b ← load8 a;
    _ ← store8 a (Z.land b (Z.lnot (Z.shiftl 1 j)));
    let f := file_slot (fd_file tbl) fd in
    _ ← store64 f 0;
    _ ← store64 (ptr_add f 8) 0;
    store64 (ptr_add f 16) 0.

(** ** The table in memory *)

Definition N_FDS : Z := 120.

(** The two blocks of the running task are mapped and do not overlap. *)
Record fd_space (s : kstate) (bm ft : Z) : Prop := {
  fs_table : exists t, k_tasks s !! current (k_sched s) = Some t /\ fd_table t = FdTable bm ft;
  fs_bitmap : valid_range (k_mem s) bm FD_BITMAP_SIZE;
  fs_files : valid_range (k_mem s) ft (SIZEOF_FILE * FILE_DESC_TABLE_INIT_SIZE);
  fs_range : 0 <= bm /\ bm + FD_BITMAP_SIZE < 2 ^ 64 /\ 0 <= ft /\ ft + SIZEOF_FILE * FILE_DESC_TABLE_INIT_SIZE < 2 ^ 64;
  fs_apart : bm + FD_BITMAP_SIZE <= ft \/ ft + SIZEOF_FILE * FILE_DESC_TABLE_INIT_SIZE <= bm }.

Definition fd_byte (m : mem) (bm i : Z) : Z := default 0 (ld8 m (bm + i)).
(** Descriptor [fd] is marked in use. *)
Definition fd_used (m : mem) (bm fd : Z) : bool := Z.testbit (fd_byte m bm (fd / 8)) (fd mod 8).
(** Entry [fd] of the file array holds [f]. *)
Definition fd_holds (m : mem) (ft fd : Z) (f : file_t) : Prop :=
  ldn 8 m (ft + 24 * fd) = Some (file_id f) /\ ldn 8 m (ft + 24 * fd + 8) = Some (index f)
  /\ ldn 8 m (ft + 24 * fd + 16) = Some (f_flags f).
Definition file_ok (f : file_t) : Prop := 0 <= file_id f < 2 ^ 64 /\ 0 <= index f < 2 ^ 64 /\ 0 <= f_flags f < 2 ^ 64.

(** ** Lemmas *)

Lemma all_bits b : 0 <= b < 256 -> (forall j, 0 <= j < 8 -> Z.testbit b j = true) -> b = 255.
Proof.
  intros Hb H. change 255 with (Z.ones 8). apply Z.bits_inj'. intros k Hk. destruct (Z_lt_le_dec k 8).
  - rewrite H by lia. symmetry. apply Z.ones_spec_low. lia.
  - rewrite Z.ones_spec_high by lia. replace b with (b mod 2 ^ 8) by (apply Z.mod_small; lia).
    apply Z.mod_pow2_bits_high. lia.
Qed.

Section fd_lemmas.
Context (s : kstate) (bm ft : Z) (F : fd_space s bm ft).

Lemma current_fd_table_run : current_fd_table s = Ok (FdTable bm ft) s.
Proof.
  destruct (fs_table _ _ _ F) as (t & E & <-). unfold current_fd_table, get_current_task. rewrite bind_get.
  unfold get_task, mbind, M_bind. by rewrite E.
Qed.

Lemma fd_byte_load i : 0 <= i < 15 -> load8 (ptr_add bm i) s = Ok (fd_byte (k_mem s) bm i) s
  /\ 0 <= fd_byte (k_mem s) bm i < 256 /\ ld8 (k_mem s) (bm + i) = Some (fd_byte (k_mem s) bm i).
Proof.
  intros Hi. destruct (fs_range _ _ _ F) as (R1 & R2 & _). change FD_BITMAP_SIZE with 15 in R2.
  destruct (ld8_valid (k_mem s) (bm + i)) as [b E]; [apply (fs_bitmap _ _ _ F); change FD_BITMAP_SIZE with 15; lia|].
  unfold fd_byte. rewrite E. cbn. unfold ptr_add. rewrite u64_small by lia.
  split; [by apply load8_ok|]. split; [|done]. apply (ld8_range _ _ _ E).
Qed.

Lemma file_slot_eq fd : 0 <= fd < 127 -> file_slot ft fd = ft + 24 * fd
  /\ ptr_add (ft + 24 * fd) 8 = ft + 24 * fd + 8 /\ ptr_add (ft + 24 * fd) 16 = ft + 24 * fd + 16
  /\ valid_range (k_mem s) (ft + 24 * fd) 24.
Proof.
  intros Hf. destruct (fs_range _ _ _ F) as (_ & _ & R1 & R2). change (SIZEOF_FILE * FILE_DESC_TABLE_INIT_SIZE) with 3048 in *.
  unfold file_slot, ptr_add. change (SIZEOF_FILE * fd) with (24 * fd). uw.
  repeat split; [done..|]. intros a Ha. apply (fs_files _ _ _ F). change (SIZEOF_FILE * FILE_DESC_TABLE_INIT_SIZE) with 3048. lia.
Qed.

(** Bytes where every descriptor is in use are skipped. *)
Lemma create_skip f i : 0 <= i < 15 -> (forall j, 0 <= j < 8 -> fd_used (k_mem s) bm (8 * i + j) = true) ->
  create_byte_body (FdTable bm ft) f i s = Ok (inl (i + 1)) s.
Proof.
  intros Hi H. unfold create_byte_body. change (FILE_DESC_TABLE_INIT_SIZE / 8) with 15. decb. cbn [fd_bitmap].
  destruct (fd_byte_load i Hi) as (R & B & _). rewrite (bind_ok _ _ _ _ _ R).
  rewrite (all_bits _ B); [cbn; by uw|]. intros j Hj. specialize (H j Hj). unfold fd_used in H.
  replace ((8 * i + j) / 8) with i in H by (Z.to_euclidean_division_equations; lia).
  by replace ((8 * i + j) mod 8) with j in H by (Z.to_euclidean_division_equations; lia).
Qed.
End fd_lemmas.

(** Two byte ranges of the table's blocks are disjoint. *)
Definition written (bm ft fd a : Z) : Prop := a = bm + fd / 8 \/ ft + 24 * fd <= a < ft + 24 * fd + 24.

(** Storing a [file_t]. *)
Lemma store_words s a x y z : 0 <= a -> a + 24 < 2 ^ 64 -> valid_range (k_mem s) a 24 ->
  0 <= x < 2 ^ 64 -> 0 <= y < 2 ^ 64 -> 0 <= z < 2 ^ 64 ->
  exists m, (_ ← store64 a x; _ ← store64 (a + 8) y; store64 (a + 16) z) s = Ok tt (with_mem m s)
    /\ ldn 8 m a = Some x /\ ldn 8 m (a + 8) = Some y /\ ldn 8 m (a + 16) = Some z
    /\ same_on (fun b => b < a \/ a + 24 <= b) (k_mem s) m /\ m_valid m = m_valid (k_mem s).
Proof.
  intros Ha Ha' V Hx Hy Hz.
  destruct (stn_ok 8 (k_mem s) a x) as [m1 E1]; [eapply valid_range_sub; [exact V|lia..]|].
  pose proof (valid_range_stn _ _ _ _ _ _ _ E1 V) as V1.
  destruct (stn_ok 8 m1 (a + 8) y) as [m2 E2]; [eapply valid_range_sub; [exact V1|lia..]|].
  pose proof (valid_range_stn _ _ _ _ _ _ _ E2 V1) as V2.
  destruct (stn_ok 8 m2 (a + 16) z) as [m3 E3]; [eapply valid_range_sub; [exact V2|lia..]|].
  exists m3. rewrite (bind_ok _ _ _ _ _ (store64_ok s _ _ _ E1)), (bind_ok _ _ _ _ _ (store64_ok (with_mem m1 s) _ _ _ E2)).
  rewrite (store64_ok (with_mem m2 (with_mem m1 s)) _ _ _ E3). split; [done|]. split; [|split; [|split; [|split]]].
  - eapply ld64_st64_other; [exact E3| |lia]. eapply ld64_st64_other; [exact E2| |lia]. by eapply ld64_st64_same.
  - eapply ld64_st64_other; [exact E3| |lia]. by eapply ld64_st64_same.
  - by eapply ld64_st64_same.
  - etrans; [eapply same_on_stn; [exact E1|cbn; lia]|]. etrans; [eapply same_on_stn; [exact E2|cbn; lia]|].
    eapply same_on_stn; [exact E3|cbn; lia].
  - rewrite (stn_valid_eq _ _ _ _ _ E3), (stn_valid_eq _ _ _ _ _ E2), (stn_valid_eq _ _ _ _ _ E1). done.
Qed.

Lemma set_bit_byte b j : 0 <= b < 256 -> 0 <= j < 8 -> 0 <= Z.lor b (Z.shiftl 1 j) < 256.
Proof.
  intros Hb Hj. assert (N : 0 <= Z.shiftl 1 j) by (apply Z.shiftl_nonneg; lia).
  assert (0 <= Z.lor b (Z.shiftl 1 j)) by (apply Z.lor_nonneg; lia). split; [done|].
  destruct (Z.eq_dec (Z.lor b (Z.shiftl 1 j)) 0) as [->|]; [lia|]. change 256 with (2 ^ 8). apply Z.log2_lt_pow2; [lia|].
  rewrite Z.log2_lor, Z.log2_shiftl by lia. apply Z.max_lub_lt; [|change (Z.log2 1) with 0; lia].
  destruct (Z.eq_dec b 0) as [->|]; [cbn; lia|]. apply Z.log2_lt_pow2; lia.
Qed.

Section fd_updates.
Context (s : kstate) (bm ft fd : Z) (F : fd_space s bm ft) (Hfd : 0 <= fd < 120).

Lemma fd_layout : 0 <= fd / 8 < 15 /\ 0 <= fd mod 8 < 8 /\ 0 <= bm /\ bm + 15 < 2 ^ 64 /\ 0 <= ft /\ ft + 3048 < 2 ^ 64
  /\ (bm + 15 <= ft \/ ft + 3048 <= bm).
Proof.
  pose proof (fs_range _ _ _ F) as R. pose proof (fs_apart _ _ _ F) as A.
  change FD_BITMAP_SIZE with 15 in *. change (SIZEOF_FILE * FILE_DESC_TABLE_INIT_SIZE) with 3048 in *.
  Z.to_euclidean_division_equations; lia.
Qed.

Lemma mark_fd v : exists m, store8 (ptr_add bm (fd / 8)) v s = Ok tt (with_mem m s)
  /\ ld8 m (bm + fd / 8) = Some (u8 v) /\ same_on (fun a => a <> bm + fd / 8) (k_mem s) m /\ m_valid m = m_valid (k_mem s).
Proof.
  destruct fd_layout as (D & _ & B1 & B2 & _). unfold ptr_add. rewrite u64_small by lia.
  destruct (st8_ok (k_mem s) (bm + fd / 8) v) as [m E]; [apply (fs_bitmap _ _ _ F); change FD_BITMAP_SIZE with 15; lia|].
  exists m. unfold store8, storen. cbn [stn]. rewrite E. cbn [mbind option_bind]. split; [done|].
  split; [by eapply ld8_st8_same|]. split; [|by eapply st8_valid_eq]. intros a Ha. by eapply ld8_st8_other.
Qed.

(** What an update of the byte and the entry of [fd] does to the table. *)
Lemma fd_changed m v : same_on (fun a => ~ written bm ft fd a) (k_mem s) m -> ld8 m (bm + fd / 8) = Some v ->
  (forall k, 0 <= k < 120 -> fd_used m bm k = if k / 8 =? fd / 8 then Z.testbit v (k mod 8) else fd_used (k_mem s) bm k)
  /\ (forall k g, 0 <= k < 127 -> k <> fd -> fd_holds (k_mem s) ft k g -> fd_holds m ft k g).
Proof.
  intros S E. destruct fd_layout as (D & _ & B1 & B2 & B3 & B4 & A). split.
  - intros k Hk. unfold fd_used, fd_byte. destruct (Z.eqb_spec (k / 8) (fd / 8)) as [->|N]; [by rewrite E|].
    rewrite (S (bm + k / 8)); [done|]. unfold written. Z.to_euclidean_division_equations; lia.
  - intros k g Hk N (H1 & H2 & H3). unfold fd_holds. rewrite <- H1, <- H2, <- H3.
    repeat split; apply ldn_ext; intros b Hb; apply S; unfold written; lia.
Qed.

Lemma fd_space_mem m : m_valid m = m_valid (k_mem s) -> fd_space (with_mem m s) bm ft.
Proof.
  intros V. destruct F as [T B Fi R A]. split; [done| | |done|done]; intros a Ha; cbn; rewrite V; [by apply B|by apply Fi].
Qed.

Lemma create_take f : file_ok f -> fd_used (k_mem s) bm fd = false -> (forall k, 0 <= k < fd -> fd_used (k_mem s) bm k = true) ->
  exists m, create_byte_body (FdTable bm ft) f (fd / 8) s = Ok (inr fd) (with_mem m s)
    /\ ld8 m (bm + fd / 8) = Some (Z.lor (fd_byte (k_mem s) bm (fd / 8)) (Z.shiftl 1 (fd mod 8)))
    /\ fd_holds m ft fd (File (file_id f) (index f) 1)
    /\ same_on (fun a => ~ written bm ft fd a) (k_mem s) m /\ m_valid m = m_valid (k_mem s).
Proof.
  intros Hf Hu Hlow. destruct fd_layout as (D & J & B1 & B2 & B3 & B4 & A). set (i := fd / 8) in *. set (j := fd mod 8) in *.
  assert (Ef : fd = j + i * 8) by (unfold i, j; Z.to_euclidean_division_equations; lia).
  destruct (fd_byte_load s bm ft F i D) as (Rb & Bb & Lb). set (b := fd_byte (k_mem s) bm i) in *.
  assert (Bits : forall k, 0 <= k < j -> Z.testbit b k = true).
  { intros k Hk. specialize (Hlow (k + i * 8) ltac:(lia)). unfold fd_used in Hlow. rewrite Z.div_add, Z.mod_add in Hlow by lia.
    rewrite Z.div_small, Z.mod_small in Hlow by lia. exact Hlow. }
  pose proof (set_bit_byte b j Bb J) as Lor.
  destruct (mark_fd (Z.lor b (Z.shiftl 1 j))) as (m1 & R1 & L1 & S1 & V1). fold i in R1, L1, S1. rewrite u8_small in L1 by lia.
  pose proof (fd_space_mem m1 V1) as F1. destruct (file_slot_eq _ _ _ F1 fd ltac:(lia)) as (Es & E8 & E16 & VF).
  destruct Hf as (Hi & Hx & Hg).
  destruct (store_words (with_mem m1 s) (ft + 24 * fd) (file_id f) (index f) (f_flags f)) as (m2 & R2 & W1 & W2 & W3 & S2 & V2);
    [lia|lia|done|done|done|done|].
  destruct (stn_ok 8 m2 (ft + 24 * fd + 16) 1) as [m3 E3].
  { intros a Ha. rewrite V2. apply VF. lia. }
  exists m3. split; [|split; [|split; [|split]]].
  - unfold create_byte_body. change (FILE_DESC_TABLE_INIT_SIZE / 8) with 15. decb. cbn [fd_bitmap].
    rewrite (bind_ok _ _ _ _ _ Rb). replace (b =? 255) with false.
    2: { symmetry. apply Z.eqb_neq. intros E. unfold fd_used in Hu. fold i j b in Hu. rewrite E in Hu.
         change 255 with (Z.ones 8) in Hu. rewrite Z.ones_spec_low in Hu; [done|lia]. }
    rewrite (bind_ok _ _ _ _ _ Rb). rewrite (bind_ok _ _ _ (Some fd) (with_mem m3 s)); [done|].
    apply (loops_loop _ (S (Z.to_nat j))); [|lia].
    apply (loops_iter (create_bit_body (FdTable bm ft) f i) (fun k => (Z.of_nat k, Z.shiftr b (Z.of_nat k)))).
    + intros k Hk. unfold create_bit_body. replace (Z.of_nat k <? 8) with true by lia.
      rewrite land_1, Z.shiftr_spec, Z.add_0_l, Bits by lia. cbn [Z.b2z Z.eqb]. uw. rewrite Z.shiftr_shiftr by lia.
      by replace (Z.of_nat (S k)) with (Z.of_nat k + 1) by lia.
    + rewrite Z2Nat.id by lia. unfold create_bit_body. replace (j <? 8) with true by lia.
      unfold fd_used in Hu. fold i j b in Hu. rewrite land_1, Z.shiftr_spec, Z.add_0_l, Hu by lia. cbn [Z.b2z Z.eqb fd_bitmap fd_file].
      rewrite (bind_ok _ _ _ _ _ Rb), (bind_ok _ _ _ _ _ R1). rewrite <- Ef. unfold s16. rewrite swrap_small by (cbn; lia).
      unfold store_file. rewrite Es, E8, E16, (bind_ok _ _ _ _ _ R2), (bind_ok _ _ _ _ _ (store64_ok (with_mem m2 (with_mem m1 s)) _ _ _ E3)).
      done.
  - rewrite (ld8_stn_other _ _ _ _ _ _ E3) by lia. rewrite (S2 (bm + i)) by (cbn; lia). exact L1.
  - repeat split; cbn [file_id index f_flags].
    + by eapply ld64_st64_other; [exact E3| |lia].
    + by eapply ld64_st64_other; [exact E3| |lia].
    + by eapply ld64_st64_same.
  - intros a Ha. unfold written in Ha. fold i in Ha. rewrite (ld8_stn_other _ _ _ _ _ _ E3) by lia.
    rewrite (S2 a) by lia. apply S1. lia.
  - rewrite (stn_valid_eq _ _ _ _ _ E3), V2. exact V1.
Qed.
End fd_updates.

(** ** Executions *)

(** The lowest index without a property, or all have it. *)
Lemma lowest_or_all (P : Z -> bool) (n : nat) :
  (exists k, 0 <= k < Z.of_nat n /\ P k = false /\ (forall j, 0 <= j < k -> P j = true))
  \/ (forall k, 0 <= k < Z.of_nat n -> P k = true).
Proof.
  induction n as [|n [(k & H1 & H2)|H]]; [right; lia|left; exists k; split; [lia|done]|].
  destruct (P (Z.of_nat n)) eqn:U.
  - right. intros k Hk. destruct (Z.eq_dec k (Z.of_nat n)) as [->|]; [done|]. apply H. lia.
  - left. exists (Z.of_nat n). split; [lia|]. done.
Qed.

Lemma create_fd_run s bm ft fd f : fd_space s bm ft -> 0 <= fd < N_FDS -> file_ok f ->
  fd_used (k_mem s) bm fd = false -> (forall k, 0 <= k < fd -> fd_used (k_mem s) bm k = true) ->
  exists m, create_fd f s = Ok fd (with_mem m s) /\ fd_space (with_mem m s) bm ft
    /\ (forall k, 0 <= k < N_FDS -> fd_used m bm k = (k =? fd) || fd_used (k_mem s) bm k)
    /\ fd_holds m ft fd (File (file_id f) (index f) 1)
    /\ (forall k g, 0 <= k < 127 -> k <> fd -> fd_holds (k_mem s) ft k g -> fd_holds m ft k g)
    /\ m_valid m = m_valid (k_mem s).
Proof.
  unfold N_FDS. intros F Hfd Hf Hu Hlow. destruct (fd_layout s bm ft fd F Hfd) as (D & J & _).
  destruct (create_take s bm ft fd F Hfd f Hf Hu Hlow) as (m & R & L & H & S & V).
  destruct (fd_changed s bm ft fd F Hfd m _ S L) as [U K].
  exists m. split; [|split; [by apply fd_space_mem|split; [|done]]].
  - unfold create_fd. rewrite (bind_ok _ _ _ _ _ (current_fd_table_run s bm ft F)).
    apply (search_first _ _ _ _ (fd / 8)); [lia| |exact R]. intros i Hi.
    apply (create_skip s bm ft F); [lia|]. intros j Hj. apply Hlow. Z.to_euclidean_division_equations; lia.
  - intros k Hk. rewrite (U k Hk). destruct (Z.eqb_spec (k / 8) (fd / 8)) as [E|N].
    + rewrite Z.lor_spec. unfold fd_used. rewrite E, orb_comm. f_equal.
      pose proof (Z.mod_pos_bound k 8 ltac:(lia)). rewrite Z.shiftl_spec by lia.
      destruct (Z.eqb_spec k fd) as [->|Nk]; [by rewrite Z.sub_diag|].
      assert (Nj : k mod 8 <> fd mod 8) by (Z.to_euclidean_division_equations; lia).
      destruct (Z_lt_le_dec (k mod 8) (fd mod 8)); [apply Z.testbit_neg_r; lia|].
      replace 1 with (Z.ones 1) by done. apply Z.ones_spec_high. lia.
    + destruct (Z.eqb_spec k fd) as [->|]; [done|]. done.
Qed.

Lemma create_fd_full_run s bm ft f : fd_space s bm ft -> (forall k, 0 <= k < N_FDS -> fd_used (k_mem s) bm k = true) ->
  create_fd f s = Ok (-1) s.
Proof.
  intros F H. unfold create_fd. rewrite (bind_ok _ _ _ _ _ (current_fd_table_run s bm ft F)).
  apply (search_first _ _ _ _ 15); [lia| |done]. intros i Hi. apply (create_skip s bm ft F); [lia|].
  intros j Hj. apply H. unfold N_FDS. lia.
Qed.

Lemma is_valid_fd_run s bm ft fd f : fd_space s bm ft -> 0 <= fd < 127 -> fd_holds (k_mem s) ft fd f ->
  is_valid_fd fd s = Ok (if 0 <? f_flags f then 1 else 0) s.
Proof.
  intros F Hfd (_ & _ & H). unfold is_valid_fd. replace (fd <? 0) with false by lia.
  rewrite (bind_ok _ _ _ _ _ (current_fd_table_run s bm ft F)). destruct (file_slot_eq s bm ft F fd Hfd) as (Es & _ & E16 & _).
  cbn [fd_file]. rewrite Es, E16. by rewrite (bind_ok _ _ _ _ _ (load64_ok s _ _ H)).
Qed.

Lemma get_file_run s bm ft fd f : fd_space s bm ft -> 0 <= fd < 127 -> fd_holds (k_mem s) ft fd f ->
  get_file_from_fd fd s = Ok (if 0 <? f_flags f then Some f else None) s.
Proof.
  intros F Hfd H. unfold get_file_from_fd. rewrite (bind_ok _ _ _ _ _ (current_fd_table_run s bm ft F)).
  rewrite (bind_ok _ _ _ _ _ (is_valid_fd_run s bm ft fd f F Hfd H)). destruct (0 <? f_flags f); [|done].
  destruct (file_slot_eq s bm ft F fd Hfd) as (Es & E8 & E16 & _). destruct H as (H1 & H2 & H3).
  cbn [Z.eqb fd_file]. unfold load_file. rewrite Es, E8, E16, bind_assoc.
  rewrite (bind_ok _ _ _ _ _ (load64_ok s _ _ H1)), bind_assoc, (bind_ok _ _ _ _ _ (load64_ok s _ _ H2)), bind_assoc.
  rewrite (bind_ok _ _ _ _ _ (load64_ok s _ _ H3)). by destruct f.
Qed.

Lemma delete_fd_run s bm ft fd : fd_space s bm ft -> 0 <= fd < N_FDS ->
  exists m, delete_fd fd s = Ok tt (with_mem m s) /\ fd_space (with_mem m s) bm ft
    /\ (forall k, 0 <= k < N_FDS -> fd_used m bm k = negb (k =? fd) && fd_used (k_mem s) bm k)
    /\ fd_holds m ft fd zero_file
    /\ (forall k g, 0 <= k < 127 -> k <> fd -> fd_holds (k_mem s) ft k g -> fd_holds m ft k g).
Proof.
  unfold N_FDS. intros F Hfd. destruct (fd_layout s bm ft fd F Hfd) as (D & J & B1 & B2 & B3 & B4 & A).
  destruct (fd_byte_load s bm ft F (fd / 8) D) as (Rb & Bb & Lb). set (b := fd_byte (k_mem s) bm (fd / 8)) in *.
  set (v := Z.land b (Z.lnot (Z.shiftl 1 (fd mod 8)))).
  destruct (mark_fd s bm ft fd F Hfd v) as (m1 & R1 & L1 & S1 & V1). pose proof (fd_space_mem s bm ft F m1 V1) as F1.
  destruct (file_slot_eq _ _ _ F1 fd ltac:(lia)) as (Es & E8 & E16 & VF).
  destruct (store_words (with_mem m1 s) (ft + 24 * fd) 0 0 0) as (m2 & R2 & W1 & W2 & W3 & S2 & V2); [lia|lia|done|lia|lia|lia|].
  assert (S : same_on (fun a => ~ written bm ft fd a) (k_mem s) m2).
  { intros a Ha. unfold written in Ha. rewrite (S2 a) by lia. apply S1. lia. }
  destruct (fd_changed s bm ft fd F Hfd m2 (u8 v) S) as [U K].
  { rewrite (S2 (bm + fd / 8)) by lia. exact L1. }
  exists m2. split; [|split; [apply (fd_space_mem (with_mem m1 s) bm ft F1); exact V2|split; [|split; [done|done]]]].
  - unfold delete_fd. rewrite (bind_ok _ _ _ _ _ (current_fd_table_run s bm ft F)). cbv zeta.
    rewrite Z.rem_mod_nonneg, Z.quot_div_nonneg by lia. replace (fd mod 8 <? 0) with false by lia. cbn [fd_bitmap fd_file].
    rewrite (bind_ok _ _ _ _ _ Rb), (bind_ok _ _ _ _ _ R1). rewrite Es, E8, E16. exact R2.
  - intros k Hk. rewrite (U k Hk). destruct (Z.eqb_spec (k / 8) (fd / 8)) as [E|N].
    + pose proof (Z.mod_pos_bound k 8 ltac:(lia)). unfold u8, v. rewrite Z.mod_pow2_bits_low by lia.
      rewrite Z.land_spec, Z.lnot_spec, Z.shiftl_spec by lia. unfold fd_used. rewrite E. fold b. rewrite andb_comm. f_equal. f_equal.
      destruct (Z.eqb_spec k fd) as [->|Nk]; [by rewrite Z.sub_diag|].
      assert (Nj : k mod 8 <> fd mod 8) by (Z.to_euclidean_division_equations; lia).
      destruct (Z_lt_le_dec (k mod 8) (fd mod 8)); [apply Z.testbit_neg_r; lia|].
      replace 1 with (Z.ones 1) by done. apply Z.ones_spec_high. lia.
    + destruct (Z.eqb_spec k fd) as [->|]; done.
Qed.

(** ** Properties *)

(** C34. [create_fd] returns the lowest descriptor below 120 that is not in use,
    marks that one and no other, stores the file with its flags set to 1 and
    leaves the other open files alone; with all 120 in use it returns -1 and
    changes nothing. *)
Theorem create_fd_takes_lowest s bm ft f :
  fd_space s bm ft -> file_ok f ->
  (exists fd m, 0 <= fd < N_FDS /\ fd_used (k_mem s) bm fd = false
     /\ (forall k, 0 <= k < fd -> fd_used (k_mem s) bm k = true)
     /\ create_fd f s = Ok fd (with_mem m s)
     /\ (forall k, 0 <= k < N_FDS -> fd_used m bm k = (k =? fd) || fd_used (k_mem s) bm k)
     /\ fd_holds m ft fd (File (file_id f) (index f) 1)
     /\ (forall k g, 0 <= k < 127 -> k <> fd -> fd_holds (k_mem s) ft k g -> fd_holds m ft k g))
  \/ ((forall k, 0 <= k < N_FDS -> fd_used (k_mem s) bm k = true) /\ create_fd f s = Ok (-1) s).
Proof.
  intros F Hf.
  destruct (lowest_or_all (fd_used (k_mem s) bm) 120) as [(fd & Hfd & Hu & Hlow)|H].
  - left. destruct (create_fd_run s bm ft fd f F Hfd Hf Hu Hlow) as (m & R & _ & U & H & K & _). by exists fd, m.
  - right. split; [exact H|]. exact (create_fd_full_run s bm ft f F H).
Qed.

(** Opening and closing are inverse: the descriptor returned reads back the
    file stored, with flags 1; after [delete_fd] it is not valid and the set of
    descriptors in use is the one before. *)
Theorem fd_open_close s bm ft f fd s1 :
  fd_space s bm ft -> file_ok f -> create_fd f s = Ok fd s1 -> fd <> -1 ->
  get_file_from_fd fd s1 = Ok (Some (File (file_id f) (index f) 1)) s1
  /\ exists s2, delete_fd fd s1 = Ok tt s2 /\ is_valid_fd fd s2 = Ok 0 s2
     /\ forall k, 0 <= k < N_FDS -> fd_used (k_mem s2) bm k = fd_used (k_mem s) bm k.
Proof.
  intros F Hf R Hn. 
  assert (Low : exists fd', 0 <= fd' < N_FDS /\ fd_used (k_mem s) bm fd' = false
     /\ (forall k, 0 <= k < fd' -> fd_used (k_mem s) bm k = true)).
  { destruct (lowest_or_all (fd_used (k_mem s) bm) 120) as [H|H]; [exact H|].
    rewrite (create_fd_full_run s bm ft f F H) in R. by injection R as <- _. }
  destruct Low as (fd' & Hfd & Hu & Hlow).
  destruct (create_fd_run s bm ft fd' f F Hfd Hf Hu Hlow) as (m & R' & F1 & U & H & _). rewrite R in R'. injection R' as -> ->.
  unfold N_FDS in Hfd. split; [exact (get_file_run _ bm ft fd' _ F1 ltac:(lia) H)|].
  destruct (delete_fd_run _ bm ft fd' F1 Hfd) as (m2 & R2 & F2 & U2 & H2 & _).
  eexists. split; [exact R2|]. split; [exact (is_valid_fd_run _ bm ft fd' _ F2 ltac:(lia) H2)|].
  intros k Hk. change (k_mem (with_mem m2 (with_mem m s))) with m2. rewrite (U2 k Hk).
  change (k_mem (with_mem m s)) with m. rewrite (U k Hk). destruct (Z.eqb_spec k fd') as [->|]; [|done]. by rewrite Hu.
Qed.

(** ** Concrete instances *)

(** A task whose bitmap is at 4096 and whose files are at 8192, none open. *)
Definition fd_sample : kstate :=
  with_tasks {[1 := set_fd_table (FdTable 4096 8192) INIT_TASK]}
    (boot_state (fun a => (4096 <=? a) && (a <? 16384)) ∅ 1).

Lemma fd_sample_space : fd_space fd_sample 4096 8192.
Proof.
  split; [eexists; split; reflexivity| | |vm_compute; repeat split; congruence|left; vm_compute; congruence];
    intros a; change FD_BITMAP_SIZE with 15; change (SIZEOF_FILE * FILE_DESC_TABLE_INIT_SIZE) with 3048;
    intros Ha; cbn [k_mem fd_sample with_tasks boot_state m_valid]; lia.
Qed.
Lemma fd_sample_file : file_ok (File 7 0 0).
Proof. unfold file_ok. cbn. lia. Qed.

Lemma create_fd_takes_lowest_witness :
  (exists fd m, 0 <= fd < N_FDS /\ fd_used (k_mem fd_sample) 4096 fd = false
     /\ (forall k, 0 <= k < fd -> fd_used (k_mem fd_sample) 4096 k = true)
     /\ create_fd (File 7 0 0) fd_sample = Ok fd (with_mem m fd_sample)
     /\ (forall k, 0 <= k < N_FDS -> fd_used m 4096 k = (k =? fd) || fd_used (k_mem fd_sample) 4096 k)
     /\ fd_holds m 8192 fd (File 7 0 1)
     /\ (forall k g, 0 <= k < 127 -> k <> fd -> fd_holds (k_mem fd_sample) 8192 k g -> fd_holds m 8192 k g))
  \/ ((forall k, 0 <= k < N_FDS -> fd_used (k_mem fd_sample) 4096 k = true) /\ create_fd (File 7 0 0) fd_sample = Ok (-1) fd_sample).
Proof. exact (create_fd_takes_lowest fd_sample 4096 8192 (File 7 0 0) fd_sample_space fd_sample_file). Defined.

(** The first descriptor opened is 0. *)
Lemma fd_open_close_witness :
  exists s1, create_fd (File 7 0 0) fd_sample = Ok 0 s1
    /\ get_file_from_fd 0 s1 = Ok (Some (File 7 0 1)) s1
    /\ exists s2, delete_fd 0 s1 = Ok tt s2 /\ is_valid_fd 0 s2 = Ok 0 s2
       /\ forall k, 0 <= k < N_FDS -> fd_used (k_mem s2) 4096 k = fd_used (k_mem fd_sample) 4096 k.
Proof.
  destruct (create_fd_run fd_sample 4096 8192 0 (File 7 0 0) fd_sample_space) as (m & R & _);
    [unfold N_FDS; lia|apply fd_sample_file|reflexivity|lia|].
  exists (with_mem m fd_sample). split; [exact R|].
  apply (fd_open_close fd_sample 4096 8192 (File 7 0 0) 0 _ fd_sample_space fd_sample_file R). discriminate.
Defined.
