(* ===== verification/Rdfs.v ===== *)
(** * The ramdisk file system (src/fs/rdfs/rdfs.c, include/fs/rdfs/rdfs.h)

    A read-only image in memory: a header, an array of directory entries
    indexed by file id, and data blocks.  Structures are read at the offsets the
    AArch64 ABI gives their members.  A [file_t*] or [uint64_t*] argument that
    points to a local variable of the caller is a value passed and returned. *)

From S2P Require Export Fd.

Definition RDFS_MAGIC_NUMBER : Z := 0x7DF5.
Definition RDFS_FILE_TYPE_DIR : Z := 1.
Definition RDFS_FILE_TYPE_FILE : Z := 2.
Definition RDFS_FILE_NAME_SIZE : Z := 71.
(** [sizeof] of the partition header and of a directory entry. *)
Definition SIZEOF_HEADER : Z := 96.
Definition SIZEOF_ENTRY : Z := 96.

Definition hdr_magic (h : Z) : K Z := load16 h.
Definition hdr_file_directory_size (h : Z) : K Z := load64 (ptr_add h 80).
Definition ent_file_id (e : Z) : K Z := load64 e.
Definition ent_file_type (e : Z) : K Z := load8 (ptr_add e 8).
Definition ent_filename (e : Z) : Z := ptr_add e 9.
Definition ent_data_block_offset (e : Z) : K Z := load64 (ptr_add e 80).
Definition ent_data_entry_size (e : Z) : K Z := load64 (ptr_add e 88).

Record stat_t := Stat { st_mode : Z; st_size : Z }.
Definition S_IFDIR : Z := Z.shiftl 1 32.
Definition S_IFREG : Z := Z.shiftl 2 32.

Definition get_rdfs {A} (f : rdfs_globals -> A) : K A := get (fun s => f (k_rdfs s)).

(** [&first_file[id]] *)
Definition dir_entry (id : Z) : K Z := p ← get_rdfs first_file; mret (ptr_add p (SIZEOF_ENTRY * id)).

Definition rdfs_init (initial_offset : Z) : K Z :=
  if initial_offset =? 0 then mret (-1)
  else
    _ ← put (fun s => with_rdfs (RdfsGlobals initial_offset (first_file (k_rdfs s)) (numFiles (k_rdfs s))) s);
    magic ← hdr_magic initial_offset;
    if negb (magic =? RDFS_MAGIC_NUMBER) then mret (-1)
    else
      _ ← put (fun s => with_rdfs (RdfsGlobals (rdfs_start (k_rdfs s)) (ptr_add (rdfs_start (k_rdfs s)) SIZEOF_HEADER) (numFiles (k_rdfs s))) s);
      n ← hdr_file_directory_size initial_offset;
      _ ← put (fun s => with_rdfs (RdfsGlobals (rdfs_start (k_rdfs s)) (first_file (k_rdfs s)) (n / SIZEOF_ENTRY)) s);
      mret 0.

(** [DATA_LOCATION(f)] *)
Definition DATA_LOCATION (e : Z) : K Z :=
  start ← get_rdfs rdfs_start;
  n ← hdr_file_directory_size start;
  off ← ent_data_block_offset e;
  mret (u64 (start + n + off + SIZEOF_HEADER)).

(** The list and [*list_size]. *)
Definition rdfs_get_file_list_from_dir_id (curr_dir_id : Z) : K (Z * Z) :=
  file ← dir_entry curr_dir_id;
  n ← ent_data_entry_size file;
  let list_size := n / 8 in
  file_list ← kmalloc (u64 (list_size * 8));
  file_ids ← DATA_LOCATION file;
  _ ← loop (fun i : Z =>
    if i <? list_size then
      v ← load64 (ptr_add file_ids (8 * i));
      _ ← store64 (ptr_add file_list (8 * i)) v;
      mret (inl (u64 (i + 1)))
    else mret (inr tt)) 0;
  mret (file_list, list_size).

(** [Some id] for a return value 0 with [*file_id = id], [None] for -1. *)
Definition rdfs_get_file_id_body (file_list size filename i : Z) : K (Z + option Z) :=
  if i <? size then
    id ← load64 (ptr_add file_list (8 * i));
    e ← dir_entry id;
    c ← strcmp (ent_filename e) filename;
    if c =? 0 then id ← load64 (ptr_add file_list (8 * i)); mret (inr (Some id))
    else mret (inl (u64 (i + 1)))
  else mret (inr None).
Definition rdfs_get_file_id_from_list_and_name (file_list size filename : Z) : K (option Z) :=
  loop (rdfs_get_file_id_body file_list size filename) 0.

(** The length of the first component of a path. *)
Definition component_length (path : Z) : K Z :=
  loop (fun i : Z =>
    c ← load8 (ptr_add path i);
    if negb (c =? 47) then
      c ← load8 (ptr_add path i);
      if negb (c =? 0) then mret (inl (u16 (i + 1))) else mret (inr i)
    else mret (inr i)) 0.

Definition path_body : Z * Z -> K ((Z * Z) + option Z) := fun '(path_to_parse, current_dir_id) =>
  c0 ← load8 path_to_parse;
  if negb (c0 =? 0) then
    i ← component_length path_to_parse;
    next_filename ← kmalloc (i + 1);
    _ ← memcpy next_filename path_to_parse i;
    _ ← store8 (ptr_add next_filename i) 0;
    c ← load8 (ptr_add path_to_parse i);
    let rest := if c =? 47 then ptr_add path_to_parse (i + 1) else ptr_add path_to_parse i in
    l ← rdfs_get_file_list_from_dir_id current_dir_id;
    let '(file_id_list, file_list_size) := (l : Z * Z) in
    if file_id_list =? 0 then mret (inr None)
    else
      r ← rdfs_get_file_id_from_list_and_name file_id_list file_list_size next_filename;
      match r with
      | None => mret (inr None)
      | Some id =>
          _ ← kfree file_id_list;
          _ ← kfree next_filename;
          mret (inl (rest, id))
      end
  else mret (inr (Some current_dir_id)).

(** [Some id] when the path resolves. *)
Definition rdfs_file_get_id_from_path (path : Z) : K (option Z) := loop path_body (ptr_add path 1, 0).

Definition rdfs_getattr (path : Z) (st : stat_t) : K (Z * stat_t) :=
  r ← rdfs_file_get_id_from_path path;
  match r with
  | None => mret (-1, st)
  | Some fileId =>
      found_file ← dir_entry fileId;
      ty ← ent_file_type found_file;
      n ← ent_data_entry_size found_file;
      let mode := if ty =? RDFS_FILE_TYPE_DIR then S_IFDIR
                  else if ty =? RDFS_FILE_TYPE_FILE then S_IFREG else st_mode st in
      mret (0, Stat mode n)
  end.

Definition rdfs_id_isDir (id : Z) : K bool :=
  file ← dir_entry id; ty ← ent_file_type file; mret (ty =? RDFS_FILE_TYPE_DIR).

(** The list (0 for failure) and [*list_size], which a failure to resolve the
    path leaves at [list_size]; the pointer is not null. *)
Definition rdfs_readdir (path list_size : Z) : K (Z * Z) :=
  r ← rdfs_file_get_id_from_path path;
  match r with
  | None => mret (0, list_size)
  | Some fileId =>
      d ← rdfs_id_isDir fileId;
      if negb d then mret (0, list_size)
      else
        l ← rdfs_get_file_list_from_dir_id fileId;
        let '(file_list, n) := (l : Z * Z) in
        if file_list =? 0 then mret (0, n) else mret (file_list, n)
  end.

Definition rdfs_filename_from_id (fileid filepath : Z) : K Z :=
  e ← dir_entry fileid;
  id ← ent_file_id e;
  if negb (id =? fileid) then mret (-1)
  else _ ← strcpy_s filepath RDFS_FILE_NAME_SIZE (ent_filename e); mret 0.

Definition rdfs_open_file_id (file_id flags : Z) : file_t := File file_id 0 flags.

(** [None] for the return value -1. *)
Definition rdfs_open_file (path flags : Z) : K (option file_t) :=
  r ← rdfs_file_get_id_from_path path;
  match r with None => mret None | Some id => mret (Some (rdfs_open_file_id id flags)) end.

(** The number of bytes read and the file with its index advanced. *)
Definition rdfs_read_file (file : file_t) (buf size : Z) : K (Z * file_t) :=
  file_dir_entry ← dir_entry (file_id file);
  data_ptr ← DATA_LOCATION file_dir_entry;
  n ← ent_data_entry_size file_dir_entry;
  let total_remaining := u64 (n - index file) in
  if total_remaining =? 0 then mret (0, file)
  else
    let size := if total_remaining <? size then total_remaining else size in
    _ ← memcpy buf (ptr_add data_ptr (index file)) size;
    mret (size, File (file_id file) (u64 (index file + size)) (f_flags file)).

(** ** A file of the image *)

(** File [id] has [length data] bytes, those of [data], at [loc]. *)
Record file_at (s : kstate) (id loc : Z) (data : list Z) : Prop := {
  fa_entry : 0 <= first_file (k_rdfs s) + 96 * id /\ first_file (k_rdfs s) + 96 * id + 96 < 2 ^ 64;
  fa_start : 0 <= rdfs_start (k_rdfs s) /\ rdfs_start (k_rdfs s) + 96 < 2 ^ 64;
  fa_loc : exists dir off, ldn 8 (k_mem s) (rdfs_start (k_rdfs s) + 80) = Some dir
    /\ ldn 8 (k_mem s) (first_file (k_rdfs s) + 96 * id + 80) = Some off
    /\ loc = rdfs_start (k_rdfs s) + dir + off + 96;
  fa_size : ldn 8 (k_mem s) (first_file (k_rdfs s) + 96 * id + 88) = Some (Z.of_nat (length data));
  fa_bounds : 0 <= loc /\ loc + Z.of_nat (length data) < 2 ^ 64 /\ Z.of_nat (length data) < 2 ^ 63;
  fa_data : forall i b, data !! i = Some b -> ld8 (k_mem s) (loc + Z.of_nat i) = Some b }.

(** [n] bytes at [buf] are mapped and outside the file's entry, the header and
    the file's data. *)
Record buffer_ok (s : kstate) (id loc : Z) (data : list Z) (buf n : Z) : Prop := {
  bo_valid : valid_range (k_mem s) buf n;
  bo_range : 0 <= buf /\ buf + n < 2 ^ 64;
  bo_entry : buf + n <= first_file (k_rdfs s) + 96 * id \/ first_file (k_rdfs s) + 96 * id + 96 <= buf;
  bo_header : buf + n <= rdfs_start (k_rdfs s) \/ rdfs_start (k_rdfs s) + 96 <= buf;
  bo_data : buf + n <= loc \/ loc + Z.of_nat (length data) <= buf }.

Lemma data_location_run s id loc data : file_at s id loc data ->
  dir_entry id s = Ok (first_file (k_rdfs s) + 96 * id) s
  /\ DATA_LOCATION (first_file (k_rdfs s) + 96 * id) s = Ok loc s
  /\ ent_data_entry_size (first_file (k_rdfs s) + 96 * id) s = Ok (Z.of_nat (length data)) s.
Proof.
  intros [E S (dir & off & Ld & Lo & ->) Sz B D]. split; [|split].
  - unfold dir_entry, get_rdfs. rewrite bind_get. unfold ptr_add, SIZEOF_ENTRY. by rewrite u64_small by lia.
  - unfold DATA_LOCATION, get_rdfs. rewrite bind_get. unfold hdr_file_directory_size, ent_data_block_offset, ptr_add. uw.
    rewrite (bind_ok _ _ _ _ _ (load64_ok _ _ _ Ld)), (bind_ok _ _ _ _ _ (load64_ok _ _ _ Lo)).
    unfold SIZEOF_HEADER. by rewrite u64_small by lia.
  - unfold ent_data_entry_size, ptr_add. uw. by apply load64_ok.
Qed.

(** The memory after the bytes [l] were written at [a]. *)
Definition wrote (m m' : mem) (a : Z) (l : list Z) : Prop :=
  (forall i b, l !! i = Some b -> ld8 m' (a + Z.of_nat i) = Some b)
  /\ same_on (fun x => x < a \/ a + Z.of_nat (length l) <= x) m m' /\ m_valid m' = m_valid m.

Lemma rdfs_read_run s f loc data buf size :
  file_at s (file_id f) loc data -> 0 <= index f <= Z.of_nat (length data) -> 0 < size < 2 ^ 63 ->
  buffer_ok s (file_id f) loc data buf size ->
  let chunk := take (Z.to_nat size) (drop (Z.to_nat (index f)) data) in
  exists m, rdfs_read_file f buf size s
      = Ok (Z.of_nat (length chunk), File (file_id f) (index f + Z.of_nat (length chunk)) (f_flags f)) (with_mem m s)
    /\ wrote (k_mem s) m buf chunk.
Proof.
  intros FA Hi Hs BO chunk. destruct (data_location_run s (file_id f) loc data FA) as (R1 & R2 & R3).
  pose proof (fa_bounds _ _ _ _ FA) as B. destruct BO as [BV BR BE BH BD].
  assert (Lc : Z.of_nat (length chunk) = Z.min size (Z.of_nat (length data) - index f)).
  { unfold chunk. rewrite length_take, length_drop. lia. }
  unfold rdfs_read_file. rewrite (bind_ok _ _ _ _ _ R1), (bind_ok _ _ _ _ _ R2), (bind_ok _ _ _ _ _ R3). cbv zeta.
  rewrite u64_small by lia. destruct (Z.eqb_spec (Z.of_nat (length data) - index f) 0) as [E0|N0].
  - exists (k_mem s). replace (length chunk) with 0%nat by lia. rewrite Z.add_0_r. split.
    + destruct f, s. reflexivity.
    + split; [|split; [apply same_on_refl|done]]. intros i b Hb. apply lookup_lt_Some in Hb. lia.
  - replace (if _ <? size then _ else size) with (Z.of_nat (length chunk)).
    2: { rewrite Lc. destruct (Z.ltb_spec (Z.of_nat (length data) - index f) size); lia. }
    unfold ptr_add. uw.
    destruct (memcpy_run s buf (loc + index f) (Z.of_nat (length chunk))) as (m & R & C & F & V);
      [lia| |intros a Ha; apply BV; lia|lia|lia|lia|lia|lia|].
    { intros a Ha. assert (Hl : is_Some (data !! Z.to_nat (a - loc))) by (apply lookup_lt_is_Some_2; lia).
      destruct Hl as [b Hb]. apply (fa_data _ _ _ _ FA) in Hb. replace (loc + Z.of_nat (Z.to_nat (a - loc))) with a in Hb by lia.
      unfold ld8 in Hb. by destruct (m_valid (k_mem s) a). }
    exists m. rewrite (bind_ok _ _ _ _ _ R). split; [done|]. split; [|done].
    intros i b Hb. pose proof (lookup_lt_Some _ _ _ Hb) as Hlt. rewrite C by lia. unfold chunk in Hb.
    rewrite lookup_take in Hb. destruct (decide _) in Hb; [|done]. rewrite lookup_drop in Hb.
    apply (fa_data _ _ _ _ FA) in Hb. rewrite <- Hb. f_equal. lia.
Qed.

(** ** Reading a whole file *)

Definition get_bytes (n a : Z) : K (list Z) := fun s =>
  match ldbytes (Z.to_nat n) (k_mem s) a with Some l => Ok l s | None => Err (BadAccess a) end.

(** Reads of [size] bytes into the same buffer until one returns 0, as [main]
    does with [size] 1; the bytes found in the buffer, in order. *)
Fixpoint read_chunks (fuel : nat) (f : file_t) (buf size : Z) : K (list Z) :=
  match fuel with
  | O => fail OutOfFuel
  | S fuel =>
      r ← rdfs_read_file f buf size;
      let '(n, f') := (r : Z * file_t) in
      if n =? 0 then mret []
      else bytes ← get_bytes n buf; rest ← read_chunks fuel f' buf size; mret (bytes ++ rest)
  end.

Lemma ldbytes_of l : forall m a, (forall i b, l !! i = Some b -> ld8 m (a + Z.of_nat i) = Some b) -> ldbytes (length l) m a = Some l.
Proof.
  induction l as [|x l IH]; intros m a H; [done|]. cbn [length ldbytes].
  pose proof (H 0%nat x eq_refl) as H0. rewrite Z.add_0_r in H0. rewrite H0. cbn [mbind option_bind].
  rewrite IH; [done|]. intros i b Hb. rewrite <- (H (S i) b Hb). f_equal. lia.
Qed.

Lemma take_self n (l : list Z) : take n l = take (length (take n l)) l.
Proof.
  rewrite length_take. destruct (Nat.le_ge_cases n (length l)); [by rewrite Nat.min_l|].
  rewrite Nat.min_r, !take_ge by lia. done.
Qed.

Lemma wrote_file s m id loc data buf n l : file_at s id loc data -> buffer_ok s id loc data buf n ->
  Z.of_nat (length l) <= n -> wrote (k_mem s) m buf l ->
  file_at (with_mem m s) id loc data /\ buffer_ok (with_mem m s) id loc data buf n.
Proof.
  intros [E S (dir & off & Ld & Lo & El) Sz B D] [BV BR BE BH BD] Hl (_ & F & V).
  assert (Same : forall a k, (a + Z.of_nat k <= buf \/ buf + n <= a) -> ldn k m a = ldn k (k_mem s) a).
  { intros a k Ha. apply ldn_ext. intros i Hi. apply F. lia. }
  split; split; cbn [k_rdfs k_mem with_mem]; try done.
  - exists dir, off. rewrite !Same by lia. done.
  - rewrite Same by lia. done.
  - intros i b Hb. pose proof (lookup_lt_Some _ _ _ Hb). rewrite (F (loc + Z.of_nat i)) by lia. by apply D.
  - intros a Ha. rewrite V. by apply BV.
Qed.

Lemma read_chunks_run fuel : forall s f loc data buf size,
  file_at s (file_id f) loc data -> 0 <= index f <= Z.of_nat (length data) -> 0 < size < 2 ^ 63 ->
  buffer_ok s (file_id f) loc data buf size -> Z.of_nat (length data) - index f < Z.of_nat fuel ->
  exists s', read_chunks fuel f buf size s = Ok (drop (Z.to_nat (index f)) data) s'.
Proof.
  induction fuel as [|fuel IH]; intros s f loc data buf size FA Hi Hs BO Hf; [lia|]. cbn [read_chunks].
  destruct (rdfs_read_run s f loc data buf size FA Hi Hs BO) as (m & R & Wr). set (chunk := take _ (drop _ data)) in *.
  rewrite (bind_ok _ _ _ _ _ R). cbv beta iota.
  assert (Lc : Z.of_nat (length chunk) = Z.min size (Z.of_nat (length data) - index f)).
  { unfold chunk. rewrite length_take, length_drop. lia. }
  destruct (Z.eqb_spec (Z.of_nat (length chunk)) 0) as [E0|N0].
  - assert (Hend : (length data <= Z.to_nat (index f))%nat) by lia.
    exists (with_mem m s). by rewrite drop_ge.
  - assert (Hle : Z.of_nat (length chunk) <= size) by lia.
    destruct (wrote_file s m _ _ _ _ _ _ FA BO Hle Wr) as [FA' BO'].
    assert (G : get_bytes (Z.of_nat (length chunk)) buf (with_mem m s) = Ok chunk (with_mem m s)).
    { unfold get_bytes. rewrite Nat2Z.id. cbn [k_mem with_mem]. by rewrite (ldbytes_of chunk m buf) by apply Wr. }
    rewrite (bind_ok _ _ _ _ _ G).
    destruct (IH (with_mem m s) (File (file_id f) (index f + Z.of_nat (length chunk)) (f_flags f)) loc data buf size) as (s' & R');
      cbn [file_id index]; [done|lia|done|done|lia|].
    exists s'. rewrite (bind_ok _ _ _ _ _ R'). f_equal. cbn [index].
    replace (Z.to_nat (index f + Z.of_nat (length chunk))) with (Z.to_nat (index f) + length chunk)%nat by lia.
    rewrite <- drop_drop. rewrite <- (take_drop (length chunk) (drop (Z.to_nat (index f)) data)) at 2. f_equal.
    apply take_self.
Qed.

(** ** Looking a name up *)

(** [ids] is stored at [lst]; every file of it has its name in the image. *)
Definition named_list (s : kstate) (lst : Z) (ids : list Z) (names : Z -> list Z) : Prop :=
  0 <= lst /\ lst + 8 * Z.of_nat (length ids) < 2 ^ 64
  /\ forall i id, ids !! i = Some id -> ldn 8 (k_mem s) (lst + 8 * Z.of_nat i) = Some id
     /\ 0 <= first_file (k_rdfs s) + 96 * id
     /\ first_file (k_rdfs s) + 96 * id + 9 + Z.of_nat (length (names id)) < 2 ^ 64
     /\ cstr (k_mem s) (first_file (k_rdfs s) + 96 * id + 9) (names id).

Lemma lookup_step s lst ids names filename target i id :
  named_list s lst ids names -> cstr (k_mem s) filename target -> 0 <= filename -> filename + Z.of_nat (length target) < 2 ^ 64 ->
  ids !! i = Some id ->
  rdfs_get_file_id_body lst (Z.of_nat (length ids)) filename (Z.of_nat i) s
  = Ok (if bool_decide (names id = target) then inr (Some id) else inl (Z.of_nat i + 1)) s.
Proof.
  intros (L0 & L1 & HN) Ct F0 F1 Ei. pose proof (lookup_lt_Some _ _ _ Ei) as Hi.
  destruct (HN i id Ei) as (Ld & E0 & E1 & Cn). unfold rdfs_get_file_id_body. decb.
  assert (R : load64 (ptr_add lst (8 * Z.of_nat i)) s = Ok id s) by (unfold ptr_add; uw; by apply load64_ok).
  rewrite (bind_ok _ _ _ _ _ R). unfold dir_entry, get_rdfs. rewrite bind_assoc, bind_get, bind_ret.
  unfold ent_filename, ptr_add, SIZEOF_ENTRY. uw.
  destruct (strcmp_run s (first_file (k_rdfs s) + 96 * id + 9) filename (names id) target) as (r & Rs & Hr); [done|done|lia|lia|done|done|].
  rewrite (bind_ok _ _ _ _ _ Rs). destruct (Z.eqb_spec r 0) as [E|N].
  - rewrite bool_decide_eq_true_2 by (by apply Hr). unfold ptr_add in R. rewrite u64_small in R by lia.
    by rewrite (bind_ok _ _ _ _ _ R).
  - rewrite bool_decide_eq_false_2; [done|]. intros E. apply N, Hr, E.
Qed.

Lemma lookup_run s lst ids names filename target :
  named_list s lst ids names -> cstr (k_mem s) filename target -> 0 <= filename -> filename + Z.of_nat (length target) < 2 ^ 64 ->
  rdfs_get_file_id_from_list_and_name lst (Z.of_nat (length ids)) filename s
  = Ok (snd <$> list_find (fun id => names id = target) ids) s.
Proof.
  intros HN Ct F0 F1. unfold rdfs_get_file_id_from_list_and_name.
  assert (Hlen : Z.of_nat (length ids) < 2 ^ 64) by (destruct HN; lia).
  assert (Skip : forall n, (n <= length ids)%nat -> (forall i id, ids !! i = Some id -> (i < n)%nat -> names id <> target) ->
    forall j, 0 <= j < Z.of_nat n -> rdfs_get_file_id_body lst (Z.of_nat (length ids)) filename j s = Ok (inl (j + 1)) s).
  { intros n Hn H j Hj. destruct (lookup_lt_is_Some_2 ids (Z.to_nat j)) as [id Ei]; [lia|].
    pose proof (lookup_step s lst ids names filename target _ id HN Ct F0 F1 Ei) as R. rewrite Z2Nat.id in R by lia. rewrite R.
    rewrite bool_decide_eq_false_2; [done|]. eapply H; [exact Ei|lia]. }
  destruct (list_find _ ids) as [[i id]|] eqn:E.
  - apply list_find_Some in E as (Ei & Hm & Hlow). pose proof (lookup_lt_Some _ _ _ Ei).
    apply (search_first _ _ _ _ (Z.of_nat i)); [lia|apply Skip; [lia|]; intros k x Ek Hk; by eapply Hlow|].
    rewrite (lookup_step s lst ids names filename target i id HN Ct F0 F1 Ei). by rewrite bool_decide_eq_true_2.
  - apply list_find_None in E. rewrite Forall_lookup in E.
    apply (search_first _ _ _ _ (Z.of_nat (length ids))); [lia|apply Skip; [lia|]; intros k x Ek _; by eapply E|].
    unfold rdfs_get_file_id_body. by rewrite Z.ltb_irrefl.
Qed.

(** ** Properties *)

(** One read returns the bytes of the file from its index on, at most [size]
    of them, writes them and nothing else, and advances the index by their
    number. *)
Theorem rdfs_read_file_correct s f loc data buf size :
  file_at s (file_id f) loc data -> 0 <= index f <= Z.of_nat (length data) -> 0 < size < 2 ^ 63 ->
  buffer_ok s (file_id f) loc data buf size ->
  let chunk := take (Z.to_nat size) (drop (Z.to_nat (index f)) data) in
  exists m, rdfs_read_file f buf size s
      = Ok (Z.of_nat (length chunk), File (file_id f) (index f + Z.of_nat (length chunk)) (f_flags f)) (with_mem m s)
    /\ wrote (k_mem s) m buf chunk.
Proof. apply rdfs_read_run. Qed.

(** Reading a file piece by piece until a read returns 0 terminates and
    yields the whole content, whatever the size of the pieces. *)
Theorem rdfs_read_until_end fuel s id loc data flags buf size :
  file_at s id loc data -> 0 < size < 2 ^ 63 -> buffer_ok s id loc data buf size ->
  Z.of_nat (length data) < Z.of_nat fuel ->
  exists s', read_chunks fuel (rdfs_open_file_id id flags) buf size s = Ok data s'.
Proof.
  intros FA Hs BO Hf. apply (read_chunks_run fuel s (rdfs_open_file_id id flags) loc data buf size FA); cbn; [lia|done|done|lia].
Qed.

(** The lookup of a name in a directory's list of ids returns the first id
    whose file has that name, and fails when there is none. *)
Theorem rdfs_lookup_finds_first s lst ids names filename target :
  named_list s lst ids names -> cstr (k_mem s) filename target -> 0 <= filename -> filename + Z.of_nat (length target) < 2 ^ 64 ->
  rdfs_get_file_id_from_list_and_name lst (Z.of_nat (length ids)) filename s
  = Ok (snd <$> list_find (fun id => names id = target) ids) s.
Proof. apply lookup_run. Qed.

(** ** Concrete instances *)

(** An image at 4096 with one file, named "a", of the two bytes "Hi". *)
Definition image_state : kstate :=
  with_rdfs (RdfsGlobals 4096 4192 1)
    (boot_state (fun a => (4096 <=? a) && (a <? 16384))
       (list_to_map [(4176, 96); (4280, 2); (4288, 72); (4289, 105); (4201, 97); (8300, 97)]) 1).

Lemma image_file : file_at image_state 0 4288 [72; 105].
Proof.
  split; [cbn; lia|cbn; lia|exists 96, 0; repeat split; vm_compute; reflexivity|vm_compute; reflexivity|cbn; lia|].
  intros [|[|i]] b H; [injection H as <-; reflexivity..|done].
Qed.
Lemma image_buffer : buffer_ok image_state 0 4288 [72; 105] 8400 1.
Proof.
  split; [intros a Ha; cbn [k_mem image_state with_rdfs boot_state m_valid]; lia|lia|cbn; lia|cbn; lia|cbn; lia].
Qed.

Lemma rdfs_read_file_correct_witness :
  exists m, rdfs_read_file (File 0 1 0) 8400 1 image_state = Ok (1, File 0 (1 + 1) 0) (with_mem m image_state)
    /\ wrote (k_mem image_state) m 8400 [105].
Proof.
  apply (rdfs_read_file_correct image_state (File 0 1 0) 4288 [72; 105] 8400 1 image_file); [cbn; lia|lia|apply image_buffer].
Defined.

Lemma rdfs_read_until_end_witness :
  exists s', read_chunks 3 (rdfs_open_file_id 0 0) 8400 1 image_state = Ok [72; 105] s'.
Proof. apply (rdfs_read_until_end 3 image_state 0 4288 [72; 105] 0 8400 1 image_file); [lia|apply image_buffer|cbn; lia]. Defined.

Lemma rdfs_lookup_finds_first_witness :
  rdfs_get_file_id_from_list_and_name 8192 1 8300 image_state = Ok (Some 0) image_state.
Proof.
  apply (rdfs_lookup_finds_first image_state 8192 [0] (fun _ => [97]) 8300 [97]); [|vm_compute; repeat split; reflexivity|lia|cbn; lia].
  split; [lia|]. split; [cbn; lia|]. intros [|i] id H; [|done]. injection H as <-.
  split; [vm_compute; reflexivity|]. split; [cbn; lia|]. split; [cbn; lia|]. vm_compute. repeat split; reflexivity.
Defined.
