(* ===== verification/Path.v ===== *)
(** * Paths in the ramdisk (src/fs/rdfs/rdfs.c)

    The abstract image: the name of each file and the ids each directory lists.
    [walk] resolves the components of a path in it.  The resolution of the code,
    which takes a copy of each name and of each directory from the heap, does
    the same and gives the memory back when it succeeds. *)

From S2P Require Export HeapFront Rdfs.

(** ** Strings in memory *)

Lemma cstr_app m l : forall a r, cstr m a (l ++ r) -> cstr m (a + Z.of_nat (length l)) r.
Proof.
  induction l as [|c l IH]; intros a r C; cbn [app length] in *; [by rewrite Z.add_0_r|].
  destruct C as (_ & _ & C). replace (a + Z.of_nat (S (length l))) with (a + 1 + Z.of_nat (length l)) by lia. by apply IH.
Qed.
Lemma cstr_at m l : forall a i c, cstr m a l -> l !! i = Some c -> ld8 m (a + Z.of_nat i) = Some c.
Proof.
  induction l as [|x l IH]; intros a [|i] c C E; try done; destruct C as (_ & C1 & C2).
  - injection E as <-. by rewrite Z.add_0_r.
  - replace (a + Z.of_nat (S i)) with (a + 1 + Z.of_nat i) by lia. by apply IH.
Qed.
Lemma cstr_end m l : forall a, cstr m a l -> ld8 m (a + Z.of_nat (length l)) = Some 0.
Proof.
  induction l as [|x l IH]; intros a C; cbn [length] in *; [by rewrite Z.add_0_r|]. destruct C as (_ & _ & C).
  replace (a + Z.of_nat (S (length l))) with (a + 1 + Z.of_nat (length l)) by lia. by apply IH.
Qed.
Lemma cstr_intro m l : forall a, Forall (fun c => 0 < c < 2 ^ 8) l -> (forall i c, l !! i = Some c -> ld8 m (a + Z.of_nat i) = Some c) ->
  ld8 m (a + Z.of_nat (length l)) = Some 0 -> cstr m a l.
Proof.
  induction l as [|x l IH]; intros a F H E; cbn [length cstr] in *; [by rewrite Z.add_0_r in E|].
  apply Forall_cons in F as [Hx F]. split; [done|].
  split; [pose proof (H 0%nat x eq_refl) as H0; by rewrite Z.add_0_r in H0|]. apply IH; [done| |].
  - intros i c Ei. replace (a + 1 + Z.of_nat i) with (a + Z.of_nat (S i)) by lia. by apply H.
  - rewrite <- E. f_equal. lia.
Qed.
Lemma ld8_mapped m a c : ld8 m a = Some c -> m_valid m a = true.
Proof. unfold ld8. by destruct (m_valid m a). Qed.
Lemma cstr_mapped m l a : cstr m a l -> valid_range m a (Z.of_nat (length l) + 1).
Proof.
  intros C x Hx. destruct (Z.eq_dec x (a + Z.of_nat (length l))) as [->|N]; [by eapply ld8_mapped, cstr_end|].
  destruct (lookup_lt_is_Some_2 l (Z.to_nat (x - a))) as [c Ec]; [lia|]. pose proof (cstr_at _ _ _ _ _ C Ec) as L.
  replace (a + Z.of_nat (Z.to_nat (x - a))) with x in L by lia. by eapply ld8_mapped.
Qed.

(** ** The abstract image and the resolution of a path *)

Record image := Image { im_names : Z -> list Z; im_dirs : Z -> option (list Z) }.

(** The components of a path after its first character: a slash ends a
    component, and so does the end of a non-empty one. *)
Fixpoint components (cur : list Z) (l : list Z) : list (list Z) :=
  match l with
  | [] => match cur with [] => [] | _ => [cur] end
  | c :: l => if c =? 47 then cur :: components [] l else components (cur ++ [c]) l
  end.

Inductive walk_result :=
  | Found (id : Z)
  | Missing (leaked : Z)
  | NotADirectory.

(** The bytes a failed component leaves allocated: its name and the directory. *)
Definition step_bytes (name ids : list Z) : Z := Z.of_nat (length name) + 9 + (8 * Z.of_nat (length ids) + 8).

Fixpoint walk (im : image) (id : Z) (path : list (list Z)) : walk_result :=
  match path with
  | [] => Found id
  | name :: path =>
      match im_dirs im id with
      | None => NotADirectory
      | Some ids =>
          match list_find (fun k => im_names im k = name) ids with
          | Some (_, k) => walk im k path
          | None => Missing (step_bytes name ids)
          end
      end
  end.

(** The components a path may have: not empty, shorter than the 16-bit counter,
    and their copy and that of a directory leave room for a free block. *)
Definition path_fits (im : image) (n : Z) (path : list (list Z)) : Prop :=
  Forall (fun c => c <> [] /\ Z.of_nat (length c) + 1 < 2 ^ 16
    /\ forall id ids, im_dirs im id = Some ids -> step_bytes c ids + 24 <= n) path.

Lemma components_last c : forall cur, Forall (fun x => x <> 47) c -> components cur c = match cur ++ c with [] => [] | l => [l] end.
Proof.
  induction c as [|x c IH]; intros cur H; cbn [components]; [rewrite app_nil_r; by destruct cur|].
  apply Forall_cons in H as [Hx H]. rewrite (proj2 (Z.eqb_neq x 47) Hx), IH, <- app_assoc by done. done.
Qed.
Lemma components_slash c r : forall cur, Forall (fun x => x <> 47) c -> components cur (c ++ 47 :: r) = (cur ++ c) :: components [] r.
Proof.
  induction c as [|x c IH]; intros cur H; cbn [components app]; [by rewrite app_nil_r|].
  apply Forall_cons in H as [Hx H]. by rewrite (proj2 (Z.eqb_neq x 47) Hx), IH, <- app_assoc.
Qed.
Lemma split_component l : exists c r, l = c ++ r /\ Forall (fun x => x <> 47) c /\ (r = [] \/ exists r', r = 47 :: r').
Proof.
  induction l as [|x l (c & r & -> & Hc & Hr)]; [exists [], []; auto|]. destruct (Z.eq_dec x 47) as [->|N].
  - exists [], (47 :: c ++ r). eauto.
  - exists (x :: c), r. auto.
Qed.

(** The image is in the memory, all of it between [lo] and [hi]. *)
Record image_at (m : mem) (g : rdfs_globals) (im : image) (lo hi : Z) : Prop := {
  ia_range : 0 <= lo /\ hi < 2 ^ 64;
  ia_header : lo <= rdfs_start g /\ rdfs_start g + 96 <= hi;
  ia_dir : forall id ids, im_dirs im id = Some ids -> exists dir off,
    lo <= first_file g + 96 * id /\ first_file g + 96 * id + 96 <= hi
    /\ ldn 8 m (rdfs_start g + 80) = Some dir /\ ldn 8 m (first_file g + 96 * id + 80) = Some off
    /\ ldn 8 m (first_file g + 96 * id + 88) = Some (8 * Z.of_nat (length ids))
    /\ lo <= rdfs_start g + dir + off + 96 /\ rdfs_start g + dir + off + 96 + 8 * Z.of_nat (length ids) <= hi
    /\ forall i c, ids !! i = Some c -> ldn 8 m (rdfs_start g + dir + off + 96 + 8 * Z.of_nat i) = Some c;
  ia_name : forall id ids c, im_dirs im id = Some ids -> c ∈ ids ->
    lo <= first_file g + 96 * c /\ first_file g + 96 * c + 9 + Z.of_nat (length (im_names im c)) < hi
    /\ cstr m (first_file g + 96 * c + 9) (im_names im c) }.

Lemma image_same m m' g im lo hi (P : Z -> Prop) : image_at m g im lo hi -> same_on P m m' -> (forall a, lo <= a < hi -> P a) ->
  image_at m' g im lo hi.
Proof.
  intros [R H D N] S HP.
  assert (Same : forall a, lo <= a -> a + 8 <= hi -> ldn 8 m' a = ldn 8 m a) by (intros a Ha Hb; apply ldn_ext; intros i Hi; apply S, HP; lia).
  split; [done|done| |].
  - intros id ids E. destruct (D id ids E) as (dir & off & E1 & E2 & L1 & L2 & L3 & B1 & B2 & L4). exists dir, off.
    rewrite !Same by lia. do 7 (split; [done|]). intros i c Ei. pose proof (lookup_lt_Some _ _ _ Ei). rewrite Same by lia. by apply L4.
  - intros id ids c E Hc. destruct (N id ids c E Hc) as (N1 & N2 & N3). split; [done|]. split; [done|].
    eapply cstr_same; [exact S| |done]. intros x Hx. apply HP. lia.
Qed.

(** ** Taking a copy of a directory *)

Definition copy_word_body (file_ids file_list list_size : Z) (i : Z) : K (Z + unit) :=
  if i <? list_size then
    v ← load64 (ptr_add file_ids (8 * i));
    _ ← store64 (ptr_add file_list (8 * i)) v;
    mret (inl (u64 (i + 1)))
  else mret (inr tt).

Lemma copy_words s f src dst ids k : forall m i,
  (i + k = length ids)%nat -> (forall j c, ids !! j = Some c -> ldn 8 m (src + 8 * Z.of_nat j) = Some c) ->
  valid_range m dst (8 * Z.of_nat (length ids)) -> 0 <= src -> src + 8 * Z.of_nat (length ids) < 2 ^ 64 ->
  0 <= dst -> dst + 8 * Z.of_nat (length ids) < 2 ^ 64 ->
  src + 8 * Z.of_nat (length ids) <= dst \/ dst + 8 * Z.of_nat (length ids) <= src ->
  (forall j c, (j < i)%nat -> ids !! j = Some c -> ldn 8 m (dst + 8 * Z.of_nat j) = Some c) ->
  exists m', loops (copy_word_body src dst (Z.of_nat (length ids))) (S k) (Z.of_nat i) (hstate m f s) tt (hstate m' f s)
    /\ (forall j c, ids !! j = Some c -> ldn 8 m' (dst + 8 * Z.of_nat j) = Some c)
    /\ same_on (fun a => a < dst \/ dst + 8 * Z.of_nat (length ids) <= a) m m' /\ m_valid m' = m_valid m.
Proof.
  induction k as [|k IH]; intros m i Hk HS V S0 S1 D0 D1 Dj HD.
  - exists m. split; [|split; [|split; [apply same_on_refl|done]]].
    + apply loops_done. unfold copy_word_body. replace (Z.of_nat i <? Z.of_nat (length ids)) with false by lia. done.
    + intros j c E. apply HD; [|done]. pose proof (lookup_lt_Some _ _ _ E). lia.
  - destruct (lookup_lt_is_Some_2 ids i) as [v Ev]; [lia|]. pose proof (HS i v Ev) as Lv.
    destruct (stn_ok 8 m (dst + 8 * Z.of_nat i) v) as [m1 E1]; [range_tac|].
    assert (Other : forall a, a + 8 <= dst + 8 * Z.of_nat i \/ dst + 8 * Z.of_nat i + 8 <= a -> ldn 8 m1 a = ldn 8 m a).
    { intros a Ha. apply (ldn_stn_other 8 8 _ _ _ _ a E1). lia. }
    destruct (IH m1 (S i)) as (m' & L & C & F & Vm); [lia| |by eapply valid_range_stn|done..| |].
    { intros j c E. pose proof (lookup_lt_Some _ _ _ E). rewrite Other by lia. by apply HS. }
    { intros j c Hj E. destruct (Nat.eq_dec j i) as [->|N]; [|rewrite Other by lia; apply HD; [lia|done]].
      rewrite Ev in E. injection E as <-. apply (ld64_st64_same _ _ _ _ E1). by eapply ld64_range. }
    exists m'. split; [|split; [done|split; [|by rewrite Vm; eapply stn_valid_eq]]].
    + eapply loops_step; [|exact L]. unfold copy_word_body. replace (Z.of_nat i <? Z.of_nat (length ids)) with true by lia.
      unfold ptr_add. uw. rewrite (bind_ok _ _ _ _ _ (load64_ok (hstate m f s) _ _ Lv)), (bind_ok _ _ _ _ _ (hstate_store s m f _ _ _ E1)).
      by replace (Z.of_nat (S i)) with (Z.of_nat i + 1) by lia.
    + eapply same_on_trans; [|exact F]. eapply same_on_stn; [exact E1|]. cbn. lia.
Qed.

Section resolve.
Context (s : kstate) (im : image) (lo hi nx : Z).
Let g : rdfs_globals := k_rdfs s.

(** What holds while a path is resolved: the image, and [n] free bytes at [p],
    away from it. *)
Record ready (m : mem) (p n : Z) : Prop := {
  rd_image : image_at m g im lo hi;
  rd_front : front m p nx n;
  rd_apart : forall a, lo <= a < hi -> beyond p nx n a }.

Lemma ready_step m p n size m' : ready m p n -> same_on (beyond p nx n) m m' -> 0 <= size ->
  front m' (p + size) nx (n - size) -> ready m' (p + size) (n - size).
Proof.
  intros [I F A] S H0 F'. split; [eapply image_same; [exact I|exact S|exact A]|done|].
  intros a Ha. specialize (A a Ha). unfold beyond in *. lia.
Qed.

Lemma get_file_list_run m p n id ids : ready m p n -> im_dirs im id = Some ids -> 8 * Z.of_nat (length ids) + 32 <= n ->
  exists m', let k := 8 * Z.of_nat (length ids) in
    rdfs_get_file_list_from_dir_id id (hstate m p s) = Ok (p + 8, Z.of_nat (length ids)) (hstate m' (p + (k + 8)) s)
    /\ ldn 8 m' p = Some k /\ named_list (hstate m' (p + (k + 8)) s) (p + 8) ids (im_names im)
    /\ front m' (p + (k + 8)) nx (n - (k + 8)) /\ same_on (beyond p nx n) m m' /\ m_valid m' = m_valid m.
Proof.
  intros [I F A] E Hn. destruct (ia_range _ _ _ _ _ I) as [R0 R1]. destruct (ia_header _ _ _ _ _ I) as [H0 H1].
  destruct (ia_dir _ _ _ _ _ I id ids E) as (dir & off & E1 & E2 & L1 & L2 & L3 & B1 & B2 & L4).
  set (k := 8 * Z.of_nat (length ids)) in *. pose proof (fr_fits _ _ _ _ F) as [_ Fn]. pose proof (fr_pos _ _ _ _ F).
  destruct (kmalloc_front s m p nx n k F) as (m1 & R & Lk & F1 & S1 & V1); [lia|lia|].
  pose proof (image_same _ m1 _ _ _ _ _ I S1 A) as I1. destruct (ia_dir _ _ _ _ _ I1 id ids E) as (dir' & off' & _ & _ & L1' & L2' & _ & _ & _ & L4').
  assert (dir' = dir /\ off' = off) as [-> ->].
  { assert (Same : forall a, lo <= a -> a + 8 <= hi -> ldn 8 m1 a = ldn 8 m a) by (intros a Ha Hb; apply ldn_ext; intros i Hi; apply S1, A; lia).
    rewrite Same in L1', L2' by lia. rewrite L1 in L1'. rewrite L2 in L2'. by injection L1' as <-; injection L2' as <-. }
  set (src := rdfs_start g + dir + off + 96) in *.
  assert (Dj : k <= 0 \/ src + k <= p \/ p + n <= src).
  { destruct (Z_lt_le_dec k 1); [lia|right]. pose proof (A src ltac:(lia)) as A1. pose proof (A (src + k - 1) ltac:(lia)) as A2.
    destruct (Z_le_gt_dec (p + n) src); [by right|]. left. unfold beyond in A1, A2.
    destruct (Z_lt_le_dec (src + k - 1) p); [lia|]. pose proof (A (Z.max p src) ltac:(lia)) as A3. unfold beyond in A3. lia. }
  destruct (copy_words s (p + (k + 8)) src (p + 8) ids (length ids) m1 0) as (m2 & L & C & S2 & V2);
    [lia|done|intros a Ha; rewrite V1; apply F; lia|lia|lia|lia|lia|lia|intros j c Hj; lia|].
  assert (Sall : same_on (beyond p nx n) m m2).
  { eapply same_on_trans; [exact S1|]. eapply same_on_weaken; [|exact S2]. unfold beyond. intros a Ha. lia. }
  pose proof (image_same _ m2 _ _ _ _ _ I Sall A) as I2.
  assert (Keep : forall a, a + 8 <= p + 8 \/ p + 8 + k <= a -> ldn 8 m2 a = ldn 8 m1 a) by (intros a Ha; apply ldn_ext; intros i Hi; apply S2; lia).
  exists m2. cbv zeta. split; [|split; [rewrite Keep by lia; done|split; [|split; [|split; [done|by rewrite V2]]]]].
  - unfold rdfs_get_file_list_from_dir_id, dir_entry, get_rdfs, ent_data_entry_size, ptr_add, SIZEOF_ENTRY. rewrite bind_assoc, bind_get, bind_ret.
    cbn [k_rdfs hstate with_mem with_first_free with_heap]. fold g. uw.
    rewrite (bind_ok _ _ _ _ _ (load64_ok (hstate m p s) _ _ L3)). cbv zeta.
    replace (k / 8) with (Z.of_nat (length ids)) by (unfold k; Z.to_euclidean_division_equations; lia).
    rewrite u64_small by lia. replace (Z.of_nat (length ids) * 8) with k by lia. rewrite (bind_ok _ _ _ _ _ R).
    assert (DL : DATA_LOCATION (first_file g + 96 * id) (hstate m1 (p + (k + 8)) s) = Ok src (hstate m1 (p + (k + 8)) s)).
    { unfold DATA_LOCATION, get_rdfs, hdr_file_directory_size, ent_data_block_offset, ptr_add, SIZEOF_HEADER. rewrite bind_get.
      cbn [k_rdfs hstate with_mem with_first_free with_heap]. fold g. uw.
      rewrite (bind_ok _ _ _ _ _ (load64_ok (hstate m1 _ s) _ _ L1')), (bind_ok _ _ _ _ _ (load64_ok (hstate m1 _ s) _ _ L2')).
      unfold src. uw. done. }
    rewrite (bind_ok _ _ _ _ _ DL). fold (copy_word_body src (p + 8) (Z.of_nat (length ids))).
    by rewrite (bind_ok _ _ _ _ _ (loops_loop _ _ _ _ _ _ L ltac:(lia))).
  - split; [lia|]. split; [lia|]. intros i c Ec. split; [by apply C|].
    destruct (ia_name _ _ _ _ _ I2 id ids c E) as (N1 & N2 & N3); [by eapply list_elem_of_lookup_2|].
    cbn [k_rdfs k_mem hstate with_mem with_first_free with_heap]. fold g. split; [lia|]. split; [lia|done].
  - apply (front_keep m1); [done|eapply same_on_weaken; [|exact S2]; intros a Ha; cbv beta; lia|done].
Qed.

Lemma component_length_run st a c r : cstr (k_mem st) a (c ++ r) -> 0 <= a -> a + Z.of_nat (length (c ++ r)) < 2 ^ 64 ->
  Forall (fun x => x <> 47) c -> r = [] \/ (exists r', r = 47 :: r') -> Z.of_nat (length c) < 2 ^ 16 ->
  component_length a st = Ok (Z.of_nat (length c)) st.
Proof.
  intros C A0 A1 Hc Hr Hl. rewrite length_app in A1. unfold component_length. apply (search_first _ _ _ _ (Z.of_nat (length c))); [lia| |].
  - intros j Hj. destruct (lookup_lt_is_Some_2 c (Z.to_nat j)) as [x Ex]; [lia|].
    assert (L : load8 (ptr_add a j) st = Ok x st).
    { apply load8_ok. unfold ptr_add. uw. rewrite <- (Z2Nat.id j) by lia. apply (cstr_at _ _ _ _ _ C). by apply lookup_app_l_Some. }
    pose proof (Forall_lookup_1 _ _ _ _ Hc Ex) as Hs. cbv beta in Hs.
    assert (Hx : 0 < x < 2 ^ 8) by (apply cstr_chars in C; apply Forall_app in C as [C _]; exact (Forall_lookup_1 _ _ _ _ C Ex)).
    rewrite (bind_ok _ _ _ _ _ L). replace (x =? 47) with false by lia. cbn [negb]. rewrite (bind_ok _ _ _ _ _ L).
    replace (x =? 0) with false by lia. cbn [negb]. by uw.
  - apply cstr_app in C. assert (L : exists x, load8 (ptr_add a (Z.of_nat (length c))) st = Ok x st /\ (x = 47 \/ x = 0)).
    { unfold ptr_add. rewrite u64_small by lia. destruct Hr as [->|[r' ->]]; [exists 0|exists 47]; (split; [|by auto]); apply load8_ok; [exact C|apply C]. }
    destruct L as (x & L & Hx). cbv beta. rewrite (bind_ok _ _ _ _ _ L). destruct Hx as [->| ->]; cbn [negb Z.eqb Pos.eqb]; [done|]. by rewrite (bind_ok _ _ _ _ _ L).
Qed.

(** The copy of a component, in a block of its own. *)
Lemma name_copy_run m p n a c r : ready m p n -> cstr m a (c ++ r) -> 0 <= a -> a + Z.of_nat (length (c ++ r)) < 2 ^ 64 ->
  (forall x, a <= x <= a + Z.of_nat (length (c ++ r)) -> beyond p nx n x) -> c <> [] ->
  let size := Z.of_nat (length c) + 1 in size + 32 <= n ->
  exists m', (forall B (k : Z -> K B),
      (next_filename ← kmalloc size; _ ← memcpy next_filename a (Z.of_nat (length c));
       _ ← store8 (ptr_add next_filename (Z.of_nat (length c))) 0; k next_filename) (hstate m p s)
      = k (p + 8) (hstate m' (p + (size + 8)) s))
    /\ ldn 8 m' p = Some size /\ cstr m' (p + 8) c /\ ready m' (p + (size + 8)) (n - (size + 8))
    /\ same_on (beyond p nx n) m m' /\ m_valid m' = m_valid m.
Proof.
  intros [I F A] C A0 A1 Ap Hc size Hn. rewrite length_app in *. pose proof (fr_fits _ _ _ _ F) as [_ Fn]. pose proof (fr_pos _ _ _ _ F).
  assert (Hl : (0 < length c)%nat) by (destruct c; [done|cbn; lia]).
  destruct (kmalloc_front s m p nx n size F) as (m1 & R & Lk & F1 & S1 & V1); [lia|lia|].
  assert (C1 : cstr m1 a (c ++ r)) by (eapply cstr_same; [exact S1| |exact C]; intros x Hx; rewrite length_app in Hx; apply Ap; lia).
  assert (Dj : a + Z.of_nat (length c) <= p \/ p + n <= a).
  { destruct (Z_le_gt_dec (p + n) a); [by right|]. pose proof (Ap (Z.max p a)) as P1. unfold beyond in P1. lia. }
  destruct (memcpy_run (hstate m1 (p + (size + 8)) s) (p + 8) a (Z.of_nat (length c))) as (m2 & R2 & Cp & S2 & V2);
    [lia| |intros x Hx; cbn; rewrite V1; apply F; lia|lia|lia|lia|lia|lia|].
  { intros x Hx. apply (cstr_mapped _ _ _ C1). rewrite length_app. lia. }
  cbn [k_mem hstate with_mem] in *. change (with_mem m2 (hstate m1 (p + (size + 8)) s)) with (hstate m2 (p + (size + 8)) s) in R2.
  destruct (stn_ok 1 m2 (p + 8 + Z.of_nat (length c)) 0) as [m3 E3]; [intros x Hx; rewrite V2, V1; apply F; lia|].
  assert (S3 : same_on (fun x => x < p + 8 \/ p + 8 + size <= x) m1 m3).
  { eapply same_on_trans; [eapply same_on_weaken; [|exact S2]; intros x Hx; cbv beta in *; lia|]. eapply same_on_stn; [exact E3|]. intros x Hx. cbn. lia. }
  assert (V3 : m_valid m3 = m_valid m) by (by rewrite (stn_valid_eq _ _ _ _ _ E3), V2).
  assert (Sall : same_on (beyond p nx n) m m3).
  { eapply same_on_trans; [exact S1|]. eapply same_on_weaken; [|exact S3]. unfold beyond. intros x Hx. lia. }
  assert (Keep : forall x, x + 8 <= p + 8 \/ p + 8 + size <= x -> ldn 8 m3 x = ldn 8 m1 x) by (intros x Hx; apply ldn_ext; intros i Hi; apply S3; lia).
  exists m3. split; [|split; [by rewrite Keep by lia|split; [|split; [|split; [done|done]]]]].
  - intros B k. rewrite (bind_ok _ _ _ _ _ R), (bind_ok _ _ _ _ _ R2). unfold ptr_add. uw.
    rewrite (bind_ok _ _ _ tt (hstate m3 (p + (size + 8)) s)); [done|]. unfold store8, storen. cbn [k_mem hstate with_mem]. by rewrite E3.
  - apply cstr_intro.
    + apply cstr_chars in C. by apply Forall_app in C as [C _].
    + intros i x Ex. pose proof (lookup_lt_Some _ _ _ Ex). rewrite (ld8_stn_other _ _ _ _ _ _ E3) by lia. rewrite Cp by lia.
      apply (cstr_at _ _ _ _ _ C1). by apply lookup_app_l_Some.
    + pose proof (ldn_stn_same _ _ _ _ _ E3) as L. unfold ldn in L. rewrite Zmod_0_l in L.
      destruct (ld8 m3 (p + 8 + Z.of_nat (length c))) as [x|]; [|done]. cbn [mbind option_bind] in L. rewrite Z.mul_0_r, Z.add_0_r in L. done.
  - apply (ready_step m p n (size + 8)); [by split|exact Sall|lia|].
    apply (front_keep m1); [done|eapply same_on_weaken; [|exact S3]; intros x Hx; cbv beta; lia|by rewrite V3].
Qed.

(** One component: the walk goes on with the heap as it was, or stops with the
    blocks of the name and of the directory still taken. *)
Lemma path_step m p n a c r id ids : ready m p n -> cstr m a (c ++ r) -> 0 <= a -> a + Z.of_nat (length (c ++ r)) < 2 ^ 64 ->
  (forall x, a <= x <= a + Z.of_nat (length (c ++ r)) -> beyond p nx n x) ->
  c <> [] -> Forall (fun x => x <> 47) c -> r = [] \/ (exists r', r = 47 :: r') -> Z.of_nat (length c) + 1 < 2 ^ 16 ->
  im_dirs im id = Some ids -> step_bytes c ids + 24 <= n ->
  exists m', same_on (beyond p nx n) m m' /\ m_valid m' = m_valid m /\
    match list_find (fun k => im_names im k = c) ids with
    | Some (_, k) => ready m' p n /\
        path_body (a, id) (hstate m p s) = Ok (inl (a + Z.of_nat (length c) + (if r is [] then 0 else 1), k)) (hstate m' p s)
    | None => path_body (a, id) (hstate m p s) = Ok (inr None) (hstate m' (p + step_bytes c ids) s)
    end.
Proof.
  intros Rd C A0 A1 Ap Hc Hs Hr Hl Hid Hn. unfold step_bytes in *.
  pose proof (fr_pos _ _ _ _ (rd_front _ _ _ Rd)). pose proof (fr_fits _ _ _ _ (rd_front _ _ _ Rd)) as [_ Fn].
  destruct (name_copy_run m p n a c r Rd C A0 A1 Ap Hc) as (m1 & R1 & L1 & C1 & Rd1 & S1 & V1); [lia|].
  pose proof (front_below _ _ _ _ (rd_front _ _ _ Rd)) as Nx. rewrite length_app in *. set (sz := Z.of_nat (length c) + 1) in *. set (p1 := p + (sz + 8)) in *. set (n1 := n - (sz + 8)) in *.
  destruct (get_file_list_run m1 p1 n1 id ids Rd1 Hid) as (m2 & R2 & L2 & NL & F2 & S2 & V2); [lia|].
  set (k := 8 * Z.of_nat (length ids)) in *. cbv zeta in R2, F2, NL.
  assert (Low : same_on (fun x => x < p1) m1 m2) by (eapply same_on_weaken; [|exact S2]; addr_tac).
  assert (C2 : cstr m2 (p + 8) c) by (eapply cstr_same; [exact Low|addr_tac|exact C1]).
  assert (S12 : same_on (beyond p nx n) m m2).
  { eapply same_on_trans; [exact S1|]. eapply same_on_weaken; [|exact S2]. addr_tac. }
  assert (I2 : image_at m2 g im lo hi) by (eapply image_same; [exact (rd_image _ _ _ Rd)|exact S12|exact (rd_apart _ _ _ Rd)]).
  set (p2 := p1 + (k + 8)) in *.
  assert (Ca : cstr m1 a (c ++ r)) by (eapply cstr_same; [exact S1|intros x Hx; apply Ap; rewrite length_app in Hx; lia|exact C]).
  pose proof (lookup_run (hstate m2 p2 s) (p1 + 8) ids (im_names im) (p + 8) c NL C2 ltac:(lia) ltac:(lia)) as LK.
  assert (Run : path_body (a, id) (hstate m p s)
    = match list_find (fun x => im_names im x = c) ids with
      | Some (_, x) => (_ ← kfree (p1 + 8); _ ← kfree (p + 8); mret (inl (a + Z.of_nat (length c) + (if r is [] then 0 else 1), x))) (hstate m2 p2 s)
      | None => Ok (inr None) (hstate m2 p2 s)
      end).
  { unfold path_body. destruct c as [|x c]; [done|].
    assert (L0 : load8 a (hstate m p s) = Ok x (hstate m p s)) by (apply load8_ok, C).
    rewrite (bind_ok _ _ _ _ _ L0). pose proof (cstr_chars _ _ _ C) as Ch. apply Forall_cons in Ch as [Hx _].
    replace (x =? 0) with false by lia. cbn [negb].
    rewrite (bind_ok _ _ _ _ _ (component_length_run (hstate m p s) a (x :: c) r C A0 ltac:(rewrite length_app; lia) Hs Hr ltac:(lia))).
    rewrite R1. destruct Hr as [->|[r' ->]].
    - assert (L3 : load8 (ptr_add a (Z.of_nat (length (x :: c)))) (hstate m1 p1 s) = Ok 0 (hstate m1 p1 s)).
      { apply load8_ok. unfold ptr_add. rewrite u64_small by lia. eapply cstr_end. rewrite app_nil_r in Ca. exact Ca. }
      rewrite (bind_ok _ _ _ _ _ L3), (bind_ok _ _ _ _ _ R2). decb. rewrite (bind_ok _ _ _ _ _ LK). unfold ptr_add. rewrite u64_small, Z.add_0_r by lia.
      by destruct (list_find _ ids) as [[? ?]|].
    - assert (L3 : load8 (ptr_add a (Z.of_nat (length (x :: c)))) (hstate m1 p1 s) = Ok 47 (hstate m1 p1 s)).
      { apply load8_ok. unfold ptr_add. rewrite u64_small by lia. by apply cstr_app in Ca as (_ & Ca & _). }
      rewrite (bind_ok _ _ _ _ _ L3), (bind_ok _ _ _ _ _ R2). decb. rewrite (bind_ok _ _ _ _ _ LK). unfold ptr_add. rewrite u64_small, Z.add_assoc by (cbn [length] in *; lia).
      by destruct (list_find _ ids) as [[? ?]|]. }
  destruct (list_find _ ids) as [[j x]|] eqn:EF.
  - assert (Hk : 0 < k) by (destruct ids; [done|unfold k; cbn; lia]).
    assert (Vall : valid_range m2 p n) by (intros y Hy; rewrite V2, V1; apply (rd_front _ _ _ Rd); lia).
    destruct (kfree_front s m2 p1 nx (n1 - (k + 8)) k F2 L2) as (m3 & R3 & F3 & S3 & V3); [lia|lia|range_tac|].
    replace (n1 - (k + 8) + (k + 8)) with n1 in * by lia.
    assert (L4 : ldn 8 m3 p = Some sz) by (rewrite <- L1; transitivity (ldn 8 m2 p); apply ldn_ext; intros i Hi; [apply S3|apply Low]; unfold beyond; cbv beta; lia).
    destruct (kfree_front s m3 p nx n1 sz F3 L4) as (m4 & R4 & F4 & S4 & V4); [lia|lia|intros y Hy; rewrite V3; apply Vall; lia|].
    replace (n1 + (sz + 8)) with n in * by lia.
    assert (Sall : same_on (beyond p nx n) m m4).
    { eapply same_on_trans; [exact S12|]. eapply same_on_trans; [eapply same_on_weaken; [|exact S3]; addr_tac|exact S4]. }
    exists m4. split; [exact Sall|]. split; [by rewrite V4, V3, V2|]. split.
    + split; [eapply image_same; [exact (rd_image _ _ _ Rd)|exact Sall|exact (rd_apart _ _ _ Rd)]|exact F4|exact (rd_apart _ _ _ Rd)].
    + rewrite Run. fold p2 in R3. rewrite (bind_ok _ _ _ _ _ R3). fold p1 in R4. by rewrite (bind_ok _ _ _ _ _ R4).
  - exists m2. split; [exact S12|]. split; [by rewrite V2|]. rewrite Run. unfold p2, p1. do 2 f_equal. lia.
Qed.

(** What resolving the rest of a path does, from directory [id]. *)
Definition resolved (p n a id : Z) (l : list Z) (m m' : mem) (turns : nat) : Prop :=
  match walk im id (components [] l) with
  | Found k => loops path_body turns (a, id) (hstate m p s) (Some k) (hstate m' p s) /\ ready m' p n
  | Missing leaked => loops path_body turns (a, id) (hstate m p s) None (hstate m' (p + leaked) s)
  | NotADirectory => True
  end.

Lemma resolve_loops p n : forall k l m a id, (length l <= k)%nat -> ready m p n -> cstr m a l -> 0 <= a -> a + Z.of_nat (length l) < 2 ^ 64 ->
  (forall x, a <= x <= a + Z.of_nat (length l) -> beyond p nx n x) -> path_fits im n (components [] l) ->
  exists m' turns, (turns <= S (length l))%nat /\ same_on (beyond p nx n) m m' /\ m_valid m' = m_valid m /\ resolved p n a id l m m' turns.
Proof.
  induction k as [|k IH]; intros l m a id Hk Rd C A0 A1 Ap PF.
  - destruct l; [|cbn in Hk; lia]. exists m, 1%nat. cbn [components]. unfold resolved. split; [cbn; lia|]. split; [apply same_on_refl|]. split; [done|].
    cbn [walk components]. split; [|done]. apply loops_done. unfold path_body. by rewrite (bind_ok _ _ _ _ _ (load8_ok (hstate m p s) _ _ C)).
  - destruct (split_component l) as (c & r & -> & Hs & Hr). rewrite length_app in *.
    assert (Hc0 : c = [] -> r = [] -> exists m' turns, (turns <= S (length c + length r))%nat /\ same_on (beyond p nx n) m m' /\ m_valid m' = m_valid m
      /\ resolved p n a id (c ++ r) m m' turns).
    { intros -> ->. apply (IH [] m a id); [cbn; lia|done|exact C|done|done|exact Ap|done]. }
    assert (EC : (c = [] /\ r = []) \/ exists cs, components [] (c ++ r) = c :: cs /\ (r = [] -> c <> [] /\ cs = []) /\ (forall r', r = 47 :: r' -> cs = components [] r')).
    { destruct Hr as [->|[r' ->]].
      - rewrite app_nil_r, components_last by done. destruct c as [|x c]; [by left|right]. exists []. by split.
      - right. exists (components [] r'). rewrite components_slash by done. split; [done|]. split; [done|]. by intros r0 [= <-]. }
    destruct EC as [[-> ->]|(cs & EC & E0 & E1)]; [by apply Hc0|].
    unfold resolved. rewrite EC in *. apply Forall_cons in PF as [(P1 & P2 & P3) PF]. cbn [walk].
    destruct (im_dirs im id) as [ids|] eqn:Ed.
    2: { exists m, 0%nat. split; [lia|]. split; [apply same_on_refl|done]. }
    destruct (path_step m p n a c r id ids Rd C A0) as (m1 & S1 & V1 & Hst); [rewrite length_app; lia|rewrite length_app; exact Ap|done..|by apply (P3 id)|].
    destruct (list_find _ ids) as [[j x]|].
    2: { exists m1, 1%nat. split; [lia|]. split; [done|]. split; [done|]. by apply loops_done. }
    destruct Hst as [Rd1 Hst]. assert (Hl : (0 < length c)%nat) by (destruct c; [done|cbn; lia]).
    set (a' := a + Z.of_nat (length c) + (if r is [] then 0 else 1)) in *.
    set (l' := match r with [] => [] | _ :: r' => r' end).
    assert (El : components [] l' = cs /\ (length l' + length c <= length c + length r)%nat /\ a' + Z.of_nat (length l') = a + Z.of_nat (length c + length r)
      /\ cstr m1 a' l' /\ (length l' < length c + length r)%nat).
    { assert (C1 : cstr m1 a (c ++ r)) by (eapply cstr_same; [exact S1|intros y Hy; apply Ap; rewrite length_app in Hy; lia|exact C]). apply cstr_app in C1.
      unfold l', a'. destruct Hr as [->|[r' ->]]; cbn [length].
      - destruct (E0 eq_refl) as [_ ->]. split; [done|]. split; [lia|]. split; [lia|]. rewrite Z.add_0_r. split; [exact C1|lia].
      - rewrite (E1 r' eq_refl). split; [done|]. split; [lia|]. split; [lia|]. split; [apply C1|lia]. }
    destruct El as (El & L1 & L2 & C1 & L3).
    destruct (IH l' m1 a' x) as (m' & turns & HT & S2 & V2 & Rs); [lia|done|done|unfold a'; destruct r; lia|lia| |by rewrite El|].
    { intros y Hy. apply Ap. unfold a' in *. destruct r; lia. }
    exists m', (S turns). split; [lia|]. split; [by eapply same_on_trans|]. split; [by rewrite V2|]. unfold resolved in Rs. rewrite El in Rs.
    destruct (walk im x cs) as [y|b|]; [destruct Rs as [Rs Rd2]; split; [|done]|..|done]; by eapply loops_step.
Qed.
End resolve.

Lemma path_run s im lo hi segs p n post path c l :
  heap_rep s segs -> frees (heap_start_adr (k_heap s)) segs = (p, n) :: post ->
  image_at (k_mem s) (k_rdfs s) im lo hi -> (forall a, lo <= a < hi -> beyond p (first_of post END_OF_HEAP) n a) ->
  cstr (k_mem s) path (c :: l) -> 0 <= path -> path + 1 + Z.of_nat (length l) < 2 ^ 64 ->
  (forall a, path <= a <= path + 1 + Z.of_nat (length l) -> beyond p (first_of post END_OF_HEAP) n a) ->
  path_fits im n (components [] l) -> walk im 0 (components [] l) <> NotADirectory ->
  exists m, same_on (beyond p (first_of post END_OF_HEAP) n) (k_mem s) m /\ m_valid m = m_valid (k_mem s) /\
    match walk im 0 (components [] l) with
    | Found id => rdfs_file_get_id_from_path path s = Ok (Some id) (with_mem m s) /\ heap_rep (with_mem m s) segs
    | Missing leaked => rdfs_file_get_id_from_path path s = Ok None (with_mem m (with_first_free (p + leaked) s))
    | NotADirectory => False
    end.
Proof.
  intros HR EF I A C P0 P1 Ap PF NW. destruct (heap_rep_front s segs p n post HR EF) as [F Ef].
  assert (Rd : ready s im lo hi (first_of post END_OF_HEAP) (k_mem s) p n) by (by split).
  destruct (resolve_loops s im lo hi (first_of post END_OF_HEAP) p n (length l) l (k_mem s) (path + 1) 0) as (m & turns & HT & S & V & R);
    [done|done|apply C|lia|lia|intros x Hx; apply Ap; lia|done|].
  exists m. split; [exact S|]. split; [exact V|]. unfold resolved in R.
  assert (Es : hstate (k_mem s) p s = s) by (rewrite <- Ef; apply hstate_id).
  assert (Em : hstate m p s = with_mem m s) by (rewrite <- Ef; by destruct s as [? []]).
  unfold rdfs_file_get_id_from_path, ptr_add. rewrite u64_small by lia. rewrite Es, ?Em in R.
  destruct (walk im 0 (components [] l)) as [id|b|]; [|by apply (loops_loop _ _ _ _ _ _ R); lia|done].
  destruct R as [R Rd']. split; [apply (loops_loop _ _ _ _ _ _ R); lia|].
  rewrite <- Em. eapply heap_rep_restored; [done|done|exact (rd_front _ _ _ _ _ _ _ _ Rd')|done|done].
Qed.

(** ** Properties *)

(** C36. The resolution of a path is the walk of its components in the image: a
    path that names a file gives its id, with the heap exactly as before; a path
    with an unknown component fails and leaves the copies of that component and
    of its directory allocated.  The components are not empty and the first free
    block holds the copies. *)
Theorem path_resolves s im lo hi segs p n post path c l :
  heap_rep s segs -> frees (heap_start_adr (k_heap s)) segs = (p, n) :: post ->
  image_at (k_mem s) (k_rdfs s) im lo hi -> (forall a, lo <= a < hi -> beyond p (first_of post END_OF_HEAP) n a) ->
  cstr (k_mem s) path (c :: l) -> 0 <= path -> path + 1 + Z.of_nat (length l) < 2 ^ 64 ->
  (forall a, path <= a <= path + 1 + Z.of_nat (length l) -> beyond p (first_of post END_OF_HEAP) n a) ->
  path_fits im n (components [] l) -> walk im 0 (components [] l) <> NotADirectory ->
  exists m, same_on (beyond p (first_of post END_OF_HEAP) n) (k_mem s) m /\ m_valid m = m_valid (k_mem s) /\
    match walk im 0 (components [] l) with
    | Found id => rdfs_file_get_id_from_path path s = Ok (Some id) (with_mem m s) /\ heap_rep (with_mem m s) segs
    | Missing leaked => rdfs_file_get_id_from_path path s = Ok None (with_mem m (with_first_free (p + leaked) s))
    | NotADirectory => False
    end.
Proof. apply path_run. Qed.
