(* ===== verification/RamdiskImage.v ===== *)
(** * The image builder (tools/fs/genRamDisk.py)

    The script that lays out a directory tree as the image src/fs/rdfs/rdfs.c
    reads.  Its input, what [listdir], [getsize] and [read] give for the
    directory, is the tree [node]; integers that do not fit the width of
    [to_bytes] and characters above 255 raise an exception, here [None]. *)

From S2P Require Export Path.

(** A file with its content, a directory with its nodes in the order of [listdir]. *)
#[local] Unset Elimination Schemes.
Inductive node := file (name data : list Z) | directory (name : list Z) (children : list node).
#[local] Set Elimination Schemes.

Definition node_ind (P : node -> Prop) (HF : forall name data, P (file name data))
    (HD : forall name ch, Forall P ch -> P (directory name ch)) : forall n, P n :=
  fix go n := match n with
  | file name data => HF name data
  | directory name ch => HD name ch ((fix all (l : list node) : Forall P l :=
      match l with [] => Forall_nil_2 P | x :: l => Forall_cons_2 P x l (go x) (all l) end) ch)
  end.

Definition node_name (n : node) : list Z := match n with file name _ => name | directory name _ => name end.

(** ** The script *)

Definition FILE_DIRECTORY_SIZE : Z := 96.
Definition dummy_part_size : Z := 0xffff.

(** [v.to_bytes(n, 'little')] and [bytes(l)]. *)
Fixpoint le_bytes (n : nat) (v : Z) : list Z := match n with O => [] | S n => v mod 256 :: le_bytes n (v / 256) end.
Definition to_bytes (n : nat) (v : Z) : option (list Z) :=
  if (0 <=? v) && (v <? 256 ^ Z.of_nat n) then Some (le_bytes n v) else None.
Definition bytes (l : list Z) : option (list Z) := if forallb (fun c => (0 <=? c) && (c <? 256)) l then Some l else None.

Definition genHeader (f d : Z) : option (list Z) :=
  align ← to_bytes 4 0;
  part ← to_bytes 8 dummy_part_size;
  let partition_name := str "ramdisk" in
  let name := partition_name ++ replicate (64 - length partition_name) 0 in
  fs ← to_bytes 8 f;
  ds ← to_bytes 8 d;
  bytes ([0xF5; 0x7D; 0x00; 0x00] ++ align ++ part ++ name ++ fs ++ ds).

(** A node with the id [flatten_dir] gave it and, for a directory, those of its children. *)
Record entry := Entry { e_id : Z; e_node : node; e_children : list Z }.

(** [visit child id]: [child.id = id] and what the turn for one child appends. *)
Definition flatten_dir (visit : node -> Z -> list entry * Z) : list node -> Z -> list entry * list Z * Z :=
  fix go (children : list node) (id : Z) :=
    match children with
    | [] => ([], [], id)
    | child :: children =>
        let '(new_list, new_id) := visit child id in
        let '(child_list, ids, next) := go children new_id in
        (new_list ++ child_list, id :: ids, next)
    end.
Fixpoint flatten (n : node) (id : Z) : list entry * Z :=
  match n with
  | file _ _ => ([Entry id n []], id + 1)
  | directory _ ch => let '(l, ids, next) := flatten_dir flatten ch (id + 1) in (Entry id n ids :: l, next)
  end.

Definition e_size (e : entry) : Z :=
  match e_node e with file _ data => Z.of_nat (length data) | directory _ _ => 8 * Z.of_nat (length (e_children e)) end.
Definition e_is_dir (e : entry) : bool := match e_node e with directory _ _ => true | file _ _ => false end.

(** [bin_list[e.id] = ...] for each element of the list. *)
Definition bin_list (flat : list entry) : list (option entry) :=
  foldl (fun l e => <[Z.to_nat (e_id e) := Some e]> l) (replicate (length flat) None) flat.

Definition dir_name (name : list Z) : list Z := match name with [] => str "/" | _ => name end.
Definition genFileDirectory (e : entry) (curr_offset : Z) : option (list Z) :=
  id ← to_bytes 8 (e_id e);
  ty ← to_bytes 1 (if e_is_dir e then 1 else 2);
  let name := dir_name (node_name (e_node e)) in
  name_list ← bytes (name ++ replicate (71 - length name) 0);
  off ← to_bytes 8 curr_offset;
  size ← to_bytes 8 (e_size e);
  Some (id ++ ty ++ name_list ++ off ++ size).
Fixpoint genFileDirectories (flist : list entry) (curr_offset : Z) : option (list Z) :=
  match flist with
  | [] => Some []
  | e :: flist =>
      x ← genFileDirectory e curr_offset;
      r ← genFileDirectories flist (curr_offset + e_size e);
      Some (x ++ r)
  end.

Fixpoint genIds (ids : list Z) : option (list Z) :=
  match ids with [] => Some [] | d :: ids => x ← to_bytes 8 d; r ← genIds ids; Some (x ++ r) end.
Definition genData (e : entry) : option (list Z) :=
  match e_node e with file _ data => Some data | directory _ _ => genIds (e_children e) end.
Fixpoint genDataDirectories (flist : list entry) : option (list Z) :=
  match flist with [] => Some [] | e :: flist => x ← genData e; r ← genDataDirectories flist; Some (x ++ r) end.

Definition sum_sizes (l : list entry) : Z := foldr (fun e z => e_size e + z) 0 l.

(** [main], up to writing the file; [flist] has no [None] left. *)
Definition ramdisk (root : node) : option (list Z) :=
  let '(flat_list, _) := flatten root 0 in
  flist ← mapM id (bin_list flat_list);
  header ← genHeader (Z.of_nat (length flist) * FILE_DIRECTORY_SIZE) (sum_sizes flist);
  dirs ← genFileDirectories flist 0;
  data ← genDataDirectories flist;
  Some (header ++ dirs ++ data).

(** ** The list of entries *)

(** The children of [e] are the nodes at their ids in the list that starts with id [base]. *)
Definition children_at (base : Z) (l : list entry) (e : entry) : Prop :=
  match e_node e with
  | file _ _ => e_children e = []
  | directory _ ch => Forall2 (fun k c => base <= k /\ exists x, l !! Z.to_nat (k - base) = Some x /\ e_node x = c) (e_children e) ch
  end.
Record flat_ok (base : Z) (l : list entry) : Prop := {
  fo_ids : forall j e, l !! j = Some e -> e_id e = base + Z.of_nat j;
  fo_children : Forall (children_at base l) l }.

Lemma children_at_app base pre l post e : children_at base l e ->
  children_at (base - Z.of_nat (length pre)) (pre ++ l ++ post) e.
Proof.
  unfold children_at. destruct (e_node e) as [|name ch]; [done|]. intros H. eapply Forall2_impl; [exact H|].
  intros k c (Hk & x & Hx & Hc). split; [lia|]. exists x. split; [|done]. rewrite lookup_app_r by lia. apply lookup_app_l_Some.
  rewrite <- Hx. f_equal. lia.
Qed.

Lemma flat_ok_app base l1 l2 : flat_ok base l1 -> flat_ok (base + Z.of_nat (length l1)) l2 -> flat_ok base (l1 ++ l2).
Proof.
  intros [I1 C1] [I2 C2]. split.
  - intros j e E. apply lookup_app_Some in E as [E|[Hj E]]; [by apply I1|]. apply I2 in E. lia.
  - apply Forall_app. split; eapply Forall_impl; [exact C1| |exact C2|]; intros e H.
    + pose proof (children_at_app base [] l1 l2 e H) as H'. by rewrite Z.sub_0_r in H'.
    + pose proof (children_at_app _ l1 l2 [] e H) as H'. rewrite app_nil_r in H'. by replace (base + Z.of_nat (length l1) - Z.of_nat (length l1)) with base in H' by lia.
Qed.

(** Every node below [n] is one of the list, and the list has no other. *)
Inductive below (n : node) : node -> Prop :=
  | below_self : below n n
  | below_child name ch c x : n = directory name ch -> c ∈ ch -> below c x -> below n x.

Lemma flatten_spec n : forall id, let '(l, next) := flatten n id in
  next = id + Z.of_nat (length l) /\ flat_ok id l /\ (exists e, l !! 0%nat = Some e /\ e_node e = n) /\ Forall (fun e => below n (e_node e)) l.
Proof.
  induction n as [name data|name ch IH] using node_ind; intros id; cbn [flatten].
  - split; [done|]. split; [|split; [by eexists|repeat constructor]]. split; [|by repeat constructor].
    intros [|j] e E; [|done]. injection E as <-. cbn. lia.
  - assert (G : forall id, let '(l, ids, next) := flatten_dir flatten ch id in
      next = id + Z.of_nat (length l) /\ flat_ok id l
      /\ Forall2 (fun k c => id <= k /\ exists x, l !! Z.to_nat (k - id) = Some x /\ e_node x = c) ids ch
      /\ Forall (fun e => exists c, c ∈ ch /\ below c (e_node e)) l).
    { induction IH as [|c ch Hc _ IHch]; intros i; cbn [flatten_dir].
      - split; [cbn; lia|]. split; [split; [done|constructor]|]. split; constructor.
      - specialize (Hc i). destruct (flatten c i) as [l1 i1]. destruct Hc as (-> & F1 & (e1 & E1 & N1) & B1).
        specialize (IHch (i + Z.of_nat (length l1))). destruct (flatten_dir flatten ch (i + Z.of_nat (length l1))) as [[l2 ids] i2].
        destruct IHch as (-> & F2 & C2 & B2). rewrite length_app. split; [lia|]. split; [by apply flat_ok_app|]. split.
        + constructor.
          * split; [lia|]. exists e1. rewrite Z.sub_diag. split; [by apply lookup_app_l_Some|done].
          * eapply Forall2_impl; [exact C2|]. intros k x (Hk & y & Hy & Hx). split; [lia|]. exists y. split; [|done].
            rewrite lookup_app_r by lia. rewrite <- Hy. f_equal. lia.
        + apply Forall_app. split; eapply Forall_impl; [exact B1| |exact B2|]; cbv beta.
          * intros e He. exists c. split; [left|done].
          * intros e (x & Hx & Hb). exists x. split; [by right|done]. }
    specialize (G (id + 1)). destruct (flatten_dir flatten ch (id + 1)) as [[l ids] next]. destruct G as (-> & F & C & B).
    split; [cbn [length]; lia|]. split; [|split; [by eexists|]].
    + change (Entry id (directory name ch) ids :: l) with ([Entry id (directory name ch) ids] ++ l). split.
      * intros [|j] e E; [injection E as <-; cbn; lia|]. apply (fo_ids _ _ F) in E. lia.
      * apply Forall_app. split.
        -- repeat constructor. unfold children_at. cbn [e_node e_children]. eapply Forall2_impl; [exact C|].
           intros k c (Hk & x & Hx & Hc). split; [lia|]. exists x. split; [|done]. replace (Z.to_nat (k - id)) with (S (Z.to_nat (k - (id + 1)))) by lia. exact Hx.
        -- eapply Forall_impl; [exact (fo_children _ _ F)|]. intros e H.
           pose proof (children_at_app _ [Entry id (directory name ch) ids] l [] e H) as H'. rewrite app_nil_r in H'. by replace (id + 1 - Z.of_nat (length [Entry id (directory name ch) ids])) with id in H' by (cbn; lia).
    + constructor; [constructor|]. eapply Forall_impl; [exact B|]. intros e (c & Hc & Hb). by eapply below_child.
Qed.

Lemma bin_list_full l : flat_ok 0 l -> bin_list l = Some <$> l.
Proof.
  intros [I _]. unfold bin_list.
  assert (G : forall k pre post, l = pre ++ post -> length pre = k ->
    foldl (fun l e => <[Z.to_nat (e_id e) := Some e]> l) ((Some <$> pre) ++ replicate (length post) None) post = Some <$> l).
  { intros k pre post. revert k pre. induction post as [|e post IH]; intros k pre -> Hk; cbn [foldl length replicate]; [by rewrite !app_nil_r|].
    assert (Ee : e_id e = Z.of_nat k) by (rewrite <- (Z.add_0_l (Z.of_nat k)); apply I; rewrite lookup_app_r by lia; by replace (k - length pre)%nat with 0%nat by lia).
    rewrite list_insert_middle by (rewrite length_fmap; lia).
    replace ((Some <$> pre) ++ Some e :: replicate (length post) None) with ((Some <$> pre ++ [e]) ++ replicate (length post) None)
      by (by rewrite fmap_app, <- app_assoc).
    apply (IH (S k) (pre ++ [e])); [by rewrite <- app_assoc|rewrite length_app; cbn; lia]. }
  apply (G 0%nat []); done.
Qed.

Arguments le_bytes : simpl never.

(** ** Bytes in memory *)

Definition loaded (m : mem) (a : Z) (l : list Z) : Prop := forall i b, l !! i = Some b -> ld8 m (a + Z.of_nat i) = Some b.

Lemma loaded_app m a l1 l2 : loaded m a (l1 ++ l2) -> loaded m a l1 /\ loaded m (a + Z.of_nat (length l1)) l2.
Proof.
  intros H. split; [intros i b E; apply H; by apply lookup_app_l_Some|]. intros i b E. rewrite <- Z.add_assoc, <- Nat2Z.inj_add.
  apply H. rewrite lookup_app_r by lia. rewrite <- E. f_equal. lia.
Qed.
Lemma loaded_le m n : forall a v, loaded m a (le_bytes n v) -> 0 <= v < 256 ^ Z.of_nat n -> ldn n m a = Some v.
Proof.
  induction n as [|n IH]; intros a v H Hv; [cbn in Hv; by replace v with 0 by lia|].
  rewrite Nat2Z.inj_succ, Z.pow_succ_r in Hv by lia. change (le_bytes (S n) v) with ([v mod 256] ++ le_bytes n (v / 256)) in H.
  apply loaded_app in H as [H0 H]. pose proof (H0 0%nat _ eq_refl) as L. rewrite Z.add_0_r in L.
  change (ldn (S n) m a) with (b ← ld8 m a; r ← ldn n m (a + 1); Some (b + 2 ^ 8 * r)). rewrite L. cbn [mbind option_bind].
  rewrite (IH (a + 1) (v / 256)); [|exact H|Z.to_euclidean_division_equations; nia]. cbn [mbind option_bind]. f_equal.
  change (2 ^ 8) with 256. pose proof (Z.div_mod v 256). lia.
Qed.
Lemma loaded_cstr m a name n : loaded m a (name ++ replicate n 0) -> Forall (fun c => 0 < c < 2 ^ 8) name -> (0 < n)%nat -> cstr m a name.
Proof.
  intros H F Hn. apply loaded_app in H as [H1 H2]. apply cstr_intro; [done|exact H1|].
  rewrite <- (Z.add_0_r (a + _)). apply (H2 0%nat). by destruct n; [lia|].
Qed.

Lemma to_bytes_inv n v l : to_bytes n v = Some l -> l = le_bytes n v /\ 0 <= v < 256 ^ Z.of_nat n.
Proof. unfold to_bytes. destruct (_ && _) eqn:E; intros [= <-]. split; [done|lia]. Qed.
Lemma bytes_inv l l' : bytes l = Some l' -> l' = l /\ Forall (fun c => 0 <= c < 2 ^ 8) l.
Proof.
  unfold bytes. destruct (forallb _ _) eqn:E; intros [= <-]. split; [done|]. apply Forall_forall. intros c Hc.
  rewrite forallb_forall in E. specialize (E c). rewrite <- list_elem_of_In in E. specialize (E Hc). change (2 ^ 8) with 256. lia.
Qed.
Lemma le_bytes_length n v : length (le_bytes n v) = n.
Proof. revert v. induction n as [|n IH]; intros v; [done|]. change (S (length (le_bytes n (v / 256))) = S n). by rewrite IH. Qed.

(** Takes a run of the script apart. *)
Ltac gen_inv :=
  cbv zeta in *;
  repeat match goal with
  | H : (?o ≫= ?k) = Some _ |- _ =>
      let x := fresh "x" in let E := fresh "G" in
      apply bind_Some in H; destruct H as (x & E & H)
  | H : to_bytes _ _ = Some _ |- _ => apply to_bytes_inv in H as [-> H]
  | H : bytes _ = Some _ |- _ => apply bytes_inv in H as [-> H]
  | H : Some _ = Some _ |- _ => apply (inj Some) in H as <-
  end.

Definition name_ok (name : list Z) : Prop := (length name <= 70)%nat /\ Forall (fun c => c <> 0) name.
Definition entry_name (e : entry) : list Z := dir_name (node_name (e_node e)).

(** The bytes of an entry: id, type, name, offset and size where the C structure has them. *)
Lemma directory_entry_loaded m a e off out : genFileDirectory e off = Some out -> name_ok (entry_name e) -> loaded m a out ->
  length out = 96%nat /\ ldn 8 m a = Some (e_id e) /\ ldn 1 m (a + 8) = Some (if e_is_dir e then 1 else 2)
  /\ cstr m (a + 9) (entry_name e) /\ ldn 8 m (a + 80) = Some off /\ ldn 8 m (a + 88) = Some (e_size e).
Proof.
  unfold genFileDirectory, entry_name. intros G [NL NZ] H. gen_inv. set (name := dir_name _) in *.
  rewrite !length_app, !length_replicate, !le_bytes_length.
  apply loaded_app in H as [H1 H]. apply loaded_app in H as [H2 H]. apply loaded_app in H as [H3 H]. apply loaded_app in H as [H4 H5].
  rewrite !length_app, ?length_replicate, !le_bytes_length in *. split; [lia|]. split; [by apply loaded_le|]. split; [by apply loaded_le|].
  replace (a + Z.of_nat 8 + Z.of_nat 1) with (a + 9) in * by lia.
  replace (a + 9 + Z.of_nat (length name + (71 - length name))) with (a + 80) in * by lia.
  replace (a + 80 + Z.of_nat 8) with (a + 88) in * by lia.
  split; [|split; by apply loaded_le]. eapply loaded_cstr; [exact H3| |lia]. apply Forall_app in G2 as [G2 _].
  apply Forall_lookup. intros i c Ec. pose proof (Forall_lookup_1 _ _ _ _ G2 Ec). pose proof (Forall_lookup_1 _ _ _ _ NZ Ec). cbv beta in *. lia.
Qed.

Lemma file_directory_at flist : forall off out i e, genFileDirectories flist off = Some out ->
  Forall (fun e => name_ok (entry_name e)) flist -> flist !! i = Some e ->
  exists pre x post, out = pre ++ x ++ post /\ length pre = (96 * i)%nat /\ genFileDirectory e (off + sum_sizes (take i flist)) = Some x.
Proof.
  induction flist as [|e0 flist IH]; intros off out i e G F E; [done|]. cbn [genFileDirectories] in G. gen_inv. apply Forall_cons in F as [F0 F].
  destruct i as [|i]; [injection E as <-; exists [], x, x0; cbn; rewrite Z.add_0_r; done|].
  destruct (IH _ _ i e G1 F E) as (pre & y & post & -> & Hp & Gy). exists (x ++ pre), y, post. rewrite <- app_assoc. split; [done|].
  assert (Lx : length x = 96%nat).
  { clear -G0 F0. unfold genFileDirectory, name_ok, entry_name in *. gen_inv. rewrite !length_app, length_replicate, !le_bytes_length. lia. }
  split; [rewrite length_app; lia|]. cbn [take sum_sizes foldr]. by rewrite Z.add_assoc.
Qed.

Lemma genIds_length ids : forall out, genIds ids = Some out -> length out = (8 * length ids)%nat.
Proof.
  induction ids as [|d ids IH]; cbn [genIds]; intros out G; [by gen_inv|]. gen_inv. rewrite length_app, le_bytes_length, (IH _ G1). cbn. lia.
Qed.
Lemma genData_length e out : genData e = Some out -> Z.of_nat (length out) = e_size e.
Proof. unfold genData, e_size. destruct (e_node e); intros G; [by gen_inv|]. rewrite (genIds_length _ _ G). lia. Qed.

Lemma data_directory_at flist : forall out i e, genDataDirectories flist = Some out -> flist !! i = Some e ->
  exists pre x post, out = pre ++ x ++ post /\ Z.of_nat (length pre) = sum_sizes (take i flist) /\ genData e = Some x.
Proof.
  induction flist as [|e0 flist IH]; intros out i e G E; [done|]. cbn [genDataDirectories] in G. gen_inv.
  destruct i as [|i]; [injection E as <-; by exists [], x, x0|].
  destruct (IH _ i e G1 E) as (pre & y & post & -> & Hp & Gy). exists (x ++ pre), y, post. rewrite <- app_assoc. split; [done|].
  split; [|done]. rewrite length_app. change (sum_sizes (take (S i) (e0 :: flist))) with (e_size e0 + sum_sizes (take i flist)). pose proof (genData_length _ _ G0). lia.
Qed.

Lemma genIds_loaded ids : forall out m a, genIds ids = Some out -> loaded m a out ->
  forall i c, ids !! i = Some c -> ldn 8 m (a + 8 * Z.of_nat i) = Some c.
Proof.
  induction ids as [|d ids IH]; intros out m a G H i c E; [done|]. cbn [genIds] in G. gen_inv. apply loaded_app in H as [H1 H2].
  rewrite le_bytes_length in H2. destruct i as [|i]; [injection E as <-; rewrite Z.add_0_r; by apply loaded_le|].
  rewrite <- (IH _ m (a + Z.of_nat 8) G1 H2 i c E). f_equal. lia.
Qed.

(** ** The image as the kernel sees it *)

Definition entries (root : node) : list entry := (flatten root 0).1.
Definition im_of (l : list entry) : image :=
  Image (fun id => match l !! Z.to_nat id with Some e => entry_name e | None => [] end)
    (fun id => if 0 <=? id then match l !! Z.to_nat id with Some e => if e_is_dir e then Some (e_children e) else None | None => None end else None).

(** Names fit their field with a terminator, and only the root has an empty one. *)
Definition tree_ok (root : node) : Prop :=
  forall x, below root x -> name_ok (dir_name (node_name x))
    /\ match x with directory _ ch => Forall (fun c => node_name c <> []) ch | file _ _ => True end.

Lemma tree_ok_file name data : name_ok (dir_name name) -> tree_ok (file name data).
Proof. intros H x B. inversion B as [|? ? ? ? [=]]; subst. by split. Qed.
Lemma tree_ok_directory name ch : name_ok (dir_name name) -> Forall (fun c => node_name c <> []) ch -> Forall tree_ok ch -> tree_ok (directory name ch).
Proof.
  intros H HN HC x B. inversion B as [|? ? ? ? [= <- <-] Hc Hb]; subst; [by split|].
  rewrite Forall_forall in HC. by apply (HC _ Hc).
Qed.

Lemma entries_spec root : flat_ok 0 (entries root) /\ (exists e, entries root !! 0%nat = Some e /\ e_node e = root)
  /\ Forall (fun e => below root (e_node e)) (entries root).
Proof. unfold entries. pose proof (flatten_spec root 0) as H. destruct (flatten root 0) as [l next]. by destruct H as (_ & H). Qed.

Lemma e_size_nonneg e : 0 <= e_size e.
Proof. unfold e_size. destruct (e_node e); lia. Qed.
Lemma sum_sizes_nonneg l : 0 <= sum_sizes l.
Proof. induction l as [|e l IH]; [done|]. change (sum_sizes (e :: l)) with (e_size e + sum_sizes l). pose proof (e_size_nonneg e). lia. Qed.
Lemma sum_sizes_take l i e : l !! i = Some e -> 0 <= sum_sizes (take i l) /\ sum_sizes (take i l) + e_size e <= sum_sizes l.
Proof.
  revert i. induction l as [|x l IH]; intros [|i] E; [done..| |]; cbn [take];
    change (sum_sizes (x :: l)) with (e_size x + sum_sizes l); pose proof (e_size_nonneg x).
  - injection E as <-. change (sum_sizes []) with 0. pose proof (sum_sizes_nonneg l). lia.
  - change (sum_sizes (x :: take i l)) with (e_size x + sum_sizes (take i l)). destruct (IH i E). lia.
Qed.

Lemma genFileDirectories_length flist : forall off out, genFileDirectories flist off = Some out ->
  Forall (fun e => name_ok (entry_name e)) flist -> length out = (96 * length flist)%nat.
Proof.
  induction flist as [|e flist IH]; intros off out G F; cbn [genFileDirectories] in G; gen_inv; [done|]. apply Forall_cons in F as [F0 F].
  rewrite length_app, (IH _ _ G1 F). clear -G0 F0. unfold genFileDirectory, name_ok, entry_name in *. gen_inv.
  rewrite !length_app, length_replicate, !le_bytes_length. cbn [length]. lia.
Qed.
Lemma genDataDirectories_length flist : forall out, genDataDirectories flist = Some out -> Z.of_nat (length out) = sum_sizes flist.
Proof.
  induction flist as [|e flist IH]; intros out G; cbn [genDataDirectories] in G; gen_inv; [done|].
  rewrite length_app. change (sum_sizes (e :: flist)) with (e_size e + sum_sizes flist). pose proof (IH _ G1). pose proof (genData_length _ _ G0). lia.
Qed.

(** What the image has at the offsets the kernel reads. *)
Record layout (m : mem) (a : Z) (l : list entry) : Prop := {
  la_magic : ldn 2 m a = Some RDFS_MAGIC_NUMBER;
  la_dir : ldn 8 m (a + 80) = Some (96 * Z.of_nat (length l));
  la_entry i e : l !! i = Some e -> let p := a + 96 + 96 * Z.of_nat i in
    ldn 8 m p = Some (e_id e) /\ ldn 1 m (p + 8) = Some (if e_is_dir e then 1 else 2)
    /\ cstr m (p + 9) (entry_name e) /\ ldn 8 m (p + 80) = Some (sum_sizes (take i l)) /\ ldn 8 m (p + 88) = Some (e_size e);
  la_data i e : l !! i = Some e -> exists x, genData e = Some x /\ loaded m (a + 96 + 96 * Z.of_nat (length l) + sum_sizes (take i l)) x }.

Lemma genHeader_length f d out : genHeader f d = Some out -> length out = 96%nat.
Proof. unfold genHeader. intros G. gen_inv. by rewrite !length_app, !le_bytes_length. Qed.
Lemma header_loaded m a f d out : genHeader f d = Some out -> loaded m a out -> ldn 2 m a = Some RDFS_MAGIC_NUMBER /\ ldn 8 m (a + 80) = Some f.
Proof.
  unfold genHeader. intros G H. gen_inv. apply loaded_app in H as [H1 H]. apply loaded_app in H as [_ H]. apply loaded_app in H as [_ H].
  apply loaded_app in H as [_ H]. apply loaded_app in H as [H2 _]. rewrite !le_bytes_length in H2. cbn [length app] in H2. split.
  - change [0xF5; 0x7D; 0; 0] with (le_bytes 2 RDFS_MAGIC_NUMBER ++ [0; 0]) in H1. apply loaded_app in H1 as [H1 _]. by apply loaded_le.
  - apply loaded_le; [|done].
    match type of H2 with loaded _ ?b _ => replace b with (a + 80) in H2 by (cbn; lia) end. exact H2.
Qed.

Lemma ramdisk_layout root out m a : ramdisk root = Some out -> tree_ok root -> loaded m a out ->
  layout m a (entries root) /\ Z.of_nat (length out) = 96 + 96 * Z.of_nat (length (entries root)) + sum_sizes (entries root).
Proof.
  unfold ramdisk. destruct (entries_spec root) as (F & _ & B). unfold entries in *. destruct (flatten root 0) as [l next]. cbn [fst] in *.
  intros G T H. rewrite (bin_list_full l F) in G.
  assert (EM : mapM id (Some <$> l) = Some l) by (apply mapM_Some, Forall2_fmap_l, Forall2_same_length_lookup_2; [done|]; intros i x y Hx Hy; rewrite Hx in Hy; by injection Hy as ->).
  rewrite EM in G. cbn [mbind option_bind] in G. gen_inv.
  assert (N : Forall (fun e => name_ok (entry_name e)) l) by (eapply Forall_impl; [exact B|]; intros e He; by apply T).
  apply loaded_app in H as [H1 H]. apply loaded_app in H as [H2 H3].
  rewrite (genHeader_length _ _ _ G0) in *. rewrite (genFileDirectories_length _ _ _ G1 N) in *. unfold FILE_DIRECTORY_SIZE in *.
  destruct (header_loaded m a _ _ _ G0 H1) as [M1 M2]. replace (a + Z.of_nat 96) with (a + 96) in * by lia.
  split; [|rewrite !length_app, (genHeader_length _ _ _ G0), (genFileDirectories_length _ _ _ G1 N); pose proof (genDataDirectories_length _ _ G2); lia].
  split; [done|by rewrite M2; f_equal; lia| |].
  - intros i e E. destruct (file_directory_at l 0 x0 i e G1 N E) as (pre & y & post & -> & Lp & Gy). rewrite Z.add_0_l in Gy.
    apply loaded_app in H2 as [_ H2]. apply loaded_app in H2 as [H2 _]. rewrite Lp in H2.
    replace (a + 96 + Z.of_nat (96 * i)) with (a + 96 + 96 * Z.of_nat i) in H2 by lia.
    by destruct (directory_entry_loaded m _ e _ y Gy (Forall_lookup_1 _ _ _ _ N E) H2) as (_ & R).
  - intros i e E. destruct (data_directory_at l x1 i e G2 E) as (pre & y & post & -> & Lp & Gy). exists y. split; [done|].
    apply loaded_app in H3 as [_ H3]. apply loaded_app in H3 as [H3 _]. rewrite Lp in H3.
    by replace (a + 96 + Z.of_nat (96 * length l)) with (a + 96 + 96 * Z.of_nat (length l)) in H3 by lia.
Qed.

(** The image in the sense of Path.v and each file in the sense of Rdfs.v. *)
Lemma layout_image m a l hi n : layout m a l -> flat_ok 0 l -> 0 <= a -> a + 96 + 96 * Z.of_nat (length l) + sum_sizes l <= hi -> hi < 2 ^ 64 ->
  Forall (fun e => name_ok (entry_name e)) l -> image_at m (RdfsGlobals a (a + 96) n) (im_of l) a hi.
Proof.
  intros [LM LD LE LA] F Ha Hhi H64 NOK.
  pose proof (sum_sizes_nonneg l) as Sum.
  split; cbn [rdfs_start first_file]; [lia|lia| |].
  - intros id ids E. cbn in E. destruct (Z.leb_spec 0 id); [|done]. destruct (l !! Z.to_nat id) as [e|] eqn:Ee; [|done].
    destruct (e_is_dir e) eqn:Ed; [|done]. injection E as <-. pose proof (lookup_lt_Some _ _ _ Ee).
    destruct (LE _ _ Ee) as (_ & _ & _ & L4 & L5). destruct (LA _ _ Ee) as (x & Gx & Lx). destruct (sum_sizes_take _ _ _ Ee) as [S0 S1].
    rewrite Z2Nat.id in * by lia. exists (96 * Z.of_nat (length l)), (sum_sizes (take (Z.to_nat id) l)).
    assert (Es : e_size e = 8 * Z.of_nat (length (e_children e))) by (unfold e_size, e_is_dir in *; by destruct (e_node e)).
    split; [lia|]. split; [lia|]. split; [done|]. split; [done|]. split; [by rewrite <- Es|]. split; [lia|]. split; [lia|].
    replace (a + 96 * Z.of_nat (length l) + sum_sizes (take (Z.to_nat id) l) + 96) with (a + 96 + 96 * Z.of_nat (length l) + sum_sizes (take (Z.to_nat id) l)) by lia.
    unfold genData, e_is_dir in *. destruct (e_node e); [done|]. by eapply genIds_loaded.
  - intros id ids c E Hc. cbn in E. destruct (Z.leb_spec 0 id); [|done]. destruct (l !! Z.to_nat id) as [e|] eqn:Ee; [|done].
    destruct (e_is_dir e) eqn:Ed; [|done]. injection E as <-.
    pose proof (Forall_lookup_1 _ _ _ _ (fo_children _ _ F) Ee) as Ch. unfold children_at, e_is_dir in *. destruct (e_node e) as [|name ch]; [done|].
    apply list_elem_of_lookup in Hc as [j Hj]. destruct (Forall2_lookup_l _ _ _ _ _ Ch Hj) as (y & _ & Hc & x & Hx & _).
    rewrite Z.sub_0_r in Hx. pose proof (lookup_lt_Some _ _ _ Hx). destruct (LE _ _ Hx) as (_ & _ & L3 & _). rewrite Z2Nat.id in L3 by done.
    cbn [im_names im_of]. rewrite Hx. destruct (Forall_lookup_1 _ _ _ _ NOK Hx) as [N1 _]. split; [lia|]. split; [lia|]. exact L3.
Qed.

Lemma layout_file s a l i e name data : layout (k_mem s) a l -> k_rdfs s = RdfsGlobals a (a + 96) (Z.of_nat (length l)) ->
  l !! i = Some e -> e_node e = file name data -> 0 <= a -> a + 96 + 96 * Z.of_nat (length l) + sum_sizes l < 2 ^ 64 ->
  Z.of_nat (length data) < 2 ^ 63 ->
  file_at s (Z.of_nat i) (a + 96 + 96 * Z.of_nat (length l) + sum_sizes (take i l)) data.
Proof.
  intros [LM LD LE LA] ER Ee En Ha Hhi Hd. destruct (LE _ _ Ee) as (_ & _ & _ & L4 & L5). destruct (LA _ _ Ee) as (x & Gx & Lx).
  destruct (sum_sizes_take _ _ _ Ee) as [S0 S1]. pose proof (lookup_lt_Some _ _ _ Ee).
  assert (Es : e_size e = Z.of_nat (length data)) by (unfold e_size; by rewrite En). unfold genData in Gx. rewrite En in Gx. injection Gx as <-.
  split; rewrite ?ER; cbn [rdfs_start first_file]; [lia|lia| |by rewrite <- Es|lia|exact Lx].
  exists (96 * Z.of_nat (length l)), (sum_sizes (take i l)). split; [done|]. split; [done|]. lia.
Qed.

(** [path_fits] for a given tree. *)
Definition path_fitsb (l : list entry) (n : Z) (path : list (list Z)) : bool :=
  forallb (fun c => (0 <? Z.of_nat (length c)) && (Z.of_nat (length c) + 1 <? 2 ^ 16)
    && forallb (fun e => step_bytes c (e_children e) + 24 <=? n) l) path.
Lemma path_fitsb_ok l n path : path_fitsb l n path = true -> path_fits (im_of l) n path.
Proof.
  unfold path_fitsb, path_fits. rewrite forallb_forall. intros H. apply Forall_forall. intros c Hc.
  specialize (H c). rewrite <- list_elem_of_In in H. specialize (H Hc). apply andb_true_iff in H as [H H2]. rewrite forallb_forall in H2.
  apply andb_true_iff in H as [H0 H1]. apply Z.ltb_lt in H0, H1.
  split; [by intros ->|]. split; [exact H1|]. intros id ids E. cbn [im_dirs im_of] in E. destruct (0 <=? id); [|done].
  destruct (l !! Z.to_nat id) as [e|] eqn:Ee; [|done]. destruct (e_is_dir e); [|done]. injection E as <-.
  specialize (H2 e). rewrite <- list_elem_of_In in H2. apply Z.leb_le, H2. by eapply list_elem_of_lookup_2.
Qed.

(** ** Resolving a path in the tree *)

Fixpoint find_node (n : node) (path : list (list Z)) : option node :=
  match path with
  | [] => Some n
  | c :: path =>
      match n with
      | file _ _ => None
      | directory _ ch => '(_, x) ← list_find (fun x => node_name x = c) ch; find_node x path
      end
  end.

Lemma list_find_Forall2 {A B} (P : A -> Prop) (Q : B -> Prop) `{!forall x, Decision (P x), !forall y, Decision (Q y)} l k :
  Forall2 (fun x y => P x <-> Q y) l k ->
  match list_find P l, list_find Q k with
  | Some (i, x), Some (j, y) => i = j /\ l !! i = Some x /\ k !! i = Some y
  | None, None => True
  | _, _ => False
  end.
Proof.
  induction 1 as [|x y l k Hxy _ IH]; [done|]. cbn [list_find].
  destruct (decide (P x)) as [Hx|Hx], (decide (Q y)) as [Hy|Hy]; [done|tauto..|].
  destruct (list_find P l) as [[i u]|], (list_find Q k) as [[j v]|]; cbn; try done. destruct IH as (-> & H1 & H2). done.
Qed.

Lemma walk_tree l : flat_ok 0 l -> (forall e name ch, e ∈ l -> e_node e = directory name ch -> Forall (fun c => node_name c <> []) ch) ->
  forall path i e, l !! i = Some e ->
    match walk (im_of l) (Z.of_nat i) path with
    | Found k => exists j x, k = Z.of_nat j /\ l !! j = Some x /\ find_node (e_node e) path = Some (e_node x)
    | Missing _ | NotADirectory => find_node (e_node e) path = None
    end.
Proof.
  intros F HN. induction path as [|c path IH]; intros i e E; cbn [walk find_node]; [by exists i, e|].
  cbn [im_dirs im_of]. rewrite (proj2 (Z.leb_le 0 (Z.of_nat i))), Nat2Z.id, E by lia. unfold e_is_dir.
  pose proof (Forall_lookup_1 _ _ _ _ (fo_children _ _ F) E) as Ch. unfold children_at in Ch. destruct (e_node e) as [|name ch] eqn:En; [done|].
  assert (H2 : Forall2 (fun k x => im_names (im_of l) k = c <-> node_name x = c) (e_children e) ch).
  { pose proof (HN e name ch ltac:(by eapply list_elem_of_lookup_2) En) as NN. apply Forall2_same_length_lookup. split; [by eapply Forall2_length|].
    intros j k x Hk Hx. destruct (Forall2_lookup_lr _ _ _ _ _ _ Ch Hk Hx) as (_ & y & Hy & <-). rewrite Z.sub_0_r in Hy.
    cbn [im_names im_of]. rewrite Hy. unfold entry_name, dir_name. pose proof (Forall_lookup_1 _ _ _ _ NN Hx) as Hn. cbv beta in Hn. by destruct (node_name (e_node y)). }
  pose proof (list_find_Forall2 _ _ _ _ H2) as LF. clear H2. change (list_find (fun k => im_names (im_of l) k = c) (e_children e)) with (list_find (fun k => im_names (im_of l) k = c) (e_children e)).
  destruct (list_find (fun k => im_names (im_of l) k = c) (e_children e)) as [[j k]|], (list_find (fun x => node_name x = c) ch) as [[j' x]|]; try done.
  destruct LF as (<- & Hk & Hx). destruct (Forall2_lookup_lr _ _ _ _ _ _ Ch Hk Hx) as (K0 & y & Hy & Ey). rewrite Z.sub_0_r in Hy.
  specialize (IH (Z.to_nat k) y Hy). rewrite Z2Nat.id in IH by done. cbn [mbind option_bind]. by rewrite <- Ey.
Qed.

(** ** Mounting and reading *)

Lemma rdfs_init_run s a l : layout (k_mem s) a l -> 0 < a -> a + 96 < 2 ^ 64 ->
  rdfs_init a s = Ok 0 (with_rdfs (RdfsGlobals a (a + 96) (Z.of_nat (length l))) s).
Proof.
  intros L H0 H1. unfold rdfs_init. rewrite (proj2 (Z.eqb_neq a 0)) by lia. rewrite bind_put.
  assert (R : forall x, k_mem x = k_mem s -> hdr_magic a x = Ok RDFS_MAGIC_NUMBER x).
  { intros x E. unfold hdr_magic, load16, loadn. by rewrite E, (la_magic _ _ _ L). }
  assert (R2 : forall x, k_mem x = k_mem s -> hdr_file_directory_size a x = Ok (96 * Z.of_nat (length l)) x).
  { intros x E. unfold hdr_file_directory_size, ptr_add. rewrite u64_small by lia. apply load64_ok. rewrite E. apply (la_dir _ _ _ L). }
  match goal with |- (_ ≫= _) ?x = _ => rewrite (bind_ok _ _ _ _ _ (R x eq_refl)) end. rewrite Z.eqb_refl. cbn [negb]. rewrite bind_put.
  match goal with |- (_ ≫= _) ?x = _ => rewrite (bind_ok _ _ _ _ _ (R2 x eq_refl)) end. rewrite bind_put. unfold ptr_add, SIZEOF_HEADER, SIZEOF_ENTRY. cbn [with_rdfs k_rdfs rdfs_start first_file numFiles].
  rewrite u64_small by lia. replace (96 * Z.of_nat (length l) / 96) with (Z.of_nat (length l)) by (Z.to_euclidean_division_equations; lia). done.
Qed.

(** Mounting the image, opening a path and reading it to its end. *)
Definition mount_and_read (fuel : nat) (ramdisk_start path flags buf size : Z) : K (option (list Z)) :=
  _ ← rdfs_init ramdisk_start;
  f ← rdfs_open_file path flags;
  match f with
  | None => mret None
  | Some f => data ← read_chunks fuel f buf size; mret (Some data)
  end.

Section roundtrip.
Context (s : kstate) (root : node) (out : list Z) (a : Z).
Context (HG : ramdisk root = Some out) (HT : tree_ok root) (HL : loaded (k_mem s) a out).
Context (HA : 0 < a /\ a + Z.of_nat (length out) < 2 ^ 64 /\ Z.of_nat (length out) < 2 ^ 63).
Let l : list entry := entries root.
Let g : rdfs_globals := RdfsGlobals a (a + 96) (Z.of_nat (length l)).

Lemma entries_named : Forall (fun e => name_ok (entry_name e)) l.
Proof using HT. destruct (entries_spec root) as (_ & _ & B). eapply Forall_impl; [exact B|]. intros e He. by apply HT. Qed.

Lemma mounted m : loaded m a out -> layout m a l /\ image_at m g (im_of l) a (a + Z.of_nat (length out)).
Proof using HG HT HA.
  intros H. destruct (ramdisk_layout root out m a HG HT H) as [La Len]. split; [exact La|].
  apply layout_image; [exact La|apply entries_spec|lia|fold l in Len; lia|lia|apply entries_named].
Qed.

Lemma entries_walk path : match walk (im_of l) 0 path with
  | Found k => exists j x, k = Z.of_nat j /\ l !! j = Some x /\ find_node root path = Some (e_node x)
  | Missing _ | NotADirectory => find_node root path = None
  end.
Proof using HT.
  destruct (entries_spec root) as (F & (e & E & En) & B). rewrite <- En. apply (walk_tree l F) with (i := 0%nat); [|exact E].
  intros x name ch Hx Ex. rewrite Forall_forall in B. destruct (HT _ (B x Hx)) as [_ H]. by rewrite Ex in H.
Qed.

Lemma loaded_beyond m p nx n : same_on (beyond p nx n) (k_mem s) m -> (forall x, a <= x < a + Z.of_nat (length out) -> beyond p nx n x) -> loaded m a out.
Proof using HL. intros S A i b E. pose proof (lookup_lt_Some _ _ _ E). rewrite (S (a + Z.of_nat i)) by (apply A; lia). by apply HL. Qed.
End roundtrip.

(** ** Properties *)

(** C2. Every file of a tree can be read back: the image the script builds from the
    tree, mounted by the kernel, resolves the path of a file and reads exactly
    the content of the file, whatever the size of the pieces; a path the tree
    does not have is not opened. *)
Theorem ramdisk_roundtrip s root out a segs p n post path c l flags buf size fuel :
  ramdisk root = Some out -> tree_ok root -> loaded (k_mem s) a out -> 0 < a /\ a + Z.of_nat (length out) < 2 ^ 64 /\ Z.of_nat (length out) < 2 ^ 63 ->
  heap_rep s segs -> frees (heap_start_adr (k_heap s)) segs = (p, n) :: post ->
  (forall x, a <= x < a + Z.of_nat (length out) -> beyond p (first_of post END_OF_HEAP) n x) ->
  cstr (k_mem s) path (c :: l) -> 0 <= path -> path + 1 + Z.of_nat (length l) < 2 ^ 64 ->
  (forall x, path <= x <= path + 1 + Z.of_nat (length l) -> beyond p (first_of post END_OF_HEAP) n x) ->
  path_fits (im_of (entries root)) n (components [] l) -> walk (im_of (entries root)) 0 (components [] l) <> NotADirectory ->
  valid_range (k_mem s) buf size -> 0 < size < 2 ^ 63 -> 0 <= buf /\ buf + size < 2 ^ 64 ->
  buf + size <= a \/ a + Z.of_nat (length out) <= buf ->
  match find_node root (components [] l) with
  | Some (file _ data) => Z.of_nat (length data) < Z.of_nat fuel ->
      exists s', mount_and_read fuel a path flags buf size s = Ok (Some data) s'
  | Some (directory _ _) => True
  | None => exists s', mount_and_read fuel a path flags buf size s = Ok None s'
  end.
Proof.
  intros HG HT HL HA HR EF Ap C P0 P1 Pp PF NW V Hs HB Hd. destruct (mounted root out a HG HT HA (k_mem s) HL) as [La I].
  set (s1 := with_rdfs (RdfsGlobals a (a + 96) (Z.of_nat (length (entries root)))) s).
  assert (R1 : rdfs_init a s = Ok 0 s1) by (apply rdfs_init_run; [done|lia|]; destruct (ramdisk_layout root out _ a HG HT HL) as [_ Len]; pose proof (sum_sizes_nonneg (entries root)); lia).
  destruct (path_run s1 (im_of (entries root)) a (a + Z.of_nat (length out)) segs p n post path c l) as (m & S & Vm & R); [done..|].
  pose proof (entries_walk root HT (components [] l)) as W.
  unfold mount_and_read. rewrite (bind_ok _ _ _ _ _ R1). unfold rdfs_open_file.
  destruct (walk (im_of (entries root)) 0 (components [] l)) as [id|b|]; [|rewrite W|done].
  2: { eexists. rewrite (bind_assoc), (bind_ok _ _ _ _ _ R). done. }
  destruct R as [R _]. destruct W as (j & x & -> & Ex & ->). destruct (e_node x) as [name data|] eqn:En; [|done]. intros Hf.
  rewrite bind_assoc, (bind_ok _ _ _ _ _ R), bind_ret.
  pose proof (loaded_beyond s out a HL m _ _ _ S Ap) as HLm. destruct (ramdisk_layout root out m a HG HT HLm) as [Lm Len].
  destruct (sum_sizes_take _ _ _ Ex) as [S0 S1]. assert (Esz : e_size x = Z.of_nat (length data)) by (unfold e_size; by rewrite En).
  pose proof (lookup_lt_Some _ _ _ Ex).
  set (loc := a + 96 + 96 * Z.of_nat (length (entries root)) + sum_sizes (take j (entries root))) in *.
  assert (FA : file_at (with_mem m s1) (Z.of_nat j) loc data) by (eapply layout_file; [exact Lm|reflexivity|exact Ex|exact En|lia|lia|lia]).
  destruct (read_chunks_run fuel (with_mem m s1) (rdfs_open_file_id (Z.of_nat j) flags) loc data buf size FA) as (s' & Rc); [cbn; lia|done| |cbn; lia|].
  { unfold s1; split; cbn [k_mem k_rdfs with_mem with_rdfs first_file rdfs_start file_id rdfs_open_file_id]; [intros y Hy; rewrite Vm; by apply V|done| | |]; unfold loc; lia. }
  exists s'. cbn [rdfs_open_file_id index] in Rc. by rewrite (bind_ok _ _ _ _ _ Rc).
Qed.

(** ** Concrete instances *)

(** "/config/a.txt" with the text "Hi" and "/b" with the text "yes". *)
Definition sample_tree : node :=
  directory [] [directory (str "config") [file (str "a.txt") (str "Hi")]; file (str "b") (str "yes")].
Definition sample_image : list Z := default [] (ramdisk sample_tree).

(** The image at 4096, paths and a buffer after it, a heap of 2048 bytes at 8192. *)
Definition place (a : Z) (l : list Z) : list (Z * Z) := imap (fun i b => (a + Z.of_nat i, b)) l.
Definition unmounted : kstate :=
  with_heap (HeapGlobals 0 0 0 2048)
    (boot_state (fun a => (4096 <=? a) && (a <? 10240))
      (list_to_map (place 4096 sample_image ++ place 5120 (str "/config/a.txt") ++ place 5200 (str "/config/b"))) 1).
Definition unmounted_heap : kstate := exec (kmalloc_init 8192) unmounted.

Lemma sample_tree_ok : tree_ok sample_tree.
Proof.
  repeat first [apply tree_ok_directory|apply tree_ok_file|constructor]; try (vm_compute; congruence); repeat constructor; vm_compute; congruence.
Qed.

Definition loadedb (m : mem) (a : Z) (l : list Z) : bool :=
  forallb (fun '(i, b) => bool_decide (ld8 m i = Some b)) (place a l).
Lemma loadedb_ok m a l : loadedb m a l = true -> loaded m a l.
Proof.
  unfold loadedb, loaded, place. rewrite forallb_forall. intros H i b E. specialize (H (a + Z.of_nat i, b)).
  apply bool_decide_eq_true in H; [done|]. apply list_elem_of_In, list_elem_of_lookup. exists i. rewrite list_lookup_imap, E. done.
Qed.

Lemma unmounted_heap_run : exists m, unmounted_heap = hstate m 8192 (init_heap unmounted 8192) /\ heap_rep unmounted_heap [Free 2048]
  /\ same_on (fun a => a < 8192) (k_mem unmounted) m /\ m_valid m = m_valid (k_mem unmounted).
Proof.
  destruct (kmalloc_init_run unmounted 8192) as (m & R & Rep & _ & S & V); [lia|reflexivity|vm_compute; congruence|reflexivity|reflexivity| |].
  { intros a Ha. cbn [k_heap unmounted with_heap kheap_size] in Ha. cbn [k_mem unmounted with_heap boot_state m_valid]. lia. }
  assert (E : unmounted_heap = hstate m 8192 (init_heap unmounted 8192)) by (unfold unmounted_heap, exec; by rewrite R).
  exists m. split; [done|]. split; [by rewrite E|]. split; [|done]. eapply same_on_weaken; [|exact S]. cbv beta. lia.
Qed.

Lemma unmounted_heap_loaded a l : loadedb (k_mem unmounted) a l = true -> a + Z.of_nat (length l) <= 8192 -> loaded (k_mem unmounted_heap) a l.
Proof.
  destruct unmounted_heap_run as (m & E & _ & S & _). intros L Hl i b Eb. pose proof (lookup_lt_Some _ _ _ Eb).
  rewrite E. cbn [k_mem hstate with_mem]. rewrite (S (a + Z.of_nat i)) by lia. by apply (loadedb_ok _ _ l L).
Qed.

Lemma ramdisk_roundtrip_witness :
  exists s', mount_and_read 3 4096 5120 0 6000 1 unmounted_heap = Ok (Some (str "Hi")) s'.
Proof.
  destruct unmounted_heap_run as (m & E & Rep & S & V).
  assert (Len : length sample_image = 509%nat) by (vm_compute; reflexivity).
  assert (L : loaded (k_mem unmounted_heap) 4096 sample_image) by (apply unmounted_heap_loaded; [vm_compute; reflexivity|lia]).
  assert (P : loaded (k_mem unmounted_heap) 5120 (str "/config/a.txt" ++ replicate 1 0)) by (apply unmounted_heap_loaded; [vm_compute; reflexivity|cbn; lia]).
  refine (ramdisk_roundtrip unmounted_heap sample_tree sample_image 4096 [Free 2048] 8192 2048 [] 5120 47 (str "config/a.txt") 0 6000 1 3
    _ sample_tree_ok L _ Rep _ _ _ _ _ _ _ _ _ _ _ _ _).
  - vm_compute. reflexivity.
  - vm_compute. repeat split; reflexivity.
  - rewrite E. reflexivity.
  - intros x Hx. unfold beyond, END_OF_HEAP. cbn [first_of]. lia.
  - apply (loaded_cstr _ _ _ 1 P); [repeat constructor; lia|lia].
  - lia.
  - cbn. lia.
  - cbn [length str]. unfold beyond, END_OF_HEAP. cbn [first_of]. lia.
  - apply path_fitsb_ok. vm_compute. reflexivity.
  - vm_compute. congruence.
  - intros x Hx. rewrite E. cbn [k_mem hstate with_mem]. rewrite V. cbn [k_mem unmounted with_heap boot_state m_valid]. lia.
  - lia.
  - lia.
  - right. vm_compute. congruence.
  - vm_compute. reflexivity.
Defined.

(** "/config/b" in the mounted image: the name and the list of "/config" stay allocated. *)
Definition mounted_sample : kstate := with_rdfs (RdfsGlobals 4096 4192 (Z.of_nat (length (entries sample_tree)))) unmounted_heap.

Lemma path_resolves_witness :
  exists m, same_on (beyond 8192 END_OF_HEAP 2048) (k_mem mounted_sample) m /\ m_valid m = m_valid (k_mem mounted_sample)
    /\ rdfs_file_get_id_from_path 5200 mounted_sample = Ok None (with_mem m (with_first_free (8192 + 26) mounted_sample)).
Proof.
  destruct unmounted_heap_run as (m & E & Rep & S & V).
  assert (Len : length sample_image = 509%nat) by (vm_compute; reflexivity).
  assert (HG : ramdisk sample_tree = Some sample_image) by (vm_compute; reflexivity).
  assert (L : loaded (k_mem unmounted_heap) 4096 sample_image) by (apply unmounted_heap_loaded; [vm_compute; reflexivity|lia]).
  assert (P : loaded (k_mem unmounted_heap) 5200 (str "/config/b" ++ replicate 1 0)) by (apply unmounted_heap_loaded; [vm_compute; reflexivity|cbn; lia]).
  destruct (mounted sample_tree sample_image 4096 HG sample_tree_ok ltac:(lia) _ L) as [_ I]. clear L.
  unfold mounted_sample. generalize dependent unmounted_heap. intros u E Rep P I.
  assert (W : walk (im_of (entries sample_tree)) 0 (components [] (str "config/b")) = Missing 26) by (vm_compute; reflexivity).
  assert (EF : frees (heap_start_adr (k_heap (with_rdfs (RdfsGlobals 4096 4192 (Z.of_nat (length (entries sample_tree)))) u))) [Free 2048] = [(8192, 2048)]).
  { cbn [k_heap with_rdfs]. rewrite E. reflexivity. }
  pose proof (path_resolves (with_rdfs (RdfsGlobals 4096 4192 (Z.of_nat (length (entries sample_tree)))) u) (im_of (entries sample_tree)) 4096 (4096 + Z.of_nat (length sample_image)) [Free 2048] 8192 2048 [] 5200 47 (str "config/b")
    Rep EF I) as R. rewrite W in R. apply R.
  - intros x Hx. unfold beyond, END_OF_HEAP. cbn [first_of]. lia.
  - apply (loaded_cstr _ _ _ 1 P); [repeat constructor; lia|lia].
  - lia.
  - cbn. lia.
  - cbn [length str]. unfold beyond, END_OF_HEAP. cbn [first_of]. lia.
  - apply path_fitsb_ok. vm_compute. reflexivity.
  - congruence.
Defined.
