(* ===== verification/Process.v ===== *)
(** * Processes: creation, exit, sleeping and loading programs

    [kernel_fork] and [exit_task] (src/scheduler/scheduler.c),
    [register_one_hit] (src/lib/software_timer.c), [get_task_pt_regs] and
    [move_to_userspace] (src/scheduler/task.c) and [elf_load]
    (src/lib/elf/elf.c).

    A task structure lives at the start of its kernel page and its saved user
    registers at the end.  The page allocator clears pages, so a new page read
    as these two structures is [zero_task] and [zero_regs]. *)

From S2P Require Export SchedTheorems PagingTheorems Rdfs.

Definition get_task_pt_regs (task : Z) : Z := u64 (task + TASK_SIZE - SIZEOF_PT_REGS).

Definition get_regs (a : Z) : K task_pt_regs := fun s =>
  match k_regs s !! a with Some r => Ok r s | None => Err (BadAccess a) end.
Definition put_regs (a : Z) (r : task_pt_regs) : K unit := put (fun s => with_regs (<[a := r]> (k_regs s)) s).

(** The page just allocated, read as a task and its registers. *)
Definition as_task (page : Z) : K unit :=
  put (fun s => with_regs (<[get_task_pt_regs page := zero_regs]> (k_regs s))
                 (with_tasks (<[page := zero_task]> (k_tasks s)) s)).

Definition set_x19_x20 (a b : Z) (c : cpu_context) : cpu_context :=
  CpuContext a b (x21 c) (x22 c) (x23 c) (x24 c) (x25 c) (x26 c) (x27 c) (x28 c) (fp c) (sp c) (pc c).
Definition set_sp_pc (a b : Z) (c : cpu_context) : cpu_context :=
  CpuContext (x19 c) (x20 c) (x21 c) (x22 c) (x23 c) (x24 c) (x25 c) (x26 c) (x27 c) (x28 c) (fp c) a b.
Definition set_reg0 (v : Z) (r : task_pt_regs) : task_pt_regs :=
  PtRegs (<[0%nat := v]> (regs r)) (pt_sp r) (pt_pc r) (pstate r).

Section process.
Context {O : PageOps}.
(** Address translation by the processor, as in [copy_virtual_memory], and the
    address of the assembly entry [ret_from_fork]. *)
Context (mmu : mem -> Z -> Z -> option Z) (ret_from_fork : Z).

(** The assignments to the new task once its page is there. *)
Definition init_child (clone_flags prio child : Z) (t : task_struct) : task_struct :=
  set_context (set_sp_pc child ret_from_fork (t_context t))
    (set_fd_table (FdTable 0 0)
      (set_state TASK_STATE_RUNNING
        (set_counter prio (set_priority prio (set_flags clone_flags (set_preempt 1 t)))))).

Definition kernel_fork (clone_flags fn args : Z) : K Z :=
  _ ← preempt_disable;
  page ← allocate_kernel_page;
  if page =? 0 then mret 0xFF
  else
    _ ← as_task page;
    let new_task := page in
    let child := get_task_pt_regs new_task in
    _ ← (if negb (Z.land clone_flags TASK_FLAGS_KERNEL_THREAD =? 0) then
           modify_task new_task (fun t => set_context (set_x19_x20 fn args (t_context t)) t)
         else
           cur ← get_current_task;
           r ← get_regs (get_task_pt_regs cur);
           _ ← put_regs child (set_reg0 0 r);
           _ ← copy_virtual_memory mmu new_task;
           mret tt);
    cur ← get_current_task;
    tc ← get_task cur;
    _ ← modify_task new_task (init_child clone_flags (priority tc) child);
    pid ← get (fun s => n_tasks (k_sched s));
    _ ← put (fun s => with_sched (SchedGlobals (current (k_sched s)) (task_array (k_sched s)) (u8 (n_tasks (k_sched s) + 1))) s);
    _ ← array_set pid new_task;
    _ ← preempt_enable;
    mret pid.

Definition exit_task : K unit :=
  _ ← preempt_disable;
  pid ← get_pid;
  p ← array_get pid;
  _ ← modify_task p (set_state TASK_STATE_ZOMBIE);
  _ ← destroy_fd_table;
  cur ← get_current_task;
  t ← get_task cur;
  _ ← when (negb (stack t =? 0)) (release_page (stack t));
  _ ← enable_irq;
  _ ← preempt_enable;
  schedule.

Definition register_body (delay_in_ms i : Z) : K (Z + unit) :=
  if i <? N_TIMERS then
    t ← timer_get i;
    if finish_time t =? 0 then
      now ← get (fun s => current_tick (k_timers s));
      let finish := u32 (now + SOFTWARE_TIMER_MS_TO_TICKS delay_in_ms) in
      _ ← timer_set i (OneHit finish (task_ptr t));
      task ← get_current_task;
      _ ← timer_set i (OneHit finish task);
      _ ← modify_task task (set_state TASK_STATE_BLOCKED);
      _ ← schedule;
      mret (inr tt)
    else mret (inl (u8 (i + 1)))
  else mret (inr tt).
Definition register_one_hit (delay_in_ms : Z) : K unit := loop (register_body delay_in_ms) 0.

Definition PSR_MODE_EL0t : Z := 0.
(** The upper and lower half of a 64-bit value, for [0x%08x%08x]. *)
Definition halves (v : Z) : list arg := [AInt (Z.shiftr v 32); AInt (Z.shiftr (u64 (Z.shiftl v 32)) 32)].

Definition move_to_userspace (start size entry task : Z) : K Z :=
  let a := get_task_pt_regs task in
  r ← get_regs a;
  _ ← put_regs a (PtRegs (regs r) (2 * PAGE_SIZE) entry PSR_MODE_EL0t);
  code_page ← allocate_user_page task 0;
  if code_page =? 0 then mret (-1)
  else
    _ ← memcpy code_page start size;
    t ← get_task task;
    _ ← printf (str "Setting page directory: 0x%08x%08x" ++ [10]) (halves (pagedirectory (t_mm t)));
    t ← get_task task;
    _ ← set_page_directory (pagedirectory (t_mm t));
    _ ← printf (str "pgd set" ++ [10]) [];
    mret 0.

(** ** src/lib/elf/elf.c *)

Definition ELF_MAGIC_NUMBER : list Z := [0x7F; 0x45; 0x4C; 0x46].
Definition ELF_MACHINE_AARCH64 : Z := 0xB7.
Definition ELF_WORD_LEN_64 : Z := 2.

(** The comparison of the first bytes with the magic number. *)
Definition check_magic (header : Z) : K bool :=
  for_range 4 0 (fun i ok =>
    if (ok : bool) then
      b ← load8 (ptr_add header i);
      mret (bool_decide (ELF_MAGIC_NUMBER !! Z.to_nat i = Some b))
    else mret false) true.

Definition elf_load (header : Z) : K Z :=
  ok ← check_magic header;
  if negb (ok : bool) then mret (-1)
  else
    machine ← load16 (ptr_add header 18);
    if negb (machine =? ELF_MACHINE_AARCH64) then mret (-1)
    else
      word_len ← load8 (ptr_add header 4);
      if negb (word_len =? ELF_WORD_LEN_64) then mret (-1)
      else
        e_phoff ← load64 (ptr_add header 32);
        let header1 := u64 (header + e_phoff) in
        p_offset ← load64 (ptr_add header1 8);
        let program := u64 (header + p_offset) in
        p_filesz ← load64 (ptr_add header1 32);
        e_entry ← load64 (ptr_add header 24);
        cur ← get_current_task;
        move_to_userspace program p_filesz e_entry cur.

End process.
