(* ===== verification/ProcessTheorems.v ===== *)
(** * Properties of process creation and sleeping *)

From S2P Require Export Process.

Section fork.
Context {O : PageOps} {Laws : PageLaws} (mmu : mem -> Z -> Z -> option Z) (ret_from_fork : Z).

(** The task structure of a new kernel thread at [p]. *)
Definition new_thread (p flags prio fn args : Z) : task_struct :=
  Task (CpuContext fn args 0 0 0 0 0 0 0 0 0 (get_task_pt_regs p) ret_from_fork)
    TASK_STATE_RUNNING prio prio 1 0 flags zero_mm (FdTable 0 0).

(** Room for one more task: the slot of the next pid is empty. *)
Definition fork_room (s : kstate) : Prop :=
  0 <= n_tasks (k_sched s) < 64 /\ task_array (k_sched s) !! Z.to_nat (n_tasks (k_sched s)) = Some 0.

Lemma allocate_kernel_page_run s i r : pages_mapped s -> free_list s = i :: r ->
  exists s', allocate_kernel_page s = Ok (page_addr i + VIRTUAL_ADDRESS_START) s' /\ fresh_page i s s'
    /\ page_addr i + VIRTUAL_ADDRESS_START <> 0.
Proof.
  intros HM EF. pose proof (next_free_page_run s HM) as R. rewrite EF in R. destruct R as (s' & R & F & Hi & _).
  destruct (page_index_value i Hi) as [B _]. pose proof (page_addr_pos i Hi). exists s'.
  unfold allocate_kernel_page. rewrite (bind_ok _ _ _ _ _ R). replace (page_addr i =? 0) with false by lia.
  unfold VIRTUAL_ADDRESS_START. rewrite u64_small by lia. split; [done|]. split; [done|lia].
Qed.

(** The end of [kernel_fork], from the state in which the new task at [p] has its
    registers and its pages. *)
Definition fork_tail (flags p : Z) : K Z :=
  cur ← get_current_task;
  tc ← get_task cur;
  _ ← modify_task p (init_child ret_from_fork flags (priority tc) (get_task_pt_regs p));
  pid ← get (fun s => n_tasks (k_sched s));
  _ ← put (fun s => with_sched (SchedGlobals (current (k_sched s)) (task_array (k_sched s)) (u8 (n_tasks (k_sched s) + 1))) s);
  _ ← array_set pid p;
  _ ← preempt_enable;
  mret pid.

Definition fork_done (s : kstate) (p : Z) (t : task_struct) : kstate :=
  let g := k_sched s in
  with_tasks (alter (add_preempt (-1)) (current g) (<[p := t]> (k_tasks s)))
    (with_sched (SchedGlobals (current g) (<[Z.to_nat (n_tasks g) := p]> (task_array g)) (u8 (n_tasks g + 1))) s).

Lemma fork_tail_run s flags p t tc : p <> current (k_sched s) ->
  k_tasks s !! p = Some t -> k_tasks s !! current (k_sched s) = Some tc ->
  0 <= n_tasks (k_sched s) < 64 -> length (task_array (k_sched s)) = 64%nat ->
  fork_tail flags p s
  = Ok (n_tasks (k_sched s)) (fork_done s p (init_child ret_from_fork flags (priority tc) (get_task_pt_regs p) t)).
Proof.
  intros N Ep Ec Hn Hl. unfold fork_tail, get_current_task, get_task. rewrite bind_get.
  unfold mbind at 1, M_bind at 1. rewrite Ec, (bind_ok _ _ _ _ _ (modify_task_ok _ _ _ _ Ep)).
  set (t' := init_child _ _ _ _ _). rewrite bind_get, bind_put. set (s1 := with_sched _ _).
  assert (R : array_set (n_tasks (k_sched s)) p s1 = Ok tt (with_sched (SchedGlobals (current (k_sched s))
    (<[Z.to_nat (n_tasks (k_sched s)) := p]> (task_array (k_sched s))) (u8 (n_tasks (k_sched s) + 1))) s1)).
  { unfold array_set. cbn [k_sched s1 with_sched with_tasks task_array current n_tasks]. rewrite Hl. by decb. }
  change (n_tasks (k_sched (with_tasks _ s))) with (n_tasks (k_sched s)).
  rewrite (bind_ok _ _ _ _ _ R). unfold preempt_enable, get_current_task. rewrite bind_assoc, bind_get.
  erewrite bind_ok; [|apply (modify_alter _ _ _ tc); cbn; by rewrite lookup_insert_ne]. done.
Qed.

(** The task map once the caller's preemption counter is back. *)
Lemma fork_tasks (tasks : gmap Z task_struct) cur p tc t : p <> cur -> tasks !! cur = Some tc -> preempt_count tc = 0 ->
  alter (add_preempt (-1)) cur (<[p := t]> (alter (add_preempt 1) cur tasks)) = <[p := t]> tasks.
Proof.
  intros N Ec Pc. apply map_eq. intros q. rewrite alter_by. destruct (Z.eq_dec q p) as [->|Nq].
  - rewrite !lookup_insert_eq. cbn. by rewrite (proj2 (Z.eqb_neq _ _) N).
  - rewrite !lookup_insert_ne, alter_by by done. destruct (Z.eqb_spec q cur) as [->|].
    + rewrite Ec. cbn. f_equal. destruct tc. cbn in *. unfold add_preempt, set_preempt. cbn. by subst.
    + by destruct (tasks !! q).
Qed.

(** The middle: the function of a kernel thread, or the caller's registers and pages. *)
Definition fork_copy (flags fn args p : Z) : K unit :=
  if negb (Z.land flags TASK_FLAGS_KERNEL_THREAD =? 0) then
    modify_task p (fun t => set_context (set_x19_x20 fn args (t_context t)) t)
  else
    cur ← get_current_task;
    r ← get_regs (get_task_pt_regs cur);
    _ ← put_regs (get_task_pt_regs p) (set_reg0 0 r);
    _ ← copy_virtual_memory mmu p;
    mret tt.

(** The start of [kernel_fork]: a page, cleared, for the new task. *)
Record fork_started (s s3 : kstate) (i p : Z) : Prop := {
  fs_tasks : k_tasks s3 = <[p := zero_task]> (alter (add_preempt 1) (current (k_sched s)) (k_tasks s));
  fs_regs : k_regs s3 = <[get_task_pt_regs p := zero_regs]> (k_regs s);
  fs_fresh : exists s2, fresh_page i (bump 1 (current (k_sched s)) s) s2 /\ s3 = with_regs (k_regs s3) (with_tasks (k_tasks s3) s2) }.

Lemma fork_start_run s i r tc flags fn args :
  let p := page_addr i + VIRTUAL_ADDRESS_START in
  pages_mapped s -> free_list s = i :: r -> k_tasks s !! current (k_sched s) = Some tc ->
  exists s3, fork_started s s3 i p
    /\ kernel_fork mmu ret_from_fork flags fn args s = (_ ← fork_copy flags fn args p; fork_tail flags p) s3.
Proof.
  intros p HM EF Ec. unfold kernel_fork, preempt_disable, get_current_task.
  rewrite bind_assoc, bind_get, (bind_ok _ _ _ _ _ (modify_alter _ _ _ _ Ec)). set (s1 := with_tasks _ s).
  destruct (allocate_kernel_page_run s1 i r HM) as (s2 & R2 & F2 & N2); [by rewrite (free_list_ext s1 s)|].
  rewrite (bind_ok _ _ _ _ _ R2). fold p in N2 |- *. rewrite (proj2 (Z.eqb_neq _ _) N2). unfold as_task. rewrite bind_put.
  eexists. split; [|reflexivity]. pose proof F2 as (_ & _ & _ & E2). split.
  - cbn. by rewrite E2.
  - cbn. by rewrite E2.
  - exists s2. split; [exact F2|done].
Qed.

Lemma fork_started_frame s s3 i p : fork_started s s3 i p ->
  k_sched s3 = k_sched s /\ k_timers s3 = k_timers s /\ k_cpu s3 = k_cpu s.
Proof. intros [_ _ (s2 & (_ & _ & _ & E2) & E3)]. rewrite E3. cbn. by rewrite E2. Qed.

Lemma kernel_fork_run s i r flags fn args tc :
  let p := page_addr i + VIRTUAL_ADDRESS_START in
  let cur := current (k_sched s) in
  pages_mapped s -> free_list s = i :: r -> p ∉ task_array (k_sched s) -> fork_room s ->
  cur ∈ task_array (k_sched s) -> length (task_array (k_sched s)) = 64%nat ->
  k_tasks s !! cur = Some tc -> preempt_count tc = 0 -> Z.land flags TASK_FLAGS_KERNEL_THREAD <> 0 ->
  exists s', kernel_fork mmu ret_from_fork flags fn args s = Ok (n_tasks (k_sched s)) s'
    /\ k_tasks s' = <[p := new_thread p flags (priority tc) fn args]> (k_tasks s)
    /\ k_sched s' = SchedGlobals cur (<[Z.to_nat (n_tasks (k_sched s)) := p]> (task_array (k_sched s))) (u8 (n_tasks (k_sched s) + 1))
    /\ k_timers s' = k_timers s
    /\ exists s2, fresh_page i (bump 1 cur s) s2 /\ k_mem s' = k_mem s2 /\ k_pages s' = k_pages s2 /\ k_console s' = k_console s.
Proof.
  intros p cur HM EF Hp [Hn _] Hcur Hlen Ec Pc Hfl. subst cur. assert (N : p <> current (k_sched s)) by (intros E; by rewrite <- E in Hcur).
  destruct (fork_start_run s i r tc flags fn args HM EF Ec) as (s3 & FS & ->). fold p in FS |- *.
  destruct (fork_started_frame _ _ _ _ FS) as (Es & Em & _). destruct FS as [Et _ (s2 & F2 & E3)].
  unfold fork_copy. rewrite (proj2 (Z.eqb_neq _ _) Hfl). cbn [negb].
  erewrite bind_ok; [|apply modify_task_ok; by rewrite Et, lookup_insert_eq].
  rewrite (fork_tail_run _ flags p (set_context (set_x19_x20 fn args (t_context zero_task)) zero_task) (add_preempt 1 tc));
    cbn [k_sched k_tasks k_timers with_tasks]; rewrite ?Es, ?Et; try done.
  - eexists. split; [done|]. unfold fork_done. cbn [k_sched k_tasks k_timers with_tasks with_sched]. rewrite ?Es, ?Et.
    split; [rewrite !insert_insert_eq; by rewrite (fork_tasks _ _ _ tc)|]. split; [done|]. split; [exact Em|].
    exists s2. split; [done|]. cbn [k_mem k_pages k_console with_tasks with_sched]. rewrite E3. do 2 (split; [done|]). destruct F2 as (_ & _ & _ & ->). done.
  - by rewrite lookup_insert_eq.
  - by rewrite !lookup_insert_ne, alter_by, Ec, Z.eqb_refl by done.
Qed.

(** The scheduler's invariant with one more task. *)
Lemma fork_inv s s' p n t :
  sched_inv s -> task_array (k_sched s) !! n = Some 0 -> p ∉ task_array (k_sched s) -> 0 < p -> (n < 64)%nat ->
  task_ok t -> preempt_count t = 1 -> 0 <= counter t ->
  k_tasks s' = <[p := t]> (k_tasks s) -> current (k_sched s') = current (k_sched s) ->
  task_array (k_sched s') = <[n := p]> (task_array (k_sched s)) -> k_timers s' = k_timers s -> sched_inv s'.
Proof.
  intros [[L [Cin C0] P I [Tl T]] B G] Hn Hp Hp0 Hn64 Ok Pt Ct Et Ec Ea Em.
  assert (Hin : forall q, q ∈ <[n := p]> (task_array (k_sched s)) -> q = p \/ q ∈ task_array (k_sched s)).
  { intros q [k [Hk|[_ Hk]]%list_lookup_insert_Some]%list_elem_of_lookup; [left; by destruct Hk as (_ & <- & _)|right; by eapply list_elem_of_lookup_2]. }
  assert (Old : forall q, q ∈ task_array (k_sched s) -> q <> 0 -> q ∈ <[n := p]> (task_array (k_sched s))).
  { intros q [k Hk]%list_elem_of_lookup Hq. apply list_elem_of_lookup. exists k. rewrite list_lookup_insert_ne; [done|].
    intros ->. congruence. }
  assert (Ne : forall q, q ∈ task_array (k_sched s) -> q <> p) by (intros q Hq ->; done).
  split; [split|..].
  - by rewrite Ea, length_insert.
  - rewrite Ec, Ea. split; [|done]. apply Old; [done|lia].
  - intros q Hq. rewrite Ea in Hq. destruct (Hin q Hq) as [->|Hq'].
    + right. split; [done|]. exists t. by rewrite Et, lookup_insert_eq.
    + destruct (P q Hq') as [->|(Hq0 & tq & Eq & Oq)]; [by left|right]. split; [done|]. exists tq.
      rewrite Et, lookup_insert_ne; [done|]. intros E. by apply (Ne q).
  - intros i j q. rewrite Ea. intros Hi Hj Hq. apply list_lookup_insert_Some in Hi, Hj.
    destruct Hi as [(<- & <- & _)|(Ni & Hi)], Hj as [(<- & E & _)|(Nj & Hj)]; try done.
    + apply list_elem_of_lookup_2 in Hj. done.
    + subst q. apply list_elem_of_lookup_2 in Hi. done.
    + by eapply I.
  - split; rewrite Em; [done|]. eapply Forall_impl; [exact T|]. intros x Hx Hxp. rewrite Et.
    destruct (Z.eq_dec p (task_ptr x)) as [->|]; [rewrite lookup_insert_eq; eauto|]. rewrite lookup_insert_ne by done. by apply Hx.
  - intros q tq Hq Hq0 Eq. rewrite Ea in Hq. rewrite Et in Eq. rewrite Ec. destruct (Hin q Hq) as [->|Hq'].
    + rewrite lookup_insert_eq in Eq. injection Eq as <-. replace (p =? current (k_sched s)) with false; [done|].
      symmetry. apply Z.eqb_neq. intros E. apply (Ne (current (k_sched s))); done.
    + rewrite lookup_insert_ne in Eq by (intros E; by apply (Ne q)). by apply B.
  - destruct G as (q & tq & Hq & Hq0 & Eq & Sq & Pq). exists q, tq. rewrite Ea, Et.
    split; [by apply Old|]. split; [done|]. rewrite lookup_insert_ne by (intros E; by apply (Ne q)). done.
Qed.
(** ** Properties *)

(** The thread, the scheduler's invariant and the pages that are left. *)
Lemma fork_thread_run s i r flags fn args tc :
  let p := page_addr i + VIRTUAL_ADDRESS_START in
  sched_inv s -> pages_mapped s -> free_list s = i :: r -> p ∉ task_array (k_sched s) -> fork_room s ->
  k_tasks s !! current (k_sched s) = Some tc -> Z.land flags TASK_FLAGS_KERNEL_THREAD <> 0 ->
  exists s', kernel_fork mmu ret_from_fork flags fn args s = Ok (n_tasks (k_sched s)) s'
    /\ k_sched s' = SchedGlobals (current (k_sched s)) (<[Z.to_nat (n_tasks (k_sched s)) := p]> (task_array (k_sched s))) (u8 (n_tasks (k_sched s) + 1))
    /\ k_tasks s' = <[p := new_thread p flags (priority tc) fn args]> (k_tasks s)
    /\ sched_inv s' /\ pages_mapped s' /\ free_list s' = r /\ k_console s' = k_console s /\ k_timers s' = k_timers s.
Proof.
  intros p I HM EF Hp Hroom Ec Hfl. pose proof (si_wf _ I) as W. destruct (sw_cur _ W) as [Hc Hc0].
  destruct (si_balanced _ I _ _ Hc ltac:(lia) Ec) as [Pc _]. rewrite Z.eqb_refl in Pc.
  destruct (kernel_fork_run s i r flags fn args tc HM EF Hp Hroom Hc (sw_len _ W) Ec Pc Hfl) as (s' & R & Et & Es & Em & s2 & F2 & Mm & Mp & Mc).
  fold p in Et, Es. exists s'. split; [done|]. split; [done|]. split; [done|]. split; [|split; [|split; [|by split]]].
  2: { intros k Hk a Ha. rewrite Mm. by apply (fresh_page_mapped _ _ _ F2 HM k Hk). }
  2: { rewrite (free_list_ext s' s2) by done. eapply free_list_fresh; [|exact F2]. by rewrite (free_list_ext _ s). }
  destruct (current_task s W) as (t0 & E0 & [_ Pr]). rewrite Ec in E0. injection E0 as <-.
  destruct (free_list_next s i r EF) as [Hi _]. destruct (page_index_value i Hi) as [B _].
  destruct Hroom as [Hn Hslot].
  eapply (fork_inv s s' p (Z.to_nat (n_tasks (k_sched s))) (new_thread p flags (priority tc) fn args)); try done.
  - unfold p, VIRTUAL_ADDRESS_START. lia.
  - lia.
  - unfold task_ok, MAX_COUNTER. cbn. lia.
  - cbn. lia.
  - by rewrite Es.
  - by rewrite Es.
Qed.

(** C15. Forking a kernel thread takes the next pid, installs in that slot a task
    that starts at [ret_from_fork] with its function and argument in x19 and
    x20, runnable, with the caller's priority as its credit and preemption held
    once; no other task changes and the scheduler's invariant still holds. *)
Theorem kernel_fork_creates_thread s i r flags fn args tc :
  let p := page_addr i + VIRTUAL_ADDRESS_START in
  sched_inv s -> pages_mapped s -> free_list s = i :: r -> p ∉ task_array (k_sched s) -> fork_room s ->
  k_tasks s !! current (k_sched s) = Some tc -> Z.land flags TASK_FLAGS_KERNEL_THREAD <> 0 ->
  exists s', kernel_fork mmu ret_from_fork flags fn args s = Ok (n_tasks (k_sched s)) s'
    /\ task_array (k_sched s') = <[Z.to_nat (n_tasks (k_sched s)) := p]> (task_array (k_sched s))
    /\ k_tasks s' = <[p := new_thread p flags (priority tc) fn args]> (k_tasks s)
    /\ current (k_sched s') = current (k_sched s) /\ sched_inv s'.
Proof.
  intros p I HM EF Hp Hroom Ec Hfl. destruct (fork_thread_run s i r flags fn args tc I HM EF Hp Hroom Ec Hfl) as (s' & R & Es & Et & I' & _).
  exists s'. rewrite Es. by split.
Qed.

(** When no page is left [kernel_fork] returns 0xFF without the matching
    [preempt_enable]: the caller keeps preemption disabled and no later tick
    takes the processor from it. *)
Theorem kernel_fork_failure_keeps_preemption_off s flags fn args tc n :
  sched_inv s -> pages_mapped s -> free_list s = [] -> k_tasks s !! current (k_sched s) = Some tc ->
  - 2 ^ 31 + Z.of_nat n < counter tc ->
  exists s' s2, kernel_fork mmu ret_from_fork flags fn args s = Ok 0xFF s' /\ s' = bump 1 (current (k_sched s)) s
    /\ run_sched_ops (replicate n OpTick) s' = Ok tt s2 /\ current (k_sched s2) = current (k_sched s).
Proof.
  intros I HM EF Ec Hn. pose proof (si_wf _ I) as W. destruct (sw_cur _ W) as [Hc Hc0].
  destruct (si_balanced _ I _ _ Hc ltac:(lia) Ec) as [Pc _]. rewrite Z.eqb_refl in Pc.
  destruct (current_task s W) as (t0 & E0 & Ok0). rewrite Ec in E0. injection E0 as <-.
  set (s' := bump 1 (current (k_sched s)) s).
  assert (E' : k_tasks s' !! current (k_sched s') = Some (add_preempt 1 tc)).
  { change (current (k_sched s')) with (current (k_sched s)). unfold s'. rewrite (bump_by 1), Ec. cbn. by rewrite Z.eqb_refl. }
  destruct (ticks_run n s' (add_preempt 1 tc) E') as (s2 & R & Es & _); [done|done|right; cbn; by rewrite Pc|].
  exists s', s2. split; [|split; [done|split; [done|by rewrite Es]]].
  unfold kernel_fork, preempt_disable, get_current_task. rewrite bind_assoc, bind_get, (bind_ok _ _ _ _ _ (modify_alter _ _ _ _ Ec)).
  change (with_tasks _ s) with s'. unfold allocate_kernel_page. rewrite bind_assoc.
  pose proof (next_free_page_run s' HM) as R0. rewrite (free_list_ext s' s), EF in R0 by done. by rewrite (bind_ok _ _ _ _ _ R0).
Qed.

End fork.

(** ** Sleeping *)

(** The running task in the state [st], with the timers [tm]. *)
Definition halted (st : TaskState) (tm : timer_globals) (s : kstate) : kstate :=
  with_timers tm (with_tasks (alter (set_state st) (current (k_sched s)) (k_tasks s)) s).
(** The running task blocked until tick [finish], with timer [i]. *)
Definition asleep (finish : Z) (i : nat) (s : kstate) : kstate :=
  halted TASK_STATE_BLOCKED
    (TimerGlobals (<[i := OneHit finish (current (k_sched s))]> (timer_arr (k_timers s))) (current_tick (k_timers s))) s.

(** Timer [i] is the first one that is not in use. *)
Definition free_timer (s : kstate) (i : nat) : Prop :=
  (exists t, timer_arr (k_timers s) !! i = Some t /\ finish_time t = 0)
  /\ forall j t, (j < i)%nat -> timer_arr (k_timers s) !! j = Some t -> finish_time t <> 0.

(** Another task can run. *)
Definition other_progress (s : kstate) : Prop :=
  exists q t, q ∈ task_array (k_sched s) /\ q <> 0 /\ q <> current (k_sched s) /\ k_tasks s !! q = Some t
    /\ state t = TASK_STATE_RUNNING /\ 1 <= priority t.

Lemma halted_inv st tm s : sched_inv s -> other_progress s -> length (timer_arr tm) = 5%nat ->
  (forall t, t ∈ timer_arr tm -> task_ptr t = current (k_sched s) \/ t ∈ timer_arr (k_timers s)) -> sched_inv (halted st tm s).
Proof.
  intros [W B _] (q & tq & Hq & Hq0 & Nq & Eq & Sq & Pq) Lt Ht. pose proof (current_task s W) as (tc & Ec & _).
  assert (F : tasks_by (fun p t => if p =? current (k_sched s) then set_state st t else t) s (halted st tm s)) by (intros p; apply alter_by).
  split.
  - eapply sched_wf_by; [done|exact F| |done|apply W|].
    + intros p t Hp. cbn. by destruct (p =? _).
    + destruct (sw_timers _ W) as [_ T]. split; [done|]. apply Forall_forall. intros t Hin Hp. rewrite F.
      destruct (Ht t Hin) as [->|Hin']; [rewrite Ec; eauto|]. rewrite Forall_forall in T. destruct (T t Hin' Hp) as [? ->]. eauto.
  - intros p t Hp Hp0 E. rewrite F in E. destruct (k_tasks s !! p) as [t0|] eqn:E0; cbn in E; [|done]. injection E as <-.
    destruct (B p t0 Hp Hp0 E0) as [B1 B2]. change (current (k_sched (halted st tm s))) with (current (k_sched s)).
    rewrite <- B1. cbv beta. by destruct (p =? current (k_sched s)).
  - exists q, tq. split; [done|]. split; [done|]. rewrite F, Eq. cbn. by replace (q =? current (k_sched s)) with false by lia.
Qed.

Lemma asleep_inv finish i s : sched_inv s -> other_progress s -> sched_inv (asleep finish i s).
Proof.
  intros I OP. apply halted_inv; [done|done|cbn [timer_arr]; rewrite length_insert; apply (sw_timers _ (si_wf _ I))|].
  intros t [j Hj]%list_elem_of_lookup. cbn [timer_arr] in Hj.
  apply list_lookup_insert_Some in Hj as [(_ & <- & _)|[_ Hj]]; [by left|right; by eapply list_elem_of_lookup_2].
Qed.

Lemma register_body_skip d s j t : (j < 5)%nat -> timer_arr (k_timers s) !! j = Some t -> finish_time t <> 0 ->
  register_body d (Z.of_nat j) s = Ok (inl (Z.of_nat j + 1)) s.
Proof.
  intros Hj E Hf. unfold register_body, N_TIMERS. decb. unfold timer_get. unfold mbind at 1, M_bind at 1.
  rewrite Nat2Z.id, E. decb. replace (finish_time t =? 0) with false by lia. by uw.
Qed.

Lemma register_body_take d s i t tc : timer_arr (k_timers s) !! i = Some t -> length (timer_arr (k_timers s)) = 5%nat ->
  finish_time t = 0 -> k_tasks s !! current (k_sched s) = Some tc ->
  register_body d (Z.of_nat i) s
  = (_ ← schedule; mret (inr tt)) (asleep (u32 (current_tick (k_timers s) + d / 100)) i s).
Proof.
  intros E Hl Hf Ec. pose proof (lookup_lt_Some _ _ _ E) as Hi. unfold register_body, N_TIMERS. replace (Z.of_nat i <? 5) with true by lia.
  unfold timer_get. unfold mbind at 1, M_bind at 1. rewrite Nat2Z.id, E. replace (0 <=? Z.of_nat i) with true by lia.
  rewrite Hf. cbn [Z.eqb]. rewrite bind_get. cbv zeta. set (fin := u32 _).
  assert (Set1 : forall x s', length (timer_arr (k_timers s')) = 5%nat ->
    timer_set (Z.of_nat i) x s' = Ok tt (with_timers (TimerGlobals (<[i := x]> (timer_arr (k_timers s'))) (current_tick (k_timers s'))) s')).
  { intros x s' Hl'. unfold timer_set. rewrite Hl', Nat2Z.id. rewrite Hl in Hi. by decb. }
  rewrite (bind_ok _ _ _ _ _ (Set1 _ s Hl)). unfold get_current_task. rewrite bind_get.
  set (s1 := with_timers _ s). change (current (k_sched s1)) with (current (k_sched s)).
  assert (Hl1 : length (timer_arr (k_timers s1)) = 5%nat) by (cbn; by rewrite length_insert).
  rewrite (bind_ok _ _ _ _ _ (Set1 _ s1 Hl1)). erewrite bind_ok; [|apply (modify_alter _ _ _ tc); exact Ec].
  unfold s1. cbn [k_timers with_timers timer_arr current_tick]. rewrite list_insert_insert_eq. done.
Qed.

(** A decision keeps the state of a task that no expired timer names. *)
Lemma decision_unwoken s r p t : woken (current_tick (k_timers s)) (timer_arr (k_timers s)) p = false ->
  k_tasks s !! p = Some t -> exists t', k_tasks (decision_state s r) !! p = Some t' /\ state t' = state t.
Proof.
  intros T E. unfold decision_state.
  destruct (recharges_task r (after_check (bump 1 (current (k_sched s)) s)) p
    (if p =? current (k_sched s) then add_preempt 1 t else t)) as (t' & E' & H).
  - rewrite after_check_task, (bump_by 1 (current (k_sched s)) s), E. cbn. unfold wake. by rewrite T.
  - exists t'. split; [done|]. rewrite H. by destruct (p =? _).
Qed.

Lemma asleep_unwoken finish i s : Forall (fun t => task_ptr t <> current (k_sched s)) (timer_arr (k_timers s)) ->
  current_tick (k_timers s) < finish ->
  woken (current_tick (k_timers s)) (<[i := OneHit finish (current (k_sched s))]> (timer_arr (k_timers s))) (current (k_sched s)) = false.
Proof.
  intros T Hf. unfold woken. apply not_true_is_false. intros H. apply existsb_exists in H as (x & Hx & C).
  apply andb_prop in C as [C1 C2]. unfold expired in C1. apply andb_prop in C1 as [_ C1].
  apply list_elem_of_In, list_elem_of_lookup in Hx as [j [(_ & <- & _)|[_ Hj]]%list_lookup_insert_Some]; [cbn in C1; lia|].
  rewrite Forall_lookup in T. apply (T j x Hj). lia.
Qed.

(** A running task that is halted and that no expired timer names leaves the
    processor to another task. *)
Lemma leaves_processor s tc : let cur := current (k_sched s) in
  sched_inv s -> k_tasks s !! cur = Some tc -> state tc <> TASK_STATE_RUNNING ->
  woken (current_tick (k_timers s)) (timer_arr (k_timers s)) cur = false ->
  exists s' t', schedule s = Ok tt s' /\ sched_inv s' /\ current (k_sched s') <> cur
    /\ k_tasks s' !! cur = Some t' /\ state t' = state tc /\ k_console s' = k_console s
    /\ timer_arr (k_timers s') = clear_expired (current_tick (k_timers s)) <$> timer_arr (k_timers s).
Proof.
  intros cur I Ec Hs NW. rewrite (schedule_yields s I). set (z := yielded s). pose proof (yielded_inv _ I : sched_inv z) as [W B P].
  destruct (current_slot z W) as (start & Hst & Es).
  destruct (_schedule_run z start W (after_check_progress z P) Hst Es) as (r & j & c & q & R & (k & _ & _ & Ec' & _) & _ & _ & Eq & Hq).
  assert (Hin : q ∈ task_array (k_sched z)) by (by apply list_elem_of_lookup_2 in Eq).
  assert (Ez : k_tasks z !! cur = Some (set_counter 0 tc)) by (unfold z, yielded; cbn [k_tasks with_tasks]; unfold cur in *; by rewrite lookup_alter_eq, Ec).
  destruct (decision_unwoken z r cur _ NW Ez) as (t1 & E1 & S1). change (state (set_counter 0 tc)) with (state tc) in S1.
  destruct (cand_inv _ _ _ Ec') as (q' & tq & Eq' & _ & Etq & Sq & _). rewrite decision_sched, Eq in Eq'. injection Eq' as <-.
  destruct (switched_task z r q cur t1 E1 ltac:(eauto)) as (t2 & E2 & _ & _ & S2 & _).
  exists (switched z r q), t2. split; [done|]. split; [by apply switched_inv; [|apply after_check_progress|..]|].
  split; [rewrite switched_current by done; intros ->; rewrite E1 in Etq; injection Etq as <-; congruence|].
  split; [done|]. split; [congruence|]. split; [by rewrite (proj2 (switched_kept z r q))|].
  by rewrite switched_timers by eauto.
Qed.

(** [register_one_hit] with the first free timer is the decision that follows. *)
Lemma register_one_hit_asleep s d i tc s' :
  sched_wf s -> free_timer s i -> k_tasks s !! current (k_sched s) = Some tc ->
  schedule (asleep (u32 (current_tick (k_timers s) + d / 100)) i s) = Ok tt s' -> register_one_hit d s = Ok tt s'.
Proof.
  intros W [(t & Ei & Hf) Hlow] Ec R. destruct (sw_timers _ W) as [Hl _]. pose proof (lookup_lt_Some _ _ _ Ei) as Hi. rewrite Hl in Hi.
  unfold register_one_hit. apply (search_first _ _ _ _ (Z.of_nat i)); [lia| |].
  - intros j' Hj'. destruct (lookup_lt_is_Some_2 (timer_arr (k_timers s)) (Z.to_nat j')) as [x Ex]; [rewrite Hl; lia|].
    rewrite <- (Z2Nat.id j') by lia. apply (register_body_skip d s _ x); [lia|done|]. eapply Hlow; [|exact Ex]. lia.
  - rewrite (register_body_take d s i t tc Ei Hl Hf Ec). by rewrite (bind_ok _ _ _ _ _ R).
Qed.

Lemma register_one_hit_run s d i tc :
  let finish := current_tick (k_timers s) + d / 100 in
  sched_inv s -> other_progress s -> free_timer s i -> k_tasks s !! current (k_sched s) = Some tc ->
  Forall (fun t => task_ptr t <> current (k_sched s)) (timer_arr (k_timers s)) ->
  100 <= d -> 0 <= current_tick (k_timers s) -> finish < 2 ^ 32 ->
  exists s' t', register_one_hit d s = Ok tt s' /\ sched_inv s'
    /\ current (k_sched s') <> current (k_sched s)
    /\ k_tasks s' !! current (k_sched s) = Some t' /\ state t' = TASK_STATE_BLOCKED
    /\ timer_arr (k_timers s') !! i = Some (OneHit finish (current (k_sched s))) /\ k_console s' = k_console s.
Proof.
  intros finish I OP FT Ec T Hd H0 Hfin. set (cur := current (k_sched s)) in *.
  assert (Hfn : current_tick (k_timers s) < finish) by (unfold finish; Z.to_euclidean_division_equations; lia).
  destruct (sw_timers _ (si_wf _ I)) as [Hl _].
  assert (Ez : k_tasks (asleep finish i s) !! cur = Some (set_state TASK_STATE_BLOCKED tc)).
  { unfold asleep, halted. cbn [k_tasks with_timers with_tasks]. unfold cur in *. by rewrite lookup_alter_eq, Ec. }
  destruct (leaves_processor (asleep finish i s) _ (asleep_inv finish i s I OP) Ez ltac:(done) (asleep_unwoken finish i s T Hfn))
    as (s' & t' & R & I' & Nc & E' & S' & Co & Ta).
  exists s', t'. split; [|split; [done|split; [done|split; [done|split; [done|split; [|done]]]]]].
  - apply (register_one_hit_asleep s d i tc); [apply I|done|done|]. fold finish. by rewrite u32_small by lia.
  - rewrite Ta, list_lookup_fmap. change (timer_arr (k_timers (asleep finish i s))) with (<[i := OneHit finish cur]> (timer_arr (k_timers s))).
    destruct FT as [(t & Ei & _) _]. pose proof (lookup_lt_Some _ _ _ Ei) as Hi.
    rewrite list_lookup_insert_eq by exact Hi. cbn. unfold clear_expired, expired. cbn.
    replace (finish <=? current_tick (k_timers s)) with false by lia. by rewrite andb_false_r.
Qed.

(** [register_one_hit] with a delay of at least one tick blocks the caller,
    arms the first unused timer with the tick at which the delay has passed and
    switches to another task; the caller cannot be chosen before that tick and
    the scheduler's invariant holds. *)
Theorem register_one_hit_sleeps s d i tc :
  let finish := current_tick (k_timers s) + d / 100 in
  sched_inv s -> other_progress s -> free_timer s i -> k_tasks s !! current (k_sched s) = Some tc ->
  Forall (fun t => task_ptr t <> current (k_sched s)) (timer_arr (k_timers s)) ->
  100 <= d -> 0 <= current_tick (k_timers s) -> finish < 2 ^ 32 ->
  exists s' t', register_one_hit d s = Ok tt s' /\ sched_inv s'
    /\ current (k_sched s') <> current (k_sched s)
    /\ k_tasks s' !! current (k_sched s) = Some t' /\ state t' = TASK_STATE_BLOCKED
    /\ timer_arr (k_timers s') !! i = Some (OneHit finish (current (k_sched s))).
Proof.
  intros finish I OP FT Ec T Hd H0 Hfin. destruct (register_one_hit_run s d i tc I OP FT Ec T Hd H0 Hfin) as (s' & t' & R & I' & N & E & S' & Ta & _).
  by exists s', t'.
Qed.

(** ** The end of a task *)

(** [exit_task] of a task without descriptors and without a stack page is the
    decision that follows, with interrupts enabled. *)
Definition exited (s : kstate) : kstate :=
  let zs := halted TASK_STATE_ZOMBIE (k_timers s) s in with_cpu (Cpu (c_regs (k_cpu zs)) (ttbr0 (k_cpu zs)) false) zs.

Lemma exit_task_exited `{P : PageOps} s tc : let cur := current (k_sched s) in
  sched_inv s -> k_tasks s !! cur = Some tc -> fd_table tc = FdTable 0 0 -> stack tc = 0 -> exit_task s = schedule (exited s).
Proof.
  intros cur I Ec Ef Et. pose proof (si_wf _ I) as W. destruct (sw_cur _ W) as [Hc Hc0].
  destruct (si_balanced _ I _ _ Hc ltac:(lia) Ec) as [Pc _]. rewrite Z.eqb_refl in Pc.
  destruct (current_slot s W) as (start & Hst & Es).
  set (s1 := bump 1 cur s). assert (W1 : sched_wf s1) by by apply bump_wf.
  assert (E1 : k_tasks s1 !! cur = Some (add_preempt 1 tc)) by (unfold s1; rewrite (bump_by 1), Ec; cbn; by rewrite Z.eqb_refl).
  unfold exit_task, preempt_disable, preempt_enable, get_current_task. rewrite bind_assoc, bind_get, (bind_ok _ _ _ _ _ (modify_alter _ _ _ _ Ec)).
  change (with_tasks _ s) with s1. rewrite (bind_ok _ _ _ _ _ (get_pid_run s1 start W1 Hst Es)), (bind_ok _ _ _ _ _ (array_get_ok s1 start cur (proj1 Hst) Es)).
  rewrite (bind_ok _ _ _ _ _ (modify_alter _ _ _ _ E1)). set (s2 := with_tasks _ s1).
  assert (E2 : k_tasks s2 !! cur = Some (set_state TASK_STATE_ZOMBIE (add_preempt 1 tc))) by (cbn [s2 k_tasks with_tasks]; by rewrite lookup_alter_eq, E1).
  assert (G : get_task cur s2 = Ok (set_state TASK_STATE_ZOMBIE (add_preempt 1 tc)) s2) by (unfold get_task; by rewrite E2).
  assert (Rd : destroy_fd_table s2 = Ok tt s2).
  { unfold destroy_fd_table, current_fd_table, get_current_task. rewrite !bind_assoc, bind_get. change (current (k_sched s2)) with cur.
    rewrite bind_assoc, (bind_ok _ _ _ _ _ G), bind_ret. cbn [fd_table set_state add_preempt set_preempt]. rewrite Ef. cbn [fd_bitmap].
    assert (K0 : kfree 0 s2 = Ok tt s2) by done. rewrite (bind_ok _ _ _ _ _ K0).
    rewrite !bind_assoc, bind_get. change (current (k_sched s2)) with cur. rewrite bind_assoc, (bind_ok _ _ _ _ _ G), bind_ret.
    cbn [fd_table set_state add_preempt set_preempt]. by rewrite Ef. }
  rewrite (bind_ok _ _ _ _ _ Rd), bind_get. change (current (k_sched s2)) with cur. rewrite (bind_ok _ _ _ _ _ G).
  cbn [stack set_state add_preempt set_preempt]. rewrite Et. cbn [Z.eqb negb when]. rewrite bind_ret. unfold enable_irq. rewrite bind_put.
  set (s3 := with_cpu _ s2). rewrite bind_assoc, bind_get. change (current (k_sched s3)) with cur.
  rewrite (bind_ok _ _ _ _ _ (modify_alter _ _ s3 _ E2)). f_equal.
  unfold exited, halted, s3, s2, s1, bump. unfold with_tasks, with_cpu, with_timers. cbn. f_equal.
  apply map_eq. intros q. fold cur. destruct (Z.eq_dec q cur) as [->|N]; [|by rewrite !lookup_alter_ne by done].
  rewrite !lookup_alter_eq, Ec. cbn. f_equal. unfold set_state, add_preempt, set_preempt. cbn. rewrite Pc. by destruct tc; cbn in *; subst.
Qed.

Lemma exited_inv s : sched_inv s -> other_progress s -> sched_inv (exited s).
Proof. intros I OP. apply masked_inv, halted_inv; [done|done|apply (sw_timers _ (si_wf _ I))|by right]. Qed.

Lemma exit_task_run `{P : PageOps} s tc : let cur := current (k_sched s) in
  sched_inv s -> other_progress s -> k_tasks s !! cur = Some tc -> fd_table tc = FdTable 0 0 -> stack tc = 0 ->
  Forall (fun t => task_ptr t <> cur) (timer_arr (k_timers s)) ->
  exists s', exit_task s = Ok tt s' /\ sched_inv s' /\ stopped cur s' /\ k_console s' = k_console s
    /\ exists t', k_tasks s' !! cur = Some t' /\ state t' = TASK_STATE_ZOMBIE.
Proof.
  intros cur I OP Ec Ef Et T. destruct (sw_cur _ (si_wf _ I)) as [_ Hc0].
  assert (Ez : k_tasks (exited s) !! cur = Some (set_state TASK_STATE_ZOMBIE tc)) by (unfold exited, halted; cbn [k_tasks with_cpu with_timers with_tasks]; unfold cur in *; by rewrite lookup_alter_eq, Ec).
  destruct (leaves_processor (exited s) _ (exited_inv s I OP) Ez ltac:(done) (unarmed_not_woken _ _ _ T)) as (s' & t' & R & I' & Nc & E' & S' & Co & Ta).
  exists s'. split; [by rewrite (exit_task_exited s tc)|split; [done|split; [|split; [done|by exists t']]]].
  split; [unfold cur; lia|]. split; [done|]. split; [exists t'; split; [done|by rewrite S']|]. rewrite Ta. apply Forall_fmap. eapply Forall_impl; [exact T|].
  intros x Hx. cbn. unfold clear_expired. destruct (expired _ x); [cbn; unfold cur; lia|done].
Qed.

(** When all five timers are in use [register_one_hit] returns at once: the
    caller is neither blocked nor delayed. *)
Theorem register_one_hit_without_timer s d :
  length (timer_arr (k_timers s)) = 5%nat -> (forall i, ~ free_timer s i) -> register_one_hit d s = Ok tt s.
Proof.
  intros Hl H.
  assert (All : forall n : nat, forall j t, (j < n)%nat -> timer_arr (k_timers s) !! j = Some t -> finish_time t <> 0).
  { induction n as [|n IH]; intros j t Hj E; [lia|]. destruct (decide (j = n)) as [->|]; [|apply (IH j t); [lia|done]].
    intros Hf. apply (H n). split; [by exists t|]. exact IH. }
  unfold register_one_hit. apply (search_first _ _ _ _ 5); [lia| |done]. intros j Hj.
  destruct (lookup_lt_is_Some_2 (timer_arr (k_timers s)) (Z.to_nat j)) as [x Ex]; [rewrite Hl; lia|].
  rewrite <- (Z2Nat.id j) by lia. apply (register_body_skip d s _ x); [lia|done|]. eapply (All 5%nat); [|exact Ex]. lia.
Qed.

(** ** Concrete instances *)

(** The three tasks of [sample_sched], with the kernel's pages mapped. *)
Definition tasks_on (x : kstate) : kstate := with_tasks (k_tasks sample_sched) (with_sched (k_sched sample_sched) x).
Definition fork_sample : kstate := tasks_on (pages_taken []).
Definition no_mmu (m : mem) (ttbr va : Z) : option Z := None.

Lemma tasks_on_inv x : k_timers x = k_timers sample_sched -> sched_inv (tasks_on x).
Proof.
  destruct x; cbn. intros ->. destruct sample_sched_inv as [[L C P I T] B G]. split; [split; try done|done|done].
Qed.

Lemma kernel_fork_creates_thread_witness :
  exists s', kernel_fork no_mmu 0x80000 2 0x90000 5 fork_sample = Ok 3 s'
    /\ task_array (k_sched s') = <[3%nat := 0xffff000000400000]> (task_array (k_sched fork_sample))
    /\ k_tasks s' = <[0xffff000000400000 := new_thread 0x80000 0xffff000000400000 2 1 0x90000 5]> (k_tasks fork_sample)
    /\ current (k_sched s') = 4096 /\ sched_inv s'.
Proof.
  apply (kernel_fork_creates_thread no_mmu 0x80000 fork_sample 0 (1 :: seqZ 2 (MM_NUM_OF_PAGES - 2)) 2 0x90000 5
    (sample_task TASK_STATE_RUNNING 2 1 0)).
  - by apply tasks_on_inv.
  - apply pages_taken_mapped.
  - apply free_list_boot.
  - intros H. apply three_slots in H. vm_compute in H. intuition discriminate.
  - split; [cbn; lia|reflexivity].
  - reflexivity.
  - discriminate.
Defined.

Definition fork_full : kstate := tasks_on (two_spaces (seqZ 0 MM_NUM_OF_PAGES)).
Lemma tasks_on_spaces l : sched_inv (tasks_on (two_spaces l)) /\ pages_mapped (tasks_on (two_spaces l))
  /\ free_list (tasks_on (two_spaces l)) = free_list (two_spaces l).
Proof. split; [by apply tasks_on_inv|split; [apply (pages_taken_mapped l)|by apply free_list_ext]]. Qed.

Lemma kernel_fork_failure_keeps_preemption_off_witness :
  exists s' s2, kernel_fork no_mmu 0x80000 2 0x90000 5 fork_full = Ok 0xFF s' /\ s' = bump 1 4096 fork_full
    /\ run_sched_ops (replicate 50 OpTick) s' = Ok tt s2 /\ current (k_sched s2) = 4096.
Proof.
  apply (kernel_fork_failure_keeps_preemption_off no_mmu 0x80000 fork_full 2 0x90000 5 (sample_task TASK_STATE_RUNNING 2 1 0) 50).
  - apply tasks_on_spaces.
  - apply tasks_on_spaces.
  - unfold fork_full. rewrite (proj2 (proj2 (tasks_on_spaces _))). apply all_taken.
  - reflexivity.
  - cbn. lia.
Defined.

Lemma register_one_hit_sleeps_witness :
  exists s' t', register_one_hit 700 sample_sched = Ok tt s' /\ sched_inv s' /\ current (k_sched s') <> 4096
    /\ k_tasks s' !! 4096 = Some t' /\ state t' = TASK_STATE_BLOCKED
    /\ timer_arr (k_timers s') !! 0%nat = Some (OneHit 7 4096).
Proof.
  apply (register_one_hit_sleeps sample_sched 700 0 (sample_task TASK_STATE_RUNNING 2 1 0)); try lia.
  - apply sample_sched_inv.
  - exists 8192, (sample_task TASK_STATE_RUNNING 0 3 1). split; [right; left|]. done.
  - split; [eexists; split; reflexivity|lia].
  - reflexivity.
  - repeat constructor; discriminate.
  - cbn. lia.
  - reflexivity.
Defined.

Definition busy_timers : kstate := with_timers (TimerGlobals (replicate 5 (OneHit 9 8192)) 3) sample_sched.
Lemma register_one_hit_without_timer_witness : register_one_hit 700 busy_timers = Ok tt busy_timers.
Proof.
  apply register_one_hit_without_timer; [reflexivity|].
  intros i [(t & E & Hf) _]. apply lookup_replicate_1 in E as [-> _]. discriminate.
Defined.
