(* ===== verification/Processes.v ===== *)
(** * The process table: what the scheduler, the timers and fork promise together

    [table] is the kernel seen from its processes: the state of each by pid, which
    one runs, the tick count and the pages left.  [step] is what an operation of the
    kernel may do to it; a decision wakes the processes whose delay has passed and
    gives the processor to some process that is ready.  Every history of
    operations of the kernel is a history of this machine, so that properties of
    the machine are properties of the kernel. *)

From S2P Require Export ProcessTheorems.

(** ** The abstract machine *)

Inductive proc_state := Ready | Waiting (finish : Z) | Ended.
Record table := Table { procs : list proc_state; running : nat; now : Z; room : nat }.

#[export] Instance proc_state_eq_dec : EqDecision proc_state.
Proof. solve_decision. Defined.

Definition wake_proc (n : Z) (p : proc_state) : proc_state :=
  match p with Waiting f => if f <=? n then Ready else p | _ => p end.
Definition is_waiting (p : proc_state) : bool := match p with Waiting _ => true | _ => false end.
Definition sleepers (t : table) : nat := length (filter (fun p => is_waiting p = true) (procs t)).
Definition set_running (p : proc_state) (t : table) : table := Table (<[running t := p]> (procs t)) (running t) (now t) (room t).
Definition later (t : table) : table := Table (procs t) (running t) (now t + 1) (room t).

Inductive decides (t : table) : table -> Prop :=
  | decide_for q : (wake_proc (now t) <$> procs t) !! q = Some Ready ->
      decides t (Table (wake_proc (now t) <$> procs t) q (now t) (room t)).

Inductive process_op := PTick | PYield | PSleep (delay_in_ms : Z) | PExit | PSpawn (fn args : Z).

(** Five processes sleep at most: [register_one_hit] of a sixth returns at once. *)
Inductive step (t : table) : process_op -> table -> Prop :=
  | step_tick_stay : step t PTick (later t)
  | step_tick t' : decides (later t) t' -> step t PTick t'
  | step_yield t' : decides t t' -> step t PYield t'
  | step_sleep d t' : (sleepers t < 5)%nat -> decides (set_running (Waiting (now t + d / 100)) t) t' -> step t (PSleep d) t'
  | step_sleep_full d : (5 <= sleepers t)%nat -> step t (PSleep d) t
  | step_exit t' : decides (set_running Ended t) t' -> step t PExit t'
  | step_spawn fn args : step t (PSpawn fn args) (Table (procs t ++ [Ready]) (running t) (now t) (pred (room t))).

Inductive steps : table -> list process_op -> table -> Prop :=
  | steps_nil t : steps t [] t
  | steps_cons t1 op t2 ops t3 : step t1 op t2 -> steps t2 ops t3 -> steps t1 (op :: ops) t3.

(** Another process than the running one is ready. *)
Definition other_ready (t : table) : bool :=
  existsb (fun i => negb (i =? running t)%nat && bool_decide (procs t !! i = Some Ready)) (seq 0 (length (procs t))).

(** The operations the kernel is able to perform: the tick count does not wrap, a
    delay has at least one tick, a process that stops leaves one that can run, and
    a new one finds a pid and a page. *)
Definition enabled (t : table) (op : process_op) : bool :=
  match op with
  | PTick => now t + 1 <? 2 ^ 64
  | PYield => true
  | PSleep d => (100 <=? d) && (now t + d / 100 <? 2 ^ 32) && other_ready t
  | PExit => other_ready t
  | PSpawn _ _ => (length (procs t) <? 64)%nat && (0 <? room t)%nat
  end.

(** ** Properties of the machine *)

Definition live (t : table) : Prop := procs t !! running t = Some Ready.

Lemma decides_live t t' : decides t t' -> live t'.
Proof. by intros [q E]. Qed.
Lemma steps_app t1 ops1 t2 ops2 t3 : steps t1 ops1 t2 -> steps t2 ops2 t3 -> steps t1 (ops1 ++ ops2) t3.
Proof. induction 1; [done|]. intros H'. econstructor; eauto. Qed.

(** A process that has not ended and is not running keeps its state, but for waking. *)
Lemma decides_other t t' i p : decides t t' -> procs t !! i = Some p -> procs t' !! i = Some (wake_proc (now t) p).
Proof. intros [q _] E. cbn. by rewrite list_lookup_fmap, E. Qed.

Lemma decides_now t t' : decides t t' -> now t' = now t.
Proof. by intros [q _]. Qed.
Lemma step_now t op t' : step t op t' -> now t <= now t'.
Proof. intros []; try (apply decides_now in H as ->); try (apply decides_now in H0 as ->); cbn; lia. Qed.
Lemma steps_now t ops t' : steps t ops t' -> now t <= now t'.
Proof. induction 1; [done|]. apply step_now in H. lia. Qed.

Lemma step_other t op t' i p : step t op t' -> i <> running t -> procs t !! i = Some p ->
  procs t' !! i = Some p \/ procs t' !! i = Some (wake_proc (now t') p).
Proof.
  intros H N E. destruct H; cbn.
  1: by left.
  1-2, 3, 5: right; rewrite (decides_now _ _ ltac:(eassumption)); (eapply decides_other; [eassumption|]); cbn; by rewrite ?list_lookup_insert_ne by done.
  - by left.
  - left. by apply lookup_app_l_Some.
Qed.

(** What the process [i] in state [p] cannot leave before the ticks of [t']. *)
Definition held (t' : table) (p : proc_state) : Prop := p = Ended \/ exists f, p = Waiting f /\ now t' < f.

Lemma step_live t op t' : step t op t' -> live t -> live t'.
Proof.
  intros [] L; try exact L; try (by eapply decides_live). unfold live in *. cbn. by apply lookup_app_l_Some.
Qed.
Lemma held_wake t' p : held t' p -> wake_proc (now t') p = p.
Proof. intros [->|(f & -> & Hf)]; [done|]. cbn. by replace (f <=? now t') with false by lia. Qed.
Lemma held_earlier t t' p : now t <= now t' -> held t' p -> held t p.
Proof. intros H [->|(f & -> & Hf)]; [by left|right]. exists f. split; [done|lia]. Qed.
Lemma held_not_ready t p : held t p -> p <> Ready.
Proof. by intros [->|(f & -> & _)]. Qed.

Lemma steps_held t ops t' i p : steps t ops t' -> live t -> procs t !! i = Some p -> held t' p ->
  procs t' !! i = Some p /\ live t' /\ running t' <> i.
Proof.
  intros H. induction H as [t|t op t1 ops t' H Hs IH]; intros L E Hp.
  - split; [done|]. split; [done|]. intros Ei. unfold live in L. rewrite Ei, E in L. injection L as ->. by eapply held_not_ready.
  - pose proof (held_earlier t1 t' p (steps_now _ _ _ Hs) Hp) as H1. apply IH; [by eapply step_live| |done].
    destruct (step_other t op t1 i p H) as [?|Ew]; [|done|done|by rewrite held_wake in Ew].
    intros Ei. unfold live in L. rewrite <- Ei, E in L. injection L as ->. by eapply held_not_ready.
Qed.

(** ** A decision of the scheduler, task by task *)

Definition same_kind (t t' : task_struct) : Prop :=
  priority t' = priority t /\ fd_table t' = fd_table t /\ stack t' = stack t.
#[export] Instance same_kind_preorder : PreOrder same_kind.
Proof. split; [done|]. intros x y z (? & ? & ?) (? & ? & ?). unfold same_kind. split; [congruence|]. split; congruence. Qed.

Lemma recharges_keep r : forall s p t, k_tasks s !! p = Some t ->
  exists t', k_tasks (recharges r s) !! p = Some t' /\ state t' = state t /\ same_kind t t'.
Proof.
  induction r as [|r IH]; intros s p t E; [by exists t|]. cbn.
  destruct (IH (recharge_all s) p (if in_array s p then recharge t else t)) as (t' & E' & H & K).
  - by rewrite (recharge_by s), E.
  - exists t'. split; [done|]. by destruct (in_array s p).
Qed.

Lemma switched_keep s r p q t : k_tasks s !! q = Some t -> is_Some (k_tasks (decision_state s r) !! p) ->
  exists t', k_tasks (switched s r p) !! q = Some t' /\ same_kind t t'
    /\ state t' = state (wake (current_tick (k_timers s)) (timer_arr (k_timers s)) q t).
Proof.
  intros E Hp. unfold decision_state in Hp.
  destruct (recharges_keep r (after_check (bump 1 (current (k_sched s)) s)) q
    (wake (current_tick (k_timers s)) (timer_arr (k_timers s)) q (if q =? current (k_sched s) then add_preempt 1 t else t))) as (t1 & E1 & S1 & K1).
  { by rewrite after_check_task, (bump_by 1 (current (k_sched s)) s), E. }
  unfold switched. rewrite (bump_by (-1) p _), (do_switch_by p _). unfold decision_state. rewrite E1. cbn. eexists. split; [done|].
  revert S1 K1. unfold wake. destruct (_ && _), (q =? p), (woken _ _ q), (q =? current (k_sched s)); cbn; done.
Qed.

(** Everything a decision keeps. *)
Record decided (s s' : kstate) : Prop := {
  dc_inv : sched_inv s';
  dc_array : task_array (k_sched s') = task_array (k_sched s);
  dc_pids : n_tasks (k_sched s') = n_tasks (k_sched s);
  dc_timers : k_timers s' = TimerGlobals (clear_expired (current_tick (k_timers s)) <$> timer_arr (k_timers s)) (current_tick (k_timers s));
  dc_mem : k_mem s' = k_mem s;
  dc_pages : k_pages s' = k_pages s;
  dc_tasks : forall q t, k_tasks s !! q = Some t -> exists t', k_tasks s' !! q = Some t' /\ same_kind t t'
    /\ state t' = state (wake (current_tick (k_timers s)) (timer_arr (k_timers s)) q t);
  dc_current : exists t', k_tasks s' !! current (k_sched s') = Some t' /\ state t' = TASK_STATE_RUNNING }.

Lemma recharges_pages r : forall s, k_pages (recharges r s) = k_pages s.
Proof. induction r as [|r IH]; intros s; cbn; [done|]. apply (IH (recharge_all s)). Qed.

Lemma _schedule_decides s : sched_inv s -> exists s', _schedule s = Ok tt s' /\ decided s s'.
Proof.
  intros [W B P]. destruct (current_slot s W) as (start & Hst & Es).
  destruct (_schedule_run s start W (after_check_progress s P) Hst Es) as (r & i & c & p & R & (k & _ & _ & Ec & _) & _ & _ & Ep & Hp).
  assert (Hin : p ∈ task_array (k_sched s)) by (by apply list_elem_of_lookup_2 in Ep).
  destruct (cand_inv _ _ _ Ec) as (q & tq & Eq & _ & Etq & Sq & _). rewrite decision_sched, Ep in Eq. injection Eq as <-.
  exists (switched s r p). split; [done|].
  assert (N : n_tasks (k_sched (switched s r p)) = n_tasks (k_sched s) /\ k_pages (switched s r p) = k_pages s).
  { unfold switched. cbn. unfold do_switch. destruct (_ =? p); [rewrite decision_sched|rewrite Etq; cbn; rewrite decision_sched];
      unfold decision_state; by rewrite recharges_pages. }
  split.
  - apply switched_inv; [done|by apply after_check_progress|done|done|done].
  - apply timers_array_switched.
  - apply N.
  - by rewrite switched_timers by eauto.
  - apply switched_kept.
  - apply N.
  - intros x t E. apply switched_keep; eauto.
  - rewrite switched_current by done. destruct (switched_task s r p p tq Etq ltac:(eauto)) as (t' & E' & _ & _ & S' & _).
    exists t'. split; [done|congruence].
Qed.

(** ** The kernel as a process table *)

Definition state_of (p : proc_state) : TaskState :=
  match p with Ready => TASK_STATE_RUNNING | Waiting _ => TASK_STATE_BLOCKED | Ended => TASK_STATE_ZOMBIE end.

(** The timers the sleeping processes have armed. *)
Fixpoint alarms (arr : list Z) (l : list proc_state) : list onehit_timer_t :=
  match arr, l with
  | p :: arr, st :: l => match st with Waiting f => OneHit f p :: alarms arr l | _ => alarms arr l end
  | _, _ => []
  end.
Definition busy (x : onehit_timer_t) : Prop := task_ptr x <> 0.
#[export] Instance busy_dec x : Decision (busy x).
Proof. unfold busy. apply _. Defined.

Lemma alarms_nil arr : alarms arr [] = [].
Proof. by destruct arr. Qed.
Lemma alarms_middle a1 l1 : forall p st a2 l2, length a1 = length l1 ->
  alarms (a1 ++ p :: a2) (l1 ++ st :: l2) = alarms a1 l1 ++ alarms [p] [st] ++ alarms a2 l2.
Proof.
  revert l1. induction a1 as [|a a1 IH]; intros [|x l1] p st a2 l2 H; [by destruct st|done|done|]. injection H as H.
  cbn [app alarms]. destruct x; rewrite (IH l1) by done; done.
Qed.
Lemma alarms_end a1 l1 : forall a2, length a1 = length l1 -> alarms (a1 ++ a2) l1 = alarms a1 l1.
Proof.
  revert l1. induction a1 as [|a a1 IH]; intros [|x l1] a2 H; [by destruct a2|done|done|]. injection H as H.
  cbn [app alarms]. destruct x; by rewrite (IH l1).
Qed.
Lemma alarms_wake n l : forall arr, alarms arr (wake_proc n <$> l) = filter (fun x => n < finish_time x) (alarms arr l).
Proof.
  induction l as [|st l IH]; intros [|p arr]; [done..|]. cbn [fmap list_fmap alarms]. destruct st as [|f|]; cbn [wake_proc]; [apply IH| |apply IH].
  rewrite filter_cons. cbn [finish_time]. destruct (Z.leb_spec f n); [rewrite decide_False by lia; apply IH|]. rewrite decide_True by lia. by rewrite <- IH.
Qed.
Lemma alarms_length arr l : (length l <= length arr)%nat -> length (alarms arr l) = length (filter (fun p => is_waiting p = true) l).
Proof.
  revert arr. induction l as [|st l IH]; intros [|p arr] H; cbn [length] in *; [done..|lia|]. rewrite filter_cons. cbn [alarms].
  destruct st; cbn [is_waiting]; [rewrite decide_False by done|rewrite decide_True by done; cbn [length]; f_equal|rewrite decide_False by done]; apply IH; lia.
Qed.
Lemma alarms_elem x l : forall arr, x ∈ alarms arr l <-> exists i f p, arr !! i = Some p /\ l !! i = Some (Waiting f) /\ x = OneHit f p.
Proof.
  induction l as [|st l IH]; intros [|p arr]; cbn [alarms].
  1-3: rewrite elem_of_nil; split; [done|]; intros (i & f & q & H1 & H2 & _); by rewrite ?lookup_nil in H1, H2.
  assert (S : x ∈ alarms arr l <-> exists i f q, (p :: arr) !! S i = Some q /\ (st :: l) !! S i = Some (Waiting f) /\ x = OneHit f q) by apply IH.
  destruct st as [|f|].
  1, 3: rewrite S; split; [intros (i & H); by exists (Datatypes.S i)|intros ([|i] & f & q & H1 & H2 & H3); [done|by exists i, f, q]].
  rewrite elem_of_cons, S. split.
  - intros [->|(i & H)]; [by exists 0%nat, f, p|by exists (Datatypes.S i)].
  - intros ([|i] & f' & q & H1 & H2 & H3); [left; by injection H1 as <-; injection H2 as <-|right; by exists i, f', q].
Qed.
Lemma busy_cleared n (l : list onehit_timer_t) : filter busy (clear_expired n <$> l) = filter (fun x => n < finish_time x) (filter busy l).
Proof.
  induction l as [|x l IH]; [done|]. cbn [fmap list_fmap].
  assert (E : clear_expired n x = if decide (busy x /\ finish_time x <= n) then OneHit 0 0 else x).
  { unfold clear_expired, expired. case_decide as D; unfold busy in D; [by decb|].
    destruct (Z.eqb_spec (task_ptr x) 0), (Z.leb_spec (finish_time x) n); (done || (exfalso; tauto)). }
  rewrite E, (filter_cons busy x). destruct (decide (busy x)) as [B|B].
  - rewrite (filter_cons _ x). destruct (decide (n < finish_time x)) as [H|H].
    + rewrite decide_False by lia. by rewrite filter_cons_True, IH.
    + rewrite decide_True by (split; [done|lia]). rewrite filter_cons_False by (unfold busy in *; cbn; tauto). exact IH.
  - rewrite decide_False by tauto. rewrite filter_cons_False by (unfold busy in *; cbn; tauto). exact IH.
Qed.
Lemma busy_armed (l : list onehit_timer_t) i x y : l !! i = Some x -> ~ busy x -> busy y -> filter busy (<[i := y]> l) ≡ₚ y :: filter busy l.
Proof.
  intros E N Y. rewrite (insert_take_drop l i y) by (by eapply lookup_lt_Some). rewrite <- (take_drop_middle l i x E) at 3.
  rewrite !filter_app, !filter_cons, decide_True, decide_False by done. by rewrite Permutation_middle.
Qed.
Lemma first_idle (l : list onehit_timer_t) : (length (filter busy l) < length l)%nat ->
  exists i x, l !! i = Some x /\ ~ busy x /\ forall j y, (j < i)%nat -> l !! j = Some y -> busy y.
Proof.
  induction l as [|x l IH]; cbn [length]; [lia|]. rewrite filter_cons. destruct (decide (busy x)) as [B|B]; cbn [length]; intros H.
  - destruct IH as (i & y & E & N & F); [lia|]. exists (S i), y. split; [done|]. split; [done|].
    intros [|j] z Hj Ez; [by injection Ez as <-|]. apply (F j z); [lia|done].
  - exists 0%nat, x. split; [done|]. split; [done|]. lia.
Qed.
Lemma all_busy (l : list onehit_timer_t) : (length l <= length (filter busy l))%nat -> Forall busy l.
Proof.
  induction l as [|x l IH]; [constructor|]. rewrite filter_cons. pose proof (length_filter busy l). cbn [length] in *.
  destruct (decide (busy x)); cbn [length]; intros H1; [constructor; [done|]; apply IH; lia|lia].
Qed.

Section refinement.
Context {O : PageOps} {Laws : PageLaws}.

(** The kernel [s] shows the processes of [t]: pids are slots of the task array,
    a process sleeps exactly when a timer is armed for it, the room is the pages
    left, none of which is a task's. *)
Record shows (s : kstate) (t : table) : Prop := {
  sh_pids : n_tasks (k_sched s) = Z.of_nat (length (procs t)) /\ (length (procs t) <= 64)%nat;
  sh_slots : forall i p, task_array (k_sched s) !! i = Some p -> p = 0 <-> (length (procs t) <= i)%nat;
  sh_running : task_array (k_sched s) !! running t = Some (current (k_sched s));
  sh_procs : forall i p st, task_array (k_sched s) !! i = Some p -> procs t !! i = Some st ->
    exists tk, k_tasks s !! p = Some tk /\ state tk = state_of st /\ 1 <= priority tk /\ fd_table tk = FdTable 0 0 /\ stack tk = 0;
  sh_timers : filter busy (timer_arr (k_timers s)) ≡ₚ alarms (task_array (k_sched s)) (procs t);
  sh_idle : Forall (fun x => task_ptr x = 0 <-> finish_time x = 0) (timer_arr (k_timers s));
  sh_now : current_tick (k_timers s) = now t /\ 0 <= now t < 2 ^ 64;
  sh_pages : pages_mapped s /\ room t = length (free_list s);
  sh_fresh : Forall (fun i => page_addr i + VIRTUAL_ADDRESS_START ∉ task_array (k_sched s)) (free_list s) }.

Definition refines (s : kstate) (t : table) : Prop := sched_inv s /\ shows s t /\ live t.

(** The pids in use stay those of their tasks. *)
Definition keeps_slots (s s' : kstate) : Prop :=
  forall i p, task_array (k_sched s) !! i = Some p -> p <> 0 -> task_array (k_sched s') !! i = Some p.
Lemma keeps_slots_trans s1 s2 s3 : keeps_slots s1 s2 -> keeps_slots s2 s3 -> keeps_slots s1 s3.
Proof. intros H1 H2 i p E Hp. by apply H2; [apply H1|]. Qed.
Lemma keeps_slots_array s s' : task_array (k_sched s') = task_array (k_sched s) -> keeps_slots s s'.
Proof. intros E i p Ei _. by rewrite E. Qed.

(** A change that does not reach what is shown. *)
Lemma shows_by f s s' t : shows s t -> tasks_by f s s' -> (forall p x, state (f p x) = state x /\ same_kind x (f p x)) ->
  k_sched s' = k_sched s -> k_timers s' = k_timers s -> k_mem s' = k_mem s -> k_pages s' = k_pages s -> shows s' t.
Proof.
  intros [P Sl Ru Pr Ti Id No [Pm Rm] Fr] F Hf Es Et Em Ep. split; rewrite ?Es, ?Et, ?(free_list_ext s' s) by done; try done.
  - intros i p st Ei Est. destruct (Pr i p st Ei Est) as (tk & Etk & S & H). exists (f p tk). rewrite F, Etk. split; [done|].
    destruct (Hf p tk) as (-> & -> & -> & ->). by split.
  - split; [|done]. intros i Hi. unfold page_mapped. rewrite Em. by apply Pm.
Qed.

(** A timer names a process exactly when it is the one the process armed. *)
Lemma woken_shown s t i p st : sched_wf s -> shows s t -> task_array (k_sched s) !! i = Some p -> procs t !! i = Some st ->
  woken (now t) (timer_arr (k_timers s)) p = match st with Waiting f => f <=? now t | _ => false end.
Proof.
  intros W S Ei Est. assert (Hp : p <> 0) by (rewrite (sh_slots _ _ S i p Ei); apply lookup_lt_Some in Est; lia).
  apply eq_true_iff_eq. unfold woken. rewrite existsb_exists. transitivity (exists f, st = Waiting f /\ f <= now t).
  - split.
    + intros (x & Hx & C). apply andb_prop in C as [C1 C2]. unfold expired in C1. apply andb_prop in C1 as [_ C1].
      apply Z.eqb_eq in C2. apply Z.leb_le in C1. apply list_elem_of_In in Hx.
      assert (Hb : x ∈ filter busy (timer_arr (k_timers s))) by (apply list_elem_of_filter; split; [unfold busy; congruence|done]).
      rewrite (sh_timers _ _ S), alarms_elem in Hb. destruct Hb as (j & f & q & Ej & Ef & ->). cbn in C1, C2. subst q.
      pose proof (sw_inj _ W _ _ _ Ei Ej Hp) as <-. rewrite Est in Ef. injection Ef as ->. by exists f.
    + intros (f & -> & Hf). exists (OneHit f p). assert (Hx : OneHit f p ∈ filter busy (timer_arr (k_timers s))).
      { rewrite (sh_timers _ _ S). apply alarms_elem. by exists i, f, p. }
      apply list_elem_of_filter in Hx as [_ Hx]. split; [by apply list_elem_of_In|]. unfold expired. cbn. lia.
  - destruct st as [|f|]; [split; [by intros (? & ? & _)|done]| |split; [by intros (? & ? & _)|done]].
    split; [intros (? & [= <-] & H); lia|]. intros H. exists f. split; [done|lia].
Qed.

Lemma wake_shown n l p tk st : state tk = state_of st -> woken n l p = match st with Waiting f => f <=? n | _ => false end ->
  state (wake n l p tk) = state_of (wake_proc n st).
Proof. intros S E. unfold wake. rewrite E. destruct st as [|f|]; cbn in *; [done| |done]. by destruct (f <=? n). Qed.

Lemma state_of_ready st : state_of st = TASK_STATE_RUNNING -> st = Ready.
Proof. by destruct st. Qed.

(** A decision of the scheduler is one of the machine. *)
Lemma decided_refines s s' t : sched_wf s -> shows s t -> decided s s' -> exists t', decides t t' /\ refines s' t'.
Proof.
  intros W S D. pose proof (dc_inv _ _ D) as I'. destruct (sw_cur _ (si_wf _ I')) as [Hc Hc0].
  rewrite (dc_array _ _ D) in Hc. apply list_elem_of_lookup in Hc as [q Eq].
  pose proof S as [P Sl Ru Pr Ti Id [Nt Nr] Pg Fr].
  assert (Hq : (q < length (procs t))%nat) by (destruct (Nat.lt_ge_cases q (length (procs t))) as [|H]; [done|]; apply (Sl q _ Eq) in H; lia).
  destruct (lookup_lt_is_Some_2 _ _ Hq) as [st Est].
  assert (Tasks : forall i p st, task_array (k_sched s) !! i = Some p -> procs t !! i = Some st ->
    exists tk, k_tasks s' !! p = Some tk /\ state tk = state_of (wake_proc (now t) st) /\ 1 <= priority tk /\ fd_table tk = FdTable 0 0 /\ stack tk = 0).
  { intros i p x Ei Ex. destruct (Pr i p x Ei Ex) as (tk & Etk & Stk & H). destruct (dc_tasks _ _ D p tk Etk) as (tk' & Etk' & (Kp & Kf & Ks) & Stk').
    exists tk'. split; [done|]. rewrite Kp, Kf, Ks. split; [|done]. rewrite Stk', Nt. apply wake_shown; [done|]. by eapply woken_shown. }
  exists (Table (wake_proc (now t) <$> procs t) q (now t) (room t)). split.
  - constructor. rewrite list_lookup_fmap, Est. cbn. f_equal. apply state_of_ready.
    destruct (Tasks q _ st Eq Est) as (tk & Etk & Stk & _). destruct (dc_current _ _ D) as (tc & Etc & Stc). congruence.
  - split; [exact I'|]. split.
    + split; cbn [procs running now room]; rewrite ?length_fmap, ?(dc_array _ _ D), ?(dc_pids _ _ D), ?(free_list_ext s' s) by apply D; try done.
      * intros i p x Ei Ex. rewrite list_lookup_fmap in Ex. destruct (procs t !! i) as [y|] eqn:Ey; [|done]. injection Ex as <-. by eapply Tasks.
      * rewrite (dc_timers _ _ D). cbn [timer_arr]. rewrite busy_cleared, alarms_wake, Nt. by rewrite Ti.
      * rewrite (dc_timers _ _ D). cbn [timer_arr]. apply Forall_fmap. eapply Forall_impl; [exact Id|]. intros x Hx. cbn.
        unfold clear_expired. by destruct (expired _ x).
      * rewrite (dc_timers _ _ D). by split.
      * split; [|apply Pg]. intros i Hi. unfold page_mapped. rewrite (dc_mem _ _ D). by apply Pg.
    + unfold live. cbn. rewrite list_lookup_fmap, Est. cbn. f_equal. apply state_of_ready.
      destruct (Tasks q _ st Eq Est) as (tk & Etk & Stk & _). destruct (dc_current _ _ D) as (tc & Etc & Stc). congruence.
Qed.

(** ** The operations *)

Lemma shows_yielded s t : shows s t -> shows (yielded s) t.
Proof. intros S. eapply shows_by; [exact S|intros q; apply alter_by| |done..]. intros p x. cbv beta. by destruct (p =? _). Qed.
Lemma shows_cpu s t c : shows s t -> shows (with_cpu c s) t.
Proof. intros S. eapply (shows_by (fun _ x => x)); [exact S| |done..]. intros q. cbn. by destruct (k_tasks s !! q). Qed.
Lemma shows_ticked s t : shows s t -> now t + 1 < 2 ^ 64 -> shows (ticked s) (later t).
Proof.
  intros [P Sl Ru Pr Ti Id [Nt Nr] Pg Fr] Hn. rewrite <- (free_list_ext (ticked s) s) in Pg, Fr by done. split; cbn [procs running now room later ticked k_sched k_timers timer_arr current_tick with_timers with_tasks]; try done.
  - intros i p st Ei Est. destruct (Pr i p st Ei Est) as (tk & Etk & S & H). cbn [k_tasks with_timers with_tasks ticked]. rewrite alter_by, Etk. eexists. split; [done|].
    cbv beta. by destruct (p =? _).
  - rewrite Nt, u64_small by lia. split; [done|lia].
Qed.

Lemma running_task s t : shows s t -> live t -> exists tc, k_tasks s !! current (k_sched s) = Some tc
  /\ 1 <= priority tc /\ fd_table tc = FdTable 0 0 /\ stack tc = 0.
Proof. intros S L. destruct (sh_procs _ _ S _ _ _ (sh_running _ _ S) L) as (tc & E & _ & H). by exists tc. Qed.

(** The running process stops, for a while or for good. *)
Lemma shows_halted s t p tm : shows s t -> live t -> sched_wf s -> current_tick tm = now t ->
  filter busy (timer_arr tm) ≡ₚ alarms (task_array (k_sched s)) (<[running t := p]> (procs t)) ->
  Forall (fun x => task_ptr x = 0 <-> finish_time x = 0) (timer_arr tm) -> shows (halted (state_of p) tm s) (set_running p t).
Proof.
  intros S L W Et Ef Fi. destruct S as [P Sl Ru Pr Ti Id [Nt Nr] Pg Fr]. rewrite <- (free_list_ext (halted (state_of p) tm s) s) in Pg, Fr by done.
  split; cbn [procs running now room set_running halted k_sched k_timers with_timers with_tasks]; rewrite ?length_insert; try done.
  intros i q st Ei Est. cbn [halted k_tasks with_timers with_tasks]. destruct (sw_cur _ W) as [_ Hc0]. apply list_lookup_insert_Some in Est as [(<- & <- & _)|[N Est]].
  - rewrite Ru in Ei. injection Ei as <-. destruct (Pr _ _ _ Ru L) as (tk & Etk & _ & H). rewrite lookup_alter_eq, Etk. by exists (set_state (state_of p) tk).
  - destruct (Pr i q st Ei Est) as (tk & Etk & H). exists tk. rewrite lookup_alter_ne; [done|]. intros E. rewrite <- E in Ei. apply N, (sw_inj _ W _ _ _ Ru Ei). lia.
Qed.

(** What the process that stops leaves armed. *)
Lemma alarms_stop s t p : shows s t -> live t -> length (task_array (k_sched s)) = 64%nat ->
  alarms (task_array (k_sched s)) (<[running t := p]> (procs t))
  ≡ₚ alarms [current (k_sched s)] [p] ++ alarms (task_array (k_sched s)) (procs t).
Proof.
  intros S L Hl. pose proof (lookup_lt_Some _ _ _ L) as Hr. destruct (sh_pids _ _ S) as [_ H64].
  rewrite <- (take_drop_middle _ _ _ (sh_running _ _ S)). rewrite <- (take_drop_middle _ _ _ L) at 2.
  rewrite (insert_take_drop (procs t)) by done. rewrite !alarms_middle by (rewrite !length_take; lia). cbn [alarms app]. by rewrite Permutation_app_swap_app.
Qed.

Lemma other_ready_progress s t : shows s t -> sched_wf s -> other_ready t = true -> other_progress s.
Proof.
  intros S W H. apply existsb_exists in H as (i & _ & H). apply andb_prop in H as [N E]. apply negb_true_iff, Nat.eqb_neq in N.
  apply bool_decide_eq_true in E. pose proof (lookup_lt_Some _ _ _ E) as Hi. destruct (sh_pids _ _ S) as [_ H64].
  destruct (lookup_lt_is_Some_2 (task_array (k_sched s)) i) as [p Ep]; [rewrite (sw_len _ W); lia|].
  destruct (sh_procs _ _ S i p _ Ep E) as (tk & Etk & Stk & Pr & _).
  assert (Hp : p <> 0) by (rewrite (sh_slots _ _ S i p Ep); lia). exists p, tk.
  split; [by eapply list_elem_of_lookup_2|]. split; [done|]. split; [|done]. intros ->. apply N. by apply (sw_inj _ W _ _ _ Ep (sh_running _ _ S)).
Qed.

Lemma schedule_refines s t : sched_inv s -> shows s t -> exists s' t', schedule s = Ok tt s' /\ decides t t' /\ refines s' t' /\ keeps_slots s s'.
Proof.
  intros I S. rewrite (schedule_yields s I). destruct (_schedule_decides _ (yielded_inv s I)) as (s' & R & D).
  destruct (decided_refines _ _ t (si_wf _ (yielded_inv s I)) (shows_yielded _ _ S) D) as (t' & Dt & R').
  exists s', t'. split; [done|]. split; [done|]. split; [done|]. apply keeps_slots_array. by rewrite (dc_array _ _ D).
Qed.

Lemma tick_refines s t : refines s t -> now t + 1 < 2 ^ 64 ->
  exists s' t', scheduler_tick s = Ok tt s' /\ step t PTick t' /\ refines s' t' /\ keeps_slots s s'.
Proof.
  intros (I & S & L) Hn. destruct (current_task s (si_wf _ I)) as (tc & E & Ok0). destruct (sw_cur _ (si_wf _ I)) as [Hc Hc0].
  destruct (si_balanced _ I _ _ Hc ltac:(lia) E) as [Pc C0]. rewrite Z.eqb_refl in Pc.
  rewrite (scheduler_tick_run s tc E Ok0) by lia. rewrite Pc. cbn [Z.ltb Z.compare]. rewrite orb_false_r.
  pose proof (shows_ticked s t S Hn) as St. destruct (Z.ltb_spec 1 (counter tc)).
  - exists (ticked s), (later t). split; [done|]. split; [constructor|]. split; [|by apply keeps_slots_array]. split; [apply (ticked_inv s tc); [done|done|lia]|]. by split.
  - unfold enable_irq. rewrite bind_put. set (s1 := with_cpu _ _).
    assert (I1 : sched_inv s1) by apply masked_inv, yielded_ticked_inv, I.
    destruct (_schedule_decides s1 I1) as (s' & R & D).
    destruct (decided_refines s1 s' (later t) (si_wf _ I1) (shows_cpu _ _ _ (shows_yielded _ _ St)) D) as (t' & Dt & I' & S' & L').
    rewrite (bind_ok _ _ _ _ _ R). unfold disable_irq. eexists _, t'. split; [reflexivity|]. split; [by apply step_tick|].
    split; [split; [by apply masked_inv|]; split; [by apply shows_cpu|done]|]. apply keeps_slots_array. cbn [k_sched with_cpu]. by rewrite (dc_array _ _ D).
Qed.

Lemma exit_refines s t : refines s t -> other_ready t = true -> exists s' t', exit_task s = Ok tt s' /\ step t PExit t' /\ refines s' t' /\ keeps_slots s s'.
Proof.
  intros (I & S & L) Ot. pose proof (si_wf _ I) as W. destruct (running_task s t S L) as (tc & Ec & _ & Ef & Es).
  rewrite (exit_task_exited s tc I Ec Ef Es). pose proof (other_ready_progress s t S W Ot) as OP.
  destruct (schedule_refines (exited s) (set_running Ended t) (exited_inv s I OP)) as (s' & t' & R & D & R').
  { apply shows_cpu. apply (shows_halted s t Ended); [done|done|done|apply S| |apply S].
    rewrite (alarms_stop s t Ended S L (sw_len _ W)). apply S. }
  exists s', t'. split; [done|]. split; [by apply step_exit|done].
Qed.

(** The timer a process that goes to sleep takes. *)
Lemma sleepers_timers s t : sched_wf s -> shows s t -> length (filter busy (timer_arr (k_timers s))) = sleepers t.
Proof.
  intros W S. rewrite (sh_timers _ _ S). unfold sleepers. apply alarms_length. destruct (sh_pids _ _ S). rewrite (sw_len _ W). lia.
Qed.

Lemma timer_for_sleeper s t : sched_wf s -> shows s t -> (sleepers t < 5)%nat ->
  exists i x, timer_arr (k_timers s) !! i = Some x /\ ~ busy x /\ free_timer s i.
Proof.
  intros W S H. rewrite <- (sleepers_timers s t W S) in H. destruct (sw_timers _ W) as [Hl _].
  destruct (first_idle (timer_arr (k_timers s))) as (i & x & E & N & F); [lia|]. exists i, x. split; [done|]. split; [done|].
  pose proof (sh_idle _ _ S) as Id. rewrite Forall_lookup in Id. split.
  - exists x. split; [done|]. apply (Id i x E). unfold busy in N. lia.
  - intros j y Hj Ey. pose proof (F j y Hj Ey) as B. unfold busy in B. by rewrite <- (Id j y Ey).
Qed.

Lemma sleep_refines s t d : refines s t -> 100 <= d -> now t + d / 100 < 2 ^ 32 -> other_ready t = true ->
  exists s' t', register_one_hit d s = Ok tt s' /\ step t (PSleep d) t' /\ refines s' t' /\ keeps_slots s s'.
Proof.
  intros (I & S & L) Hd Hf Ot. pose proof (si_wf _ I) as W. destruct (sw_cur _ W) as [_ Hc0]. destruct (sh_now _ _ S) as [Nt Nr].
  assert (Hf0 : 0 < now t + d / 100) by (Z.to_euclidean_division_equations; lia).
  destruct (Nat.lt_ge_cases (sleepers t) 5) as [H|H].
  - destruct (timer_for_sleeper s t W S H) as (i & x & Ei & Nb & FT). destruct (running_task s t S L) as (tc & Ec & _).
    destruct (schedule_refines (asleep (now t + d / 100) i s) (set_running (Waiting (now t + d / 100)) t)) as (s' & t' & R & D & R').
    { apply asleep_inv; [done|]. by apply (other_ready_progress s t). }
    { apply (shows_halted s t (Waiting _)); [done|done|done|done| |]; cbn [timer_arr].
      - rewrite (alarms_stop s t _ S L (sw_len _ W)). rewrite (busy_armed _ i x) by (done || (unfold busy; cbn; lia)).
        cbn [alarms app]. by rewrite (sh_timers _ _ S).
      - apply Forall_insert; [apply S|]. cbn. lia. }
    exists s', t'. split; [|split; [by apply step_sleep|done]].
    apply (register_one_hit_asleep s d i tc); [done|done|done|]. rewrite Nt, u32_small by lia. exact R.
  - exists s, t. split; [|split; [by apply step_sleep_full|split; [done|by apply keeps_slots_array]]]. destruct (sw_timers _ W) as [Hl _].
    apply register_one_hit_without_timer; [done|]. intros i [(x & Ex & Fx) _]. rewrite <- (sleepers_timers s t W S) in H.
    pose proof (all_busy _ ltac:(rewrite Hl; exact H)) as B. pose proof (sh_idle _ _ S) as Id. rewrite Forall_lookup in B, Id.
    apply (B i x Ex). by apply (Id i x Ex).
Qed.

Context (mmu : mem -> Z -> Z -> option Z) (ret_from_fork : Z).

Lemma free_list_distinct s i r : free_list s = i :: r -> Forall (fun k => page_addr k <> page_addr i) r.
Proof.
  intros E. assert (D : NoDup (free_list s)) by apply NoDup_filter, NoDup_seqZ. rewrite E in D. apply NoDup_cons in D as [N _].
  apply Forall_forall. intros k Hk Ek. rewrite !page_addr_eq in Ek. apply N. by replace i with k by lia.
Qed.

Lemma spawn_refines s t fn args : refines s t -> (length (procs t) < 64)%nat -> (0 < room t)%nat ->
  exists s' t', kernel_fork mmu ret_from_fork TASK_FLAGS_KERNEL_THREAD fn args s = Ok (Z.of_nat (length (procs t))) s'
    /\ step t (PSpawn fn args) t' /\ refines s' t' /\ keeps_slots s s'.
Proof.
  intros (I & S & L) Hn Hr. pose proof (si_wf _ I) as W. destruct (sh_pages _ _ S) as [HM Rm]. destruct (sh_pids _ _ S) as [Np _].
  destruct (free_list s) as [|i r] eqn:EF; [cbn in Rm; lia|]. pose proof (sh_fresh _ _ S) as Fr. rewrite EF in Fr. apply Forall_cons in Fr as [Fi Fr].
  destruct (lookup_lt_is_Some_2 (task_array (k_sched s)) (length (procs t))) as [z Ez]; [rewrite (sw_len _ W); lia|].
  assert (z = 0) as -> by (apply (sh_slots _ _ S _ _ Ez); lia). destruct (running_task s t S L) as (tc & Ec & Pr & _).
  destruct (fork_thread_run mmu ret_from_fork s i r TASK_FLAGS_KERNEL_THREAD fn args tc I HM EF Fi) as (s' & R & Es & Et & I' & HM' & EF' & _ & Em); [|done|done|].
  { unfold fork_room. rewrite Np, Nat2Z.id. split; [lia|done]. }
  set (p := page_addr i + VIRTUAL_ADDRESS_START) in *. rewrite Np in R, Es. rewrite Nat2Z.id in Es.
  destruct (page_addr_bounds i (proj1 (free_list_next s i r EF))) as [Hp _].
  exists s', (Table (procs t ++ [Ready]) (running t) (now t) (pred (room t))). split; [exact R|]. split; [constructor|]. split; [|intros k q Ek Hq; rewrite Es; cbn; rewrite list_lookup_insert_ne; [done|congruence]].
  pose proof (lookup_lt_Some _ _ _ L) as Hrun.
  split; [exact I'|]. split; [|unfold live; cbn; by apply lookup_app_l_Some].
  split; cbn [procs running now room]; rewrite ?Es, ?Em, ?EF', ?length_app; cbn [task_array current n_tasks length]; try apply S.
  - rewrite u8_small by lia. lia.
  - intros k q Ek. apply list_lookup_insert_Some in Ek as [(<- & <- & _)|[N Ek]].
    + split; [unfold p, VIRTUAL_ADDRESS_START; lia|lia].
    + rewrite (sh_slots _ _ S k q Ek). lia.
  - rewrite list_lookup_insert_ne by lia. apply S.
  - intros k q st Ek Est. rewrite Et. apply lookup_app_Some in Est as [Est|[Hk Est]].
    + pose proof (lookup_lt_Some _ _ _ Est). rewrite list_lookup_insert_ne in Ek by lia. destruct (sh_procs _ _ S k q st Ek Est) as (tk & Etk & H').
      exists tk. rewrite lookup_insert_ne; [done|]. intros <-. apply Fi. by eapply list_elem_of_lookup_2.
    + apply list_lookup_singleton_Some in Est as [Hk0 <-]. replace k with (length (procs t)) in Ek by lia.
      rewrite list_lookup_insert_eq in Ek by (by eapply lookup_lt_Some). injection Ek as <-. rewrite lookup_insert_eq. eexists. split; [done|]. by split.
  - rewrite (insert_take_drop (task_array (k_sched s))) by (by eapply lookup_lt_Some). rewrite (sh_timers _ _ S).
    rewrite <- (take_drop_middle _ _ _ Ez) at 1. assert (Hl : length (take (length (procs t)) (task_array (k_sched s))) = length (procs t)) by (rewrite length_take, (sw_len _ W); lia).
    rewrite alarms_end by done. rewrite alarms_middle by done. cbn [alarms app]. by rewrite alarms_nil, app_nil_r.
  - split; [done|]. rewrite Rm. done.
  - apply Forall_forall. intros k Hk [j Hj]%list_elem_of_lookup. pose proof (free_list_distinct s i r EF) as D. rewrite Forall_forall in Fr, D.
    apply list_lookup_insert_Some in Hj as [(_ & E & _)|[_ Hj]]; [apply (D k Hk); unfold p in E; lia|]. apply (Fr k Hk). by eapply list_elem_of_lookup_2.
Qed.

(** ** Histories *)

Definition run_process_op (op : process_op) : K unit :=
  match op with
  | PTick => scheduler_tick
  | PYield => schedule
  | PSleep d => register_one_hit d
  | PExit => exit_task
  | PSpawn fn args => _ ← kernel_fork mmu ret_from_fork TASK_FLAGS_KERNEL_THREAD fn args; mret tt
  end.
Fixpoint run_process_ops (ops : list process_op) : K unit :=
  match ops with [] => mret tt | op :: ops => _ ← run_process_op op; run_process_ops ops end.

Lemma step_refines s t op : refines s t -> enabled t op = true ->
  exists s' t', run_process_op op s = Ok tt s' /\ step t op t' /\ refines s' t' /\ keeps_slots s s'.
Proof.
  intros R En. destruct op as [| |d| |fn args]; cbn [enabled run_process_op] in *.
  - apply tick_refines; [done|lia].
  - destruct R as (I & S & L). destruct (schedule_refines s t I S) as (s' & t' & Rs & D & R'). exists s', t'. split; [done|]. split; [by constructor|done].
  - apply andb_prop in En as [[H1 H2]%andb_prop H3]. apply sleep_refines; [done|lia|lia|done].
  - by apply exit_refines.
  - apply andb_prop in En as [H1 H2]. apply Nat.ltb_lt in H1, H2. destruct (spawn_refines s t fn args R H1 H2) as (s' & t' & Rs & St & R').
    exists s', t'. rewrite (bind_ok _ _ _ _ _ Rs). by split.
Qed.

(** A history runs to its end, or up to an operation the machine does not allow. *)
Lemma history_refines ops : forall s t, refines s t -> exists done rest s' t',
  ops = done ++ rest /\ run_process_ops done s = Ok tt s' /\ steps t done t' /\ refines s' t' /\ keeps_slots s s'
  /\ match rest with [] => True | op :: _ => enabled t' op = false end.
Proof.
  induction ops as [|op ops IH]; intros s t R; [exists [], [], s, t; split; [done|]; split; [done|]; split; [constructor|]; split; [done|]; by split; [apply keeps_slots_array|]|].
  destruct (enabled t op) eqn:En; [|exists [], (op :: ops), s, t; split; [done|]; split; [done|]; split; [constructor|]; split; [done|]; by split; [apply keeps_slots_array|]].
  destruct (step_refines s t op R En) as (s1 & t1 & R1 & St & Rf & K1). destruct (IH s1 t1 Rf) as (dn & rest & s' & t' & -> & R2 & Sts & Rf' & K2 & H).
  exists (op :: dn), rest, s', t'. split; [done|]. split; [cbn; by rewrite (bind_ok _ _ _ _ _ R1)|]. split; [by econstructor|]. split; [done|].
  by split; [eapply keeps_slots_trans|].
Qed.

(** C5. The kernel refines the process table: from a state that shows a table, every
    sequence of ticks, yields, delays, ends and forks runs without error, up to
    the first operation the table does not allow (a delay or an end when no other
    process is ready, a delay shorter than a tick or past the 32 bits of a timer,
    a fork without a pid or a page, a tick at the end of the count), and what it does is a history of the table. *)
Theorem processes_refine ops s t : refines s t -> exists done rest s' t',
  ops = done ++ rest /\ run_process_ops done s = Ok tt s' /\ steps t done t' /\ refines s' t'
  /\ match rest with [] => True | op :: _ => enabled t' op = false end.
Proof.
  intros R. destruct (history_refines ops s t R) as (dn & rest & s' & t' & E & Rn & St & Rf & _ & H). by exists dn, rest, s', t'.
Qed.

(** C6. A process that has ended never runs again, and one that sleeps does not run
    before the tick it asked for, whatever the kernel does: it is not the running
    one at the end of any history that stays below that tick, and its state is
    what it was. *)
Theorem held_process_does_not_run ops s t i p q : refines s t -> procs t !! i = Some p -> task_array (k_sched s) !! i = Some q ->
  exists done rest s' t', ops = done ++ rest /\ run_process_ops done s = Ok tt s'
    /\ (p = Ended \/ (exists f, p = Waiting f /\ current_tick (k_timers s') < f) ->
        current (k_sched s') <> q /\ exists tk, k_tasks s' !! q = Some tk /\ state tk = state_of p)
    /\ refines s' t' /\ match rest with [] => True | op :: _ => enabled t' op = false end.
Proof.
  intros R Ep Eq. destruct (history_refines ops s t R) as (dn & rest & s' & t' & E & Rn & St & Rf & K & H).
  exists dn, rest, s', t'. split; [done|]. split; [done|]. split; [|done]. intros Hp. pose proof R as (_ & S & L). pose proof Rf as (I' & S' & _).
  rewrite (proj1 (sh_now _ _ S')) in Hp. destruct (steps_held t dn t' i p St L Ep Hp) as (Ep' & _ & N).
  assert (Hq : q <> 0) by (rewrite (sh_slots _ _ S i q Eq); apply lookup_lt_Some in Ep; lia). pose proof (K i q Eq Hq) as Eq'. split.
  - intros C. apply N. rewrite <- C in Eq', Hq. symmetry. by apply (sw_inj _ (si_wf _ I') _ _ _ Eq' (sh_running _ _ S')).
  - destruct (sh_procs _ _ S' i q p Eq' Ep') as (tk & Etk & Stk & _). by exists tk.
Qed.
End refinement.

(** ** Concrete instances *)

(** The tasks of [sample_sched]: two ready, one ended. *)
Definition sample_table : table := Table [Ready; Ready; Ended] 0 0 (length (free_list fork_sample)).

Lemma sample_refines : refines fork_sample sample_table.
Proof.
  split; [by apply tasks_on_inv|]. split; [|done]. split; cbn [sample_table procs running now room].
  - by split; [|cbn; lia].
  - intros [|[|[|i]]] p E; [injection E as <-; cbn; lia..|]. apply lookup_replicate in E as [-> _]. cbn. lia.
  - done.
  - intros [|[|[|i]]] p st E Est; [injection E as <-; injection Est as <-; eexists; split; [reflexivity|by repeat split]..|done].
  - done.
  - by repeat constructor.
  - split; [done|lia].
  - split; [apply pages_taken_mapped|done].
  - apply Forall_forall. intros i [_ Hi%elem_of_seqZ]%list_elem_of_filter Hin. apply three_slots in Hin. rewrite page_addr_eq in Hin.
    change VIRTUAL_ADDRESS_START with 0xffff000000000000 in Hin. lia.
Qed.

(** The running process sleeps, the other one stops: the table does not allow it. *)
Lemma processes_refine_witness : exists done rest s' t',
  [PYield; PSleep 700; PTick; PExit; PSpawn 0x90000 5] = done ++ rest /\ run_process_ops no_mmu 0x80000 done fork_sample = Ok tt s'
  /\ steps sample_table done t' /\ refines s' t' /\ match rest with [] => True | op :: _ => enabled t' op = false end.
Proof. apply processes_refine, sample_refines. Defined.

(** The process at 12288 has ended. *)
Lemma held_process_does_not_run_witness : exists done rest s' t',
  [PYield; PTick; PSleep 700; PTick] = done ++ rest /\ run_process_ops no_mmu 0x80000 done fork_sample = Ok tt s'
  /\ (Ended = Ended \/ (exists f, Ended = Waiting f /\ current_tick (k_timers s') < f) ->
      current (k_sched s') <> 12288 /\ exists tk, k_tasks s' !! 12288 = Some tk /\ state tk = state_of Ended)
  /\ refines s' t' /\ match rest with [] => True | op :: _ => enabled t' op = false end.
Proof. apply (held_process_does_not_run no_mmu 0x80000 _ fork_sample sample_table 2 Ended 12288); [apply sample_refines|reflexivity|reflexivity]. Defined.
