(* ===== verification/UserFork.v ===== *)
(** * Duplicating a user process

    [copy_virtual_memory] (src/mm/paging.c) gives the child of a fork its own
    pages with the parent's content; [kernel_fork] without the kernel-thread
    flag (src/scheduler/scheduler.c) also copies the saved registers. *)

From S2P Require Export ProcessTheorems.

Section user_fork.
Context {O : PageOps} {Laws : PageLaws}.
(** The processor translates as the tables say: the page found by the walk, at
    the offset of the address, read through the kernel's linear alias. *)
Context (mmu : mem -> Z -> Z -> option Z).
Context (mmu_walks : forall m root va p, walk 3 m root va = Some p -> mmu m root va = Some (p + VIRTUAL_ADDRESS_START + va mod 4096)).

(** ** Writes outside the tables *)

Section data_write.
Context (s : kstate) (L : gmap Z nat) (q : Z) (m : mem).
Context (W : tables_wf s L) (Hq : data_page s L q).
Context (S : same_on (fun a => a < page_addr q + VIRTUAL_ADDRESS_START \/ page_addr q + VIRTUAL_ADDRESS_START + 4096 <= a) (k_mem s) m).

Lemma data_write_entry p n i : L !! p = Some n -> 0 <= i < 512 -> entry m p i = entry (k_mem s) p i.
Proof.
  intros Ep Hi. destruct Hq as (_ & _ & Eq). destruct (tw_page _ _ W _ _ Ep) as (j & Hj & -> & _).
  assert (N : j <> q) by (intros ->; congruence). unfold entry, entry_addr. apply ldn_ext. intros a Ha. apply S.
  rewrite !page_addr_eq in *. change (Z.of_nat 8) with 8 in Ha. lia.
Qed.
Lemma data_write_walk n : forall p va, L !! p = Some n -> walk n m p va = walk n (k_mem s) p va.
Proof.
  induction n as [|n IH]; intros p va E; cbn [walk]; set (j := table_index _ va);
    change (ldn 8 m (entry_addr p j)) with (entry m p j);
    change (ldn 8 (k_mem s) (entry_addr p j)) with (entry (k_mem s) p j);
    rewrite (data_write_entry p _ j E) by apply table_index_range; [done|].
  destruct (entry (k_mem s) p j) as [e|] eqn:Ee; [|done]. cbn [mbind option_bind].
  destruct (Z.eqb_spec e 0); [done|]. destruct (tw_entry _ _ W _ _ _ _ E (table_index_range _ _) Ee) as (x & -> & Ex); [done|].
  destruct (is_table_bounds _ _ (tw_page _ _ W _ _ Ex)) as [Bx Ax]. rewrite mask_entry by lia. by apply IH.
Qed.
Lemma data_write_wf : tables_wf (with_mem m s) L.
Proof.
  split.
  - intros p n E. destruct (tw_page _ _ W _ _ E) as (i & Hi & -> & U). exists i. by rewrite (page_used_ext (with_mem m s) s).
  - intros p n i e E Hi. cbn [k_mem with_mem]. rewrite (data_write_entry p _ i E Hi). by eapply tw_entry.
  - intros p p' n n' i i' x E E' Hi Hi'. cbn [k_mem with_mem].
    rewrite (data_write_entry p _ i E Hi), (data_write_entry p' _ i' E' Hi'). by eapply (tw_inj _ _ W).
Qed.
Lemma data_write_kept j : j <> q -> data_page s L j -> data_page (with_mem m s) L j /\ same_page (k_mem s) m j.
Proof.
  intros N (Hj & U & E). split; [split; [done|split; [|done]]|].
  - by rewrite (page_used_ext (with_mem m s) s).
  - intros o Ho. apply S. rewrite !page_addr_eq. lia.
Qed.
End data_write.

Lemma page_area s j : pages_mapped s -> page_index j -> valid_range (k_mem s) (page_addr j + VIRTUAL_ADDRESS_START) 4096.
Proof. intros HM Hj. apply (HM j Hj). Qed.

(** ** One page *)

(** [x'] is [x] with [va] of the child mapped to page [q], a copy of page [j]. *)
Record page_copied (x x' : kstate) (L L' : gmap Z nat) (child va pd q j : Z) (t t' : task_struct) : Prop := {
  pc_space : tables_wf x' L' /\ pages_mapped x';
  pc_sub : L ⊆ L';
  pc_tasks : k_tasks x' = <[child := t']> (k_tasks x);
  pc_dir : L' !! pagedirectory (t_mm t') = Some 3%nat /\ pd <> pagedirectory (t_mm t');
  pc_kernel : 0 <= kernelpages_count (t_mm t') <= kernelpages_count (t_mm t) + 4;
  pc_count : userpages_count (t_mm t') = userpages_count (t_mm t) + 1;
  pc_user : userpages (t_mm t') = <[Z.to_nat (userpages_count (t_mm t)) := UserPage (page_addr q) va]> (userpages (t_mm t));
  pc_rest : t' = set_mm (t_mm t') t;
  pc_translate va' : translate x' child va'
    = if bool_decide (va_indices va' = va_indices va) then Some (page_addr q) else translate x child va';
  pc_parent va' : walk 3 (k_mem x') pd va' = walk 3 (k_mem x) pd va';
  pc_data : data_kept x x' L L';
  pc_new : data_page x' L' q /\ page_used x q = false;
  pc_content o : 0 <= o < 4096 ->
    ld8 (k_mem x') (page_addr q + VIRTUAL_ADDRESS_START + o) = ld8 (k_mem x) (page_addr j + VIRTUAL_ADDRESS_START + o);
  pc_free : (length (free_list x) <= 5 + length (free_list x'))%nat;
  pc_frame : x' = with_mem (k_mem x') (with_pages (k_pages x') (with_tasks (k_tasks x') x)) }.

(** The body of the loop after the test, on one address. *)
Definition copy_one (child va : Z) : K Z :=
  kernel_virtual_adr ← allocate_user_page child va;
  if kernel_virtual_adr =? 0 then mret (-1)
  else
    s ← get (fun s => s);
    from ← of_option (BadAccess va) (mmu (k_mem s) (ttbr0 (k_cpu s)) va);
    _ ← memcpy kernel_virtual_adr from PAGE_SIZE;
    mret 0.

Lemma copy_one_run x L child t va pd j :
  space_ok x L child t -> (5 <= length (free_list x))%nat ->
  L !! pd = Some 3%nat -> pd <> pagedirectory (t_mm t) -> ttbr0 (k_cpu x) = pd ->
  walk 3 (k_mem x) pd va = Some (page_addr j) -> va mod 4096 = 0 -> data_page x L j ->
  exists q x' L' t', copy_one child va x = Ok 0 x' /\ page_copied x x' L L' child va pd q j t t'.
Proof.
  intros SO HF Epd Npd Et Hw Ha Dj. destruct (free_list x) as [|q r] eqn:EF; [cbn in HF; lia|].
  destruct (take_and_map_run x L child t va q r SO EF ltac:(cbn in HF; lia)) as (x1 & x2 & L' & t' & R1 & Nq & R2 & M & T & F1).
  destruct (free_list_next x q r EF) as (Hq & Uq & _). destruct (page_index_value q Hq) as [Bq _].
  pose proof (next_free_page_run x (so_mapped _ _ _ _ SO)) as Ry. rewrite EF in Ry. destruct Ry as (y & Ry & Fq & _ & EF1).
  rewrite R1 in Ry. injection Ry as <-. pose proof (so_tables _ _ _ _ SO) as W.
  assert (K1 : data_kept x x1 L L) by (by apply (fresh_data x x1 q)).
  assert (Dq1 : data_page x1 L q).
  { split; [done|]. split; [by rewrite (proj1 (proj2 Fq)), Z.eqb_refl|].
    destruct (L !! page_addr q) eqn:E; [|done]. exfalso. by eapply (fresh_not_table x x1 q L). }
  pose proof (data_kept_trans _ _ _ _ _ _ K1 (mp_data _ _ _ _ _ _ _ _ _ M)) as K2.
  destruct (mp_data _ _ _ _ _ _ _ _ _ M q Dq1) as [Dq _]. destruct (K2 j Dj) as [Dj2 Sj].
  assert (Njq : j <> q) by (intros ->; destruct Dj as (_ & U & _); congruence).
  assert (Hw2 : forall va', walk 3 (k_mem x2) pd va' = walk 3 (k_mem x) pd va').
  { intros va'. rewrite (mp_others _ _ _ _ _ _ _ _ _ M pd va' Epd Npd). by eapply (fresh_walk x x1 q L 3). }
  assert (Ef : x2 = with_mem (k_mem x2) (with_pages (k_pages x2) (with_tasks (k_tasks x2) x))).
  { rewrite (mp_frame _ _ _ _ _ _ _ _ _ M) at 1. by rewrite F1 at 1. }
  destruct (memcpy_run x2 (page_addr q + VIRTUAL_ADDRESS_START) (page_addr j + VIRTUAL_ADDRESS_START) 4096) as (m & R3 & C & S & V).
  1: lia.
  1, 2: apply page_area; [apply M|]; by destruct Dj as (? & _).
  1-4: destruct Dj as (Hj & _); destruct (page_index_value j Hj) as [Bj _]; unfold VIRTUAL_ADDRESS_START; lia.
  1: rewrite !page_addr_eq; lia.
  exists q, (with_mem m x2), L', t'. split; [|split].
  - unfold copy_one, allocate_user_page. rewrite bind_assoc, (bind_ok _ _ _ _ _ R1). rewrite (proj2 (Z.eqb_neq _ _) Nq).
    rewrite bind_assoc, (bind_ok _ _ _ _ _ R2), bind_ret.
    assert (Ev : u64 (page_addr q + VIRTUAL_ADDRESS_START) = page_addr q + VIRTUAL_ADDRESS_START) by (apply u64_small; unfold VIRTUAL_ADDRESS_START; lia).
    rewrite Ev. rewrite (proj2 (Z.eqb_neq _ 0)) by (unfold VIRTUAL_ADDRESS_START; lia). rewrite bind_get.
    assert (Et2 : ttbr0 (k_cpu x2) = pd) by (rewrite Ef; exact Et). rewrite Et2.
    rewrite (mmu_walks _ _ _ _ (eq_trans (Hw2 va) Hw)), Ha, Z.add_0_r. cbn [of_option]. rewrite bind_ret.
    by rewrite (bind_ok _ _ _ _ _ R3).
  - split; [by apply (data_write_wf x2 L' q m); [apply M|..]|]. intros i Hi a Hin. cbn [k_mem with_mem]. rewrite V.
    by apply (mp_mapped _ _ _ _ _ _ _ _ _ M i).
  - apply M.
  - cbn [k_tasks with_mem]. rewrite (mp_tasks _ _ _ _ _ _ _ _ _ M). by rewrite F1.
  - split; [apply M|]. by apply (mp_apart _ _ _ _ _ _ _ _ _ M).
  - apply M.
  - apply M.
  - apply M.
  - apply M.
  - intros va'. rewrite <- T. unfold translate. cbn [k_tasks k_mem with_mem]. rewrite (mp_tasks _ _ _ _ _ _ _ _ _ M), lookup_insert_eq.
    cbn [mbind option_bind]. destruct (_ =? 0); [done|]. apply (data_write_walk x2 L' q m); [apply M|done|done|apply M].
  - intros va'. rewrite <- Hw2. apply (data_write_walk x2 L' q m); [apply M|done|done|]. eapply lookup_weaken; [exact Epd|apply M].
  - intros k Dk. destruct (K2 k Dk) as [Dk2 Sk]. assert (Nk : k <> q) by (intros ->; destruct Dk as (_ & U & _); congruence).
    destruct (data_write_kept x2 L' q m S k Nk Dk2) as [Dk3 Sk3]. split; [done|].
    intros o Ho. cbn [k_mem with_mem]. by rewrite Sk3, Sk.
  - split; [|done]. destruct Dq as (_ & Uq2 & Eq2). split; [done|]. split; [|done]. by rewrite (page_used_ext (with_mem m x2) x2).
  - intros o Ho. cbn [k_mem with_mem]. rewrite C by lia. by apply Sj.
  - rewrite (free_list_ext (with_mem m x2) x2) by done. pose proof (mp_free _ _ _ _ _ _ _ _ _ M) as Hfr.
    rewrite EF1 in Hfr. rewrite EF. cbn [length]. lia.
  - rewrite Ef at 1. done.
Qed.
(** ** All pages *)

(** The pages of an address space: each address with the index of its page. *)
Definition space_pages (s : kstate) (L : gmap Z nat) (mm : mm_t) (pages : list (Z * Z)) : Prop :=
  userpages_count mm = Z.of_nat (length pages) /\
  forall k va j, pages !! k = Some (va, j) ->
    userpages mm !! k = Some (UserPage (page_addr j) va) /\ va mod 4096 = 0
    /\ walk 3 (k_mem s) (pagedirectory mm) va = Some (page_addr j) /\ data_page s L j.

Definition same_content (x : kstate) (j q : Z) : Prop :=
  forall o, 0 <= o < 4096 ->
    ld8 (k_mem x) (page_addr q + VIRTUAL_ADDRESS_START + o) = ld8 (k_mem x) (page_addr j + VIRTUAL_ADDRESS_START + o).

(** The state [x] after the pages [done] of the parent were copied to [copies]. *)
Record copying (s x : kstate) (L0 L : gmap Z nat) (child pd : Z) (t : task_struct) (pages : list (Z * Z)) (copies : list Z) : Prop := {
  cp_wf : tables_wf x L;
  cp_mapped : pages_mapped x;
  cp_sub : L0 ⊆ L;
  cp_tasks : k_tasks x = <[child := t]> (k_tasks s);
  cp_dir : pagedirectory (t_mm t) = 0 \/ L !! pagedirectory (t_mm t) = Some 3%nat;
  cp_apart : pd <> pagedirectory (t_mm t);
  cp_kernel : 0 <= kernelpages_count (t_mm t) <= 4 * Z.of_nat (length copies);
  cp_count : userpages_count (t_mm t) = Z.of_nat (length copies);
  cp_user : length (userpages (t_mm t)) = 16%nat;
  cp_rest : t = set_mm (t_mm t) zero_task;
  cp_parent va : walk 3 (k_mem x) pd va = walk 3 (k_mem s) pd va;
  cp_data : data_kept s x L0 L;
  cp_nodup : NoDup copies;
  cp_free : (length (free_list s) <= 5 * length copies + length (free_list x))%nat;
  cp_copies k va j q : pages !! k = Some (va, j) -> copies !! k = Some q ->
    userpages (t_mm t) !! k = Some (UserPage (page_addr q) va) /\ translate x child va = Some (page_addr q)
    /\ data_page x L q /\ page_used s q = false /\ same_content x j q;
  cp_frame : x = with_mem (k_mem x) (with_pages (k_pages x) (with_tasks (k_tasks x) s)) }.

Section copy_pages.
Context (s : kstate) (L0 : gmap Z nat) (src child : Z) (ts : task_struct) (pages : list (Z * Z)).
Let pd := pagedirectory (t_mm ts).
Context (Es : k_tasks s !! src = Some ts) (Nc : src <> child).
Context (Ed : L0 !! pd = Some 3%nat) (Et : ttbr0 (k_cpu s) = pd) (SP : space_pages s L0 (t_mm ts) pages).
Context (Dist : NoDup (va_indices ∘ fst <$> pages)) (Small : (length pages <= 3)%nat)
  (Free : (5 * length pages <= length (free_list s))%nat).

Lemma used_before x L q : data_kept s x L0 L -> L0 ⊆ L -> tables_wf x L -> page_index q ->
  page_used x q = false -> page_used s q = false.
Proof.
  intros D Sub W Hq U. destruct (page_used s q) eqn:U0; [|done].
  destruct (L0 !! page_addr q) as [n|] eqn:E.
  - destruct (tw_page _ _ W _ _ (lookup_weaken _ _ _ _ E Sub)) as (k & Hk & Ek & Uk).
    apply page_addr_inj in Ek; [congruence|done..].
  - destruct (D q) as [(_ & U1 & _) _]; [done|congruence].
Qed.

Lemma copy_turn x L t copies va j :
  copying s x L0 L child pd t pages copies -> pages !! length copies = Some (va, j) ->
  exists q x' L' t', copy_one child va x = Ok 0 x' /\ copying s x' L0 L' child pd t' pages (copies ++ [q]).
Proof.
  intros C Ep. pose proof (lookup_lt_Some _ _ _ Ep) as Hlt. destruct C as [W HM Sub Tk Dir Ap Kn Cn Us Re Pa Da Nd Fr Cp Fm].
  destruct (proj2 SP _ _ _ Ep) as (_ & Ha & Hw & Dj). destruct (Da j Dj) as [Djx Sj].
  destruct (copy_one_run x L child t va pd j) as (q & x' & L' & t' & R & P).
  1: split; try done; [by rewrite Tk, lookup_insert_eq|lia|lia].
  1: lia.
  1: by eapply lookup_weaken.
  1: done.
  1: by rewrite Fm.
  1: by rewrite Pa.
  1, 2: done.
  destruct P as [[W' HM'] Sub' Tk' [Dir' Ap'] Kn' Cn' Us' Re' Tr' Pa' Da' [Dq Uq] Co' Fr' Fm'].
  assert (Fresh : q ∉ copies).
  { intros [k Hk]%list_elem_of_lookup. pose proof (lookup_lt_Some _ _ _ Hk).
    destruct (lookup_lt_is_Some_2 pages k) as [[va' j'] Ek]; [lia|].
    destruct (Cp _ _ _ _ Ek Hk) as (_ & _ & (_ & U & _) & _). congruence. }
  exists q, x', L', t'. split; [done|]. split; try done.
  - by etrans.
  - by rewrite Tk', Tk, insert_insert_eq.
  - by right.
  - rewrite length_app. cbn [length]. lia.
  - rewrite length_app. cbn [length]. lia.
  - by rewrite Us', length_insert.
  - by rewrite Re' at 1; rewrite Re.
  - intros va'. by rewrite Pa', Pa.
  - by eapply data_kept_trans.
  - apply NoDup_app. split; [done|]. split; [|apply NoDup_singleton]. by intros k Hk ->%list_elem_of_singleton.
  - rewrite length_app. cbn [length]. lia.
  - intros k va' j' q' Ek Hk. apply lookup_app_Some in Hk as [Hk|[Hge Hk]].
    + pose proof (lookup_lt_Some _ _ _ Hk). destruct (Cp _ _ _ _ Ek Hk) as (C1 & C2 & C3 & C4 & C5).
      destruct (Da' q' C3) as [D' S'].
      split; [rewrite Us', list_lookup_insert_ne by lia; done|]. split.
      { rewrite Tr', bool_decide_eq_false_2; [done|]. intros E.
        assert (k = length copies); [|lia]. eapply (NoDup_lookup _ _ _ (va_indices va) Dist); rewrite list_lookup_fmap.
        - rewrite Ek. cbn. by rewrite E.
        - by rewrite Ep. }
      split; [done|]. split; [done|]. destruct (proj2 SP _ _ _ Ek) as (_ & _ & _ & Dj'). destruct (Da j' Dj') as [Dx _].
      destruct (Da' j' Dx) as [_ S'']. intros o Ho. by rewrite S', S'', C5.
    + assert (k = length copies) as ->.
      { apply lookup_lt_Some in Hk. cbn in Hk. lia. }
      rewrite Nat.sub_diag in Hk. injection Hk as <-. rewrite Ep in Ek. injection Ek as <- <-.
      split; [rewrite Us', Cn, Nat2Z.id; apply list_lookup_insert_eq; lia|]. split; [by rewrite Tr', bool_decide_eq_true_2|].
      split; [done|]. split; [by eapply used_before; first [done|apply Dq]|]. intros o Ho. rewrite Co' by done. symmetry. by apply Da'.
  - rewrite Fm' at 1. by rewrite Fm at 1.
Qed.

Lemma copy_body_one x va q x' i : k_tasks x !! src = Some ts -> (i < length pages)%nat -> (length pages <= 3)%nat ->
  userpages (t_mm ts) !! i = Some (UserPage q va) -> copy_one child va x = Ok 0 x' ->
  copy_page_body mmu src child (Z.of_nat i) x = Ok (inl (Z.of_nat (Datatypes.S i))) x'.
Proof.
  intros E Hi _ Eu R. unfold copy_page_body, get_task. unfold mbind at 1, M_bind at 1. rewrite E.
  rewrite (proj1 SP). rewrite (proj2 (Z.ltb_lt _ _)) by lia. rewrite Nat2Z.id, Eu. cbn [of_option]. rewrite bind_ret. cbn [virtual_adr].
  unfold copy_one in R. revert R. unfold mbind at 1 5, M_bind at 1 5.
  destruct (allocate_user_page child va x) as [a y|]; [|done]. destruct (a =? 0); [done|]. rewrite !bind_get.
  unfold mbind at 1 3, M_bind at 1 3. destruct (of_option _ _ y) as [b z|]; [|done].
  unfold mbind, M_bind. destruct (memcpy a b PAGE_SIZE z) as [c w|]; [|done]. intros [= ->].
  unfold mret, M_ret. do 2 f_equal. unfold s32. rewrite swrap_small by lia. lia.
Qed.

Lemma copy_loop n : forall x L t copies, copying s x L0 L child pd t pages copies -> (length copies + n = length pages)%nat ->
  exists x' L' t' copies', loops (copy_page_body mmu src child) (Datatypes.S n) (Z.of_nat (length copies)) x 0 x'
    /\ copying s x' L0 L' child pd t' pages copies' /\ length copies' = length pages.
Proof.
  induction n as [|n IH]; intros x L t copies C Hn.
  - exists x, L, t, copies. split; [|split; [done|lia]]. constructor. unfold copy_page_body, get_task.
    unfold mbind at 1, M_bind at 1. rewrite (cp_tasks _ _ _ _ _ _ _ _ _ C), lookup_insert_ne, Es by done.
    rewrite (proj1 SP). rewrite (proj2 (Z.ltb_ge _ _)) by lia. done.
  - destruct (lookup_lt_is_Some_2 pages (length copies)) as [[va j] Ep]; [lia|].
    destruct (copy_turn x L t copies va j C Ep) as (q & x1 & L1 & t1 & R & C1).
    destruct (IH x1 L1 t1 (copies ++ [q]) C1) as (x' & L' & t' & copies' & Lp & C' & Hl); [rewrite length_app; cbn; lia|].
    exists x', L', t', copies'. split; [|done]. eapply loops_step; [|rewrite length_app, Nat.add_comm in Lp; exact Lp].
    eapply copy_body_one; [by rewrite (cp_tasks _ _ _ _ _ _ _ _ _ C), lookup_insert_ne|lia|done| |done].
    apply (proj2 SP _ _ _ Ep).
Qed.

End copy_pages.
(** ** The whole space of the caller *)

(** The running task has the address space [pages], which the processor translates. *)
Record parent_space (s : kstate) (L : gmap Z nat) (ts : task_struct) (pages : list (Z * Z)) : Prop := {
  ps_wf : tables_wf s L;
  ps_mapped : pages_mapped s;
  ps_dir : L !! pagedirectory (t_mm ts) = Some 3%nat;
  ps_ttbr : ttbr0 (k_cpu s) = pagedirectory (t_mm ts);
  ps_pages : space_pages s L (t_mm ts) pages;
  ps_distinct : NoDup (va_indices ∘ fst <$> pages);
  ps_small : (length pages <= 3)%nat }.

Lemma copy_virtual_memory_run s L ts pages child :
  parent_space s L ts pages -> k_tasks s !! current (k_sched s) = Some ts -> child <> current (k_sched s) ->
  k_tasks s !! child = Some zero_task -> (5 * length pages <= length (free_list s))%nat ->
  exists s' L' t' copies, copy_virtual_memory mmu child s = Ok 0 s'
    /\ copying s s' L L' child (pagedirectory (t_mm ts)) t' pages copies /\ length copies = length pages.
Proof.
  intros [W HM Ed Et SP Dist Small] Es Nc Ez Free.
  destruct (copy_loop s L (current (k_sched s)) child ts pages Es (not_eq_sym Nc) Ed Et SP Dist Small Free
    (length pages) s L zero_task []) as (s' & L' & t' & copies & Lp & C & Hl); [|done|].
  - split; try done.
    + by rewrite insert_id.
    + by left.
    + intros E. destruct (is_table_bounds _ _ (tw_page _ _ W _ _ Ed)) as [B _]. rewrite E in B. cbn in B. lia.
    + apply NoDup_nil_2.
    + by destruct s.
  - exists s', L', t', copies. split; [|done]. unfold copy_virtual_memory, get_current_task. rewrite bind_get.
    apply (loops_loop _ _ _ _ _ _ Lp). lia.
Qed.

(** Pages and tables depend on the memory and the allocator's map only. *)
Lemma tables_wf_ext s s' L : k_mem s' = k_mem s -> k_pages s' = k_pages s -> tables_wf s L -> tables_wf s' L.
Proof.
  intros Em Ep [A B C]. split; rewrite ?Em; [|done..]. intros p n E. destruct (A p n E) as (i & Hi & -> & U).
  exists i. by rewrite (page_used_ext s' s).
Qed.
Lemma data_page_ext s s' L j : k_pages s' = k_pages s -> data_page s L j -> data_page s' L j.
Proof. intros Ep (Hj & U & E). split; [done|]. by rewrite (page_used_ext s' s). Qed.
Lemma pages_mapped_ext s s' : k_mem s' = k_mem s -> pages_mapped s -> pages_mapped s'.
Proof. intros Em HM i Hi a Ha. rewrite Em. by apply (HM i Hi). Qed.

(** A space that keeps its walks and its data pages is the same space. *)
Lemma space_pages_kept s s' L L' mm pages : space_pages s L mm pages -> data_kept s s' L L' ->
  (forall va, walk 3 (k_mem s') (pagedirectory mm) va = walk 3 (k_mem s) (pagedirectory mm) va) -> space_pages s' L' mm pages.
Proof.
  intros [Hc H] D Hw. split; [done|]. intros k va j Ek. destruct (H k va j Ek) as (? & ? & ? & Dj).
  split; [done|]. split; [done|]. rewrite Hw. split; [done|]. by apply D.
Qed.

(** A page taken for another use leaves the space. *)
Lemma parent_space_fresh s s2 s3 L i ts ts' pages : parent_space s L ts pages -> page_index i -> fresh_page i s s2 ->
  k_mem s3 = k_mem s2 -> k_pages s3 = k_pages s2 -> k_cpu s3 = k_cpu s -> t_mm ts' = t_mm ts -> parent_space s3 L ts' pages.
Proof.
  intros [W HM Ed Et SP Dist Small] Hi F Em Ep Ec Emm. split; rewrite ?Emm, ?Ec; try done.
  - eapply tables_wf_ext; [done..|]. by eapply fresh_wf.
  - eapply pages_mapped_ext; [done|]. by eapply fresh_page_mapped.
  - eapply space_pages_kept; [done|eapply data_kept_ext; [done..|by eapply fresh_data]|].
    intros va. rewrite Em. by eapply (fresh_walk s s2 i L 3).
Qed.

(** ** The new process *)

(** The task structure of a new process at [p] with the address space [mm]. *)
Definition new_process (ret_from_fork p flags prio : Z) (mm : mm_t) : task_struct :=
  Task (CpuContext 0 0 0 0 0 0 0 0 0 0 0 (get_task_pt_regs p) ret_from_fork)
    TASK_STATE_RUNNING prio prio 1 0 flags mm (FdTable 0 0).

Lemma get_task_pt_regs_inj p q : 0 <= p < 2 ^ 64 -> 0 <= q < 2 ^ 64 -> get_task_pt_regs p = get_task_pt_regs q -> p = q.
Proof. unfold get_task_pt_regs, TASK_SIZE, SIZEOF_PT_REGS, u64. intros Hp Hq E. Z.to_euclidean_division_equations. lia. Qed.

(** [s'] is [s] after the copy of the registers and the pages, with the task [t] at [p]. *)
Record forked (s s' : kstate) (L L' : gmap Z nat) (p : Z) (mm' : mm_t) (ts : task_struct) (rs : task_pt_regs)
    (pages : list (Z * Z)) (copies : list Z) : Prop := {
  fk_regs : k_regs s' = <[get_task_pt_regs p := set_reg0 0 rs]> (k_regs s);
  fk_child : space_pages s' L' mm' (zip (fst <$> pages) copies);
  fk_length : length copies = length pages;
  fk_nodup : NoDup copies;
  fk_parent : space_pages s' L' (t_mm ts) pages;
  fk_content k va j q o : pages !! k = Some (va, j) -> copies !! k = Some q -> 0 <= o < 4096 ->
    page_used s q = false
    /\ ld8 (k_mem s') (page_addr q + VIRTUAL_ADDRESS_START + o) = ld8 (k_mem s) (page_addr j + VIRTUAL_ADDRESS_START + o)
    /\ ld8 (k_mem s') (page_addr j + VIRTUAL_ADDRESS_START + o) = ld8 (k_mem s) (page_addr j + VIRTUAL_ADDRESS_START + o) }.

(** What the copy of the pages from [s4] gives, with the task structure's page taken between [s] and [s4]. *)
Lemma copying_forked s s2 s4 s5 s' L L' i p ts t' rs pages copies :
  let pd := pagedirectory (t_mm ts) in
  parent_space s L ts pages -> page_index i -> fresh_page i s s2 -> k_mem s4 = k_mem s2 -> k_pages s4 = k_pages s2 ->
  copying s4 s5 L L' p pd t' pages copies -> length copies = length pages ->
  k_mem s' = k_mem s5 -> k_pages s' = k_pages s5 -> k_regs s' = <[get_task_pt_regs p := set_reg0 0 rs]> (k_regs s) ->
  forked s s' L L' p (t_mm t') ts rs pages copies.
Proof.
  intros pd PS Hi F Em4 Ep4 C Hl Em Ep Er. pose proof (fresh_data s s2 i L L Hi F (fun _ _ => eq_refl)) as D2.
  pose proof (data_kept_ext _ _ s4 _ _ Em4 Ep4 D2) as D4.
  pose proof (data_kept_ext _ _ s' _ _ Em Ep (data_kept_trans _ _ _ _ _ _ D4 (cp_data _ _ _ _ _ _ _ _ _ C))) as D.
  destruct (ps_pages _ _ _ _ PS) as [Hc HP]. split; try done.
  - split.
    + rewrite (cp_count _ _ _ _ _ _ _ _ _ C), length_zip_with, length_fmap. lia.
    + intros k va q [va' [q' [E [Ek Eq]]]]%lookup_zip_with_Some. injection E as <- <-.
      rewrite list_lookup_fmap in Ek. destruct (pages !! k) as [[va' j]|] eqn:Ej; [|done]. injection Ek as ->.
      destruct (HP _ _ _ Ej) as (_ & Ha & _). destruct (cp_copies _ _ _ _ _ _ _ _ _ C _ _ _ _ Ej Eq) as (Eu & Et & Dq & _).
      split; [done|]. split; [done|]. split; [|by eapply data_page_ext].
      unfold translate in Et. rewrite (cp_tasks _ _ _ _ _ _ _ _ _ C), lookup_insert_eq in Et. cbn in Et. rewrite Em.
      by destruct (_ =? 0).
  - by apply (cp_nodup _ _ _ _ _ _ _ _ _ C).
  - eapply space_pages_kept; [apply PS|exact D|]. intros va. rewrite Em, (cp_parent _ _ _ _ _ _ _ _ _ C), Em4.
    eapply (fresh_walk s s2 i L 3); [apply PS|done|done|apply PS].
  - intros k va j q o Ej Eq Ho. destruct (cp_copies _ _ _ _ _ _ _ _ _ C _ _ _ _ Ej Eq) as (_ & _ & _ & U & Sc).
    destruct (HP _ _ _ Ej) as (_ & _ & _ & Dj). destruct (D j Dj) as [_ Sj]. split; [|split].
    + rewrite (page_used_ext s4 s2) in U by done. destruct F as (_ & HU & _). rewrite HU in U. by apply orb_false_elim in U as [_ U].
    + rewrite Em, Sc, <- Em by done. by apply Sj.
    + by apply Sj.
Qed.

Section kernel_fork_user.
Context (ret_from_fork : Z).

Lemma kernel_fork_user_run s L i r flags fn args ts rs pages :
  let p := page_addr i + VIRTUAL_ADDRESS_START in
  let cur := current (k_sched s) in
  parent_space s L ts pages -> free_list s = i :: r -> (5 * length pages <= length r)%nat ->
  0 <= n_tasks (k_sched s) < 64 -> length (task_array (k_sched s)) = 64%nat ->
  p <> cur -> 0 <= cur < 2 ^ 64 -> k_tasks s !! cur = Some ts -> preempt_count ts = 0 ->
  k_regs s !! get_task_pt_regs cur = Some rs -> Z.land flags TASK_FLAGS_KERNEL_THREAD = 0 ->
  exists s' L' mm' copies, kernel_fork mmu ret_from_fork flags fn args s = Ok (n_tasks (k_sched s)) s'
    /\ k_tasks s' = <[p := new_process ret_from_fork p flags (priority ts) mm']> (k_tasks s)
    /\ k_sched s' = SchedGlobals cur (<[Z.to_nat (n_tasks (k_sched s)) := p]> (task_array (k_sched s))) (u8 (n_tasks (k_sched s) + 1))
    /\ k_timers s' = k_timers s /\ forked s s' L L' p mm' ts rs pages copies.
Proof.
  intros p cur PS EF Hr Hn Hlen N Hcur Ec Pc Er Hfl. subst cur.
  destruct (fork_start_run mmu ret_from_fork s i r ts flags fn args (ps_mapped _ _ _ _ PS) EF Ec) as (s3 & FS & ->).
  fold p in FS |- *. destruct (fork_started_frame _ _ _ _ FS) as (Es & Em & Ecpu). destruct FS as [Et Eg (s2 & F & E3)].
  destruct (free_list_next s i r EF) as [Hi _]. destruct (page_index_value i Hi) as [B _].
  assert (Hp : 0 <= p < 2 ^ 64) by (unfold p, VIRTUAL_ADDRESS_START; lia).
  set (s1 := bump 1 (current (k_sched s)) s) in *. set (s4 := with_regs (<[get_task_pt_regs p := set_reg0 0 rs]> (k_regs s3)) s3).
  assert (PS1 : parent_space s1 L ts pages).
  { destruct PS as [W HM ? ? SP ? ?]. split; try done; [by apply (tables_wf_ext s s1)|].
    eapply (space_pages_kept s s1 L L); [done|by eapply (data_kept_ext s s); [..|apply data_kept_refl]|done]. }
  assert (Em4 : k_mem s4 = k_mem s2) by (cbn; by rewrite E3). assert (Ep4 : k_pages s4 = k_pages s2) by (cbn; by rewrite E3).
  pose proof (parent_space_fresh s1 s2 s4 L i ts (add_preempt 1 ts) pages PS1 Hi F Em4 Ep4 Ecpu eq_refl) as PS4.
  assert (E4 : k_tasks s4 !! current (k_sched s4) = Some (add_preempt 1 ts)).
  { cbn. by rewrite Es, Et, lookup_insert_ne, alter_by, Ec, Z.eqb_refl by done. }
  assert (F4 : (5 * length pages <= length (free_list s4))%nat).
  { rewrite (free_list_ext s4 s2), (free_list_fresh s1 s2 i r) by (done || by rewrite (free_list_ext s1 s)). done. }
  assert (E4p : k_tasks s4 !! p = Some zero_task) by (cbn; by rewrite Et, lookup_insert_eq).
  destruct (copy_virtual_memory_run s4 L (add_preempt 1 ts) pages p PS4 E4) as (s5 & L' & t' & copies & R5 & C & Hl);
    [cbn; by rewrite Es|done|done|].
  assert (E5 : k_sched s5 = k_sched s /\ k_regs s5 = k_regs s4 /\ k_timers s5 = k_timers s /\ k_tasks s5 = <[p := t']> (k_tasks s4)).
  { pose proof (cp_tasks _ _ _ _ _ _ _ _ _ C). rewrite (cp_frame _ _ _ _ _ _ _ _ _ C). by repeat split. }
  destruct E5 as (Es5 & Er5 & Em5 & Et5).
  pose proof (fork_tail_run ret_from_fork s5 flags p t' (add_preempt 1 ts)) as R6.
  rewrite Es5, Et5, lookup_insert_eq, lookup_insert_ne in R6 by done. cbn [s4 k_tasks k_sched with_regs] in R6, E4.
  rewrite Es in E4. specialize (R6 N eq_refl E4 Hn Hlen).
  eexists _, L', (t_mm t'), copies. split; [|split; [|split; [|split]]].
  - rewrite <- R6. unfold fork_copy. rewrite Hfl. cbn [negb Z.eqb]. unfold get_current_task. rewrite !bind_assoc, bind_get, Es.
    rewrite bind_assoc. assert (Rr : get_regs (get_task_pt_regs (current (k_sched s))) s3 = Ok rs s3).
    { unfold get_regs. rewrite Eg, lookup_insert_ne, Er; [done|]. intros E. apply N. by apply get_task_pt_regs_inj. }
    rewrite (bind_ok _ _ _ _ _ Rr). unfold put_regs. rewrite bind_assoc, bind_put. fold s4.
    by rewrite bind_assoc, (bind_ok _ _ _ _ _ R5), bind_ret.
  - unfold fork_done. cbn [k_tasks with_tasks with_sched]. rewrite Es5, Et5, insert_insert_eq. cbn [s4 k_tasks with_regs].
    rewrite Et, insert_insert_eq, (fork_tasks _ _ _ ts) by done. f_equal.
    by rewrite (cp_rest _ _ _ _ _ _ _ _ _ C).
  - unfold fork_done. cbn [k_sched with_tasks with_sched]. by rewrite Es5.
  - exact Em5.
  - set (s' := fork_done _ _ _).
    assert (FK : forked s1 s' L L' p (t_mm t') ts rs pages copies).
    { apply (copying_forked s1 s2 s4 s5 s' L L' i p ts t' rs pages copies PS1 Hi F Em4 Ep4 C Hl eq_refl eq_refl).
      cbn. rewrite Er5. cbn. by rewrite Eg, insert_insert_eq. }
    destruct FK. split; try done. intros k va j q o Ek Eq Ho. rewrite (page_used_ext s s1) by done. by eapply fk_content0.
Qed.

End kernel_fork_user.
End user_fork.

(** ** A concrete instance: a process with one page *)

(** The processor that follows the tables. *)
Definition table_walker (m : mem) (root va : Z) : option Z :=
  p ← walk 3 m root va; Some (p + VIRTUAL_ADDRESS_START + va mod 4096).

Lemma sched_inv_mm s s' p mm : sched_inv s -> k_tasks s' = alter (set_mm mm) p (k_tasks s) ->
  k_sched s' = k_sched s -> k_timers s' = k_timers s -> sched_inv s'.
Proof.
  intros [W B (q & tq & Hq & Hq0 & Eq & Sq & Pq)] Et Es Em.
  assert (F : tasks_by (fun q t => if q =? p then set_mm mm t else t) s s') by (intros q'; rewrite Et; apply alter_by).
  split.
  - eapply sched_wf_by; [done|exact F| |by rewrite Es|rewrite Es; apply W|eapply timers_wf_by; [apply W|exact F|done]].
    intros q' t Ht. cbn. by destruct (q' =? p).
  - intros q' t Hq' Hq0' E. rewrite Es in Hq' |- *. rewrite F in E. destruct (k_tasks s !! q') as [t0|] eqn:E0; cbn in E; [|done].
    injection E as <-. destruct (B q' t0 Hq' Hq0' E0) as [B1 B2]. rewrite <- B1. by destruct (q' =? p).
  - exists q, (if q =? p then set_mm mm tq else tq). rewrite Es. split; [done|]. split; [done|]. rewrite F, Eq. split; [done|].
    by destruct (q =? p).
Qed.

(** The running task of [fork_sample] with the address space [mm], its tables in use. *)
Definition running_in (x : kstate) (mm : mm_t) : kstate :=
  with_cpu (Cpu zero_context (pagedirectory mm) true) (with_regs {[get_task_pt_regs 4096 := zero_regs]} x).

Lemma many_pages : (10 <= length (1%Z :: seqZ 2 (MM_NUM_OF_PAGES - 2)%Z))%nat.
Proof.
  cbn [length]. rewrite length_seqZ, num_pages. assert (9 <= Z.to_nat (1039360 - 2))%nat; [|lia].
  apply Nat2Z.inj_le. rewrite Z2Nat.id; lia.
Qed.

Lemma one_page_ready : exists s L ts i r, sched_inv s /\ parent_space s L ts [(0x2000, 0)] /\ free_list s = i :: r
  /\ (5 <= length r)%nat /\ k_sched s = k_sched fork_sample /\ k_tasks s !! 4096 = Some ts
  /\ k_regs s !! get_task_pt_regs 4096 = Some zero_regs.
Proof.
  set (t := sample_task TASK_STATE_RUNNING 2 1 0).
  assert (SO : space_ok fork_sample ∅ 4096 t).
  { split; [by split; intros p n; rewrite ?lookup_empty|apply pages_taken_mapped|done|by left|cbn; lia|cbn; lia]. }
  assert (EF : free_list fork_sample = 0 :: 1 :: seqZ 2 (MM_NUM_OF_PAGES - 2)) by (etrans; [by apply free_list_ext|apply free_list_boot]).
  destruct (take_and_map_run fork_sample ∅ 4096 t 0x2000 0 _ SO EF many_left) as (s1 & x & L & t' & R & _ & _ & M & T & F1).
  pose proof (next_free_page_run fork_sample (so_mapped _ _ _ _ SO)) as Ry. rewrite EF in Ry.
  destruct Ry as (y & Ry & (_ & U & _) & H0 & EF1). rewrite R in Ry. injection Ry as <-.
  assert (D0 : data_page s1 ∅ 0) by (split; [done|split; [by rewrite U|apply lookup_empty]]).
  destruct (mp_data _ _ _ _ _ _ _ _ _ M 0 D0) as [D _].
  pose proof (mp_free _ _ _ _ _ _ _ _ _ M) as HF. rewrite EF1 in HF. pose proof many_pages as MP.
  pose proof (mp_tasks _ _ _ _ _ _ _ _ _ M) as Et. replace (k_tasks s1) with (k_tasks fork_sample) in Et by (by rewrite F1).
  set (s := running_in x (t_mm t')). exists s, L, t'. destruct (free_list x) as [|i r] eqn:Ex; [cbn in HF, MP; lia|].
  assert (Es : k_sched x = k_sched fork_sample) by (rewrite (mp_frame _ _ _ _ _ _ _ _ _ M); by rewrite F1).
  exists i, r. split; [|split; [|split; [|split; [|split; [|split]]]]].
  - apply (sched_inv_mm fork_sample s 4096 (t_mm t')); [by apply tasks_on_inv| |exact Es|].
    + cbn [s running_in k_tasks with_cpu with_regs]. rewrite Et. apply map_eq. intros q. rewrite alter_by.
      destruct (Z.eqb_spec q 4096) as [->|]; [|by rewrite lookup_insert_ne, option_fmap_id].
      rewrite lookup_insert_eq. by rewrite (mp_rest _ _ _ _ _ _ _ _ _ M) at 1.
    + cbn. rewrite (mp_frame _ _ _ _ _ _ _ _ _ M). cbn. by rewrite F1.
  - split; [by apply (tables_wf_ext x s); [..|apply M]|by apply (pages_mapped_ext x); [|apply M]|apply M|done| |repeat constructor; by apply not_elem_of_nil|cbn; lia].
    split; [by rewrite (mp_count _ _ _ _ _ _ _ _ _ M)|]. intros [|k] va j E; [|done]. injection E as <- <-.
    split; [by rewrite (mp_user _ _ _ _ _ _ _ _ _ M)|]. split; [done|]. split; [|by apply (data_page_ext x)].
    specialize (T 0x2000). rewrite bool_decide_eq_true_2 in T by done. unfold translate in T. rewrite Et, lookup_insert_eq in T.
    cbn [mbind option_bind] in T. by destruct (_ =? 0).
  - etrans; [by apply (free_list_ext s x)|done].
  - cbn in HF, MP. lia.
  - exact Es.
  - cbn. by rewrite Et, lookup_insert_eq.
  - cbn. apply lookup_singleton_eq.
Qed.

Lemma table_walker_walks m root va p : walk 3 m root va = Some p -> table_walker m root va = Some (p + VIRTUAL_ADDRESS_START + va mod 4096).
Proof. intros E. unfold table_walker. by rewrite E. Qed.

