(* ===== verification/ElfTheorems.v ===== *)
(** * Loading a program (src/lib/elf/elf.c, src/scheduler/task.c)

    [elf_load] checks the header of an image and [move_to_userspace] gives the
    running task a page with the program, in its own tables, and the registers
    with which it enters the program. *)

From S2P Require Export UserFork.

(** The header at [header] is that of a 64-bit AArch64 program which starts at
    [entry] and whose first segment is the [size] bytes at [program]. *)
Record elf_image (m : mem) (header entry program size : Z) : Prop := {
  ei_range : 0 <= header /\ header + 64 < 2 ^ 64;
  ei_magic i b : ELF_MAGIC_NUMBER !! i = Some b -> ld8 m (header + Z.of_nat i) = Some b;
  ei_class : ld8 m (header + 4) = Some ELF_WORD_LEN_64;
  ei_machine : ldn 2 m (header + 18) = Some ELF_MACHINE_AARCH64;
  ei_entry : ldn 8 m (header + 24) = Some entry;
  ei_segment : exists phoff off, ldn 8 m (header + 32) = Some phoff /\ header + phoff + 56 < 2 ^ 64
    /\ ldn 8 m (header + phoff + 8) = Some off /\ ldn 8 m (header + phoff + 32) = Some size
    /\ program = header + off /\ program + size < 2 ^ 64 }.

(** The checks of [elf_load] on the header's fields. *)
Definition elf_accepted (magic : list Z) (machine word_len : Z) : bool :=
  bool_decide (magic = ELF_MAGIC_NUMBER) && (machine =? ELF_MACHINE_AARCH64) && (word_len =? ELF_WORD_LEN_64).

Section elf.
Context {O : PageOps} {Laws : PageLaws}.

Lemma check_magic_run s header bs : 0 <= header -> header + 4 < 2 ^ 64 -> length bs = 4%nat ->
  (forall i b, bs !! i = Some b -> ld8 (k_mem s) (header + Z.of_nat i) = Some b) ->
  check_magic header s = Ok (bool_decide (bs = ELF_MAGIC_NUMBER)) s.
Proof.
  intros H0 H1 Hl HB. destruct bs as [|b0 [|b1 [|b2 [|b3 [|]]]]]; try done.
  assert (R : forall i b, [b0; b1; b2; b3] !! i = Some b -> load8 (ptr_add header (Z.of_nat i)) s = Ok b s).
  { intros i b E. apply load8_ok. pose proof (lookup_lt_Some _ _ _ E) as Hi. cbn [length] in Hi.
    unfold ptr_add. rewrite u64_small by lia. by apply HB. }
  pose proof (R 0%nat b0 eq_refl) as R0. pose proof (R 1%nat b1 eq_refl) as R1. pose proof (R 2%nat b2 eq_refl) as R2. pose proof (R 3%nat b3 eq_refl) as R3.
  change (Z.of_nat 0) with 0 in R0. change (Z.of_nat 1) with (0 + 1) in R1. change (Z.of_nat 2) with (0 + 1 + 1) in R2. change (Z.of_nat 3) with (0 + 1 + 1 + 1) in R3.
  unfold check_magic. cbn [for_range]. rewrite bind_assoc, (bind_ok _ _ _ _ _ R0), bind_ret.
  change (ELF_MAGIC_NUMBER !! Z.to_nat 0) with (Some 0x7F). change (ELF_MAGIC_NUMBER !! Z.to_nat (0 + 1)) with (Some 0x45).
  change (ELF_MAGIC_NUMBER !! Z.to_nat (0 + 1 + 1)) with (Some 0x4C). change (ELF_MAGIC_NUMBER !! Z.to_nat (0 + 1 + 1 + 1)) with (Some 0x46).
  assert (D : forall x y : Z, bool_decide (Some x = Some y) = bool_decide (y = x)) by (intros x y; apply bool_decide_ext; split; congruence).
  assert (E : bool_decide ([b0; b1; b2; b3] = ELF_MAGIC_NUMBER)
    = bool_decide (b0 = 0x7F) && bool_decide (b1 = 0x45) && bool_decide (b2 = 0x4C) && bool_decide (b3 = 0x46)).
  { rewrite <- !bool_decide_and. apply bool_decide_ext. unfold ELF_MAGIC_NUMBER. split; [intros [= -> -> -> ->]; done|intros [[[-> ->] ->] ->]; done]. }
  rewrite D, E. destruct (bool_decide (b0 = _)); cbn [andb]; [|done]. rewrite bind_assoc, (bind_ok _ _ _ _ _ R1), bind_ret, D.
  destruct (bool_decide (b1 = _)); cbn [andb]; [|done]. rewrite bind_assoc, (bind_ok _ _ _ _ _ R2), bind_ret, D.
  destruct (bool_decide (b2 = _)); cbn [andb]; [|done]. rewrite bind_assoc, (bind_ok _ _ _ _ _ R3), bind_ret, D. done.
Qed.

Lemma load16_ok s a v : ldn 2 (k_mem s) a = Some v -> load16 a s = Ok v s.
Proof. intros E. unfold load16, loadn. by rewrite E. Qed.

(** An image whose first bytes, machine or word length are not those of a 64-bit
    AArch64 program is refused with -1, and nothing changes. *)
Theorem elf_load_rejects s header bs machine word_len : 0 <= header -> header + 64 < 2 ^ 64 -> length bs = 4%nat ->
  (forall i b, bs !! i = Some b -> ld8 (k_mem s) (header + Z.of_nat i) = Some b) ->
  ldn 2 (k_mem s) (header + 18) = Some machine -> ld8 (k_mem s) (header + 4) = Some word_len ->
  elf_accepted bs machine word_len = false ->
  elf_load header s = Ok (-1) s.
Proof.
  intros H0 H1 Hl HB Hm Hw N. unfold elf_accepted in N. unfold elf_load. rewrite (bind_ok _ _ _ _ _ (check_magic_run s header bs H0 ltac:(lia) Hl HB)).
  destruct (bool_decide (bs = ELF_MAGIC_NUMBER)); cbn [negb andb] in *; [|done]. unfold ptr_add. rewrite !(u64_small (header + 18)), !(u64_small (header + 4)) by lia.
  rewrite (bind_ok _ _ _ _ _ (load16_ok _ _ _ Hm)). destruct (machine =? _); cbn [negb andb] in *; [|done].
  by rewrite (bind_ok _ _ _ _ _ (load8_ok _ _ _ Hw)), N.
Qed.

Lemma elf_header_run s header entry program size : elf_image (k_mem s) header entry program size ->
  elf_load header s = move_to_userspace program size entry (current (k_sched s)) s.
Proof.
  intros [[H0 H1] HB Hw Hm He (phoff & off & Lp & Bp & Lo & Lz & -> & Bz)]. unfold elf_load.
  rewrite (bind_ok _ _ _ _ _ (check_magic_run s header ELF_MAGIC_NUMBER H0 ltac:(lia) eq_refl HB)), bool_decide_eq_true_2 by done. cbn [negb].
  pose proof (ldn_range _ _ _ _ Lp) as Rp. pose proof (ldn_range _ _ _ _ Lo) as Ro. pose proof (ldn_range _ _ _ _ Lz) as Rz.
  unfold ptr_add. rewrite !(u64_small (header + 18)), !(u64_small (header + 4)), !(u64_small (header + 32)), !(u64_small (header + 24)) by lia.
  rewrite (bind_ok _ _ _ _ _ (load16_ok _ _ _ Hm)), Z.eqb_refl. cbn [negb].
  rewrite (bind_ok _ _ _ _ _ (load8_ok _ _ _ Hw)), Z.eqb_refl. cbn [negb].
  rewrite (bind_ok _ _ _ _ _ (load64_ok _ _ _ Lp)). cbv zeta. rewrite !(u64_small (header + phoff)) by lia.
  rewrite !(u64_small (header + phoff + 8)), !(u64_small (header + phoff + 32)) by lia.
  rewrite (bind_ok _ _ _ _ _ (load64_ok _ _ _ Lo)), (bind_ok _ _ _ _ _ (load64_ok _ _ _ Lz)), (bind_ok _ _ _ _ _ (load64_ok _ _ _ He)).
  unfold get_current_task. rewrite bind_get. by rewrite u64_small by lia.
Qed.

(** ** The page of the program *)

(** The [n] bytes at [a] are in pages in use that hold no table. *)
Definition in_data_pages (s : kstate) (L : gmap Z nat) (a n : Z) : Prop :=
  forall x, a <= x < a + n -> exists j o, data_page s L j /\ 0 <= o < 4096 /\ x = page_addr j + VIRTUAL_ADDRESS_START + o.

Lemma data_pages_mapped s L a n : pages_mapped s -> in_data_pages s L a n -> valid_range (k_mem s) a n.
Proof. intros HM D x Hx. destruct (D x Hx) as (j & o & (Hj & _) & Ho & ->). apply (HM j Hj). change PAGE_SIZE with 4096. lia. Qed.
Lemma data_pages_kept s s' L L' a n : data_kept s s' L L' -> in_data_pages s L a n ->
  in_data_pages s' L' a n /\ forall x, a <= x < a + n -> ld8 (k_mem s') x = ld8 (k_mem s) x.
Proof.
  intros K D. split; intros x Hx; destruct (D x Hx) as (j & o & Dj & Ho & ->); destruct (K j Dj) as [Dj' Sj].
  - by exists j, o.
  - by apply Sj.
Qed.
(** An area apart from a page not among them. *)
Lemma data_pages_apart s L a n q : 0 < n -> in_data_pages s L a n -> page_index q -> page_used s q = false ->
  let b := page_addr q + VIRTUAL_ADDRESS_START in a + n <= b \/ b + 4096 <= a.
Proof.
  intros Hn D Hq U b. destruct (Z_le_gt_dec (a + n) b) as [|N1]; [by left|]. destruct (Z_le_gt_dec (b + 4096) a) as [|N2]; [by right|]. exfalso.
  destruct (D (Z.max a b)) as (j & o & (Hj & Uj & _) & Ho & E); [lia|]. assert (j = q); [|congruence].
  unfold b in *. rewrite !page_addr_eq in *. lia.
Qed.

(** [s'] is [s] with the program's [size] bytes at [program] in page [q], mapped at 0. *)
Record program_loaded (s s' : kstate) (task q program size entry : Z) (rg : task_pt_regs) (t' : task_struct) : Prop := {
  pl_regs : k_regs s' = <[get_task_pt_regs task := PtRegs (regs rg) (2 * PAGE_SIZE) entry PSR_MODE_EL0t]> (k_regs s);
  pl_task : k_tasks s' = <[task := t']> (k_tasks s);
  pl_dir : ttbr0 (k_cpu s') = pagedirectory (t_mm t');
  pl_translate va : translate s' task va = if bool_decide (va_indices va = va_indices 0) then Some (page_addr q) else translate s task va;
  pl_content o : 0 <= o < size -> ld8 (k_mem s') (page_addr q + VIRTUAL_ADDRESS_START + o) = ld8 (k_mem s) (program + o);
  pl_sched : k_sched s' = k_sched s }.

Lemma well_typed_runs fmt va s : well_typed fmt va = true -> exists out, printf fmt va s = Ok tt (with_console out s).
Proof. intros H. destruct (tfp_loop_well_typed _ _ _ H) as [o E]. exists (k_console s ++ o). unfold printf, tfp_format. by rewrite E. Qed.

Lemma move_to_userspace_run s L task t q r program size entry rg :
  space_ok s L task t -> free_list s = q :: r -> (4 <= length r)%nat -> k_regs s !! get_task_pt_regs task = Some rg ->
  0 < size <= PAGE_SIZE -> 0 <= program -> program + size < 2 ^ 64 -> in_data_pages s L program size ->
  exists s' t', move_to_userspace program size entry task s = Ok 0 s' /\ program_loaded s s' task q program size entry rg t'.
Proof.
  intros SO EF Hr Er Hs Hp0 Hp1 D. change PAGE_SIZE with 4096 in Hs.
  set (s0 := with_regs (<[get_task_pt_regs task := PtRegs (regs rg) (2 * PAGE_SIZE) entry PSR_MODE_EL0t]> (k_regs s)) s).
  assert (SO0 : space_ok s0 L task t).
  { destruct SO as [W HM Et Ed Ek Eu]. split; try done. by apply (tables_wf_ext s). }
  assert (EF0 : free_list s0 = q :: r) by (by rewrite (free_list_ext s0 s)).
  destruct (take_and_map_run s0 L task t 0 q r SO0 EF0 Hr) as (s1 & s2 & L' & t' & R1 & Nq & R2 & M & T & F1).
  destruct (free_list_next s0 q r EF0) as (Hq & Uq & _). destruct (page_index_value q Hq) as [Bq _].
  pose proof (next_free_page_run s0 (so_mapped _ _ _ _ SO0)) as Ry. rewrite EF0 in Ry. destruct Ry as (y & Ry & Fq & _ & _).
  rewrite R1 in Ry. injection Ry as <-.
  assert (K : data_kept s0 s2 L L') by (eapply data_kept_trans; [by apply (fresh_data s0 s1 q)|apply M]).
  assert (D0 : in_data_pages s0 L program size).
  { intros x Hx. destruct (D x Hx) as (j & o & Dj & Ho). exists j, o. by split; [apply (data_page_ext s)|]. }
  destruct (data_pages_kept _ _ _ _ _ _ K D0) as [D2 Same].
  assert (Eb : u64 (page_addr q + VIRTUAL_ADDRESS_START) = page_addr q + VIRTUAL_ADDRESS_START) by (apply u64_small; unfold VIRTUAL_ADDRESS_START; lia).
  assert (Dj : data_page s2 L' q).
  { apply (mp_data _ _ _ _ _ _ _ _ _ M). split; [done|]. split; [by rewrite (proj1 (proj2 Fq)), Z.eqb_refl|].
    destruct (L !! page_addr q) eqn:E; [|done]. exfalso. pose proof (so_tables _ _ _ _ SO0). by eapply (fresh_not_table s0 s1 q L). }
  destruct (memcpy_run s2 (page_addr q + VIRTUAL_ADDRESS_START) program size) as (m & R3 & C & S & V); try lia.
  { apply (data_pages_mapped s2 L'); [apply M|done]. }
  { intros a Ha. apply (page_area s2 q); [apply M|done|lia]. }
  1, 2: unfold VIRTUAL_ADDRESS_START; lia.
  { destruct (data_pages_apart s0 L program size q) as [|]; try done; lia. }
  assert (Et2 : k_tasks s2 !! task = Some t') by (rewrite (mp_tasks _ _ _ _ _ _ _ _ _ M); apply lookup_insert_eq).
  set (s3 := with_mem m s2) in *. set (pd := pagedirectory (t_mm t')).
  destruct (well_typed_runs (str "Setting page directory: 0x%08x%08x" ++ [10]) (halves pd) s3 eq_refl) as [o1 P1].
  set (s4 := with_cpu (Cpu (c_regs (k_cpu s3)) pd (irq_masked (k_cpu s3))) (with_console o1 s3)).
  destruct (well_typed_runs (str "pgd set" ++ [10]) [] s4 eq_refl) as [o2 P2].
  assert (G : forall c, get_task task (with_console c s3) = Ok t' (with_console c s3)) by (intros c; unfold get_task; cbn; by rewrite Et2).
  assert (G3 : get_task task s3 = Ok t' s3) by (unfold get_task; cbn; by rewrite Et2).
  assert (F2 : s2 = with_mem (k_mem s2) (with_pages (k_pages s2) (with_tasks (k_tasks s2) s0))).
  { rewrite (mp_frame _ _ _ _ _ _ _ _ _ M) at 1. by rewrite F1 at 1. }
  exists (with_console o2 s4), t'. split; [|split].
  - unfold move_to_userspace, get_regs. unfold mbind at 1, M_bind at 1. rewrite Er. unfold put_regs. rewrite bind_put. fold s0.
    unfold allocate_user_page. rewrite bind_assoc, (bind_ok _ _ _ _ _ R1), (proj2 (Z.eqb_neq _ _) Nq).
    rewrite bind_assoc, (bind_ok _ _ _ _ _ R2), bind_ret, Eb. rewrite (proj2 (Z.eqb_neq _ 0)) by (unfold VIRTUAL_ADDRESS_START; lia).
    rewrite (bind_ok _ _ _ _ _ R3), (bind_ok _ _ _ _ _ G3), (bind_ok _ _ _ _ _ P1), (bind_ok _ _ _ _ _ (G o1)).
    unfold set_page_directory. rewrite bind_put. by rewrite (bind_ok _ _ _ _ _ P2).
  - transitivity (k_regs s2); [done|by rewrite F2].
  - cbn. rewrite (mp_tasks _ _ _ _ _ _ _ _ _ M). by rewrite F1.
  - done.
  - intros va. transitivity (translate s2 task va); [|by rewrite T].
    unfold translate. cbn [k_tasks k_mem with_console with_cpu s4 s3 with_mem]. rewrite Et2. cbn [mbind option_bind]. destruct (_ =? 0); [done|].
    apply (data_write_walk s2 L' q m); [apply M|done| |apply M]. intros a Ha. apply S. lia.
  - intros o Ho. cbn [k_mem with_console with_cpu s4 s3 with_mem]. rewrite C by lia. apply Same. lia.
  - transitivity (k_sched s2); [done|by rewrite F2].
Qed.

(** C20. Loading a valid image gives the running task a fresh page with the program's
    bytes at address 0 of its space, keeps its other translations, switches to its
    tables, and leaves registers with which the task enters the program at the
    entry point, in user mode, on the stack at the end of the second page. *)
Theorem elf_load_starts_program s L t q r header entry program size rg :
  let task := current (k_sched s) in
  space_ok s L task t -> free_list s = q :: r -> (4 <= length r)%nat -> k_regs s !! get_task_pt_regs task = Some rg ->
  elf_image (k_mem s) header entry program size -> 0 < size <= PAGE_SIZE -> 0 <= program -> in_data_pages s L program size ->
  exists s' t', elf_load header s = Ok 0 s' /\ program_loaded s s' task q program size entry rg t'.
Proof.
  intros task SO EF Hr Er E Hs Hp D. rewrite (elf_header_run s header entry program size E). apply (move_to_userspace_run s L task t q r); try done.
  destruct E as [_ _ _ _ _ (? & ? & _ & _ & _ & _ & _ & B)]. exact B.
Qed.
End elf.

(** ** Concrete instances *)

(** Page 0 holds an image whose program is the four bytes of an instruction. *)
Definition elf_base : Z := 0xffff000000400000.
Definition elf_bytes : list (Z * Z) :=
  [(0, 0x7F); (1, 0x45); (2, 0x4C); (3, 0x46); (4, 2); (18, 0xB7); (32, 64); (72, 128); (96, 4);
   (128, 0x1F); (129, 0x20); (130, 0x03); (131, 0xD5)].
Definition elf_sample : kstate :=
  with_regs {[get_task_pt_regs 4096 := zero_regs]}
    (with_mem (Mem (m_valid (k_mem (pages_taken [0]))) (list_to_map ((fun p => (elf_base + p.1, p.2)) <$> elf_bytes)))
      (tasks_on (pages_taken [0]))).

Lemma elf_sample_space : space_ok elf_sample ∅ 4096 (sample_task TASK_STATE_RUNNING 2 1 0).
Proof.
  split; [by split; intros p n; rewrite ?lookup_empty| |done|by left|cbn; lia|cbn; lia].
  apply (pages_taken_mapped [0]).
Qed.

Lemma elf_sample_free : exists q r, free_list elf_sample = q :: r /\ (4 <= length r)%nat.
Proof.
  assert (H : (5 <= length (free_list elf_sample))%nat).
  { unfold free_list. assert (N : 6 <= MM_NUM_OF_PAGES) by (rewrite num_pages; lia). revert N.
    generalize MM_NUM_OF_PAGES. intros N HN. do 6 rewrite seqZ_cons by lia. rewrite !filter_cons.
    rewrite decide_False by done. rewrite !decide_True by done. cbn [length]. lia. }
  destruct (free_list elf_sample) as [|q r]; [cbn in H; lia|]. exists q, r. split; [done|]. cbn in H. lia.
Qed.

Lemma elf_sample_image : elf_image (k_mem elf_sample) elf_base 0 (elf_base + 128) 4.
Proof.
  split; [unfold elf_base; lia| |vm_compute; reflexivity..|].
  - intros [|[|[|[|i]]]] b H; [injection H as <-; vm_compute; reflexivity..|done].
  - exists 64, 128. split; [vm_compute; reflexivity|]. split; [unfold elf_base; lia|].
    split; [vm_compute; reflexivity|]. split; [vm_compute; reflexivity|]. split; [done|unfold elf_base; lia].
Qed.

Lemma elf_sample_program : in_data_pages elf_sample ∅ (elf_base + 128) 4.
Proof.
  intros x Hx. exists 0, (x - elf_base). split; [|split; [lia|]].
  - split; [unfold page_index; rewrite num_pages; lia|]. split; [vm_compute; reflexivity|apply lookup_empty].
  - change (page_addr 0 + VIRTUAL_ADDRESS_START) with elf_base. lia.
Qed.

Lemma elf_load_starts_program_witness : exists q s' t', elf_load elf_base elf_sample = Ok 0 s'
  /\ program_loaded elf_sample s' 4096 q (elf_base + 128) 4 0 zero_regs t'.
Proof.
  destruct elf_sample_free as (q & r & EF & Hr). exists q.
  apply (elf_load_starts_program elf_sample ∅ (sample_task TASK_STATE_RUNNING 2 1 0) q r elf_base 0 (elf_base + 128) 4 zero_regs);
    [exact elf_sample_space|exact EF|exact Hr|reflexivity|exact elf_sample_image|change PAGE_SIZE with 4096; lia|unfold elf_base; lia|exact elf_sample_program].
Defined.

(** An image one byte into the other one. *)
Lemma elf_load_rejects_witness : elf_load (elf_base + 1) elf_sample = Ok (-1) elf_sample.
Proof.
  apply (elf_load_rejects elf_sample (elf_base + 1) [0x45; 0x4C; 0x46; 2] 0 0); [unfold elf_base; lia|unfold elf_base; lia|reflexivity| |vm_compute; reflexivity|vm_compute; reflexivity|done].
  intros [|[|[|[|i]]]] b H; [injection H as <-; vm_compute; reflexivity..|done].
Defined.
