(* ===== verification/Syscalls.v ===== *)
(** * Files and system calls seen by user programs

    [vfs_open], [vfs_read] and [vfs_close] (src/fs/open.c, src/fs/read.c), the
    system calls (src/syscalls.c) and the exception entry that dispatches them
    (src/asm/entry.S, include/entry.h).

    A pointer passed by a program is an address of the memory in force during
    the call.  When a call switches to another task, the rest of the entry code
    runs when the caller is resumed: the outcome is then [Suspended]. *)

From S2P Require Export Process.

Section syscalls.
Context {O : PageOps}.
(** The processor's translation and [ret_from_fork], as in Process.v. *)
Context (mmu : mem -> Z -> Z -> option Z) (ret_from_fork : Z).
(** The address of the literal "/dev/timer"; the value of the system timer's
    counter register when it is read; the address of [vfs_read]'s local
    variable [timer_val]; the exception level [get_el] reports. *)
Context (dev_timer clo timer_val_slot el : Z).

(** ** src/fs/open.c and src/fs/read.c *)

Definition TIMER_FILE_ID : Z := 255.

Definition vfs_open (path flags : Z) : K Z :=
  cur ← get_current_task;
  t ← get_task cur;
  _ ← when (fd_file (fd_table t) =? 0) init_fd_table;
  c ← strcmp path dev_timer;
  if c =? 0 then create_fd (File TIMER_FILE_ID 0 0)
  else
    r ← rdfs_open_file path flags;
    match r with None => mret 0 | Some file => create_fd file end.

Definition vfs_close (fd : Z) : K unit := delete_fd fd.

(** [file] is a local copy of the descriptor's entry: the index advanced by
    [rdfs_read_file] is dropped. *)
Definition vfs_read (fd buf size : Z) : K Z :=
  r ← get_file_from_fd fd;
  match r with
  | None => mret (-1)
  | Some file =>
      if file_id file =? TIMER_FILE_ID then
        _ ← store32 timer_val_slot clo;
        _ ← memcpy buf timer_val_slot 4;
        mret 4
      else
        r ← rdfs_read_file file buf size;
        let '(n, _) := (r : Z * file_t) in mret (s64 n)
  end.

(** ** src/syscalls.c *)

(** The C string at [a]. *)
Definition read_cstr (a : Z) : K (list Z) :=
  loop (fun '(p, acc) =>
    c ← load8 p;
    if c =? 0 then mret (inr (rev acc)) else mret (inl (ptr_add p 1, c :: acc))) (a, []).

(** [printf(buf)]: the program's text is the format; there are no arguments. *)
Definition syscall_write (buf_ptr : Z) : K Z :=
  buf ← read_cstr buf_ptr; _ ← printf buf []; mret 0.

Definition syscall_fork : K Z := kernel_fork mmu ret_from_fork 0 0 0.

Definition syscall_exit (ret : Z) : K Z :=
  pid ← get_pid;
  _ ← printf (str "Thread %d exiting with retcode: %d" ++ [10]) [AInt pid; AInt ret];
  _ ← exit_task;
  mret 0.

Definition syscall_read (fd buf size : Z) : K Z :=
  v ← is_valid_fd fd;
  if v =? 0 then mret (-1) else if buf =? 0 then mret (-1) else vfs_read fd buf size.

Definition syscall_open (path flags : Z) : K Z :=
  if path =? 0 then mret (-1) else vfs_open path flags.

Definition syscall_close (fd : Z) : K unit := if fd <? 0 then mret tt else vfs_close fd.

Definition syscall_wait (delay_ms : Z) : K unit := register_one_hit delay_ms.

(** ** src/asm/entry.S *)

Definition N_SYSCALLS : Z := 7.
Definition ESR_EC_SHIFT : Z := 26.
Definition ESR_EC_SVC64 : Z := 0x15.
Definition ESR_EC_DABT_LOW : Z := 0x24.
Definition SYSCALL_ERROR : Z := 17.
Definition DATA_ABORT_ERROR : Z := 18.

(** [sys_call_table[n]] called with the registers [x0], [x1], [x2], each read at
    its parameter's width.  [None] for a [void] function, which leaves an
    unspecified value in [x0]; a narrow result is taken sign-extended. *)
Definition sys_call (n x0 x1 x2 : Z) : K (option Z) :=
  if n =? 0 then r ← syscall_write x0; mret (Some r)
  else if n =? 1 then r ← syscall_fork; mret (Some r)
  else if n =? 2 then r ← syscall_exit x0; mret (Some r)
  else if n =? 3 then r ← syscall_read (s16 x0) x1 (u32 x2); mret (Some (u64 r))
  else if n =? 4 then r ← syscall_open x0 x1; mret (Some (u64 (s16 r)))
  else if n =? 5 then _ ← syscall_close (s16 x0); mret None
  else _ ← syscall_wait (u32 x0); mret None.

(** src/irq.c *)
Definition entry_error_messages : list (list Z) :=
  [str "SYNC_INVALID_EL1t"; str "IRQ_INVALID_EL1t"; str "FIQ_INVALID_EL1t"; str "ERROR_INVALID_EL1T";
   str "SYNC_INVALID_EL1h"; str "IRQ_INVALID_EL1h"; str "FIQ_INVALID_EL1h"; str "ERROR_INVALID_EL1h";
   str "SYNC_INVALID_EL0_64"; str "IRQ_INVALID_EL0_64"; str "FIQ_INVALID_EL0_64"; str "ERROR_INVALID_EL0_64";
   str "SYNC_INVALID_EL0_32"; str "IRQ_INVALID_EL0_32"; str "FIQ_INVALID_EL0_32"; str "ERROR_INVALID_EL0_32";
   str "SYNC_ERROR"; str "SYSCALL_ERROR"; str "DATA_ABORT_ERROR"].

Definition show_invalid_exception_message (type esr address far : Z) : K unit :=
  msg ← of_option OutOfBounds (entry_error_messages !! Z.to_nat type);
  pid ← get_pid;
  _ ← printf (str "%s, ESR: %x, address: %lx, far: %lx current_pid: %d" ++ [13; 10])
        [AStr msg; AInt esr; AInt address; AInt far; AInt pid];
  _ ← printf (str "address_upper: %x , address_lower: %x" ++ [10]) (halves address);
  _ ← printf (str "FAR: 0x%08x%08x" ++ [10]) (halves far);
  printf (str "EL: %d" ++ [10]) [AInt el].

(** [Resume r]: back to the program with the registers [r].  [Hang]: the
    endless loop [err_hang]. *)
Inductive outcome := Resume (r : task_pt_regs) | Suspended | Hang.

Definition reg (i : nat) (r : task_pt_regs) : Z := default 0 (regs r !! i).

(** The entry code after the registers are saved at [sp], the top of the kernel
    page of the task [cur]; [junk] is what a [void] call leaves in [x0]. *)
Definition el0_sys_call (cur sp esr far junk : Z) (frame : task_pt_regs) : K outcome :=
  let n := u32 (reg 8 frame) in
  _ ← enable_irq;
  if N_SYSCALLS <=? n then
    _ ← show_invalid_exception_message SYSCALL_ERROR esr (pt_pc frame) far; mret Hang
  else
    r ← sys_call n (reg 0 frame) (reg 1 frame) (reg 2 frame);
    now ← get_current_task;
    if now =? cur then
      _ ← disable_irq;
      f ← get_regs sp;
      _ ← put_regs sp (set_reg0 (default junk r) f);
      mret (Resume (set_reg0 (default junk r) f))
    else mret Suspended.

Definition el0_da (sp esr far : Z) : K outcome :=
  _ ← enable_irq;
  r ← do_mem_abort far esr;
  f ← get_regs sp;
  if r =? 0 then _ ← disable_irq; mret (Resume f)
  else _ ← show_invalid_exception_message DATA_ABORT_ERROR esr (pt_pc f) far; mret Hang.

Definition el0_sync (esr far junk : Z) (frame : task_pt_regs) : K outcome :=
  cur ← get_current_task;
  let sp := get_task_pt_regs cur in
  _ ← put_regs sp frame;
  let ec := Z.shiftr esr ESR_EC_SHIFT in
  if ec =? ESR_EC_SVC64 then el0_sys_call cur sp esr far junk frame
  else if ec =? ESR_EC_DABT_LOW then el0_da sp esr far
  else _ ← syscall_exit 5; mret Suspended.

End syscalls.

(** ** Reading through a descriptor *)

(** [k] reads of [size] bytes from one descriptor into one buffer, and what the
    program finds there after each. *)
Fixpoint syscall_reads (clo slot : Z) (k : nat) (fd buf size : Z) : K (list (list Z)) :=
  match k with
  | O => mret []
  | S k =>
      n ← syscall_read clo slot fd buf size;
      bytes ← get_bytes n buf;
      rest ← syscall_reads clo slot k fd buf size;
      mret (bytes :: rest)
  end.

(** The descriptor [fd] of the running task is open on [f], and a buffer of
    [size] bytes at [buf] is apart from the descriptor table. *)
Record open_on (s : kstate) (bm ft fd : Z) (f : file_t) (buf size : Z) : Prop := {
  oo_space : fd_space s bm ft;
  oo_fd : 0 <= fd < 127;
  oo_holds : fd_holds (k_mem s) ft fd f;
  oo_flags : 0 < f_flags f;
  oo_apart : buf + size <= ft \/ ft + 3048 <= buf }.

(** A write inside the buffer leaves the descriptor as it is. *)
Lemma open_on_write s m bm ft fd f buf size :
  open_on s bm ft fd f buf size -> same_on (fun a => a < buf \/ buf + size <= a) (k_mem s) m -> m_valid m = m_valid (k_mem s) ->
  open_on (with_mem m s) bm ft fd f buf size.
Proof.
  intros [F Hfd H Hf A] S V. split; try done.
  - by apply fd_space_mem.
  - destruct H as (H1 & H2 & H3). repeat split; cbn [k_mem with_mem];
      [rewrite <- H1|rewrite <- H2|rewrite <- H3]; apply ldn_ext; intros i Hi; apply S; lia.
Qed.

Lemma syscall_read_get clo slot s bm ft fd f buf size : open_on s bm ft fd f buf size -> 0 < buf ->
  is_valid_fd fd s = Ok 1 s /\ get_file_from_fd fd s = Ok (Some f) s
  /\ syscall_read clo slot fd buf size s = vfs_read clo slot fd buf size s.
Proof.
  intros [F Hfd H Hf _] Hb. pose proof (is_valid_fd_run s bm ft fd f F Hfd H) as R1. pose proof (get_file_run s bm ft fd f F Hfd H) as R2.
  rewrite (proj2 (Z.ltb_lt _ _) Hf) in R1, R2. split; [done|]. split; [done|].
  unfold syscall_read. rewrite (bind_ok _ _ _ _ _ R1). cbn [Z.eqb]. by rewrite (proj2 (Z.eqb_neq buf 0)) by lia.
Qed.

Lemma vfs_read_file_run clo slot s bm ft fd f loc data buf size :
  open_on s bm ft fd f buf size -> file_id f <> TIMER_FILE_ID -> 0 < buf ->
  file_at s (file_id f) loc data -> 0 <= index f <= Z.of_nat (length data) -> 0 < size < 2 ^ 32 ->
  buffer_ok s (file_id f) loc data buf size ->
  let chunk := take (Z.to_nat size) (drop (Z.to_nat (index f)) data) in
  exists m, syscall_read clo slot fd buf size s = Ok (Z.of_nat (length chunk)) (with_mem m s) /\ wrote (k_mem s) m buf chunk
    /\ open_on (with_mem m s) bm ft fd f buf size.
Proof.
  intros OO Nt Hb FA Hi Hs BO chunk. destruct (syscall_read_get clo slot _ _ _ _ _ _ _ OO Hb) as (_ & R2 & ->).
  assert (Lc : Z.of_nat (length chunk) <= size) by (unfold chunk; rewrite length_take; lia).
  assert (Hs' : 0 < size < 2 ^ 63) by lia.
  destruct (rdfs_read_run s f loc data buf size FA Hi Hs' BO) as (m & R & Wr). fold chunk in R, Wr.
  exists m. unfold vfs_read. rewrite (bind_ok _ _ _ _ _ R2). rewrite (proj2 (Z.eqb_neq _ _) Nt).
  rewrite (bind_ok _ _ _ _ _ R). cbv beta iota. unfold s64. rewrite swrap_small by (cbn; lia).
  split; [done|]. split; [done|]. apply open_on_write; [done| |apply Wr].
  intros a Ha. apply Wr. lia.
Qed.

(** C40. A read system call does not move the descriptor on: however often a
    program reads from a file, it finds the same first bytes, and never the end
    of a file that is not empty. *)
Theorem syscall_read_never_advances clo slot k s bm ft fd f loc data buf size :
  open_on s bm ft fd f buf size -> file_id f <> TIMER_FILE_ID -> 0 < buf ->
  file_at s (file_id f) loc data -> 0 <= index f <= Z.of_nat (length data) -> 0 < size < 2 ^ 32 ->
  buffer_ok s (file_id f) loc data buf size ->
  exists m, syscall_reads clo slot k fd buf size s
            = Ok (replicate k (take (Z.to_nat size) (drop (Z.to_nat (index f)) data))) (with_mem m s).
Proof.
  revert s. induction k as [|k IH]; intros s OO Nt Hb FA Hi Hs BO.
  { exists (k_mem s). by destruct s. }
  cbn [syscall_reads replicate].
  destruct (vfs_read_file_run clo slot s bm ft fd f loc data buf size OO Nt Hb FA Hi Hs BO) as (m & R & Wr & OO').
  set (chunk := take (Z.to_nat size) _) in *. rewrite (bind_ok _ _ _ _ _ R).
  assert (G : get_bytes (Z.of_nat (length chunk)) buf (with_mem m s) = Ok chunk (with_mem m s)).
  { unfold get_bytes. rewrite Nat2Z.id. cbn [k_mem with_mem]. by rewrite (ldbytes_of chunk m buf) by apply Wr. }
  rewrite (bind_ok _ _ _ _ _ G).
  assert (Lc : Z.of_nat (length chunk) <= size) by (unfold chunk; rewrite length_take; lia).
  destruct (wrote_file s m _ _ _ _ _ _ FA BO Lc Wr) as [FA' BO'].
  destruct (IH (with_mem m s) OO' Nt Hb FA' Hi Hs BO') as (m' & R'). fold chunk in R'.
  exists m'. by rewrite (bind_ok _ _ _ _ _ R').
Qed.

(** ** The timer device *)

Definition DEV_TIMER : list Z := str "/dev/timer".

(** A C string at [a] that reads "/dev/timer". *)
Definition names_timer (m : mem) (a : Z) : Prop := cstr m a DEV_TIMER /\ 0 < a /\ a + 10 < 2 ^ 64.

(** Room for the four bytes of the counter at [buf] and in the kernel's local
    variable, apart from each other and from the descriptor table. *)
Record timer_room (s : kstate) (ft buf slot : Z) : Prop := {
  tr_buf : valid_range (k_mem s) buf 4 /\ 0 < buf /\ buf + 4 < 2 ^ 64;
  tr_slot : valid_range (k_mem s) slot 4 /\ 0 <= slot /\ slot + 4 < 2 ^ 64;
  tr_apart : slot + 4 <= buf \/ buf + 4 <= slot;
  tr_table : (buf + 4 <= ft \/ ft + 3048 <= buf) /\ (slot + 4 <= ft \/ ft + 3048 <= slot) }.

Lemma open_timer_run dev_timer s bm ft path flags fd :
  fd_space s bm ft -> ft <> 0 -> names_timer (k_mem s) path -> names_timer (k_mem s) dev_timer ->
  0 <= fd < N_FDS -> fd_used (k_mem s) bm fd = false -> (forall k, 0 <= k < fd -> fd_used (k_mem s) bm k = true) ->
  exists m, syscall_open dev_timer path flags s = Ok fd (with_mem m s) /\ fd_space (with_mem m s) bm ft
    /\ fd_holds m ft fd (File TIMER_FILE_ID 0 1) /\ m_valid m = m_valid (k_mem s).
Proof.
  intros F Nft (Cp & P0 & P1) (Cd & D0 & D1) Hfd Hu Hlow.
  assert (Hf : file_ok (File TIMER_FILE_ID 0 0)) by (unfold file_ok, TIMER_FILE_ID; cbn; lia).
  destruct (create_fd_run s bm ft fd (File TIMER_FILE_ID 0 0) F Hfd Hf Hu Hlow) as (m & R & F' & _ & H & _ & V).
  exists m. split; [|done]. unfold syscall_open. rewrite (proj2 (Z.eqb_neq path 0)) by lia.
  destruct (fs_table _ _ _ F) as (t & Et & Ef). unfold vfs_open, get_current_task. rewrite bind_get.
  assert (Rt : get_task (current (k_sched s)) s = Ok t s) by (unfold get_task; by rewrite Et).
  rewrite (bind_ok _ _ _ _ _ Rt), Ef. cbn [fd_file]. rewrite (proj2 (Z.eqb_neq ft 0)) by done. unfold when at 1. rewrite bind_ret.
  assert (Len : Z.of_nat (length DEV_TIMER) = 10) by reflexivity.
  destruct (strcmp_run s path dev_timer DEV_TIMER DEV_TIMER Cp Cd) as (r & Rs & Hr); [lia..|].
  rewrite (bind_ok _ _ _ _ _ Rs). by rewrite (proj2 Hr eq_refl).
Qed.

(** Opening "/dev/timer" takes the lowest free descriptor; a read through it
    returns 4 and leaves the 32-bit counter in the buffer, whatever size the
    program passed. *)
Theorem timer_open_then_read dev_timer clo slot s bm ft path flags fd buf size :
  fd_space s bm ft -> ft <> 0 -> names_timer (k_mem s) path -> names_timer (k_mem s) dev_timer ->
  0 <= fd < N_FDS -> fd_used (k_mem s) bm fd = false -> (forall k, 0 <= k < fd -> fd_used (k_mem s) bm k = true) ->
  timer_room s ft buf slot -> 0 <= clo < 2 ^ 32 ->
  exists m1 m2, syscall_open dev_timer path flags s = Ok fd (with_mem m1 s)
    /\ syscall_read clo slot fd buf size (with_mem m1 s) = Ok 4 (with_mem m2 s)
    /\ ldn 4 m2 buf = Some clo /\ same_on (fun a => (a < buf \/ buf + 4 <= a) /\ (a < slot \/ slot + 4 <= a)) m1 m2.
Proof.
  intros F Nft NP ND Hfd Hu Hlow [(Vb & B0 & B1) (Vs & S0 & S1) A [TB TS]] Hc.
  destruct (open_timer_run dev_timer s bm ft path flags fd F Nft NP ND Hfd Hu Hlow) as (m1 & R1 & F1 & H1 & V1).
  assert (Hfd' : 0 <= fd < 127) by (unfold N_FDS in Hfd; lia).
  pose proof (is_valid_fd_run _ bm ft fd _ F1 Hfd' H1) as Rv. pose proof (get_file_run _ bm ft fd _ F1 Hfd' H1) as Rg. cbn [f_flags Z.ltb] in Rv, Rg.
  destruct (stn_ok 4 m1 slot clo) as [m St]; [intros a Ha; rewrite V1; by apply Vs|].
  assert (V : m_valid m = m_valid (k_mem s)) by (rewrite <- V1; by eapply stn_valid_eq).
  destruct (memcpy_run (with_mem m s) buf slot 4) as (m2 & R2 & C & S & V2); cbn [k_mem with_mem]; try lia.
  { intros a Ha. rewrite V. by apply Vs. } { intros a Ha. rewrite V. by apply Vb. }
  exists m1, m2. split; [done|]. split; [|split].
  - unfold syscall_read. rewrite (bind_ok _ _ _ _ _ Rv). cbn [Z.eqb]. rewrite (proj2 (Z.eqb_neq buf 0)) by lia.
    unfold vfs_read. rewrite (bind_ok _ _ _ _ _ Rg). cbn [file_id TIMER_FILE_ID Z.eqb Pos.eqb].
    assert (Rst : store32 slot clo (with_mem m1 s) = Ok tt (with_mem m s)) by (unfold store32, storen; cbn [k_mem with_mem]; by rewrite St).
    by rewrite (bind_ok _ _ _ _ _ Rst), (bind_ok _ _ _ _ _ R2).
  - rewrite (ldn_moved 4 m m2 slot buf) by exact C. rewrite (ldn_stn_same _ _ _ _ _ St). f_equal. by apply Z.mod_small.
  - intros a [Ha Hs]. rewrite (S a Ha). apply (ld8_stn_other _ _ _ _ _ _ St). cbn. lia.
Qed.

(** ** Exceptions from user programs *)

Section entry.
Context {O : PageOps} {Laws : PageLaws}.
Context (mmu : mem -> Z -> Z -> option Z) (ret_from_fork dev_timer clo slot el : Z).

(** Address spaces do not depend on the processor and the saved registers. *)
Lemma space_ok_ext s s' L task t : k_mem s' = k_mem s -> k_pages s' = k_pages s -> k_tasks s' = k_tasks s ->
  space_ok s L task t -> space_ok s' L task t.
Proof.
  intros Em Ep Et [[W1 W2 W3] HM T D K U]. split; [split| |by rewrite Et|done|done|done].
  - intros p n E. destruct (W1 p n E) as (i & Hi & -> & Hu). exists i. split; [done|]. split; [done|].
    by rewrite (page_used_ext s' s).
  - rewrite Em. apply W2.
  - rewrite Em. apply W3.
  - intros i Hi. unfold page_mapped. rewrite Em. by apply HM.
Qed.

(** C26. A translation fault of a user access is repaired: the exception entry
    resumes the program with its registers unchanged and interrupts masked until
    the return, the faulting page now maps to a page that was free, and the
    program's other pages map as before. *)
Theorem user_page_fault_resolved s L t esr far junk frame i r :
  space_ok s L (current (k_sched s)) t -> Z.shiftr esr ESR_EC_SHIFT = ESR_EC_DABT_LOW -> Z.land (Z.land esr 63) 60 = 4 ->
  free_list s = i :: r -> (4 <= length r)%nat ->
  exists s', el0_sync mmu ret_from_fork dev_timer clo slot el esr far junk frame s = Ok (Resume frame) s'
    /\ k_sched s' = k_sched s /\ irq_masked (k_cpu s') = true
    /\ forall va, translate s' (current (k_sched s)) va
         = if bool_decide (va_indices va = va_indices far) then Some (page_addr i) else translate s (current (k_sched s)) va.
Proof.
  intros SO Ec Ed EF Hr. set (sp := get_task_pt_regs (current (k_sched s))).
  set (s1 := with_cpu (Cpu (c_regs (k_cpu s)) (ttbr0 (k_cpu s)) false) (with_regs (<[sp := frame]> (k_regs s)) s)).
  assert (SO1 : space_ok s1 L (current (k_sched s1)) t) by (by apply (space_ok_ext s)).
  assert (EF1 : free_list s1 = i :: r) by (by rewrite (free_list_ext s1 s)).
  destruct (do_mem_abort_run s1 L t far esr i r SO1 Ed EF1 Hr) as (s2 & R & F & T).
  assert (Eg : get_regs sp s2 = Ok frame s2).
  { unfold get_regs. rewrite F. cbn [k_regs with_mem with_pages with_tasks s1 with_cpu with_regs]. by rewrite lookup_insert_eq. }
  exists (with_cpu (Cpu (c_regs (k_cpu s2)) (ttbr0 (k_cpu s2)) true) s2).
  split; [|split; [by rewrite F|split; [done|exact T]]].
  unfold el0_sync, get_current_task. rewrite bind_get. unfold put_regs. rewrite bind_put. rewrite Ec. cbn [Z.eqb ESR_EC_DABT_LOW ESR_EC_SVC64 Pos.eqb].
  unfold el0_da, enable_irq. rewrite bind_put. fold sp.
  etrans; [exact (bind_ok _ _ _ _ _ R)|]. by rewrite (bind_ok _ _ _ _ _ Eg).
Qed.

(** The message of an invalid exception prints for addresses of 32 bits. *)
Lemma printf_runs fmt va s : well_typed fmt va = true -> exists out, printf fmt va s = Ok tt (with_console out s).
Proof.
  intros H. destruct (tfp_loop_well_typed _ _ _ H) as [o E]. exists (k_console s ++ o). unfold printf.
  change (tfp_format fmt va) with (tfp_loop (S (length fmt)) fmt va). by rewrite E.
Qed.

Lemma message_runs s type esr address far msg : sched_wf s -> entry_error_messages !! Z.to_nat type = Some msg ->
  0 <= address < 2 ^ 32 -> 0 <= far < 2 ^ 32 ->
  exists out, show_invalid_exception_message el type esr address far s = Ok tt (with_console out s).
Proof.
  intros W Em Ha Hf. destruct (sw_cur _ W) as [Hc _]. apply list_elem_of_lookup in Hc as [i Ei].
  pose proof (lookup_lt_Some _ _ _ Ei) as Hi. rewrite (sw_len _ W) in Hi.
  assert (Rp : get_pid s = Ok (Z.of_nat i) s) by (apply get_pid_run; [done|lia|by rewrite Nat2Z.id]).
  unfold show_invalid_exception_message. rewrite Em. cbn [of_option]. rewrite bind_ret, (bind_ok _ _ _ _ _ Rp).
  edestruct (printf_runs (str "%s, ESR: %x, address: %lx, far: %lx current_pid: %d" ++ [13; 10])) as [o1 E1].
  2: rewrite (bind_ok _ _ _ _ _ E1).
  { lazy -[fits_unsigned fits_signed]. by rewrite !fits_unsigned_small by done. }
  edestruct (printf_runs (str "address_upper: %x , address_lower: %x" ++ [10])) as [o2 E2]; [|rewrite (bind_ok _ _ _ _ _ E2)]; [done|].
  edestruct (printf_runs (str "FAR: 0x%08x%08x" ++ [10])) as [o3 E3]; [|rewrite (bind_ok _ _ _ _ _ E3)]; [done|].
  edestruct (printf_runs (str "EL: %d" ++ [10])) as [o4 E4]; [|rewrite E4]; [done|]. by exists o4.
Qed.

(** A system call number outside the table stops the whole kernel: after the
    message the entry code hangs, with no task rescheduled. *)
Theorem invalid_syscall_hangs s esr far junk frame :
  sched_wf s -> Z.shiftr esr ESR_EC_SHIFT = ESR_EC_SVC64 -> N_SYSCALLS <= u32 (reg 8 frame) ->
  0 <= pt_pc frame < 2 ^ 32 -> 0 <= far < 2 ^ 32 ->
  exists s', el0_sync mmu ret_from_fork dev_timer clo slot el esr far junk frame s = Ok Hang s' /\ k_sched s' = k_sched s.
Proof.
  intros W Ec Hn Hp Hf. unfold el0_sync, get_current_task. rewrite bind_get. unfold put_regs. rewrite bind_put, Ec, Z.eqb_refl.
  unfold el0_sys_call, enable_irq. rewrite bind_put. rewrite (proj2 (Z.leb_le _ _) Hn).
  set (s1 := with_cpu _ _). assert (W1 : sched_wf s1) by (by destruct W; split).
  destruct (message_runs s1 SYSCALL_ERROR esr (pt_pc frame) far _ W1 eq_refl Hp Hf) as [out R].
  rewrite (bind_ok _ _ _ _ _ R). by eexists.
Qed.

End entry.

(** ** Concrete instances *)

(** A task with descriptor 0 open on file 0, whose two bytes are "Hi"; the
    literal "/dev/timer" twice. *)
Definition user_sample : kstate :=
  with_rdfs (RdfsGlobals 4096 4192 1)
    (with_tasks {[1 := set_fd_table (FdTable 6000 8192) INIT_TASK]}
      (boot_state (fun a => (4096 <=? a) && (a <? 16384))
        (list_to_map ([(4176, 96); (4280, 2); (4288, 72); (4289, 105); (6000, 1); (8208, 1)]
           ++ zip (seqZ 14000 10) DEV_TIMER ++ zip (seqZ 14100 10) DEV_TIMER)) 1)).

Lemma user_sample_space : fd_space user_sample 6000 8192.
Proof.
  split; [eexists; split; reflexivity| | |vm_compute; repeat split; congruence|left; vm_compute; congruence];
    intros a; change FD_BITMAP_SIZE with 15; change (SIZEOF_FILE * FILE_DESC_TABLE_INIT_SIZE) with 3048;
    intros Ha; cbn [k_mem user_sample with_rdfs with_tasks boot_state m_valid]; lia.
Qed.
Lemma user_sample_open : open_on user_sample 6000 8192 0 (File 0 0 1) 12000 2.
Proof. split; [apply user_sample_space|lia|repeat split; vm_compute; reflexivity|cbn; lia|lia]. Qed.
Lemma user_sample_file : file_at user_sample 0 4288 [72; 105].
Proof.
  split; [cbn; lia|cbn; lia|exists 96, 0; repeat split; vm_compute; reflexivity|vm_compute; reflexivity|cbn; lia|].
  intros [|[|i]] b H; [injection H as <-; reflexivity..|done].
Qed.

(** Three reads of a two-byte file: the same two bytes each time. *)
Lemma syscall_read_never_advances_witness :
  exists m, syscall_reads 0 13000 3 0 12000 2 user_sample = Ok [[72; 105]; [72; 105]; [72; 105]] (with_mem m user_sample).
Proof.
  apply (syscall_read_never_advances 0 13000 3 user_sample 6000 8192 0 (File 0 0 1) 4288 [72; 105] 12000 2);
    [apply user_sample_open|discriminate|lia|apply user_sample_file|cbn; lia|lia|].
  split; [intros a Ha; cbn [k_mem user_sample with_rdfs with_tasks boot_state m_valid]; lia|lia|cbn; lia|cbn; lia|cbn; lia].
Defined.

Lemma user_sample_timer a : a = 14000 \/ a = 14100 -> names_timer (k_mem user_sample) a.
Proof. intros [-> | ->]; (split; [|lia]); vm_compute; repeat split; reflexivity. Qed.

Lemma timer_open_then_read_witness :
  exists m1 m2, syscall_open 14000 14100 0 user_sample = Ok 1 (with_mem m1 user_sample)
    /\ syscall_read 123456 13000 1 12000 1 (with_mem m1 user_sample) = Ok 4 (with_mem m2 user_sample)
    /\ ldn 4 m2 12000 = Some 123456
    /\ same_on (fun a => (a < 12000 \/ 12000 + 4 <= a) /\ (a < 13000 \/ 13000 + 4 <= a)) m1 m2.
Proof.
  apply (timer_open_then_read 14000 123456 13000 user_sample 6000 8192 14100 0 1 12000 1);
    [apply user_sample_space|discriminate|apply user_sample_timer; lia..|unfold N_FDS; lia|reflexivity| | |lia].
  - intros k Hk. replace k with 0 by lia. reflexivity.
  - split; [|..]; try lia; (split; [|lia]); intros a Ha; cbn [k_mem user_sample with_rdfs with_tasks boot_state m_valid]; lia.
Defined.

Lemma user_page_fault_resolved_witness :
  exists s', el0_sync (fun _ _ _ => None) 0x80000 14000 0 13000 1 (Z.shiftl 0x24 26 + 7) 0x3123 0 zero_regs empty_space
             = Ok (Resume zero_regs) s'
    /\ k_sched s' = k_sched empty_space /\ irq_masked (k_cpu s') = true
    /\ forall va, translate s' 1 va
         = if bool_decide (va_indices va = va_indices 0x3123) then Some (page_addr 0) else translate empty_space 1 va.
Proof.
  apply (user_page_fault_resolved (fun _ _ _ => None) 0x80000 14000 0 13000 1 empty_space ∅ INIT_TASK
    (Z.shiftl 0x24 26 + 7) 0x3123 0 zero_regs 0 (1 :: seqZ 2 (MM_NUM_OF_PAGES - 2)));
    [apply empty_space_ok|reflexivity|reflexivity|apply free_list_boot|exact many_left].
Defined.

(** System call 9. *)
Lemma invalid_syscall_hangs_witness :
  exists s', el0_sync (fun _ _ _ => None) 0x80000 14000 0 13000 1 (Z.shiftl 0x15 26) 0 0
               (PtRegs (<[8%nat := 9]> (replicate 31 0)) 0x2000 0x40 0) sample_sched = Ok Hang s'
    /\ k_sched s' = k_sched sample_sched.
Proof.
  apply invalid_syscall_hangs; [apply sample_sched_inv|reflexivity|vm_compute; congruence|cbn; lia|lia].
Defined.
