(* ===== verification/Entry.v ===== *)
(** * Exception entry at the level of registers (src/asm/entry.S)

    The vector table, the saving and restoring of registers on the kernel stack,
    and the paths through it.  Syscalls.v works on the saved frame as a value;
    here it is memory, written and read by the code of [push_regs] and
    [pop_regs].  The functions called from it are arguments. *)

From S2P Require Export Syscalls.

Definition S_FRAME_SIZE : Z := 272.
Definition S_X0 : Z := 0.

(** The registers an exception at level 1 sees: x0 to x30, the two stack pointers,
    and the exception registers. *)
Record core := Core {
  gpr : list Z; c_sp : Z; c_sp_el0 : Z; c_elr : Z; c_spsr : Z; c_esr : Z; c_far : Z; c_ks : kstate }.
Abbreviation E := (M core).

Definition with_gpr g c := Core g (c_sp c) (c_sp_el0 c) (c_elr c) (c_spsr c) (c_esr c) (c_far c) (c_ks c).
Definition with_sp x c := Core (gpr c) x (c_sp_el0 c) (c_elr c) (c_spsr c) (c_esr c) (c_far c) (c_ks c).
Definition with_sp_el0 x c := Core (gpr c) (c_sp c) x (c_elr c) (c_spsr c) (c_esr c) (c_far c) (c_ks c).
Definition with_elr x c := Core (gpr c) (c_sp c) (c_sp_el0 c) x (c_spsr c) (c_esr c) (c_far c) (c_ks c).
Definition with_spsr x c := Core (gpr c) (c_sp c) (c_sp_el0 c) (c_elr c) x (c_esr c) (c_far c) (c_ks c).
Definition with_ks x c := Core (gpr c) (c_sp c) (c_sp_el0 c) (c_elr c) (c_spsr c) (c_esr c) (c_far c) x.

(** Called code: a function of the kernel's state. *)
Definition call {A} (m : K A) : E A := fun c =>
  match m (c_ks c) with Ok a k => Ok a (with_ks k c) | Err e => Err e end.

Definition x (i : nat) : E Z := get (fun c => default 0 (gpr c !! i)).
Definition set_x (i : nat) (v : Z) : E unit := put (fun c => with_gpr (<[i := v]> (gpr c)) c).

(** [stp xi, xj, [sp, #off]] and [ldp]. *)
Definition stp (i j : nat) (off : Z) : E unit :=
  a ← get c_sp; v ← x i; w ← x j;
  _ ← call (store64 (ptr_add a off) v);
  call (store64 (ptr_add a (off + 8)) w).
Definition ldp (i j : nat) (off : Z) : E unit :=
  a ← get c_sp;
  v ← call (load64 (ptr_add a off));
  w ← call (load64 (ptr_add a (off + 8)));
  _ ← set_x i v; set_x j w.

(** x0, x1 to x28, x29: fifteen pairs at multiples of 16. *)
Definition pairs (op : nat -> nat -> Z -> E unit) : E unit :=
  for_range 15 0 (fun k _ => op (Z.to_nat (2 * k)) (Z.to_nat (2 * k + 1)) (16 * k)) tt.

(** The level the exception comes from: 0 (a program) or 1 (the kernel). *)
Definition push_regs (el : Z) : E unit :=
  _ ← put (fun c => with_sp (u64 (c_sp c - S_FRAME_SIZE)) c);
  _ ← pairs stp;
  c ← get (fun c => c);
  _ ← set_x 21 (if el =? 0 then c_sp_el0 c else u64 (c_sp c + S_FRAME_SIZE));
  _ ← set_x 22 (c_elr c);
  _ ← set_x 23 (c_spsr c);
  _ ← stp 30 21 (16 * 15);
  stp 22 23 (16 * 16).

Definition pop_regs (el : Z) : E unit :=
  _ ← ldp 22 23 (16 * 16);
  _ ← ldp 30 21 (16 * 15);
  x21 ← x 21;
  _ ← (if el =? 0 then put (with_sp_el0 x21) else mret tt);
  x22 ← x 22;
  _ ← put (with_elr x22);
  x23 ← x 23;
  _ ← put (with_spsr x23);
  _ ← pairs ldp;
  put (fun c => with_sp (u64 (c_sp c + S_FRAME_SIZE)) c).

(** ** The vectors *)

Inductive vector :=
  | handle_invalid_exception (el type : Z)
  | el1_irq | vec_el0_sync | el0_irq.

(** Sixteen entries of 128 bytes: for the current level with SP0, the current level
    with its own stack pointer, a program of 64 bits and one of 32 bits, the
    synchronous exception, the interrupt, the fast interrupt and the error. *)
Definition vectors : list vector :=
  [handle_invalid_exception 1 0; handle_invalid_exception 1 1; handle_invalid_exception 1 2; handle_invalid_exception 1 3;
   handle_invalid_exception 1 4; el1_irq; handle_invalid_exception 1 6; handle_invalid_exception 1 7;
   vec_el0_sync; el0_irq; handle_invalid_exception 0 10; handle_invalid_exception 0 11;
   handle_invalid_exception 0 12; handle_invalid_exception 0 13; handle_invalid_exception 0 14; handle_invalid_exception 0 15].

(** [Returned]: [eret].  [Stopped]: the endless loop [err_hang].  [Exited]: the
    task was ended by [syscall_exit]. *)
Inductive ending := Returned | Stopped | Exited.

Section entry.
(** [handle_irq] and [do_mem_abort] with the registers they leave, the functions of
    [sys_call_table], the exception level [get_el] reports. *)
Context (handle_irq : E unit) (sys_call_table : list (E unit)) (do_mem_abort : Z -> Z -> E Z) (el_now : Z).

Definition invalid (el type : Z) : E ending :=
  _ ← push_regs el;
  c ← get (fun c => c);
  _ ← call (show_invalid_exception_message el_now type (c_esr c) (c_elr c) (c_far c));
  mret Stopped.

Definition irq (el : Z) : E ending :=
  _ ← push_regs el;
  _ ← handle_irq;
  _ ← pop_regs el;
  mret Returned.

Definition sys_call_entry : E ending :=
  w8 ← x 8;
  let n := u32 w8 in
  _ ← call enable_irq;
  if N_SYSCALLS <=? n then invalid 0 SYSCALL_ERROR
  else
    f ← of_option OutOfBounds (sys_call_table !! Z.to_nat n);
    _ ← f;
    _ ← call disable_irq;
    x0 ← x 0;
    a ← get c_sp;
    _ ← call (store64 (ptr_add a S_X0) x0);
    _ ← pop_regs 0;
    mret Returned.

Definition data_abort_entry : E ending :=
  _ ← call enable_irq;
  c ← get (fun c => c);
  r ← do_mem_abort (c_far c) (c_esr c);
  if r =? 0 then
    _ ← call disable_irq;
    _ ← pop_regs 0;
    mret Returned
  else invalid 0 DATA_ABORT_ERROR.

(** The x24 to x27 that the code computes with are saved before and restored after. *)
Definition sync_entry : E ending :=
  _ ← push_regs 0;
  c ← get (fun c => c);
  let ec := Z.shiftr (c_esr c) ESR_EC_SHIFT in
  if ec =? ESR_EC_SVC64 then sys_call_entry
  else if ec =? ESR_EC_DABT_LOW then data_abort_entry
  else _ ← call (syscall_exit 5); mret Exited.

Definition exception (n : nat) : E ending :=
  v ← of_option OutOfBounds (vectors !! n);
  match v with
  | handle_invalid_exception el type => invalid el type
  | el1_irq => irq 1
  | el0_irq => irq 0
  | vec_el0_sync => sync_entry
  end.
End entry.

(** ** The frame in memory *)

(** What [push_regs] is to save, as the structure [task_pt_regs]. *)
Definition frame_of (el : Z) (c : core) : task_pt_regs :=
  PtRegs (gpr c) (if el =? 0 then c_sp_el0 c else c_sp c) (c_elr c) (c_spsr c).

Record saved (m : mem) (a : Z) (r : task_pt_regs) : Prop := {
  sv_regs : forall i v, regs r !! i = Some v -> ldn 8 m (a + 8 * Z.of_nat i) = Some v;
  sv_sp : ldn 8 m (a + 248) = Some (pt_sp r);
  sv_pc : ldn 8 m (a + 256) = Some (pt_pc r);
  sv_pstate : ldn 8 m (a + 264) = Some (pstate r) }.

Definition word (v : Z) : Prop := 0 <= v < 2 ^ 64.
(** A core whose registers are words, with room for a frame below its stack. *)
Record core_ok (c : core) : Prop := {
  co_len : length (gpr c) = 31%nat;
  co_gpr : Forall word (gpr c);
  co_sp_el0 : word (c_sp_el0 c);
  co_elr : word (c_elr c);
  co_spsr : word (c_spsr c);
  co_sp : S_FRAME_SIZE <= c_sp c < 2 ^ 64;
  co_mapped : valid_range (k_mem (c_ks c)) (c_sp c - S_FRAME_SIZE) S_FRAME_SIZE }.

Lemma call_ok {A} (m : K A) c a k : m (c_ks c) = Ok a k -> call m c = Ok a (with_ks k c).
Proof. intros H. unfold call. by rewrite H. Qed.

Definition with_cmem (m : mem) (c : core) : core := with_ks (with_mem m (c_ks c)) c.

Lemma stp_run c i j off v w : gpr c !! i = Some v -> gpr c !! j = Some w -> 0 <= off <= 256 -> 0 <= c_sp c < 2 ^ 64 - 272 ->
  valid_range (k_mem (c_ks c)) (c_sp c + off) 16 -> word v -> word w ->
  exists m, stp i j off c = Ok tt (with_cmem m c) /\ ldn 8 m (c_sp c + off) = Some v /\ ldn 8 m (c_sp c + off + 8) = Some w
    /\ same_on (fun a => a < c_sp c + off \/ c_sp c + off + 16 <= a) (k_mem (c_ks c)) m /\ m_valid m = m_valid (k_mem (c_ks c)).
Proof.
  intros Ei Ej Ho Hs V Hv Hw. destruct (stn_ok 8 (k_mem (c_ks c)) (c_sp c + off) v) as [m1 E1]; [intros a Ha; apply V; lia|].
  pose proof (stn_valid_eq _ _ _ _ _ E1) as V1.
  destruct (stn_ok 8 m1 (c_sp c + off + 8) w) as [m2 E2]; [intros a Ha; rewrite V1; apply V; lia|].
  exists m2. split; [|split; [|split; [|split]]].
  - unfold stp, x. rewrite !bind_get, Ei, Ej. cbn [default]. unfold ptr_add. uw.
    rewrite (bind_ok _ _ _ _ _ (call_ok _ c _ _ (store64_ok (c_ks c) _ _ _ E1))), Z.add_assoc.
    apply (call_ok (store64 _ w) (with_cmem m1 c) tt), (store64_ok (with_mem m1 (c_ks c))), E2.
  - eapply ld64_st64_other; [exact E2|by apply (ld64_st64_same _ _ _ _ E1)|lia].
  - by apply (ld64_st64_same _ _ _ _ E2).
  - intros a Ha. rewrite (ld8_stn_other _ _ _ _ _ a E2) by lia. apply (ld8_stn_other _ _ _ _ _ _ E1). lia.
  - by rewrite (stn_valid_eq _ _ _ _ _ E2).
Qed.

Lemma ldp_run c i j off v w : 0 <= off <= 256 -> 0 <= c_sp c < 2 ^ 64 - 272 ->
  ldn 8 (k_mem (c_ks c)) (c_sp c + off) = Some v -> ldn 8 (k_mem (c_ks c)) (c_sp c + off + 8) = Some w ->
  ldp i j off c = Ok tt (with_gpr (<[j := w]> (<[i := v]> (gpr c))) c).
Proof.
  intros Ho Hs Ev Ew. unfold ldp, set_x. rewrite bind_get. unfold ptr_add. uw.
  rewrite (bind_ok _ _ _ _ _ (call_ok _ c _ _ (load64_ok (c_ks c) _ _ Ev))). rewrite Z.add_assoc.
  assert (W : with_ks (c_ks c) c = c) by (by destruct c). rewrite W.
  rewrite (bind_ok _ _ _ _ _ (call_ok _ c _ _ (load64_ok (c_ks c) _ _ Ew))), W. reflexivity.
Qed.

(** The fifteen pairs stored from [c_sp c] on. *)
Lemma stp_pairs_run c : length (gpr c) = 31%nat -> Forall word (gpr c) -> 0 <= c_sp c < 2 ^ 64 - 272 ->
  valid_range (k_mem (c_ks c)) (c_sp c) 272 ->
  exists m, pairs stp c = Ok tt (with_cmem m c)
    /\ (forall i v, (i < 30)%nat -> gpr c !! i = Some v -> ldn 8 m (c_sp c + 8 * Z.of_nat i) = Some v)
    /\ same_on (fun a => a < c_sp c \/ c_sp c + 272 <= a) (k_mem (c_ks c)) m /\ m_valid m = m_valid (k_mem (c_ks c)).
Proof.
  intros L W Hs V.
  destruct (for_range_run (fun k (_ : unit) c' => exists m, c' = with_cmem m c /\ m_valid m = m_valid (k_mem (c_ks c))
      /\ (forall i v, Z.of_nat i < 2 * k -> gpr c !! i = Some v -> ldn 8 m (c_sp c + 8 * Z.of_nat i) = Some v)
      /\ same_on (fun a => a < c_sp c \/ c_sp c + 272 <= a) (k_mem (c_ks c)) m)
    (fun k _ => stp (Z.to_nat (2 * k)) (Z.to_nat (2 * k + 1)) (16 * k)) 15 0 tt c) as ([] & c' & R & m & -> & Vm & G & F).
  - exists (k_mem (c_ks c)). split; [by destruct c as [? ? ? ? ? ? ? []]|]. split; [done|]. split; [|apply same_on_refl]. lia.
  - intros k [] c' Hk (m & -> & Vm & G & F).
    destruct (lookup_lt_is_Some_2 (gpr c) (Z.to_nat (2 * k))) as [v Ev]; [lia|].
    destruct (lookup_lt_is_Some_2 (gpr c) (Z.to_nat (2 * k + 1))) as [w Ew]; [lia|].
    destruct (stp_run (with_cmem m c) _ _ (16 * k) v w Ev Ew) as (m' & R & E1 & E2 & F' & V'); cbn [c_sp c_ks with_cmem with_ks k_mem with_mem] in *;
      [lia|lia| |by eapply Forall_lookup_1|by eapply Forall_lookup_1|].
    { intros a Ha. rewrite Vm. apply V. lia. }
    exists tt, (with_cmem m' c). split; [exact R|]. exists m'. split; [done|]. split; [congruence|]. split.
    + intros i u Hi Eu. destruct (decide (i = Z.to_nat (2 * k))) as [->|N1]; [|destruct (decide (i = Z.to_nat (2 * k + 1))) as [->|N2]].
      * rewrite Z2Nat.id by lia. replace (8 * (2 * k)) with (16 * k) by lia. congruence.
      * rewrite Z2Nat.id by lia. replace (c_sp c + 8 * (2 * k + 1)) with (c_sp c + 16 * k + 8) by lia. congruence.
      * rewrite <- (G i u) by (done || lia). apply ldn_ext. intros a Ha. apply F'. lia.
    + intros a Ha. rewrite (F' a) by lia. by apply F.
  - exists m. split; [exact R|]. split; [|done]. intros i v Hi. apply G. lia.
Qed.

(** The pairs read back: x0 to x29 from memory, x30 as it was. *)
Lemma ldp_pairs_run c (r : list Z) : length (gpr c) = 31%nat -> 0 <= c_sp c < 2 ^ 64 - 272 ->
  (forall i v, r !! i = Some v -> (i < 30)%nat -> ldn 8 (k_mem (c_ks c)) (c_sp c + 8 * Z.of_nat i) = Some v) ->
  length r = 31%nat -> r !! 30%nat = gpr c !! 30%nat -> pairs ldp c = Ok tt (with_gpr r c).
Proof.
  intros L Hs G Lr E30.
  destruct (for_range_run (fun k (_ : unit) c' => exists g, c' = with_gpr g c /\ length g = 31%nat /\ g !! 30%nat = gpr c !! 30%nat
      /\ forall i, Z.of_nat i < 2 * k -> g !! i = r !! i)
    (fun k _ => ldp (Z.to_nat (2 * k)) (Z.to_nat (2 * k + 1)) (16 * k)) 15 0 tt c) as ([] & c' & R & g & -> & Lg & Eg & H).
  - exists (gpr c). split; [by destruct c|]. do 2 (split; [done|]). lia.
  - intros k [] c' Hk (g & -> & Lg & Eg & H).
    destruct (lookup_lt_is_Some_2 r (Z.to_nat (2 * k))) as [v Ev]; [lia|].
    destruct (lookup_lt_is_Some_2 r (Z.to_nat (2 * k + 1))) as [w Ew]; [lia|].
    exists tt, (with_gpr (<[Z.to_nat (2 * k + 1) := w]> (<[Z.to_nat (2 * k) := v]> g)) c). split.
    + apply (ldp_run (with_gpr g c)); cbn [c_sp c_ks with_gpr]; [lia|lia| |].
      * rewrite <- (G _ _ Ev) by lia. f_equal. lia.
      * rewrite <- (G _ _ Ew) by lia. f_equal. lia.
    + eexists. split; [done|]. rewrite !length_insert. split; [done|]. split; [by rewrite !list_lookup_insert_ne by lia|].
      intros i Hi. destruct (decide (i = Z.to_nat (2 * k + 1))) as [->|N1]; [by rewrite list_lookup_insert_eq, Ew by (rewrite length_insert; lia)|].
      rewrite list_lookup_insert_ne by done. destruct (decide (i = Z.to_nat (2 * k))) as [->|N2]; [by rewrite list_lookup_insert_eq, Ev by lia|].
      rewrite list_lookup_insert_ne by done. apply H. lia.
  - assert (g = r) as ->; [|exact R]. apply list_eq. intros i. destruct (decide (i < 30)%nat); [apply H; lia|].
    destruct (decide (i = 30)%nat) as [->|]; [congruence|]. by rewrite !lookup_ge_None_2 by lia.
Qed.

Lemma push_regs_run el c : core_ok c ->
  exists m g, push_regs el c = Ok tt (with_sp (c_sp c - 272) (with_gpr g (with_cmem m c)))
    /\ saved m (c_sp c - 272) (frame_of el c) /\ length g = 31%nat /\ (forall i, (i < 21)%nat \/ (23 < i)%nat -> g !! i = gpr c !! i)
    /\ same_on (fun a => a < c_sp c - 272 \/ c_sp c <= a) (k_mem (c_ks c)) m /\ m_valid m = m_valid (k_mem (c_ks c)).
Proof.
  intros [L W Wu We Ws Hs V]. change S_FRAME_SIZE with 272 in *. set (c1 := with_sp (c_sp c - 272) c).
  destruct (stp_pairs_run c1) as (m1 & R1 & G1 & F1 & V1); [done|done|cbn; lia|done|]. cbn [c_sp c_ks gpr with_sp] in *.
  set (x21 := if el =? 0 then c_sp_el0 c else c_sp c).
  set (g := <[23%nat := c_spsr c]> (<[22%nat := c_elr c]> (<[21%nat := x21]> (gpr c)))).
  assert (Lg : length g = 31%nat) by (unfold g; by rewrite !length_insert).
  assert (Wx : word x21) by (unfold x21, word in *; destruct (el =? 0); [done|lia]).
  destruct (lookup_lt_is_Some_2 (gpr c) 30) as [x30 E30]; [lia|].
  assert (Eg : g !! 30%nat = Some x30 /\ g !! 21%nat = Some x21 /\ g !! 22%nat = Some (c_elr c) /\ g !! 23%nat = Some (c_spsr c)).
  { unfold g. rewrite !list_lookup_insert_ne by lia. split; [done|].
    repeat split; repeat ((rewrite list_lookup_insert_eq by (rewrite ?length_insert; lia)) || (rewrite list_lookup_insert_ne by lia)); done. }
  destruct Eg as (Eg30 & Eg21 & Eg22 & Eg23). set (c2 := with_gpr g (with_cmem m1 c1)).
  destruct (stp_run c2 30 21 (16 * 15) x30 x21) as (m2 & R2 & A2 & B2 & F2 & V2); cbn [c2 c_sp c_ks with_gpr with_cmem with_ks with_sp c1 k_mem with_mem] in *;
    [done|done|lia|lia|intros a Ha; rewrite V1; apply V; lia|by eapply Forall_lookup_1|done|].
  destruct (stp_run (with_cmem m2 c2) 22 23 (16 * 16) (c_elr c) (c_spsr c)) as (m3 & R3 & A3 & B3 & F3 & V3);
    cbn [c2 c_sp c_ks with_gpr with_cmem with_ks with_sp c1 k_mem with_mem] in *; [done|done|lia|lia|intros a Ha; rewrite V2, V1; apply V; lia|done|done|].
  exists m3, g. split; [|split; [|split; [done|split; [|split; [|congruence]]]]].
  - unfold push_regs. rewrite bind_put. change S_FRAME_SIZE with 272. uw. fold c1. rewrite (bind_ok _ _ _ _ _ R1), bind_get.
    unfold set_x. rewrite !bind_put. cbn [c_sp c_sp_el0 c_elr c_spsr with_cmem with_ks with_sp c1 with_gpr gpr].
    replace (u64 (c_sp c - 272 + 272)) with (c_sp c) by (uw; lia). fold x21. change (with_gpr (<[23%nat := _]> _) _) with c2.
    rewrite (bind_ok _ _ _ _ _ R2). exact R3.
  - replace (c_sp c - 272 + 16 * 15) with (c_sp c - 272 + 240) in * by lia. replace (c_sp c - 272 + 16 * 16) with (c_sp c - 272 + 256) in * by lia.
    assert (K : forall a, c_sp c - 272 <= a -> a + 8 <= c_sp c - 272 + 240 -> ldn 8 m3 a = ldn 8 m1 a).
    { intros a H1 H2. rewrite (ldn_ext 8 m2 m3 a) by (intros i Hi; apply F3; lia). apply ldn_ext. intros i Hi. apply F2. lia. }
    split; cbn [frame_of regs pt_sp pt_pc pstate].
    + intros i v Ev. pose proof (lookup_lt_Some _ _ _ Ev). destruct (decide (i = 30)%nat) as [->|].
      * rewrite (ldn_ext 8 m2 m3) by (intros a Ha; apply F3; lia). change (8 * Z.of_nat 30) with 240. congruence.
      * rewrite K by lia. apply G1; [lia|done].
    + rewrite (ldn_ext 8 m2 m3) by (intros a Ha; apply F3; lia). by replace (c_sp c - 272 + 248) with (c_sp c - 272 + 240 + 8) by lia.
    + exact A3.
    + by replace (c_sp c - 272 + 264) with (c_sp c - 272 + 256 + 8) by lia.
  - intros i Hi. unfold g. by rewrite !list_lookup_insert_ne by lia.
  - intros a Ha. rewrite (F3 a), (F2 a), (F1 a) by lia. done.
Qed.

Lemma pop_regs_run el c r : length (gpr c) = 31%nat -> length (regs r) = 31%nat -> 0 <= c_sp c < 2 ^ 64 - 272 ->
  saved (k_mem (c_ks c)) (c_sp c) r ->
  pop_regs el c = Ok tt (Core (regs r) (c_sp c + 272) (if el =? 0 then pt_sp r else c_sp_el0 c) (pt_pc r) (pstate r) (c_esr c) (c_far c) (c_ks c)).
Proof.
  intros L Lr Hs [SR S1 S2 S3]. destruct (lookup_lt_is_Some_2 (regs r) 30) as [x30 E30]; [lia|].
  assert (R1 : ldp 22 23 (16 * 16) c = Ok tt (with_gpr (<[23%nat := pstate r]> (<[22%nat := pt_pc r]> (gpr c))) c)).
  { apply ldp_run; [lia|lia|exact S2|]. by replace (c_sp c + 16 * 16 + 8) with (c_sp c + 264) by lia. }
  set (g := <[23%nat := pstate r]> (<[22%nat := pt_pc r]> (gpr c))) in *.
  assert (R2 : ldp 30 21 (16 * 15) (with_gpr g c) = Ok tt (with_gpr (<[21%nat := pt_sp r]> (<[30%nat := x30]> g)) c)).
  { apply (ldp_run (with_gpr g c)); cbn [c_sp c_ks with_gpr]; [lia|lia|exact (SR _ _ E30)|]. by replace (c_sp c + 16 * 15 + 8) with (c_sp c + 248) by lia. }
  set (g2 := <[21%nat := pt_sp r]> (<[30%nat := x30]> g)) in *.
  assert (Lg : length g2 = 31%nat) by (unfold g2, g; by rewrite !length_insert).
  assert (E : g2 !! 21%nat = Some (pt_sp r) /\ g2 !! 22%nat = Some (pt_pc r) /\ g2 !! 23%nat = Some (pstate r) /\ g2 !! 30%nat = Some x30).
  { unfold g2, g. repeat split; repeat ((rewrite list_lookup_insert_eq by (rewrite ?length_insert; lia)) || (rewrite list_lookup_insert_ne by lia)); done. }
  destruct E as (E21 & E22 & E23 & E30'). unfold pop_regs, x. rewrite (bind_ok _ _ _ _ _ R1), (bind_ok _ _ _ _ _ R2), bind_get.
  cbn [gpr with_gpr]. rewrite E21. cbn [default].
  set (c3 := with_spsr (pstate r) (with_elr (pt_pc r) (if el =? 0 then with_sp_el0 (pt_sp r) (with_gpr g2 c) else with_gpr g2 c))).
  assert (R3 : pairs ldp c3 = Ok tt (with_gpr (regs r) c3)).
  { apply ldp_pairs_run; unfold c3; destruct (el =? 0); cbn [gpr c_sp c_ks with_gpr with_spsr with_elr with_sp_el0]; [lia|lia|lia|lia| | |done|done|congruence|congruence];
      intros i v Ev _; by apply SR. }
  transitivity ((_ ← pairs ldp; put (fun c => with_sp (u64 (c_sp c + S_FRAME_SIZE)) c)) c3).
  { unfold c3. destruct (el =? 0); [rewrite bind_put|rewrite bind_ret]; rewrite bind_get; cbn [gpr with_gpr with_sp_el0]; rewrite E22; cbn [default];
      rewrite bind_put, bind_get; cbn [gpr with_gpr with_sp_el0 with_elr]; rewrite E23; cbn [default]; by rewrite bind_put. }
  rewrite (bind_ok _ _ _ _ _ R3). unfold put, c3. change S_FRAME_SIZE with 272.
  destruct (el =? 0); cbn [c_sp with_sp with_gpr with_spsr with_elr with_sp_el0 gpr]; uw; done.
Qed.

(** The kernel stack of a program in user mode is empty: the frame is where
    [get_task_pt_regs] looks for it. *)
Lemma user_frame_address c task : c_sp c = task + TASK_SIZE -> core_ok c -> c_sp c - S_FRAME_SIZE = get_task_pt_regs task.
Proof.
  intros E [_ _ _ _ _ Hs _]. unfold get_task_pt_regs. rewrite <- E. change S_FRAME_SIZE with 272 in *. change SIZEOF_PT_REGS with 272. uw. lia.
Qed.

(** ** Properties *)

(** A function that returns and keeps the calling convention: the stack pointer,
    and the memory above it up to the frame's end. *)
Definition keeps_frame (h : E unit) (c : core) : Prop :=
  exists c', h c = Ok tt c' /\ c_sp c' = c_sp c /\ length (gpr c') = 31%nat /\ Forall word (gpr c')
    /\ same_on (fun a => c_sp c <= a < c_sp c + S_FRAME_SIZE) (k_mem (c_ks c)) (k_mem (c_ks c')).
(** For every call with a frame below the stack of [c]. *)
Definition conforms (h : E unit) (c : core) : Prop :=
  forall c1, c_sp c1 = c_sp c - S_FRAME_SIZE -> length (gpr c1) = 31%nat -> m_valid (k_mem (c_ks c1)) = m_valid (k_mem (c_ks c)) -> keeps_frame h c1.

Lemma saved_ext m m' a r : length (regs r) = 31%nat -> same_on (fun i => a <= i < a + S_FRAME_SIZE) m m' -> saved m a r -> saved m' a r.
Proof.
  change S_FRAME_SIZE with 272. intros L F [S0 S1 S2 S3]. split; [intros i v Ei; pose proof (lookup_lt_Some _ _ _ Ei)|..];
    (rewrite (ldn_ext 8 m m'); [auto|intros j Hj; apply F; lia]).
Qed.

(** The pair of [push_regs] and [pop_regs] around a function. *)
Lemma around_run el h c : core_ok c -> conforms h c ->
  exists c', (_ ← push_regs el; _ ← h; pop_regs el) c = Ok tt c' /\ gpr c' = gpr c /\ c_sp c' = c_sp c /\ c_elr c' = c_elr c /\ c_spsr c' = c_spsr c
    /\ (el = 0 -> c_sp_el0 c' = c_sp_el0 c).
Proof.
  intros C H. destruct (push_regs_run el c C) as (m & g & R & Sv & Lg & _ & _ & Vm). destruct C as [L W Wu We Ws Hs V]. change S_FRAME_SIZE with 272 in *.
  destruct (H (with_sp (c_sp c - 272) (with_gpr g (with_cmem m c)))) as (c2 & R2 & S2 & L2 & _ & F2); [done|done|done|]. cbn [c_sp c_ks with_sp with_gpr] in S2, F2.
  assert (Sv2 : saved (k_mem (c_ks c2)) (c_sp c2) (frame_of el c)) by (rewrite S2; eapply saved_ext; [exact L|exact F2|exact Sv]).
  pose proof (pop_regs_run el c2 (frame_of el c) L2 L ltac:(lia) Sv2) as P.
  eexists. rewrite (bind_ok _ _ _ _ _ R), (bind_ok _ _ _ _ _ R2). split; [exact P|]. cbn [gpr c_sp c_elr c_spsr c_sp_el0 frame_of regs pt_pc pstate pt_sp].
  split; [done|]. split; [lia|]. do 2 (split; [done|]). by intros ->.
Qed.


(** The result stored over x0 in the frame. *)
Lemma saved_set_reg0 m a r v : saved m a r -> valid_range m a 8 -> word v ->
  exists m', stn 8 m a v = Some m' /\ saved m' a (set_reg0 v r).
Proof.
  intros [S0 S1 S2 S3] V Hv. destruct (stn_ok 8 m a v) as [m' E]; [exact V|]. exists m'. split; [done|].
  split; cbn [regs pt_sp pt_pc pstate set_reg0]; [intros [|i] u Eu|..].
  - rewrite Z.mul_0_r, Z.add_0_r. destruct (regs r); [done|]. injection Eu as <-. by apply (ld64_st64_same _ _ _ _ E).
  - eapply ld64_st64_other; [exact E| |lia]. apply S0. by destruct (regs r).
  - eapply ld64_st64_other; [exact E|exact S1|lia].
  - eapply ld64_st64_other; [exact E|exact S2|lia].
  - eapply ld64_st64_other; [exact E|exact S3|lia].
Qed.

Lemma same_on_valid (P : Z -> Prop) m m' a n : same_on P m m' -> (forall i, a <= i < a + n -> P i) -> valid_range m a n -> valid_range m' a n.
Proof.
  intros F HP V i Hi. specialize (F i (HP i Hi)). unfold ld8 in F. rewrite (V i Hi) in F. by destruct (m_valid m' i).
Qed.

(** The system call path after the registers are saved. *)
Lemma sys_call_entry_run table el_now c r f :
  length (gpr c) = 31%nat -> length (regs r) = 31%nat -> S_FRAME_SIZE <= c_sp c + S_FRAME_SIZE < 2 ^ 64 ->
  valid_range (k_mem (c_ks c)) (c_sp c) S_FRAME_SIZE -> saved (k_mem (c_ks c)) (c_sp c) r ->
  u32 (default 0 (gpr c !! 8%nat)) < N_SYSCALLS -> table !! Z.to_nat (u32 (default 0 (gpr c !! 8%nat))) = Some f ->
  (forall k, m_valid (k_mem k) = m_valid (k_mem (c_ks c)) -> keeps_frame f (with_ks k c)) ->
  exists c1 c2 c', enable_irq (c_ks c) = Ok tt (c_ks c1) /\ c1 = with_ks (c_ks c1) c /\ f c1 = Ok tt c2 /\ sys_call_entry table el_now c = Ok Returned c'
    /\ frame_of 0 c' = set_reg0 (default 0 (gpr c2 !! 0%nat)) r /\ c_sp c' = c_sp c + S_FRAME_SIZE /\ irq_masked (k_cpu (c_ks c')) = true.
Proof.
  change S_FRAME_SIZE with 272. intros L Lr Hs V Sv Hn Ef Hf. set (k1 := with_cpu (Cpu (c_regs (k_cpu (c_ks c))) (ttbr0 (k_cpu (c_ks c))) false) (c_ks c)).
  destruct (Hf k1 eq_refl) as (c2 & R & S2 & L2 & W2 & F2). cbn [c_sp c_ks with_ks] in S2, F2. change S_FRAME_SIZE with 272 in F2.
  assert (V2 : valid_range (k_mem (c_ks c2)) (c_sp c) 272) by (eapply same_on_valid; [exact F2|cbn; lia|exact V]).
  destruct (lookup_lt_is_Some_2 (gpr c2) 0) as [x0 E0]; [lia|].
  destruct (saved_set_reg0 (k_mem (c_ks c2)) (c_sp c) r x0) as (m3 & E3 & Sv3);
    [eapply saved_ext; [exact Lr|exact F2|exact Sv]|intros i Hi; apply V2; lia|by eapply Forall_lookup_1|].
  set (c3 := with_cmem m3 (with_ks (with_cpu (Cpu (c_regs (k_cpu (c_ks c2))) (ttbr0 (k_cpu (c_ks c2))) true) (c_ks c2)) c2)).
  assert (L3 : length (regs (set_reg0 x0 r)) = 31%nat) by (cbn; by rewrite length_insert).
  assert (H3 : 0 <= c_sp c3 < 2 ^ 64 - 272) by (cbn; lia).
  assert (Sv3' : saved (k_mem (c_ks c3)) (c_sp c3) (set_reg0 x0 r)) by (cbn; by rewrite S2).
  pose proof (pop_regs_run 0 c3 (set_reg0 x0 r) L2 L3 H3 Sv3') as P.
  exists (with_ks k1 c), c2. eexists. split; [done|]. split; [done|]. split; [exact R|]. split; [|split; [|split; [|]]].
  - unfold sys_call_entry, x. rewrite bind_get. cbv zeta. rewrite (bind_ok _ _ _ _ _ (call_ok enable_irq c tt k1 eq_refl)).
    rewrite (proj2 (Z.leb_gt _ _)) by lia. rewrite Ef. cbn [of_option]. rewrite bind_ret, (bind_ok _ _ _ _ _ R).
    rewrite (bind_ok _ _ _ _ _ (call_ok disable_irq c2 tt _ eq_refl)), !bind_get. cbn [gpr c_sp with_ks]. rewrite E0. cbn [default].
    assert (EA : ptr_add (c_sp c2) S_X0 = c_sp c) by (unfold ptr_add; change S_X0 with 0; rewrite S2, Z.add_0_r; uw; done). rewrite EA.
    set (c2' := with_ks _ c2). rewrite (bind_ok _ _ _ _ _ (call_ok (store64 (c_sp c) x0) c2' tt _ (store64_ok (c_ks c2') _ _ _ E3))).
    exact (bind_ok _ _ _ _ _ P).
  - rewrite E0. cbn [default frame_of gpr c_sp_el0 c_elr c_spsr Z.eqb]. by destruct r.
  - cbn [c_sp c3 with_cmem with_ks]. lia.
  - done.
Qed.


(** ** Concrete instances *)

(** Registers 100 to 130, the stack at 2048; a function that spoils the registers. *)
Definition sample_core (esr : Z) : core :=
  Core (<[8%nat := 3]> (seqZ 100 31)) 2048 4000 0x5000 0 esr 0 (boot_state (fun a => (1024 <=? a) && (a <? 2048)) ∅ 1).
Definition spoil : E unit := put (fun c => Core (replicate 31 7) (c_sp c) 8 9 10 11 12 (c_ks c)).

Lemma sample_core_ok esr : core_ok (sample_core esr).
Proof.
  split; change S_FRAME_SIZE with 272; try done; try (cbn; unfold word; lia); [|intros a Ha; cbn in *; lia].
  change (gpr (sample_core esr)) with (seqZ 100 8 ++ [3] ++ seqZ 109 22). rewrite !Forall_app, !Forall_seqZ. unfold word. repeat split; try lia. repeat constructor; lia.
Qed.
Lemma spoil_conforms c : conforms spoil c.
Proof. intros c1 _ L1 _. eexists. split; [reflexivity|]. split; [done|]. split; [done|]. split; [repeat constructor; done|apply same_on_refl]. Qed.


