(* ===== verification/UserLib.v ===== *)
(** * The programs' library (usr/app1/src/userlib.c, usr/app2/src/task1.c)

    [delay] and [delay_init] with the kernel's system calls, and [intToStr], which
    runs in a program's own memory and is compared with the kernel's conversion
    of numbers. *)

From S2P Require Export Syscalls.

(** A program's memory is its state. *)
Definition store_char (a c : Z) : M mem unit := fun m =>
  match st8 m a (u8 c) with Some m' => Ok tt m' | None => Err (BadAccess a) end.

Definition count_body (p : Z * Z) : M mem (Z * Z + Z) :=
  let '(num_tmp, count) := p in
  if 1 <=? num_tmp then mret (inl (num_tmp / 10, u8 (count + 1))) else mret (inr count).
Definition intToStr_body (str count : Z) (p : Z * Z) : M mem (Z * Z + unit) :=
  let '(num, i) := p in
  if 1 <=? num then
    _ ← store_char (u64 (str + (count - i))) (u8 (num mod 10) + 48);
    mret (inl (num / 10, u8 (i + 1)))
  else mret (inr tt).
Definition intToStr (num str : Z) : M mem unit :=
  if str =? 0 then mret tt
  else
    count ← loop count_body (num, 0);
    loop (intToStr_body str count) (num, 1).

(** ** Waiting for the timer *)

Section delay.
Context {O : PageOps}.
(** As in Syscalls.v; [clock n] is the counter at the [n]-th read; [buf] is the
    address of [delay]'s local variable, [path] of its literal. *)
Context (dev_timer timer_val_slot buf path : Z) (clock : Z -> Z).

Definition delay_init (timer_fd : Z) : K Z :=
  if timer_fd <? 0 then r ← syscall_open dev_timer path 0; mret (s16 r) else mret timer_fd.

Definition delay_body (timer_fd targetTime n : Z) : K (Z + unit) :=
  b ← load32 buf;
  if b <? targetTime then _ ← syscall_read (clock n) timer_val_slot timer_fd buf 4; mret (inl (n + 1))
  else mret (inr tt).
Definition delay (timer_fd delay_ms : Z) : K unit :=
  _ ← store32 buf 0;
  _ ← syscall_read (clock 0) timer_val_slot timer_fd buf 4;
  b ← load32 buf;
  loop (delay_body timer_fd (u32 (b + delay_ms))) 1.

(** [delay] before [delay_init] has opened the timer never returns: its reads fail
    and the time it compares with stays 0. *)
Theorem delay_without_timer_spins timer_fd delay_ms s : timer_fd < 0 -> 0 < delay_ms < 2 ^ 32 -> valid_range (k_mem s) buf 4 ->
  delay timer_fd delay_ms s = Err OutOfFuel.
Proof.
  intros Hfd Hd V. destruct (stn_ok 4 (k_mem s) buf 0 V) as [m E]. pose proof (ldn_stn_same _ _ _ _ _ E) as L. change (0 mod _) with 0 in L.
  assert (R0 : store32 buf 0 s = Ok tt (with_mem m s)) by (unfold store32, storen; by rewrite E).
  assert (Rr : forall c s, syscall_read c timer_val_slot timer_fd buf 4 s = Ok (-1) s).
  { intros c s'. unfold syscall_read, is_valid_fd. rewrite (proj2 (Z.ltb_lt _ _)) by done. done. }
  assert (Rl : load32 buf (with_mem m s) = Ok 0 (with_mem m s)) by (unfold load32, loadn; cbn [k_mem with_mem]; by rewrite L).
  unfold delay. rewrite (bind_ok _ _ _ _ _ R0), (bind_ok _ _ _ _ _ (Rr _ _)), (bind_ok _ _ _ _ _ Rl). rewrite Z.add_0_l, u32_small by lia.
  apply (loop_never _ (fun _ s' => s' = with_mem m s)); [|done]. intros n s' ->. exists (n + 1), (with_mem m s). split; [|done].
  unfold delay_body. rewrite (bind_ok _ _ _ _ _ Rl), (proj2 (Z.ltb_lt _ _)) by lia. by rewrite (bind_ok _ _ _ _ _ (Rr _ _)).
Qed.
End delay.

(** ** Digits from the last *)

(** A digit string without leading zero; the empty one denotes 0. *)
Definition decimal (l : list Z) : Prop := Forall (is_digit 10) l /\ (l <> [] -> 10 ^ (Z.of_nat (length l) - 1) <= value 10 l).

Lemma value_snoc b l c : value b (l ++ [c]) = value b l * b + a2d c.
Proof. unfold value. by rewrite fold_left_app. Qed.
Lemma digit_code c : is_digit 10 c -> c = a2d c + 48.
Proof. unfold is_digit, a2d. repeat case_match; lia. Qed.
Lemma value_nonneg l : Forall (is_digit 10) l -> 0 <= value 10 l.
Proof.
  induction l as [|c l IH] using rev_ind; [done|]. rewrite value_snoc. intros [Hl Hc]%Forall_app.
  apply Forall_cons in Hc as [Hc _]. specialize (IH Hl). unfold is_digit in Hc. lia.
Qed.

Lemma decimal_snoc l c : decimal (l ++ [c]) -> decimal l /\ 1 <= value 10 (l ++ [c])
  /\ value 10 (l ++ [c]) / 10 = value 10 l /\ value 10 (l ++ [c]) mod 10 = a2d c /\ c = a2d c + 48 /\ 0 <= a2d c < 10.
Proof.
  intros [HD HV]. apply Forall_app in HD as [HD Hc]. apply Forall_cons in Hc as [Hc _]. rewrite value_snoc in *.
  pose proof (digit_code c Hc) as Ec. unfold is_digit in Hc. pose proof (value_nonneg l HD) as N.
  specialize (HV ltac:(by destruct l)). rewrite length_app in HV. cbn [length] in HV.
  replace (Z.of_nat (length l + 1) - 1) with (Z.of_nat (length l)) in HV by lia.
  assert (P : 1 <= 10 ^ Z.of_nat (length l)) by (pose proof (Z.pow_pos_nonneg 10 (Z.of_nat (length l))); lia).
  split; [split; [done|]|split; [lia|split; [Z.to_euclidean_division_equations; lia|split; [Z.to_euclidean_division_equations; lia|done]]]].
  intros Hl. destruct l as [|x l]; [done|]. cbn [length] in *. rewrite Nat2Z.inj_succ in *. unfold Z.succ in *.
  rewrite Z.pow_add_r in HV by lia. replace (Z.of_nat (length l) + 1 - 1) with (Z.of_nat (length l)) by lia. lia.
Qed.

Lemma count_loops l : forall n m, decimal l -> 0 <= n -> n + Z.of_nat (length l) < 256 ->
  loops count_body (S (length l)) (value 10 l, n) m (n + Z.of_nat (length l)) m.
Proof.
  induction l as [|c l IH] using rev_ind; intros n m HD Hn Hl.
  - apply loops_done. cbn. by rewrite Z.add_0_r.
  - destruct (decimal_snoc l c HD) as (HD' & V1 & Ed & _). rewrite length_app in *. cbn [length] in *.
    replace (S (length l + 1)) with (S (S (length l))) by lia. eapply loops_step.
    + unfold count_body. rewrite (proj2 (Z.leb_le _ _) V1), Ed, u8_small by lia. reflexivity.
    + replace (n + Z.of_nat (length l + 1)) with (n + 1 + Z.of_nat (length l)) by lia. apply IH; [done|lia..].
Qed.

(** The characters at [a]. *)
Definition chars_at (m : mem) (a : Z) (l : list Z) : Prop := forall k c, l !! k = Some c -> ld8 m (a + Z.of_nat k) = Some c.

Lemma digit_loops str count l : forall i m, decimal l -> 1 <= i -> count - i + 1 = Z.of_nat (length l) -> 0 <= count < 255 ->
  0 <= str -> str + count < 2 ^ 64 -> valid_range m str (Z.of_nat (length l)) ->
  exists m', loops (intToStr_body str count) (S (length l)) (value 10 l, i) m tt m' /\ chars_at m' str l
    /\ same_on (fun a => a < str \/ str + Z.of_nat (length l) <= a) m m' /\ m_valid m' = m_valid m.
Proof.
  induction l as [|c l IH] using rev_ind; intros i m HD Hi Ec Hc Hs Hs' V.
  - exists m. split; [by apply loops_done|]. split; [by intros k c|]. split; [apply same_on_refl|done].
  - destruct (decimal_snoc l c HD) as (HD' & V1 & Ed & Em & Ecode & Hd). rewrite length_app in *. cbn [length] in *.
    replace (S (length l + 1)) with (S (S (length l))) by lia.
    assert (Ea : u64 (str + (count - i)) = str + Z.of_nat (length l)) by (rewrite u64_small; lia).
    destruct (st8_ok m (str + Z.of_nat (length l)) c) as [m1 E1]; [apply V; lia|].
    pose proof (st8_valid_eq _ _ _ _ E1) as Vm. pose proof (ld8_st8_same _ _ _ _ E1) as L1.
    destruct (IH (i + 1) m1) as (m' & L & C & S & V'); [done|lia..| |].
    { intros a Ha. rewrite Vm. apply V. lia. }
    exists m'. split; [|split; [|split; [|by rewrite V']]].
    + eapply loops_step; [|exact L]. unfold intToStr_body. rewrite (proj2 (Z.leb_le _ _) V1), Ed, Em, Ea.
      rewrite (u8_small (a2d c)), <- Ecode by lia. unfold store_char. unfold mbind at 1, M_bind at 1.
      rewrite (u8_small c), E1 by lia. by rewrite u8_small by lia.
    + intros k c' Hk. destruct (Nat.lt_ge_cases k (length l)) as [Hlt|Hge].
      * rewrite lookup_app_l in Hk by done. by apply C.
      * rewrite lookup_app_r in Hk by done. apply list_lookup_singleton_Some in Hk as [Ek <-].
        replace k with (length l) by lia. rewrite S by lia. rewrite L1. f_equal. apply u8_small. lia.
    + intros a Ha. rewrite S by lia. apply (ld8_st8_other _ _ _ _ _ E1). lia.
Qed.

Lemma putchw_plain l : Forall (fun c => c <> 0) l -> putchw 0 false l = l.
Proof.
  intros H. unfold putchw. rewrite until_nul_nonzero by done.
  replace (pad_count l 0) with 0; [done|]. destruct l as [|c l]; [done|]. cbn. by rewrite orb_true_r.
Qed.

(** C33. [intToStr] writes for a non-zero number the characters the kernel's [printf]
    prints for it, and nothing else: no terminator; for 0, which the kernel prints
    as one digit, it writes nothing.  It returns in both cases. *)
Theorem intToStr_agrees_with_printf num str m : 0 <= num < 2 ^ 32 -> 0 < str -> str + 10 < 2 ^ 64 -> valid_range m str 10 ->
  exists l m', tfp_format [37; 117] [AInt num] = inr l /\ intToStr num str m = Ok tt m'
    /\ (if num =? 0 then m' = m /\ l = [48]
        else chars_at m' str l /\ same_on (fun a => a < str \/ str + Z.of_nat (length l) <= a) m m').
Proof.
  intros Hn Hs Hs' V. destruct (uli2a_spec num 10 false ltac:(lia) Hn) as (j & l & E & Ll & Vl & HD & HZ & Hu & Hj).
  assert (H10 : Z.of_nat (length l) <= 10) by (apply (uli2a_length num 10 false l ltac:(lia) Hn E 10); lia).
  assert (F : tfp_format [37; 117] [AInt num] = inr l).
  { change (tfp_format [37; 117] [AInt num]) with
      (match into_bf (ui2a (u32 num) 10 false) with inl e => inl e | inr bf => cat_out (putchw 0 false bf) (inr []) end).
    rewrite u32_small, ui2a_uli2a, E by done. cbn [into_bf]. unfold BF_SIZE. rewrite (proj2 (Z.ltb_lt _ _)) by lia.
    cbn [cat_out]. by rewrite putchw_plain, app_nil_r by done. }
  destruct (Z.eqb_spec num 0) as [->|N].
  - exists [48], m. split; [by rewrite F in *|]. split; [|done]. unfold intToStr. by rewrite (proj2 (Z.eqb_neq str 0)) by lia.
  - assert (D : decimal l).
    { split; [done|]. intros _. rewrite Vl, Ll. replace (Z.of_nat (S j) - 1) with (Z.of_nat j) by lia. destruct Hj as [->|Hj]; [cbn; lia|done]. }
    pose proof (count_loops l 0 m D ltac:(lia) ltac:(lia)) as C. rewrite Vl in C. apply loops_loop in C; [|lia].
    destruct (digit_loops str (Z.of_nat (length l)) l 1 m D) as (m' & L & Ch & S & _); [lia..|intros a Ha; apply V; lia|].
    exists l, m'. split; [done|]. split; [|done]. unfold intToStr. rewrite (proj2 (Z.eqb_neq str 0)) by lia.
    rewrite (bind_ok _ _ _ _ _ C). rewrite Vl in L. apply (loops_loop _ _ _ _ _ _ L). lia.
Qed.

Definition user_memory : mem := Mem (fun a => (0 <=? a) && (a <? 0x10000)) ∅.
Lemma intToStr_agrees_with_printf_witness :
  exists l m', tfp_format [37; 117] [AInt 5120] = inr l /\ intToStr 5120 0x8000 user_memory = Ok tt m'
    /\ (if 5120 =? 0 then m' = user_memory /\ l = [48]
        else chars_at m' 0x8000 l /\ same_on (fun a => a < 0x8000 \/ 0x8000 + Z.of_nat (length l) <= a) user_memory m').
Proof. apply (intToStr_agrees_with_printf 5120 0x8000 user_memory); [lia..|]. intros a Ha. cbn [m_valid user_memory]. lia. Defined.

Lemma delay_without_timer_spins_witness : delay 13000 12000 (fun n => n) (-1) 1000 user_sample = Err OutOfFuel.
Proof.
  apply delay_without_timer_spins; [lia|lia|]. intros a Ha. cbn [k_mem user_sample with_rdfs with_tasks boot_state m_valid]. lia.
Defined.
