(* ===== verification/UserPrograms.v ===== *)
(** * The user programs (usr/app1/src/task1.c, usr/app2/src/task1.c,
      usr/app1/src/user_syscall.S)

    A program is an interaction tree: its events are system calls, stores to its
    own stack and the privileged instruction app1 tries; its loops do not end.
    [execute] runs a program on the kernel: each system call enters at [el0_sync]
    with the program's registers, and the program goes on with the x0 of the
    frame it is resumed with. *)

From S2P Require Export UserLib ProcessTheorems.
From ITree Require Import ITree.

#[export] Instance itree_mret E : MRet (itree E) := fun _ a => Ret a.
#[export] Instance itree_mbind E : MBind (itree E) := fun _ _ k t => ITree.bind t k.

Definition SYS_CALL_WRITE : Z := 0.
Definition SYS_CALL_FORK : Z := 1.
Definition SYS_CALL_EXIT : Z := 2.
Definition SYS_CALL_READ : Z := 3.
Definition SYS_CALL_OPEN : Z := 4.
Definition SYS_CALL_CLOSE : Z := 5.
Definition SYS_CALL_WAIT : Z := 6.

(** [Svc n args]: [svc] with x8 = [n] and the arguments from x0 on.
    [Privileged]: [msr cptr_el3, x1]. *)
Variant userE : Type -> Type :=
  | Svc (n : Z) (args : list Z) : userE Z
  | StoreChar (a c : Z) : userE unit
  | Privileged : userE unit.

(** ** src/user_syscall.S *)

Definition call_syscall_exit (ret : Z) : itree userE Z := ITree.trigger (Svc SYS_CALL_EXIT [ret]).
Definition call_syscall_write (buf : Z) : itree userE Z := ITree.trigger (Svc SYS_CALL_WRITE [buf]).
Definition call_syscall_fork : itree userE Z := x ← ITree.trigger (Svc SYS_CALL_FORK []); mret (u8 x).
Definition call_syscall_read (fd buf size : Z) : itree userE Z := ITree.trigger (Svc SYS_CALL_READ [fd; buf; size]).
Definition call_syscall_open (path flags : Z) : itree userE Z := x ← ITree.trigger (Svc SYS_CALL_OPEN [path; flags]); mret (s16 x).
Definition call_syscall_close (fd : Z) : itree userE Z := ITree.trigger (Svc SYS_CALL_CLOSE [fd]).
Definition call_syscall_wait (delay_ms : Z) : itree userE Z := ITree.trigger (Svc SYS_CALL_WAIT [delay_ms]).

(** [for(;;)] and [while(1)] *)
Definition forever (body : itree userE Z) : itree userE unit :=
  ITree.iter (fun _ : unit => _ ← body; mret (inl tt : unit + unit)) tt.

(** ** usr/app1/src/task1.c

    The addresses of the literals and of [pid_buf] on the stack. *)

Section app1.
Context (inside pid_text newline attempt entering tick pid_buf : Z).

Definition app1_child (pid : Z) : itree userE unit :=
  _ ← call_syscall_write pid_text;
  _ ← ITree.trigger (StoreChar pid_buf 0);
  _ ← ITree.trigger (StoreChar pid_buf (u8 pid + 48));
  _ ← call_syscall_write pid_buf;
  _ ← call_syscall_write newline;
  _ ← call_syscall_write attempt;
  ITree.trigger Privileged.

Definition app1_parent : itree userE unit :=
  _ ← call_syscall_write pid_text;
  _ ← ITree.trigger (StoreChar pid_buf 49);
  _ ← call_syscall_write pid_buf;
  _ ← call_syscall_write newline;
  _ ← call_syscall_write entering;
  forever (_ ← call_syscall_write tick; call_syscall_wait 1000).

Definition app1_main : itree userE unit :=
  _ ← call_syscall_write inside;
  pid ← call_syscall_fork;
  _ ← (if pid =? 0 then app1_child pid else app1_parent);
  _ ← call_syscall_exit 0;
  mret tt.
End app1.

(** ** usr/app2/src/task1.c *)

Section app2.
Context (inside line : Z).
Definition app2_loop : itree userE unit := forever (_ ← call_syscall_write line; call_syscall_wait 5000).
Definition app2_main : itree userE unit :=
  _ ← call_syscall_write inside;
  _ ← app2_loop;
  _ ← call_syscall_exit 0;
  mret tt.
End app2.

(** ** Running a program *)

(** [Away k]: another task runs; resumed with x0, the program goes on with [k].
    [Finished]: [main] returned.  [Halted]: the kernel hangs. *)
Inductive user_result := Away (k : Z -> itree userE unit) | Finished | Halted.

(** The saved registers at a system call: the rest as they were. *)
Definition svc_frame (n : Z) (args : list Z) (r : task_pt_regs) : task_pt_regs :=
  PtRegs (<[8%nat := n]> (args ++ drop (length args) (regs r))) (pt_sp r) (pt_pc r) (pstate r).

Section execute.
Context {P : PageOps} (mmu : mem -> Z -> Z -> option Z) (ret_from_fork dev_timer clo slot el : Z).
(** What [far_el1] holds, what a [void] call leaves in x0, and the syndrome of the
    privileged instruction. *)
Context (far junk esr_privileged : Z).

Definition enter (esr : Z) (r : task_pt_regs) : K outcome := el0_sync mmu ret_from_fork dev_timer clo slot el esr far junk r.

Fixpoint execute (fuel : nat) (p : itree userE unit) (r : task_pt_regs) : K user_result :=
  match fuel with
  | O => fail OutOfFuel
  | S fuel =>
      match observe p with
      | RetF _ => mret Finished
      | TauF t => execute fuel t r
      | VisF e k =>
          match e in userE X return (X -> itree userE unit) -> K user_result with
          | Svc n args => fun k =>
              o ← enter (Z.shiftl ESR_EC_SVC64 ESR_EC_SHIFT) (svc_frame n args r);
              match o with Resume r' => execute fuel (k (reg 0 r')) r' | Suspended => mret (Away k) | Hang => mret Halted end
          | StoreChar a c => fun k => _ ← store8 a (u8 c); execute fuel (k tt) r
          | Privileged => fun k =>
              o ← enter esr_privileged r;
              match o with Resume r' => execute fuel (k tt) r' | Suspended => mret (Away (fun _ => k tt)) | Hang => mret Halted end
          end k
      end
  end.
End execute.

(** ** Text of a program as a format *)

(** No directive: [syscall_write] passes the text to [printf] as the format. *)
Definition no_percent (l : list Z) : Prop := Forall (fun c => 0 < c < 2 ^ 8 /\ c <> 37) l.

Lemma tfp_loop_plain l : forall fuel, no_percent l -> (length l < fuel)%nat -> tfp_loop fuel l [] = inr l.
Proof.
  induction l as [|c l IH]; intros [|fuel] Hl Hf; cbn [length] in Hf; try lia; [done|].
  apply Forall_cons in Hl as [[Hc Np] Hl]. cbn [tfp_loop getc]. rewrite (proj2 (Z.eqb_neq c 0)), (proj2 (Z.eqb_neq c 37)) by lia.
  cbn [negb]. rewrite IH by (done || lia). done.
Qed.

Lemma read_cstr_loops m l : forall a acc s, k_mem s = m -> cstr m a l -> 0 <= a -> a + Z.of_nat (length l) < 2 ^ 64 ->
  loops (fun '(p, acc) => c ← load8 p; if c =? 0 then mret (inr (rev acc)) else mret (inl (ptr_add p 1, c :: acc))) (S (length l)) (a, acc) s (rev acc ++ l) s.
Proof.
  induction l as [|c l IH]; intros a acc s Em C Ha Hl; cbn [cstr length] in *.
  - apply loops_done. rewrite (bind_ok _ _ _ _ _ (load8_ok s a 0 ltac:(by rewrite Em))). cbn. by rewrite app_nil_r.
  - destruct C as (Hc & L & C). eapply loops_step.
    + rewrite (bind_ok _ _ _ _ _ (load8_ok s a c ltac:(by rewrite Em))), (proj2 (Z.eqb_neq c 0)) by lia. reflexivity.
    + unfold ptr_add. rewrite u64_small by lia. change (rev acc ++ c :: l) with (rev acc ++ [c] ++ l). rewrite app_assoc. change (rev acc ++ [c]) with (rev (c :: acc)).
      apply IH; [done|done|lia|lia].
Qed.

(** A text without directives at [buf]. *)
Definition text_at (s : kstate) (buf : Z) (l : list Z) : Prop :=
  cstr (k_mem s) buf l /\ no_percent l /\ 0 <= buf /\ buf + Z.of_nat (length l) < 2 ^ 64 - 1.

Lemma syscall_write_run s buf l : text_at s buf l -> syscall_write buf s = Ok 0 (with_console (k_console s ++ l) s).
Proof.
  intros (C & N & H0 & H1). unfold syscall_write.
  assert (R : read_cstr buf s = Ok l s) by (apply (loops_loop _ _ _ _ _ _ (read_cstr_loops _ l buf [] s eq_refl C H0 ltac:(lia))); lia).
  rewrite (bind_ok _ _ _ _ _ R). unfold printf. change (tfp_format l []) with (tfp_loop (S (length l)) l []). by rewrite tfp_loop_plain by (done || lia).
Qed.

(** ** System calls of a program *)

(** What a system call that does not leave the processor changes. *)
Definition served (out : list Z) (s s' : kstate) : Prop :=
  exists c g, s' = with_console (k_console s ++ out) (with_cpu c (with_regs g s)).

Lemma served_trans o1 o2 s1 s2 s3 : served o1 s1 s2 -> served o2 s2 s3 -> served (o1 ++ o2) s1 s3.
Proof. intros (c1 & g1 & ->) (c2 & g2 & ->). exists c2, g2. destruct s1. cbn. by rewrite app_assoc. Qed.
Lemma served_text o s s' buf l : served o s s' -> text_at s buf l -> text_at s' buf l.
Proof. by intros (c & g & ->). Qed.

Section calls.
Context {P : PageOps} (mmu : mem -> Z -> Z -> option Z) (ret_from_fork dev_timer clo slot el far junk : Z).
Abbreviation enter := (enter mmu ret_from_fork dev_timer clo slot el far junk).

(** The registers of a program, enough for x8. *)
Definition full (r : task_pt_regs) : Prop := length (regs r) = 31%nat.

Lemma svc_frame_reg n args r : full r -> (length args <= 3)%nat ->
  full (svc_frame n args r) /\ reg 8 (svc_frame n args r) = n /\ forall i a, args !! i = Some a -> reg i (svc_frame n args r) = a.
Proof.
  unfold full. intros L Ha. assert (La : length (args ++ drop (length args) (regs r)) = 31%nat) by (rewrite length_app, length_drop; lia).
  split; [|split].
  - cbn [svc_frame regs]. by rewrite length_insert.
  - unfold reg. cbn [svc_frame regs]. rewrite list_lookup_insert_eq by lia. done.
  - intros i a E. pose proof (lookup_lt_Some _ _ _ E). unfold reg. cbn [svc_frame regs].
    rewrite list_lookup_insert_ne by lia. by rewrite lookup_app_l, E by done.
Qed.

(** The entry up to the call: the state in which the call runs. *)
Definition calling (f : task_pt_regs) (s : kstate) : kstate :=
  with_cpu (Cpu (c_regs (k_cpu s)) (ttbr0 (k_cpu s)) false) (with_regs (<[get_task_pt_regs (current (k_sched s)) := f]> (k_regs s)) s).

Lemma enter_svc f n s : reg 8 f = n -> 0 <= n < N_SYSCALLS ->
  enter (Z.shiftl ESR_EC_SVC64 ESR_EC_SHIFT) f s
  = (r ← sys_call mmu ret_from_fork dev_timer clo slot n (reg 0 f) (reg 1 f) (reg 2 f);
     now ← get_current_task;
     if now =? current (k_sched s) then
       _ ← disable_irq; f' ← get_regs (get_task_pt_regs (current (k_sched s)));
       _ ← put_regs (get_task_pt_regs (current (k_sched s))) (set_reg0 (default junk r) f'); mret (Resume (set_reg0 (default junk r) f'))
     else mret Suspended) (calling f s).
Proof.
  unfold N_SYSCALLS. intros E Hn. unfold UserPrograms.enter, el0_sync, get_current_task. rewrite bind_get. unfold put_regs at 1. rewrite bind_put.
  change (Z.shiftr (Z.shiftl ESR_EC_SVC64 ESR_EC_SHIFT) ESR_EC_SHIFT =? ESR_EC_SVC64) with true. cbv iota. unfold el0_sys_call. rewrite E, u32_small by lia.
  unfold enable_irq. rewrite bind_put. unfold N_SYSCALLS. rewrite (proj2 (Z.leb_gt 7 n)) by lia. reflexivity.
Qed.

Lemma write_run r s buf l : full r -> text_at s buf l ->
  exists r' s', enter (Z.shiftl ESR_EC_SVC64 ESR_EC_SHIFT) (svc_frame SYS_CALL_WRITE [buf] r) s = Ok (Resume r') s' /\ full r' /\ served l s s'.
Proof.
  intros L T. destruct (svc_frame_reg SYS_CALL_WRITE [buf] r L ltac:(cbn; lia)) as (Lf & E8 & Ea). set (f := svc_frame SYS_CALL_WRITE [buf] r) in *.
  rewrite (enter_svc f SYS_CALL_WRITE s E8) by (unfold N_SYSCALLS, SYS_CALL_WRITE; lia). rewrite (Ea 0%nat buf eq_refl).
  assert (Tc : text_at (calling f s) buf l) by exact T.
  unfold sys_call. change (SYS_CALL_WRITE =? 0) with true. cbv iota. rewrite bind_assoc, (bind_ok _ _ _ _ _ (syscall_write_run _ _ _ Tc)), bind_ret.
  unfold get_current_task. rewrite bind_get. change (current (k_sched (with_console _ (calling f s)))) with (current (k_sched s)). rewrite Z.eqb_refl.
  unfold disable_irq. rewrite bind_put. set (s2 := with_cpu _ (with_console _ _)).
  assert (G : get_regs (get_task_pt_regs (current (k_sched s))) s2 = Ok f s2) by (unfold get_regs; cbn [s2 calling k_regs with_cpu with_console with_regs]; by rewrite lookup_insert_eq).
  rewrite (bind_ok _ _ _ _ _ G). unfold put_regs. rewrite bind_put. eexists _, _. split; [reflexivity|]. split.
  - unfold full, set_reg0. cbn [regs]. by rewrite length_insert.
  - by eexists _, _.
Qed.
End calls.

(** The running task can sleep for [d] ms with timer [i]. *)
Record can_sleep (s : kstate) (i : nat) (d : Z) : Prop := {
  cs_inv : sched_inv s;
  cs_other : other_progress s;
  cs_free : free_timer s i;
  cs_armed : Forall (fun t => task_ptr t <> current (k_sched s)) (timer_arr (k_timers s));
  cs_delay : 100 <= d < 2 ^ 32;
  cs_tick : 0 <= current_tick (k_timers s) /\ current_tick (k_timers s) + d / 100 < 2 ^ 32 }.

Lemma can_sleep_same s s' i d : k_sched s' = k_sched s -> k_tasks s' = k_tasks s -> k_timers s' = k_timers s -> can_sleep s i d -> can_sleep s' i d.
Proof.
  intros Es Ek Et [I OP F A D T]. split; unfold other_progress, free_timer in *; rewrite ?Es, ?Ek, ?Et; [by apply (sched_inv_same s)|exact OP|exact F|exact A|exact D|exact T].
Qed.
Lemma served_can_sleep o s s' i d : served o s s' -> can_sleep s i d -> can_sleep s' i d.
Proof. intros (c & g & ->). by apply can_sleep_same. Qed.

(** The task that ran in [s] sleeps with timer [i] for [d] ms; it is blocked and
    another task runs. *)
Definition sleeps (s s' : kstate) (i : nat) (d : Z) : Prop :=
  let cur := current (k_sched s) in
  sched_inv s' /\ current (k_sched s') <> cur
  /\ (exists t, k_tasks s' !! cur = Some t /\ state t = TASK_STATE_BLOCKED)
  /\ timer_arr (k_timers s') !! i = Some (OneHit (current_tick (k_timers s) + d / 100) cur).

Section programs.
Context {P : PageOps} (mmu : mem -> Z -> Z -> option Z) (ret_from_fork dev_timer clo slot el far junk esr_privileged : Z).
Abbreviation enter := (enter mmu ret_from_fork dev_timer clo slot el far junk).
Abbreviation execute := (execute mmu ret_from_fork dev_timer clo slot el far junk esr_privileged).

Lemma wait_run r s i d : full r -> can_sleep s i d ->
  exists s', enter (Z.shiftl ESR_EC_SVC64 ESR_EC_SHIFT) (svc_frame SYS_CALL_WAIT [d] r) s = Ok Suspended s'
    /\ sleeps s s' i d /\ k_console s' = k_console s.
Proof.
  intros L [I OP F A D [T0 T1]]. destruct (svc_frame_reg SYS_CALL_WAIT [d] r L ltac:(cbn; lia)) as (Lf & E8 & Ea). set (f := svc_frame SYS_CALL_WAIT [d] r) in *.
  rewrite (enter_svc mmu ret_from_fork dev_timer clo slot el far junk f SYS_CALL_WAIT s E8) by (unfold N_SYSCALLS, SYS_CALL_WAIT; lia).
  rewrite (Ea 0%nat d eq_refl). destruct (current_task s (si_wf _ I)) as (tc & Ec & _).
  destruct (register_one_hit_run (calling f s) d i tc) as (s' & t' & R & I' & N & E' & S' & Ta & Co);
    [by apply (sched_inv_same s)|exact OP|exact F|exact Ec|exact A|lia|exact T0|exact T1|].
  exists s'. split; [|split; [|exact Co]].
  - unfold sys_call. change (SYS_CALL_WAIT =? 0) with false. change (SYS_CALL_WAIT =? 1) with false. change (SYS_CALL_WAIT =? 2) with false.
    change (SYS_CALL_WAIT =? 3) with false. change (SYS_CALL_WAIT =? 4) with false. change (SYS_CALL_WAIT =? 5) with false. cbv iota.
    unfold syscall_wait. rewrite u32_small by lia. rewrite bind_assoc, (bind_ok _ _ _ _ _ R), bind_ret. unfold get_current_task. rewrite bind_get.
    change (current (k_sched (calling f s))) with (current (k_sched s)) in N. by rewrite (proj2 (Z.eqb_neq _ _) N).
  - split; [exact I'|]. split; [exact N|]. split; [by exists t'|exact Ta].
Qed.

(** One event of a program. *)
Lemma execute_write fuel p buf k r s l : observe p = VisF (Svc SYS_CALL_WRITE [buf]) k -> full r -> text_at s buf l ->
  exists r' s', execute (S fuel) p r s = execute fuel (k (reg 0 r')) r' s' /\ full r' /\ served l s s'.
Proof.
  intros E L T. destruct (write_run mmu ret_from_fork dev_timer clo slot el far junk r s buf l L T) as (r' & s' & R & L' & V). exists r', s'.
  split; [|done]. cbn [UserPrograms.execute]. rewrite E. by rewrite (bind_ok _ _ _ _ _ R).
Qed.
Lemma execute_wait fuel p d k r s i : observe p = VisF (Svc SYS_CALL_WAIT [d]) k -> full r -> can_sleep s i d ->
  exists s', execute (S fuel) p r s = Ok (Away k) s' /\ sleeps s s' i d /\ k_console s' = k_console s.
Proof.
  intros E L C. destruct (wait_run r s i d L C) as (s' & R & Sl & Co). exists s'. split; [|done]. cbn [UserPrograms.execute]. rewrite E.
  by rewrite (bind_ok _ _ _ _ _ R).
Qed.
(** A program that writes the texts at [bs] and is then where [Q] says. *)
Fixpoint prints (bs : list Z) (p : itree userE unit) (Q : itree userE unit -> Prop) : Prop :=
  match bs with
  | [] => Q p
  | b :: bs => exists k, observe p = VisF (Svc SYS_CALL_WRITE [b]) k /\ forall x, prints bs (k x) Q
  end.
Lemma execute_prints fuel Q bs : forall ls p r s, prints bs p Q -> full r -> Forall2 (text_at s) bs ls ->
  exists p' r' s', execute (length bs + fuel) p r s = execute fuel p' r' s' /\ Q p' /\ full r' /\ served (concat ls) s s'.
Proof.
  induction bs as [|b bs IH]; intros ls p r s H L T.
  - apply Forall2_nil_inv_l in T as ->. exists p, r, s. split; [done|]. split; [exact H|]. split; [exact L|]. exists (k_cpu s), (k_regs s).
    destruct s. cbn. by rewrite app_nil_r.
  - apply Forall2_cons_inv_l in T as (l & ls' & Tb & T & ->). destruct H as (k & E & H).
    destruct (execute_write (length bs + fuel) p b k r s l E L Tb) as (r1 & s1 & R1 & L1 & V1).
    destruct (IH ls' (k (reg 0 r1)) r1 s1 (H _) L1) as (p' & r' & s' & R & Hq & L' & V).
    { eapply Forall2_impl; [exact T|]. intros x y Ht. exact (served_text _ _ _ _ _ V1 Ht). }
    exists p', r', s'. split; [etrans; [exact R1|exact R]|]. split; [exact Hq|]. split; [exact L'|]. cbn [concat]. exact (served_trans _ _ _ _ _ V1 V).
Qed.
Lemma execute_tau fuel p t r : observe p = TauF t -> execute (S fuel) p r = execute fuel t r.
Proof. intros E. cbn [UserPrograms.execute]. by rewrite E. Qed.

End programs.

(** The program after the fork, in the task that got x0 = [x]. *)
Definition app1_forked (pid_text newline attempt entering tick pid_buf x : Z) : itree userE unit :=
  _ ← (if u8 x =? 0 then app1_child pid_text newline attempt pid_buf (u8 x) else app1_parent pid_text newline entering tick pid_buf);
  _ ← call_syscall_exit 0;
  mret tt.

(** Both programs from their loop on: a line and a wait of [d] ms, for ever. *)
Definition loop_rest (line d : Z) : itree userE unit :=
  _ ← forever (_ ← call_syscall_write line; call_syscall_wait d);
  _ ← call_syscall_exit 0;
  mret tt.

(** Runs a program to its next event. *)
Ltac run_tree :=
  unfold app1_main, app1_forked, call_syscall_fork, app2_main, loop_rest, app2_loop, forever, app1_child, app1_parent, call_syscall_write, call_syscall_wait, call_syscall_exit, mret, itree_mret, mbind, itree_mbind;
  cbn; reflexivity.

(** ** The loops *)

(** Where a program goes on after its wait. *)
Definition resumed (line d : Z) (p : itree userE unit) : Prop := observe p = TauF (loop_rest line d).

(** The events of a round. *)
Lemma loop_rest_events line d : exists k1, observe (loop_rest line d) = VisF (Svc SYS_CALL_WRITE [line]) k1
  /\ forall x, exists k2, observe (k1 x) = VisF (Svc SYS_CALL_WAIT [d]) k2 /\ forall y, resumed line d (k2 y).
Proof.
  eexists. split; [by run_tree|]. intros x. eexists. split; [by run_tree|]. intros y. unfold resumed. by run_tree.
Qed.

Section rounds.
Context {P : PageOps} (mmu : mem -> Z -> Z -> option Z) (ret_from_fork dev_timer clo slot el far junk esr_privileged : Z).
Abbreviation execute := (execute mmu ret_from_fork dev_timer clo slot el far junk esr_privileged).

(** What a round leaves: the program away, to go on with the next round, its
    task asleep for [d] ms with timer [i]. *)
Definition round_over (line d : Z) (i : nat) (s : kstate) (out : list Z) (o : res kstate user_result) : Prop :=
  exists k s', o = Ok (Away k) s' /\ (forall x, resumed line d (k x)) /\ k_console s' = k_console s ++ out /\ sleeps s s' i d.

Lemma round_run fuel line d p r s i l : observe p = observe (loop_rest line d) -> full r -> text_at s line l -> can_sleep s i d ->
  round_over line d i s l (execute (S (S fuel)) p r s).
Proof.
  intros E L T C. destruct (loop_rest_events line d) as (k1 & E1 & H1). rewrite E1 in E.
  destruct (execute_write mmu ret_from_fork dev_timer clo slot el far junk esr_privileged (S fuel) p line k1 r s l E L T) as (r1 & s1 & R1 & L1 & V1).
  destruct (H1 (reg 0 r1)) as (k2 & E2 & H2).
  destruct (execute_wait mmu ret_from_fork dev_timer clo slot el far junk esr_privileged fuel _ d k2 r1 s1 i E2 L1 (served_can_sleep _ _ _ _ _ V1 C)) as (s2 & R2 & Sl & Co).
  exists k2, s2. split; [etrans; [exact R1|exact R2]|]. split; [exact H2|]. destruct V1 as (c & g & ->). split; [exact Co|exact Sl].
Qed.

Lemma resumed_round fuel line d p r s i l : resumed line d p -> full r -> text_at s line l -> can_sleep s i d ->
  round_over line d i s l (execute (3 + fuel) p r s).
Proof.
  intros E L T C. cbn [plus]. rewrite (execute_tau mmu ret_from_fork dev_timer clo slot el far junk esr_privileged _ _ _ _ E). by apply round_run.
Qed.

(** What was printed before the round. *)
Lemma round_after o line d i s s1 l x y : k_sched s1 = k_sched s -> k_timers s1 = k_timers s -> k_console s1 = k_console s ++ o ->
  round_over line d i s1 l x -> y = x -> round_over line d i s (o ++ l) y.
Proof.
  intros Es Et Ec (k & s' & -> & A & Co & Sl) ->. exists k, s'. split; [done|]. split; [exact A|].
  split; [rewrite Co, Ec; by rewrite app_assoc|]. unfold sleeps in *. by rewrite Es, Et in Sl.
Qed.

Section app2_runs.
Context (inside line : Z).

(** app2 with what it still prints before its round: at its start, and where it
    goes on after it slept. *)
Inductive app2_ready : itree userE unit -> list Z -> Prop :=
  | app2_start : app2_ready (app2_main inside line) (str "Inside app2!!" ++ [10; 13])
  | app2_again p : resumed line 5000 p -> app2_ready p [].

Lemma app2_main_events : exists k, observe (app2_main inside line) = VisF (Svc SYS_CALL_WRITE [inside]) k
  /\ forall x, observe (k x) = observe (loop_rest line 5000).
Proof. eexists. split; [by run_tree|]. intros x. by run_tree. Qed.

(** C21. app2 never ends: from its start, and whenever it is resumed after a round,
    it prints its line, its greeting before it the first time, and sleeps 50
    ticks on a timer while another task runs; what is left of it is again app2
    at the head of its loop, whatever the wait left in x0. *)
Theorem app2_rounds p greeting r s i l : app2_ready p greeting -> full r -> can_sleep s i 5000 ->
  text_at s inside (str "Inside app2!!" ++ [10; 13]) -> text_at s line l ->
  exists k s', execute 3 p r s = Ok (Away k) s' /\ (forall x, app2_ready (k x) [])
    /\ k_console s' = k_console s ++ greeting ++ l /\ sleeps s s' i 5000.
Proof.
  intros Hp L C Ti Tl. assert (H : round_over line 5000 i s (greeting ++ l) (execute 3 p r s)).
  { destruct Hp as [|q E]; [|by apply resumed_round]. destruct app2_main_events as (k & E & Hk).
    destruct (execute_write mmu ret_from_fork dev_timer clo slot el far junk esr_privileged 2 _ inside k r s _ E L Ti) as (r1 & s1 & R1 & L1 & V1).
    destruct V1 as (c & g & ->). set (s1 := with_console _ _) in R1. refine (round_after _ _ _ _ s s1 l _ _ _ _ _ _ R1); [reflexivity..|].
    apply round_run; [apply Hk|exact L1|exact Tl|by apply (can_sleep_same s)]. }
  destruct H as (k & s' & R & A & H). exists k, s'. split; [exact R|]. split; [|exact H]. intros x. apply app2_again, A.
Qed.
End app2_runs.
End rounds.

(** ** app1 *)

(** app1 is its greeting, the fork, and then [app1_forked]. *)
Lemma app1_main_events inside pid_text newline attempt entering tick pid_buf :
  prints [inside] (app1_main inside pid_text newline attempt entering tick pid_buf)
    (fun p => exists k, observe p = VisF (Svc SYS_CALL_FORK []) k
      /\ forall y, observe (k y) = observe (app1_forked pid_text newline attempt entering tick pid_buf y)).
Proof.
  eexists. split; [by run_tree|]. intros x. eexists. split; [by run_tree|]. intros y. by run_tree.
Qed.

Section app1_runs.
Context (pid_text newline attempt entering tick pid_buf : Z).
Abbreviation forked := (app1_forked pid_text newline attempt entering tick pid_buf).

(** What a side of the fork does: PID, the stores into [pid_buf], and the texts. *)
Lemma child_events x : u8 x = 0 ->
  prints [pid_text] (forked x) (fun p => exists k1, observe p = VisF (StoreChar pid_buf 0) k1
    /\ exists k2, observe (k1 tt) = VisF (StoreChar pid_buf 48) k2
    /\ prints [pid_buf; newline; attempt] (k2 tt) (fun q => exists k3, observe q = VisF Privileged k3)).
Proof.
  intros E. unfold app1_forked. rewrite E. change (0 =? 0) with true. cbv iota. eexists. split; [by run_tree|]. intros x1.
  do 2 (eexists; split; [by run_tree|]). do 3 (eexists; split; [by run_tree|]; intros ?). eexists. by run_tree.
Qed.
Lemma parent_events x : u8 x <> 0 ->
  prints [pid_text] (forked x) (fun p => exists k1, observe p = VisF (StoreChar pid_buf 49) k1
    /\ prints [pid_buf; newline; entering] (k1 tt) (fun q => observe q = observe (loop_rest tick 1000))).
Proof.
  intros E. unfold app1_forked. rewrite (proj2 (Z.eqb_neq _ _) E). eexists. split; [by run_tree|]. intros x1.
  eexists. split; [by run_tree|]. do 3 (eexists; split; [by run_tree|]; intros ?). by run_tree.
Qed.

(** A text away from the byte [pid_buf]. *)
Definition apart (s : kstate) (a : Z) (l : list Z) : Prop := text_at s a l /\ (pid_buf < a \/ a + Z.of_nat (length l) < pid_buf).
(** What a side prints after its PID, [tail] what follows [pid_buf] up to the next 0 of the stack. *)
Record texts_ready (s : kstate) (last : Z) (l tail : list Z) : Prop := {
  tr_newline : apart s newline [10];
  tr_last : apart s last l;
  tr_tail : text_at s (pid_buf + 1) tail;
  tr_buf : 0 <= pid_buf /\ m_valid (k_mem s) pid_buf = true }.

Lemma text_kept s m a l : same_on (fun x => x <> pid_buf) (k_mem s) m -> apart s a l -> text_at (with_mem m s) a l.
Proof.
  intros S ((C & N & H) & A). split; [|done]. eapply cstr_same; [exact S| |exact C]. intros x Hx. cbv beta. lia.
Qed.

(** The three texts after the store of the digit [c]. *)
Lemma stored_texts s m c last l tail : texts_ready s last l tail -> 0 < c < 2 ^ 8 /\ c <> 37 -> ld8 m pid_buf = Some c ->
  same_on (fun x => x <> pid_buf) (k_mem s) m ->
  Forall2 (text_at (with_mem m s)) [pid_buf; newline; last] [c :: tail; [10]; l].
Proof.
  intros [Tn Tl (C & N & H0 & H1) [B _]] Hc L Sm. constructor; [|constructor; [by apply text_kept|constructor; [by apply text_kept|constructor]]].
  cbn [length] in *. split; [|split; [by constructor|cbn [length]; lia]]. cbn [cstr]. split; [apply Hc|]. split; [exact L|].
  eapply cstr_same; [exact Sm| |exact C]. intros x Hx. cbv beta. lia.
Qed.

Context {P : PageOps} (mmu : mem -> Z -> Z -> option Z) (ret_from_fork dev_timer clo slot el far junk esr_privileged : Z).
Abbreviation enter := (enter mmu ret_from_fork dev_timer clo slot el far junk).
Abbreviation execute := (execute mmu ret_from_fork dev_timer clo slot el far junk esr_privileged).
Abbreviation prints_run := (execute_prints mmu ret_from_fork dev_timer clo slot el far junk esr_privileged).

Lemma execute_store fuel p a c k r s : observe p = VisF (StoreChar a c) k -> m_valid (k_mem s) a = true ->
  exists m, execute (S fuel) p r s = execute fuel (k tt) r (with_mem m s) /\ ld8 m a = Some (u8 c)
    /\ same_on (fun x => x <> a) (k_mem s) m /\ m_valid m = m_valid (k_mem s).
Proof.
  intros E V. destruct (stn_ok 1 (k_mem s) a (u8 c)) as [m Em]; [intros x Hx; by replace x with a by lia|].
  exists m. split; [|split; [|split; [|by eapply stn_valid_eq]]].
  - cbn [UserPrograms.execute]. rewrite E. unfold store8, storen, mbind, M_bind. by rewrite Em.
  - cbn [stn] in Em. destruct (st8 (k_mem s) a _) as [m1|] eqn:E1; [|done]. injection Em as <-. rewrite (ld8_st8_same _ _ _ _ E1).
    f_equal. apply u8_small, u8_range.
  - eapply same_on_stn; [exact Em|]. cbv beta. lia.
Qed.

(** The child up to the privileged instruction, the parent up to its loop. *)
Definition reaches (fuel n : nat) (p : itree userE unit) (r : task_pt_regs) (s : kstate) (out : list Z) (Q : itree userE unit -> Prop) : Prop :=
  exists p' r' s' c g m, execute (n + fuel) p r s = execute fuel p' r' s' /\ Q p' /\ full r'
    /\ s' = with_mem m (with_console (k_console s ++ out) (with_cpu c (with_regs g s))) /\ same_on (fun x => x <> pid_buf) (k_mem s) m.

(** The rest of a step that printed [o] and stored nothing else than [pid_buf]. *)
Lemma reaches_after fuel n1 n2 p0 r0 s p r c g m o out Q : same_on (fun x => x <> pid_buf) (k_mem s) m ->
  let s1 := with_mem m (with_console (k_console s ++ o) (with_cpu c (with_regs g s))) in
  execute (n1 + (n2 + fuel)) p0 r0 s = execute (n2 + fuel) p r s1 -> reaches fuel n2 p r s1 out Q -> reaches fuel (n1 + n2) p0 r0 s (o ++ out) Q.
Proof.
  intros S s1 R (p' & r' & s' & c' & g' & m' & R' & Hq & L & -> & S'). exists p', r', (with_mem m' (with_console (k_console s ++ o ++ out) (with_cpu c' (with_regs g' s)))), c', g', m'.
  split; [rewrite <- Nat.add_assoc, R, R'; cbn [s1 k_console with_mem with_console]; by rewrite <- app_assoc|].
  split; [exact Hq|]. split; [exact L|]. split; [reflexivity|]. eapply same_on_trans; [exact S|exact S'].
Qed.

(** From the store of the digit [c] on. *)
Lemma digit_reaches fuel p c k r s last l tail Q : observe p = VisF (StoreChar pid_buf c) k -> prints [pid_buf; newline; last] (k tt) Q ->
  full r -> texts_ready s last l tail -> 0 < c < 2 ^ 8 /\ c <> 37 -> reaches fuel 4 p r s ((c :: tail) ++ [10] ++ l) Q.
Proof.
  intros E H L T Hc. destruct (execute_store (3 + fuel) p pid_buf c k r s E (proj2 (tr_buf _ _ _ _ T))) as (m & R & B & S & V).
  rewrite u8_small in B by lia. pose proof (stored_texts s m c last l tail T Hc B S) as F.
  destruct (prints_run fuel _ _ _ _ r (with_mem m s) H L F) as (p' & r' & s' & R' & Hq & L' & c' & g' & ->).
  eexists p', r', _, c', g', m. split; [etrans; [exact R|exact R']|]. split; [exact Hq|]. split; [exact L'|]. split; [|exact S].
  cbn [concat]. by rewrite app_nil_r.
Qed.

Lemma texts_ready_kept s m last l tail : same_on (fun x => x <> pid_buf) (k_mem s) m -> m_valid m = m_valid (k_mem s) ->
  texts_ready s last l tail -> texts_ready (with_mem m s) last l tail.
Proof.
  intros S V [Tn Tl Tt [B Vb]]. split.
  - split; [by apply text_kept|apply Tn].
  - split; [by apply text_kept|apply Tl].
  - apply text_kept; [exact S|]. split; [exact Tt|lia].
  - split; [exact B|]. cbn [k_mem with_mem]. by rewrite V.
Qed.
Lemma texts_ready_served o s s' last l tail : served o s s' -> texts_ready s last l tail -> texts_ready s' last l tail.
Proof. by intros (c & g & ->) [Tn Tl Tt B]. Qed.

Lemma child_reaches fuel x r s tail : u8 x = 0 -> full r -> text_at s pid_text (str "PID: ") ->
  texts_ready s attempt (str "Attempting to disable isrs (should trap)" ++ [10]) tail ->
  reaches fuel 6 (forked x) r s (str "PID: " ++ (48 :: tail) ++ [10] ++ str "Attempting to disable isrs (should trap)" ++ [10])
    (fun q => exists k, observe q = VisF Privileged k).
Proof.
  intros Hx L Tp T. destruct (prints_run (5 + fuel) _ _ [str "PID: "] _ r s (child_events x Hx) L) as (p1 & r1 & s1 & R1 & (k1 & E1 & k2 & E2 & H2) & L1 & V1);
    [by constructor|]. pose proof (texts_ready_served _ _ _ _ _ _ V1 T) as T1. destruct V1 as (c & g & ->).
  destruct (execute_store (4 + fuel) p1 pid_buf 0 k1 r1 _ E1 (proj2 (tr_buf _ _ _ _ T1))) as (m & R2 & _ & S & V).
  apply (reaches_after fuel 2 4 _ _ s _ _ c g m (str "PID: ") _ _ S (eq_trans R1 R2)).
  apply digit_reaches with (k := k2) (last := attempt); [exact E2|exact H2|exact L1|exact (texts_ready_kept _ _ _ _ _ S V T1)|lia].
Qed.
Lemma parent_reaches fuel x r s tail : u8 x <> 0 -> full r -> text_at s pid_text (str "PID: ") ->
  texts_ready s entering (str "Entering delay loop here " ++ [13; 10]) tail ->
  reaches fuel 5 (forked x) r s (str "PID: " ++ (49 :: tail) ++ [10] ++ str "Entering delay loop here " ++ [13; 10])
    (fun q => observe q = observe (loop_rest tick 1000)).
Proof.
  intros Hx L Tp T. destruct (prints_run (4 + fuel) _ _ [str "PID: "] _ r s (parent_events x Hx) L) as (p1 & r1 & s1 & R1 & (k1 & E1 & H1) & L1 & V1);
    [by constructor|]. pose proof (texts_ready_served _ _ _ _ _ _ V1 T) as T1. destruct V1 as (c & g & ->).
  apply (reaches_after fuel 1 4 _ _ s p1 r1 c g (k_mem s) (str "PID: ") _ _ (same_on_refl _ _) R1).
  apply digit_reaches with (k := k1) (last := entering); [exact E1|exact H1|exact L1|exact T1|lia].
Qed.

(** app1's parent with what it still prints before its round. *)
Inductive parent_ready (tail : list Z) : itree userE unit -> list Z -> Prop :=
  | parent_start x : u8 x <> 0 ->
      parent_ready tail (forked x) (str "PID: " ++ (49 :: tail) ++ [10] ++ str "Entering delay loop here " ++ [13; 10])
  | parent_again p : resumed tick 1000 p -> parent_ready tail p [].

(** C23. app1's parent, from its fork on, never ends: it prints PID, 1 with the
    bytes that follow on its stack up to the next 0, since its buffer is a single
    character, its announcement and its line, and sleeps 10 ticks on a timer
    while another task runs; it goes on with its line each time it is resumed. *)
Theorem app1_parent_rounds p greeting r s i l tail : parent_ready tail p greeting -> full r -> can_sleep s i 1000 ->
  text_at s pid_text (str "PID: ") -> texts_ready s entering (str "Entering delay loop here " ++ [13; 10]) tail -> apart s tick l ->
  exists k s', execute 7 p r s = Ok (Away k) s' /\ (forall x, parent_ready tail (k x) [])
    /\ k_console s' = k_console s ++ greeting ++ l /\ sleeps s s' i 1000.
Proof.
  intros Hp L C Tp T Tl.
  assert (H : round_over tick 1000 i s (greeting ++ l) (execute 7 p r s)).
  { destruct Hp as [x Hx|q E]; [|apply (resumed_round mmu ret_from_fork dev_timer clo slot el far junk esr_privileged 4); [exact E|exact L|apply Tl|exact C]].
    destruct (parent_reaches 2 x r s tail Hx L Tp T) as (p' & r' & s' & c & g & m & R & Hq & L' & -> & S).
    set (s1 := with_mem _ _) in R. refine (round_after _ _ _ _ s s1 l _ _ _ _ _ _ R); [reflexivity..|].
    apply round_run; [exact Hq|exact L'|exact (text_kept s m tick l S Tl)|by apply (can_sleep_same s)]. }
  destruct H as (k & s' & R & A & H). exists k, s'. split; [exact R|]. split; [|exact H]. intros x. apply parent_again, A.
Qed.

(** The instruction is neither a system call nor a data access to the processor. *)
Context (Hesr : Z.shiftr esr_privileged ESR_EC_SHIFT <> ESR_EC_SVC64 /\ Z.shiftr esr_privileged ESR_EC_SHIFT <> ESR_EC_DABT_LOW).

(** The exit of a program at an exception that is not served. *)
Lemma privileged_run r s tc : sched_inv s -> other_progress s -> k_tasks s !! current (k_sched s) = Some tc -> fd_table tc = FdTable 0 0 -> stack tc = 0 ->
  Forall (fun t => task_ptr t <> current (k_sched s)) (timer_arr (k_timers s)) ->
  exists s' pid t, enter esr_privileged r s = Ok Suspended s'
    /\ tfp_format (str "Thread %d exiting with retcode: %d" ++ [10]) [AInt pid; AInt 5] = inr t /\ k_console s' = k_console s ++ t
    /\ task_array (k_sched s) !! Z.to_nat pid = Some (current (k_sched s)) /\ sched_inv s' /\ stopped (current (k_sched s)) s'.
Proof using Hesr.
  intros I OP Ec Ef Et T. destruct (current_slot s (si_wf _ I)) as (pid & Hpid & Es).
  destruct (tfp_loop_well_typed (S (length (str "Thread %d exiting with retcode: %d" ++ [10]))) (str "Thread %d exiting with retcode: %d" ++ [10]) [AInt pid; AInt 5] eq_refl) as [t Ft].
  set (s1 := with_regs (<[get_task_pt_regs (current (k_sched s)) := r]> (k_regs s)) s). set (s2 := with_console (k_console s1 ++ t) s1).
  assert (I1 : sched_inv s1) by (by apply (sched_inv_same s)). assert (I2 : sched_inv s2) by (by apply (sched_inv_same s)).
  destruct (exit_task_run s2 tc I2 OP Ec Ef Et T) as (s' & R & I' & St & Co & _).
  exists s', pid, t. split; [|split; [exact Ft|split; [exact Co|split; [exact Es|split; [exact I'|exact St]]]]].
  unfold UserPrograms.enter, el0_sync, get_current_task. rewrite bind_get. unfold put_regs. rewrite bind_put. fold s1. destruct Hesr as [N1 N2].
  rewrite (proj2 (Z.eqb_neq _ _) N1), (proj2 (Z.eqb_neq _ _) N2). unfold syscall_exit. rewrite !bind_assoc.
  rewrite (bind_ok _ _ _ _ _ (get_pid_run s1 pid (si_wf _ I1) Hpid Es)), bind_assoc.
  assert (Rp : printf (str "Thread %d exiting with retcode: %d" ++ [10]) [AInt pid; AInt 5] s1 = Ok tt s2).
  { unfold printf. change (tfp_format (str "Thread %d exiting with retcode: %d" ++ [10])) with (tfp_loop (S (length (str "Thread %d exiting with retcode: %d" ++ [10]))) (str "Thread %d exiting with retcode: %d" ++ [10])). by rewrite Ft. }
  rewrite (bind_ok _ _ _ _ _ Rp). unfold mbind, M_bind. by rewrite R.
Qed.

(** C22. app1's child, from its fork on: it prints PID, 0 with the bytes that follow
    on its stack up to the next 0, since its buffer holds no terminator, and its
    announcement; then its access to a system register traps and the kernel ends
    it with code 5.  It is never scheduled again, whatever the kernel does. *)
Theorem app1_child_ends x r s tail tc ops : u8 x = 0 -> full r ->
  text_at s pid_text (str "PID: ") -> texts_ready s attempt (str "Attempting to disable isrs (should trap)" ++ [10]) tail ->
  sched_inv s -> other_progress s -> k_tasks s !! current (k_sched s) = Some tc -> fd_table tc = FdTable 0 0 -> stack tc = 0 ->
  Forall (fun t => task_ptr t <> current (k_sched s)) (timer_arr (k_timers s)) -> Forall op_ok ops ->
  exists k s' pid t s2, execute 7 (forked x) r s = Ok (Away k) s'
    /\ tfp_format (str "Thread %d exiting with retcode: %d" ++ [10]) [AInt pid; AInt 5] = inr t
    /\ task_array (k_sched s) !! Z.to_nat pid = Some (current (k_sched s))
    /\ k_console s' = k_console s ++ (str "PID: " ++ (48 :: tail) ++ [10] ++ str "Attempting to disable isrs (should trap)" ++ [10]) ++ t
    /\ run_sched_ops ops s' = Ok tt s2 /\ stopped (current (k_sched s)) s2.
Proof using Hesr.
  intros Hx L Tp T I OP Ec Ef Et Ti O. destruct (child_reaches 1 x r s tail Hx L Tp T) as (p & r1 & s1 & c & g & m & R1 & (k & E) & _ & -> & _).
  set (out := str "PID: " ++ _) in *. set (s1 := with_mem _ _) in R1.
  destruct (privileged_run r1 s1 tc ltac:(by apply (sched_inv_same s)) OP Ec Ef Et Ti) as (s' & pid & t & R2 & Ft & Co & Es & I' & St).
  destruct (stopped_ops _ ops s' I' O St) as (s2 & R3 & St2). exists (fun _ => k tt), s', pid, t, s2.
  split; [|split; [exact Ft|split; [exact Es|split; [|split; [exact R3|exact St2]]]]].
  - change 7%nat with (6 + 1)%nat. rewrite R1. cbn [UserPrograms.execute]. rewrite E. by rewrite (bind_ok _ _ _ _ _ R2).
  - rewrite Co. unfold s1. cbn [k_console with_console with_mem]. by rewrite <- app_assoc.
Qed.
End app1_runs.

(** ** Concrete instances *)

(** Memory that holds the texts [ts], everything else 0. *)
Definition texts_memory (ts : list (Z * list Z)) : mem :=
  Mem (fun _ => true) (list_to_map (concat (map (fun '(a, l) => zip (seqZ a (Z.of_nat (length l))) l) ts))).
Fixpoint plain_at (m : mem) (a : Z) (l : list Z) : bool :=
  match l with
  | [] => bool_decide (ld8 m a = Some 0)
  | c :: l => (0 <? c) && (c <? 2 ^ 8) && negb (c =? 37) && bool_decide (ld8 m a = Some c) && plain_at m (a + 1) l
  end.
Lemma plain_text s a l : plain_at (k_mem s) a l && (0 <=? a) && (a + Z.of_nat (length l) <? 2 ^ 64 - 1) = true -> text_at s a l.
Proof.
  intros [[H H0]%andb_prop H1]%andb_prop. apply Z.leb_le in H0. apply Z.ltb_lt in H1. unfold text_at.
  cut (cstr (k_mem s) a l /\ no_percent l); [tauto|]. clear H0 H1. revert a H. induction l as [|c l IH]; intros a H; cbn [plain_at cstr] in *.
  - split; [by apply bool_decide_eq_true in H|constructor].
  - apply andb_prop in H as [[[[C0 C1]%andb_prop C2]%andb_prop C3]%andb_prop H]. destruct (IH _ H) as [C N].
    apply Z.ltb_lt in C0, C1. apply bool_decide_eq_true in C3. apply negb_true_iff, Z.eqb_neq in C2. split; [done|]. by constructor.
Qed.

(** [sample_sched] with the texts of both programs; the byte after [pid_buf] is an x. *)
Definition programs_sample : kstate :=
  with_mem (texts_memory [(0x100, str "Inside app2!!" ++ [10; 13]); (0x200, str "app2" ++ [10]); (0x300, str "PID: "); (0x400, [10]);
    (0x500, str "Attempting to disable isrs (should trap)" ++ [10]); (0x600, str "Entering delay loop here " ++ [13; 10]);
    (0x700, str "userspace_tick" ++ [10]); (0x801, str "x")]) sample_sched.

Lemma programs_sample_other : other_progress programs_sample.
Proof. exists 8192, (sample_task TASK_STATE_RUNNING 0 3 1). split; [right; left|]. done. Qed.
Lemma programs_sample_sleeps d : 100 <= d < 2 ^ 16 -> can_sleep programs_sample 0 d.
Proof.
  intros Hd. assert (d / 100 < 2 ^ 16) by (apply Z.div_lt_upper_bound; lia).
  split; [by apply (sched_inv_same sample_sched); [..|apply sample_sched_inv]|exact programs_sample_other| |repeat constructor; discriminate|lia|cbn; lia].
  split; [eexists; split; reflexivity|lia].
Qed.
Lemma programs_sample_texts last l : apart 0x800 programs_sample last l -> texts_ready 0x400 0x800 programs_sample last l (str "x").
Proof.
  intros A. split; [|exact A| |split; [lia|reflexivity]].
  - split; [by apply plain_text|]. cbn. lia.
  - by apply plain_text.
Qed.

Lemma app2_rounds_witness : exists k s',
  execute no_mmu 0x80000 0 0 0 0 0 0 0x2000000 3 (app2_main 0x100 0x200) zero_regs programs_sample = Ok (Away k) s'
  /\ (forall x, app2_ready 0x100 0x200 (k x) []) /\ k_console s' = str "Inside app2!!" ++ [10; 13] ++ str "app2" ++ [10]
  /\ sleeps programs_sample s' 0 5000.
Proof.
  apply (app2_rounds no_mmu 0x80000 0 0 0 0 0 0 0x2000000 0x100 0x200
    (app2_main 0x100 0x200) (str "Inside app2!!" ++ [10; 13]) zero_regs programs_sample 0 (str "app2" ++ [10])).
  - apply app2_start.
  - reflexivity.
  - apply programs_sample_sleeps. lia.
  - apply plain_text. reflexivity.
  - apply plain_text. reflexivity.
Defined.

Lemma app1_parent_rounds_witness : exists k s',
  execute no_mmu 0x80000 0 0 0 0 0 0 0x2000000 7 (app1_forked 0x300 0x400 0x500 0x600 0x700 0x800 1) zero_regs programs_sample = Ok (Away k) s'
  /\ (forall x, parent_ready 0x300 0x400 0x500 0x600 0x700 0x800 (str "x") (k x) [])
  /\ k_console s' = k_console programs_sample ++ (str "PID: " ++ (49 :: str "x") ++ [10] ++ str "Entering delay loop here " ++ [13; 10]) ++ str "userspace_tick" ++ [10]
  /\ sleeps programs_sample s' 0 1000.
Proof.
  apply (app1_parent_rounds 0x300 0x400 0x500 0x600 0x700 0x800 no_mmu 0x80000 0 0 0 0 0 0 0x2000000
    (app1_forked 0x300 0x400 0x500 0x600 0x700 0x800 1) _ zero_regs programs_sample 0 (str "userspace_tick" ++ [10]) (str "x")).
  - by apply parent_start.
  - reflexivity.
  - apply programs_sample_sleeps. lia.
  - by apply plain_text.
  - apply programs_sample_texts. split; [by apply plain_text|cbn; lia].
  - split; [by apply plain_text|cbn; lia].
Defined.

(** The child, which the scheduler then never runs through ticks and yields. *)
Lemma app1_child_ends_witness : exists k s' pid t s2,
  execute no_mmu 0x80000 0 0 0 0 0 0 0x2000000 7 (app1_forked 0x300 0x400 0x500 0x600 0x700 0x800 0) zero_regs programs_sample = Ok (Away k) s'
  /\ tfp_format (str "Thread %d exiting with retcode: %d" ++ [10]) [AInt pid; AInt 5] = inr t
  /\ task_array (k_sched programs_sample) !! Z.to_nat pid = Some (current (k_sched programs_sample))
  /\ k_console s' = k_console programs_sample
       ++ (str "PID: " ++ (48 :: str "x") ++ [10] ++ str "Attempting to disable isrs (should trap)" ++ [10]) ++ t
  /\ run_sched_ops [OpTick; OpYield; OpTick] s' = Ok tt s2 /\ stopped (current (k_sched programs_sample)) s2.
Proof.
  apply (app1_child_ends 0x300 0x400 0x500 0x600 0x700 0x800 no_mmu 0x80000 0 0 0 0 0 0 0x2000000 ltac:(split; discriminate)
    0 zero_regs programs_sample (str "x") (sample_task TASK_STATE_RUNNING 2 1 0)); try reflexivity.
  - by apply plain_text.
  - apply programs_sample_texts. split; [by apply plain_text|cbn; lia].
  - by apply (sched_inv_same sample_sched); [..|apply sample_sched_inv].
  - exact programs_sample_other.
  - repeat constructor; discriminate.
  - repeat constructor.
Defined.
