(* ===== verification/Irq.v ===== *)
(** * Interrupts (src/irq.c, src/peripherals/system_timer.c,
      src/peripherals/generic_timer.c, src/asm/generic_timer.S)

    The dispatch of an interrupt to the two timers that drive the scheduler, and
    the routing of interrupts in the GIC distributor.  Configuration registers
    are words of memory.  Registers whose value the hardware chooses (the
    acknowledge register, the free-running counters) are arguments: the value
    the code reads. *)

From S2P Require Export Process.
From S2P Require Export SystemTimer.

Definition GIC_MAX_ISRS : Z := 256.
Definition IRQ_GIC_BASE_PERIPHERAL : Z := 0xffff00003F840000.
Definition IRQ_GICD_BASE : Z := IRQ_GIC_BASE_PERIPHERAL + 0x1000.
Definition IRQ_GICD_ISR_GROUP : Z := IRQ_GICD_BASE + 0x80.
Definition IRQ_GICD_ISR_ENABLE : Z := IRQ_GICD_BASE + 0x100.
Definition IRQ_GICD_ICPEND : Z := IRQ_GICD_BASE + 0x280.
Definition IRQ_GICD_IRQ_TARGET : Z := IRQ_GICD_BASE + 0x800.
Definition IRQ_GICC_BASE : Z := IRQ_GIC_BASE_PERIPHERAL + 0x2000.
Definition IRQ_GICC_PMR : Z := IRQ_GICC_BASE + 0x04.
Definition IRQ_GICC_EOIR : Z := IRQ_GICC_BASE + 0x10.
Definition SYSTEM_TIMER_IRQ_1 : Z := 0x61.
Definition ARM_GENERIC_TIMER : Z := 0x1E.

(** [*reg |= v] for a 32-bit register. *)
Definition reg_or (reg v : Z) : K unit := x ← load32 reg; store32 reg (Z.lor x v).

(** The variable [tick_occured] and the registers of the generic timer. *)
Record device := Device { tick_occured : Z; cntp_cval : Z; cntp_ctl : Z }.

(** ** The interrupt controller *)

Definition assignTargets (isrId targetId : Z) : K unit :=
  let isrBlock := isrId / 4 in
  let targetOffset := u32 (isrId mod 4 * 8 + targetId) in
  reg_or (ptr_add IRQ_GICD_IRQ_TARGET (4 * isrBlock)) (u32 (Z.shiftl 1 targetOffset)).

Definition enableISR (isrId : Z) : K unit :=
  let isrBlock := isrId / 32 in
  let isrOffset := isrId mod 32 in
  reg_or (ptr_add IRQ_GICD_ISR_ENABLE (4 * isrBlock)) (u32 (Z.shiftl 1 isrOffset)).

(** ** The timers *)

(** src/peripherals/system_timer.c; [clo] is the counter [get_timer_val] reads. *)
Definition system_timer_init (clo : Z) : K unit := store32 timer_c1 (u32 (clo + TICK_INTERVAL)).

Definition handle_timer_c0_ISR (clo : Z) (d : device) : K device :=
  let d := if tick_occured d =? 0 then Device 1 (cntp_cval d) (cntp_ctl d) else d in
  _ ← store32 timer_c1 (u32 (clo + TICK_INTERVAL));
  _ ← reg_or timer_cs 2;
  _ ← scheduler_tick;
  mret d.

(** src/asm/generic_timer.S; [cntfrq] and [cntpct] are the registers read. *)
Definition set_timer (cntfrq cntpct : Z) (d : device) : device :=
  Device (tick_occured d) (u64 (cntpct + cntfrq / 10)) (Z.lor (cntp_ctl d) 1).

Definition generic_timer_init (cntfrq cntpct : Z) (d : device) : device := set_timer cntfrq cntpct d.

Definition handle_generic_timer_irq (cntfrq cntpct : Z) (d : device) : K device :=
  let d := set_timer cntfrq cntpct d in
  _ ← scheduler_tick;
  mret d.

(** ** Dispatch *)

(** [irqAck]: the value read from the acknowledge register. *)
Definition handle_irq (irqAck clo cntfrq cntpct : Z) (d : device) : K device :=
  let irq := Z.land irqAck 0x2FF in
  if irq =? SYSTEM_TIMER_IRQ_1 then
    _ ← store32 IRQ_GICC_EOIR irqAck;
    handle_timer_c0_ISR clo d
  else if irq =? ARM_GENERIC_TIMER then
    _ ← store32 IRQ_GICC_EOIR irqAck;
    handle_generic_timer_irq cntfrq cntpct d
  else
    _ ← printf (str "Unknown pending irq: %x" ++ [13; 10]) [AInt irq];
    mret d.

(** ** Start *)

(** An interrupt, by what its handler reads from the devices. *)
Record taken_irq := TakenIrq { ti_ack : Z; ti_clo : Z; ti_cntfrq : Z; ti_cntpct : Z }.

(** src/asm/entry.S, [el1_irq], for interrupts of a kernel that has them enabled:
    the processor masks them before the handler and [eret] unmasks them. *)
Fixpoint take_irqs (taken : list taken_irq) (d : device) : K device :=
  match taken with
  | [] => mret d
  | i :: taken =>
      _ ← disable_irq;
      d ← handle_irq (ti_ack i) (ti_clo i) (ti_cntfrq i) (ti_cntpct i) d;
      _ ← enable_irq;
      take_irqs taken d
  end.

(** "Weird QEMU GIC logic". *)
Definition qemu_logic : K unit :=
  _ ← printf (str "No system timer tick occured, running QEMU logic" ++ [10]) [];
  _ ← reg_or IRQ_GICD_BASE 3; _ ← reg_or IRQ_GICC_BASE 3; _ ← reg_or IRQ_GICC_PMR 0xFF;
  _ ← assignTargets ARM_GENERIC_TIMER 0; enableISR ARM_GENERIC_TIMER.

(** [taken]: the interrupts that arrive during [wait_time(TICK_INTERVAL * 2)]. *)
Definition enable_interrupt_controller (taken : list taken_irq) (d : device) : K device :=
  let d := Device 0 (cntp_cval d) (cntp_ctl d) in
  _ ← assignTargets SYSTEM_TIMER_IRQ_1 0;
  _ ← enableISR SYSTEM_TIMER_IRQ_1;
  d ← take_irqs taken d;
  _ ← when (tick_occured d =? 0) qemu_logic;
  mret d.

(** src/kernel.c: [main] from "Booting..." to the interrupt controller; the vector
    base register and the barriers are outside the model. *)
Definition start_interrupts (taken : list taken_irq) (clo cntfrq cntpct : Z) (d : device) : K device :=
  _ ← printf (str "Booting..." ++ [10]) [];
  _ ← system_timer_init clo;
  let d := generic_timer_init cntfrq cntpct d in
  _ ← printf (str "Enabling IRQs..." ++ [10]) [];
  _ ← enable_irq;
  enable_interrupt_controller taken d.

(** ** Dumps of the controller's registers *)

(** One line of a dump: the number of a register, its address and its value. *)
Definition dump_reg (fmt : list Z) (n reg : Z) : K unit :=
  v ← load32 reg; printf (fmt ++ str " (0x%08x): 0x%08x" ++ [10]) [AInt n; AInt reg; AInt v].
(** The last lines of both dumps; the hardware chooses the values. *)
Definition dump_cpu_interface (iar eoir hppir : Z) : K unit :=
  _ ← printf (str "GICC_IAR: 0x%08x" ++ [10]) [AInt iar];
  _ ← printf (str "GICC_EOIR: 0x%08x" ++ [10]) [AInt eoir];
  printf (str "GICC_HPPIR: 0x%08x" ++ [10]) [AInt hppir].

(** [k]-th turn of a loop with [i += step]. *)
Definition gic_debug_print (iar eoir hppir : Z) : K unit :=
  _ ← printf (str "============== GIC REGS ===============" ++ [10]) [];
  _ ← for_range 8 0 (fun k _ => let i := 32 * k in dump_reg (str "GICD_ISR_ENABLE_%d") (i / 32) (IRQ_GICD_ISR_ENABLE + i / 8)) tt;
  _ ← for_range 64 0 (fun k _ => let i := 4 * k in dump_reg (str "GICD_IRQ_TARGET_%d") (i / 4) (IRQ_GICD_IRQ_TARGET + i)) tt;
  _ ← for_range 8 0 (fun k _ => let i := 32 * k in dump_reg (str "GICD_ISRPEND_%d") (i / 32) (IRQ_GICD_ICPEND + i / 8)) tt;
  dump_cpu_interface iar eoir hppir.

Definition gic_debug_print_for_irq (irqId iar eoir hppir : Z) : K unit :=
  c ← load32 IRQ_GICC_BASE;
  g ← load32 IRQ_GICD_BASE;
  _ ← printf (str "GICC_CTLR: 0x%08x" ++ [10] ++ str "GICD_CTLR: 0x%08x" ++ [10]) [AInt c; AInt g];
  _ ← dump_reg (str "GICD_ISR_GROUP_%d") (irqId / 32) (ptr_add IRQ_GICD_ISR_GROUP (4 * (irqId / 32)));
  _ ← dump_reg (str "GICD_ISR_ENABLE_%d") (irqId / 32) (ptr_add IRQ_GICD_ISR_ENABLE (4 * (irqId / 32)));
  _ ← dump_reg (str "GICD_IRQ_TARGET_%d") (irqId / 4) (ptr_add IRQ_GICD_IRQ_TARGET (4 * (irqId / 4)));
  _ ← dump_reg (str "GICD_ISRPEND_%d") (irqId / 32) (ptr_add IRQ_GICD_ICPEND (4 * (irqId / 32)));
  dump_cpu_interface iar eoir hppir.

(** ** Register banks as bit arrays *)

(** Bit [k] of the bank of 32-bit registers at [base]. *)
Definition reg_bit (m : mem) (base k : Z) : bool := Z.testbit (default 0 (ldn 4 m (base + 4 * (k / 32)))) (k mod 32).
(** Interrupt [id] is forwarded; it is routed to processor [cpu]. *)
Definition isr_enabled (m : mem) (id : Z) : bool := reg_bit m IRQ_GICD_ISR_ENABLE id.
Definition irq_target (m : mem) (id cpu : Z) : bool := reg_bit m IRQ_GICD_IRQ_TARGET (8 * id + cpu).

Lemma reg_or_run s reg v : valid_range (k_mem s) reg 4 -> 0 <= v < 2 ^ 32 ->
  exists x m, ldn 4 (k_mem s) reg = Some x /\ reg_or reg v s = Ok tt (with_mem m s) /\ ldn 4 m reg = Some (Z.lor x v)
    /\ same_on (fun a => a < reg \/ reg + 4 <= a) (k_mem s) m /\ m_valid m = m_valid (k_mem s).
Proof.
  intros V Hv. destruct (ldn_ok 4 (k_mem s) reg V) as [x Ex]. destruct (stn_ok 4 (k_mem s) reg (Z.lor x v) V) as [m Em].
  exists x, m. split; [done|]. split; [|split; [|split; [by eapply same_on_stn|by eapply stn_valid_eq]]].
  - unfold reg_or, load32, store32, loadn, storen, mbind, M_bind. by rewrite Ex, Em.
  - rewrite (ldn_stn_same _ _ _ _ _ Em). f_equal. apply Z.mod_small.
    pose proof (ldn_range _ _ _ _ Ex) as Rx. change (2 ^ (8 * Z.of_nat 4)) with (2 ^ 32) in *.
    assert (N : 0 <= Z.lor x v) by (apply Z.lor_nonneg; lia). split; [done|].
    destruct (Z.eq_dec (Z.lor x v) 0) as [->|]; [lia|]. apply Z.log2_lt_pow2; [lia|]. rewrite Z.log2_lor by lia.
    assert (B : forall y, 0 <= y < 2 ^ 32 -> Z.log2 y < 32).
    { intros y Hy. destruct (Z.eq_dec y 0) as [->|]; [done|]. apply Z.log2_lt_pow2; lia. }
    apply Z.max_lub_lt; by apply B.
Qed.

(** Setting one bit of a bank of [n] registers. *)
Lemma set_reg_bit s base n k : 0 <= base -> base + 4 * n < 2 ^ 64 -> valid_range (k_mem s) base (4 * n) -> 0 <= k < 32 * n ->
  exists m, reg_or (ptr_add base (4 * (k / 32))) (u32 (Z.shiftl 1 (k mod 32))) s = Ok tt (with_mem m s)
    /\ (forall j, 0 <= j < 32 * n -> reg_bit m base j = (j =? k) || reg_bit (k_mem s) base j)
    /\ same_on (fun a => a < base \/ base + 4 * n <= a) (k_mem s) m /\ m_valid m = m_valid (k_mem s).
Proof.
  intros H0 H1 V Hk. assert (Hq : 0 <= k / 32 < n) by (Z.to_euclidean_division_equations; lia).
  pose proof (Z.mod_pos_bound k 32 ltac:(lia)) as Hr. unfold ptr_add. rewrite u64_small by lia.
  assert (Hs : 0 <= Z.shiftl 1 (k mod 32) < 2 ^ 32).
  { rewrite Z.shiftl_mul_pow2, Z.mul_1_l by lia. split; [lia|]. apply Z.pow_lt_mono_r; lia. }
  rewrite (u32_small _ Hs).
  destruct (reg_or_run s (base + 4 * (k / 32)) (Z.shiftl 1 (k mod 32))) as (x & m & Ex & R & Em & S & Vm); [|done|].
  { intros a Ha. apply V. lia. }
  exists m. split; [done|]. split; [|split; [intros a Ha; apply S; lia|done]].
  intros j Hj. unfold reg_bit. pose proof (Z.mod_pos_bound j 32 ltac:(lia)). destruct (Z.eq_dec (j / 32) (k / 32)) as [E|N].
  - rewrite E, Em, Ex. cbn [from_option id]. rewrite Z.lor_spec, orb_comm. f_equal. rewrite Z.shiftl_spec by lia.
    destruct (Z.eqb_spec j k) as [->|Nk]; [by rewrite Z.sub_diag|].
    assert (Nj : j mod 32 <> k mod 32) by (Z.to_euclidean_division_equations; lia).
    destruct (Z_lt_le_dec (j mod 32) (k mod 32)); [apply Z.testbit_neg_r; lia|].
    change 1 with (Z.ones 1). apply Z.ones_spec_high. lia.
  - rewrite (proj2 (Z.eqb_neq j k)) by congruence. cbn [orb]. do 2 f_equal. apply ldn_ext. intros i Hi. apply S. lia.
Qed.

(** The registers of the controller and of the system timer are mapped. *)
Record devices_mapped (s : kstate) : Prop := {
  dm_gicd : valid_range (k_mem s) IRQ_GICD_BASE 0x1000;
  dm_gicc : valid_range (k_mem s) IRQ_GICC_BASE 0x1000;
  dm_timer : valid_range (k_mem s) SYSTEM_TIMER_PERIPHERAL_BASE 28 }.

(** ** Properties *)

(** Routing and enabling one interrupt. *)
Lemma route_run s id cpu :
  devices_mapped s -> 0 <= id < GIC_MAX_ISRS -> 0 <= cpu < 8 ->
  exists m, (_ ← assignTargets id cpu; enableISR id) s = Ok tt (with_mem m s)
    /\ (forall j, 0 <= j < GIC_MAX_ISRS -> isr_enabled m j = (j =? id) || isr_enabled (k_mem s) j)
    /\ (forall j c, 0 <= j < GIC_MAX_ISRS -> 0 <= c < 8 ->
          irq_target m j c = (j =? id) && (c =? cpu) || irq_target (k_mem s) j c)
    /\ same_on (fun a => a < IRQ_GICD_BASE + 0x100 \/ IRQ_GICD_BASE + 0x900 <= a) (k_mem s) m /\ m_valid m = m_valid (k_mem s).
Proof.
  unfold GIC_MAX_ISRS. intros [VD _ _] Hid Hc.
  destruct (set_reg_bit s IRQ_GICD_IRQ_TARGET 64 (8 * id + cpu)) as (m1 & R1 & B1 & S1 & V1);
    [vm_compute; congruence|reflexivity| |lia|].
  { intros a Ha. apply VD. unfold IRQ_GICD_IRQ_TARGET in Ha. lia. }
  destruct (set_reg_bit (with_mem m1 s) IRQ_GICD_ISR_ENABLE 8 id) as (m2 & R2 & B2 & S2 & V2);
    [vm_compute; congruence|reflexivity| |lia|].
  { intros a Ha. cbn [k_mem with_mem]. rewrite V1. apply VD. unfold IRQ_GICD_ISR_ENABLE in Ha. lia. }
  exists m2. split; [|split; [|split; [|split]]].
  - assert (A : assignTargets id cpu s = Ok tt (with_mem m1 s)).
    { rewrite <- R1. unfold assignTargets. rewrite (u32_small (id mod 4 * 8 + cpu)) by (Z.to_euclidean_division_equations; lia).
      assert (E1 : id / 4 = (8 * id + cpu) / 32) by (Z.to_euclidean_division_equations; lia).
      assert (E2 : id mod 4 * 8 + cpu = (8 * id + cpu) mod 32) by (Z.to_euclidean_division_equations; lia).
      by rewrite E1, E2. }
    by rewrite (bind_ok _ _ _ _ _ A).
  - intros j Hj. unfold isr_enabled. rewrite B2 by lia. cbn [k_mem with_mem]. f_equal. unfold reg_bit. do 2 f_equal.
    apply ldn_ext. intros i Hi. apply S1. left. unfold IRQ_GICD_IRQ_TARGET, IRQ_GICD_ISR_ENABLE in *.
    Z.to_euclidean_division_equations; lia.
  - intros j c Hj Hc'. unfold irq_target.
    assert (E : reg_bit m2 IRQ_GICD_IRQ_TARGET (8 * j + c) = reg_bit m1 IRQ_GICD_IRQ_TARGET (8 * j + c)).
    { unfold reg_bit. do 2 f_equal. apply ldn_ext. intros i Hi. apply S2. right.
      unfold IRQ_GICD_IRQ_TARGET, IRQ_GICD_ISR_ENABLE in *. Z.to_euclidean_division_equations; lia. }
    rewrite E, B1 by lia. f_equal.
    destruct (Z.eqb_spec (8 * j + c) (8 * id + cpu)), (Z.eqb_spec j id), (Z.eqb_spec c cpu); cbn [andb]; lia.
  - apply (same_on_trans _ _ m1); [apply (same_on_weaken (fun a => a < IRQ_GICD_IRQ_TARGET \/ IRQ_GICD_IRQ_TARGET + 4 * 64 <= a)); [|exact S1]
      |apply (same_on_weaken (fun a => a < IRQ_GICD_ISR_ENABLE \/ IRQ_GICD_ISR_ENABLE + 4 * 8 <= a)); [|exact S2]];
      intros a; unfold IRQ_GICD_IRQ_TARGET, IRQ_GICD_ISR_ENABLE; lia.
  - by rewrite V2.
Qed.

(** Routing an interrupt to a processor and enabling it sets the enable bit
    of that interrupt and the target bit of that processor, and changes no bit
    of any other interrupt or processor. *)
Theorem gic_routes_interrupt s id cpu :
  devices_mapped s -> 0 <= id < GIC_MAX_ISRS -> 0 <= cpu < 8 ->
  exists m, (_ ← assignTargets id cpu; enableISR id) s = Ok tt (with_mem m s)
    /\ (forall j, 0 <= j < GIC_MAX_ISRS -> isr_enabled m j = (j =? id) || isr_enabled (k_mem s) j)
    /\ (forall j c, 0 <= j < GIC_MAX_ISRS -> 0 <= c < 8 ->
          irq_target m j c = (j =? id) && (c =? cpu) || irq_target (k_mem s) j c).
Proof.
  intros DM Hid Hc. destruct (route_run s id cpu DM Hid Hc) as (m & R & E & T & _). by exists m.
Qed.

Lemma devices_mapped_valid s s' : m_valid (k_mem s') = m_valid (k_mem s) -> devices_mapped s -> devices_mapped s'.
Proof.
  intros E [V1 V2 V3]. apply Build_devices_mapped; intros a Ha; rewrite E; [exact (V1 a Ha)|exact (V2 a Ha)|exact (V3 a Ha)].
Qed.

(** The enable bits and the targets of all interrupts are as before. *)
Definition routes_kept (m m' : mem) : Prop :=
  same_on (fun a => IRQ_GICD_BASE + 0x100 <= a < IRQ_GICD_BASE + 0x900) m m' /\ m_valid m' = m_valid m.

Lemma routes_kept_trans m1 m2 m3 : routes_kept m1 m2 -> routes_kept m2 m3 -> routes_kept m1 m3.
Proof. intros [S1 V1] [S2 V2]. split; [by eapply same_on_trans|by rewrite V2]. Qed.

Lemma routes_kept_bits m m' : routes_kept m m' ->
  (forall j, 0 <= j < GIC_MAX_ISRS -> isr_enabled m' j = isr_enabled m j)
  /\ forall j c, 0 <= j < GIC_MAX_ISRS -> 0 <= c < 8 -> irq_target m' j c = irq_target m j c.
Proof.
  intros [S _]. unfold GIC_MAX_ISRS. split; [intros j Hj|intros j c Hj Hc]; unfold isr_enabled, irq_target, reg_bit; do 2 f_equal;
    apply ldn_ext; intros i Hi; apply S; change (Z.of_nat 4) with 4 in Hi;
    unfold IRQ_GICD_ISR_ENABLE, IRQ_GICD_IRQ_TARGET in Hi; Z.to_euclidean_division_equations; lia.
Qed.

(** A control register of the distributor or of the processor interface. *)
Lemma reg_or_control s reg v : devices_mapped s -> reg = IRQ_GICD_BASE \/ reg = IRQ_GICC_BASE \/ reg = IRQ_GICC_PMR -> 0 <= v < 2 ^ 32 ->
  exists m, reg_or reg v s = Ok tt (with_mem m s) /\ routes_kept (k_mem s) m.
Proof.
  intros [V1 V2 _] Hreg Hv. assert (D : IRQ_GICC_BASE = IRQ_GICD_BASE + 0x1000 /\ IRQ_GICC_PMR = IRQ_GICD_BASE + 0x1004) by done.
  destruct (reg_or_run s reg v) as (x & m & _ & R & _ & S & V); [|done|].
  { intros a Ha. destruct Hreg as [->|[->| ->]]; [apply V1; lia|apply V2; lia|apply V2; lia]. }
  exists m. split; [done|]. split; [|done]. intros a Ha. apply S. lia.
Qed.

(** Runs that only print. *)
Definition only_prints (m : K unit) : Prop :=
  forall s, devices_mapped s -> exists out, m s = Ok tt (with_console (k_console s ++ out) s).

Lemma prints_seq {A} (m1 : K A) a m2 : (forall s, devices_mapped s -> exists out, m1 s = Ok a (with_console (k_console s ++ out) s)) ->
  only_prints (m2 a) -> only_prints (x ← m1; m2 x).
Proof.
  intros H1 H2 s DM. destruct (H1 s DM) as [o1 R1]. assert (DM1 : devices_mapped (with_console (k_console s ++ o1) s)) by (destruct DM as [V1 V2 V3]; exact (Build_devices_mapped (with_console _ s) V1 V2 V3)).
  destruct (H2 _ DM1) as [o2 R2]. exists (o1 ++ o2). rewrite (bind_ok _ _ _ _ _ R1), R2. cbn. by rewrite app_assoc.
Qed.
Lemma prints_printf fmt va : well_typed fmt va = true -> only_prints (printf fmt va).
Proof. intros W s _. destruct (tfp_loop_well_typed _ fmt va W) as [out E]. exists out. unfold printf, tfp_format. by rewrite E. Qed.
Lemma prints_load a (f : Z -> K unit) : (forall s, devices_mapped s -> valid_range (k_mem s) a 4) -> (forall v, only_prints (f v)) ->
  only_prints (v ← load32 a; f v).
Proof.
  intros V Hf s DM. destruct (ldn_ok 4 (k_mem s) a (V s DM)) as [v E].
  assert (L : load32 a s = Ok v s) by (unfold load32, loadn; by rewrite E). rewrite (bind_ok _ _ _ _ _ L). by apply Hf.
Qed.
Lemma prints_range n (body : Z -> unit -> K unit) : forall i, (forall j, i <= j < i + Z.of_nat n -> only_prints (body j tt)) ->
  only_prints (for_range n i body tt).
Proof.
  induction n as [|n IH]; intros i Hb; cbn [for_range].
  - intros s _. exists []. rewrite app_nil_r. by destruct s.
  - apply (prints_seq (body i tt) tt (fun b => for_range n (i + 1) body b)); [apply Hb; lia|]. apply IH. intros j Hj. apply Hb. lia.
Qed.

Lemma prints_dump fmt n reg : IRQ_GICD_BASE <= reg -> reg + 4 <= IRQ_GICD_BASE + 0x1000 ->
  (forall v, well_typed (fmt ++ str " (0x%08x): 0x%08x" ++ [10]) [AInt n; AInt reg; AInt v] = true) -> only_prints (dump_reg fmt n reg).
Proof.
  intros H0 H1 W. apply prints_load; [intros s [V _ _] a Ha; apply V; lia|]. intros v. by apply prints_printf.
Qed.
Lemma prints_cpu_interface iar eoir hppir : only_prints (dump_cpu_interface iar eoir hppir).
Proof. repeat (apply (prints_seq (printf _ _) tt); [by apply prints_printf|]). by apply prints_printf. Qed.

(** The dumps of the interrupt controller print and change nothing else: for every
    interrupt the controller has, each register read is inside its mapped area
    and each line prints. *)
Theorem gic_dumps_only_print s irqId iar eoir hppir : devices_mapped s -> 0 <= irqId < GIC_MAX_ISRS ->
  (exists out, gic_debug_print iar eoir hppir s = Ok tt (with_console (k_console s ++ out) s))
  /\ exists out, gic_debug_print_for_irq irqId iar eoir hppir s = Ok tt (with_console (k_console s ++ out) s).
Proof.
  unfold GIC_MAX_ISRS. intros DM Hi.
  assert (B1 : 0 <= irqId / 32 < 8) by (Z.to_euclidean_division_equations; lia).
  assert (B2 : 0 <= irqId / 4 < 64) by (Z.to_euclidean_division_equations; lia).
  assert (D : IRQ_GICD_BASE = 0xffff00003F841000) by done.
  assert (Hp : forall off k, 0 <= off < 0x1000 -> 0 <= k < 64 -> ptr_add (IRQ_GICD_BASE + off) (4 * k) = IRQ_GICD_BASE + off + 4 * k).
  { intros off k Ho Hk. unfold ptr_add. apply u64_small. lia. }
  assert (P : only_prints (gic_debug_print iar eoir hppir) /\ only_prints (gic_debug_print_for_irq irqId iar eoir hppir));
    [|destruct P as [P1 P2]; split; [by apply P1|by apply P2]]. split.
  - apply (prints_seq (printf _ _) tt); [by apply prints_printf|].
    apply (prints_seq (for_range 8 0 _ tt) tt); [apply prints_range; intros k Hk; apply prints_dump; [..|done]; unfold IRQ_GICD_ISR_ENABLE; Z.to_euclidean_division_equations; lia|].
    apply (prints_seq (for_range 64 0 _ tt) tt); [apply prints_range; intros k Hk; apply prints_dump; [..|done]; unfold IRQ_GICD_IRQ_TARGET; lia|].
    apply (prints_seq (for_range 8 0 _ tt) tt); [apply prints_range; intros k Hk; apply prints_dump; [..|done]; unfold IRQ_GICD_ICPEND; Z.to_euclidean_division_equations; lia|].
    apply prints_cpu_interface.
  - apply prints_load; [intros s' [_ V _] a Ha; apply V; lia|]. intros c. apply prints_load; [intros s' [V _ _] a Ha; apply V; lia|]. intros g.
    apply (prints_seq (printf _ _) tt); [by apply prints_printf|].
    unfold IRQ_GICD_ISR_GROUP, IRQ_GICD_ISR_ENABLE, IRQ_GICD_IRQ_TARGET, IRQ_GICD_ICPEND. rewrite !Hp by lia.
    repeat (apply (prints_seq (dump_reg _ _ _) tt); [apply prints_dump; [lia..|done]|]). apply prints_cpu_interface.
Qed.

(** The writes of a timer interrupt before the tick: end of interrupt, the next
    compare value, the pending bit. *)
Definition rearmed (m m' : mem) (irqAck clo : Z) : Prop :=
  ldn 4 m' IRQ_GICC_EOIR = Some irqAck /\ ldn 4 m' timer_c1 = Some (u32 (clo + TICK_INTERVAL))
  /\ (exists cs, ldn 4 m timer_cs = Some cs /\ ldn 4 m' timer_cs = Some (Z.lor cs 2))
  /\ m_valid m' = m_valid m.

Lemma rearm_run s irqAck clo : devices_mapped s -> 0 <= irqAck < 2 ^ 32 ->
  exists m1 m2 m3, store32 IRQ_GICC_EOIR irqAck s = Ok tt (with_mem m1 s)
    /\ store32 timer_c1 (u32 (clo + TICK_INTERVAL)) (with_mem m1 s) = Ok tt (with_mem m2 s)
    /\ reg_or timer_cs 2 (with_mem m2 s) = Ok tt (with_mem m3 s) /\ rearmed (k_mem s) m3 irqAck clo
    /\ routes_kept (k_mem s) m3.
Proof.
  intros [_ VC VT] Ha.
  destruct (stn_ok 4 (k_mem s) IRQ_GICC_EOIR irqAck) as [m1 E1]; [intros a H; apply VC; unfold IRQ_GICC_EOIR in H; lia|].
  assert (V1 : m_valid m1 = m_valid (k_mem s)) by (by eapply stn_valid_eq).
  destruct (stn_ok 4 m1 timer_c1 (u32 (clo + TICK_INTERVAL))) as [m2 E2].
  { intros a H. rewrite V1. apply VT. unfold timer_c1 in H. lia. }
  assert (V2 : m_valid m2 = m_valid (k_mem s)) by (rewrite <- V1; by eapply stn_valid_eq).
  destruct (reg_or_run (with_mem m2 s) timer_cs 2) as (cs & m3 & Ecs & R3 & E3 & S3 & V3); [|lia|].
  { intros a H. cbn [k_mem with_mem]. rewrite V2. apply VT. unfold timer_cs in H. lia. }
  cbn [k_mem with_mem] in *. exists m1, m2, m3. unfold store32, storen. rewrite E1. cbn [k_mem with_mem]. rewrite E2.
  split; [done|]. split; [done|]. split; [done|].
  assert (D : IRQ_GICC_EOIR = timer_cs + 0x183f010 /\ timer_c1 = timer_cs + 16) by done.
  assert (L1 : ldn 4 m1 IRQ_GICC_EOIR = Some irqAck).
  { rewrite (ldn_stn_same _ _ _ _ _ E1). f_equal. by apply Z.mod_small. }
  assert (L2 : ldn 4 m2 timer_c1 = Some (u32 (clo + TICK_INTERVAL))).
  { rewrite (ldn_stn_same _ _ _ _ _ E2). f_equal. apply Z.mod_small, u32_range. }
  assert (Rk : routes_kept (k_mem s) m3).
  { assert (Da : timer_cs + 0x183e100 = IRQ_GICD_BASE + 0x100 /\ IRQ_GICC_EOIR = IRQ_GICD_BASE + 0x1010) by done.
    split; [|by rewrite V3]. apply (same_on_trans _ _ m2); [apply (same_on_trans _ _ m1)|];
      [eapply same_on_stn; [exact E1|cbn; lia]|eapply same_on_stn; [exact E2|cbn; lia]|intros a Ha'; apply S3; lia]. }
  split; [|exact Rk]. split; [|split; [|split; [|by rewrite V3]]].
  - rewrite <- L1, <- (ldn_stn_other 4 4 _ _ _ _ IRQ_GICC_EOIR E2) by (cbn; lia).
    apply ldn_ext. intros i Hi. apply S3. cbn in Hi. lia.
  - rewrite <- L2. apply ldn_ext. intros i Hi. apply S3. cbn in Hi. lia.
  - exists cs. split; [|done]. rewrite <- Ecs.
    rewrite (ldn_stn_other 4 4 _ _ _ _ timer_cs E2) by (cbn; lia). symmetry. apply (ldn_stn_other 4 4 _ _ _ _ timer_cs E1). cbn. lia.
Qed.

(** Memory and console do not matter to the scheduler. *)
Lemma sched_inv_mem s m : sched_inv s -> sched_inv (with_mem m s).
Proof. intros [[L C P J T] B G]. by split; [split|..]. Qed.
Lemma sched_inv_console s c : sched_inv s -> sched_inv (with_console c s).
Proof. intros [[L C P J T] B G]. by split; [split|..]. Qed.

Lemma timer_irq_run s irqAck clo cntfrq cntpct d :
  sched_inv s -> devices_mapped s -> 0 <= irqAck < 2 ^ 32 -> Z.land irqAck 0x2FF = SYSTEM_TIMER_IRQ_1 ->
  exists m s', rearmed (k_mem s) m irqAck clo /\ scheduler_tick (with_mem m s) = Ok tt s'
    /\ handle_irq irqAck clo cntfrq cntpct d s = Ok (if tick_occured d =? 0 then Device 1 (cntp_cval d) (cntp_ctl d) else d) s'
    /\ sched_inv s' /\ routes_kept (k_mem s) (k_mem s') /\ task_array (k_sched s') = task_array (k_sched s) /\ k_console s' = k_console s.
Proof.
  intros I DM Ha Ei. destruct (rearm_run s irqAck clo DM Ha) as (m1 & m2 & m & R1 & R2 & R3 & A & K).
  destruct (scheduler_tick_inv _ (sched_inv_mem s m I)) as (s' & R & Is & Em & Et & Ec). exists m, s'.
  split; [done|]. split; [done|]. split; [|split; [done|split; [by rewrite Em|done]]].
  unfold handle_irq. rewrite Ei, Z.eqb_refl, (bind_ok _ _ _ _ _ R1). unfold handle_timer_c0_ISR.
  by rewrite (bind_ok _ _ _ _ _ R2), (bind_ok _ _ _ _ _ R3), (bind_ok _ _ _ _ _ R).
Qed.

(** C39. A timer interrupt is acknowledged with the value read, the timer is armed
    for the next tick, and the scheduler's tick then runs in a state it accepts:
    the handler returns with the scheduler's invariant.  Only ten bits but one
    of the acknowledged value select the handler: bit 8 is ignored. *)
Theorem timer_interrupt_ticks s irqAck clo cntfrq cntpct d :
  sched_inv s -> devices_mapped s -> 0 <= irqAck < 2 ^ 32 -> Z.land irqAck 0x2FF = SYSTEM_TIMER_IRQ_1 ->
  exists m d' s', rearmed (k_mem s) m irqAck clo /\ scheduler_tick (with_mem m s) = Ok tt s'
    /\ handle_irq irqAck clo cntfrq cntpct d s = Ok d' s' /\ tick_occured d' <> 0 /\ sched_inv s'.
Proof.
  intros I DM Ha Ei. destruct (timer_irq_run s irqAck clo cntfrq cntpct d I DM Ha Ei) as (m & s' & A & T & R & Is & _).
  exists m, (if tick_occured d =? 0 then Device 1 (cntp_cval d) (cntp_ctl d) else d), s'.
  split; [done|]. split; [done|]. split; [done|]. split; [|done]. destruct (Z.eqb_spec (tick_occured d) 0); [done|done].
Qed.

(** An interrupt of the system timer. *)
Definition timer_irq (i : taken_irq) : Prop := 0 <= ti_ack i < 2 ^ 32 /\ Z.land (ti_ack i) 0x2FF = SYSTEM_TIMER_IRQ_1.

Lemma take_irqs_run taken : forall s d, sched_inv s -> devices_mapped s -> irq_masked (k_cpu s) = false -> Forall timer_irq taken ->
  exists d' s', take_irqs taken d s = Ok d' s' /\ sched_inv s' /\ routes_kept (k_mem s) (k_mem s')
    /\ task_array (k_sched s') = task_array (k_sched s) /\ k_console s' = k_console s /\ irq_masked (k_cpu s') = false
    /\ cntp_cval d' = cntp_cval d /\ cntp_ctl d' = cntp_ctl d
    /\ (tick_occured d' =? 0) = (tick_occured d =? 0) && bool_decide (taken = []).
Proof.
  induction taken as [|i taken IH]; intros s d I DM HM HF.
  - exists d, s. do 8 (split; [done|]). by rewrite andb_true_r.
  - apply Forall_cons in HF as [[Ha Ei] HF]. cbn [take_irqs]. unfold disable_irq. rewrite bind_put. set (s1 := with_cpu _ s).
    destruct (timer_irq_run s1 (ti_ack i) (ti_clo i) (ti_cntfrq i) (ti_cntpct i) d (masked_inv _ _ I)) as (m & s2 & _ & _ & R & I2 & K & T & Co); [|done..|].
    { by apply (devices_mapped_valid s). }
    rewrite (bind_ok _ _ _ _ _ R). unfold enable_irq. rewrite bind_put. set (s3 := with_cpu _ s2). set (d1 := if _ : bool then _ else _).
    destruct (IH s3 d1) as (d' & s' & R' & I' & K' & T' & Co' & M' & C1 & C2 & O); [by apply masked_inv| |done|done|].
    { apply (devices_mapped_valid s); [exact (proj2 K)|done]. }
    exists d', s'. split; [done|]. split; [done|]. split; [by apply (routes_kept_trans _ (k_mem s2))|]. split; [by rewrite T'|]. split; [by rewrite Co'|]. split; [done|].
    split; [rewrite C1; by destruct (tick_occured d =? 0) eqn:?|]. split; [rewrite C2; by destruct (tick_occured d =? 0) eqn:?|].
    rewrite O. rewrite (bool_decide_false (i :: taken = [])) by done. rewrite andb_false_r.
    assert (E1 : (tick_occured d1 =? 0) = false) by (unfold d1; by destruct (tick_occured d =? 0) eqn:E). by rewrite E1.
Qed.

(** Interrupt [id] goes to processor 0, and every other one as before. *)
Definition routed (m m' : mem) (ids : list Z) : Prop :=
  (forall j, 0 <= j < GIC_MAX_ISRS -> isr_enabled m' j = bool_decide (j ∈ ids) || isr_enabled m j)
  /\ forall j c, 0 <= j < GIC_MAX_ISRS -> 0 <= c < 8 ->
       irq_target m' j c = bool_decide (j ∈ ids) && (c =? 0) || irq_target m j c.

Lemma routed_kept m1 m2 : routes_kept m1 m2 -> routed m1 m2 [].
Proof. intros K. destruct (routes_kept_bits _ _ K) as [E T]. by split. Qed.

Lemma routed_trans m1 m2 m3 l1 l2 : routed m1 m2 l1 -> routed m2 m3 l2 -> routed m1 m3 (l2 ++ l1).
Proof.
  intros [E1 T1] [E2 T2].
  assert (B : forall j, bool_decide (j ∈ l2 ++ l1) = bool_decide (j ∈ l2) || bool_decide (j ∈ l1)).
  { intros j. rewrite <- bool_decide_or. apply bool_decide_ext, elem_of_app. }
  split; [intros j Hj|intros j c Hj Hc]; rewrite B.
  - by rewrite E2, E1, orb_assoc.
  - by rewrite T2, T1, orb_assoc, andb_orb_distrib_l.
Qed.

Lemma route_to_0 s id : devices_mapped s -> 0 <= id < GIC_MAX_ISRS ->
  exists m, assignTargets id 0 s = Ok tt (with_mem m s)
  /\ exists m', enableISR id (with_mem m s) = Ok tt (with_mem m' s) /\ routed (k_mem s) m' [id] /\ m_valid m' = m_valid (k_mem s).
Proof.
  intros DM Hid. destruct (route_run s id 0 DM Hid ltac:(lia)) as (m' & R & E & T & _ & V).
  unfold mbind, M_bind in R. destruct (assignTargets id 0 s) as [[] s1|] eqn:A; [|done].
  assert (F : exists m, s1 = with_mem m s).
  { revert A. unfold assignTargets, reg_or, mbind, M_bind, load32, loadn. destruct (ldn _ _ _); [|done].
    unfold store32, storen. destruct (stn _ _ _ _) as [m|]; [|done]. intros [= <-]. by exists m. }
  destruct F as [m ->]. exists m. split; [done|]. exists m'. split; [done|]. split; [|done].
  assert (B : forall j, bool_decide (j ∈ [id]) = (j =? id)).
  { intros j. destruct (Z.eqb_spec j id); [apply bool_decide_true|apply bool_decide_false]; rewrite list_elem_of_singleton; done. }
  split; [intros j Hj|intros j c Hj Hc]; rewrite B; auto.
Qed.

Definition qemu_line : list Z := str "No system timer tick occured, running QEMU logic" ++ [10].
Lemma qemu_logic_run s : devices_mapped s ->
  exists m, qemu_logic s = Ok tt (with_console (k_console s ++ qemu_line) (with_mem m s)) /\ routed (k_mem s) m [ARM_GENERIC_TIMER]
    /\ m_valid m = m_valid (k_mem s).
Proof.
  intros DM. unfold qemu_logic. set (out := k_console s ++ qemu_line).
  rewrite (bind_ok _ _ _ tt (with_console out s)) by reflexivity. set (s0 := with_console out s).
  assert (DM0 : devices_mapped s0) by (by apply (devices_mapped_valid s)).
  destruct (reg_or_control s0 IRQ_GICD_BASE 3 DM0) as (m1 & R1 & K1); [by left|lia|]. rewrite (bind_ok _ _ _ _ _ R1).
  assert (DM1 : devices_mapped (with_mem m1 s0)) by (by apply (devices_mapped_valid s); [exact (proj2 K1)|]).
  destruct (reg_or_control _ IRQ_GICC_BASE 3 DM1) as (m2 & R2 & K2); [by right; left|lia|]. rewrite (bind_ok _ _ _ _ _ R2).
  pose proof (routes_kept_trans _ _ _ K1 K2 : routes_kept (k_mem s) m2) as K12.
  assert (DM2 : devices_mapped (with_mem m2 s0)) by (by apply (devices_mapped_valid s); [exact (proj2 K12)|]).
  destruct (reg_or_control (with_mem m2 s0) IRQ_GICC_PMR 0xFF DM2) as (m3 & R3 & K3); [by right; right|lia|]. rewrite (bind_ok _ _ _ _ _ R3).
  pose proof (routes_kept_trans _ _ _ K12 K3 : routes_kept (k_mem s) m3) as K13.
  assert (DM3 : devices_mapped (with_mem m3 s0)) by (by apply (devices_mapped_valid s); [exact (proj2 K13)|]).
  destruct (route_to_0 (with_mem m3 s0) ARM_GENERIC_TIMER DM3) as (m4 & R4 & m5 & R5 & Ro & V); [by vm_compute|].
  exists m5. split; [exact (eq_trans (bind_ok _ _ _ _ _ R4) R5)|]. split; [|by rewrite V; exact (proj2 K13)].
  exact (routed_trans _ _ _ _ _ (routed_kept _ _ K13) Ro).
Qed.

(** [start_interrupts] up to the interrupt controller. *)
Definition start_lines : list Z := str "Booting..." ++ [10] ++ str "Enabling IRQs..." ++ [10].
Lemma timers_started s taken clo cntfrq cntpct d : sched_inv s -> devices_mapped s ->
  exists s1, start_interrupts taken clo cntfrq cntpct d s = enable_interrupt_controller taken (set_timer cntfrq cntpct d) s1
    /\ sched_inv s1 /\ devices_mapped s1 /\ routes_kept (k_mem s) (k_mem s1) /\ irq_masked (k_cpu s1) = false
    /\ k_sched s1 = k_sched s /\ k_console s1 = k_console s ++ start_lines.
Proof.
  intros I DM. unfold start_interrupts. set (o1 := k_console s ++ str "Booting..." ++ [10]).
  rewrite (bind_ok _ _ _ tt (with_console o1 s)) by reflexivity.
  destruct (stn_ok 4 (k_mem s) timer_c1 (u32 (clo + TICK_INTERVAL))) as [m0 E0].
  { destruct DM as [_ _ VT]. intros a Ha. apply VT. unfold timer_c1 in Ha. lia. }
  assert (K0 : routes_kept (k_mem s) m0).
  { assert (Da : timer_c1 + 0x183e0f0 = IRQ_GICD_BASE + 0x100) by done.
    split; [eapply same_on_stn; [exact E0|cbn; lia]|by eapply stn_valid_eq]. }
  assert (R0 : system_timer_init clo (with_console o1 s) = Ok tt (with_mem m0 (with_console o1 s))).
  { unfold system_timer_init, store32, storen. cbn [k_mem with_console]. by rewrite E0. }
  rewrite (bind_ok _ _ _ _ _ R0). set (o2 := o1 ++ str "Enabling IRQs..." ++ [10]).
  rewrite (bind_ok _ _ _ tt (with_console o2 (with_mem m0 (with_console o1 s)))) by reflexivity.
  unfold enable_irq. rewrite bind_put. eexists. split; [done|].
  split; [by apply masked_inv, sched_inv_console, sched_inv_mem, sched_inv_console|].
  split; [apply (devices_mapped_valid s); [exact (proj2 K0)|done]|].
  do 3 (split; [done|]). unfold start_lines. cbn [k_console with_cpu with_console with_mem]. unfold o2, o1. by rewrite <- !app_assoc.
Qed.

Lemma interrupts_started_run s taken clo cntfrq cntpct d :
  sched_inv s -> devices_mapped s -> Forall timer_irq taken ->
  (forall p, p ∈ task_array (k_sched s) -> p <> 0 -> p = current (k_sched s)) ->
  exists d' s', start_interrupts taken clo cntfrq cntpct d s = Ok d' s'
    /\ routed (k_mem s) (k_mem s') (if bool_decide (taken = []) then [ARM_GENERIC_TIMER; SYSTEM_TIMER_IRQ_1] else [SYSTEM_TIMER_IRQ_1])
    /\ irq_masked (k_cpu s') = false /\ cntp_cval d' = u64 (cntpct + cntfrq / 10) /\ Z.testbit (cntp_ctl d') 0 = true
    /\ sched_inv s' /\ current (k_sched s') = current (k_sched s)
    /\ task_array (k_sched s') = task_array (k_sched s) /\ k_console s' = k_console s ++ start_lines ++ (if bool_decide (taken = []) then qemu_line else []).
Proof.
  intros I DM HF HO. destruct (timers_started s taken clo cntfrq cntpct d I DM) as (s1 & -> & I1 & DM1 & K1 & M1 & E1 & O1).
  unfold enable_interrupt_controller.
  destruct (route_to_0 s1 SYSTEM_TIMER_IRQ_1 DM1) as (m1 & R1 & m2 & R2 & Ro & V); [by vm_compute|].
  rewrite (bind_ok _ _ _ _ _ R1), (bind_ok _ _ _ _ _ R2). set (s2 := with_mem m2 s1).
  assert (DM2 : devices_mapped s2) by (by apply (devices_mapped_valid s1)).
  destruct (take_irqs_run taken s2 (Device 0 (cntp_cval (set_timer cntfrq cntpct d)) (cntp_ctl (set_timer cntfrq cntpct d))))
    as (d' & s3 & R3 & I3 & K3 & T3 & Co3 & M3 & C1 & C2 & O); [by apply sched_inv_mem|done..|].
  rewrite (bind_ok _ _ _ _ _ R3), O. cbn [tick_occured Z.eqb andb].
  pose proof (routed_trans _ _ _ _ _ (routed_trans _ _ _ _ _ (routed_kept _ _ K1) Ro) (routed_kept _ _ K3)
    : routed (k_mem s) (k_mem s3) [SYSTEM_TIMER_IRQ_1]) as Ro3.
  assert (Cu : current (k_sched s3) = current (k_sched s)).
  { destruct (sw_cur _ (si_wf _ I3)) as [Hin H0]. rewrite T3 in Hin. apply HO; [rewrite <- E1; exact Hin|lia]. }
  assert (Ec : k_console s3 = k_console s ++ start_lines) by (rewrite Co3; exact O1).
  assert (Ea : task_array (k_sched s3) = task_array (k_sched s)) by (rewrite T3; cbn; by rewrite E1).
  assert (Bit : Z.testbit (cntp_ctl d') 0 = true).
  { rewrite C2. unfold set_timer. cbn [cntp_ctl]. by rewrite Z.lor_spec, orb_true_r. }
  destruct (bool_decide (taken = [])); cbn [when].
  - destruct (qemu_logic_run s3) as (m3 & R4 & Ro4 & V4).
    { apply (devices_mapped_valid s2); [exact (proj2 K3)|done]. }
    exists d', (with_console (k_console s3 ++ qemu_line) (with_mem m3 s3)). rewrite (bind_ok _ _ _ _ _ R4).
    split; [done|]. split; [exact (routed_trans _ _ _ _ _ Ro3 Ro4)|]. split; [done|]. split; [by rewrite C1|]. split; [done|].
    split; [by apply sched_inv_console, sched_inv_mem|]. split; [done|]. split; [done|].
    cbn [k_console with_console]. by rewrite Ec, <- app_assoc.
  - exists d', s3. split; [done|]. split; [done|]. split; [done|]. split; [by rewrite C1|].
    split; [done|]. split; [done|]. split; [done|]. split; [done|]. by rewrite Ec, app_nil_r.
Qed.

(** The start of the interrupts, whatever timer interrupts arrive while it
    waits for one: the system timer's interrupt is enabled and routed to
    processor 0, the generic timer's exactly when no interrupt arrived, and no
    other interrupt changes; interrupts are left unmasked, the generic timer
    running with its deadline a tenth of a second ahead, and the only task is
    still the running one in a scheduler that keeps its invariant. *)
Theorem interrupts_started s taken clo cntfrq cntpct d :
  sched_inv s -> devices_mapped s -> Forall timer_irq taken ->
  (forall p, p ∈ task_array (k_sched s) -> p <> 0 -> p = current (k_sched s)) ->
  exists d' s', start_interrupts taken clo cntfrq cntpct d s = Ok d' s'
    /\ routed (k_mem s) (k_mem s') (if bool_decide (taken = []) then [ARM_GENERIC_TIMER; SYSTEM_TIMER_IRQ_1] else [SYSTEM_TIMER_IRQ_1])
    /\ irq_masked (k_cpu s') = false /\ cntp_cval d' = u64 (cntpct + cntfrq / 10) /\ Z.testbit (cntp_ctl d') 0 = true
    /\ sched_inv s' /\ current (k_sched s') = current (k_sched s).
Proof.
  intros I DM HF HO. destruct (interrupts_started_run s taken clo cntfrq cntpct d I DM HF HO) as (d' & s' & R & Ro & M' & C1 & C2 & I' & Cu & _).
  exists d', s'. by repeat (split; [done|]).
Qed.

(** ** Concrete instances *)

Definition device_sample : kstate :=
  with_mem (Mem (fun a => (SYSTEM_TIMER_PERIPHERAL_BASE <=? a) && (a <? IRQ_GICC_BASE + 0x1000)) ∅) sample_sched.

Lemma device_sample_mapped : devices_mapped device_sample.
Proof.
  assert (D : IRQ_GICC_BASE = SYSTEM_TIMER_PERIPHERAL_BASE + 0x183f000 /\ IRQ_GICD_BASE = SYSTEM_TIMER_PERIPHERAL_BASE + 0x183e000) by done.
  split; intros a Ha; cbn [k_mem device_sample with_mem m_valid]; lia.
Qed.

Lemma gic_routes_interrupt_witness :
  exists m, (_ ← assignTargets 97 0; enableISR 97) device_sample = Ok tt (with_mem m device_sample)
    /\ (forall j, 0 <= j < 256 -> isr_enabled m j = (j =? 97) || isr_enabled (k_mem device_sample) j)
    /\ (forall j c, 0 <= j < 256 -> 0 <= c < 8 ->
          irq_target m j c = (j =? 97) && (c =? 0) || irq_target (k_mem device_sample) j c).
Proof. apply (gic_routes_interrupt device_sample 97 0 device_sample_mapped); unfold GIC_MAX_ISRS; lia. Defined.

Lemma gic_dumps_only_print_witness :
  (exists out, gic_debug_print 1023 0 1023 device_sample = Ok tt (with_console (k_console device_sample ++ out) device_sample))
  /\ exists out, gic_debug_print_for_irq 97 1023 0 1023 device_sample = Ok tt (with_console (k_console device_sample ++ out) device_sample).
Proof. apply (gic_dumps_only_print device_sample 97 1023 0 1023 device_sample_mapped). unfold GIC_MAX_ISRS. lia. Defined.

(** Interrupt 353 is taken for the system timer, 97. *)
Lemma timer_interrupt_ticks_witness :
  exists m d' s', rearmed (k_mem device_sample) m 353 1000 /\ scheduler_tick (with_mem m device_sample) = Ok tt s'
    /\ handle_irq 353 1000 0 0 (Device 0 0 0) device_sample = Ok d' s' /\ tick_occured d' <> 0 /\ sched_inv s'.
Proof.
  apply timer_interrupt_ticks; [|apply device_sample_mapped|lia|reflexivity].
  destruct sample_sched_inv as [[L C P J T] B G]. by split; [split|..].
Defined.

(** The state [main] starts in, on a board without the system timer: no
    interrupt arrives and both interrupts are routed. *)
Definition device_area (a : Z) : bool := (SYSTEM_TIMER_PERIPHERAL_BASE <=? a) && (a <? IRQ_GICC_BASE + 0x1000).
Definition board : kstate := boot_state device_area ∅ 4096.

Lemma interrupts_started_witness :
  exists d' s', start_interrupts [] 0 62500000 7 (Device 0 0 0) board = Ok d' s'
    /\ routed (k_mem board) (k_mem s') [ARM_GENERIC_TIMER; SYSTEM_TIMER_IRQ_1]
    /\ irq_masked (k_cpu s') = false /\ cntp_cval d' = 6250007 /\ Z.testbit (cntp_ctl d') 0 = true
    /\ sched_inv s' /\ current (k_sched s') = 4096.
Proof.
  apply (interrupts_started board [] 0 62500000 7 (Device 0 0 0)).
  - by apply boot_sched_inv.
  - destruct device_sample_mapped as [V1 V2 V3]. split; [exact V1|exact V2|exact V3].
  - constructor.
  - intros p Hp Hp0. by apply boot_tasks in Hp as [->| ->].
Defined.
