(* ===== verification/Frame.v ===== *)
(** * What calls leave alone

    A relation between the states before and after a call, kept by every
    sequence, loop and branch of calls that keep it ([keeps]).  The kernel's frame
    is one: its image, its heap, its pages and its file system are those before,
    and so is the table of tasks with their priorities; interrupts, ticks,
    switches and their start keep it. *)

From S2P Require Export Irq.

Section keeps.
Context {S : Type} {R : S -> S -> Prop} `{!PreOrder R}.

(** [m] goes from a state to a related one whenever it returns. *)
Definition keeps {A} (m : M S A) : Prop := forall s a s', m s = Ok a s' -> R s s'.

Lemma keeps_ret {A} (a : A) : keeps (mret a).
Proof. by intros s ? ? [= _ <-]. Qed.
Lemma keeps_fail {A} e : keeps (fail e : M S A).
Proof. by intros s ? ?. Qed.
Lemma keeps_get {A} (f : S -> A) : keeps (get f).
Proof. by intros s ? ? [= _ <-]. Qed.
Lemma keeps_put f : (forall s, R s (f s)) -> keeps (put f).
Proof. intros H s ? ? [= _ <-]. apply H. Qed.
Lemma keeps_bind {A B} (m : M S A) (k : A -> M S B) : keeps m -> (forall a, keeps (k a)) -> keeps (m ≫= k).
Proof. intros Hm Hk s b s' E. apply bind_inv in E as (a & s1 & E1 & E2). etrans; [by eapply Hm|by eapply Hk]. Qed.
Lemma keeps_of_option {A} e (o : option A) : keeps (of_option e o).
Proof. destruct o; [apply keeps_ret|apply keeps_fail]. Qed.
Lemma keeps_read {A} (m : M S A) : (forall s a s', m s = Ok a s' -> s' = s) -> keeps m.
Proof. intros H s a s' E. by rewrite (H _ _ _ E). Qed.
Lemma keeps_for_range {A} n : forall i (body : Z -> A -> M S A) b, (forall j x, keeps (body j x)) -> keeps (for_range n i body b).
Proof.
  induction n as [|n IH]; intros i body b H; cbn [for_range]; [apply keeps_ret|]. apply keeps_bind; [apply H|]. intros x. by apply IH.
Qed.
Lemma keeps_turns {A X} (body : A -> M S (A + X)) n : forall a, (forall x, keeps (body x)) -> keeps (turns body n a).
Proof.
  induction n as [|n IH]; intros a H; cbn [turns]; [apply keeps_ret|]. apply keeps_bind; [apply H|]. intros [x|x]; [by apply IH|apply keeps_ret].
Qed.
Lemma keeps_loop {A X} (body : A -> M S (A + X)) a : (forall x, keeps (body x)) -> keeps (loop body a).
Proof.
  intros H s x s'. rewrite loop_turns. generalize (Pos.to_nat loop_fuel). intros n E.
  destruct (turns body n a s) as [[a1|x1] s1|] eqn:Et; [done| |done]. injection E as -> ->. by eapply (keeps_turns body n a H).
Qed.
End keeps.
Arguments keeps {S} R {A} m.

Create HintDb keeps.

(** The case rule of [keeps] for a program's next construct; [keeps_by t] follows
    the structure of a program and proves its accesses by [t]. *)
Ltac keeps_by t :=
  repeat match goal with
  | |- forall _, _ => intros ?
  | |- keeps _ (_ ≫= _) => apply keeps_bind
  | |- keeps _ (loop _ _) => apply keeps_loop
  | |- keeps _ (for_range _ _ _ _) => apply keeps_for_range
  | |- keeps _ (let '(_, _) := ?x in _) => destruct x
  | |- keeps _ (match ?x with _ => _ end) => destruct x
  | |- keeps _ (when ?b _) => destruct b; cbn [when]
  | |- keeps _ (mret _) => apply keeps_ret
  | |- keeps _ (get _) => apply keeps_get
  | |- keeps _ (of_option _ _) => apply keeps_of_option
  | |- _ => first [solve [t] | solve [auto with keeps]]
  end.

(** ** The kernel's frame *)

(** No timer is in use. *)
Definition idle_timers (s : kstate) : Prop := Forall (fun x => x = OneHit 0 0) (timer_arr (k_timers s)).
(** What scheduling leaves alone in a task. *)
Definition kind (t : task_struct) : Z * file_desc_table_t * Z := (priority t, fd_table t, stack t).

Record frame (s s' : kstate) : Prop := {
  fm_low : same_on (fun a => a < PERIPHERAL_BASE_ADDR) (k_mem s) (k_mem s');
  fm_valid : m_valid (k_mem s') = m_valid (k_mem s);
  fm_heap : k_heap s' = k_heap s;
  fm_pages : k_pages s' = k_pages s;
  fm_rdfs : k_rdfs s' = k_rdfs s;
  fm_array : task_array (k_sched s') = task_array (k_sched s);
  fm_n_tasks : n_tasks (k_sched s') = n_tasks (k_sched s);
  fm_timers : no_timers s -> no_timers s';
  fm_idle : idle_timers s -> idle_timers s';
  fm_tick : 0 <= current_tick (k_timers s) < 2 ^ 64 -> 0 <= current_tick (k_timers s') < 2 ^ 64;
  fm_kind : forall p, kind <$> k_tasks s' !! p = kind <$> k_tasks s !! p;
  fm_state : forall p t, k_tasks s !! p = Some t -> state t = TASK_STATE_RUNNING ->
    exists t', k_tasks s' !! p = Some t' /\ state t' = TASK_STATE_RUNNING }.

#[export] Instance frame_preorder : PreOrder frame.
Proof.
  split; [split; try done; by eauto|]. intros x y z [? ? ? ? ? ? ? T I N P St] [? ? ? ? ? ? ? T' I' N' Q St']. split; [by etrans|congruence..|auto|auto|auto|intros p; by rewrite Q|].
  intros p t E R. destruct (St p t E R) as (t1 & E1 & R1). by eapply St'.
Qed.

Lemma fm_priority s s' p : frame s s' -> priority <$> k_tasks s' !! p = priority <$> k_tasks s !! p.
Proof. intros F. pose proof (fm_kind _ _ F p) as E. destruct (k_tasks s' !! p), (k_tasks s !! p); cbn in *; unfold kind in E; congruence. Qed.

(** Other parts of the state. *)
Lemma frame_same s s' : k_mem s' = k_mem s -> k_heap s' = k_heap s -> k_pages s' = k_pages s -> k_rdfs s' = k_rdfs s ->
  task_array (k_sched s') = task_array (k_sched s) -> n_tasks (k_sched s') = n_tasks (k_sched s) -> k_tasks s' = k_tasks s ->
  timer_arr (k_timers s') = timer_arr (k_timers s) ->
  (0 <= current_tick (k_timers s) < 2 ^ 64 -> 0 <= current_tick (k_timers s') < 2 ^ 64) -> frame s s'.
Proof.
  intros Em Eh Ep Er Ea En Ek Et Hn. split; unfold no_timers, idle_timers; rewrite ?Em, ?Ek, ?Et; try done. intros p t E R. by exists t.
Qed.

(** Tasks changed at one place, to one of the same kind that still runs if it did. *)
Lemma frame_task s p t t' : k_tasks s !! p = Some t -> kind t' = kind t -> (state t = TASK_STATE_RUNNING -> state t' = TASK_STATE_RUNNING) ->
  frame s (with_tasks (<[p := t']> (k_tasks s)) s).
Proof.
  intros E K R. split; try done; cbn [k_tasks with_tasks].
  - intros q. destruct (Z.eq_dec q p) as [->|N]; [rewrite lookup_insert_eq, E; cbn; by rewrite K|by rewrite lookup_insert_ne].
  - intros q x Eq Rq. destruct (Z.eq_dec q p) as [->|N]; [rewrite lookup_insert_eq; exists t'; split; [done|]; apply R; congruence|rewrite lookup_insert_ne by done; eauto].
Qed.

Lemma keeps_get_task p : keeps frame (get_task p).
Proof. apply keeps_read. unfold get_task. intros s a s' E. destruct (k_tasks s !! p); by simplify_eq. Qed.
Lemma keeps_modify_task p f : (forall t, kind (f t) = kind t) -> (forall t, state t = TASK_STATE_RUNNING -> state (f t) = TASK_STATE_RUNNING) ->
  keeps frame (modify_task p f).
Proof.
  intros H R s [] s'. unfold modify_task, get_task, put_task, mbind, M_bind. destruct (k_tasks s !! p) as [t|] eqn:E; [|done]. rewrite E.
  intros [= <-]. apply (frame_task s p t); auto.
Qed.
Lemma keeps_array_get i : keeps frame (array_get i).
Proof. apply keeps_read. unfold array_get. intros s a s' E. repeat case_match; by simplify_eq. Qed.
Lemma keeps_timer_get i : keeps frame (timer_get i).
Proof. apply keeps_read. unfold timer_get. intros s a s' E. repeat case_match; by simplify_eq. Qed.
Lemma keeps_check_timer i : keeps frame (check_timer i).
Proof.
  intros s a s' E. unfold check_timer in E. apply bind_inv in E as (t & s1 & E1 & E). pose proof (keeps_timer_get i s t s1 E1) as _.
  unfold timer_get in E1. destruct (timer_arr (k_timers s) !! Z.to_nat i) as [x|] eqn:Ex; [|done]. destruct (0 <=? i) eqn:Hi; [|done]. injection E1 as -> ->.
  destruct (Z.eqb_spec (task_ptr t) 0) as [|N]; cbn [negb] in E; [by injection E as _ <-|]. rewrite bind_get in E. destruct (finish_time t <=? _); [|injection E as E; by subst].
  apply bind_inv in E as ([] & s2 & E2 & E). pose proof (keeps_modify_task (task_ptr t) (set_state TASK_STATE_RUNNING) (fun _ => eq_refl) (fun _ _ => eq_refl) _ _ _ E2) as F.
  assert (Et : k_timers s2 = k_timers s1).
  { revert E2. unfold modify_task, get_task, put_task, mbind, M_bind. destruct (k_tasks s1 !! _) as [x|] eqn:Ek; [|done]. rewrite Ek. by intros [= <-]. }
  etrans; [exact F|]. unfold timer_set, mbind, M_bind in E. destruct (_ && _); [|done]. cbn [k_timers with_timers timer_arr current_tick] in E.
  destruct (_ && _); [|done]. injection E as _ <-. split; try done; cbn [k_timers k_tasks with_timers timer_arr current_tick]; try (by eauto).
  - intros T. apply Forall_insert; [apply Forall_insert|]; done.
  - intros I. rewrite <- Et in Ex. unfold idle_timers in I. rewrite Forall_lookup in I. exfalso. apply N. by rewrite (I _ _ Ex).
Qed.
Lemma keeps_load n a : keeps frame (loadn n a).
Proof. apply keeps_read. unfold loadn. intros s x s' E. destruct (ldn _ _ _); by simplify_eq. Qed.
Lemma keeps_store n a v : PERIPHERAL_BASE_ADDR <= a -> keeps frame (storen n a v).
Proof.
  intros Ha s [] s'. unfold storen. destruct (stn n (k_mem s) a v) as [m|] eqn:E; [|done]. intros [= <-].
  split; try done; [|by eapply stn_valid_eq|by eauto]. eapply same_on_stn; [exact E|]. cbv beta. lia.
Qed.
Lemma keeps_printf fmt va : keeps frame (printf fmt va).
Proof. intros s a s' E. unfold printf in E. destruct (tfp_format _ _); [done|]. injection E as _ <-. by apply frame_same. Qed.

#[export] Hint Resolve keeps_get_task keeps_array_get keeps_timer_get keeps_check_timer keeps_load keeps_printf : keeps.

Ltac keeps_kernel := keeps_by ltac:(first [apply keeps_modify_task; (done || by intros ? ->) | apply keeps_put; intros ?; apply frame_same; (done || (intros _; apply u64_range))]).

Lemma keeps_schedule : keeps frame _schedule.
Proof.
  unfold _schedule, preempt_disable, preempt_enable, get_current_task, check_timers, schedule_body, get_pid, get_pid_from_ptr, get_pid_from_ptr_body,
    pick_body, recharge_body, switch_to, cpu_switch_to, set_current, set_page_directory, get_current_task. keeps_kernel.
Qed.
Lemma keeps_tick : keeps frame scheduler_tick.
Proof. unfold scheduler_tick, get_current_task, increment_tick, enable_irq, disable_irq. pose proof keeps_schedule. keeps_kernel. Qed.
Lemma keeps_reg_or a v : PERIPHERAL_BASE_ADDR <= a -> keeps frame (reg_or a v).
Proof. intros Ha. unfold reg_or. apply keeps_bind; [apply keeps_load|]. intros x. by apply keeps_store. Qed.

(** The registers of the interrupt controller and of the timer are above. *)
Lemma gic_word base k n : PERIPHERAL_BASE_ADDR <= base -> base + 4 * n < 2 ^ 64 -> 0 <= k < n -> PERIPHERAL_BASE_ADDR <= ptr_add base (4 * k).
Proof. intros H0 H1 Hk. unfold ptr_add. change PERIPHERAL_BASE_ADDR with 0xffff00003e000000 in *. uw. lia. Qed.

Lemma keeps_enableISR isr : 0 <= isr < 256 -> keeps frame (enableISR isr).
Proof.
  intros H. assert (0 <= isr / 32 < 8) by (Z.to_euclidean_division_equations; lia). unfold enableISR. apply keeps_reg_or. by apply (gic_word _ _ 8).
Qed.
Lemma keeps_assignTargets isr t : 0 <= isr < 256 -> keeps frame (assignTargets isr t).
Proof.
  intros H. assert (0 <= isr / 4 < 64) by (Z.to_euclidean_division_equations; lia). unfold assignTargets. apply keeps_reg_or. by apply (gic_word _ _ 64).
Qed.
Lemma keeps_store32 a v : PERIPHERAL_BASE_ADDR <= a -> keeps frame (store32 a v).
Proof. apply keeps_store. Qed.

Lemma keeps_timer_c0 clo d : keeps frame (handle_timer_c0_ISR clo d).
Proof.
  unfold handle_timer_c0_ISR. apply keeps_bind; [by apply keeps_store32|intros _]. apply keeps_bind; [by apply keeps_reg_or|intros _].
  apply keeps_bind; [apply keeps_tick|intros _]. apply keeps_ret.
Qed.
Lemma keeps_generic_timer cntfrq cntpct d : keeps frame (handle_generic_timer_irq cntfrq cntpct d).
Proof. unfold handle_generic_timer_irq. apply keeps_bind; [apply keeps_tick|intros _]. apply keeps_ret. Qed.
Lemma keeps_handle_irq ack clo cntfrq cntpct d : keeps frame (handle_irq ack clo cntfrq cntpct d).
Proof.
  unfold handle_irq. cbv zeta. destruct (_ =? SYSTEM_TIMER_IRQ_1); [apply keeps_bind; [by apply keeps_store32|intros _]; apply keeps_timer_c0|].
  destruct (_ =? ARM_GENERIC_TIMER); [apply keeps_bind; [by apply keeps_store32|intros _]; apply keeps_generic_timer|].
  apply keeps_bind; [apply keeps_printf|intros _]. apply keeps_ret.
Qed.

Lemma keeps_take_irqs taken : forall d, keeps frame (take_irqs taken d).
Proof.
  induction taken as [|i taken IH]; intros d; cbn [take_irqs]; [apply keeps_ret|]. unfold enable_irq, disable_irq.
  apply keeps_bind; [apply keeps_put; intros ?; by apply frame_same|intros _]. apply keeps_bind; [apply keeps_handle_irq|intros d'].
  apply keeps_bind; [apply keeps_put; intros ?; by apply frame_same|intros _]. apply IH.
Qed.

Lemma keeps_controller taken d : keeps frame (enable_interrupt_controller taken d).
Proof.
  unfold enable_interrupt_controller, SYSTEM_TIMER_IRQ_1. cbv zeta. apply keeps_bind; [by apply keeps_assignTargets|intros _].
  apply keeps_bind; [by apply keeps_enableISR|intros _]. apply keeps_bind; [apply keeps_take_irqs|intros d'].
  apply keeps_bind; [|intros _; apply keeps_ret]. destruct (_ =? 0); cbn [when]; [|apply keeps_ret]. unfold qemu_logic, ARM_GENERIC_TIMER.
  apply keeps_bind; [apply keeps_printf|intros _]. do 3 (apply keeps_bind; [by apply keeps_reg_or|intros _]).
  apply keeps_bind; [by apply keeps_assignTargets|intros _]. by apply keeps_enableISR.
Qed.

Lemma keeps_start_interrupts taken clo cntfrq cntpct d : keeps frame (start_interrupts taken clo cntfrq cntpct d).
Proof.
  unfold start_interrupts, system_timer_init. cbv zeta. apply keeps_bind; [apply keeps_printf|intros _].
  apply keeps_bind; [by apply keeps_store32|intros _]. apply keeps_bind; [apply keeps_printf|intros _].
  unfold enable_irq. apply keeps_bind; [apply keeps_put; intros ?; by apply frame_same|intros _]. apply keeps_controller.
Qed.
