(* ===== verification/Board.v ===== *)
(** * A board: devices side by side

    The drivers that [main] starts run on one bus.  [Board] is what they rely on
    together: the serial port and its pins do not disturb the mailbox, nor the
    mailbox the serial port.  [bus] puts two devices side by side, by address; a
    device keeps its interface there, so that a board is assembled from the
    sample devices of the drivers. *)

From S2P Require Export Frame Uart Framebuffer.

(** ** Two devices on a bus *)

Section bus.
Context (sel : Z -> bool) (H1 H2 : Hardware).

(** [sel]: the addresses of the first. *)
Definition bus : Hardware := {|
  hw := @hw H1 * @hw H2;
  hw_read h a :=
    if sel a then let '(v, x) := @hw_read H1 h.1 a in (v, (x, h.2))
    else let '(v, x) := @hw_read H2 h.2 a in (v, (h.1, x));
  hw_write h a v :=
    if sel a then (@hw_write H1 h.1 a v, h.2) else (h.1, @hw_write H2 h.2 a v) |}.

#[refine] Definition bus_gpio (G : @GpioBank H1) (Hsel : forall a, gpio_rw a = true -> sel a = true) : @GpioBank bus :=
  {| gpio_val (h : @hw bus) a := @gpio_val _ G h.1 a |}.
Proof.
  - intros h a. apply gpio_val_range.
  - intros [x y] a b Hb. cbn. destruct (sel a); cbn; [|by destruct (hw_read y a)].
    pose proof (gpio_read x a b Hb) as E. by destruct (hw_read x a).
  - intros [x y] a Ha. cbn. rewrite (Hsel a Ha). pose proof (gpio_read_val x a Ha) as E. by destruct (hw_read x a).
  - intros [x y] a v b Hb Hv. cbn. destruct (sel a) eqn:E; cbn; [by apply gpio_write|].
    destruct (Z.eqb_spec b a) as [->|]; [|done]. by rewrite Hsel in E.
Defined.

#[refine] Definition bus_uart_first (U : @MiniUart H1) (Hsel : sel AUX_MU_LSR_REG_ADDR = true /\ sel AUX_MU_IO_REG_ADDR = true) : @MiniUart bus :=
  {| wire (h : @hw bus) := @wire _ U h.1; backlog (h : @hw bus) := @backlog _ U h.1 |}.
Proof.
  - intros h. apply backlog_bound.
  - intros [x y]. cbn. rewrite (proj1 Hsel). pose proof (uart_lsr x) as E. by destruct (hw_read x AUX_MU_LSR_REG_ADDR).
  - intros [x y] v. cbn. rewrite (proj2 Hsel). apply uart_io.
Defined.

#[refine] Definition bus_uart_second (U : @MiniUart H2) (Hsel : sel AUX_MU_LSR_REG_ADDR = false /\ sel AUX_MU_IO_REG_ADDR = false) : @MiniUart bus :=
  {| wire (h : @hw bus) := @wire _ U h.2; backlog (h : @hw bus) := @backlog _ U h.2 |}.
Proof.
  - intros h. apply backlog_bound.
  - intros [x y]. cbn. rewrite (proj1 Hsel). pose proof (uart_lsr y) as E. by destruct (hw_read y AUX_MU_LSR_REG_ADDR).
  - intros [x y] v. cbn. rewrite (proj2 Hsel). apply uart_io.
Defined.

(** The addresses of the mailbox and of its buffer. *)
Definition graphics_port (mbox a : Z) : bool := (VIDEOCORE_MBOX <=? a) && (a <? VIDEOCORE_MBOX + 0x40) || (mbox <=? a) && (a <? mbox + 4 * 36).

Lemma graphics_ports mbox : graphics_port mbox MBOX_STATUS = true /\ graphics_port mbox MBOX_READ = true /\ graphics_port mbox MBOX_WRITE = true
  /\ forall i, 0 <= i < 36 -> graphics_port mbox (mbox + 4 * i) = true.
Proof.
  do 3 (split; [done|]). intros i Hi. unfold graphics_port. rewrite (proj2 (Z.leb_le mbox _)), (proj2 (Z.ltb_lt _ (mbox + 4 * 36))) by lia. apply orb_true_r.
Qed.

#[refine] Definition bus_videocore (mbox : Z) (W : @VideoCore H2 mbox) (Hsel : forall a, graphics_port mbox a = true -> sel a = false) : @VideoCore bus mbox :=
  {| full (h : @hw bus) := @full _ _ W h.2; Mailbox.empty (h : @hw bus) := @Mailbox.empty _ _ W h.2;
     replies (h : @hw bus) := @replies _ _ W h.2; word (h : @hw bus) := @word _ _ W h.2;
     answer := @answer _ _ W |}.
Proof.
  all: destruct (graphics_ports mbox) as (P1 & P2 & P3 & P4).
  - intros r w w' j E. by apply answer_ext.
  - intros h. apply wait_bound.
  - intros [x y]. cbn. rewrite (Hsel _ P1). pose proof (vc_status y) as E. by destruct (hw_read y MBOX_STATUS).
  - intros [x y] r Hf Hr. cbn. rewrite (Hsel _ P3). by apply vc_write.
  - intros [x y] r l He Hr. cbn. rewrite (Hsel _ P2). pose proof (vc_read y r l He Hr) as E. by destruct (hw_read y MBOX_READ).
  - intros [x y] i Hi. cbn. rewrite (Hsel _ (P4 i Hi)). pose proof (vc_get y i Hi) as E. by destruct (hw_read y _).
  - intros [x y] i v Hi Hv. cbn. rewrite (Hsel _ (P4 i Hi)). by apply vc_set.
Defined.
End bus.

(** ** What the drivers of [main] rely on together *)

(** The addresses of the serial port and of the pins it uses. *)
Definition serial_port (a : Z) : bool := gpio_rw a || (AUX_BASE_PERIPHERAL <=? a) && (a <? AUX_BASE_PERIPHERAL + 0x80).

(** Configuring the port or using it leaves the mailbox alone; configuring it or
    using the mailbox puts nothing on the wire. *)
Class Board `{U : MiniUart} (mbox : Z) `{V : !VideoCore mbox} := {
  serial_replies h a v : serial_port a = true -> replies (hw_read h a).2 = replies h /\ replies (hw_write h a v) = replies h;
  config_wire h a v : serial_port a = true -> a <> AUX_MU_IO_REG_ADDR -> wire (hw_read h a).2 = wire h /\ wire (hw_write h a v) = wire h;
  graphics_wire h a v : graphics_port mbox a = true -> wire (hw_read h a).2 = wire h /\ wire (hw_write h a v) = wire h }.

(** Accesses that leave [f] of the hardware alone. *)
Section same.
Context `{H : Hardware} {X : Type} (f : hw -> X).

Definition same (d d' : dstate _) : Prop := f (d_hw d') = f (d_hw d).
#[export] Instance same_preorder : PreOrder same.
Proof. split; [done|]. intros x y z E1 E2. unfold same in *. congruence. Qed.

Lemma keeps_reg_read a : (forall h, f (hw_read h a).2 = f h) -> keeps same (reg_read a).
Proof. intros Hf d v d' E. unfold reg_read in E. specialize (Hf (d_hw d)). destruct (hw_read (d_hw d) a). injection E as _ <-. exact Hf. Qed.
Lemma keeps_reg_write a v : (forall h, f (hw_write h a v) = f h) -> keeps same (reg_write a v).
Proof. intros Hf d [] d' [= <-]. apply Hf. Qed.
Lemma keeps_poll m : keeps same m -> keeps same (poll m).
Proof.
  intros Hm. apply keeps_loop. intros []. apply keeps_bind; [exact Hm|]. intros []; apply keeps_ret.
Qed.
End same.

Section board.
Context `{U : MiniUart} {mbox : Z} `{V : !VideoCore mbox} {B : Board mbox}.

Lemma serial_reads h a : serial_port a = true -> replies (hw_read h a).2 = replies h.
Proof. intros Ha. apply (serial_replies h a 0 Ha). Qed.
Lemma serial_writes h a v : serial_port a = true -> replies (hw_write h a v) = replies h.
Proof. intros Ha. by apply serial_replies. Qed.
Lemma config_reads h a : serial_port a && negb (a =? AUX_MU_IO_REG_ADDR) = true -> wire (hw_read h a).2 = wire h.
Proof. intros [Ha Hn]%andb_prop. apply (config_wire h a 0 Ha). by destruct (Z.eqb_spec a AUX_MU_IO_REG_ADDR). Qed.
Lemma config_writes h a v : serial_port a && negb (a =? AUX_MU_IO_REG_ADDR) = true -> wire (hw_write h a v) = wire h.
Proof. intros [Ha Hn]%andb_prop. apply config_wire; [done|]. by destruct (Z.eqb_spec a AUX_MU_IO_REG_ADDR). Qed.
Lemma graphics_reads h a : graphics_port mbox a = true -> wire (hw_read h a).2 = wire h.
Proof. intros Ha. apply (graphics_wire h a 0 Ha). Qed.
Lemma graphics_writes h a v : graphics_port mbox a = true -> wire (hw_write h a v) = wire h.
Proof. intros Ha. by apply graphics_wire. Qed.

Lemma uart_init_replies : keeps (same replies) uart_init.
Proof.
  unfold uart_init, gpio_useAlt, gpio_pullUpDown, gpio_function, gpio_writeReg. cbv zeta.
  keeps_by ltac:(first [apply keeps_reg_read; intros h; by apply serial_reads | apply keeps_reg_write; intros h; by apply serial_writes]).
Qed.
Lemma uart_init_wire : keeps (same wire) uart_init.
Proof.
  unfold uart_init, gpio_useAlt, gpio_pullUpDown, gpio_function, gpio_writeReg. cbv zeta.
  keeps_by ltac:(first [apply keeps_reg_read; intros h; by apply config_reads | apply keeps_reg_write; intros h; by apply config_writes]).
Qed.

Lemma write_byte_replies b : keeps (same replies) (uart_writeByteBlocks b).
Proof.
  unfold uart_writeByteBlocks, uart_txReady. apply keeps_bind; [apply keeps_poll|].
  - apply keeps_bind; [|intros r; apply keeps_ret]. apply keeps_bind; [|intros r; apply keeps_ret]. apply keeps_reg_read. intros h. by apply serial_reads.
  - intros _. apply keeps_reg_write. intros h. by apply serial_writes.
Qed.
Lemma transmitStr_replies buff : keeps (same replies) (uart_transmitStr buff).
Proof. unfold uart_transmitStr, until_body. keeps_by ltac:(apply write_byte_replies). Qed.

(** Words of the mailbox buffer. *)
Lemma mbox_get_wire i : 0 <= i < 36 -> keeps (same wire) (mbox_get mbox i).
Proof. intros Hi. apply keeps_reg_read. intros h. apply graphics_reads. by apply graphics_ports. Qed.
Lemma mbox_set_wire i v : 0 <= i < 36 -> keeps (same wire) (mbox_set mbox i v).
Proof. intros Hi. apply keeps_reg_write. intros h. apply graphics_writes. by apply graphics_ports. Qed.
Lemma mbox_fill_wire l : forall i, 0 <= i -> i + Z.of_nat (length l) <= 36 -> keeps (same wire) (mbox_fill mbox i l).
Proof.
  induction l as [|v l IH]; intros i H0 H1; cbn [mbox_fill length] in *; [apply keeps_ret|].
  apply keeps_bind; [apply mbox_set_wire; lia|]. intros _. apply IH; lia.
Qed.
Lemma mailbox_call_wire ch : keeps (same wire) (mailbox_call mbox ch).
Proof.
  destruct (graphics_ports mbox) as (P1 & P2 & P3 & _).
  assert (S : forall flag, keeps (same wire) (status_clear flag)).
  { intros flag. unfold status_clear. apply keeps_bind; [|intros v; apply keeps_ret]. apply keeps_reg_read. intros h. by apply graphics_reads. }
  unfold mailbox_call, reply_body. cbv zeta.
  keeps_by ltac:(first [apply keeps_poll, S | apply keeps_reg_read; intros h; by apply graphics_reads
    | apply keeps_reg_write; intros h; by apply graphics_writes | apply mbox_get_wire; lia]).
Qed.
Lemma framebuffer_init_wire : keeps (same wire) (framebuffer_init mbox).
Proof.
  unfold framebuffer_init.
  keeps_by ltac:(first [apply mbox_fill_wire; cbn; lia | apply mailbox_call_wire | apply mbox_get_wire; lia | apply mbox_set_wire; lia
    | apply keeps_put; intros d; reflexivity]).
Qed.
End board.

(** ** A board

    Plain registers for the pins, a UART that is busy for one poll after each
    byte, and a graphics processor that answers. *)

Definition uart_port (a : Z) : bool := (AUX_BASE_PERIPHERAL <=? a) && (a <? AUX_BASE_PERIPHERAL + 0x80).

Section sample.
Context (reply : list (Z * Z)).

Definition board_hardware : Hardware := bus gpio_rw plain_registers (bus uart_port slow_uart (gpu_hardware reply)).
Definition board_pins : @GpioBank board_hardware := bus_gpio gpio_rw _ _ plain_bank (fun a Ha => Ha).
Definition board_uart : @MiniUart board_hardware :=
  bus_uart_second gpio_rw _ _ (bus_uart_first uart_port _ _ slow_uart_ok (conj eq_refl eq_refl)) (conj eq_refl eq_refl).

Lemma graphics_apart a : graphics_port box_addr a = true -> gpio_rw a = false /\ uart_port a = false.
Proof.
  unfold graphics_port, gpio_rw, uart_port, box_addr. assert (E : VIDEOCORE_MBOX + 0x1f4780 = GPIO_GPFSEL0_ADDR /\ GPIO_GPFSEL5_ADDR = GPIO_GPFSEL0_ADDR + 0x14
    /\ GPIO_PUP_PDN_CNTRL_REG0_ADDR = GPIO_GPFSEL0_ADDR + 0xE4 /\ GPIO_PUP_PDN_CNTRL_REG3_ADDR = GPIO_GPFSEL0_ADDR + 0xF0
    /\ AUX_BASE_PERIPHERAL = GPIO_GPFSEL0_ADDR + 0x15000 /\ GPIO_GPFSEL0_ADDR = 0xFFFF00003E200000) by done. lia.
Qed.

Definition board_gpu : @VideoCore board_hardware box_addr :=
  bus_videocore gpio_rw _ _ box_addr
    (bus_videocore uart_port _ _ box_addr (gpu_videocore reply) (fun a Ha => proj2 (graphics_apart a Ha)))
    (fun a Ha => proj1 (graphics_apart a Ha)).

Lemma board_ok : @Board _ board_uart box_addr board_gpu.
Proof.
  split.
  - intros [x [y z]] a v Ha. unfold serial_port in Ha. cbn. destruct (gpio_rw a); [done|]. change (uart_port a = true) in Ha. cbn. rewrite Ha. cbn.
    by destruct (a =? AUX_MU_LSR_REG_ADDR).
  - intros [x [y z]] a v Ha Hn. unfold serial_port in Ha. cbn. destruct (gpio_rw a); [done|]. change (uart_port a = true) in Ha. cbn. rewrite Ha. cbn.
    rewrite (proj2 (Z.eqb_neq _ _) Hn). by destruct (a =? AUX_MU_LSR_REG_ADDR).
  - intros [x [y z]] a v Ha. destruct (graphics_apart a Ha) as [E1 E2]. cbn. rewrite E1. cbn. rewrite E2. cbn.
    by destruct (a =? MBOX_STATUS), (a =? MBOX_READ), (a =? MBOX_WRITE).
Qed.

Definition board_device : dstate board_hardware :=
  @DState board_hardware (∅, (([], true), gpu_idle [] [])) [] (FbGlobals 0 0 0 0 0) (ShellGlobals 15 15).
End sample.
