(* ===== verification/Kernel.v ===== *)
(** * Kernel start (src/kernel.c)

    The part of [main] after the devices are set up: the kernel heap, the file
    system, the configuration file and the first threads; and the threads
    themselves. *)

From S2P Require Export HeapTheorems Syscalls.

Section kernel.
Context {O : PageOps}.
Context (mmu : mem -> Z -> Z -> option Z) (ret_from_fork : Z).

(** The heap: 64 pages, of which the first is the base. *)
Definition boot_heap : K unit :=
  _ ← printf (str "allocating kernel heap..." ++ [10]) [];
  kernel_heap_phys ← next_free_page;
  _ ← for_range 63 0 (fun _ _ => _ ← next_free_page; mret tt) tt;
  kmalloc_init (u64 (kernel_heap_phys + VIRTUAL_ADDRESS_START)).

(** [rdfs_readdir] and its report; returns [list_len]. *)
Definition report_dir (path list_len : Z) : K Z :=
  r ← rdfs_readdir path list_len;
  let '(l, list_len) := (r : Z * Z) in
  if l =? 0 then _ ← printf (str "Failed to read directory." ++ [10]) []; mret list_len
  else
    first ← load64 l;
    _ ← printf (str "list_len: %d, list[0]: %d" ++ [10]) [AInt list_len; AInt first];
    _ ← kfree l;
    mret list_len.

(** [while(rdfs_read_file(&f, buf, 1)) printf("%c", *buf);] *)
Definition print_body (buf : Z) (f : file_t) : K (file_t + unit) :=
  r ← rdfs_read_file f buf 1;
  let '(n, f) := (r : Z * file_t) in
  if n =? 0 then mret (inr tt)
  else c ← load8 buf; _ ← printf (str "%c") [AInt c]; mret (inl f).

Definition report_file (path : Z) : K unit :=
  r ← rdfs_open_file path 0;
  match r with
  | None => mret tt
  | Some f =>
      buf ← kmalloc 1;
      _ ← loop (print_body buf) f;
      _ ← printf [10] [];
      kfree buf
  end.

(** The file system: mounted, and the two reports. *)
Definition boot_fs (ramdisk_start config_txt config : Z) : K unit :=
  _ ← printf (str "Initialising fs..." ++ [10]) [];
  _ ← rdfs_init ramdisk_start;
  list_len ← report_dir config_txt 0;
  _ ← report_dir config list_len;
  report_file config_txt.

(** [&__ramdisk_start], the literals "/config/config.txt" and "/config/" and the
    addresses of the three threads come from the linker. *)
Definition boot (ramdisk_start config_txt config kernel_task kernel_task1 kernel_task2 : Z) : K unit :=
  _ ← boot_heap;
  _ ← boot_fs ramdisk_start config_txt config;
  _ ← printf (str "Creating initial processes..." ++ [10]) [];
  _ ← kernel_fork mmu ret_from_fork TASK_FLAGS_KERNEL_THREAD kernel_task 0;
  _ ← kernel_fork mmu ret_from_fork TASK_FLAGS_KERNEL_THREAD kernel_task1 0;
  _ ← kernel_fork mmu ret_from_fork TASK_FLAGS_KERNEL_THREAD kernel_task2 0;
  mret tt.

(** [st] is the uninitialised local. *)
Definition load_app (size_fmt : list Z) (path : Z) (st : stat_t) : K unit :=
  r ← rdfs_getattr path st;
  let '(_, st) := (r : Z * stat_t) in
  _ ← printf size_fmt [AInt (st_size st); AInt KERNEL_HEAP_SIZE];
  f ← rdfs_open_file path 0;
  match f with
  | None => mret tt
  | Some elf_file =>
      elf_buf ← kmalloc (st_size st);
      _ ← rdfs_read_file elf_file elf_buf (st_size st);
      _ ← elf_load elf_buf;
      mret tt
  end.

Definition kernel_task (app1_elf : Z) (st : stat_t) : K unit :=
  pid ← get_pid;
  _ ← printf (str "kernel_task() - pid: %d" ++ [10]) [AInt pid];
  load_app (str "app1.elf size: %d, heap_size: %d" ++ [10]) app1_elf st.

Definition kernel_task2 (app2_elf : Z) (st : stat_t) : K unit :=
  pid ← get_pid;
  _ ← printf (str "starting app2 (kernelspace) - pid:%d" ++ [10]) [AInt pid];
  load_app (str "app2.elf size: %d, heap_size: %d" ++ [10]) app2_elf st.

(** One turn of the endless loop of [kernel_task1]. *)
Definition kernel_task1_turn : K unit := _ ← register_one_hit 700; printf (str "tick" ++ [10]) [].

End kernel.

(** ** The heap is made of pages nobody else gets *)

Section boot_heap.
Context {O : PageOps} {Laws : PageLaws}.

(** Memory below the pages, where the image of the kernel lies. *)
Definition low_kept (s s' : kstate) : Prop :=
  same_on (fun a => a < LOW_MEMORY + VIRTUAL_ADDRESS_START) (k_mem s) (k_mem s') /\ m_valid (k_mem s') = m_valid (k_mem s).
Lemma low_kept_refl s : low_kept s s.
Proof. split; [apply same_on_refl|done]. Qed.
Lemma low_kept_trans s1 s2 s3 : low_kept s1 s2 -> low_kept s2 s3 -> low_kept s1 s3.
Proof. intros [S1 V1] [S2 V2]. split; [by eapply same_on_trans|congruence]. Qed.
Lemma fresh_low_kept i s s' : page_index i -> fresh_page i s s' -> low_kept s s'.
Proof.
  intros Hi (_ & _ & (_ & F & V) & _). unfold page_index in Hi. split; [|done].
  eapply same_on_weaken; [|exact F]. cbv beta. rewrite page_addr_eq in *. change LOW_MEMORY with 4194304. lia.
Qed.

Lemma take_pages_run n : forall i s, pages_mapped s ->
  exists s', for_range n i (fun _ _ => _ ← next_free_page; mret tt) tt s = Ok tt s'
    /\ free_list s' = drop n (free_list s) /\ pages_mapped s' /\ s' = with_mem (k_mem s') (with_pages (k_pages s') s)
    /\ low_kept s s'.
Proof.
  induction n as [|n IH]; intros i s HM; cbn [for_range].
  - exists s. split; [done|]. split; [done|]. split; [done|]. split; [by destruct s|apply low_kept_refl].
  - rewrite bind_assoc. pose proof (next_free_page_run s HM) as R. destruct (free_list s) as [|k r] eqn:E.
    + rewrite (bind_ok _ _ _ _ _ R), bind_ret. destruct (IH (i + 1) s HM) as (s' & R' & E' & HM' & F' & K').
      exists s'. rewrite E, drop_nil in E'. split; [done|]. split; [done|]. by split.
    + destruct R as (s1 & R & F & Hk & E1). rewrite (bind_ok _ _ _ _ _ R), bind_ret.
      destruct (IH (i + 1) s1 (fresh_page_mapped _ _ _ F HM)) as (s' & R' & E' & HM' & F' & K').
      exists s'. split; [done|]. split; [by rewrite E', E1|]. split; [done|].
      pose proof (fresh_low_kept _ _ _ Hk F) as K1. destruct F as (_ & _ & _ & F).
      split; [rewrite F', F; by destruct s|by eapply low_kept_trans].
Qed.

(** The pages of consecutive indices are one mapped area. *)
Lemma pages_range s i n : pages_mapped s -> 0 <= i -> i + n <= MM_NUM_OF_PAGES ->
  valid_range (k_mem s) (page_addr i + VIRTUAL_ADDRESS_START) (n * 4096).
Proof.
  intros HM Hi Hn a Ha. set (k := (a - (page_addr i + VIRTUAL_ADDRESS_START)) / 4096).
  assert (Hk : 0 <= k < n) by (unfold k; Z.to_euclidean_division_equations; lia).
  assert (Hx : page_index (i + k)) by (unfold page_index; lia).
  pose proof (Z.div_mod (a - (page_addr i + VIRTUAL_ADDRESS_START)) 4096 ltac:(lia)) as D. fold k in D.
  pose proof (Z.mod_pos_bound (a - (page_addr i + VIRTUAL_ADDRESS_START)) 4096 ltac:(lia)).
  apply (HM _ Hx). change PAGE_SIZE with 4096. rewrite !page_addr_eq in *. lia.
Qed.

Lemma boot_heap_run s i r :
  pages_mapped s -> free_list s = seqZ i KERNEL_HEAP_SIZE_PAGES ++ r -> kheap_size (k_heap s) = KERNEL_HEAP_SIZE ->
  exists s', boot_heap s = Ok tt s' /\ heap_rep s' [Free KERNEL_HEAP_SIZE]
    /\ heap_start_adr (k_heap s') = page_addr i + VIRTUAL_ADDRESS_START
    /\ free_list s' = r /\ (forall k, i <= k < i + KERNEL_HEAP_SIZE_PAGES -> page_used s' k = true)
    /\ pages_mapped s' /\ low_kept s s' /\ page_index i
    /\ s' = with_mem (k_mem s') (with_heap (k_heap s') (with_pages (k_pages s')
        (with_console (k_console s ++ str "allocating kernel heap..." ++ [10]) s))).
Proof.
  unfold KERNEL_HEAP_SIZE_PAGES. intros HM EF EK.
  assert (Old : forall k, i <= k < i + 64 -> (k ∉ r) /\ page_index k).
  { intros k Hk. assert (Hin : k ∈ seqZ i 64) by (apply elem_of_seqZ; lia). split.
    - assert (ND : NoDup (free_list s)) by apply NoDup_filter, NoDup_seqZ. rewrite EF in ND.
      apply NoDup_app in ND as (_ & ND & _). by apply ND.
    - assert (Hf : k ∈ free_list s) by (rewrite EF; apply elem_of_app; by left).
      apply list_elem_of_filter in Hf as [_ Hf]. by apply elem_of_seqZ in Hf. }
  rewrite seqZ_cons in EF by lia. change (Z.pred 64) with 63 in EF.
  set (s0 := with_console (k_console s ++ str "allocating kernel heap..." ++ [10]) s).
  assert (R0 : printf (str "allocating kernel heap..." ++ [10]) [] s = Ok tt s0) by reflexivity.
  assert (HM0 : pages_mapped s0) by exact HM.
  assert (EF0 : free_list s0 = i :: seqZ (Z.succ i) 63 ++ r) by (by rewrite (free_list_ext s0 s)).
  pose proof (next_free_page_run s0 HM0) as R1. rewrite EF0 in R1. destruct R1 as (s1 & R1 & F1 & Hi & EF1). pose proof Hi as Pi. pose proof (fresh_low_kept _ _ _ Hi F1) as K1.
  destruct (take_pages_run 63 0 s1 (fresh_page_mapped _ _ _ F1 HM0)) as (s2 & R2 & EF2 & HM2 & F2 & K2).
  rewrite EF1, drop_app_length' in EF2 by (by rewrite length_seqZ).
  destruct (page_index_value i Hi) as [B _]. destruct (Old (i + 63) ltac:(lia)) as [_ [_ Hlast]]. destruct Hi as [Hi0 _].
  set (b := page_addr i + VIRTUAL_ADDRESS_START).
  assert (Eb : u64 b = b) by (apply u64_small; unfold b, VIRTUAL_ADDRESS_START; lia).
  assert (E2 : kheap_size (k_heap s2) = KERNEL_HEAP_SIZE) by (destruct F1 as (_ & _ & _ & F1); by rewrite F2, F1).
  destruct (kmalloc_init_run s2 b) as (m & R3 & Rep & _ & F3 & V3); rewrite ?E2.
  1, 2: unfold b, VIRTUAL_ADDRESS_START; change KERNEL_HEAP_SIZE with 262144; lia.
  1-3: vm_compute; congruence.
  { change KERNEL_HEAP_SIZE with (64 * 4096). by apply pages_range; [|lia|lia]. }
  exists (hstate m b (init_heap s2 b)). rewrite E2 in Rep.
  assert (EF3 : free_list (hstate m b (init_heap s2 b)) = r) by (by rewrite (free_list_ext _ s2)).
  split; [|split; [done|split; [done|split; [done|split; [|split; [|split; [|split; [done|]]]]]]]].
  - unfold boot_heap. rewrite (bind_ok _ _ _ _ _ R0), (bind_ok _ _ _ _ _ R1), (bind_ok _ _ _ _ _ R2). fold b. by rewrite Eb.
  - intros k Hk. destruct (Old k Hk) as [Nr Pk]. destruct (page_used _ k) eqn:U; [done|exfalso]. apply Nr. rewrite <- EF3.
    apply list_elem_of_filter. split; [done|]. apply elem_of_seqZ. unfold page_index in Pk. lia.
  - intros k Hk a Ha. change (k_mem (hstate m b (init_heap s2 b))) with m. rewrite V3. by apply (HM2 k Hk).
  - apply (low_kept_trans _ s2); [by apply (low_kept_trans _ s1)|]. split; [|exact V3]. eapply same_on_weaken; [|exact F3].
    unfold b. cbv beta. rewrite page_addr_eq. change LOW_MEMORY with 4194304. lia.
  - destruct F1 as (_ & _ & _ & F1). rewrite F2, F1. by destruct s.
Qed.

(** C27. The kernel heap set up at boot is one free block of 64 pages at the
    kernel alias of the lowest free page, when the free pages start with 64
    consecutive ones; those pages are no longer free, so that no later page
    request returns memory of the heap. *)
Theorem boot_heap_owns_its_pages s i r :
  pages_mapped s -> free_list s = seqZ i KERNEL_HEAP_SIZE_PAGES ++ r -> kheap_size (k_heap s) = KERNEL_HEAP_SIZE ->
  exists s', boot_heap s = Ok tt s' /\ heap_rep s' [Free KERNEL_HEAP_SIZE]
    /\ heap_start_adr (k_heap s') = page_addr i + VIRTUAL_ADDRESS_START
    /\ free_list s' = r /\ forall k, i <= k < i + KERNEL_HEAP_SIZE_PAGES -> page_used s' k = true.
Proof.
  intros HM EF EK. destruct (boot_heap_run s i r HM EF EK) as (s' & R & Rep & Es & Ef & Eu & _). by exists s'.
Qed.
End boot_heap.

(** ** Printing a file *)

Lemma print_char_run s b : 0 <= b < 2 ^ 8 -> printf (str "%c") [AInt b] s = Ok tt (with_console (k_console s ++ [b]) s).
Proof.
  intros Hb. unfold printf.
  assert (E : tfp_format (str "%c") [AInt b] = inr [u8 b]) by reflexivity. by rewrite E, u8_small.
Qed.

(** A file and a buffer do not depend on the console. *)
Lemma file_console s c id loc data : file_at s id loc data -> file_at (with_console c s) id loc data.
Proof. intros []. by split. Qed.
Lemma buffer_console s c id loc data buf n : buffer_ok s id loc data buf n -> buffer_ok (with_console c s) id loc data buf n.
Proof. intros []. by split. Qed.

Lemma print_loops (n : nat) : forall s f loc data buf,
  file_at s (file_id f) loc data -> Forall (fun b => 0 <= b < 2 ^ 8) data ->
  0 <= index f <= Z.of_nat (length data) -> buffer_ok s (file_id f) loc data buf 1 -> buf + 1 < 2 ^ 64 ->
  n = length (drop (Z.to_nat (index f)) data) ->
  exists m, loops (print_body buf) (S n) f s tt (with_console (k_console s ++ drop (Z.to_nat (index f)) data) (with_mem m s))
    /\ same_on (fun a => a < buf \/ buf + 1 <= a) (k_mem s) m /\ m_valid m = m_valid (k_mem s).
Proof.
  induction n as [|n IH]; intros s f loc data buf FA HB Hi BO Hb En;
    destruct (rdfs_read_run s f loc data buf 1 FA Hi ltac:(lia) BO) as (m & R & Wr).
  - assert (E : drop (Z.to_nat (index f)) data = []) by (by apply nil_length_inv).
    rewrite E, take_nil in *. cbn [length] in R, Wr. exists m. rewrite app_nil_r.
    split; [|destruct Wr as (_ & F & V); split; [eapply same_on_weaken; [|exact F]; intros x Hx; cbn [length]; lia|done]]. apply loops_done. unfold print_body. rewrite (bind_ok _ _ _ _ _ R). cbn. by destruct s.
  - destruct (drop (Z.to_nat (index f)) data) as [|b rest] eqn:E; [done|]. cbn in En. injection En as En.
    change (take (Z.to_nat 1) (b :: rest)) with [b] in R, Wr. change (Z.of_nat (length [b])) with 1 in R.
    assert (Eb : data !! Z.to_nat (index f) = Some b).
    { rewrite <- (Nat.add_0_r (Z.to_nat (index f))), <- lookup_drop, E. done. }
    assert (Hbb : 0 <= b < 2 ^ 8) by (by eapply (Forall_lookup_1 _ _ _ _ HB)).
    assert (Hl1 : Z.of_nat (length [b]) <= 1) by (cbn; lia). destruct (wrote_file s m _ _ _ _ _ _ FA BO Hl1 Wr) as [FA' BO'].
    set (c := k_console s ++ [b]). set (f' := File (file_id f) (index f + 1) (f_flags f)).
    destruct (IH (with_console c (with_mem m s)) f' loc data buf) as (m' & L & F' & V');
      [by apply file_console|done|pose proof (lookup_lt_Some _ _ _ Eb); cbn [index f']; lia|by apply buffer_console|done| |].
    { cbn [index f']. rewrite Z2Nat.inj_add by lia. change (Z.to_nat 1) with 1%nat. rewrite <- drop_drop, E. done. }
    assert (Ed : drop (Z.to_nat (index f')) data = rest).
    { cbn [index f']. rewrite Z2Nat.inj_add by lia. change (Z.to_nat 1) with 1%nat. by rewrite <- drop_drop, E. }
    rewrite Ed in L. exists m'. cbn [k_mem with_console with_mem] in F', V'.
    split; [|destruct Wr as (_ & F & V); split; [eapply same_on_trans; [|exact F']; eapply same_on_weaken; [|exact F]; intros x Hx; cbn [length]; lia|congruence]].
    eapply loops_step.
    + unfold print_body. rewrite (bind_ok _ _ _ _ _ R). cbv beta iota. change (1 =? 0) with false. cbv iota.
      assert (Lb : load8 buf (with_mem m s) = Ok b (with_mem m s)).
      { apply load8_ok. destruct Wr as (Wr & _). specialize (Wr 0%nat b eq_refl). by rewrite Z.add_0_r in Wr. }
      rewrite (bind_ok _ _ _ _ _ Lb), (bind_ok _ _ _ _ _ (print_char_run _ _ Hbb)). done.
    + replace (k_console s ++ b :: rest) with (c ++ rest) by (unfold c; by rewrite <- app_assoc). exact L.
Qed.

(** C37. The loop with which [main] prints a file terminates and sends exactly the
    bytes of the file to the console, in order. *)
Theorem print_loop_prints_file s id loc data flags buf :
  file_at s id loc data -> Forall (fun b => 0 <= b < 2 ^ 8) data -> buffer_ok s id loc data buf 1 ->
  exists m, loop (print_body buf) (rdfs_open_file_id id flags) s = Ok tt (with_console (k_console s ++ data) (with_mem m s)).
Proof.
  intros FA HB BO. pose proof (fa_bounds _ _ _ _ FA) as B. pose proof (bo_range _ _ _ _ _ _ BO).
  destruct (print_loops (length data) s (rdfs_open_file_id id flags) loc data buf FA HB) as (m & L & _); [cbn; lia|done|lia|done|].
  exists m. cbn [index rdfs_open_file_id] in L. apply (loops_loop _ _ _ _ _ _ L). lia.
Qed.

(** ** Concrete instances *)

Lemma free_at_boot n : 2 <= n <= MM_NUM_OF_PAGES -> free_list (pages_taken []) = seqZ 0 n ++ seqZ n (MM_NUM_OF_PAGES - n).
Proof.
  intros Hn. rewrite free_list_boot. revert Hn. generalize MM_NUM_OF_PAGES. intros N HN.
  rewrite <- (Z.add_0_l n) at 2. rewrite <- seqZ_app by lia. replace (n + (N - n)) with N by lia.
  rewrite (seqZ_cons 0) by lia. rewrite (seqZ_cons (Z.succ 0)) by lia. by replace (Z.pred (Z.pred N)) with (N - 2) by lia.
Qed.

Lemma boot_heap_owns_its_pages_witness :
  exists s', boot_heap (pages_taken []) = Ok tt s' /\ heap_rep s' [Free 262144]
    /\ heap_start_adr (k_heap s') = page_addr 0 + VIRTUAL_ADDRESS_START
    /\ free_list s' = seqZ 64 (MM_NUM_OF_PAGES - 64) /\ forall k, 0 <= k < 0 + 64 -> page_used s' k = true.
Proof.
  apply (boot_heap_owns_its_pages (pages_taken []) 0 (seqZ 64 (MM_NUM_OF_PAGES - 64)));
    [apply pages_taken_mapped|apply (free_at_boot 64); rewrite num_pages; lia|reflexivity].
Defined.

Lemma print_loop_prints_file_witness :
  exists m, loop (print_body 8400) (rdfs_open_file_id 0 0) image_state = Ok tt (with_console [72; 105] (with_mem m image_state)).
Proof.
  apply (print_loop_prints_file image_state 0 4288 [72; 105] 0 8400 image_file); [|apply image_buffer].
  repeat constructor; lia.
Defined.
