(* ===== verification/Main.v ===== *)
(** * The start of the kernel as a whole ([main] of src/kernel.c)

    [main] from its first statement to its endless loop, over the state of the
    kernel and that of the devices, and what it leaves when the image of a
    directory tree with a configuration file is linked into the kernel. *)

From S2P Require Export Board Kernel ProcessTheorems RamdiskImage.

(** ** The file system phase *)

(** In the kernel's image: below the pages, in its half of the addresses. *)
Definition in_kernel (a n : Z) : Prop := VIRTUAL_ADDRESS_START <= a /\ a + n <= LOW_MEMORY + VIRTUAL_ADDRESS_START.

Definition FRESH_HEAP : list seg := [Free KERNEL_HEAP_SIZE].

Section fs.
(** The tree, its image at [a], the heap at [H]. *)
Context (root : node) (out : list Z) (a H : Z).
Context (HG : ramdisk root = Some out) (HT : tree_ok root) (HA : in_kernel a (Z.of_nat (length out))).
Context (HH : LOW_MEMORY + VIRTUAL_ADDRESS_START <= H /\ H + KERNEL_HEAP_SIZE < 2 ^ 64 - 1).
Let l : list entry := entries root.
Let g : rdfs_globals := RdfsGlobals a (a + 96) (Z.of_nat (length l)).
Let N : Z := KERNEL_HEAP_SIZE.

(** The file system mounted and the heap one free block. *)
Record mounted_fs (s : kstate) : Prop := {
  mf_heap : heap_rep s FRESH_HEAP;
  mf_start : heap_start_adr (k_heap s) = H;
  mf_rdfs : k_rdfs s = g;
  mf_loaded : loaded (k_mem s) a out }.

(** A string of the kernel's image: a path with its first slash. *)
Definition path_at (s : kstate) (ptr : Z) (path : list Z) : Prop :=
  cstr (k_mem s) ptr (47 :: path) /\ in_kernel ptr (2 + Z.of_nat (length path)).

(** What a step of the phase may change in memory: the heap. *)
Definition heap_only (m m' : mem) : Prop := same_on (beyond H END_OF_HEAP N) m m' /\ m_valid m' = m_valid m.

Lemma heap_only_refl m : heap_only m m.
Proof. split; [apply same_on_refl|done]. Qed.
Lemma heap_only_trans m1 m2 m3 : heap_only m1 m2 -> heap_only m2 m3 -> heap_only m1 m3.
Proof. intros [S1 V1] [S2 V2]. split; [by eapply same_on_trans|congruence]. Qed.

Lemma below_heap x n y : in_kernel x n -> x <= y < x + n -> beyond H END_OF_HEAP N y.
Proof using HH. intros [K0 K1] Hy. unfold beyond, END_OF_HEAP, N. change KERNEL_HEAP_SIZE with 262144 in *. lia. Qed.

Lemma mounted_frees s : mounted_fs s -> frees (heap_start_adr (k_heap s)) FRESH_HEAP = [(H, N)].
Proof. intros []. cbn. by rewrite mf_start0. Qed.

Lemma path_at_kept s s' ptr path : heap_only (k_mem s) (k_mem s') -> path_at s ptr path -> path_at s' ptr path.
Proof using HH.
  intros [S _] [C K]. split; [|done]. eapply cstr_same; [exact S| |exact C]. intros x Hx. eapply below_heap; [exact K|]. cbn [length] in Hx. lia.
Qed.

Lemma mounted_kept s m : mounted_fs s -> heap_only (k_mem s) m -> heap_rep (with_mem m s) FRESH_HEAP -> mounted_fs (with_mem m s).
Proof using HA HH.
  intros [Mh Ms Mr Ml] [S _] R. split; [done|done|done|]. eapply loaded_beyond; [exact Ml|exact S|]. intros x Hx. eapply below_heap; [exact HA|exact Hx].
Qed.
Lemma mounted_console s c : mounted_fs s -> mounted_fs (with_console c s).
Proof. intros [Mh Ms Mr Ml]. split; [|done..]. by destruct Mh as [[]]; split. Qed.

Lemma image_bounds : 0 < a /\ a + Z.of_nat (length out) < 2 ^ 64 /\ Z.of_nat (length out) < 2 ^ 63.
Proof using HA. unfold in_kernel in HA. change LOW_MEMORY with 4194304 in HA. change VIRTUAL_ADDRESS_START with 0xffff000000000000 in *. lia. Qed.

Lemma mounted_layout s : mounted_fs s -> layout (k_mem s) a l /\ image_at (k_mem s) g (im_of l) a (a + Z.of_nat (length out))
  /\ Z.of_nat (length out) = 96 + 96 * Z.of_nat (length l) + sum_sizes l.
Proof using HG HT HA.
  intros M. destruct (mounted root out a HG HT image_bounds (k_mem s) (mf_loaded s M)) as [L I].
  destruct (ramdisk_layout root out _ a HG HT (mf_loaded s M)) as [_ Len]. done.
Qed.

(** A path of the tree resolves to the entry of its node. *)
Lemma resolve_node s ptr path x : mounted_fs s -> path_at s ptr path ->
  find_node root (components [] path) = Some x -> path_fits (im_of l) N (components [] path) ->
  exists m j e, rdfs_file_get_id_from_path ptr s = Ok (Some (Z.of_nat j)) (with_mem m s) /\ l !! j = Some e /\ e_node e = x
    /\ mounted_fs (with_mem m s) /\ heap_only (k_mem s) m.
Proof using HG HT HA HH.
  intros M [C K] Ef PF. destruct (mounted_layout s M) as (L & I & _). pose proof image_bounds as IB. pose proof K as [K0 K1].
  change LOW_MEMORY with 4194304 in K1. change VIRTUAL_ADDRESS_START with 0xffff000000000000 in K0, K1.
  pose proof (entries_walk root HT (components [] path)) as W. fold l in W.
  destruct (path_run s (im_of l) a (a + Z.of_nat (length out)) FRESH_HEAP H N [] ptr 47 path) as (m & S & V & R).
  - apply (mf_heap s M).
  - by apply mounted_frees.
  - rewrite (mf_rdfs s M). exact I.
  - intros y Hy. eapply below_heap; [exact HA|exact Hy].
  - exact C.
  - lia.
  - lia.
  - intros y Hy. eapply below_heap; [exact K|lia].
  - exact PF.
  - intros E. rewrite E, Ef in W. done.
  - destruct (walk (im_of l) 0 (components [] path)) as [id|b|]; [|by rewrite Ef in W..].
    destruct W as (j & e & -> & Ej & Ex), R as [R HR]. rewrite Ef in Ex. injection Ex as Ex. exists m, j, e.
    split; [exact R|]. split; [done|]. split; [done|]. assert (HO : heap_only (k_mem s) m) by (by split).
    split; [by apply mounted_kept|done].
Qed.

(** The type of an entry. *)
Lemma type_run s j e : mounted_fs s -> l !! j = Some e ->
  dir_entry (Z.of_nat j) s = Ok (a + 96 + 96 * Z.of_nat j) s
  /\ ent_file_type (a + 96 + 96 * Z.of_nat j) s = Ok (if e_is_dir e then 1 else 2) s.
Proof using HG HT HA.
  intros M Ej. destruct (mounted_layout s M) as (L & _ & Len). destruct (la_entry _ _ _ L j e Ej) as (_ & Ty & _).
  pose proof image_bounds as IB. pose proof (lookup_lt_Some _ _ _ Ej). pose proof (sum_sizes_nonneg l).
  unfold dir_entry, get_rdfs, ent_file_type, ptr_add, SIZEOF_ENTRY. rewrite bind_get, (mf_rdfs s M). cbn [first_file g]. uw.
  split; [done|]. unfold load8, loadn. by rewrite Ty.
Qed.
Lemma isDir_run s j e : mounted_fs s -> l !! j = Some e -> rdfs_id_isDir (Z.of_nat j) s = Ok (e_is_dir e) s.
Proof using HG HT HA.
  intros M Ej. destruct (type_run s j e M Ej) as [R1 R2]. unfold rdfs_id_isDir. rewrite (bind_ok _ _ _ _ _ R1), (bind_ok _ _ _ _ _ R2). by destruct (e_is_dir e).
Qed.

(** The first block of the heap taken: what [get_file_list_run] and [kmalloc_front]
    start from. *)
Lemma heap_ready s : mounted_fs s -> ready s (im_of l) a (a + Z.of_nat (length out)) END_OF_HEAP (k_mem s) H N /\ hstate (k_mem s) H s = s.
Proof using HG HT HA HH.
  intros M. destruct (heap_rep_front s FRESH_HEAP H N [] (mf_heap s M) (mounted_frees s M)) as [F E].
  destruct (mounted_layout s M) as (_ & I & _). split.
  - split; [rewrite (mf_rdfs s M); exact I|exact F|]. intros y Hy. eapply below_heap; [exact HA|exact Hy].
  - rewrite <- E. apply hstate_id.
Qed.

(** The heap with its block given back. *)
Lemma heap_back s m : mounted_fs s -> front m H END_OF_HEAP N -> heap_only (k_mem s) m ->
  hstate m H s = with_mem m s /\ mounted_fs (with_mem m s).
Proof using HG HT HA HH.
  intros M F [S V]. destruct (heap_rep_front s FRESH_HEAP H N [] (mf_heap s M) (mounted_frees s M)) as [_ E].
  assert (Es : hstate m H s = with_mem m s) by (rewrite <- E; by destruct s as [? []]). split; [done|].
  apply mounted_kept; [done|by split|]. rewrite <- Es. by apply (heap_rep_restored s FRESH_HEAP H N [] m (mf_heap s M) (mounted_frees s M)).
Qed.

(** [rdfs_readdir] of a file fails. *)
Lemma report_file_as_dir_run s ptr path n name data : mounted_fs s -> path_at s ptr path ->
  find_node root (components [] path) = Some (file name data) -> path_fits (im_of l) N (components [] path) ->
  exists m, report_dir ptr n s = Ok n (with_console (k_console s ++ str "Failed to read directory." ++ [10]) (with_mem m s))
    /\ mounted_fs (with_mem m s) /\ heap_only (k_mem s) m.
Proof using HG HT HA HH.
  intros M P Ef PF. destruct (resolve_node s ptr path _ M P Ef PF) as (m & j & e & R & Ej & En & M' & HO).
  exists m. split; [|done]. unfold report_dir, rdfs_readdir. rewrite bind_assoc, (bind_ok _ _ _ _ _ R), bind_assoc.
  rewrite (bind_ok _ _ _ _ _ (isDir_run _ j e M' Ej)). unfold e_is_dir. rewrite En. reflexivity.
Qed.

(** [rdfs_readdir] of a directory: the number of its entries and the first id. *)
Lemma report_dir_run s ptr path n name c ch : mounted_fs s -> path_at s ptr path ->
  find_node root (components [] path) = Some (directory name (c :: ch)) -> path_fits (im_of l) N (components [] path) ->
  components [] path <> [] ->
  exists m id t, tfp_format (str "list_len: %d, list[0]: %d" ++ [10]) [AInt (Z.of_nat (length (c :: ch))); AInt id] = inr t
    /\ (exists x, l !! Z.to_nat id = Some x /\ e_node x = c)
    /\ report_dir ptr n s = Ok (Z.of_nat (length (c :: ch))) (with_console (k_console s ++ t) (with_mem m s))
    /\ mounted_fs (with_mem m s) /\ heap_only (k_mem s) m.
Proof using HG HT HA HH.
  intros M P Ef PF Hc0. destruct (resolve_node s ptr path _ M P Ef PF) as (m1 & j & e & R & Ej & En & M1 & HO1).
  set (s1 := with_mem m1 s) in *. destruct (heap_ready s1 M1) as [Rd E1]. change (k_mem s1) with m1 in *.
  destruct (entries_spec root) as (Fl & _ & _). fold l in Fl. pose proof (Forall_lookup_1 _ _ _ _ (fo_children _ _ Fl) Ej) as Ch.
  unfold children_at in Ch. rewrite En in Ch. pose proof (Forall2_length _ _ _ Ch) as Lch. set (ids := e_children e) in *.
  destruct ids as [|id ids'] eqn:Ei; [done|]. rewrite <- Ei in *.
  assert (Hc : exists x, l !! Z.to_nat id = Some x /\ e_node x = c).
  { rewrite Ei in Ch. inversion Ch as [|? ? ? ? (_ & x & Hx & Hn') _]; subst. exists x. by rewrite Z.sub_0_r in Hx. }
  assert (Ed : im_dirs (im_of l) (Z.of_nat j) = Some ids).
  { cbn [im_dirs im_of]. rewrite (proj2 (Z.leb_le 0 _)), Nat2Z.id, Ej by lia. unfold e_is_dir. by rewrite En. }
  assert (Hn : 8 * Z.of_nat (length ids) + 32 <= N).
  { destruct (components [] path) as [|c0 cs]; [done|]. apply Forall_cons in PF as [(_ & _ & PF) _]. specialize (PF _ _ Ed). unfold step_bytes in PF. lia. }
  destruct (get_file_list_run s1 _ _ _ _ m1 H N (Z.of_nat j) ids Rd Ed) as (m2 & R2 & Lk & NL & F2 & S2 & V2); [exact Hn|].
  set (k := 8 * Z.of_nat (length ids)) in *. destruct NL as (_ & _ & NL). destruct (NL 0%nat id ltac:(by rewrite Ei)) as (L0 & _).
  rewrite Z.mul_0_r, Z.add_0_r in L0. assert (Hk : 0 < k /\ k + 32 <= N) by (unfold k in *; rewrite Lch in *; cbn [length] in *; lia).
  destruct (tfp_loop_well_typed (S (length (str "list_len: %d, list[0]: %d" ++ [10]))) (str "list_len: %d, list[0]: %d" ++ [10])
    [AInt (Z.of_nat (length (c :: ch))); AInt id] eq_refl) as [t Et].
  set (q := H + (k + 8)) in *. set (s2 := with_console (k_console s1 ++ t) s1).
  assert (H0 : 0 < H) by (change LOW_MEMORY with 4194304 in HH; change VIRTUAL_ADDRESS_START with 0xffff000000000000 in HH; lia).
  assert (VH : valid_range m1 H N) by exact (fr_valid _ _ _ _ (rd_front _ _ _ _ _ _ _ _ Rd)).
  destruct (kfree_front s2 m2 H END_OF_HEAP (N - (k + 8)) k F2 Lk H0) as (m3 & R3 & F3 & S3 & V3);
    [lia|intros y Hy; rewrite V2; apply VH; lia|]. replace (N - (k + 8) + (k + 8)) with N in * by lia.
  assert (HO3 : heap_only m1 m3) by (split; [by eapply same_on_trans|congruence]).
  destruct (heap_back s1 m3 M1 F3 HO3) as [E3 M3].
  exists m3, id, t. split; [exact Et|]. split; [exact Hc|]. split; [|split; [exact M3|by eapply heap_only_trans]].
  unfold report_dir, rdfs_readdir. rewrite bind_assoc, (bind_ok _ _ _ _ _ R), bind_assoc, (bind_ok _ _ _ _ _ (isDir_run _ j e M1 Ej)).
  unfold e_is_dir. rewrite En. cbn [negb]. rewrite bind_assoc. rewrite <- E1 at 1. rewrite (bind_ok _ _ _ _ _ R2). cbv beta iota.
  rewrite (proj2 (Z.eqb_neq (H + 8) 0)) by lia. rewrite bind_ret. cbv beta iota. rewrite (proj2 (Z.eqb_neq (H + 8) 0)) by lia.
  rewrite (bind_ok _ _ _ _ _ (load64_ok (hstate m2 q s1) _ _ L0)). rewrite Lch.
  assert (Rp : printf (str "list_len: %d, list[0]: %d" ++ [10]) [AInt (Z.of_nat (length (c :: ch))); AInt id] (hstate m2 q s1) = Ok tt (hstate m2 q s2))
    by (unfold printf; change (tfp_format (str "list_len: %d, list[0]: %d" ++ [10])) with (tfp_loop (S (length (str "list_len: %d, list[0]: %d" ++ [10]))) (str "list_len: %d, list[0]: %d" ++ [10])); by rewrite Et).
  rewrite (bind_ok _ _ _ _ _ Rp), (bind_ok _ _ _ _ _ R3). change (hstate m3 H s2) with (with_console (k_console s1 ++ t) (hstate m3 H s1)). by rewrite E3.
Qed.

(** A file of the tree as the reading functions need it, with the first [n] bytes
    of a block of the heap as the buffer. *)
Lemma file_ready st j e name data n : 0 <= n -> n + 8 <= N -> loaded (k_mem st) a out -> k_rdfs st = g -> valid_range (k_mem st) H N ->
  l !! j = Some e -> e_node e = file name data ->
  exists loc, file_at st (Z.of_nat j) loc data /\ buffer_ok st (Z.of_nat j) loc data (H + 8) n
    /\ Forall (fun b => 0 <= b < 2 ^ 8) data /\ Z.of_nat (length data) < 2 ^ 63.
Proof using HG HT HA HH.
  intros Hn0 Hn Lm Er VH Ej En. destruct (mounted root out a HG HT image_bounds _ Lm) as [La _].
  destruct (ramdisk_layout root out _ a HG HT Lm) as [_ Len]. fold l in La, Len.
  destruct (sum_sizes_take _ _ _ Ej) as [S0 S1]. assert (Esz : e_size e = Z.of_nat (length data)) by (unfold e_size; by rewrite En).
  pose proof (lookup_lt_Some _ _ _ Ej) as Hj. pose proof image_bounds as IB. pose proof HA as [HA0 HA1]. destruct HH as [HH1 HH2].
  change KERNEL_HEAP_SIZE with N in HH2. assert (HN : N = 262144) by reflexivity.
  set (loc := a + 96 + 96 * Z.of_nat (length l) + sum_sizes (take j l)) in *. exists loc.
  assert (FA : file_at st (Z.of_nat j) loc data) by (eapply layout_file; [exact La|exact Er|exact Ej|exact En|lia|lia|lia]).
  split; [exact FA|]. split; [|split; [|lia]].
  - split; rewrite ?Er; cbn [first_file rdfs_start g]; [intros y Hy; apply VH; lia|lia|lia|lia|unfold loc; lia].
  - apply Forall_lookup. intros i b Eb. apply (ld8_range (k_mem st) (loc + Z.of_nat i)). by apply (fa_data _ _ _ _ FA).
Qed.

(** [rdfs_getattr] of a file: a regular file of its size. *)
Lemma getattr_file_run s ptr path name data st : mounted_fs s -> path_at s ptr path ->
  find_node root (components [] path) = Some (file name data) -> path_fits (im_of l) N (components [] path) ->
  exists m, rdfs_getattr ptr st s = Ok (0, Stat S_IFREG (Z.of_nat (length data))) (with_mem m s)
    /\ mounted_fs (with_mem m s) /\ heap_only (k_mem s) m.
Proof using HG HT HA HH.
  intros M P Ef PF. destruct (resolve_node s ptr path _ M P Ef PF) as (m & j & e & R & Ej & En & M1 & HO).
  exists m. split; [|done]. destruct (heap_ready _ M1) as [[_ F1 _] _]. destruct (type_run _ j e M1 Ej) as [Rd Rt].
  destruct (file_ready _ j e name data 1 ltac:(lia) ltac:(by compute) (mf_loaded _ M1) (mf_rdfs _ M1) (fr_valid _ _ _ _ F1) Ej En) as (loc & FA & _ & _ & _).
  destruct (data_location_run _ _ _ _ FA) as (_ & _ & Rz). rewrite (mf_rdfs _ M1) in Rz. cbn [first_file g] in Rz.
  unfold rdfs_getattr. rewrite (bind_ok _ _ _ _ _ R), (bind_ok _ _ _ _ _ Rd), (bind_ok _ _ _ _ _ Rt), (bind_ok _ _ _ _ _ Rz).
  unfold e_is_dir. by rewrite En.
Qed.

(** [main] prints a file. *)
Lemma report_file_run s ptr path name data : mounted_fs s -> path_at s ptr path ->
  find_node root (components [] path) = Some (file name data) -> path_fits (im_of l) N (components [] path) ->
  exists m, report_file ptr s = Ok tt (with_console (k_console s ++ data ++ [10]) (with_mem m s))
    /\ mounted_fs (with_mem m s) /\ heap_only (k_mem s) m.
Proof using HG HT HA HH.
  intros M P Ef PF. destruct (resolve_node s ptr path _ M P Ef PF) as (m1 & j & e & R & Ej & En & M1 & HO1).
  set (s1 := with_mem m1 s) in *. destruct (heap_ready s1 M1) as [[_ F1 _] E1]. change (k_mem s1) with m1 in *.
  assert (HN : N = 262144) by reflexivity. destruct HH as [HH1 HH2]. change LOW_MEMORY with 4194304 in HH1. change VIRTUAL_ADDRESS_START with 0xffff000000000000 in HH1.
  destruct (kmalloc_front s1 m1 H END_OF_HEAP N 1 F1) as (m2 & R2 & L2 & F2 & S2 & V2); [lia|lia|].
  set (q := H + (1 + 8)) in *. assert (HO2 : heap_only m1 m2) by (by split).
  assert (VH : valid_range m1 H N) by exact (fr_valid _ _ _ _ F1).
  assert (Lm : loaded m2 a out) by (eapply loaded_beyond; [exact (mf_loaded s1 M1)|exact S2|intros y Hy; eapply below_heap; [exact HA|exact Hy]]).
  set (st := hstate m2 q s1).
  destruct (file_ready st j e name data 1 ltac:(lia) ltac:(lia) Lm (mf_rdfs s1 M1)) as (loc & FA & BO & HB & Hd); [intros y Hy; cbn; rewrite V2; by apply VH|done|done|].
  destruct (print_loops (length data) st (rdfs_open_file_id (Z.of_nat j) 0) loc data (H + 8) FA HB) as (m3 & R3 & S3 & V3);
    [cbn; lia|exact BO|lia|done|]. cbn [index rdfs_open_file_id Z.to_nat drop] in R3. cbn [k_mem st hstate with_mem] in S3, V3.
  assert (F3 : front m3 q END_OF_HEAP (N - 9)) by (eapply front_keep; [exact F2|eapply same_on_weaken; [|exact S3]; unfold q; intros y Hy; lia|done]).
  set (s3 := with_console (k_console s ++ data ++ [10]) s1).
  destruct (kfree_front s3 m3 H END_OF_HEAP (N - 9) 1 F3) as (m4 & R4 & F4 & S4 & V4);
    [rewrite <- L2; apply ldn_ext; intros i Hi; apply S3; lia|lia|lia|intros y Hy; rewrite V3, V2; apply VH; lia|].
  replace (N - 9 + (1 + 8)) with N in * by lia.
  assert (HO4 : heap_only m1 m4).
  { eapply heap_only_trans; [exact HO2|]. split; [|congruence]. eapply same_on_trans; [|exact S4].
    eapply same_on_weaken; [|exact S3]. unfold beyond. intros y Hy. lia. }
  destruct (heap_back s1 m4 M1 F4 HO4) as [E4 M4]. exists m4. split; [|split; [exact M4|by eapply heap_only_trans]].
  unfold report_file, rdfs_open_file. rewrite bind_assoc, (bind_ok _ _ _ _ _ R), bind_ret. rewrite <- E1 at 1. rewrite (bind_ok _ _ _ _ _ R2).
  rewrite (bind_ok _ _ _ _ _ (loops_loop _ _ _ _ _ _ R3 ltac:(lia))).
  assert (Rp : printf [10] [] (with_console (k_console st ++ data) (with_mem m3 st)) = Ok tt (hstate m3 q s3))
    by (unfold printf; cbn [tfp_format]; unfold s3, st; cbn; by rewrite <- app_assoc).
  rewrite (bind_ok _ _ _ _ _ Rp), (R4 : kfree (H + 8) (hstate m3 q s3) = _). change (hstate m4 H s3) with (with_console (k_console s ++ data ++ [10]) (hstate m4 H s1)). by rewrite E4.
Qed.
End fs.

(** ** The first threads *)

Section start.
Context {O : PageOps} {Laws : PageLaws} (mmu : mem -> Z -> Z -> option Z) (ret_from_fork : Z).

(** The task table with the initial task and the threads created since. *)
Definition table_of (init : Z) (threads : list Z) : sched_globals :=
  SchedGlobals init (init :: threads ++ replicate (63 - length threads) 0) (1 + Z.of_nat (length threads)).

(** A scheduler with these tasks, the threads in pages that are no longer free. *)
Record spawned (s : kstate) (init : Z) (threads : list Z) (tc : task_struct) : Prop := {
  sp_table : k_sched s = table_of init threads;
  sp_init : 0 < init < LOW_MEMORY + VIRTUAL_ADDRESS_START /\ k_tasks s !! init = Some tc;
  sp_threads : Forall (fun p => exists j, page_index j /\ p = page_addr j + VIRTUAL_ADDRESS_START /\ j ∉ free_list s) threads;
  sp_inv : sched_inv s;
  sp_pages : pages_mapped s }.

Lemma spawn_run s init threads tc i r fn :
  let p := page_addr i + VIRTUAL_ADDRESS_START in
  spawned s init threads tc -> free_list s = i :: r -> (length threads < 62)%nat ->
  exists s' id, kernel_fork mmu ret_from_fork TASK_FLAGS_KERNEL_THREAD fn 0 s = Ok id s' /\ spawned s' init (threads ++ [p]) tc
    /\ free_list s' = r /\ k_console s' = k_console s /\ k_timers s' = k_timers s
    /\ k_tasks s' = <[p := new_thread ret_from_fork p TASK_FLAGS_KERNEL_THREAD (priority tc) fn 0]> (k_tasks s).
Proof.
  intros p [ST [SI0 SI] STh SInv SP] EF Hn. destruct (free_list_next s i r EF) as [Hi _]. pose proof Hi as Hi'. unfold page_index in Hi'.
  assert (ND : NoDup (free_list s)) by apply NoDup_filter, NoDup_seqZ. rewrite EF in ND. apply NoDup_cons in ND as [Ni ND].
  assert (Hp0 : LOW_MEMORY + VIRTUAL_ADDRESS_START <= p) by (unfold p; rewrite page_addr_eq; change LOW_MEMORY with 4194304; lia).
  assert (Hp : p ∉ task_array (k_sched s)).
  { rewrite ST. cbn [table_of task_array]. intros [E|[E|E]%elem_of_app]%elem_of_cons; [lia| |].
    - rewrite Forall_forall in STh. destruct (STh p E) as (j & _ & Ej & Nj). apply Nj. rewrite EF.
      assert (j = i) as -> by (apply page_addr_inj; unfold p in Ej; lia). left.
    - apply elem_of_replicate in E as [E _]. change LOW_MEMORY with 4194304 in Hp0. change VIRTUAL_ADDRESS_START with 0xffff000000000000 in Hp0. lia. }
  assert (Hroom : fork_room s).
  { unfold fork_room. rewrite ST. cbn [table_of task_array n_tasks]. split; [lia|]. replace (Z.to_nat (1 + Z.of_nat (length threads))) with (S (length threads)) by lia.
    change ((threads ++ replicate (63 - length threads) 0) !! length threads = Some 0). rewrite lookup_app_r, Nat.sub_diag by done. apply lookup_replicate. split; [done|lia]. }
  destruct (fork_thread_run mmu ret_from_fork s i r TASK_FLAGS_KERNEL_THREAD fn 0 tc SInv SP EF Hp Hroom) as (s' & R & Es & Et & I' & P' & F' & C' & M');
    [by rewrite ST|done|]. fold p in Es, Et.
  exists s', (n_tasks (k_sched s)). split; [exact R|]. split; [|done]. split; [|split; [done|]|..].
  - rewrite Es, ST. unfold table_of. cbn [current task_array n_tasks]. rewrite length_app. cbn [length].
    replace (Z.to_nat (1 + Z.of_nat (length threads))) with (S (length threads)) by lia. rewrite u8_small by lia. f_equal; [|lia].
    replace (63 - length threads)%nat with (S (63 - (length threads + 1))) by lia. cbn [replicate].
    change (init :: threads ++ ?l) with ((init :: threads) ++ l). rewrite list_insert_middle by done. by rewrite <- app_assoc.
  - rewrite Et, lookup_insert_ne; [done|lia].
  - apply Forall_app. rewrite F'. split; [|repeat constructor; by exists i].
    eapply Forall_impl; [exact STh|]. intros q (j & Pj & -> & Nj). exists j. split; [done|]. split; [done|]. intros Hj. apply Nj. rewrite EF. by right.
  - done.
  - done.
Qed.

(** What is linked into the kernel: the image of a tree with the configuration
    file, and the two paths. *)
Record linked (s : kstate) (root : node) (out : list Z) (a config_txt config : Z) (name data : list Z) : Prop := {
  lk_image : ramdisk root = Some out;
  lk_tree : tree_ok root;
  lk_place : in_kernel a (Z.of_nat (length out));
  lk_loaded : loaded (k_mem s) a out;
  lk_file : find_node root [str "config"; str "config.txt"] = Some (file name data);
  lk_fits : path_fits (im_of (entries root)) KERNEL_HEAP_SIZE [str "config"; str "config.txt"];
  lk_config_txt : path_at s config_txt (str "config/config.txt");
  lk_config : path_at s config (str "config/") }.

Lemma low_path s s' ptr path : low_kept s s' -> path_at s ptr path -> path_at s' ptr path.
Proof.
  intros [S _] [C K]. split; [|done]. eapply cstr_same; [exact S| |exact C]. destruct K as [K0 K1]. intros x Hx. cbn [length] in Hx. cbv beta. lia.
Qed.
Lemma low_loaded s s' a out : low_kept s s' -> in_kernel a (Z.of_nat (length out)) -> loaded (k_mem s) a out -> loaded (k_mem s') a out.
Proof. intros [S _] [K0 K1] L i b E. pose proof (lookup_lt_Some _ _ _ E). rewrite (S (a + Z.of_nat i)) by lia. by apply L. Qed.

(** What the reports print: the directory's line [t] and the file. *)
Definition fs_report (t data : list Z) : list Z :=
  str "Initialising fs..." ++ [10] ++ str "Failed to read directory." ++ [10] ++ t ++ data ++ [10].

(** The line about the directory. *)
Definition dir_line (root : node) (t : list Z) : Prop :=
  exists dname c ch id x, find_node root [str "config"] = Some (directory dname (c :: ch))
    /\ entries root !! Z.to_nat id = Some x /\ e_node x = c
    /\ tfp_format (str "list_len: %d, list[0]: %d" ++ [10]) [AInt (Z.of_nat (length (c :: ch))); AInt id] = inr t.

Lemma boot_fs_run s root out a H config_txt config name data :
  linked s root out a config_txt config name data -> heap_rep s FRESH_HEAP -> heap_start_adr (k_heap s) = H ->
  LOW_MEMORY + VIRTUAL_ADDRESS_START <= H /\ H + KERNEL_HEAP_SIZE < 2 ^ 64 - 1 ->
  exists m t, dir_line root t /\ m_valid m = m_valid (k_mem s)
    /\ boot_fs a config_txt config s = Ok tt (with_console (k_console s ++ fs_report t data)
         (with_rdfs (RdfsGlobals a (a + 96) (Z.of_nat (length (entries root)))) (with_mem m s))).
Proof.
  intros [HG HT HA HL Ef PF Pt Pc] HR Hs HH. set (l := entries root) in *.
  pose proof (image_bounds out a HA) as IB. destruct (ramdisk_layout root out _ a HG HT HL) as [La Len].
  set (s0 := with_console (k_console s ++ str "Initialising fs..." ++ [10]) s).
  set (s1 := with_rdfs (RdfsGlobals a (a + 96) (Z.of_nat (length l))) s0).
  assert (R1 : rdfs_init a s0 = Ok 0 s1) by (apply rdfs_init_run; [exact La|lia|pose proof (sum_sizes_nonneg (entries root)); lia]).
  assert (M1 : mounted_fs root out a H s1) by (split; [by destruct HR as [[]]; split|done|done|done]).
  assert (C2 : components [] (str "config/config.txt") = [str "config"; str "config.txt"]) by reflexivity.
  assert (C1 : components [] (str "config/") = [str "config"]) by reflexivity.
  assert (Ed : exists dname c ch, find_node root [str "config"] = Some (directory dname (c :: ch))).
  { cbn [find_node] in Ef |- *. destruct root as [|rn rch]; [done|]. destruct (list_find _ rch) as [[? x]|]; [|done]. cbn [mbind option_bind] in *.
    destruct x as [|dn [|c ch]]; [done|done|]. by exists dn, c, ch. }
  destruct Ed as (dname & c & ch & Ed).
  destruct (report_file_as_dir_run root out a H HG HT HA HH s1 config_txt (str "config/config.txt") 0 name data M1 Pt) as (m2 & R2 & M2 & K2); [by rewrite C2|by rewrite C2|].
  set (s2 := with_console (k_console s1 ++ str "Failed to read directory." ++ [10]) (with_mem m2 s1)) in *.
  assert (M2' : mounted_fs root out a H s2) by (by apply (mounted_console root out a H (with_mem m2 s1))).
  destruct (report_dir_run root out a H HG HT HA HH s2 config (str "config/") 0 dname c ch M2') as (m3 & id & t & Et & (x & Ex & En) & R3 & M3 & K3);
    [apply (path_at_kept H HH s1); [exact K2|exact Pc]|by rewrite C1|rewrite C1; apply Forall_cons in PF as [PF _]; apply Forall_cons; by split; [exact PF|apply Forall_nil]|done|].
  set (s3 := with_console (k_console s2 ++ t) (with_mem m3 s2)) in *.
  assert (M3' : mounted_fs root out a H s3) by (by apply (mounted_console root out a H (with_mem m3 s2))).
  assert (K23 : heap_only H (k_mem s1) m3) by (by eapply heap_only_trans).
  destruct (report_file_run root out a H HG HT HA HH s3 config_txt (str "config/config.txt") name data M3') as (m4 & R4 & _ & K4);
    [apply (path_at_kept H HH s1); [exact K23|exact Pt]|by rewrite C2|by rewrite C2|].
  exists m4, t. split; [by exists dname, c, ch, id, x|]. split; [transitivity (m_valid m3); [exact (proj2 K4)|exact (proj2 K23)]|].
  assert (R0 : printf (str "Initialising fs..." ++ [10]) [] s = Ok tt s0) by reflexivity.
  unfold boot_fs. rewrite (bind_ok _ _ _ _ _ R0), (bind_ok _ _ _ _ _ R1), (bind_ok _ _ _ _ _ R2), (bind_ok _ _ _ _ _ R3), R4.
  f_equal. unfold s3, s2, s1, s0, fs_report. cbn [k_console with_console with_mem with_rdfs]. rewrite <- !app_assoc. reflexivity.
Qed.

(** What [boot] prints. *)
Definition boot_report (t data : list Z) : list Z :=
  str "allocating kernel heap..." ++ [10] ++ fs_report t data ++ str "Creating initial processes..." ++ [10].

(** The kernel's threads as created: one page each, in the order of the calls. *)
Definition thread (prio i fn : Z) : Z * task_struct :=
  let p := page_addr i + VIRTUAL_ADDRESS_START in (p, new_thread ret_from_fork p TASK_FLAGS_KERNEL_THREAD prio fn 0).

Lemma boot_run s root out a config_txt config name data init tc i j0 j1 j2 r k0 k1 k2 :
  linked s root out a config_txt config name data -> spawned s init [] tc -> kheap_size (k_heap s) = KERNEL_HEAP_SIZE ->
  free_list s = seqZ i KERNEL_HEAP_SIZE_PAGES ++ j0 :: j1 :: j2 :: r ->
  exists s' t, dir_line root t
    /\ boot mmu ret_from_fork a config_txt config k0 k1 k2 s = Ok tt s'
    /\ k_console s' = k_console s ++ boot_report t data /\ k_timers s' = k_timers s
    /\ free_list s' = r /\ spawned s' init (fst <$> [thread (priority tc) j0 k0; thread (priority tc) j1 k1; thread (priority tc) j2 k2]) tc
    /\ Forall (fun '(p, th) => k_tasks s' !! p = Some th) [thread (priority tc) j0 k0; thread (priority tc) j1 k1; thread (priority tc) j2 k2].
Proof.
  intros LK [ST SI STh SInv SP] EK EF.
  destruct (boot_heap_run s i _ SP EF EK) as (s1 & R1 & HR1 & Hs1 & EF1 & _ & SP1 & K1 & Hi & F1).
  assert (LK1 : linked s1 root out a config_txt config name data).
  { destruct LK as [HG HT HA HL Ef PF Pt Pc]. split; [done|done|done|by eapply low_loaded|done|done|by eapply low_path|by eapply low_path]. }
  destruct (page_index_value i Hi) as [B _]. unfold page_index in Hi.
  destruct (boot_fs_run s1 root out a (page_addr i + VIRTUAL_ADDRESS_START) config_txt config name data LK1 HR1 Hs1) as (m2 & t & DL & V2 & R2).
  { rewrite page_addr_eq in *. change LOW_MEMORY with 4194304. change KERNEL_HEAP_SIZE with 262144. change VIRTUAL_ADDRESS_START with 0xffff000000000000. lia. }
  set (s2 := with_console (k_console s1 ++ fs_report t data) (with_rdfs (RdfsGlobals a (a + 96) (Z.of_nat (length (entries root)))) (with_mem m2 s1))) in *.
  set (s3 := with_console (k_console s2 ++ str "Creating initial processes..." ++ [10]) s2).
  assert (R3 : printf (str "Creating initial processes..." ++ [10]) [] s2 = Ok tt s3) by reflexivity.
  assert (EF3 : free_list s3 = j0 :: j1 :: j2 :: r) by (by rewrite (free_list_ext s3 s1)).
  assert (Ec3 : k_console s3 = k_console s ++ boot_report t data).
  { unfold s3, s2, boot_report. cbn [k_console with_console with_mem with_rdfs]. rewrite F1. cbn [k_console with_console with_mem with_heap with_pages].
    rewrite <- !app_assoc. reflexivity. }
  assert (S3 : spawned s3 init [] tc).
  { split; [change (k_sched s3) with (k_sched s1); by rewrite F1|change (k_tasks s3) with (k_tasks s1); by rewrite F1|constructor| |].
    - apply (sched_inv_same s); [by change (k_sched s3) with (k_sched s1); rewrite F1|by change (k_tasks s3) with (k_tasks s1); rewrite F1|by change (k_timers s3) with (k_timers s1); rewrite F1|done].
    - intros k Hk y Hy. change (m_valid m2 y = true). rewrite V2. by apply (SP1 k Hk). }
  destruct (spawn_run s3 init [] tc j0 (j1 :: j2 :: r) k0 S3 EF3) as (s4 & id4 & R4 & S4 & EF4 & C4 & M4 & T4); [cbn; lia|].
  destruct (spawn_run s4 init _ tc j1 (j2 :: r) k1 S4 EF4) as (s5 & id5 & R5 & S5 & EF5 & C5 & M5 & T5); [cbn; lia|].
  destruct (spawn_run s5 init _ tc j2 r k2 S5 EF5) as (s6 & id6 & R6 & S6 & EF6 & C6 & M6 & T6); [cbn; lia|].
  exists s6, t. split; [exact DL|]. split.
  { unfold boot. rewrite (bind_ok _ _ _ _ _ R1), (bind_ok _ _ _ _ _ R2), (bind_ok _ _ _ _ _ R3), (bind_ok _ _ _ _ _ R4), (bind_ok _ _ _ _ _ R5), (bind_ok _ _ _ _ _ R6). done. }
  split; [by rewrite C6, C5, C4|]. split; [rewrite M6, M5, M4; change (k_timers s3) with (k_timers s1); by rewrite F1|]. split; [done|]. split; [exact S6|].
  assert (ND : NoDup (free_list s3)) by apply NoDup_filter, NoDup_seqZ. rewrite EF3 in ND.
  apply NoDup_cons in ND as [N0 ND]. apply NoDup_cons in ND as [N1 _]. 
  apply not_elem_of_cons in N0 as [N01 N0], N1 as [N12 _]. apply not_elem_of_cons in N0 as [N02 _].
  assert (Ne : forall x y, x <> y -> page_addr x + VIRTUAL_ADDRESS_START <> page_addr y + VIRTUAL_ADDRESS_START) by (intros x y Nx E; apply Nx, page_addr_inj; lia).
  rewrite T6, T5, T4. apply Forall_cons_2; [|apply Forall_cons_2; [|apply Forall_cons_2; [|constructor]]]; cbn [thread].
  - rewrite !lookup_insert_ne by (apply Ne; congruence). by rewrite lookup_insert_eq.
  - rewrite lookup_insert_ne by (apply Ne; congruence). by rewrite lookup_insert_eq.
  - by rewrite lookup_insert_eq.
Qed.

(** ** The first decision *)

(** The task table of the initial task and three threads. *)
Lemma three_threads_slot init p1 p2 p3 k : 0 <= k < 64 ->
  (init :: [p1; p2; p3] ++ replicate 60 0) !! Z.to_nat k = Some (if k =? 0 then init else if k =? 1 then p1 else if k =? 2 then p2 else if k =? 3 then p3 else 0).
Proof.
  intros Hk. destruct (Z.eqb_spec k 0) as [->|]; [done|]. destruct (Z.eqb_spec k 1) as [->|]; [done|].
  destruct (Z.eqb_spec k 2) as [->|]; [done|]. destruct (Z.eqb_spec k 3) as [->|]; [done|].
  replace (Z.to_nat k) with (4 + (Z.to_nat k - 4))%nat by lia. change (replicate 60 0 !! (Z.to_nat k - 4)%nat = Some 0).
  apply lookup_replicate. split; [done|lia].
Qed.

(** With the running task out of credit, the first of the threads wins. *)
Lemma first_thread_runs s init tc p1 p2 p3 t1 t2 t3 :
  spawned s init [p1; p2; p3] tc -> no_timers s ->
  k_tasks s !! p1 = Some t1 -> k_tasks s !! p2 = Some t2 -> k_tasks s !! p3 = Some t3 ->
  state t1 = TASK_STATE_RUNNING -> counter t2 <= counter t1 -> counter t3 <= counter t1 -> 0 < counter t1 ->
  exists s', schedule s = Ok tt s' /\ current (k_sched s') = p1 /\ sched_inv s' /\ task_array (k_sched s') = task_array (k_sched s)
    /\ c_regs (k_cpu s') = t_context t1 /\ k_console s' = k_console s.
Proof.
  intros [ST [SI0 SI] STh SInv SP] NT E1 E2 E3 R1 C2 C3 C1. rewrite (schedule_yields s SInv). set (z := yielded s).
  pose proof (yielded_inv s SInv : sched_inv z) as [W B P]. assert (Ez : k_sched z = table_of init [p1; p2; p3]) by exact ST.
  assert (Slot : forall k, 0 <= k < 64 -> task_array (k_sched z) !! Z.to_nat k = Some (if k =? 0 then init else if k =? 1 then p1 else if k =? 2 then p2 else if k =? 3 then p3 else 0)).
  { intros k Hk. rewrite Ez. by apply three_threads_slot. }
  assert (Ecur : current (k_sched z) = init) by (by rewrite Ez).
  assert (Task : forall k p t, 1 <= k < 4 -> task_array (k_sched z) !! Z.to_nat k = Some p -> k_tasks s !! p = Some t -> 0 < p /\ k_tasks z !! p = Some t).
  { intros k p t Hk Ek Et. assert (Hp : 0 < p).
    { assert (Hin : p ∈ [p1; p2; p3]).
      { rewrite Slot in Ek by lia. assert (k = 1 \/ k = 2 \/ k = 3) as [->|[->| ->]] by lia; injection Ek as <-; rewrite !elem_of_cons; auto. }
      rewrite Forall_forall in STh. destruct (STh p Hin) as (j & Pj & -> & _). unfold page_index in Pj. rewrite page_addr_eq.
      change VIRTUAL_ADDRESS_START with 0xffff000000000000. lia. }
    split; [done|]. assert (N : init <> p).
    { intros <-. pose proof (sw_inj _ W (Z.to_nat k) 0%nat init Ek (Slot 0 ltac:(lia)) ltac:(lia)). lia. }
    unfold z, yielded. cbn [k_tasks with_tasks]. rewrite lookup_alter_ne; [done|]. change (k_sched s) with (k_sched z). by rewrite Ecur. }
  assert (T0 : exists t0, k_tasks z !! init = Some t0 /\ counter t0 = 0).
  { unfold z, yielded. cbn [k_tasks with_tasks]. change (k_sched s) with (k_sched z). rewrite Ecur, lookup_alter_eq, SI. by eexists. }
  assert (T1 := Task 1 p1 t1 ltac:(lia) (Slot 1 ltac:(lia)) E1). assert (T2 := Task 2 p2 t2 ltac:(lia) (Slot 2 ltac:(lia)) E2). assert (T3 := Task 3 p3 t3 ltac:(lia) (Slot 3 ltac:(lia)) E3).
  assert (Cand1 : cand z 1 = Some (counter t1)) by (rewrite (cand_slot z 1 p1 t1); [by rewrite R1, bool_decide_eq_true_2|exact (Slot 1 ltac:(lia))|apply T1|apply T1]).
  assert (Le : forall k c, 0 <= k < 64 -> cand z k = Some c -> c <= counter t1 /\ (k = 0 -> c = 0) /\ k < 4).
  { intros k c Hk Ek. destruct (cand_inv _ _ _ Ek) as (p & t & Sl & Hp & Et & _ & Ec). rewrite Slot in Sl by lia.
    destruct (Z.eqb_spec k 0) as [->|]; [injection Sl as <-; destruct T0 as (t0 & E0 & C0); rewrite E0 in Et; injection Et as <-; lia|].
    destruct (Z.eqb_spec k 1) as [->|]; [injection Sl as <-; rewrite (proj2 T1) in Et; injection Et as <-; lia|].
    destruct (Z.eqb_spec k 2) as [->|]; [injection Sl as <-; rewrite (proj2 T2) in Et; injection Et as <-; lia|].
    destruct (Z.eqb_spec k 3) as [->|]; [injection Sl as <-; rewrite (proj2 T3) in Et; injection Et as <-; lia|]. congruence. }
  assert (Dec : forall k, cand (decision_state z 0) k = cand z k) by (intros k; by apply decision_cand0).
  destruct (_schedule_run z 0 W (after_check_progress z P)) as (r & i & c & p & Run & Hw & Hc & Hex & Ep & Hp); [lia|by rewrite (Slot 0 ltac:(lia)), Ecur|].
  destruct r as [|r]; [|exfalso; pose proof (Hex 0%nat ltac:(lia) 1 (counter t1) ltac:(lia)) as H; rewrite Dec in H; specialize (H Cand1); lia].
  destruct Hw as (k & Hk & -> & Ek & Hmax & Hfirst). rewrite Z.add_0_l, Z.mod_small in * by lia. rewrite Dec in Ek.
  pose proof (Le k c Hk Ek) as (L1 & L2 & L3).
  assert (k = 1) as ->.
  { destruct (Z.eq_dec k 0) as [->|]; [specialize (L2 eq_refl); lia|]. destruct (Z.eq_dec k 1) as [|N1]; [done|exfalso].
    pose proof (Hfirst 1 (counter t1) ltac:(lia)) as H. rewrite Z.add_0_l, Z.mod_small, Dec in H by lia. specialize (H Cand1). lia. }
  rewrite (Slot 1 ltac:(lia)) in Ep. injection Ep as <-. cbn [Z.eqb] in Hp. assert (Hin : p1 ∈ task_array (k_sched z)) by (eapply list_elem_of_lookup_2; exact (Slot 1 ltac:(lia))).
  exists (switched z 0 p1). split; [exact Run|]. split; [by apply switched_current|]. split; [by apply switched_inv; [|apply after_check_progress| | |]|].
  split; [by rewrite timers_array_switched|]. split; [|by rewrite (proj2 (switched_kept z 0 p1))].
  unfold switched. cbn [bump with_tasks k_cpu]. unfold do_switch. rewrite decision_sched, Ecur.
  assert (N : init <> p1) by (intros <-; pose proof (sw_inj _ W 1%nat 0%nat init (Slot 1 ltac:(lia)) (Slot 0 ltac:(lia)) ltac:(lia)); lia).
  rewrite (proj2 (Z.eqb_neq _ _) N). unfold decision_state. cbn [recharges].
  rewrite after_check_task, (bump_by 1 (current (k_sched z)) z), (proj2 T1). cbn [fmap option_fmap option_map with_cpu k_cpu c_regs].
  unfold wake. by destruct (woken _ _ _), (_ =? _).
Qed.
End start.

(** ** [main] *)

(** The kernel and its devices. *)
Definition on_kernel {H : Hardware} {A} (m : K A) : M (kstate * dstate H) A := fun w =>
  match m w.1 with Ok a s => Ok a (s, w.2) | Err e => Err e end.
Definition on_device {H : Hardware} {A} (m : M (dstate H) A) : M (kstate * dstate H) A := fun w =>
  match m w.2 with Ok a d => Ok a (w.1, d) | Err e => Err e end.

Lemma on_kernel_ok {H : Hardware} {A B} (m : K A) (k : A -> M (kstate * dstate H) B) s d a s' :
  m s = Ok a s' -> (x ← on_kernel m; k x) (s, d) = k a (s', d).
Proof. intros E. unfold mbind, M_bind, on_kernel. cbn [fst snd]. by rewrite E. Qed.
Lemma on_device_ok {H : Hardware} {A B} (m : M (dstate H) A) (k : A -> M (kstate * dstate H) B) s d a d' :
  m d = Ok a d' -> (x ← on_device m; k x) (s, d) = k a (s, d').
Proof. intros E. unfold mbind, M_bind, on_device. cbn [fst snd]. by rewrite E. Qed.

(** A C string. *)
Definition c_str (l : list Z) : list Z := l ++ [0].
Definition line1 : list Z := str "Kernel booting...".
Definition line2 : list Z := str "Removing identity mapping of 0x8000".
Definition line3 : list Z := str "Initialising framebuffer and printf".

Section main.
Context {H : Hardware} {O : PageOps} (mmu : mem -> Z -> Z -> option Z).
(** What the linker chooses: the mailbox buffer, [ret_from_fork], the image of the
    file system, the paths "/config/config.txt" and "/config/", the threads. *)
Context (mbox ret_from_fork ramdisk_start config_txt config kernel_task kernel_task1 kernel_task2 : Z).

(** [taken], [clo], [cntfrq], [cntpct]: the timer interrupts that arrive while the
    interrupts are set up and the counters read.  [init_printf] and the barriers
    store nothing the model has; the output of [printf] is the kernel's console.
    [schedule] is the first turn of the endless loop: it leaves [main] for the
    first thread. *)
Definition main (taken : list taken_irq) (clo cntfrq cntpct : Z) (d : device) : M (kstate * dstate H) device :=
  _ ← on_device uart_init;
  _ ← on_device (uart_transmitStr (c_str line1));
  _ ← on_device (uart_transmitStr (c_str line2));
  _ ← on_kernel (set_page_directory 0);
  _ ← on_device (uart_transmitStr (c_str line3));
  _ ← on_device (framebuffer_init mbox);
  d ← on_kernel (start_interrupts taken clo cntfrq cntpct d);
  _ ← on_kernel (boot mmu ret_from_fork ramdisk_start config_txt config kernel_task kernel_task1 kernel_task2);
  _ ← on_kernel schedule;
  mret d.
End main.

Section kernel_boots.
Context {H : Hardware} {U : MiniUart} {G : GpioBank} {mbox : Z} {V : VideoCore mbox} {B : Board mbox}.
Context {O : PageOps} {Laws : PageLaws} (mmu : mem -> Z -> Z -> option Z) (ret_from_fork : Z).

(** What the serial port sends before [printf] works. *)
Definition banner : list Z := line1 ++ [10; 13] ++ line2 ++ [10; 13] ++ line3 ++ [10; 13].

Lemma transmit_line d l : Uart.bytes l -> 0 ∉ l -> Z.of_nat (length l) < 2 ^ 31 ->
  exists d', uart_transmitStr (c_str l) d = Ok tt d' /\ wire (d_hw d') = wire (d_hw d) ++ l ++ [10; 13] /\ replies (d_hw d') = replies (d_hw d).
Proof.
  intros Hb Hn Hl. destruct (proj1 (proj2 (uart_transmits_messages (c_str l) 0 l [] d
    ltac:(apply Forall_app; split; [done|repeat constructor; done]) ltac:(unfold c_str; rewrite length_app; cbn; lia))) eq_refl Hn) as (d' & R & h & log & E & Ew & _).
  exists d'. split; [done|]. split; [by subst d'|]. exact (transmitStr_replies _ _ _ _ R).
Qed.

(** The devices are set up: nothing else is on the wire. *)
Lemma devices_run (s : kstate) d {A} (k : M (kstate * dstate H) A) : few_replies (d_hw d) -> mailbox_message mbox MBOX_CH_PROP ∉ replies (d_hw d) ->
  exists d', (_ ← on_device uart_init; _ ← on_device (uart_transmitStr (c_str line1)); _ ← on_device (uart_transmitStr (c_str line2));
     _ ← on_kernel (set_page_directory 0); _ ← on_device (uart_transmitStr (c_str line3)); _ ← on_device (framebuffer_init mbox); k) (s, d)
     = k (with_cpu (Cpu (c_regs (k_cpu s)) 0 (irq_masked (k_cpu s))) s, d')
    /\ wire (d_hw d') = wire (d_hw d) ++ banner.
Proof.
  intros Hl Hr. destruct (uart_init_configures d) as (h & cfg & R0 & _). set (d0 := with_bus h _ d) in R0.
  pose proof (uart_init_wire _ _ _ R0 : wire _ = wire _) as W0. pose proof (uart_init_replies _ _ _ R0 : replies _ = replies _) as P0.
  assert (L : forall l, forallb (fun c => (0 <? c) && (c <? 256)) l = true -> Uart.bytes l /\ 0 ∉ l).
  { intros l Hb. rewrite forallb_forall in Hb. split; [apply Forall_forall; intros x Hx|intros Hx]; apply list_elem_of_In in Hx; specialize (Hb _ Hx); unfold is_byte; lia. }
  destruct (L line1 eq_refl) as [B1 N1]. destruct (L line2 eq_refl) as [B2 N2]. destruct (L line3 eq_refl) as [B3 N3].
  destruct (transmit_line d0 line1 B1 N1) as (d1 & R1 & W1 & P1); [done|]. destruct (transmit_line d1 line2 B2 N2) as (d2 & R2 & W2 & P2); [done|].
  destruct (transmit_line d2 line3 B3 N3) as (d3 & R3 & W3 & P3); [done|].
  assert (P : replies (d_hw d3) = replies (d_hw d)) by congruence.
  destruct (framebuffer_init_run d3) as (ws & h4 & log & _ & R4); [unfold few_replies; by rewrite P|by rewrite P|].
  cbv zeta in R4. set (d4 := with_bus h4 log _) in R4. exists d4. split.
  - rewrite (on_device_ok _ _ _ _ _ _ R0), (on_device_ok _ _ _ _ _ _ R1), (on_device_ok _ _ _ _ _ _ R2).
    rewrite (on_kernel_ok (set_page_directory 0) _ s d2 tt _ eq_refl), (on_device_ok _ _ _ _ _ _ R3), (on_device_ok _ _ _ _ _ _ R4). done.
  - rewrite (framebuffer_init_wire _ _ _ R4 : wire (d_hw d4) = wire (d_hw d3)), W3, W2, W1, W0. unfold banner. by rewrite <- !app_assoc.
Qed.

(** The state in which [main] is entered: the initial task runs alone, the lowest
    64 free pages are consecutive. *)
Record main_entry (s : kstate) (init : Z) (tc : task_struct) (i j0 j1 j2 : Z) (r : list Z) : Prop := {
  me_tasks : spawned s init [] tc;
  me_priority : 1 <= priority tc;
  me_timers : no_timers s;
  me_heap : kheap_size (k_heap s) = KERNEL_HEAP_SIZE;
  me_pages : free_list s = seqZ i KERNEL_HEAP_SIZE_PAGES ++ j0 :: j1 :: j2 :: r;
  me_devices : devices_mapped s }.

Lemma frame_linked s s' root out a config_txt config name data : frame s s' ->
  linked s root out a config_txt config name data -> linked s' root out a config_txt config name data.
Proof.
  intros F [HG HT HA HL Ef PF Pt Pc].
  assert (LK : low_kept s s').
  { split; [|apply (fm_valid _ _ F)]. eapply same_on_weaken; [|apply (fm_low _ _ F)]. intros x. cbv beta.
    change LOW_MEMORY with 4194304. change VIRTUAL_ADDRESS_START with 0xffff000000000000. change PERIPHERAL_BASE_ADDR with 0xffff00003e000000. lia. }
  split; [done|done|done|by eapply low_loaded|done|done|by eapply low_path|by eapply low_path].
Qed.

(** The interrupts are started. *)
Lemma interrupts_phase s init tc i j0 j1 j2 r taken clo cntfrq cntpct dev :
  main_entry s init tc i j0 j1 j2 r -> Forall timer_irq taken ->
  exists dev' s' tc', start_interrupts taken clo cntfrq cntpct dev s = Ok dev' s' /\ frame s s' /\ spawned s' init [] tc' /\ priority tc' = priority tc
    /\ k_console s' = k_console s ++ start_lines ++ (if bool_decide (taken = []) then qemu_line else []).
Proof.
  intros [[ST [SI0 SI] _ SInv SP] Pr NT EK EF DM] HF.
  destruct (interrupts_started_run s taken clo cntfrq cntpct dev SInv DM HF) as (dev' & s' & R & _ & _ & _ & _ & I' & Cu & Ta & Co).
  { intros p Hp Hp0. rewrite ST in *. cbn [table_of task_array app length] in Hp. apply elem_of_cons in Hp as [->|Hp]; [done|].
    apply elem_of_replicate in Hp as [-> _]. done. }
  pose proof (keeps_start_interrupts taken clo cntfrq cntpct dev _ _ _ R) as F. pose proof (fm_priority _ _ init F) as Ep. rewrite SI in Ep.
  destruct (k_tasks s' !! init) as [tc'|] eqn:E'; [|done]. injection Ep as Ep. exists dev', s', tc'. split; [done|]. split; [done|].
  split; [|done]. split; [|done|constructor|done|].
  - rewrite ST in *. destruct (k_sched s') as [c ta n] eqn:Es. pose proof (fm_n_tasks _ _ F) as En. rewrite Es, ST in En. cbn in Cu, Ta, En. by subst.
  - intros k Hk x Hx. rewrite (fm_valid _ _ F). by apply (SP k Hk).
Qed.

(** The state [s2] in which the threads have been created, and the first decision,
    which gives [s']. *)
Record threads_created (s0 s2 s' : kstate) (init : Z) (tc : task_struct) (ths : list (Z * task_struct)) (r : list Z) : Prop := {
  tc_spawned : exists tc', spawned s2 init (fst <$> ths) tc' /\ priority tc' = priority tc
    /\ fd_table tc' = fd_table tc /\ stack tc' = stack tc /\ (state tc = TASK_STATE_RUNNING -> state tc' = TASK_STATE_RUNNING);
  tc_tasks : Forall (fun '(p, th) => k_tasks s2 !! p = Some th) ths;
  tc_timers : exists s1, frame s0 s1 /\ k_timers s2 = k_timers s1;
  tc_room : free_list s2 = r;
  tc_first : schedule s2 = Ok tt s' }.

Lemma kernel_boots_run s d root out a config_txt config name data init tc i j0 j1 j2 r taken clo cntfrq cntpct dev k0 k1 k2 :
  main_entry s init tc i j0 j1 j2 r -> linked s root out a config_txt config name data -> Forall timer_irq taken ->
  few_replies (d_hw d) -> mailbox_message mbox MBOX_CH_PROP ∉ replies (d_hw d) ->
  exists dev' s2 s' d' t, main mmu mbox ret_from_fork a config_txt config k0 k1 k2 taken clo cntfrq cntpct dev (s, d) = Ok dev' (s', d')
    /\ wire (d_hw d') = wire (d_hw d) ++ banner /\ dir_line root t
    /\ k_console s' = k_console s ++ start_lines ++ (if bool_decide (taken = []) then qemu_line else []) ++ boot_report t data
    /\ task_array (k_sched s') = init :: ((fun j => page_addr j + VIRTUAL_ADDRESS_START) <$> [j0; j1; j2]) ++ replicate 60 0
    /\ sched_inv s' /\ current (k_sched s') = page_addr j0 + VIRTUAL_ADDRESS_START
    /\ c_regs (k_cpu s') = t_context (thread ret_from_fork (priority tc) j0 k0).2
    /\ threads_created s s2 s' init tc [thread ret_from_fork (priority tc) j0 k0; thread ret_from_fork (priority tc) j1 k1; thread ret_from_fork (priority tc) j2 k2] r.
Proof.
  intros ME LK HF Hl Hr. set (s0 := with_cpu (Cpu (c_regs (k_cpu s)) 0 (irq_masked (k_cpu s))) s).
  assert (ME0 : main_entry s0 init tc i j0 j1 j2 r).
  { destruct ME as [[ST SI STh SInv SP] Pr NT EK EF DM]. constructor; [|exact Pr|exact NT|exact EK| |].
    - constructor; [exact ST|exact SI|constructor|by apply masked_inv|exact SP].
    - rewrite (free_list_ext s0 s) by reflexivity. exact EF.
    - apply (devices_mapped_valid s); [reflexivity|exact DM]. }
  destruct (interrupts_phase s0 init tc i j0 j1 j2 r taken clo cntfrq cntpct dev ME0 HF) as (dev' & s1 & tc' & R1 & F1 & S1 & Ep & C1).
  assert (LK1 : linked s1 root out a config_txt config name data) by (apply (frame_linked s0); [exact F1|]; by destruct LK; split).
  destruct ME0 as [_ Pr NT EK EF _].
  destruct (boot_run mmu ret_from_fork s1 root out a config_txt config name data init tc' i j0 j1 j2 r k0 k1 k2 LK1 S1) as (s2 & t & DL & R2 & C2 & M2 & EF2 & S2 & Th);
    [by rewrite (fm_heap _ _ F1)|rewrite (free_list_ext s1 s0); [exact EF|by rewrite (fm_pages _ _ F1)]|].
  rewrite Ep in S2, Th. apply Forall_cons in Th as [Th0 Th]. apply Forall_cons in Th as [Th1 Th]. apply Forall_cons in Th as [Th2 _].
  assert (NT2 : no_timers s2) by (unfold no_timers; rewrite M2; by apply (fm_timers _ _ F1)).
  destruct (first_thread_runs s2 init tc' _ _ _ _ _ _ S2 NT2 Th0 Th1 Th2) as (s3 & R3 & Cu & I3 & Ta & Cr & C3); [done|done|done|cbn; lia|].
  destruct (devices_run s d (d ← on_kernel (start_interrupts taken clo cntfrq cntpct dev);
    _ ← on_kernel (boot mmu ret_from_fork a config_txt config k0 k1 k2); _ ← on_kernel schedule; mret d) Hl Hr) as (d' & Rd & W).
  exists dev', s2, s3, d', t. split; [|split; [exact W|split; [exact DL|split; [|split; [|split; [done|split; [done|split; [done|]]]]]]]].
  - unfold main. rewrite Rd. fold s0. rewrite (on_kernel_ok _ _ _ _ _ _ R1), (on_kernel_ok _ _ _ _ _ _ R2), (on_kernel_ok _ _ _ _ _ _ R3). done.
  - rewrite C3, C2, C1. change (k_console s0) with (k_console s). by rewrite <- !app_assoc.
  - rewrite Ta. rewrite (sp_table _ _ _ _ S2). reflexivity.
  - pose proof (fm_kind _ _ F1 init) as Ki. destruct ME as [[_ [_ Ei] _ _ _] _ _ _ _ _]. destruct (sp_init _ _ _ _ S1) as [_ Ei'].
    change (k_tasks s0) with (k_tasks s) in Ki. rewrite Ei, Ei' in Ki. unfold kind in Ki. injection Ki as _ Kf Ks. split.
    + exists tc'. split; [exact S2|]. split; [exact Ep|]. split; [done|]. split; [done|]. intros Rt.
      destruct (fm_state _ _ F1 init tc Ei Rt) as (tc2 & E2 & R2'). congruence.
    + by repeat constructor.
    + exists s1. split; [|exact M2]. etrans; [|exact F1]. by apply frame_same.
    + exact EF2.
    + exact R3.
Qed.

End kernel_boots.

(** ** A board at boot *)

(** "/config/config.txt" and "/bin/app1.elf", linked at 0x200000 of the kernel's
    half, the two paths after them; every device and every page is mapped. *)
Definition boot_tree : node :=
  directory [] [directory (str "config") [file (str "config.txt") (str "log=1")]; directory (str "bin") [file (str "app1.elf") (str "ELF")]].
Definition boot_image : list Z := default [] (ramdisk boot_tree).
Definition image_start : Z := 0xffff000000200000.
Definition path_start : Z := 0xffff000000210000.
Definition dir_start : Z := 0xffff000000210100.
Definition board_kernel : kstate :=
  boot_state (fun a => (VIRTUAL_ADDRESS_START <=? a) && (a <? VIRTUAL_ADDRESS_START + 2 ^ 32))
    (list_to_map (place image_start boot_image ++ place path_start (str "/config/config.txt" ++ [0]) ++ place dir_start (str "/config/" ++ [0]))) 4096.

Lemma boot_tree_ok : tree_ok boot_tree.
Proof.
  repeat first [apply tree_ok_directory|apply tree_ok_file|constructor]; try (vm_compute; congruence); repeat constructor; vm_compute; congruence.
Qed.

Lemma board_kernel_linked : linked board_kernel boot_tree boot_image image_start path_start dir_start (str "config.txt") (str "log=1").
Proof.
  assert (Len : length boot_image = 616%nat) by (vm_compute; reflexivity).
  assert (P1 : loaded (k_mem board_kernel) path_start (str "/config/config.txt" ++ replicate 1 0)) by (apply loadedb_ok; vm_compute; reflexivity).
  assert (P2 : loaded (k_mem board_kernel) dir_start (str "/config/" ++ replicate 1 0)) by (apply loadedb_ok; vm_compute; reflexivity).
  constructor.
  - vm_compute. reflexivity.
  - apply boot_tree_ok.
  - rewrite Len. vm_compute. split; congruence.
  - apply loadedb_ok. vm_compute. reflexivity.
  - vm_compute. reflexivity.
  - apply path_fitsb_ok. vm_compute. reflexivity.
  - split; [apply (loaded_cstr _ _ _ 1 P1); [repeat constructor; lia|lia]|vm_compute; split; congruence].
  - split; [apply (loaded_cstr _ _ _ 1 P2); [repeat constructor; lia|lia]|vm_compute; split; congruence].
Qed.

Lemma board_kernel_pages : pages_mapped board_kernel.
Proof.
  intros i Hi x. unfold page_index in Hi. rewrite num_pages in Hi. rewrite page_addr_eq. change PAGE_SIZE with 4096.
  cbn [k_mem board_kernel boot_state m_valid]. unfold VIRTUAL_ADDRESS_START. intros Hx. apply andb_true_intro. split; lia.
Qed.

Lemma board_kernel_entry : main_entry board_kernel 4096 INIT_TASK 0 64 65 66 (seqZ 67 (MM_NUM_OF_PAGES - 67)).
Proof.
  constructor.
  - constructor; [reflexivity|split; [vm_compute; split; congruence|apply lookup_singleton_eq]|constructor|by apply boot_sched_inv|apply board_kernel_pages].
  - vm_compute. congruence.
  - repeat constructor.
  - reflexivity.
  - rewrite (free_list_ext board_kernel (pages_taken [])) by reflexivity. rewrite (free_at_boot 64) by (rewrite num_pages; lia).
    change KERNEL_HEAP_SIZE_PAGES with 64. apply (f_equal (app (seqZ 0 64))).
    assert (N : 67 <= MM_NUM_OF_PAGES) by (rewrite num_pages; lia). revert N. generalize MM_NUM_OF_PAGES. intros N HN.
    rewrite (seqZ_cons 64), (seqZ_cons (Z.succ 64)), (seqZ_cons (Z.succ (Z.succ 64))) by lia. by replace (Z.pred (Z.pred (Z.pred (N - 64)))) with (N - 67) by lia.
  - assert (D : forall b n, (VIRTUAL_ADDRESS_START <=? b) && (b + n <=? VIRTUAL_ADDRESS_START + 2 ^ 32) = true -> valid_range (k_mem board_kernel) b n).
    { intros b n Hb x Hx. cbn [k_mem board_kernel boot_state m_valid]. lia. }
    constructor; by apply D.
Qed.

