(* ===== verification/Lifetime.v ===== *)
(** * The kernel from [main] on

    [main] (Main.v) leaves a process table (Processes.v) of four ready processes:
    the initial task, whose loop only gives the processor away, and the three
    threads.  Whatever then happens is a history of that table. *)

From S2P Require Export Processes Main.

(** The task [main] runs in, INIT_TASK of include/scheduler/task.h. *)
Record init_process (s : kstate) (tc : task_struct) : Prop := {
  ip_state : state tc = TASK_STATE_RUNNING;
  ip_files : fd_table tc = FdTable 0 0;
  ip_stack : stack tc = 0;
  ip_timers : idle_timers s;
  ip_tick : 0 <= current_tick (k_timers s) < 2 ^ 64 }.

(** The initial task and the threads, of which the process [q] runs at tick [n]. *)
Definition four_ready (q : nat) (n : Z) (pages : nat) : table := Table [Ready; Ready; Ready; Ready] q n pages.

Section lifetime.
Context {O : PageOps} {Laws : PageLaws} (mmu : mem -> Z -> Z -> option Z) (ret_from_fork : Z).

Lemma idle_no_alarms l : Forall (fun x => x = OneHit 0 0) l -> filter Processes.busy l = [] /\ Forall (fun x => task_ptr x = 0 <-> finish_time x = 0) l.
Proof.
  induction 1 as [|x l -> _ [IH1 IH2]]; [done|]. split; [by rewrite filter_cons_False by (unfold Processes.busy; cbn; lia)|]. by constructor.
Qed.

(** The page of a thread is no longer free, and the initial task lies below the pages. *)
Lemma spawned_fresh s init ths tc : spawned s init ths tc -> Forall (fun i => page_addr i + VIRTUAL_ADDRESS_START ∉ task_array (k_sched s)) (free_list s).
Proof.
  intros [ST [SI0 _] STh _ _]. apply Forall_forall. intros i Hi Hin. rewrite ST in Hin. cbn [table_of task_array] in Hin.
  rewrite elem_of_cons, elem_of_app, elem_of_replicate in Hin. change LOW_MEMORY with 4194304 in *.
  assert (Hp : page_index i) by (apply list_elem_of_filter in Hi as [_ Hi]; apply elem_of_seqZ in Hi; unfold page_index; rewrite num_pages in *; lia).
  unfold page_index in Hp. destruct Hin as [E|[Hin|[E _]]].
  - rewrite page_addr_eq in E. lia.
  - rewrite Forall_forall in STh. destruct (STh _ Hin) as (j & _ & E & Nj). rewrite !page_addr_eq in E. apply Nj. by replace j with i by lia.
  - rewrite page_addr_eq in E. change VIRTUAL_ADDRESS_START with 0xffff000000000000 in E. lia.
Qed.

Lemma threads_refine s0 s2 s' init tc j0 j1 j2 k0 k1 k2 r : init_process s0 tc -> 1 <= priority tc ->
  threads_created s0 s2 s' init tc [thread ret_from_fork (priority tc) j0 k0; thread ret_from_fork (priority tc) j1 k1; thread ret_from_fork (priority tc) j2 k2] r ->
  refines s2 (four_ready 0 (current_tick (k_timers s2)) (length r)).
Proof.
  intros [Rt Ft St It Nt] Hp [(tc' & SP & Pr & Ff & Fs & Fr) Th (s1 & F & Et) Er _]. pose proof (spawned_fresh _ _ _ _ SP) as Fresh.
  destruct SP as [ST [SI0 SI] STh SInv SPg]. cbn [fst fmap list_fmap] in *.
  destruct (idle_no_alarms _ (fm_idle _ _ F It)) as [NB Id]. rewrite <- Et in NB, Id.
  apply Forall_cons in Th as [E1 Th]. apply Forall_cons in Th as [E2 Th]. apply Forall_cons in Th as [E3 _].
  split; [exact SInv|]. split; [|done]. split; cbn [four_ready procs running now room].
  - rewrite ST. cbn. lia.
  - intros i p Ei. rewrite ST in Ei. cbn [table_of task_array length app] in Ei.
    assert (Hth : Forall (fun p => p <> 0) [page_addr j0 + VIRTUAL_ADDRESS_START; page_addr j1 + VIRTUAL_ADDRESS_START; page_addr j2 + VIRTUAL_ADDRESS_START]).
    { eapply Forall_impl; [exact STh|]. cbv beta. intros x (j & Hj & -> & _). unfold page_index in Hj. rewrite page_addr_eq. change VIRTUAL_ADDRESS_START with 0xffff000000000000. lia. }
    repeat (apply Forall_cons in Hth as [? Hth]). cbn [fst thread] in Ei.
    destruct i as [|[|[|[|i]]]]; cbn in Ei; [injection Ei as <-; split; [lia|cbn; lia]..|].
    change (replicate 60 0 !! i = Some p) in Ei. apply lookup_replicate in Ei as [-> _]. cbn. lia.
  - by rewrite ST.
  - intros i p st Ei Est. rewrite ST in Ei. cbn [table_of task_array length app fst thread] in Ei.
    destruct i as [|[|[|[|i]]]]; cbn [lookup list_lookup] in Ei, Est; [injection Ei as <-; injection Est as <-..|done].
    + exists tc'. rewrite Pr, Ff, Fs. by rewrite (Fr Rt).
    + eexists. split; [exact E1|]. by split.
    + eexists. split; [exact E2|]. by split.
    + eexists. split; [exact E3|]. by split.
  - rewrite NB, ST. done.
  - exact Id.
  - split; [done|]. rewrite Et. by apply (fm_tick _ _ F).
  - split; [exact SPg|]. by rewrite Er.
  - exact Fresh.
Qed.

(** The first decision gives the processor to process 1. *)
Lemma first_decision s2 s' n pages p : refines s2 (four_ready 0 n pages) -> schedule s2 = Ok tt s' ->
  task_array (k_sched s') !! 1%nat = Some p -> current (k_sched s') = p -> refines s' (four_ready 1 n pages).
Proof.
  intros (I & S & _) R E1 Ec. destruct (schedule_refines s2 _ I S) as (s1 & t' & R' & D & Rf & _). rewrite R in R'. injection R' as <-.
  destruct D as [q Eq]. pose proof Rf as (I' & S' & _). pose proof (sh_running _ _ S') as Ru. cbn [running] in Ru. destruct (sw_cur _ (si_wf _ I')) as [_ Hc].
  rewrite Ec in Ru. assert (q = 1%nat) as -> by (apply (sw_inj _ (si_wf _ I') _ _ _ Ru E1); lia). exact Rf.
Qed.
End lifetime.

Section kernel_runs.
Context {H : Hardware} {U : MiniUart} {G : GpioBank} {mbox : Z} {V : VideoCore mbox} {B : Board mbox}.
Context {O : PageOps} {Laws : PageLaws} (mmu : mem -> Z -> Z -> option Z) (ret_from_fork : Z).

End kernel_runs.

