(* ===== verification/Loading.v ===== *)
(** * From a file of the ramdisk to a running program

    [kernel_task] (src/kernel.c) looks its program up in the ramdisk, reads it
    into a block of the heap and hands it to [elf_load].  The image built of a
    directory tree (RamdiskImage.v), the path resolution (Path.v), the heap and
    the loader (ElfTheorems.v) meet here: the page the task enters holds the bytes
    of the file in the tree. *)

From S2P Require Export Main ElfTheorems.

(** The bytes of a 64-bit AArch64 executable that starts at [entry] and whose first
    segment is the [size] bytes at [off]. *)
Definition field (data : list Z) (off n : nat) (v : Z) : Prop :=
  take n (drop off data) = le_bytes n v /\ 0 <= v < 256 ^ Z.of_nat n.
Record elf_file (data : list Z) (entry off size : Z) : Prop := {
  ef_magic : take 4 data = ELF_MAGIC_NUMBER;
  ef_class : field data 4 1 ELF_WORD_LEN_64;
  ef_machine : field data 18 2 ELF_MACHINE_AARCH64;
  ef_entry : field data 24 8 entry;
  ef_segment : exists phoff : nat, field data 32 8 (Z.of_nat phoff) /\ field data (phoff + 8) 8 off /\ field data (phoff + 32) 8 size
    /\ (phoff + 56 <= length data)%nat /\ off + size <= Z.of_nat (length data) }.

Lemma loaded_part m a data off n : loaded m a data -> loaded m (a + Z.of_nat off) (take n (drop off data)).
Proof.
  intros L i b E. rewrite lookup_take_Some, lookup_drop in E. destruct E as [E _]. specialize (L _ _ E). by rewrite Nat2Z.inj_add, Z.add_assoc in L.
Qed.
Lemma loaded_field m a data off n v : loaded m a data -> field data off n v -> ldn n m (a + Z.of_nat off) = Some v.
Proof. intros L [E Hv]. apply loaded_le; [|done]. rewrite <- E. by apply loaded_part. Qed.

(** The file in memory is an image for [elf_load]. *)
Lemma elf_file_image m a data entry off size : elf_file data entry off size -> loaded m a data ->
  0 <= a -> a + 64 < 2 ^ 64 -> a + Z.of_nat (length data) < 2 ^ 64 -> elf_image m a entry (a + off) size.
Proof.
  intros [Em Ec Ea Ee (ph & Ep & Eo & Es & Hp & Hs)] L H0 H1 H2. pose proof (proj2 Eo) as Ro. pose proof (proj2 Es) as Rs. split.
  - lia.
  - intros i b E. apply (L i b). rewrite <- Em, lookup_take_Some in E. apply E.
  - pose proof (loaded_field m a data 4 1 _ L Ec) as E. change (Z.of_nat 4) with 4 in E.
    change (ldn 1 m (a + 4)) with (b ← ld8 m (a + 4); Some (b + 2 ^ 8 * 0)) in E.
    destruct (ld8 m (a + 4)) as [b|]; cbn [mbind option_bind] in E; [injection E as E; f_equal; lia|discriminate].
  - exact (loaded_field m a data 18 2 _ L Ea).
  - exact (loaded_field m a data 24 8 _ L Ee).
  - exists (Z.of_nat ph), off. pose proof (loaded_field m a data 32 8 _ L Ep) as E1. pose proof (loaded_field m a data (ph + 8) 8 _ L Eo) as E2.
    pose proof (loaded_field m a data (ph + 32) 8 _ L Es) as E3. rewrite Nat2Z.inj_add, Z.add_assoc in E2, E3.
    split; [exact E1|]. split; [lia|]. split; [exact E2|]. split; [exact E3|]. split; [done|lia].
Qed.

Section loading.
Context {O : PageOps} {Laws : PageLaws}.
Context (root : node) (out : list Z) (a H : Z).
Context (HG : ramdisk root = Some out) (HT : tree_ok root) (HA : in_kernel a (Z.of_nat (length out))).
Context (HH : LOW_MEMORY + VIRTUAL_ADDRESS_START <= H /\ H + KERNEL_HEAP_SIZE < 2 ^ 64 - 1).
Abbreviation mounted := (mounted_fs root out a H).
Abbreviation heap_only := (heap_only H).
Abbreviation path_fits path := (path_fits (im_of (entries root)) KERNEL_HEAP_SIZE (components [] path)).

(** Up to [elf_load]: the file is in the first block of the heap, which is not given back. *)
Lemma file_read_run s ptr path name data : mounted s -> path_at s ptr path ->
  find_node root (components [] path) = Some (file name data) -> path_fits path ->
  0 < Z.of_nat (length data) -> Z.of_nat (length data) + 32 <= KERNEL_HEAP_SIZE ->
  exists m, loaded m (H + 8) data /\ heap_only (k_mem s) m
    /\ forall (K : Z -> K unit),
      (f ← rdfs_open_file ptr 0; match f with None => mret tt | Some elf_file =>
         elf_buf ← kmalloc (Z.of_nat (length data)); _ ← rdfs_read_file elf_file elf_buf (Z.of_nat (length data)); K elf_buf end) s
      = K (H + 8) (hstate m (H + (Z.of_nat (length data) + 8)) s).
Proof.
  intros M P Ef PF Hd Hn. destruct (resolve_node root out a H HG HT HA HH s ptr path _ M P Ef PF) as (m1 & j & e & R & Ej & En & M1 & HO1).
  set (s1 := with_mem m1 s) in *. destruct (heap_ready root out a H HG HT HA HH s1 M1) as [[_ F1 _] E1]. change (k_mem s1) with m1 in *.
  destruct (kmalloc_front s1 m1 H END_OF_HEAP KERNEL_HEAP_SIZE (Z.of_nat (length data)) F1) as (m2 & R2 & L2 & F2 & S2 & V2); [lia|lia|].
  set (q := H + (Z.of_nat (length data) + 8)) in *. set (st := hstate m2 q s1).
  assert (Lm : loaded m2 a out) by (eapply loaded_beyond; [exact (mf_loaded _ _ _ _ s1 M1)|exact S2|intros y Hy; eapply below_heap; [exact HH|exact HA|exact Hy]]).
  destruct (file_ready root out a H HG HT HA HH st j e name data (Z.of_nat (length data)) ltac:(lia) ltac:(lia) Lm (mf_rdfs _ _ _ _ s1 M1)) as (loc & FA & BO & HB & Hd63);
    [intros y Hy; cbn; rewrite V2; by apply (fr_valid _ _ _ _ F1)|done|done|].
  destruct (rdfs_read_run st (rdfs_open_file_id (Z.of_nat j) 0) loc data (H + 8) (Z.of_nat (length data)) FA ltac:(unfold rdfs_open_file_id; cbn [index]; lia) ltac:(lia) BO) as (m3 & R3 & W3).
  cbn [index rdfs_open_file_id Z.to_nat drop] in R3, W3. rewrite Nat2Z.id, firstn_all in R3, W3. destruct W3 as (C3 & S3 & V3). exists m3.
  split; [exact C3|]. split.
  - eapply heap_only_trans; [exact HO1|]. split; [|change (k_mem s1) with m1; cbn [k_mem st hstate with_mem] in V3; congruence].
    eapply same_on_trans; [exact S2|]. eapply same_on_weaken; [|exact S3]. change (drop (Z.to_nat 0) data) with data. addr_tac.
  - intros K. unfold rdfs_open_file. rewrite bind_assoc, (bind_ok _ _ _ _ _ R), bind_ret. fold s1. rewrite <- E1 at 1. rewrite (bind_ok _ _ _ _ _ R2).
    fold st. rewrite (bind_ok _ _ _ _ _ R3). reflexivity.
Qed.

Lemma in_first_page va : 0 <= va < 4096 -> va_indices va = va_indices 0.
Proof.
  intros Hv. assert (E : va / 2 ^ 12 = 0) by (apply Z.div_small; lia).
  assert (I : forall k, 12 <= k -> table_index k va = table_index k 0).
  { intros k Hk. unfold table_index. rewrite Z.shiftr_0_l, Z.shiftr_div_pow2 by lia. rewrite Z.div_small; [done|].
    pose proof (Z.pow_le_mono_r 2 12 k ltac:(lia) Hk). lia. }
  unfold va_indices. change PGD_SHIFT with 39. change PUD_SHIFT with 30. change PMD_SHIFT with 21. change PAGE_SHIFT with 12. by rewrite !I by lia.
Qed.

(** The task enters the [size] bytes at [off] of [data] at [entry]: they are page [q],
    the first of its space. *)
Record enters (s s' : kstate) (task q entry : Z) (data : list Z) (off size : Z) (rg : task_pt_regs) : Prop := {
  en_regs : k_regs s' = <[get_task_pt_regs task := PtRegs (regs rg) (2 * PAGE_SIZE) entry PSR_MODE_EL0t]> (k_regs s);
  en_tables : exists t', k_tasks s' !! task = Some t' /\ ttbr0 (k_cpu s') = pagedirectory (t_mm t');
  en_program o : 0 <= o < size -> translate s' task o = Some (page_addr q)
    /\ ld8 (k_mem s') (page_addr q + VIRTUAL_ADDRESS_START + o) = data !! Z.to_nat (off + o);
  en_sched : k_sched s' = k_sched s }.

(** A thread that may load a program: no tables yet, free pages, its saved registers,
    and the heap in pages that are not free. *)
Record loader (s : kstate) (t : task_struct) (q : Z) (r : list Z) (rg : task_pt_regs) : Prop := {
  ld_space : space_ok s ∅ (current (k_sched s)) t;
  ld_free : free_list s = q :: r /\ (4 <= length r)%nat;
  ld_regs : k_regs s !! get_task_pt_regs (current (k_sched s)) = Some rg;
  ld_heap : in_data_pages s ∅ H KERNEL_HEAP_SIZE }.

Lemma load_app_run s fmt ptr st path name data entry off size t q r rg : loader s t q r rg -> mounted s -> path_at s ptr path ->
  find_node root (components [] path) = Some (file name data) -> path_fits path -> elf_file data entry off size ->
  0 < size <= PAGE_SIZE -> Z.of_nat (length data) + 32 <= KERNEL_HEAP_SIZE ->
  well_typed fmt [AInt (Z.of_nat (length data)); AInt KERNEL_HEAP_SIZE] = true ->
  exists s', load_app fmt ptr st s = Ok tt s' /\ enters s s' (current (k_sched s)) q entry data off size rg.
Proof.
  intros [LS [LF Lr] LR LH] M P Ef PF EFile Hs Hn WT. pose proof (ef_segment _ _ _ _ EFile) as (ph & _ & [_ [Ho _]] & _ & Hph & Hoff). change PAGE_SIZE with 4096 in Hs.
  destruct (getattr_file_run root out a H HG HT HA HH s ptr path name data st M P Ef PF) as (m1 & R1 & M1 & K1). set (s1 := with_mem m1 s) in *.
  destruct (well_typed_runs fmt _ s1 WT) as [c R2]. set (s2 := with_console c s1) in *.
  destruct (file_read_run s2 ptr path name data (mounted_console _ _ _ _ _ c M1) (path_at_kept H HH s s2 ptr path K1 P) Ef PF) as (m3 & L3 & K3 & R3); [lia|exact Hn|].
  set (s3 := hstate m3 (H + (Z.of_nat (length data) + 8)) s2) in *. destruct HH as [HH1 HH2]. change KERNEL_HEAP_SIZE with 262144 in *.
  assert (I3 : elf_image (k_mem s3) (H + 8) entry (H + 8 + off) size).
  { apply (elf_file_image m3 (H + 8) data entry off size EFile L3); [|lia|lia]. change LOW_MEMORY with 4194304 in HH1. change VIRTUAL_ADDRESS_START with 0xffff000000000000 in HH1. lia. }
  assert (S3 : space_ok s3 ∅ (current (k_sched s3)) t).
  { destruct LS as [_ HM Et Ed Ek Eu]. split; [by split; intros p n; rewrite ?lookup_empty| |exact Et|exact Ed|exact Ek|exact Eu].
    intros k Hk y Hy. change (m_valid m3 y = true). rewrite (proj2 K3). change (m_valid m1 y = true). rewrite (proj2 K1). by apply (HM k Hk). }
  destruct (move_to_userspace_run s3 ∅ (current (k_sched s3)) t q r (H + 8 + off) size entry rg S3) as (s4 & t' & R4 & PL).
  { by rewrite (free_list_ext s3 s). }
  { exact Lr. }
  { exact LR. }
  { exact Hs. }
  1, 2: change LOW_MEMORY with 4194304 in HH1; change VIRTUAL_ADDRESS_START with 0xffff000000000000 in HH1; lia.
  { intros x Hx. destruct (LH x) as (j & o & Dj & Hj); [lia|]. exists j, o. split; [by apply (data_page_ext s)|exact Hj]. }
  exists s4. split.
  - unfold load_app. rewrite (bind_ok _ _ _ _ _ R1). cbn [st_size]. rewrite (bind_ok _ _ _ _ _ R2), R3.
    assert (RE : elf_load (H + 8) s3 = Ok 0 s4) by (rewrite (elf_header_run s3 _ _ _ _ I3); exact R4). by rewrite (bind_ok _ _ _ _ _ RE).
  - destruct PL as [P1 P2 P3 P4 P5 P6]. split; [exact P1|exists t'; split; [rewrite P2; apply lookup_insert_eq|exact P3]| |exact P6].
    intros o Hx. split; [change (current (k_sched s)) with (current (k_sched s3)); rewrite (P4 o), bool_decide_eq_true_2; [done|apply in_first_page; lia]|].
    rewrite (P5 o Hx). destruct (lookup_lt_is_Some_2 data (Z.to_nat (off + o)) ltac:(lia)) as [b Eb]. rewrite Eb, <- (L3 _ _ Eb).
    change (k_mem s3) with m3. f_equal. lia.
Qed.

(** The greeting before it. *)
Lemma greeted_run s greeting fmt ptr st path name data entry off size t q r rg : sched_wf s -> loader s t q r rg -> mounted s -> path_at s ptr path ->
  find_node root (components [] path) = Some (file name data) -> path_fits path -> elf_file data entry off size ->
  0 < size <= PAGE_SIZE -> Z.of_nat (length data) + 32 <= KERNEL_HEAP_SIZE ->
  (forall pid, well_typed greeting [AInt pid] = true) -> (forall n, well_typed fmt [AInt n; AInt KERNEL_HEAP_SIZE] = true) ->
  exists s', (pid ← get_pid; _ ← printf greeting [AInt pid]; load_app fmt ptr st) s = Ok tt s' /\ enters s s' (current (k_sched s)) q entry data off size rg.
Proof.
  intros W [[_ HM Et Ed Ek Eu] LF LR LH] M P Ef PF EFile Hs Hn G1 G2. destruct (sw_cur _ W) as [Hcur _].
  apply list_elem_of_lookup in Hcur as [i Ei]. pose proof (lookup_lt_Some _ _ _ Ei) as Hi. pose proof (sw_len _ W) as Hlen.
  rewrite (bind_ok _ _ _ _ _ (get_pid_run s (Z.of_nat i) W ltac:(lia) ltac:(by rewrite Nat2Z.id))).
  destruct (well_typed_runs greeting _ s (G1 (Z.of_nat i))) as [c R]. rewrite (bind_ok _ _ _ _ _ R).
  destruct (load_app_run (with_console c s) fmt ptr st path name data entry off size t q r rg) as (s' & R' & [E1 E2 E3 E4]); try eassumption.
  - split; [split; [by split; intros p n; rewrite ?lookup_empty|exact HM|exact Et|exact Ed|exact Ek|exact Eu]|rewrite (free_list_ext _ s); [exact LF|reflexivity]|exact LR|].
    intros x Hx. destruct (LH x Hx) as (j & o & Dj & Hj). exists j, o. split; [by apply (data_page_ext s)|exact Hj].
  - by apply mounted_console.
  - by apply G2.
  - exists s'. by split.
Qed.

End loading.

(** ** An executable in the ramdisk *)

(** "/bin/app1.elf" of one instruction at 120, the file system mounted in the state
    that [boot_heap] leaves. *)
Definition app_bytes : list Z :=
  [0x7F; 0x45; 0x4C; 0x46; 2] ++ replicate 13 0 ++ [0xB7] ++ replicate 13 0 ++ [64] ++ replicate 39 0 ++ [120] ++ replicate 23 0 ++ [4]
    ++ replicate 23 0 ++ [0x1F; 0x20; 0x03; 0xD5].
Definition app_tree : node := directory [] [directory (str "bin") [file (str "app1.elf") app_bytes]].
Definition app_image : list Z := default [] (ramdisk app_tree).
Definition app_kernel : kstate :=
  with_rdfs (RdfsGlobals image_start (image_start + 96) 3)
    (with_regs {[get_task_pt_regs 4096 := zero_regs]}
      (boot_state (fun a => (VIRTUAL_ADDRESS_START <=? a) && (a <? VIRTUAL_ADDRESS_START + 2 ^ 32))
        (list_to_map (place image_start app_image ++ place path_start (str "/bin/app1.elf" ++ [0]))) 4096)).

Lemma app_bytes_elf : elf_file app_bytes 0 120 4.
Proof.
  split; [reflexivity|split; [reflexivity|by compute]..|]. exists 64%nat. repeat split; try reflexivity; try (by compute). cbn. lia.
Qed.
Lemma app_tree_ok : tree_ok app_tree.
Proof.
  repeat first [apply tree_ok_directory|apply tree_ok_file|constructor]; try (vm_compute; congruence); repeat constructor; vm_compute; congruence.
Qed.
Lemma app_kernel_pages : pages_mapped app_kernel.
Proof.
  intros i Hi x. unfold page_index in Hi. rewrite num_pages in Hi. rewrite page_addr_eq. change PAGE_SIZE with 4096.
  cbn [k_mem app_kernel with_regs with_rdfs boot_state m_valid]. unfold VIRTUAL_ADDRESS_START. intros Hx. apply andb_true_intro. split; lia.
Qed.

Lemma app_kernel_space s : pages_mapped s -> k_tasks s = k_tasks app_kernel -> space_ok s ∅ 4096 INIT_TASK.
Proof.
  intros HM E. split; [by split; intros p n; rewrite ?lookup_empty|exact HM|rewrite E; apply lookup_singleton_eq|by left|by compute|by compute].
Qed.

